(* ===== verification/_CoqProject ===== *)
-Q . S2P
Prelude.v
Sync.v
Bitmap.v
Pmm.v
Paging.v
Bytes.v
Heap.v
Alloc.v
Klist.v
Vfs.v
VfsTree.v
Archive.v
Keyboard.v
Device.v
Time.v
Elf.v
Desc.v
Font.v
Video.v
Screen.v
Sched.v
SchedFair.v
SchedSleep.v
SchedInv.v
SchedSpawn.v
SchedBoot.v
Task.v
Kernel.v
Syscall.v
SchedRun.v
UserApp.v
Exec.v
Boot.v
BootMem.v
Shell.v
Klibc.v
Except.v
Acpi.v
Start.v
