(* ===== verification/Prelude.v ===== *)
(** * HVOS: a verification development of the kernel and its shell

    HVOS is a small 64-bit x86 kernel in C, started by the Limine boot loader,
    with a RAM file system, a preemptive scheduler, an ELF loader and a shell.
    This development translates its C code into Rocq functions and proves what
    makes each part correct.  Paths below are relative to the repository.

    ** The parts and how they interact

    The physical page allocator hands out frames; paging takes its tables from
    it; the kernel heap grows through both; linked lists, files, threads and
    processes are blocks of the heap.  The boot archive fills the file system;
    the loader reads programs from it into new address spaces; the scheduler
    runs their threads; system calls tie a program to files, console, clock and
    memory.  The keyboard interrupt fills a ring buffer that the console reads;
    the console writes through the text output to the frame buffer.  The shell
    is a user program on top.

    ** Files

    - Prelude.v: fixed-width integers ([u8] ... [u64], [s32]), the outcome of C
      code ([outcome]: a result, a deliberate stop, a loop that does not end, an
      access outside its object), arrays with checked access, bit fields, the
      tactics and the lemmas all files share.
    - Sync.v (src/sync.c, include/kernel/sync.h): spin locks and
      interrupt-saving locks, as sequential code and as a step relation of
      competing processors.
    - Bitmap.v (kernel/mem/bitmap.c), Pmm.v (kernel/mem/pmm.c, memmap.c and the
      bitmap of mem.c): the page allocator and its set of free pages.
    - Paging.v (kernel/mem/mem.c, include/mem/paging.h): page tables in memory,
      [map_page], new address spaces; [walk] is the processor's translation.
    - Bytes.v: byte memory with loads, stores, memset, memcpy.
    - Heap.v (kernel/mem/heap.c, kmalloc.c): the free-list heap over byte memory.
    - Alloc.v: the class [Allocator], what the heap promises its clients (fresh,
      disjoint blocks), with the heap's lemmas behind it; instances with a frame
      property for clients that keep blocks of their own ([framed]) and with a
      part of the allocator's state that stays ([keeping], [heap_at]).
    - Klist.v (kernel/data/list.c): linked lists over any [Allocator].
    - Vfs.v (kernel/fs/vfs.c, ramfs.c, tar.c): objects in a shared store, path
      lookup, directories, files, the archive; VfsTree.v: the tree they form;
      Archive.v: the archive format and the tree an archive becomes.
    - Keyboard.v (kernel/drivers/keyboard.c), Device.v (time/pit.c, intr/pic.c,
      io_apic.c, local_apic.c, cpu/io.h, mmio.h), Time.v (time/rtc.c): drivers
      over the classes [Device] and [WideDevice], which stand for the hardware.
    - Elf.v (kernel/elf.c): loading a program.
    - Desc.v (kernel/gdt.c, intr/idt.c, intr/intr.c), Except.v (intr/except.c),
      Acpi.v (kernel/acpi.c): descriptor tables, faults, ACPI tables and
      the reboot.
    - Font.v (include/kernel/glyphs.h), Video.v (src/video.c), Screen.v: the text
      output, down to the bytes of the frame buffer.
    - Sched.v (kernel/multitasking, kernel/smp.c), SchedFair.v, SchedSleep.v:
      threads, processes, the scheduler and the sleep queue.  SchedInv.v and
      SchedRun.v: the invariant and the step relation of all scheduler events;
      SchedSpawn.v and SchedBoot.v: new programs and the first threads.
    - Task.v (multitasking/task.c): the older idle task and its stack frame.
    - Kernel.v (kernel/syscall.c, drivers/console.c, the rest of elf.c): the
      components put together; Syscall.v: what the system calls guarantee.
    - UserApp.v (kernel/user_app.c): the built-in user program.
    - Exec.v: [execute_elf] from the path of a file to a thread that is ready,
      through Vfs, Heap, Paging, Elf and Sched.
    - Boot.v (kernel/init.c, main.c, mem.c, smp.c, syscall.c): what runs once;
      BootMem.v: [init_mem], the address space the kernel runs in.
    - Shell.v (userland/shell.c, userland/init.c): the shell and the first
      program that starts it.
    - Klibc.v (old/klibc/string.c): the former string library.
    - Start.v (kernel/init.c, main.c): [kernel_initialize] and [kmain], the whole
      machine from the boot loader's answers to the first program.  The heap of
      Heap.v is the [Allocator] of every component there.

    ** How code becomes definitions

    A C function is a function of the state it uses, with the name it has in the
    source; state is a record per component, memory is a function from addresses
    to words or bytes, heap objects are entries of finite maps under their
    address.  Integers are [Z] with every wrap-around written out.  Failure is a
    value of [outcome]; a branch of the code that returns an error returns it.
    Hardware, the C library of the kernel (a submodule) and code that runs while
    a thread has given up the processor are parameters.

    Loops that do not count are given fuel.  It is chosen from the data: one
    round per page for the allocator, per block for the heap, per byte of a path
    for lookup, per 512-byte block for the archive, per page of a segment for
    the loader; the theorems show that it is enough, so [Hang] means that the
    code does not end.  Loops that wait for a device, an interrupt or another
    thread take their fuel as an argument.

    ** What is shown

    - Memory: the allocator refines a set of free pages ([pmm_refines_page_set]);
      initialisation frees the usable pages; [map_page] and [create_new_pml4]
      change exactly the translations they should; [init_mem] builds the kernel's
      address space, direct map and heap ([init_mem_correct]); blocks of [kmalloc] are disjoint, [kfree], [kcalloc] and [krealloc]
      keep the heap well formed and the data in place.
    - Concurrency: the lock excludes ([safe_lock_mutual_exclusion]); the scheduler
      picks the thread with the least run time and switches completely
      ([schedule_correct]); its invariant holds in every state that its events
      can reach ([scheduler_invariant]), every event finds its code defined
      ([events_are_handled]) and a dead thread stays dead; no thread starves ([no_starvation]); a sleep lasts as
      long as asked; a parent that waits gets its child's exit code.
    - Files: lookup walks the tree ([vfs_lookup_walks]); directories and files are
      added and nothing else changes; what is written is read back; the boot
      archive becomes the tree it was packed from ([vfs_init_loads]), and the
      loop over it ends on any bytes.
    - Programs: a loaded program has every byte where the file says; executing a
      path gives an address space, a process and a ready thread at the entry
      point ([execute_elf_correct]); system calls on every branch; the heap of a process grows by fresh pages.
    - The start: on a machine as the boot loader prepares it, memory, files, ACPI
      tables, descriptor tables, interrupts and scheduler come up on one heap and one
      set of page tables without a fault ([kernel_initialize_correct]), and [kmain]
      gets the first program of the archive ready to run ([kmain_starts_init]).  The
      only way they stop is an allocation that finds no memory.
    - Devices: the keyboard buffer is a queue; the clock is read consistently;
      gates and segments hold what the processor needs.
    - Text: printing draws the text pixel for pixel ([print_refines_tty]) and a
      program's write appears on the screen ([sys_write_appears]); the shell
      behaves as a plain line editor on every input ([shell_refines_session]).
    - Where the code does not do what it means to, a theorem says what it does
      instead: short sleeps that stall the queue, absolute paths that cannot be
      opened, a size that wraps, characters that lose their left edge.

    ** Not modelled

    Assembly beyond the lock primitives, the boot loader (limine-binary) and the
    macros of limine.h; functions that only print (print_kmemmap,
    debug_dump_page_entry) and the output of [printf], which belongs to the C
    library (what [kmain] prints is the record [boot_report]; it is not drawn);
    old/klibc/printf.c, which is commented out.  The allocator of file-system and
    scheduler objects is the abstract [Allocator].  Start.v puts the heap in its
    place and hands page tables and frames on from one step of the start to the
    next; inside one step, and after the start, the frames the heap takes while it
    grows are not traced to [w_vm], from which [execute_elf] and the system calls
    take theirs.  Interrupts do not arrive in the
    middle of a function except where a component models it (Sync.v, the
    keyboard, the waits of the console). *)

From stdpp Require Export base tactics option list gmap sets.
From Stdlib Require Export ZArith Lia.

#[global] Open Scope Z_scope.

(** ** Fixed-width integers *)

Definition u8 (z : Z) : Z := z mod 256.
Definition u16 (z : Z) : Z := z mod 65536.
Definition u32 (z : Z) : Z := z mod 4294967296.
Definition u64 (z : Z) : Z := z mod 18446744073709551616.

(** Two's complement reading of the low 32 and 64 bits. *)
Definition s32 (z : Z) : Z :=
  let u := u32 z in if u <? 2147483648 then u else u - 4294967296.
Definition s64 (z : Z) : Z :=
  let u := u64 z in if u <? 9223372036854775808 then u else u - 18446744073709551616.

(** [fits_u64 z]: [z] is a value a [uint64_t] can hold. *)
Definition fits_u64 (z : Z) : Prop := 0 <= z < 18446744073709551616.

(** ** Outcomes of C code

    [Ok a]: the function returns [a].  [Halt]: the kernel stops on purpose
    (a panic path ending in [for (;;) hlt]).  [Hang]: a loop that no longer
    terminates (a spin on a lock nobody can release, or a loop that exhausted
    the fuel of the model).  [Fault]: an access outside the object it is meant
    for (null pointer, index out of range). *)
Inductive outcome (A : Type) : Type :=
| Ok (a : A)
| Halt
| Hang
| Fault.
Arguments Ok {A} _.
Arguments Halt {A}.
Arguments Hang {A}.
Arguments Fault {A}.

#[export] Instance outcome_ret : MRet outcome := fun A a => Ok a.
#[export] Instance outcome_bind : MBind outcome := fun A B f o =>
  match o with Ok a => f a | Halt => Halt | Hang => Hang | Fault => Fault end.
#[export] Instance outcome_fmap : FMap outcome := fun A B f o =>
  match o with Ok a => Ok (f a) | Halt => Halt | Hang => Hang | Fault => Fault end.

(** Dereferencing something that may not be there. *)
Definition deref {A} (o : option A) : outcome A :=
  match o with Some a => Ok a | None => Fault end.

Definition is_ok {A} (o : outcome A) : bool :=
  match o with Ok _ => true | _ => false end.

(** ** Bit fields

    [w] bits of a word from bit [o] on, as a C bit-field reads and writes
    them: the store keeps every other bit and the low [w] bits of the value. *)
Definition bf_get (e o w : Z) : Z := Z.land (Z.shiftr e o) (Z.ones w).
Definition bf_set (e o w v : Z) : Z :=
  Z.lor (Z.land e (Z.lnot (Z.shiftl (Z.ones w) o))) (Z.shiftl (Z.land v (Z.ones w)) o).

(** A C array of bytes or words read and written at a [Z] index. *)
Definition arr_get {A} (l : list A) (i : Z) : outcome A :=
  if i <? 0 then Fault else deref (l !! Z.to_nat i).
Definition arr_set {A} (l : list A) (i : Z) (x : A) : outcome (list A) :=
  if (0 <=? i) && (i <? Z.of_nat (length l)) then Ok (<[Z.to_nat i := x]> l) else Fault.

(** ** Automation *)

Ltac zdiv := Z.div_mod_to_equations; lia.

(** Inverts hypotheses that say a monadic computation returned. *)
Ltac ok_step :=
  match goal with
  | H : Ok _ = Ok _ |- _ => injection H as H; try subst
  | H : Halt = Ok _ |- _ => discriminate H
  | H : Hang = Ok _ |- _ => discriminate H
  | H : Fault = Ok _ |- _ => discriminate H
  | H : (?o ≫= _) = Ok _ |- _ =>
      let E := fresh "E" in destruct o eqn:E; simpl in H; try discriminate H
  | H : (let '(_, _) := ?p in _) = Ok _ |- _ => destruct p; simpl in H
  | H : (if ?b then _ else _) = Ok _ |- _ =>
      let E := fresh "E" in destruct b eqn:E; try discriminate H
  end.
Ltac ok_inv := repeat ok_step.

(** Turns boolean comparisons into propositions. *)
Ltac bool_hyps :=
  repeat match goal with
  | H : (_ <? _) = true |- _ => apply Z.ltb_lt in H
  | H : (_ <? _) = false |- _ => apply Z.ltb_ge in H
  | H : (_ <=? _) = true |- _ => apply Z.leb_le in H
  | H : (_ <=? _) = false |- _ => apply Z.leb_gt in H
  | H : (_ >=? _) = _ |- _ => rewrite Z.geb_leb in H
  | H : (_ >? _) = _ |- _ => rewrite Z.gtb_ltb in H
  | H : (_ =? _) = true |- _ => apply Z.eqb_eq in H
  | H : (_ =? _) = false |- _ => apply Z.eqb_neq in H
  | H : (_ && _) = true |- _ => apply andb_true_iff in H as [? ?]
  | H : (_ || _) = false |- _ => apply orb_false_iff in H as [? ?]
  | H : negb _ = true |- _ => apply negb_true_iff in H
  | H : negb _ = false |- _ => apply negb_false_iff in H
  end.

(** Splits on every comparison of the goal. *)
Ltac zcases :=
  repeat match goal with
  | |- context [?a <? ?b] => destruct (Z.ltb_spec a b); try lia
  | |- context [?a <=? ?b] => destruct (Z.leb_spec a b); try lia
  | |- context [?a =? ?b] => destruct (Z.eqb_spec a b); try lia
  end; simpl; subst; try lia.

(** Reduces a bind whose first computation is known, and nothing else. *)
Ltac mred := cbn [mbind outcome_bind fmap outcome_fmap deref].

Create HintDb hvos discriminated.

(** ** Facts on fixed-width integers *)

Lemma u64_small z : fits_u64 z -> u64 z = z.
Proof. unfold fits_u64, u64. intros. by apply Z.mod_small. Qed.

Lemma u64_fits z : fits_u64 (u64 z).
Proof. unfold fits_u64, u64. apply Z.mod_pos_bound. lia. Qed.

Lemma u64_add_l a b : u64 (u64 a + b) = u64 (a + b).
Proof. unfold u64. by rewrite Zplus_mod_idemp_l. Qed.

Lemma u64_sub_r a b : u64 (a - u64 b) = u64 (a - b).
Proof. unfold u64. by rewrite Zminus_mod_idemp_r. Qed.

Lemma u64_sub_l a b : u64 (u64 a - b) = u64 (a - b).
Proof. unfold u64. by rewrite Zminus_mod_idemp_l. Qed.

Lemma u64_inj_add h a b :
  fits_u64 a -> fits_u64 b -> u64 (a + h) = u64 (b + h) -> a = b.
Proof. unfold fits_u64, u64. intros ?? ?. zdiv. Qed.

Lemma u8_range z : 0 <= u8 z < 256.
Proof. unfold u8. apply Z.mod_pos_bound. lia. Qed.

Lemma u8_small z : 0 <= z < 256 -> u8 z = z.
Proof. unfold u8. intros. by apply Z.mod_small. Qed.

#[export] Hint Resolve u64_fits u8_range : hvos.

(** ** Bits *)

Lemma bit_test_eqb b n :
  0 <= n -> (Z.land b (Z.shiftl 1 n) =? 0) = negb (Z.testbit b n).
Proof.
  intros Hn. rewrite Z.shiftl_1_l.
  destruct (Z.testbit b n) eqn:Hb; simpl.
  - apply Z.eqb_neq. intros H0.
    assert (Z.testbit (Z.land b (2 ^ n)) n = false) as H by (by rewrite H0, Z.bits_0).
    by rewrite Z.land_spec, Z.pow2_bits_true, Hb in H.
  - apply Z.eqb_eq, Z.bits_inj'. intros m Hm.
    rewrite Z.land_spec, Z.bits_0, Z.pow2_bits_eqb by lia.
    destruct (Z.eqb_spec n m) as [->|]; [by rewrite Hb|apply andb_false_r].
Qed.

Lemma testbit_set_bit b n m :
  0 <= n -> Z.testbit (Z.lor b (Z.shiftl 1 n)) m = (n =? m) || Z.testbit b m.
Proof.
  intros Hn. rewrite Z.lor_spec, Z.shiftl_1_l, Z.pow2_bits_eqb by lia. apply orb_comm.
Qed.

Lemma testbit_clear_bit b n m :
  0 <= n -> 0 <= m ->
  Z.testbit (Z.land b (Z.lnot (Z.shiftl 1 n))) m = negb (n =? m) && Z.testbit b m.
Proof.
  intros Hn Hm. rewrite Z.land_spec, Z.lnot_spec, Z.shiftl_1_l, Z.pow2_bits_eqb by lia.
  apply andb_comm.
Qed.

Lemma testbit_u8 z m : 0 <= m < 8 -> Z.testbit (u8 z) m = Z.testbit z m.
Proof. intros. unfold u8. change 256 with (2 ^ 8). by rewrite Z.mod_pow2_bits_low by lia. Qed.

Lemma bits_below z n :
  0 <= n -> (forall m, n <= m -> Z.testbit z m = false) -> 0 <= z < 2 ^ n.
Proof.
  intros Hn Hm. replace z with (z mod 2 ^ n); [apply Z.mod_pos_bound; lia|].
  apply Z.bits_inj'. intros m ?. destruct (decide (m < n)).
  - by rewrite Z.mod_pow2_bits_low by lia.
  - rewrite Z.mod_pow2_bits_high by lia. symmetry. apply Hm. lia.
Qed.

Lemma bits_above z n m : 0 <= z < 2 ^ n -> 0 <= n <= m -> Z.testbit z m = false.
Proof.
  intros Hz Hm. rewrite <-(Z.mod_small z (2 ^ n)) by lia. apply Z.mod_pow2_bits_high. lia.
Qed.

Lemma testbit_u64 z m : 0 <= m < 64 -> Z.testbit (u64 z) m = Z.testbit z m.
Proof.
  intros. unfold u64. change 18446744073709551616 with (2 ^ 64).
  by rewrite Z.mod_pow2_bits_low by lia.
Qed.

Lemma testbit_ones k m : 0 <= k -> 0 <= m -> Z.testbit (Z.ones k) m = (m <? k).
Proof.
  intros. destruct (Z.ltb_spec m k); [apply Z.ones_spec_low|apply Z.ones_spec_high]; lia.
Qed.

(** [x & ~(2^k - 1)] on a 64-bit value rounds down to a multiple of [2^k]. *)
Lemma land_align_down x k :
  fits_u64 x -> 0 <= k <= 64 -> Z.land x (u64 (Z.lnot (Z.ones k))) = x / 2 ^ k * 2 ^ k.
Proof.
  intros Hx Hk. rewrite <-Z.shiftr_div_pow2, <-Z.shiftl_mul_pow2 by lia.
  apply Z.bits_inj'. intros m Hm. rewrite Z.land_spec, Z.shiftl_spec by lia.
  destruct (decide (m < 64)).
  - rewrite testbit_u64, Z.lnot_spec, testbit_ones by lia.
    destruct (Z.ltb_spec m k); simpl.
    + by rewrite andb_false_r, Z.testbit_neg_r by lia.
    + rewrite andb_true_r, Z.shiftr_spec by lia. f_equal. lia.
  - rewrite Z.shiftr_spec by lia. replace (m - k + k) with m by lia.
    by rewrite (bits_above x 64) by (unfold fits_u64 in Hx; lia).
Qed.

(** ** Bit-field lemmas *)

Lemma bf_get_div e o w : 0 <= o -> 0 <= w -> bf_get e o w = e / 2 ^ o mod 2 ^ w.
Proof. intros. unfold bf_get. by rewrite Z.land_ones, Z.shiftr_div_pow2 by lia. Qed.

Lemma bf_get_range e o w : 0 <= w -> 0 <= bf_get e o w < 2 ^ w.
Proof. intros. unfold bf_get. rewrite Z.land_ones by lia. apply Z.mod_pos_bound. lia. Qed.

Lemma testbit_bf_get e o w m :
  0 <= o -> 0 <= w -> 0 <= m ->
  Z.testbit (bf_get e o w) m = (m <? w) && Z.testbit e (m + o).
Proof.
  intros. unfold bf_get. rewrite Z.land_spec, Z.shiftr_spec, testbit_ones by lia. apply andb_comm.
Qed.

Lemma testbit_bf_set e o w v m :
  0 <= o -> 0 <= w -> 0 <= m ->
  Z.testbit (bf_set e o w v) m
  = if (o <=? m) && (m <? o + w) then Z.testbit v (m - o) else Z.testbit e m.
Proof.
  intros. unfold bf_set.
  rewrite Z.lor_spec, Z.land_spec, Z.lnot_spec, !Z.shiftl_spec by lia.
  destruct (Z.leb_spec o m); simpl.
  - rewrite Z.land_spec, testbit_ones by lia.
    destruct (Z.ltb_spec m (o + w)), (Z.ltb_spec (m - o) w); simpl; try lia;
      rewrite ?andb_false_r, ?andb_true_r, ?orb_false_r, ?orb_false_l; done.
  - rewrite !(Z.testbit_neg_r _ (m - o)) by lia. simpl. by rewrite andb_true_r, orb_false_r.
Qed.

Lemma bf_get_set_eq e o w v : 0 <= o -> 0 <= w -> bf_get (bf_set e o w v) o w = v mod 2 ^ w.
Proof.
  intros. rewrite <-Z.land_ones by lia. apply Z.bits_inj'. intros m Hm.
  rewrite testbit_bf_get, testbit_bf_set, Z.land_spec, testbit_ones by lia.
  destruct (Z.ltb_spec m w); simpl; [|by rewrite andb_false_r].
  destruct (Z.leb_spec o (m + o)), (Z.ltb_spec (m + o) (o + w)); simpl; try lia.
  by rewrite Z.add_simpl_r, andb_true_r.
Qed.

Lemma bf_get_set_ne e o w v o' w' :
  0 <= o -> 0 <= w -> 0 <= o' -> 0 <= w' -> o + w <= o' \/ o' + w' <= o ->
  bf_get (bf_set e o w v) o' w' = bf_get e o' w'.
Proof.
  intros. apply Z.bits_inj'. intros m Hm. rewrite !testbit_bf_get, testbit_bf_set by lia.
  destruct (Z.ltb_spec m w'); simpl; [|done].
  destruct (Z.leb_spec o (m + o')), (Z.ltb_spec (m + o') (o + w)); simpl; lia || done.
Qed.

(** Reads of bit-fields just written. *)
Ltac bf_simpl :=
  repeat first [rewrite bf_get_set_eq by lia | rewrite bf_get_set_ne by lia].

(** ** Arrays *)

Section Arrays.
Context {A : Type}.
Implicit Types (l : list A) (i j : Z) (x : A).

Lemma arr_get_ok l i : 0 <= i < Z.of_nat (length l) -> exists x, arr_get l i = Ok x.
Proof.
  intros Hi. unfold arr_get. destruct (Z.ltb_spec i 0); [lia|].
  destruct (lookup_lt_is_Some_2 l (Z.to_nat i)) as [x Hx]; [lia|]. rewrite Hx. by exists x.
Qed.

Lemma arr_get_Ok_iff l i x :
  arr_get l i = Ok x <-> 0 <= i /\ l !! Z.to_nat i = Some x.
Proof.
  unfold arr_get, deref. destruct (Z.ltb_spec i 0); [split; [done|lia]|].
  destruct (l !! Z.to_nat i); split; intros; naive_solver.
Qed.

Lemma arr_get_fault l i : Z.of_nat (length l) <= i -> arr_get l i = Fault.
Proof.
  intros. unfold arr_get. destruct (Z.ltb_spec i 0); [done|].
  by rewrite lookup_ge_None_2 by lia.
Qed.

Lemma arr_set_ok l i x :
  0 <= i < Z.of_nat (length l) -> arr_set l i x = Ok (<[Z.to_nat i := x]> l).
Proof.
  intros. unfold arr_set.
  destruct (Z.leb_spec 0 i), (Z.ltb_spec i (Z.of_nat (length l))); simpl; done || lia.
Qed.

Lemma arr_set_Ok_inv l i x l' :
  arr_set l i x = Ok l' -> 0 <= i < Z.of_nat (length l) /\ l' = <[Z.to_nat i := x]> l.
Proof. unfold arr_set. intros. ok_inv. bool_hyps. split; [lia|done]. Qed.
End Arrays.

Lemma fold_left_inv {A B} (P : B -> Prop) (g : B -> A -> B) l acc :
  P acc -> (forall b a, P b -> P (g b a)) -> P (fold_left g l acc).
Proof. intros Hacc Hg. revert acc Hacc. induction l; simpl; auto. Qed.
