(* ===== verification/Sync.v ===== *)
(** * Locks (src/sync.c, src/include/kernel/sync.h, src/kernel/arch/x86_64/sync.asm)

    The spin lock and the interrupt-saving lock.  The first half is the
    sequential meaning the other components use: one processor runs with
    interrupts masked, so a lock that is already taken is never released and
    the spin does not end ([Hang]).  The second half is the interleaving
    semantics of any number of processors competing for one lock, as a step
    relation; [safe_lock_runs] ties the two together. *)

From stdpp Require Import relations.
From S2P Require Import Prelude.

(** ** The processor's flags register *)

Record cpu := mk_cpu { rflags : Z }.

(** Bit 9 of RFLAGS, the interrupt flag that [cli] clears. *)
Definition IF_bit : Z := 512.

Definition interrupts_on (c : cpu) : bool := Z.testbit (rflags c) 9.

(** [pushfq; cli; pop]: returns the flags, leaves interrupts masked. *)
Definition save_and_disable_interrupt (c : cpu) : Z * cpu :=
  (rflags c, mk_cpu (Z.land (rflags c) (Z.lnot IF_bit))).

(** [push; popfq]. *)
Definition restore_interrupts (flags : Z) (c : cpu) : cpu := mk_cpu flags.

(** ** The locks, run by one processor *)

Record spinlock_t := mk_spinlock { spin_locked : Z }.
Record safe_lock_t := mk_safe_lock { locked : Z }.

(** [lock xchg]: the old value, and the value now in memory. *)
Definition atomic_exchange (v val : Z) : Z * Z := (v, val).

Definition spin_lock (l : spinlock_t) : outcome spinlock_t :=
  let '(old, now) := atomic_exchange (spin_locked l) 1 in
  if old =? 0 then Ok (mk_spinlock now) else Hang.

Definition spin_unlock (l : spinlock_t) : spinlock_t := mk_spinlock 0.

Definition safe_lock (l : safe_lock_t) (c : cpu) : outcome (Z * safe_lock_t * cpu) :=
  let '(flags, c) := save_and_disable_interrupt c in
  let '(old, now) := atomic_exchange (locked l) 1 in
  if old =? 0 then Ok (flags, mk_safe_lock now, c) else Hang.

Definition safe_unlock (l : safe_lock_t) (flags : Z) (c : cpu) : safe_lock_t * cpu :=
  (mk_safe_lock 0, restore_interrupts flags c).

(** ** Any number of processors

    Where a processor is in [safe_lock ... safe_unlock]: outside, in the
    exchange loop, holding the lock, or between the releasing store and the
    [popfq].  Each constructor after [Outside] carries the saved flags. *)
Inductive pc :=
| Outside
| Trying (flags : Z)
| Holding (flags : Z)
| Leaving (flags : Z).

Record proc := mk_proc { at_pc : pc; on_cpu : cpu }.

Record system := mk_system { lock_word : Z; procs : list proc }.

Definition holds (p : proc) : Prop := exists flags, at_pc p = Holding flags.

Inductive sys_step : system -> system -> Prop :=
| step_outside w ps i c c' :
    ps !! i = Some (mk_proc Outside c) ->
    sys_step (mk_system w ps) (mk_system w (<[i := mk_proc Outside c']> ps))
| step_cli w ps i c flags c' :
    ps !! i = Some (mk_proc Outside c) ->
    save_and_disable_interrupt c = (flags, c') ->
    sys_step (mk_system w ps) (mk_system w (<[i := mk_proc (Trying flags) c']> ps))
| step_exchange w ps i c flags old w' :
    ps !! i = Some (mk_proc (Trying flags) c) ->
    atomic_exchange w 1 = (old, w') ->
    sys_step (mk_system w ps)
      (mk_system w' (<[i := mk_proc (if old =? 0 then Holding flags else Trying flags) c]> ps))
| step_store w ps i c flags :
    ps !! i = Some (mk_proc (Holding flags) c) ->
    sys_step (mk_system w ps) (mk_system 0 (<[i := mk_proc (Leaving flags) c]> ps))
| step_popfq w ps i c flags :
    ps !! i = Some (mk_proc (Leaving flags) c) ->
    sys_step (mk_system w ps)
      (mk_system w (<[i := mk_proc Outside (restore_interrupts flags c)]> ps)).

(** Lock free, everybody outside. *)
Definition initial (s : system) : Prop :=
  lock_word s = 0 /\ Forall (fun p => at_pc p = Outside) (procs s).

Definition lock_inv (s : system) : Prop :=
  (forall i j p q, procs s !! i = Some p -> procs s !! j = Some q ->
     holds p -> holds q -> i = j)
  /\ (lock_word s = 0 <-> Forall (fun p => ~ holds p) (procs s))
  /\ Forall (fun p => at_pc p = Outside \/ interrupts_on (on_cpu p) = false) (procs s).

(** ** Theorems *)

Lemma cli_masks c flags c' :
  save_and_disable_interrupt c = (flags, c') -> interrupts_on c' = false.
Proof.
  unfold save_and_disable_interrupt, interrupts_on. intros [= <- <-]. cbn [rflags].
  change IF_bit with (Z.shiftl 1 9). by rewrite testbit_clear_bit by lia.
Qed.

Lemma safe_lock_free c l :
  locked l = 0 ->
  safe_lock l c
  = Ok (rflags c, mk_safe_lock 1, mk_cpu (Z.land (rflags c) (Z.lnot IF_bit))).
Proof. unfold safe_lock, save_and_disable_interrupt, atomic_exchange. by intros ->. Qed.

Lemma holds_Outside c : ~ holds (mk_proc Outside c).
Proof. by intros [? ?]. Qed.
Lemma holds_Trying f c : ~ holds (mk_proc (Trying f) c).
Proof. by intros [? ?]. Qed.
Lemma holds_Leaving f c : ~ holds (mk_proc (Leaving f) c).
Proof. by intros [? ?]. Qed.
Lemma holds_Holding f c : holds (mk_proc (Holding f) c).
Proof. by exists f. Qed.
#[local] Hint Resolve holds_Outside holds_Trying holds_Leaving holds_Holding : hvos.

(** Replacing a processor that does not hold the lock by another that does
    not leaves the invariant to the flags condition. *)
Lemma lock_inv_quiet w ps i p q :
  lock_inv (mk_system w ps) -> ps !! i = Some p -> ~ holds p -> ~ holds q ->
  (at_pc q = Outside \/ interrupts_on (on_cpu q) = false) ->
  lock_inv (mk_system w (<[i := q]> ps)).
Proof.
  intros (Huniq & Hfree & Hif) Hi Hp Hq Hflags; simpl in *. split_and!; simpl.
  - intros j k pj pk Hj Hk.
    apply list_lookup_insert_Some in Hj as [(-> & <- & _)|[Hij Hj]]; [by intros|].
    apply list_lookup_insert_Some in Hk as [(-> & <- & _)|[Hik Hk]]; [by intros|].
    by eapply Huniq.
  - rewrite Hfree. split; intros Hall; [by apply Forall_insert|].
    rewrite Forall_lookup in Hall |- *. intros j pj Hj.
    destruct (decide (i = j)) as [->|Hij]; [congruence|].
    apply (Hall j). by rewrite list_lookup_insert_ne.
  - by apply Forall_insert.
Qed.

Lemma lock_inv_acquire ps i f c :
  lock_inv (mk_system 0 ps) -> ps !! i = Some (mk_proc (Trying f) c) ->
  lock_inv (mk_system 1 (<[i := mk_proc (Holding f) c]> ps)).
Proof.
  intros (_ & Hfree & Hif) Hi; simpl in *.
  assert (Forall (fun p => ~ holds p) ps) as Hnone by by apply Hfree.
  rewrite Forall_lookup in Hnone. split_and!; simpl.
  - intros j k pj pk Hj Hk Hhj Hhk.
    apply list_lookup_insert_Some in Hj as [(-> & <- & _)|[Hij Hj]];
      [|destruct (Hnone j pj Hj Hhj)].
    apply list_lookup_insert_Some in Hk as [(-> & <- & _)|[Hik Hk]];
      [done|destruct (Hnone k pk Hk Hhk)].
  - split; [done|]. rewrite Forall_lookup. intros Hall. exfalso.
    apply (Hall i (mk_proc (Holding f) c)); [|auto with hvos].
    apply list_lookup_insert_eq. by apply lookup_lt_Some in Hi.
  - rewrite Forall_lookup in Hif.
    apply Forall_insert; [by apply Forall_lookup|].
    right. by destruct (Hif i _ Hi).
Qed.

Lemma lock_inv_release w ps i f c :
  lock_inv (mk_system w ps) -> ps !! i = Some (mk_proc (Holding f) c) ->
  lock_inv (mk_system 0 (<[i := mk_proc (Leaving f) c]> ps)).
Proof.
  intros (Huniq & Hfree & Hif) Hi; simpl in *.
  assert (Forall (fun p => ~ holds p) (<[i := mk_proc (Leaving f) c]> ps)) as Hnone.
  { rewrite Forall_lookup. intros j pj Hj Hh.
    apply list_lookup_insert_Some in Hj as [(-> & <- & _)|[Hij Hj]];
      [by apply holds_Leaving in Hh|].
    apply Hij. eapply Huniq; eauto with hvos. }
  split_and!; simpl.
  - intros j k pj pk Hj _ Hhj. rewrite Forall_lookup in Hnone. by apply Hnone in Hj.
  - done.
  - rewrite Forall_lookup in Hif.
    apply Forall_insert; [by apply Forall_lookup|].
    right. by destruct (Hif i _ Hi).
Qed.

Lemma lock_inv_step s s' : sys_step s s' -> lock_inv s -> lock_inv s'.
Proof.
  intros [w ps i c c' Hi|w ps i c f c' Hi Hs|w ps i c f old w' Hi Hx|w ps i c f Hi|w ps i c f Hi] Hinv.
  - eapply lock_inv_quiet; eauto with hvos.
  - eapply lock_inv_quiet; eauto with hvos. right. by eapply cli_masks.
  - injection Hx as <- <-. destruct (Z.eqb_spec w 0) as [->|Hw].
    { by apply lock_inv_acquire. }
    rewrite list_insert_id by done.
    destruct Hinv as (Huniq & Hfree & Hif); simpl in *.
    split; [done|split; [|done]]; simpl. split; [lia|]. intros Hall. by apply Hfree in Hall.
  - by eapply lock_inv_release.
  - eapply lock_inv_quiet; eauto with hvos.
Qed.

Lemma lock_inv_initial s : initial s -> lock_inv s.
Proof.
  intros [Hw Hout]. assert (Forall (fun p => ~ holds p) (procs s)) as Hnone.
  { eapply Forall_impl; [apply Hout|]. intros [? ?] Hp; simpl in Hp; subst. apply holds_Outside. }
  split_and!; [|done|].
  - intros i j p q Hi Hj Hp. rewrite Forall_lookup in Hnone. by apply Hnone in Hi.
  - eapply Forall_impl; [apply Hout|]. intros p Hp. by left.
Qed.

Lemma reachable_lock_inv s s' : initial s -> rtc sys_step s s' -> lock_inv s'.
Proof.
  intros Hinit Hsteps. apply lock_inv_initial in Hinit.
  induction Hsteps; eauto using lock_inv_step.
Qed.

(** C17: In every state reachable from a free lock with all processors
    outside, at most one processor is in the critical section guarded by
    [safe_lock]/[safe_unlock], the lock word is zero exactly when nobody is,
    and a processor that entered [safe_lock] and has not finished
    [safe_unlock] has its interrupts masked. *)
Theorem safe_lock_mutual_exclusion s s' :
  initial s -> rtc sys_step s s' ->
  (forall i j p q, procs s' !! i = Some p -> procs s' !! j = Some q ->
     holds p -> holds q -> i = j)
  /\ (lock_word s' = 0 <-> forall i p, procs s' !! i = Some p -> ~ holds p)
  /\ (forall i p, procs s' !! i = Some p -> at_pc p <> Outside ->
        interrupts_on (on_cpu p) = false).
Proof.
  intros Hinit Hsteps. destruct (reachable_lock_inv s s' Hinit Hsteps) as (H1 & H2 & H3).
  rewrite Forall_lookup in H2, H3. split_and!; [done|done|].
  intros i p Hi Hp. by destruct (H3 i p Hi).
Qed.

(** Two processors, the first inside the critical section and the second
    spinning. *)
Definition two_cpus : system :=
  mk_system 0 [mk_proc Outside (mk_cpu 514); mk_proc Outside (mk_cpu 2)].
Definition two_cpus_contended : system :=
  mk_system 1 [mk_proc (Holding 514) (mk_cpu 2); mk_proc (Trying 2) (mk_cpu 2)].

Lemma two_cpus_reach : rtc sys_step two_cpus two_cpus_contended.
Proof.
  eapply rtc_l; [by apply (step_cli _ _ 0%nat (mk_cpu 514))|]. simpl.
  eapply rtc_l; [by apply (step_cli _ _ 1%nat (mk_cpu 2))|]. simpl.
  eapply rtc_l; [by apply (step_exchange _ _ 0%nat (mk_cpu 2) 514)|]. simpl.
  eapply rtc_l; [by apply (step_exchange _ _ 1%nat (mk_cpu 2) 2)|]. simpl.
  apply rtc_refl.
Qed.

Lemma safe_lock_mutual_exclusion_witness :
  holds (mk_proc (Holding 514) (mk_cpu 2)) /\
  (forall j q, procs two_cpus_contended !! j = Some q -> holds q -> 0%nat = j).
Proof.
  assert (holds (mk_proc (Holding 514) (mk_cpu 2))) as Hh by (by exists 514).
  assert (initial two_cpus) as Hi by (split; [reflexivity|repeat constructor]).
  split; [exact Hh|]. intros j q Hj Hq.
  exact (proj1 (safe_lock_mutual_exclusion two_cpus two_cpus_contended Hi two_cpus_reach)
            0%nat j _ q eq_refl Hj Hh Hq).
Defined.

(** The sequential [safe_lock] and [safe_unlock] the other components
    call are runs of the interleaving system: a processor outside that finds
    the lock free reaches, by its own steps, exactly the lock word, saved
    flags and processor state [safe_lock] returns, and from there
    [safe_unlock] takes it back outside with the lock free and the flags it
    had on entry; on a taken lock [safe_lock] does not return. *)
Theorem safe_lock_runs w ps i c :
  ps !! i = Some (mk_proc Outside c) ->
  match safe_lock (mk_safe_lock w) c with
  | Ok (flags, l, c1) =>
      w = 0 /\
      rtc sys_step (mk_system w ps)
        (mk_system (locked l) (<[i := mk_proc (Holding flags) c1]> ps)) /\
      let '(l', c2) := safe_unlock l flags c1 in
      rtc sys_step (mk_system (locked l) (<[i := mk_proc (Holding flags) c1]> ps))
        (mk_system (locked l') (<[i := mk_proc Outside c2]> ps)) /\
      locked l' = 0 /\ c2 = c
  | Hang => w <> 0
  | _ => False
  end.
Proof.
  intros Hi. pose proof (lookup_lt_Some _ _ _ Hi) as Hlt.
  unfold safe_lock, save_and_disable_interrupt, atomic_exchange; simpl.
  destruct (Z.eqb_spec w 0) as [->|]; [|done]. split_and!; [done|..].
  - eapply rtc_l; [by eapply step_cli|]. eapply rtc_l.
    { eapply (step_exchange _ _ i); [by apply list_lookup_insert_eq|done]. }
    simpl. rewrite list_insert_insert_eq. apply rtc_refl.
  - eapply rtc_l.
    { eapply (step_store _ _ i). by apply list_lookup_insert_eq. }
    rewrite list_insert_insert_eq. eapply rtc_l.
    { eapply (step_popfq _ _ i). by apply list_lookup_insert_eq. }
    rewrite list_insert_insert_eq. apply rtc_refl.
  - done.
  - by destruct c.
Qed.

Lemma safe_lock_runs_witness :
  exists c1, safe_lock (mk_safe_lock 0) (mk_cpu 514) = Ok (514, mk_safe_lock 1, c1) /\
      rtc sys_step two_cpus (mk_system 1 (<[0%nat := mk_proc (Holding 514) c1]> (procs two_cpus))).
Proof.
  exists (mk_cpu 2). split; [reflexivity|].
  exact (proj1 (proj2 (safe_lock_runs 0 (procs two_cpus) 0%nat (mk_cpu 514) eq_refl))).
Defined.
