(* ===== verification/Bitmap.v ===== *)
(** * The page bitmap (src/kernel/mem/bitmap.c and memory_frame_set of mem.c)

    One bit per physical page, least significant bit first in each byte.  The
    default build keeps bytes; [BIG_BITMAP] keeps 32-bit words over the same
    memory (module [Big]).  An index outside the array is a [Fault].
    [memory_frame_set] of mem.c numbers the bits of a byte the other way. *)

From S2P Require Import Prelude.

(** ** The byte bitmap *)

Definition bitmap_set (bitmap : list Z) (page_index : Z) : outcome (list Z) :=
  b ← arr_get bitmap (page_index / 8);
  arr_set bitmap (page_index / 8) (u8 (Z.lor b (Z.shiftl 1 (page_index mod 8)))).

Definition bitmap_clear (bitmap : list Z) (page_index : Z) : outcome (list Z) :=
  b ← arr_get bitmap (page_index / 8);
  arr_set bitmap (page_index / 8) (u8 (Z.land b (Z.lnot (Z.shiftl 1 (page_index mod 8))))).

Definition bitmap_test (bitmap : list Z) (page_index : Z) : outcome Z :=
  b ← arr_get bitmap (page_index / 8);
  Ok (Z.land b (Z.shiftl 1 (page_index mod 8))).

(** ** The 32-bit word bitmap ([#ifdef BIG_BITMAP])

    [1 << 31] is the [int] [INT_MIN]; the compound assignment and the return
    value convert it to [uint32_t] and [int32_t]. *)
Module Big.
Definition bitmap_set (bitmap : list Z) (page_index : Z) : outcome (list Z) :=
  w ← arr_get bitmap (page_index / 32);
  arr_set bitmap (page_index / 32) (u32 (Z.lor w (s32 (Z.shiftl 1 (page_index mod 32))))).

Definition bitmap_clear (bitmap : list Z) (page_index : Z) : outcome (list Z) :=
  w ← arr_get bitmap (page_index / 32);
  arr_set bitmap (page_index / 32)
    (u32 (Z.land w (Z.lnot (s32 (Z.shiftl 1 (page_index mod 32)))))).

Definition bitmap_test (bitmap : list Z) (page_index : Z) : outcome Z :=
  w ← arr_get bitmap (page_index / 32);
  Ok (s32 (Z.land w (u32 (s32 (Z.shiftl 1 (page_index mod 32)))))).
End Big.

(** ** memory_frame_set (mem.c)

    Marks [length] frames from [frame] on; whole bytes are stored at once.
    Each turn of the loop lowers [length], so [length] turns are enough. *)
Fixpoint memory_frame_set_loop (fuel : nat) (bitmap : list Z) (frame length : Z)
    : outcome (list Z) :=
  if length >? 0 then
    match fuel with
    | O => Hang
    | S fuel =>
        if (frame mod 8 =? 0) && (length >=? 8) then
          bitmap ← arr_set bitmap (frame / 8) 255;
          memory_frame_set_loop fuel bitmap (u64 (frame + 8)) (length - 8)
        else
          b ← arr_get bitmap (frame / 8);
          bitmap ← arr_set bitmap (frame / 8) (u8 (Z.lor b (Z.shiftl 1 (7 - frame mod 8))));
          memory_frame_set_loop fuel bitmap (u64 (frame + 1)) (length - 1)
    end
  else Ok bitmap.

Definition memory_frame_set (bitmap : list Z) (frame length : Z) : outcome (list Z) :=
  memory_frame_set_loop (Z.to_nat length) bitmap frame length.

(** ** Reading a bitmap as a set of pages *)

(** The number of pages a byte bitmap describes. *)
Definition capacity (bitmap : list Z) : Z := 8 * Z.of_nat (length bitmap).

(** Page [i] is in use. *)
Definition page_used (bitmap : list Z) (i : Z) : bool :=
  Z.testbit (nth (Z.to_nat (i / 8)) bitmap 0) (i mod 8).

(** The same for the word bitmap. *)
Definition page_used32 (bitmap : list Z) (i : Z) : bool :=
  Z.testbit (nth (Z.to_nat (i / 32)) bitmap 0) (i mod 32).

(** The page whose bit [memory_frame_set] sets for frame [i]. *)
Definition mirror (i : Z) : Z := 8 * (i / 8) + (7 - i mod 8).

(** The 32-bit little-endian words over the same bytes. *)
Definition le_word (b0 b1 b2 b3 : Z) : Z :=
  Z.lor b0 (Z.lor (Z.shiftl b1 8) (Z.lor (Z.shiftl b2 16) (Z.shiftl b3 24))).
Fixpoint words_of (bytes : list Z) : list Z :=
  match bytes with
  | b0 :: b1 :: b2 :: b3 :: rest => le_word b0 b1 b2 b3 :: words_of rest
  | _ => []
  end.

(** The words and the bytes describe the same pages. *)
Definition same_pages (words bytes : list Z) : Prop :=
  (4 * length words = length bytes)%nat /\
  forall i, 0 <= i < capacity bytes -> page_used32 words i = page_used bytes i.

(** ** Lemmas *)

Lemma nth_insert_eq {A} (l : list A) k x d :
  (k < length l)%nat -> nth k (<[k := x]> l) d = x.
Proof.
  intros. rewrite nth_lookup, list_lookup_insert_eq by done. done.
Qed.

Lemma nth_insert_ne {A} (l : list A) k j x d :
  k <> j -> nth j (<[k := x]> l) d = nth j l d.
Proof. intros. by rewrite !nth_lookup, list_lookup_insert_ne by done. Qed.

Lemma index_range i n : 0 <= i < 8 * n -> 0 <= i / 8 < n.
Proof. intros. zdiv. Qed.

Lemma eqb_mod8 i j : i / 8 = j / 8 -> (i mod 8 =? j mod 8) = (i =? j).
Proof.
  intros. destruct (Z.eqb_spec (i mod 8) (j mod 8)), (Z.eqb_spec i j); done || zdiv.
Qed.

(** Replacing one byte changes only the pages of that byte. *)
Lemma page_used_insert bm i b j :
  0 <= i < capacity bm -> 0 <= j ->
  page_used (<[Z.to_nat (i / 8) := b]> bm) j
  = if decide (i / 8 = j / 8) then Z.testbit b (j mod 8) else page_used bm j.
Proof.
  intros Hi Hj. unfold page_used, capacity in *. apply index_range in Hi.
  assert (0 <= j / 8) by (apply Z.div_pos; lia).
  destruct (decide (i / 8 = j / 8)) as [Hd|Hne].
  - by rewrite <-Hd, nth_insert_eq by lia.
  - rewrite nth_insert_ne by lia. done.
Qed.

Lemma arr_get_page bm i :
  0 <= i < capacity bm -> arr_get bm (i / 8) = Ok (nth (Z.to_nat (i / 8)) bm 0).
Proof.
  intros Hi%index_range. apply arr_get_Ok_iff. split; [lia|].
  rewrite nth_lookup. destruct (lookup_lt_is_Some_2 bm (Z.to_nat (i / 8))) as [x ->]; [lia|done].
Qed.

Lemma mod8_range i : 0 <= i mod 8 < 8.
Proof. apply Z.mod_pos_bound. lia. Qed.

Lemma bitmap_test_ok bm i :
  0 <= i < capacity bm ->
  exists v, bitmap_test bm i = Ok v /\ (v =? 0) = negb (page_used bm i).
Proof.
  intros Hi. unfold bitmap_test. rewrite arr_get_page by done. simpl.
  eexists; split; [done|]. pose proof (mod8_range i). by rewrite bit_test_eqb by lia.
Qed.

Lemma bitmap_test_fault bm i : capacity bm <= i -> bitmap_test bm i = Fault.
Proof.
  intros Hi. unfold bitmap_test, capacity in *. rewrite arr_get_fault; [done|zdiv].
Qed.

Lemma bitmap_set_ok bm i :
  0 <= i < capacity bm ->
  exists bm', bitmap_set bm i = Ok bm' /\ length bm' = length bm /\
    forall j, 0 <= j -> page_used bm' j = (i =? j) || page_used bm j.
Proof.
  intros Hi. pose proof Hi as Hr%index_range. unfold bitmap_set.
  rewrite arr_get_page by done. simpl. rewrite arr_set_ok by lia.
  eexists; split; [done|]. split; [apply length_insert|]. intros j Hj.
  pose proof (mod8_range i). pose proof (mod8_range j).
  rewrite page_used_insert by done. case_decide as Hd.
  - rewrite testbit_u8, testbit_set_bit by lia. by rewrite eqb_mod8, Hd.
  - destruct (Z.eqb_spec i j); [by subst|done].
Qed.

Lemma bitmap_clear_ok bm i :
  0 <= i < capacity bm ->
  exists bm', bitmap_clear bm i = Ok bm' /\ length bm' = length bm /\
    forall j, 0 <= j -> page_used bm' j = negb (i =? j) && page_used bm j.
Proof.
  intros Hi. pose proof Hi as Hr%index_range. unfold bitmap_clear.
  rewrite arr_get_page by done. simpl. rewrite arr_set_ok by lia.
  eexists; split; [done|]. split; [apply length_insert|]. intros j Hj.
  pose proof (mod8_range i). pose proof (mod8_range j).
  rewrite page_used_insert by done. case_decide as Hd.
  - rewrite testbit_u8, testbit_clear_bit by lia. by rewrite eqb_mod8, Hd.
  - destruct (Z.eqb_spec i j); [by subst|done].
Qed.

(** ** The word bitmap *)

Lemma mod32_range i : 0 <= i mod 32 < 32.
Proof. apply Z.mod_pos_bound. lia. Qed.

Lemma eqb_mod32 i j : i / 32 = j / 32 -> (i mod 32 =? j mod 32) = (i =? j).
Proof.
  intros. destruct (Z.eqb_spec (i mod 32) (j mod 32)), (Z.eqb_spec i j); done || zdiv.
Qed.

Lemma testbit_u32 z m : 0 <= m < 32 -> Z.testbit (u32 z) m = Z.testbit z m.
Proof.
  intros. unfold u32. change 4294967296 with (2 ^ 32). by rewrite Z.mod_pow2_bits_low by lia.
Qed.

Lemma testbit_s32 z m : 0 <= m < 32 -> Z.testbit (s32 z) m = Z.testbit z m.
Proof.
  intros. rewrite <-(testbit_u32 z) by lia. rewrite <-(testbit_u32 (s32 z)) by lia.
  f_equal. unfold s32, u32. case_match; zdiv.
Qed.

Lemma s32_eqb_0 z : 0 <= z < 4294967296 -> (s32 z =? 0) = (z =? 0).
Proof.
  intros. unfold s32, u32. rewrite Z.mod_small by lia.
  destruct (Z.ltb_spec z 2147483648); [done|].
  destruct (Z.eqb_spec (z - 4294967296) 0), (Z.eqb_spec z 0); done || lia.
Qed.

Lemma page_used32_insert ws i w j :
  0 <= i < 32 * Z.of_nat (length ws) -> 0 <= j ->
  page_used32 (<[Z.to_nat (i / 32) := w]> ws) j
  = if decide (i / 32 = j / 32) then Z.testbit w (j mod 32) else page_used32 ws j.
Proof.
  intros Hi Hj. unfold page_used32.
  assert (0 <= i / 32 < Z.of_nat (length ws)) by zdiv. assert (0 <= j / 32) by zdiv.
  destruct (decide (i / 32 = j / 32)) as [Hd|Hne].
  - by rewrite <-Hd, nth_insert_eq by lia.
  - rewrite nth_insert_ne by lia. done.
Qed.

Lemma arr_get_word ws i :
  0 <= i < 32 * Z.of_nat (length ws) ->
  arr_get ws (i / 32) = Ok (nth (Z.to_nat (i / 32)) ws 0).
Proof.
  intros Hi. assert (0 <= i / 32 < Z.of_nat (length ws)) by zdiv.
  apply arr_get_Ok_iff. split; [lia|]. rewrite nth_lookup.
  destruct (lookup_lt_is_Some_2 ws (Z.to_nat (i / 32))) as [x ->]; [lia|done].
Qed.

Lemma one_bit_u32 n : 0 <= n < 32 -> u32 (s32 (Z.shiftl 1 n)) = Z.shiftl 1 n.
Proof.
  intros. apply Z.bits_inj'. intros m Hm. destruct (decide (m < 32)).
  - by rewrite testbit_u32, testbit_s32 by lia.
  - unfold u32. change 4294967296 with (2 ^ 32). rewrite Z.mod_pow2_bits_high by lia.
    rewrite Z.shiftl_1_l, Z.pow2_bits_eqb by lia. symmetry. apply Z.eqb_neq. lia.
Qed.

Lemma big_set_ok ws i :
  0 <= i < 32 * Z.of_nat (length ws) ->
  exists ws', Big.bitmap_set ws i = Ok ws' /\ length ws' = length ws /\
    forall j, 0 <= j -> page_used32 ws' j = (i =? j) || page_used32 ws j.
Proof.
  intros Hi. unfold Big.bitmap_set. rewrite arr_get_word by done. simpl.
  rewrite arr_set_ok by zdiv. eexists; split; [done|]. split; [apply length_insert|].
  intros j Hj. pose proof (mod32_range i). pose proof (mod32_range j).
  rewrite page_used32_insert by done. case_decide as Hd.
  - rewrite testbit_u32, Z.lor_spec, testbit_s32, Z.shiftl_1_l, Z.pow2_bits_eqb by lia.
    rewrite orb_comm. by rewrite eqb_mod32, Hd.
  - destruct (Z.eqb_spec i j); [by subst|done].
Qed.

Lemma big_clear_ok ws i :
  0 <= i < 32 * Z.of_nat (length ws) ->
  exists ws', Big.bitmap_clear ws i = Ok ws' /\ length ws' = length ws /\
    forall j, 0 <= j -> page_used32 ws' j = negb (i =? j) && page_used32 ws j.
Proof.
  intros Hi. unfold Big.bitmap_clear. rewrite arr_get_word by done. simpl.
  rewrite arr_set_ok by zdiv. eexists; split; [done|]. split; [apply length_insert|].
  intros j Hj. pose proof (mod32_range i). pose proof (mod32_range j).
  rewrite page_used32_insert by done. case_decide as Hd.
  - rewrite testbit_u32, Z.land_spec, Z.lnot_spec, testbit_s32, Z.shiftl_1_l, Z.pow2_bits_eqb by lia.
    rewrite andb_comm. by rewrite eqb_mod32, Hd.
  - destruct (Z.eqb_spec i j); [by subst|done].
Qed.

Lemma big_test_ok ws i :
  0 <= i < 32 * Z.of_nat (length ws) ->
  exists v, Big.bitmap_test ws i = Ok v /\ (v =? 0) = negb (page_used32 ws i).
Proof.
  intros Hi. unfold Big.bitmap_test. rewrite arr_get_word by done. simpl.
  eexists; split; [done|]. pose proof (mod32_range i).
  rewrite one_bit_u32 by lia. rewrite s32_eqb_0; [by rewrite bit_test_eqb by lia|].
  change 4294967296 with (2 ^ 32). apply bits_below; [lia|]. intros m Hm.
  rewrite Z.land_spec, Z.shiftl_1_l, Z.pow2_bits_false by lia. apply andb_false_r.
Qed.

Lemma testbit_byte_high b m : 0 <= b < 256 -> 8 <= m -> Z.testbit b m = false.
Proof. intros. apply (bits_above b 8); lia. Qed.

Lemma testbit_le_word b0 b1 b2 b3 m :
  0 <= b0 < 256 -> 0 <= b1 < 256 -> 0 <= b2 < 256 -> 0 <= b3 < 256 -> 0 <= m < 32 ->
  Z.testbit (le_word b0 b1 b2 b3) m
  = Z.testbit (nth (Z.to_nat (m / 8)) [b0; b1; b2; b3] 0) (m mod 8).
Proof.
  intros H0 H1 H2 H3 Hm. unfold le_word. rewrite !Z.lor_spec, !Z.shiftl_spec by lia.
  assert (0 <= m / 8 < 4) as Hq by zdiv. pose proof (mod8_range m) as Hr.
  assert (m = 8 * (m / 8) + m mod 8) as Hd by (apply Z.div_mod; lia).
  revert Hd Hq Hr. generalize (m / 8), (m mod 8). intros q r -> Hq Hr.
  assert (q = 0 \/ q = 1 \/ q = 2 \/ q = 3) as [->|[->|[->| ->]]] by lia; simpl nth;
    repeat match goal with
    | |- context [Z.testbit ?b ?k] =>
        first [rewrite (Z.testbit_neg_r b k) by lia | rewrite (testbit_byte_high b k) by lia]
    end;
    rewrite ?orb_false_r, ?orb_false_l; f_equal; lia.
Qed.

Lemma length_words_of n bytes :
  length bytes = (4 * n)%nat -> length (words_of bytes) = n.
Proof.
  revert bytes. induction n as [|n IH]; intros bytes Hl.
  { by destruct bytes. }
  destruct bytes as [|b0 [|b1 [|b2 [|b3 rest]]]]; simpl in Hl; try lia.
  simpl. f_equal. apply IH. lia.
Qed.

Lemma page_used_words_of n bytes i :
  length bytes = (4 * n)%nat -> Forall (fun b => 0 <= b < 256) bytes ->
  0 <= i < capacity bytes -> page_used32 (words_of bytes) i = page_used bytes i.
Proof.
  revert bytes i. induction n as [|n IH]; intros bytes i Hl Hb Hi.
  { destruct bytes; simpl in *; [unfold capacity in Hi; simpl in Hi; lia|done]. }
  destruct bytes as [|b0 [|b1 [|b2 [|b3 rest]]]]; simpl in Hl; try lia.
  rewrite !Forall_cons in Hb. destruct Hb as (H0 & H1 & H2 & H3 & Hrest).
  unfold page_used32, page_used. simpl words_of. destruct (decide (i < 32)) as [Hlt|Hge].
  - assert (i / 32 = 0) as -> by zdiv. assert (i mod 32 = i) as -> by zdiv.
    simpl nth. rewrite testbit_le_word by lia.
    assert (i / 8 = 0 \/ i / 8 = 1 \/ i / 8 = 2 \/ i / 8 = 3) as [->|[->|[->| ->]]] by zdiv; done.
  - specialize (IH rest (i - 32)). unfold page_used32, page_used, capacity in *.
    assert (Z.to_nat (i / 32) = S (Z.to_nat ((i - 32) / 32))) as -> by zdiv.
    assert (Z.to_nat (i / 8) = S (S (S (S (Z.to_nat ((i - 32) / 8)))))) as -> by zdiv.
    assert (i mod 32 = (i - 32) mod 32) as -> by zdiv.
    assert (i mod 8 = (i - 32) mod 8) as -> by zdiv.
    simpl length in *. apply IH; [lia|done|lia].
Qed.

(** ** memory_frame_set *)

Lemma page_used_mirror_insert bm f b j :
  0 <= f < capacity bm -> 0 <= j ->
  page_used (<[Z.to_nat (f / 8) := b]> bm) (mirror j)
  = if decide (f / 8 = j / 8) then Z.testbit b (7 - j mod 8) else page_used bm (mirror j).
Proof.
  intros Hf Hj. pose proof (mod8_range j).
  assert (mirror j / 8 = j / 8 /\ mirror j mod 8 = 7 - j mod 8) as [Hd Hm] by (unfold mirror; zdiv).
  rewrite page_used_insert by (unfold mirror; zdiv). by rewrite Hd, Hm.
Qed.

Definition in_range (frame length j : Z) : bool := (frame <=? j) && (j <? frame + length).

Lemma in_range_empty f l j : l <= 0 -> in_range f l j = false.
Proof. intros. unfold in_range. destruct (Z.leb_spec f j); [apply Z.ltb_ge; lia|done]. Qed.

Lemma testbit_255 m : 0 <= m < 8 -> Z.testbit 255 m = true.
Proof. intros. change 255 with (Z.ones 8). by apply Z.ones_spec_low. Qed.

Lemma in_range_split f k l j :
  0 <= k <= l -> in_range f l j = in_range (f + k) (l - k) j || in_range f k j.
Proof.
  intros. unfold in_range.
  destruct (Z.leb_spec f j), (Z.leb_spec (f + k) j), (Z.ltb_spec j (f + k)),
    (Z.ltb_spec j (f + l)), (Z.ltb_spec j (f + k + (l - k))); simpl; done || lia.
Qed.

(** Storing 0xFF into an aligned byte marks its eight frames. *)
Lemma store_byte_marks bm f j :
  0 <= f < capacity bm -> f mod 8 = 0 -> 0 <= j ->
  page_used (<[Z.to_nat (f / 8) := 255]> bm) (mirror j)
  = in_range f 8 j || page_used bm (mirror j).
Proof.
  intros Hf Hm Hj. rewrite page_used_mirror_insert by done. pose proof (mod8_range j).
  unfold in_range. case_decide as Hd; [rewrite testbit_255 by lia|];
    destruct (Z.leb_spec f j), (Z.ltb_spec j (f + 8)); simpl; done || zdiv.
Qed.

(** The bit store marks one frame. *)
Lemma store_bit_marks bm f j :
  0 <= f < capacity bm -> 0 <= j ->
  page_used (<[Z.to_nat (f / 8) :=
      u8 (Z.lor (nth (Z.to_nat (f / 8)) bm 0) (Z.shiftl 1 (7 - f mod 8)))]> bm) (mirror j)
  = in_range f 1 j || page_used bm (mirror j).
Proof.
  intros Hf Hj. rewrite page_used_mirror_insert by done.
  pose proof (mod8_range j). pose proof (mod8_range f). unfold in_range.
  case_decide as Hd; [|destruct (Z.leb_spec f j), (Z.ltb_spec j (f + 1)); simpl; done || zdiv].
  rewrite testbit_u8, testbit_set_bit by lia. f_equal.
  - destruct (Z.eqb_spec (7 - f mod 8) (7 - j mod 8)), (Z.leb_spec f j), (Z.ltb_spec j (f + 1));
      simpl; done || zdiv.
  - unfold page_used. do 2 f_equal; unfold mirror; zdiv.
Qed.

Lemma memory_frame_set_loop_ok fuel bm f l :
  0 <= f -> 0 <= l -> f + l <= capacity bm -> fits_u64 (f + l) -> (Z.to_nat l <= fuel)%nat ->
  exists bm', memory_frame_set_loop fuel bm f l = Ok bm' /\ length bm' = length bm /\
    forall j, 0 <= j -> page_used bm' (mirror j) = in_range f l j || page_used bm (mirror j).
Proof.
  revert bm f l. induction fuel as [|fuel IH]; intros bm f l Hf Hl Hcap Hu Hfuel; simpl;
    rewrite Z.gtb_ltb; destruct (Z.ltb_spec 0 l) as [Hpos|Hz]; try lia;
    try (eexists; split_and!; [done|done|]; intros; by rewrite in_range_empty by lia).
  assert (0 <= f / 8 < Z.of_nat (length bm)) as Hidx by (unfold capacity in *; zdiv).
  unfold fits_u64 in Hu.
  destruct ((f mod 8 =? 0) && (l >=? 8)) eqn:Hwhole; bool_hyps;
    [rewrite arr_set_ok by lia
    |rewrite arr_get_page by (unfold capacity in *; lia); simpl; rewrite arr_set_ok by lia];
    simpl; rewrite u64_small by (unfold fits_u64; lia);
    [set (bm1 := <[_ := _]> bm); set (k := 8)|set (bm1 := <[_ := _]> bm); set (k := 1)];
    (destruct (IH bm1 (f + k) (l - k)) as (bm' & He & Hlen & Hbits);
      [subst bm1 k; unfold capacity, fits_u64 in *; rewrite ?length_insert; lia..|]);
    exists bm'; (split_and!; [done|by rewrite Hlen; subst bm1; rewrite length_insert|]);
    intros j Hj; subst k; rewrite Hbits by done.
  - rewrite (in_range_split f 8 l), <-orb_assoc by lia. f_equal. by apply store_byte_marks; [lia|..].
  - rewrite (in_range_split f 1 l), <-orb_assoc by lia. f_equal. by apply store_bit_marks; [lia|..].
Qed.

(** The 32-bit word bitmap selected by [BIG_BITMAP] and the byte bitmap
    are interchangeable: read over the same memory (little-endian words of the
    bytes) they describe the same pages, and on every page in range set, clear
    and test return in both, agree on the test and keep describing the same
    pages. *)
Theorem big_bitmap_equivalent n bytes i :
  length bytes = (4 * n)%nat -> Forall (fun b => 0 <= b < 256) bytes ->
  0 <= i < capacity bytes ->
  same_pages (words_of bytes) bytes /\
  forall words, same_pages words bytes ->
  (exists w' b', Big.bitmap_set words i = Ok w' /\ bitmap_set bytes i = Ok b' /\
     same_pages w' b' /\ page_used b' i = true) /\
  (exists w' b', Big.bitmap_clear words i = Ok w' /\ bitmap_clear bytes i = Ok b' /\
     same_pages w' b' /\ page_used b' i = false) /\
  (exists v v', Big.bitmap_test words i = Ok v /\ bitmap_test bytes i = Ok v' /\
     (v =? 0) = (v' =? 0)).
Proof.
  intros Hn Hb Hi. split.
  { split; [by rewrite (length_words_of n)|]. intros. by eapply page_used_words_of. }
  intros words [Hlen Hsame].
  assert (0 <= i < 32 * Z.of_nat (length words)) as Hi32 by (unfold capacity in Hi; lia).
  split_and!.
  - destruct (big_set_ok words i Hi32) as (w' & -> & Hw & Hwb).
    destruct (bitmap_set_ok bytes i Hi) as (b' & -> & Hl & Hbb).
    exists w', b'. split_and!; [done|done|split; [lia|]|by rewrite Hbb, Z.eqb_refl by lia].
    intros j Hj. rewrite Hwb, Hbb, Hsame by (unfold capacity in *; lia). done.
  - destruct (big_clear_ok words i Hi32) as (w' & -> & Hw & Hwb).
    destruct (bitmap_clear_ok bytes i Hi) as (b' & -> & Hl & Hbb).
    exists w', b'. split_and!; [done|done|split; [lia|]|by rewrite Hbb, Z.eqb_refl by lia].
    intros j Hj. rewrite Hwb, Hbb, Hsame by (unfold capacity in *; lia). done.
  - destruct (big_test_ok words i Hi32) as (v & -> & Hv).
    destruct (bitmap_test_ok bytes i Hi) as (v' & -> & Hv').
    exists v, v'. split_and!; [done|done|]. by rewrite Hv, Hv', Hsame.
Qed.

Lemma big_bitmap_equivalent_witness :
  exists v v', Big.bitmap_test (words_of [1; 2; 4; 128]) 31 = Ok v /\
    bitmap_test [1; 2; 4; 128] 31 = Ok v' /\ v = -2147483648 /\ v' = 128 /\
    (v =? 0) = (v' =? 0).
Proof.
  assert (Forall (fun b => 0 <= b < 256) [1; 2; 4; 128]) as Hb by (repeat constructor; lia).
  assert (0 <= 31 < capacity [1; 2; 4; 128]) as Hi by (unfold capacity; simpl; lia).
  pose proof (big_bitmap_equivalent 1 [1; 2; 4; 128] 31 eq_refl Hb Hi) as [Hs Hops].
  destruct (Hops _ Hs) as (_ & _ & v & v' & Hv & Hv' & He).
  exists v, v'. split; [exact Hv|]. split; [exact Hv'|]. split; [|split; [|exact He]].
  - vm_compute in Hv. injection Hv as <-. reflexivity.
  - vm_compute in Hv'. injection Hv' as <-. reflexivity.
Defined.

(** [memory_frame_set] terminates on a range inside the bitmap and marks,
    for every frame of the range and no other, the page mirrored within its
    byte: its bit order is the reverse of the one [bitmap_test] reads. *)
Theorem memory_frame_set_marks bm frame len :
  0 <= frame -> 0 <= len -> frame + len <= capacity bm -> fits_u64 (frame + len) ->
  exists bm', memory_frame_set bm frame len = Ok bm' /\ length bm' = length bm /\
    forall j, 0 <= j ->
      page_used bm' (mirror j) = in_range frame len j || page_used bm (mirror j).
Proof. intros. unfold memory_frame_set. apply memory_frame_set_loop_ok; lia || done. Qed.

Lemma memory_frame_set_marks_witness :
  memory_frame_set [0; 0; 0; 0] 3 15 = Ok [31; 255; 192; 0] /\
  page_used [31; 255; 192; 0] 2 = true /\ page_used [31; 255; 192; 0] 5 = false.
Proof.
  assert (fits_u64 (3 + 15)) as Hu by (unfold fits_u64; lia).
  assert (3 + 15 <= capacity [0; 0; 0; 0]) as Hc by (unfold capacity; simpl; lia).
  destruct (memory_frame_set_marks [0; 0; 0; 0] 3 15 ltac:(lia) ltac:(lia) Hc Hu)
    as (bm' & He & _ & Hbits).
  vm_compute in He. injection He as <-. split; [reflexivity|]. split; [|reflexivity].
  exact (Hbits 5 ltac:(lia)).
Defined.
