(* ===== verification/Pmm.v ===== *)
(** * The physical page allocator
    (src/kernel/mem/pmm.c, memmap.c and the bitmap set-up of mem.c)

    Pages are handed out by scanning the bitmap from page 1 up.  The state is
    the bitmap with its bookkeeping globals, the allocator's lock and the
    flags register the lock saves.  [init_bitmap] is the set-up the kernel
    runs at boot; [pmm_init] is the page-aligned variant of pmm.c. *)

From S2P Require Import Prelude Sync Bitmap.

Definition PAGE_SIZE : Z := 4096.

(** ** The bootloader's memory map *)

Definition LIMINE_MEMMAP_USABLE : Z := 0.
Definition LIMINE_MEMMAP_RESERVED : Z := 1.
Definition LIMINE_MEMMAP_BOOTLOADER_RECLAIMABLE : Z := 5.
Definition LIMINE_MEMMAP_KERNEL_AND_MODULES : Z := 6.
Definition LIMINE_MEMMAP_FRAMEBUFFER : Z := 7.

Record limine_memmap_entry := mk_entry { base : Z; len : Z; type : Z }.

Definition usable (e : limine_memmap_entry) : bool := type e =? LIMINE_MEMMAP_USABLE.

(** memmap.c *)
Definition memmap_get_total_pages (memmap : list limine_memmap_entry) : Z :=
  fold_left (fun total e =>
    if usable e then u64 (total + len e / PAGE_SIZE) else total) memmap 0.

(** mem.c *)
Definition get_highest_phys_addr (memmap : list limine_memmap_entry) : Z :=
  fold_left (fun max_addr e =>
    if type e =? LIMINE_MEMMAP_RESERVED then max_addr
    else if u64 (base e + len e) >? max_addr then u64 (base e + len e) else max_addr)
    memmap 0.

(** ** State *)

Record pmm := mk_pmm {
  bitmap : list Z;
  bitmap_ptr : Z;
  bitmap_size : Z;
  total_pages : Z;
  used_pages : Z;
  pmm_lock : safe_lock_t;
  pmm_cpu : cpu
}.

Definition with_bitmap (p : pmm) (bm : list Z) : pmm :=
  mk_pmm bm (bitmap_ptr p) (bitmap_size p) (total_pages p) (used_pages p) (pmm_lock p) (pmm_cpu p).
Definition with_used (p : pmm) (n : Z) : pmm :=
  mk_pmm (bitmap p) (bitmap_ptr p) (bitmap_size p) (total_pages p) n (pmm_lock p) (pmm_cpu p).
Definition with_lock (p : pmm) (l : safe_lock_t) (c : cpu) : pmm :=
  mk_pmm (bitmap p) (bitmap_ptr p) (bitmap_size p) (total_pages p) (used_pages p) l c.

(** [safe_lock(&pmm_lock)] and [safe_unlock(&pmm_lock, flags)]. *)
Definition lock_pmm (p : pmm) : outcome (Z * pmm) :=
  '(flags, l, c) ← safe_lock (pmm_lock p) (pmm_cpu p);
  Ok (flags, with_lock p l c).
Definition unlock_pmm (p : pmm) (flags : Z) : pmm :=
  let '(l, c) := safe_unlock (pmm_lock p) flags (pmm_cpu p) in with_lock p l c.

(** ** Set-up *)

(** [for (addr = 0; addr < length; addr += PAGE_SIZE) bitmap_clear(...)], with
    the page count [init_bitmap] keeps. *)
Fixpoint clear_loop (fuel : nat) (bm : list Z) (b l addr pages : Z) : outcome (list Z * Z) :=
  if addr <? l then
    match fuel with
    | O => Hang
    | S fuel =>
        bm ← bitmap_clear bm (u64 (b + addr) / PAGE_SIZE);
        clear_loop fuel bm b l (u64 (addr + PAGE_SIZE)) (u64 (pages + 1))
    end
  else Ok (bm, pages).

Fixpoint clear_usable (memmap : list limine_memmap_entry) (bm : list Z) (pages : Z)
    : outcome (list Z * Z) :=
  match memmap with
  | [] => Ok (bm, pages)
  | e :: rest =>
      if usable e then
        '(bm, pages) ← clear_loop (S (Z.to_nat (len e / PAGE_SIZE))) bm (base e) (len e) 0 pages;
        clear_usable rest bm pages
      else clear_usable rest bm pages
  end.

(** The first usable entry long enough for the bitmap; [init_bitmap] takes the
    bitmap's bytes off the front of that entry, in place. *)
Fixpoint carve_bitmap (memmap : list limine_memmap_entry) (size : Z)
    : option (Z * list limine_memmap_entry) :=
  match memmap with
  | [] => None
  | e :: rest =>
      if usable e && (len e >=? size) then
        Some (base e, mk_entry (u64 (base e + size)) (u64 (len e - size)) (type e) :: rest)
      else
        '(b, rest) ← carve_bitmap rest size; Some (b, e :: rest)
  end.

(** mem.c; the kernel's globals are zero before it runs. *)
Definition init_bitmap (hhdm_offset : Z) (memmap : list limine_memmap_entry) (p : pmm)
    : outcome (list limine_memmap_entry * pmm) :=
  let max_addr := get_highest_phys_addr memmap in
  let size := max_addr / PAGE_SIZE / 8 in
  let '(ptr, memmap) :=
    match carve_bitmap memmap size with
    | Some (b, memmap) => (u64 (b + hhdm_offset), memmap)
    | None => (bitmap_ptr p, memmap)
    end in
  if ptr =? 0 then Halt
  else
    let bm := replicate (Z.to_nat size) 255 in
    '(bm, pages) ← clear_usable memmap bm 0;
    Ok (memmap, mk_pmm bm ptr size pages (used_pages p) (pmm_lock p) (pmm_cpu p)).

(** The memory types [pmm_init] counts. *)
Definition counted (e : limine_memmap_entry) : bool :=
  (type e =? LIMINE_MEMMAP_USABLE) || (type e =? LIMINE_MEMMAP_FRAMEBUFFER)
  || (type e =? LIMINE_MEMMAP_BOOTLOADER_RECLAIMABLE)
  || (type e =? LIMINE_MEMMAP_KERNEL_AND_MODULES).

Definition pmm_max_address (memmap : list limine_memmap_entry) : Z :=
  fold_left (fun max_address e =>
    if counted e then
      let end_addr := u64 (base e + len e) in
      if end_addr >? max_address then end_addr else max_address
    else max_address) memmap 0.

Fixpoint set_loop (n : nat) (bm : list Z) (start p : Z) : outcome (list Z) :=
  match n with
  | O => Ok bm
  | S n => bm ← bitmap_set bm (u64 (start + p)); set_loop n bm start (p + 1)
  end.

(** One bit per page, rounded up to whole pages. *)
Definition pmm_bitmap_size (total : Z) : Z :=
  let raw_bitmap_size := u64 (total + 7) / 8 in
  Z.land (u64 (raw_bitmap_size + PAGE_SIZE - 1)) (u64 (Z.lnot (PAGE_SIZE - 1))).

(** pmm.c *)
Definition pmm_init (hhdm_offset : Z) (memmap : list limine_memmap_entry) (p : pmm)
    : outcome pmm :=
  let total := pmm_max_address memmap / PAGE_SIZE in
  let size := pmm_bitmap_size total in
  let found := list_find (fun e => usable e && (len e >=? size) = true) memmap in
  let '(phys, ptr) :=
    match found with
    | Some (_, e) => (base e, u64 (base e + hhdm_offset))
    | None => (0, bitmap_ptr p)
    end in
  if phys =? 0 then Halt
  else
    let bm := replicate (Z.to_nat size) 255 in
    '(bm, _) ← clear_usable memmap bm 0;
    bm ← set_loop (Z.to_nat (size / PAGE_SIZE)) bm (phys / PAGE_SIZE) 0;
    Ok (mk_pmm bm ptr size total (used_pages p) (pmm_lock p) (pmm_cpu p)).

(** ** Allocation and release *)

Fixpoint alloc_loop (fuel : nat) (p : pmm) (i : Z) : outcome (option (Z * pmm)) :=
  if i <? total_pages p then
    match fuel with
    | O => Hang
    | S fuel =>
        v ← bitmap_test (bitmap p) i;
        if v =? 0 then
          bm ← bitmap_set (bitmap p) i;
          Ok (Some (i, with_used (with_bitmap p bm) (u64 (used_pages p + 1))))
        else alloc_loop fuel p (u64 (i + 1))
    end
  else Ok None.

(** Returns the physical address of the page, 0 for [NULL]. *)
Definition pmm_alloc (p : pmm) : outcome (Z * pmm) :=
  '(flags, p) ← lock_pmm p;
  r ← alloc_loop (Z.to_nat (total_pages p)) p 1;
  match r with
  | Some (i, p) => Ok (u64 (i * PAGE_SIZE), unlock_pmm p flags)
  | None => Ok (0, unlock_pmm p flags)
  end.

(** [for (j = 1; i < n; j++)]: the number of pages seen and whether the run
    was free.  The condition does not mention [j]. *)
Fixpoint run_free (fuel : nat) (bm : list Z) (n i j : Z) : outcome (bool * Z) :=
  if i <? n then
    match fuel with
    | O => Hang
    | S fuel =>
        v ← bitmap_test bm (u64 (i + j));
        if negb (v =? 0) then Ok (false, j) else run_free fuel bm n i (u64 (j + 1))
    end
  else Ok (true, j).

Fixpoint alloc_n_loop (fuel : nat) (p : pmm) (n i : Z) : outcome (option (Z * pmm)) :=
  if i <=? u64 (total_pages p - n) then
    match fuel with
    | O => Hang
    | S fuel =>
        v ← bitmap_test (bitmap p) i;
        if v =? 0 then
          '(found, j) ← run_free (S (Z.to_nat (capacity (bitmap p)))) (bitmap p) n i 1;
          if (found : bool) then
            bm ← set_loop (Z.to_nat n) (bitmap p) i 0;
            Ok (Some (i, with_used (with_bitmap p bm) (u64 (used_pages p + n))))
          else alloc_n_loop fuel p n (u64 (i + j + 1))
        else alloc_n_loop fuel p n (u64 (i + 1))
    end
  else Ok None.

Definition pmm_alloc_n (p : pmm) (n : Z) : outcome (Z * pmm) :=
  if n =? 0 then Ok (0, p)
  else if n =? 1 then pmm_alloc p
  else
    '(flags, p) ← lock_pmm p;
    r ← alloc_n_loop (S (Z.to_nat (capacity (bitmap p)))) p n 1;
    match r with
    | Some (i, p) => Ok (u64 (i * PAGE_SIZE), unlock_pmm p flags)
    | None => Ok (0, unlock_pmm p flags)
    end.

Definition pmm_free (addr : Z) (p : pmm) : outcome pmm :=
  '(flags, p) ← lock_pmm p;
  let page_index := addr / PAGE_SIZE in
  v ← bitmap_test (bitmap p) page_index;
  p ← (if negb (v =? 0) then
         bm ← bitmap_clear (bitmap p) page_index;
         Ok (with_used (with_bitmap p bm) (u64 (used_pages p - 1)))
       else Ok p);
  Ok (unlock_pmm p flags).

(** ** Specification

    The allocator as a set of pages it may hand out. *)

Inductive pmm_op :=
| OpAlloc
| OpFree (addr : Z).

(** One call: its result (0 for [pmm_free]) and the new state. *)
Definition pmm_run (op : pmm_op) (p : pmm) : outcome (Z * pmm) :=
  match op with
  | OpAlloc => pmm_alloc p
  | OpFree addr => p ← pmm_free addr p; Ok (0, p)
  end.

Fixpoint pmm_trace (ops : list pmm_op) (p : pmm) : outcome (list Z * pmm) :=
  match ops with
  | [] => Ok ([], p)
  | op :: ops =>
      '(r, p) ← pmm_run op p;
      '(rs, p) ← pmm_trace ops p;
      Ok (r :: rs, p)
  end.

(** Allocation takes the lowest page of the set, releasing a page puts it
    back; an allocation from the empty set returns the null pointer. *)
Inductive page_spec (total : Z) : gset Z -> pmm_op -> Z -> gset Z -> Prop :=
| spec_alloc F i :
    i ∈ F -> (forall j, j ∈ F -> i <= j) ->
    page_spec total F OpAlloc (i * PAGE_SIZE) (F ∖ {[i]})
| spec_alloc_none : page_spec total ∅ OpAlloc 0 ∅
| spec_free F addr :
    1 <= addr / PAGE_SIZE < total ->
    page_spec total F (OpFree addr) 0 ({[addr / PAGE_SIZE]} ∪ F).

Inductive page_spec_trace (total : Z) : gset Z -> list pmm_op -> list Z -> gset Z -> Prop :=
| trace_nil F : page_spec_trace total F [] [] F
| trace_cons F op r F' ops rs F'' :
    page_spec total F op r F' -> page_spec_trace total F' ops rs F'' ->
    page_spec_trace total F (op :: ops) (r :: rs) F''.

(** The operations a client may issue: it releases allocatable pages only. *)
Definition op_in_range (total : Z) (op : pmm_op) : Prop :=
  match op with OpAlloc => True | OpFree addr => 1 <= addr / PAGE_SIZE < total end.

(** The allocator's invariant: the bitmap covers every page that can be
    scanned, physical addresses fit in 64 bits, the lock is free. *)
Definition pmm_ok (p : pmm) : Prop :=
  0 <= total_pages p <= capacity (bitmap p) /\ total_pages p <= 2 ^ 40 /\
  locked (pmm_lock p) = 0.

(** [F] is the set of pages the allocator may still hand out. *)
Definition free_pages (p : pmm) (F : gset Z) : Prop :=
  forall i, i ∈ F <-> 1 <= i < total_pages p /\ page_used (bitmap p) i = false.

(** What no operation changes. *)
Definition same_frame (p p' : pmm) : Prop :=
  total_pages p' = total_pages p /\ length (bitmap p') = length (bitmap p) /\
  bitmap_ptr p' = bitmap_ptr p /\ bitmap_size p' = bitmap_size p /\
  pmm_lock p' = pmm_lock p /\ pmm_cpu p' = pmm_cpu p.

(** Entries whose end is a 64-bit address. *)
Definition entry_fits (e : limine_memmap_entry) : Prop :=
  0 <= base e /\ 0 <= len e /\ base e + len e + PAGE_SIZE <= 18446744073709551616.

(** Page-aligned, as the boot protocol documents for usable entries. *)
Definition entry_aligned (e : limine_memmap_entry) : Prop :=
  base e mod PAGE_SIZE = 0 /\ len e mod PAGE_SIZE = 0.

Definition pages_up (n : Z) : Z := (n + PAGE_SIZE - 1) / PAGE_SIZE.

(** Page [i] holds a byte of the entry. *)
Definition covers (e : limine_memmap_entry) (i : Z) : bool :=
  usable e && in_range (base e / PAGE_SIZE) (pages_up (len e)) i.

(** ** Lemmas: locking *)

Lemma with_lock_id p : with_lock p (pmm_lock p) (pmm_cpu p) = p.
Proof. by destruct p. Qed.

Lemma lock_pmm_ok p :
  locked (pmm_lock p) = 0 ->
  lock_pmm p = Ok (rflags (pmm_cpu p),
    with_lock p (mk_safe_lock 1) (mk_cpu (Z.land (rflags (pmm_cpu p)) (Z.lnot IF_bit)))).
Proof. intros Hl. unfold lock_pmm. by rewrite safe_lock_free. Qed.

(** Releasing restores the lock and the flags the caller had. *)
Lemma unlock_after p q flags :
  locked (pmm_lock p) = 0 -> flags = rflags (pmm_cpu p) ->
  unlock_pmm q flags = with_lock q (pmm_lock p) (pmm_cpu p).
Proof.
  intros Hl ->. unfold unlock_pmm, safe_unlock, restore_interrupts.
  destruct p as [? ? ? ? ? [l] [c]]; simpl in *. by subst.
Qed.

(** ** Lemmas: scanning *)

Lemma alloc_loop_ok fuel p i :
  0 <= total_pages p <= capacity (bitmap p) -> total_pages p <= 2 ^ 40 ->
  1 <= i -> (Z.to_nat (total_pages p - i) <= fuel)%nat ->
  exists r, alloc_loop fuel p i = Ok r /\
    match r with
    | Some (j, p') =>
        i <= j < total_pages p /\ page_used (bitmap p) j = false /\
        (forall k, i <= k < j -> page_used (bitmap p) k = true) /\
        (exists bm', p' = with_used (with_bitmap p bm') (u64 (used_pages p + 1)) /\
           length bm' = length (bitmap p) /\
           forall k, 0 <= k -> page_used bm' k = (j =? k) || page_used (bitmap p) k)
    | None => forall k, i <= k < total_pages p -> page_used (bitmap p) k = true
    end.
Proof.
  intros Hcap Htot. revert i. induction fuel as [|fuel IH]; intros i Hi Hfuel; simpl;
    destruct (Z.ltb_spec i (total_pages p)) as [Hlt|Hge]; try lia;
    try (exists None; split; [done|]; intros; lia).
  destruct (bitmap_test_ok (bitmap p) i) as (v & -> & Hv); [lia|]. simpl. rewrite Hv.
  destruct (page_used (bitmap p) i) eqn:Hu; simpl.
  - rewrite u64_small by (unfold fits_u64; lia).
    destruct (IH (i + 1)) as (r & -> & Hr); [lia..|]. exists r. split; [done|].
    destruct r as [[j p']|].
    + destruct Hr as (? & ? & Hk & ?). split_and!; [lia|lia|done| |done].
      intros k Hk'. destruct (decide (k = i)) as [->|]; [done|apply Hk; lia].
    + intros k Hk. destruct (decide (k = i)) as [->|]; [done|apply Hr; lia].
  - destruct (bitmap_set_ok (bitmap p) i) as (bm' & -> & Hl & Hb); [lia|]. simpl.
    eexists; split; [done|]. simpl. split_and!; [lia|lia|done|intros; lia|eauto].
Qed.

Lemma alloc_page_fits p i :
  total_pages p <= 2 ^ 40 -> 1 <= i < total_pages p -> u64 (i * PAGE_SIZE) = i * PAGE_SIZE.
Proof. intros. apply u64_small. unfold fits_u64, PAGE_SIZE. lia. Qed.

(** What [pmm_alloc] does, on both branches. *)
Lemma pmm_alloc_cases p :
  pmm_ok p ->
  exists r p', pmm_alloc p = Ok (r, p') /\ same_frame p p' /\
    ((exists i, r = i * PAGE_SIZE /\ 1 <= i < total_pages p /\
        page_used (bitmap p) i = false /\
        (forall k, 1 <= k < i -> page_used (bitmap p) k = true) /\
        (forall k, 0 <= k -> page_used (bitmap p') k = (i =? k) || page_used (bitmap p) k) /\
        used_pages p' = u64 (used_pages p + 1))
     \/ (r = 0 /\ p' = p /\ forall k, 1 <= k < total_pages p -> page_used (bitmap p) k = true)).
Proof.
  intros (Hcap & Htot & Hl). unfold pmm_alloc. rewrite lock_pmm_ok by done. mred.
  set (q := with_lock p _ _).
  destruct (alloc_loop_ok (Z.to_nat (total_pages q)) q 1) as (r & -> & Hr); try done.
  { simpl. lia. }
  simpl. destruct r as [[i q']|].
  - destruct Hr as (Hi & Hfree & Hlow & bm' & -> & Hlen & Hbits). simpl in *.
    rewrite (alloc_page_fits p) by lia.
    rewrite (unlock_after p) by done. do 2 eexists. split; [done|].
    split; [done|]. left. exists i. split_and!; done || lia.
  - rewrite (unlock_after p) by done. do 2 eexists. split; [done|].
    assert (with_lock q (pmm_lock p) (pmm_cpu p) = p) as -> by by destruct p.
    split; [done|]. by right.
Qed.

Lemma pmm_free_cases p addr :
  pmm_ok p -> 0 <= addr -> addr / PAGE_SIZE < capacity (bitmap p) ->
  exists p', pmm_free addr p = Ok p' /\ same_frame p p' /\
    (forall k, 0 <= k ->
       page_used (bitmap p') k = negb (addr / PAGE_SIZE =? k) && page_used (bitmap p) k) /\
    used_pages p' = if page_used (bitmap p) (addr / PAGE_SIZE)
                    then u64 (used_pages p - 1) else used_pages p.
Proof.
  intros (Hcap & Htot & Hl) Ha Hr. unfold pmm_free. rewrite lock_pmm_ok by done. mred.
  set (q := with_lock p _ _). set (i := addr / PAGE_SIZE) in *.
  change (bitmap q) with (bitmap p).
  assert (0 <= i) by (apply Z.div_pos; unfold PAGE_SIZE; lia).
  destruct (bitmap_test_ok (bitmap p) i) as (v & -> & Hv); [lia|]. simpl. rewrite Hv, negb_involutive.
  destruct (page_used (bitmap p) i) eqn:Hu.
  - destruct (bitmap_clear_ok (bitmap p) i) as (bm' & -> & Hlen & Hb); [lia|]. mred.
    rewrite (unlock_after p) by done. eexists; split; [done|]. by split_and!.
  - simpl. rewrite (unlock_after p) by done. eexists; split; [done|].
    assert (with_lock q (pmm_lock p) (pmm_cpu p) = p) as -> by by destruct p.
    split_and!; try done. intros k Hk. destruct (Z.eqb_spec i k) as [<-|]; [by rewrite Hu|done].
Qed.

Lemma same_frame_ok p p' : same_frame p p' -> pmm_ok p -> pmm_ok p'.
Proof.
  intros (Ht & Hl & _ & _ & Hk & _) (H1 & H2 & H3). unfold pmm_ok, capacity in *.
  by rewrite Ht, Hl, Hk.
Qed.

Lemma same_frame_trans p q r : same_frame p q -> same_frame q r -> same_frame p r.
Proof. unfold same_frame. intros; destruct_and?; split_and!; congruence. Qed.

(** ** Lemmas: refinement *)

(** Pages in use plus pages that can still be handed out, in [uint64_t]. *)
Definition page_balance (p : pmm) (F : gset Z) : Z := u64 (used_pages p + Z.of_nat (size F)).

(** The set of free pages always exists. *)
Lemma free_pages_exists p : exists F, free_pages p F.
Proof.
  exists (list_to_set (filter (fun i => page_used (bitmap p) i = false) (seqZ 1 (total_pages p - 1)))).
  intros i. rewrite elem_of_list_to_set, list_elem_of_filter, elem_of_seqZ. intuition lia.
Qed.

Lemma size_take (F : gset Z) i : i ∈ F -> Z.of_nat (size F) = Z.of_nat (size (F ∖ {[i]})) + 1.
Proof.
  intros Hi. rewrite (union_difference_singleton_L i F Hi) at 1.
  rewrite size_union by set_solver. rewrite size_singleton. lia.
Qed.

Lemma size_put (F : gset Z) i : i ∉ F -> Z.of_nat (size ({[i]} ∪ F)) = Z.of_nat (size F) + 1.
Proof. intros. rewrite size_union by set_solver. rewrite size_singleton. lia. Qed.

Lemma alloc_refines p F :
  pmm_ok p -> free_pages p F ->
  exists r p' F', pmm_alloc p = Ok (r, p') /\ page_spec (total_pages p) F OpAlloc r F' /\
    free_pages p' F' /\ same_frame p p' /\ page_balance p' F' = page_balance p F.
Proof.
  intros Hok HF. destruct (pmm_alloc_cases p Hok) as (r & p' & Hrun & Hsame & [Hsome|Hnone]).
  - destruct Hsome as (i & -> & Hi & Hfree & Hlow & Hbits & Hused).
    assert (i ∈ F) as HiF by by apply HF.
    exists (i * PAGE_SIZE), p', (F ∖ {[i]}). split_and!; [done|..|done|].
    + apply spec_alloc; [done|]. intros j [Hj Hju]%HF.
      destruct (decide (j < i)) as [Hji|]; [|lia]. rewrite Hlow in Hju by lia. done.
    + intros j. rewrite elem_of_difference, elem_of_singleton, (HF j).
      destruct Hsame as (-> & _). split.
      * intros ([Hj Hju] & Hne). split; [done|]. rewrite Hbits, Hju by lia.
        apply orb_false_iff. split; [apply Z.eqb_neq; lia|done].
      * intros [Hj Hju]. rewrite Hbits in Hju by lia. bool_hyps. split; [done|lia].
    + unfold page_balance. rewrite Hused, u64_add_l, (size_take F i HiF). f_equal. lia.
  - destruct Hnone as (-> & -> & Hall).
    assert (F = ∅) as ->.
    { apply set_eq. intros i. rewrite (HF i). split; [|set_solver].
      intros [Hi Hu]. by rewrite Hall in Hu by lia. }
    exists 0, p, ∅. split_and!; [done|constructor|done|done|done].
Qed.

Lemma free_refines p F addr :
  pmm_ok p -> free_pages p F -> 1 <= addr / PAGE_SIZE < total_pages p ->
  exists p' F', pmm_free addr p = Ok p' /\ page_spec (total_pages p) F (OpFree addr) 0 F' /\
    free_pages p' F' /\ same_frame p p' /\ page_balance p' F' = page_balance p F.
Proof.
  intros Hok HF Hr. pose proof Hok as (Hcap & _ & _).
  assert (0 <= addr) by (unfold PAGE_SIZE in Hr; zdiv).
  destruct (pmm_free_cases p addr Hok) as (p' & Hrun & Hsame & Hbits & Hused); [done|lia|].
  set (i := addr / PAGE_SIZE) in *. exists p', ({[i]} ∪ F).
  split_and!; [done|by constructor|..|done|].
  - intros j. rewrite elem_of_union, elem_of_singleton, (HF j).
    destruct Hsame as (-> & _). split.
    + intros [->|[Hj Hu]]; (split; [lia|]); rewrite Hbits by lia; [by rewrite Z.eqb_refl|].
      by rewrite Hu, andb_false_r.
    + intros [Hj Hu]. rewrite Hbits in Hu by lia.
      destruct (Z.eqb_spec i j) as [|]; [by left|by right].
  - unfold page_balance. rewrite Hused. destruct (page_used (bitmap p) i) eqn:Hu.
    + rewrite u64_add_l, size_put; [f_equal; lia|]. rewrite (HF i). intros [_ ?]. congruence.
    + assert (i ∈ F) by by apply HF. by rewrite (subseteq_union_1_L {[i]} F) by set_solver.
Qed.

Lemma trace_refines ops p F :
  pmm_ok p -> free_pages p F -> Forall (op_in_range (total_pages p)) ops ->
  exists rs p' F', pmm_trace ops p = Ok (rs, p') /\
    page_spec_trace (total_pages p) F ops rs F' /\
    free_pages p' F' /\ same_frame p p' /\ page_balance p' F' = page_balance p F.
Proof.
  intros Hok HF Hops. revert p F Hok HF Hops.
  induction ops as [|op ops IH]; intros p F Hok HF Hops.
  { exists [], p, F. split_and!; try done. constructor. }
  apply Forall_cons in Hops as [Hop Hops].
  assert (exists r p' F', pmm_run op p = Ok (r, p') /\ page_spec (total_pages p) F op r F' /\
    free_pages p' F' /\ same_frame p p' /\ page_balance p' F' = page_balance p F)
    as (r & p' & F' & Hrun & Hspec & HF' & Hsame & Hbal).
  { destruct op as [|addr]; simpl; [by apply alloc_refines|].
    destruct (free_refines p F addr Hok HF Hop) as (p' & F' & -> & H).
    exists 0, p', F'. by split. }
  pose proof Hsame as (Ht & _). rewrite <-Ht in Hops.
  destruct (IH p' F' (same_frame_ok _ _ Hsame Hok) HF' Hops)
    as (rs & p'' & F'' & Htr & Hst & HF'' & Hsame' & Hbal').
  exists (r :: rs), p'', F''. simpl. rewrite Hrun. mred. rewrite Htr. mred.
  rewrite Ht in Hst. split_and!; [done|by econstructor|done|by eapply same_frame_trans|congruence].
Qed.

(** ** Lemmas: set-up *)

Lemma clear_loop_ok fuel bm b l addr pages :
  0 <= b -> 0 <= addr -> 0 <= l -> b + l + PAGE_SIZE <= 18446744073709551616 ->
  addr mod PAGE_SIZE = 0 ->
  b / PAGE_SIZE + pages_up l <= capacity bm ->
  (Z.to_nat ((l - addr + PAGE_SIZE - 1) / PAGE_SIZE) <= fuel)%nat ->
  0 <= pages -> pages + pages_up (l - addr) < 18446744073709551616 ->
  exists bm', clear_loop fuel bm b l addr pages
      = Ok (bm', pages + Z.max 0 (pages_up (l - addr))) /\
    length bm' = length bm /\
    forall j, 0 <= j -> page_used bm' j =
      negb (in_range (b / PAGE_SIZE + addr / PAGE_SIZE) (pages_up (l - addr)) j)
      && page_used bm j.
Proof.
  intros Hb. unfold pages_up, PAGE_SIZE in *.
  revert bm addr pages. induction fuel as [|fuel IH];
    intros bm addr pages Ha Hl Hfit Hal Hcap Hfuel Hp Hpages; simpl;
    destruct (Z.ltb_spec addr l) as [Hlt|Hge]; try zdiv;
    try (exists bm; split_and!; [do 2 f_equal; zdiv|done|];
         intros j Hj; rewrite in_range_empty by zdiv; done).
  unfold PAGE_SIZE. rewrite (u64_small (b + addr)) by (unfold fits_u64; lia).
  destruct (bitmap_clear_ok bm ((b + addr) / 4096)) as (bm1 & -> & Hl1 & Hb1).
  { unfold capacity in *. zdiv. }
  mred. rewrite (u64_small (addr + 4096)), (u64_small (pages + 1)) by (unfold fits_u64; zdiv).
  destruct (IH bm1 (addr + 4096) (pages + 1)) as (bm' & -> & Hl' & Hb');
    [unfold capacity in *; rewrite ?Hl1; zdiv..|].
  exists bm'. split_and!; [do 2 f_equal; zdiv|congruence|]. intros j Hj.
  rewrite Hb', Hb1 by done. rewrite andb_assoc. f_equal.
  rewrite (in_range_split (b / 4096 + addr / 4096) 1) by zdiv.
  rewrite negb_orb. f_equal; f_equal.
  - f_equal; zdiv.
  - unfold in_range. destruct (Z.eqb_spec ((b + addr) / 4096) j),
      (Z.leb_spec (b / 4096 + addr / 4096) j), (Z.ltb_spec j (b / 4096 + addr / 4096 + 1));
      simpl; done || zdiv.
Qed.

Lemma fold_left_max {A} (g : Z -> A -> Z) (c : A -> bool) (f : A -> Z) l acc :
  (forall m e, m <= g m e) -> (forall m e, c e = true -> f e <= g m e) ->
  acc <= fold_left g l acc /\
  Forall (fun e => c e = true -> f e <= fold_left g l acc) l.
Proof.
  intros Hm Hf. revert acc. induction l as [|e l IH]; intros acc; simpl; [split; [lia|done]|].
  destruct (IH (g acc e)) as [H1 H2]. specialize (Hm acc e). split; [lia|].
  constructor; [|done]. intros He. specialize (Hf acc e He). lia.
Qed.

Lemma highest_ge memmap :
  Forall (fun e => usable e = true -> u64 (base e + len e) <= get_highest_phys_addr memmap) memmap.
Proof.
  unfold get_highest_phys_addr. eapply fold_left_max.
  - intros m e. repeat case_match; bool_hyps; lia.
  - intros m e He. unfold usable, LIMINE_MEMMAP_USABLE, LIMINE_MEMMAP_RESERVED in *.
    bool_hyps. rewrite He. simpl. case_match; bool_hyps; lia.
Qed.

Lemma pmm_max_ge memmap :
  Forall (fun e => usable e = true -> u64 (base e + len e) <= pmm_max_address memmap) memmap.
Proof.
  unfold pmm_max_address. eapply fold_left_max.
  - intros m e. simpl. repeat case_match; bool_hyps; lia.
  - intros m e He. unfold usable, counted in *. rewrite He. simpl. case_match; bool_hyps; lia.
Qed.

(** The number of pages the set-up loop clears. *)
Definition usable_pages (memmap : list limine_memmap_entry) : Z :=
  foldr (fun e n => (if usable e then pages_up (len e) else 0) + n) 0 memmap.

Lemma pages_up_nonneg n : 0 <= n -> 0 <= pages_up n.
Proof. intros. unfold pages_up, PAGE_SIZE. zdiv. Qed.

Lemma usable_pages_nonneg memmap :
  Forall (fun e => usable e = true -> entry_fits e) memmap -> 0 <= usable_pages memmap.
Proof.
  induction 1 as [|e l He _ IH]; simpl; [lia|]. destruct (usable e) eqn:Hu; [|lia].
  destruct (He eq_refl) as (_ & ? & _). pose proof (pages_up_nonneg (len e)). lia.
Qed.

#[local] Arguments clear_loop : simpl never.

Lemma clear_usable_ok memmap bm pages :
  Forall (fun e => usable e = true -> entry_fits e /\
    base e / PAGE_SIZE + pages_up (len e) <= capacity bm) memmap ->
  0 <= pages -> pages + usable_pages memmap < 18446744073709551616 ->
  exists bm', clear_usable memmap bm pages = Ok (bm', pages + usable_pages memmap) /\
    length bm' = length bm /\
    forall j, 0 <= j ->
      page_used bm' j = negb (existsb (fun e => covers e j) memmap) && page_used bm j.
Proof.
  intros Hall. revert bm pages Hall.
  induction memmap as [|e rest IH]; intros bm pages Hall Hp Hsum; simpl in *.
  { exists bm. split_and!; [do 2 f_equal; lia|done|done]. }
  apply Forall_cons in Hall as [He Hrest].
  assert (0 <= usable_pages rest) as Hnn.
  { apply usable_pages_nonneg. eapply Forall_impl; [exact Hrest|]. naive_solver. }
  unfold covers at 1. destruct (usable e) eqn:Hu; simpl.
  - destruct (He eq_refl) as [(Hb & Hl & Hf) Hcap]. pose proof (pages_up_nonneg (len e) Hl).
    destruct (clear_loop_ok (S (Z.to_nat (len e / PAGE_SIZE))) bm (base e) (len e) 0 pages)
      as (bm1 & Heq & Hlen & Hbits); try done.
    { unfold PAGE_SIZE. zdiv. }
    { rewrite Z.sub_0_r. lia. }
    rewrite Heq. mred. rewrite Z.sub_0_r, Z.max_r in * by lia.
    destruct (IH bm1 (pages + pages_up (len e))) as (bm' & -> & Hlen' & Hbits');
      [by unfold capacity in *; rewrite Hlen|lia|lia|].
    exists bm'. split_and!; [do 2 f_equal; lia|congruence|]. intros j Hj.
    rewrite Hbits', Hbits by done. rewrite Z.div_0_l, Z.add_0_r by done.
    rewrite negb_orb, andb_assoc. f_equal. apply andb_comm.
  - destruct (IH bm pages) as (bm' & Heq & H); [done|lia|lia|]. by exists bm'.
Qed.

Lemma page_used_full n j :
  0 <= j < 8 * Z.of_nat n -> page_used (replicate n 255) j = true.
Proof.
  intros Hj. unfold page_used. rewrite nth_lookup, lookup_replicate_2 by zdiv.
  apply testbit_255. apply mod8_range.
Qed.

Lemma entry_end_pages e :
  entry_fits e -> entry_aligned e ->
  base e / PAGE_SIZE + pages_up (len e) = (base e + len e) / PAGE_SIZE.
Proof. unfold entry_fits, entry_aligned, pages_up, PAGE_SIZE. intros. zdiv. Qed.

Lemma carve_bitmap_inv memmap size b memmap' :
  carve_bitmap memmap size = Some (b, memmap') ->
  exists pre e post, memmap = pre ++ e :: post /\ usable e = true /\ size <= len e /\
    b = base e /\
    memmap' = pre ++ mk_entry (u64 (base e + size)) (u64 (len e - size)) (type e) :: post.
Proof.
  revert memmap'. induction memmap as [|e rest IH]; intros memmap' H; simpl in *; [done|].
  destruct (usable e && (len e >=? size)) eqn:Hc.
  - injection H as <- <-. bool_hyps. exists [], e, rest. split_and!; try done.
  - destruct (carve_bitmap rest size) as [[b' rest']|] eqn:Hr; simpl in H; [|done].
    injection H as <- <-. destruct (IH _ eq_refl) as (pre & e' & post & -> & ? & ? & ? & ->).
    by exists (e :: pre), e', post.
Qed.

Lemma set_loop_ok n bm start p :
  0 <= start + p -> start + p + Z.of_nat n <= capacity bm ->
  start + p + Z.of_nat n <= 18446744073709551616 ->
  exists bm', set_loop n bm start p = Ok bm' /\ length bm' = length bm /\
    forall j, 0 <= j -> page_used bm' j = in_range (start + p) (Z.of_nat n) j || page_used bm j.
Proof.
  revert bm p. induction n as [|n IH]; intros bm p Hs Hc Hu; simpl.
  { exists bm. split_and!; [done|done|]. intros. by rewrite in_range_empty by lia. }
  rewrite u64_small by (unfold fits_u64; lia).
  destruct (bitmap_set_ok bm (start + p)) as (bm1 & -> & Hl & Hb); [lia|]. mred.
  destruct (IH bm1 (p + 1)) as (bm' & -> & Hl' & Hb'); [unfold capacity in *; lia..|].
  exists bm'. split_and!; [done|congruence|]. intros j Hj. rewrite Hb', Hb by done.
  rewrite (in_range_split (start + p) 1) by lia. rewrite <-orb_assoc.
  f_equal; [f_equal; lia|]. f_equal. unfold in_range.
  destruct (Z.eqb_spec (start + p) j), (Z.leb_spec (start + p) j),
    (Z.ltb_spec j (start + p + 1)); simpl; done || lia.
Qed.

Section BitmapSetup.
Context (hhdm_offset : Z) (memmap : list limine_memmap_entry) (p : pmm).

(** What the set-up needs of the memory map: usable entries are page aligned
    and end below the top of the address space. *)
Definition memmap_ok : Prop :=
  Forall (fun e => usable e = true -> entry_fits e /\ entry_aligned e) memmap /\
  usable_pages memmap < 18446744073709551616.

Lemma usable_pages_app l1 l2 : usable_pages (l1 ++ l2) = usable_pages l1 + usable_pages l2.
Proof. unfold usable_pages. rewrite foldr_app. induction l1; simpl; lia. Qed.

Lemma memmap_end_below (max : Z) :
  memmap_ok ->
  Forall (fun e => usable e = true -> u64 (base e + len e) <= max) memmap ->
  Forall (fun e => usable e = true ->
    entry_fits e /\ base e / PAGE_SIZE + pages_up (len e) <= max / PAGE_SIZE) memmap.
Proof.
  intros [Hok _] Hmax. rewrite Forall_forall in *. intros e He Hu.
  destruct (Hok e He Hu) as [Hf Ha]. specialize (Hmax e He Hu). split; [done|].
  rewrite entry_end_pages by done. destruct Hf as (? & ? & ?).
  rewrite u64_small in Hmax by (unfold fits_u64, PAGE_SIZE in *; lia).
  apply Z.div_le_mono; [unfold PAGE_SIZE|]; lia.
Qed.

(** Taking the bitmap off an entry keeps the map within the same bounds. *)
Lemma carved_ok size b memmap' :
  memmap_ok -> 0 <= size -> carve_bitmap memmap size = Some (b, memmap') ->
  Forall (fun e => usable e = true -> entry_fits e /\
    base e / PAGE_SIZE + pages_up (len e) <= get_highest_phys_addr memmap / PAGE_SIZE) memmap'
  /\ usable_pages memmap' <= usable_pages memmap.
Proof.
  intros Hok Hs Hc. pose proof (memmap_end_below _ Hok (highest_ge memmap)) as Hend.
  destruct Hok as [Hok _].
  destruct (carve_bitmap_inv _ _ _ _ Hc) as (pre & e & post & Hm & Hu & Hlen & -> & ->).
  revert Hend. generalize (get_highest_phys_addr memmap). intros max Hend.
  rewrite Hm in Hend, Hok |- *.
  rewrite Forall_app, Forall_cons in Hend, Hok |- *. destruct Hend as (H1 & He & H2).
  destruct (He Hu) as [(Hb & Hl & Hf) Hcap].
  destruct Hok as (_ & Ha & _). destruct (Ha Hu) as [_ [Ha1 Ha2]].
  rewrite !u64_small by (unfold fits_u64, PAGE_SIZE in *; lia). split.
  - split_and!; [done| |done]. intros _. unfold entry_fits; simpl. split; [lia|].
    unfold pages_up, PAGE_SIZE in *. zdiv.
  - rewrite !usable_pages_app. simpl. unfold usable at 1. simpl. fold (usable e). rewrite Hu.
    unfold pages_up, PAGE_SIZE. zdiv.
Qed.

Lemma init_bitmap_ok b memmap' :
  let size := get_highest_phys_addr memmap / PAGE_SIZE / 8 in
  memmap_ok -> get_highest_phys_addr memmap mod (8 * PAGE_SIZE) = 0 ->
  carve_bitmap memmap size = Some (b, memmap') -> u64 (b + hhdm_offset) <> 0 ->
  exists bm, init_bitmap hhdm_offset memmap p
      = Ok (memmap', mk_pmm bm (u64 (b + hhdm_offset)) size (usable_pages memmap')
                       (used_pages p) (pmm_lock p) (pmm_cpu p)) /\
    capacity bm = get_highest_phys_addr memmap / PAGE_SIZE /\
    forall i, 0 <= i < capacity bm ->
      page_used bm i = negb (existsb (fun e => covers e i) memmap').
Proof.
  intros size Hok Hmod Hc Hptr.
  assert (0 <= get_highest_phys_addr memmap) as Hmax.
  { unfold get_highest_phys_addr. apply (fold_left_max _ (fun _ => false) (fun _ => 0)); [|done].
    intros m e. repeat case_match; bool_hyps; lia. }
  assert (0 <= size) as Hs by (unfold size, PAGE_SIZE; zdiv).
  destruct (carved_ok _ _ _ Hok Hs Hc) as [Hcarved Hpages]. destruct Hok as [_ Hlt].
  assert (capacity (replicate (Z.to_nat size) 255) = get_highest_phys_addr memmap / PAGE_SIZE) as Hcap.
  { unfold capacity, size, PAGE_SIZE in *. rewrite length_replicate. zdiv. }
  unfold init_bitmap. fold size. rewrite Hc. destruct (Z.eqb_spec (u64 (b + hhdm_offset)) 0); [lia|].
  destruct (clear_usable_ok memmap' (replicate (Z.to_nat size) 255) 0) as (bm & -> & Hl & Hb);
    [by rewrite Hcap|lia|lia|].
  mred. exists bm. assert (capacity bm = capacity (replicate (Z.to_nat size) 255)) as Hcb.
  { unfold capacity. by rewrite Hl. }
  split_and!; [done|by rewrite Hcb|]. intros i Hi. rewrite Hb by lia.
  rewrite page_used_full; [apply andb_true_r|]. rewrite Hcb in Hi. unfold capacity in Hi.
  by rewrite length_replicate in Hi.
Qed.
End BitmapSetup.

(** ** Lemmas: the contiguous allocator *)

Lemma alloc_n_skip fuel p n i k :
  0 <= total_pages p <= capacity (bitmap p) -> total_pages p <= 2 ^ 40 ->
  0 <= n <= total_pages p -> 1 <= i <= k -> k <= total_pages p - n ->
  (forall j, i <= j < k -> page_used (bitmap p) j = true) ->
  (Z.to_nat (k - i) <= fuel)%nat ->
  alloc_n_loop fuel p n i = alloc_n_loop (fuel - Z.to_nat (k - i)) p n k.
Proof.
  intros Hcap Htot Hn Hi Hk Hused. revert i Hi Hused.
  induction fuel as [|fuel IH]; intros i Hi Hused Hf.
  { assert (i = k) as -> by lia. done. }
  destruct (decide (i = k)) as [->|Hne].
  { by rewrite Z.sub_diag. }
  replace (S fuel - Z.to_nat (k - i))%nat with (fuel - Z.to_nat (k - (i + 1)))%nat by lia.
  rewrite <-IH; [|lia|intros; apply Hused; lia|lia].
  cbn [alloc_n_loop]. rewrite u64_small by (unfold fits_u64; lia).
  destruct (Z.leb_spec i (total_pages p - n)); [|lia].
  destruct (bitmap_test_ok (bitmap p) i) as (v & -> & Hv); [lia|].
  mred. rewrite Hv, Hused by lia. simpl negb.
  by rewrite (u64_small (i + 1)) by (unfold fits_u64; lia).
Qed.

(** ** Lemmas: byte bitmaps are determined by their pages *)

Definition bytes_ok (bm : list Z) : Prop := Forall (fun b => 0 <= b < 256) bm.

Lemma bitmap_ext bm1 bm2 :
  bytes_ok bm1 -> bytes_ok bm2 -> length bm1 = length bm2 ->
  (forall j, 0 <= j < capacity bm1 -> page_used bm1 j = page_used bm2 j) -> bm1 = bm2.
Proof.
  intros H1 H2 Hl Hj. apply (list_eq_same_length _ _ (length bm1)); [done|done|].
  intros k b1 b2 Hk Hb1 Hb2. unfold bytes_ok in *. rewrite Forall_lookup in H1, H2.
  specialize (H1 _ _ Hb1). specialize (H2 _ _ Hb2). apply Z.bits_inj'. intros m Hm.
  destruct (decide (m < 8)) as [Hm8|]; [|by rewrite !testbit_byte_high by lia].
  pose proof (lookup_lt_Some _ _ _ Hb1).
  specialize (Hj (8 * Z.of_nat k + m)). unfold page_used, capacity in Hj.
  assert ((8 * Z.of_nat k + m) / 8 = Z.of_nat k) as E1 by zdiv.
  assert ((8 * Z.of_nat k + m) mod 8 = m) as E2 by zdiv.
  rewrite E1, E2, Nat2Z.id, !nth_lookup, Hb1, Hb2 in Hj. apply Hj. lia.
Qed.

Lemma bitmap_set_bytes bm i bm' : bytes_ok bm -> bitmap_set bm i = Ok bm' -> bytes_ok bm'.
Proof.
  unfold bitmap_set. intros Hb H. ok_inv. apply arr_set_Ok_inv in H as [_ ->].
  apply Forall_insert; [done|apply u8_range].
Qed.

Lemma bitmap_clear_bytes bm i bm' : bytes_ok bm -> bitmap_clear bm i = Ok bm' -> bytes_ok bm'.
Proof.
  unfold bitmap_clear. intros Hb H. ok_inv. apply arr_set_Ok_inv in H as [_ ->].
  apply Forall_insert; [done|apply u8_range].
Qed.

Lemma alloc_loop_bytes fuel p i j p' :
  bytes_ok (bitmap p) -> alloc_loop fuel p i = Ok (Some (j, p')) -> bytes_ok (bitmap p').
Proof.
  revert i. induction fuel as [|fuel IH]; intros i Hb H; simpl in H; ok_inv; [|by eapply IH].
  simpl. by eapply bitmap_set_bytes.
Qed.

Lemma pmm_alloc_bytes p r p' :
  bytes_ok (bitmap p) -> pmm_alloc p = Ok (r, p') -> bytes_ok (bitmap p').
Proof.
  unfold pmm_alloc, lock_pmm. intros Hb H. ok_inv. destruct a as [[i q]|]; ok_inv.
  - simpl. eapply alloc_loop_bytes; [|eassumption]. done.
  - done.
Qed.

Lemma pmm_free_bytes p addr p' :
  bytes_ok (bitmap p) -> pmm_free addr p = Ok p' -> bytes_ok (bitmap p').
Proof.
  unfold pmm_free, lock_pmm. intros Hb H. ok_inv; simpl in *; try done.
  eapply bitmap_clear_bytes; [|eassumption]. done.
Qed.

(** ** Lemmas: the page-aligned set-up *)

Lemma pmm_bitmap_size_eq total :
  0 <= total <= 2 ^ 52 ->
  pmm_bitmap_size total = PAGE_SIZE * pages_up ((total + 7) / 8).
Proof.
  intros Ht. unfold pmm_bitmap_size, pages_up, PAGE_SIZE.
  rewrite (u64_small (total + 7)) by (unfold fits_u64; lia).
  rewrite (u64_small (_ / 8 + _ - _)) by (unfold fits_u64; zdiv).
  change (4096 - 1) with (Z.ones 12). rewrite land_align_down; [|unfold fits_u64; zdiv|lia].
  change (2 ^ 12) with 4096. apply Z.mul_comm.
Qed.

Lemma pmm_total_range memmap : 0 <= pmm_max_address memmap / PAGE_SIZE <= 2 ^ 52.
Proof.
  assert (fits_u64 (pmm_max_address memmap)) as H.
  { unfold pmm_max_address. apply fold_left_inv; [unfold fits_u64; lia|].
    intros m e Hm. pose proof (u64_fits (base e + len e)). repeat case_match; done. }
  unfold fits_u64, PAGE_SIZE in *. zdiv.
Qed.

Section PmmInit.
Context (hhdm_offset : Z) (memmap : list limine_memmap_entry) (p : pmm).
Let total := pmm_max_address memmap / PAGE_SIZE.
Let size := pmm_bitmap_size total.

Lemma pmm_size_bounds : 0 <= size /\ total <= 8 * size /\ size mod PAGE_SIZE = 0.
Proof.
  pose proof (pmm_total_range memmap) as Ht. fold total in Ht.
  unfold size. rewrite pmm_bitmap_size_eq by done. unfold pages_up, PAGE_SIZE. zdiv.
Qed.

Lemma full_capacity : capacity (replicate (Z.to_nat size) 255) = 8 * size.
Proof.
  unfold capacity. rewrite length_replicate. destruct pmm_size_bounds as (? & _). lia.
Qed.

Lemma pmm_entries_fit :
  memmap_ok memmap ->
  Forall (fun e => usable e = true -> entry_fits e /\
    base e / PAGE_SIZE + pages_up (len e) <= capacity (replicate (Z.to_nat size) 255)) memmap.
Proof.
  intros Hok. eapply Forall_impl; [exact (memmap_end_below memmap _ Hok (pmm_max_ge memmap))|].
  intros e He Hu. destruct (He Hu) as [Hf Hb]. split; [done|]. fold total in Hb.
  rewrite full_capacity. destruct pmm_size_bounds as (_ & ? & _). lia.
Qed.

Lemma pmm_init_ok k e :
  memmap_ok memmap ->
  list_find (fun e => usable e && (len e >=? size) = true) memmap = Some (k, e) -> base e <> 0 ->
  exists bm, pmm_init hhdm_offset memmap p
      = Ok (mk_pmm bm (u64 (base e + hhdm_offset)) size total
              (used_pages p) (pmm_lock p) (pmm_cpu p)) /\
    total <= capacity bm /\
    forall i, 0 <= i < capacity bm ->
      page_used bm i = in_range (base e / PAGE_SIZE) (size / PAGE_SIZE) i
                       || negb (existsb (fun e => covers e i) memmap).
Proof.
  intros Hok Hfind Hbase. pose proof (pmm_entries_fit Hok) as Hfit.
  pose proof full_capacity as Hc0. destruct pmm_size_bounds as (Hs0 & Hs8 & Hsm).
  unfold pmm_init. fold total. fold size. rewrite Hfind.
  destruct (Z.eqb_spec (base e) 0); [done|].
  apply list_find_Some in Hfind as (Hk & Hsel & _). apply andb_true_iff in Hsel as [Hu Hlen].
  destruct Hok as [Hall Hpages].
  destruct (clear_usable_ok memmap _ 0 Hfit) as (bm1 & -> & Hl1 & Hb1); [lia|lia|]. mred.
  rewrite Forall_lookup in Hfit, Hall. destruct (Hfit _ _ Hk Hu) as [(? & ? & ?) Hend].
  assert (capacity bm1 = 8 * size) as Hc1 by (rewrite <-Hc0; unfold capacity; by rewrite Hl1).
  bool_hyps.
  destruct (set_loop_ok (Z.to_nat (size / PAGE_SIZE)) bm1 (base e / PAGE_SIZE) 0)
    as (bm2 & -> & Hl2 & Hb2); [unfold pages_up, PAGE_SIZE in *; zdiv..|]. mred.
  assert (capacity bm2 = 8 * size) as Hc2 by (rewrite <-Hc1; unfold capacity; by rewrite Hl2).
  exists bm2. split_and!; [done|lia|]. intros i Hi. rewrite Hb2, Hb1 by lia.
  rewrite page_used_full, andb_true_r by lia.
  by rewrite Z.add_0_r, Z2Nat.id by (unfold PAGE_SIZE; zdiv).
Qed.
End PmmInit.

(** ** Theorems *)

(** C1: The page allocator refines the abstract page set: for every sequence
    of allocations and of releases of allocatable pages, started with the lock
    free, every call returns (no fault, no hang), its results are those of a
    set from which the lowest page is taken and into which released pages are
    put back, pages in use plus pages left stay constant, and every call leaves
    the lock free and the caller's flags register as it was. *)
Theorem pmm_refines_page_set ops p F :
  pmm_ok p -> free_pages p F -> Forall (op_in_range (total_pages p)) ops ->
  exists rs p' F', pmm_trace ops p = Ok (rs, p') /\
    page_spec_trace (total_pages p) F ops rs F' /\ free_pages p' F' /\
    page_balance p' F' = page_balance p F /\ pmm_ok p' /\
    pmm_lock p' = pmm_lock p /\ pmm_cpu p' = pmm_cpu p.
Proof.
  intros Hok HF Hops. destruct (trace_refines ops p F Hok HF Hops)
    as (rs & p' & F' & Ht & Hs & HF' & Hsame & Hb).
  exists rs, p', F'. pose proof (same_frame_ok _ _ Hsame Hok).
  destruct Hsame as (_ & _ & _ & _ & ? & ?). by split_and!.
Qed.

(** Sixteen pages; 0, 1 and 3 in use. *)
Definition sample_pmm : pmm := mk_pmm [11; 0] 18446603336221200384 2 5 3 (mk_safe_lock 0) (mk_cpu 514).

Lemma pmm_refines_page_set_witness :
  exists rs p', pmm_trace [OpAlloc; OpAlloc; OpAlloc; OpFree 8192; OpAlloc] sample_pmm = Ok (rs, p')
    /\ rs = [8192; 16384; 0; 0; 8192] /\ pmm_cpu p' = mk_cpu 514.
Proof.
  assert (pmm_ok sample_pmm) as Hok by (unfold pmm_ok, capacity; simpl; lia).
  assert (free_pages sample_pmm {[2; 4]}) as HF.
  { intros i. rewrite elem_of_union, !elem_of_singleton. simpl. split.
    - intros [-> | ->]; split; (lia || reflexivity).
    - intros [Hi Hu]. assert (i = 1 \/ i = 2 \/ i = 3 \/ i = 4) as [->|[->|[->| ->]]] by lia;
        (discriminate Hu || lia). }
  assert (Forall (op_in_range (total_pages sample_pmm))
            [OpAlloc; OpAlloc; OpAlloc; OpFree 8192; OpAlloc]) as Hops.
  { repeat constructor; vm_compute; (intros ?; discriminate || reflexivity). }
  destruct (pmm_refines_page_set _ sample_pmm _ Hok HF Hops)
    as (rs & p' & F' & Ht & _ & _ & _ & _ & _ & Hc).
  exists rs, p'. split; [exact Ht|]. split; [|exact Hc].
  vm_compute in Ht. injection Ht as <- _. reflexivity.
Defined.

(** Freeing the page [pmm_alloc] just returned restores the allocator's
    state exactly. *)
Theorem pmm_alloc_free_roundtrip p r p' :
  pmm_ok p -> bytes_ok (bitmap p) -> fits_u64 (used_pages p) ->
  pmm_alloc p = Ok (r, p') -> r <> 0 -> pmm_free r p' = Ok p.
Proof.
  intros Hok Hb Hu Ha Hr. pose proof (pmm_alloc_bytes _ _ _ Hb Ha) as Hb'.
  destruct (pmm_alloc_cases p Hok) as (r0 & q & Ha' & Hsame & [Hsome|(Hnull & _)]);
    rewrite Ha in Ha'; injection Ha' as <- <-; [|done].
  destruct Hsome as (i & -> & Hi & Hfree & _ & Hbits & Hused).
  pose proof (same_frame_ok _ _ Hsame Hok) as Hok'. pose proof Hsame as (Ht & Hl & Hs1 & Hs2 & Hs3 & Hs4).
  assert (i * PAGE_SIZE / PAGE_SIZE = i) as Hdiv by (apply Z.div_mul; done).
  destruct (pmm_free_cases p' (i * PAGE_SIZE) Hok') as (q & Hf & Hsame' & Hbits' & Hused').
  { unfold PAGE_SIZE. lia. }
  { rewrite Hdiv. destruct Hok as (? & _). unfold capacity in *. lia. }
  rewrite Hf. f_equal. rewrite Hdiv in Hbits', Hused'.
  rewrite Hbits, Z.eqb_refl, Hused in Hused' by lia.
  destruct Hsame' as (Ht' & Hl' & Hs1' & Hs2' & Hs3' & Hs4').
  assert (bitmap q = bitmap p) as Hbm.
  { apply bitmap_ext; [by eapply pmm_free_bytes|done|congruence|]. intros j Hj.
    rewrite Hbits', Hbits by lia. destruct (Z.eqb_spec i j) as [<-|]; [by rewrite Hfree|done]. }
  simpl in Hused'. rewrite u64_sub_l, Z.add_simpl_r, u64_small in Hused' by done.
  destruct p, p', q; simpl in *; congruence.
Qed.

Lemma pmm_alloc_free_roundtrip_witness :
  exists p', pmm_alloc sample_pmm = Ok (8192, p') /\ pmm_free 8192 p' = Ok sample_pmm.
Proof.
  eexists. split; [vm_compute; reflexivity|].
  apply (pmm_alloc_free_roundtrip sample_pmm 8192).
  - unfold pmm_ok, capacity; simpl; lia.
  - repeat constructor; lia.
  - unfold fits_u64; simpl; lia.
  - vm_compute; reflexivity.
  - lia.
Defined.

(** [pmm_alloc_n] does not look at the pages it hands out: when pages 1 to
    [n - 1] are in use and page [n] is free it returns the run of [n] pages
    from page [n] on, whatever the state of pages [n + 1] to [2 n - 1]. *)
Theorem pmm_alloc_n_ignores_used_pages p n :
  pmm_ok p -> 2 <= n -> n + n <= total_pages p ->
  (forall j, 1 <= j < n -> page_used (bitmap p) j = true) ->
  page_used (bitmap p) n = false ->
  exists p', pmm_alloc_n p n = Ok (n * PAGE_SIZE, p') /\
    used_pages p' = u64 (used_pages p + n) /\
    forall j, 0 <= j -> page_used (bitmap p') j = in_range n n j || page_used (bitmap p) j.
Proof.
  intros (Hcap & Htot & Hl) Hn Hfit Hused Hfree. unfold pmm_alloc_n.
  destruct (Z.eqb_spec n 0), (Z.eqb_spec n 1); [lia..|].
  rewrite lock_pmm_ok by done. mred. set (q := with_lock p _ _).
  change (capacity (bitmap q)) with (capacity (bitmap p)).
  rewrite (alloc_n_skip _ q n 1 n); simpl; try (done || lia).
  destruct (S (Z.to_nat (capacity (bitmap p))) - Z.to_nat (n - 1))%nat as [|fuel] eqn:Hfuel; [lia|].
  simpl. rewrite (u64_small (total_pages p - n)) by (unfold fits_u64; lia).
  destruct (Z.leb_spec n (total_pages p - n)); [|lia].
  destruct (bitmap_test_ok (bitmap p) n) as (v & -> & Hv); [lia|].
  mred. rewrite Hv, Hfree. simpl. destruct (Z.ltb_spec n n); [lia|]. mred.
  destruct (set_loop_ok (Z.to_nat n) (bitmap p) n 0) as (bm & Hs & _ & Hb); [lia..|].
  simpl in Hs. rewrite Hs. mred. rewrite (alloc_page_fits p) by lia. rewrite (unlock_after p) by done.
  eexists; split_and!; [done|done|]. intros j Hj. simpl. rewrite Hb by done.
  by rewrite Z.add_0_r, Z2Nat.id by lia.
Qed.

Lemma pmm_alloc_n_ignores_used_pages_witness :
  page_used (bitmap sample_pmm) 3 = true /\
  exists p', pmm_alloc_n sample_pmm 2 = Ok (8192, p') /\ used_pages p' = 5.
Proof.
  split; [reflexivity|].
  destruct (pmm_alloc_n_ignores_used_pages sample_pmm 2) as (p' & Hr & Hu & _).
  - unfold pmm_ok, capacity; simpl; lia.
  - lia.
  - simpl; lia.
  - intros j Hj. assert (j = 1) as -> by lia. reflexivity.
  - reflexivity.
  - exists p'. split; [exact Hr|exact Hu].
Defined.

(** The boot-time set-up, on a memory map whose usable entries are page
    aligned and whose highest address is a multiple of eight pages: if an
    entry can hold the bitmap it returns, with a page free exactly when a
    usable entry of the map left after the bitmap was carved out covers it and
    with as many allocatable pages as were cleared; if none can and no bitmap
    existed before, it halts. *)
Theorem init_bitmap_free_pages hhdm_offset memmap p :
  memmap_ok memmap -> get_highest_phys_addr memmap mod (8 * PAGE_SIZE) = 0 ->
  match carve_bitmap memmap (get_highest_phys_addr memmap / PAGE_SIZE / 8) with
  | None => bitmap_ptr p = 0 -> init_bitmap hhdm_offset memmap p = Halt
  | Some (b, memmap') =>
      u64 (b + hhdm_offset) <> 0 ->
      exists p', init_bitmap hhdm_offset memmap p = Ok (memmap', p') /\
        bitmap_ptr p' = u64 (b + hhdm_offset) /\
        bitmap_size p' = get_highest_phys_addr memmap / PAGE_SIZE / 8 /\
        total_pages p' = usable_pages memmap' /\
        forall i, 0 <= i < capacity (bitmap p') ->
          (page_used (bitmap p') i = false <-> exists e, e ∈ memmap' /\ covers e i = true)
  end.
Proof.
  intros Hok Hmod. destruct (carve_bitmap _ _) as [[b memmap']|] eqn:Hc.
  - intros Hptr. destruct (init_bitmap_ok hhdm_offset memmap p b memmap' Hok Hmod Hc Hptr)
      as (bm & -> & Hcap & Hb).
    eexists; split_and!; try done. intros i Hi. simpl in *. rewrite Hb by done.
    rewrite negb_false_iff, existsb_exists. by setoid_rewrite list_elem_of_In.
  - intros Hp. unfold init_bitmap. by rewrite Hc, Hp.
Qed.

(** One usable entry, pages 1 to 7; the bitmap is one byte long. *)
Definition small_memmap : list limine_memmap_entry := [mk_entry 4096 28672 0].
Definition boot_pmm : pmm := mk_pmm [] 0 0 0 0 (mk_safe_lock 0) (mk_cpu 2).

Lemma small_memmap_ok : memmap_ok small_memmap.
Proof.
  split; [|by vm_compute]. repeat constructor; simpl;
    unfold PAGE_SIZE; try lia; intros ? ?; discriminate.
Qed.

Lemma init_bitmap_free_pages_witness :
  exists p', init_bitmap 18446603336221196288 small_memmap boot_pmm
      = Ok ([mk_entry 4097 28671 0], p') /\ total_pages p' = 7.
Proof.
  pose proof (init_bitmap_free_pages 18446603336221196288 small_memmap boot_pmm small_memmap_ok
    eq_refl) as H.
  change (carve_bitmap _ _) with (Some (4096, [mk_entry 4097 28671 0])) in H. simpl in H.
  destruct H as (p' & Hr & _ & _ & Ht & _); [vm_compute; discriminate|].
  exists p'. split; [exact Hr|exact Ht].
Defined.

(** Unless the bitmap's size is a whole number of pages, the set-up marks
    free the page that holds the bitmap's last byte, so that the allocator can
    hand out the memory it keeps its own bitmap in. *)
Theorem init_bitmap_exposes_bitmap hhdm_offset memmap p b memmap' :
  memmap_ok memmap -> get_highest_phys_addr memmap mod (8 * PAGE_SIZE) = 0 ->
  carve_bitmap memmap (get_highest_phys_addr memmap / PAGE_SIZE / 8) = Some (b, memmap') ->
  u64 (b + hhdm_offset) <> 0 ->
  (get_highest_phys_addr memmap / PAGE_SIZE / 8) mod PAGE_SIZE <> 0 ->
  exists p', init_bitmap hhdm_offset memmap p = Ok (memmap', p') /\
    bitmap_ptr p' = u64 (b + hhdm_offset) /\
    page_used (bitmap p') ((b + bitmap_size p' - 1) / PAGE_SIZE) = false.
Proof.
  intros Hok Hmod Hc Hptr Hodd. pose proof Hok as [Hall _].
  destruct (init_bitmap_ok hhdm_offset memmap p b memmap' Hok Hmod Hc Hptr) as (bm & -> & Hcap & Hb).
  eexists; split_and!; [done|done|]. simpl.
  set (size := get_highest_phys_addr memmap / PAGE_SIZE / 8) in *.
  assert (0 <= get_highest_phys_addr memmap) as Hmax.
  { unfold get_highest_phys_addr. apply (fold_left_max _ (fun _ => false) (fun _ => 0)); [|done].
    intros m e. repeat case_match; bool_hyps; lia. }
  assert (0 <= size) by (unfold size, PAGE_SIZE; zdiv).
  destruct (carved_ok memmap size b memmap' Hok) as [Hcarved _]; [done|done|].
  destruct (carve_bitmap_inv _ _ _ _ Hc) as (pre & e & post & Hm & Hu & Hlen & -> & Hm').
  rewrite Hm, Forall_app, Forall_cons in Hall. destruct Hall as (_ & He & _).
  destruct (He Hu) as [(Hb0 & Hl0 & Hf0) [Ha1 Ha2]].
  rewrite Hm', Forall_app, Forall_cons in Hcarved. destruct Hcarved as (_ & He' & _).
  rewrite !u64_small in He', Hm' by (unfold fits_u64, PAGE_SIZE in *; lia).
  destruct (He' Hu) as [_ Hend]. simpl in Hend. rewrite <-Hcap in Hend.
  unfold pages_up, PAGE_SIZE in *.
  rewrite Hb by zdiv. apply negb_false_iff, existsb_exists.
  exists (mk_entry (base e + size) (len e - size) (type e)). split.
  - rewrite Hm'. apply in_or_app. right. by left.
  - unfold covers, usable, in_range, pages_up, PAGE_SIZE. simpl. unfold usable in Hu. rewrite Hu. simpl.
    apply andb_true_iff; split; [apply Z.leb_le|apply Z.ltb_lt]; zdiv.
Qed.

Lemma init_bitmap_exposes_bitmap_witness :
  exists p' p'', init_bitmap 18446603336221196288 small_memmap boot_pmm
      = Ok ([mk_entry 4097 28671 0], p') /\
    bitmap_ptr p' = u64 (4096 + 18446603336221196288) /\ pmm_alloc p' = Ok (4096, p'').
Proof.
  destruct (init_bitmap_exposes_bitmap 18446603336221196288 small_memmap boot_pmm 4096
    [mk_entry 4097 28671 0] small_memmap_ok eq_refl eq_refl) as (p' & Hr & Hp & _).
  - vm_compute; discriminate.
  - vm_compute; discriminate.
  - exists p'. vm_compute in Hr. injection Hr as <-. eexists.
    split; [vm_compute; reflexivity|]. split; [vm_compute; reflexivity|vm_compute; reflexivity].
Defined.

(** C31: [pmm_init], on a memory map whose usable entries are page aligned, of
    which the first that can hold the bitmap does not start at address 0,
    leaves the allocator in a state from which every page it can hand out is
    covered by a usable entry and holds no byte of the bitmap, and it loses no
    other usable page; it halts when there is no such entry. *)
Theorem pmm_init_free_pages hhdm_offset memmap p :
  let size := pmm_bitmap_size (pmm_max_address memmap / PAGE_SIZE) in
  memmap_ok memmap -> pmm_max_address memmap <= 2 ^ 52 -> locked (pmm_lock p) = 0 ->
  match list_find (fun e => usable e && (len e >=? size) = true) memmap with
  | None => pmm_init hhdm_offset memmap p = Halt
  | Some (_, b) =>
      if base b =? 0 then pmm_init hhdm_offset memmap p = Halt
      else exists p', pmm_init hhdm_offset memmap p = Ok p' /\ pmm_ok p' /\
        bitmap_ptr p' = u64 (base b + hhdm_offset) /\
        forall i, 0 <= i < total_pages p' ->
          (page_used (bitmap p') i = false <->
           (exists e, e ∈ memmap /\ covers e i = true) /\
           in_range (base b / PAGE_SIZE) (bitmap_size p' / PAGE_SIZE) i = false)
  end.
Proof.
  intros size Hok Hmax Hl. destruct (list_find _ _) as [[k b]|] eqn:Hf.
  - destruct (Z.eqb_spec (base b) 0) as [Hb|Hb].
    { unfold pmm_init. fold size. by rewrite Hf, Hb. }
    destruct (pmm_init_ok hhdm_offset memmap p k b Hok Hf Hb) as (bm & -> & Hcap & Hbits).
    pose proof (pmm_total_range memmap) as Ht.
    eexists; split_and!; [done| |done|].
    + unfold pmm_ok; simpl. split_and!; try lia. unfold PAGE_SIZE. zdiv.
    + intros i Hi. simpl in *. rewrite Hbits by lia.
      rewrite orb_false_iff, negb_false_iff, existsb_exists.
      setoid_rewrite list_elem_of_In. tauto.
  - unfold pmm_init. fold size. by rewrite Hf.
Qed.

Lemma pmm_init_free_pages_witness :
  exists p' p'', pmm_init 18446603336221196288 small_memmap boot_pmm = Ok p' /\
    pmm_ok p' /\ pmm_alloc p' = Ok (8192, p'').
Proof.
  pose proof (pmm_init_free_pages 18446603336221196288 small_memmap boot_pmm small_memmap_ok
    ltac:(vm_compute; discriminate) eq_refl) as H.
  change (list_find _ _) with (Some (0%nat, mk_entry 4096 28672 0)) in H. cbn [base] in H.
  change (4096 =? 0) with false in H. destruct H as (p' & Hr & Hok & _).
  exists p'. vm_compute in Hr. injection Hr as <-. eexists.
  split; [vm_compute; reflexivity|]. split; [exact Hok|vm_compute; reflexivity].
Defined.
