(* ===== verification/Paging.v ===== *)
(** * Page tables (src/include/mem/paging.h and the paging part of mem.c)

    Physical memory is seen through the kernel's direct map: [mem a] is the
    64-bit word at virtual address [a], and physical address [x] is at
    [PHYS_TO_VIRT x].  [map_page] descends the four levels, allocating and
    clearing the tables it misses; [walk] is the translation the processor
    performs.  A tree is well formed when no table is used twice and no table
    lies in a page the allocator can still hand out. *)

From S2P Require Import Prelude Sync Bitmap Pmm.

Definition PTE_PRESENT : Z := 1.
Definition PTE_WRITABLE : Z := 2.
Definition PTE_USER : Z := 4.
Definition PTE_PWT : Z := 8.
Definition PTE_PCD : Z := 16.
Definition PTE_NX : Z := 9223372036854775808.
Definition ENTRIES_PER_TABLE : Z := 512.
Definition USER_SPACE_END : Z := 140737488355327.
Definition USR_STACK_BASE : Z := 140737488351232.

(** ** Bit-fields of [page_table_entry_t] *)

Definition pte_present (e : Z) : Z := bf_get e 0 1.
Definition pte_rw (e : Z) : Z := bf_get e 1 1.
Definition pte_us (e : Z) : Z := bf_get e 2 1.
Definition pte_address (e : Z) : Z := bf_get e 12 40.
Definition set_present (e v : Z) : Z := bf_set e 0 1 v.
Definition set_rw (e v : Z) : Z := bf_set e 1 1 v.
Definition set_us (e v : Z) : Z := bf_set e 2 1 v.
Definition set_address (e v : Z) : Z := bf_set e 12 40 v.

(** ** Bit-fields of [virtual_address_t] *)

Definition va_offset (v : Z) : Z := bf_get v 0 12.
Definition pt_index (v : Z) : Z := bf_get v 12 9.
Definition pd_index (v : Z) : Z := bf_get v 21 9.
Definition pdpt_index (v : Z) : Z := bf_get v 30 9.
Definition pml4_index (v : Z) : Z := bf_get v 39 9.

(** ** State *)

Record vm := mk_vm {
  vm_pmm : pmm;
  mem : Z -> Z;
  hhdm_offset : Z;
  kernel_pml4 : Z
}.

Definition with_pmm (s : vm) (p : pmm) : vm := mk_vm p (mem s) (hhdm_offset s) (kernel_pml4 s).
Definition with_mem (s : vm) (m : Z -> Z) : vm := mk_vm (vm_pmm s) m (hhdm_offset s) (kernel_pml4 s).
Definition with_kernel_pml4 (s : vm) (a : Z) : vm := mk_vm (vm_pmm s) (mem s) (hhdm_offset s) a.

Definition PHYS_TO_VIRT (h phys : Z) : Z := u64 (phys + h).
Definition VIRT_TO_PHYS (h virt : Z) : Z := if negb (virt =? 0) then u64 (virt - h) else virt.

(** [&table->entries[i]]. *)
Definition entry_addr (table i : Z) : Z := u64 (table + 8 * i).

Definition store (m : Z -> Z) (a v : Z) : Z -> Z := fun x => if x =? a then v else m x.
(** [memset(t, 0, PAGE_SIZE)]. *)
Definition clear_page (m : Z -> Z) (t : Z) : Z -> Z :=
  fun x => if u64 (x - t) <? PAGE_SIZE then 0 else m x.

(** ** map_page *)

(** Returns the physical address of a cleared page, 0 for [NULL]. *)
Definition alloc_page_table (s : vm) : outcome (Z * vm) :=
  '(phys_addr, p) ← pmm_alloc (vm_pmm s);
  let s := with_pmm s p in
  if phys_addr =? 0 then Ok (0, s)
  else Ok (phys_addr, with_mem s (clear_page (mem s) (PHYS_TO_VIRT (hhdm_offset s) phys_addr))).

Definition us_flag (flags : Z) : Z := if Z.land flags PTE_USER =? 0 then 0 else 1.

(** The four assignments [map_page] makes to an entry. *)
Definition fill_entry (e flags frame : Z) : Z :=
  let e := set_present e 1 in
  let e := set_rw e 1 in
  let e := set_us e (us_flag flags) in
  set_address e frame.

(** The block [map_page] repeats for each upper level: if the entry is not
    present, a new table is linked in; the table's address is returned. *)
Definition ensure_table (entry flags : Z) (s : vm) : outcome (Z * vm) :=
  s ← (if pte_present (mem s entry) =? 0 then
         '(new_table, s) ← alloc_page_table s;
         if new_table =? 0 then Halt
         else
           let e := fill_entry (mem s entry) flags (Z.shiftr new_table 12) in
           Ok (with_mem s (store (mem s) entry e))
       else Ok s);
  Ok (PHYS_TO_VIRT (hhdm_offset s) (u64 (Z.shiftl (pte_address (mem s entry)) 12)), s).

Definition map_page (pml4_virt virt_addr_raw paddr flags : Z) (s : vm) : outcome vm :=
  let pml4_entry := entry_addr pml4_virt (pml4_index virt_addr_raw) in
  '(pdpt, s) ← ensure_table pml4_entry flags s;
  let pdpt_entry := entry_addr pdpt (pdpt_index virt_addr_raw) in
  '(pd, s) ← ensure_table pdpt_entry flags s;
  let pd_entry := entry_addr pd (pd_index virt_addr_raw) in
  '(pt, s) ← ensure_table pd_entry flags s;
  let pt_entry := entry_addr pt (pt_index virt_addr_raw) in
  let e := fill_entry (mem s pt_entry) flags (Z.shiftr paddr 12) in
  Ok (with_mem s (store (mem s) pt_entry e)).

(** ** Address spaces *)

(** Entries 256 to 511 of one table copied into another. *)
Fixpoint copy_entries (n : nat) (m : Z -> Z) (dst src i : Z) : Z -> Z :=
  match n with
  | O => m
  | S n => copy_entries n (store m (entry_addr dst i) (m (entry_addr src i))) dst src (i + 1)
  end.
Definition copy_kernel_half (m : Z -> Z) (dst src : Z) : Z -> Z := copy_entries 256 m dst src 256.

Definition create_new_pml4 (s : vm) : outcome (Z * vm) :=
  '(pml4_phys, p) ← pmm_alloc (vm_pmm s);
  let s := with_pmm s p in
  if pml4_phys =? 0 then Ok (0, s)
  else
    let pml4_virt := PHYS_TO_VIRT (hhdm_offset s) pml4_phys in
    let m := clear_page (mem s) pml4_virt in
    Ok (pml4_virt, with_mem s (copy_kernel_half m pml4_virt (kernel_pml4 s))).

(** ** Mapping ranges *)

Definition range_fuel (n : Z) : nat := S (Z.to_nat (n / PAGE_SIZE)).

(** [for (phys = base; phys < (base + length); phys += PAGE_SIZE)]. *)
Fixpoint map_ram_loop (fuel : nat) (phys last : Z) (s : vm) : outcome vm :=
  if phys <? last then
    match fuel with
    | O => Hang
    | S fuel =>
        s ← map_page (kernel_pml4 s) (PHYS_TO_VIRT (hhdm_offset s) phys) phys PTE_WRITABLE s;
        map_ram_loop fuel (u64 (phys + PAGE_SIZE)) last s
    end
  else Ok s.

Fixpoint map_ram (memmap : list limine_memmap_entry) (s : vm) : outcome vm :=
  match memmap with
  | [] => Ok s
  | e :: rest =>
      if type e =? LIMINE_MEMMAP_RESERVED then map_ram rest s
      else
        s ← map_ram_loop (range_fuel (len e)) (base e) (u64 (base e + len e)) s;
        map_ram rest s
  end.

(** [for (offset = 0; offset < ksize; offset += PAGE_SIZE)]. *)
Fixpoint map_kernel_loop (fuel : nat) (kpaddr kvaddr ksize offset : Z) (s : vm) : outcome vm :=
  if offset <? ksize then
    match fuel with
    | O => Hang
    | S fuel =>
        s ← map_page (kernel_pml4 s) (u64 (kvaddr + offset)) (u64 (kpaddr + offset)) PTE_WRITABLE s;
        map_kernel_loop fuel kpaddr kvaddr ksize (u64 (offset + PAGE_SIZE)) s
    end
  else Ok s.
Definition map_kernel (kpaddr kvaddr ksize : Z) (s : vm) : outcome vm :=
  map_kernel_loop (range_fuel ksize) kpaddr kvaddr ksize 0 s.

(** ** User pointers *)

Definition is_valid_user_address (addr size : Z) : bool :=
  let start := addr in
  let last := u64 (start + size) in
  if last <? start then false
  else if last >? USER_SPACE_END then false
  else true.

(** ** What the processor sees *)

Definition next_table (h e : Z) : Z := PHYS_TO_VIRT h (pte_address e * PAGE_SIZE).

(** The table reached from [t] along a path of indices. *)
Fixpoint table_at (m : Z -> Z) (h t : Z) (path : list Z) : option Z :=
  match path with
  | [] => Some t
  | i :: rest =>
      let e := m (entry_addr t i) in
      if pte_present e =? 0 then None else table_at m h (next_table h e) rest
  end.

(** Every present entry on the path allows user access. *)
Fixpoint upper_us (m : Z -> Z) (h t : Z) (path : list Z) : bool :=
  match path with
  | [] => true
  | i :: rest =>
      let e := m (entry_addr t i) in
      if pte_present e =? 0 then true
      else negb (pte_us e =? 0) && upper_us m h (next_table h e) rest
  end.

Definition upper_path (v : Z) : list Z := [pml4_index v; pdpt_index v; pd_index v].

(** The four-level translation: the physical address, and whether user code
    may use it. *)
Definition walk (s : vm) (root v : Z) : option (Z * bool) :=
  match table_at (mem s) (hhdm_offset s) root (upper_path v) with
  | None => None
  | Some pt =>
      let e := mem s (entry_addr pt (pt_index v)) in
      if pte_present e =? 0 then None
      else Some (pte_address e * PAGE_SIZE + va_offset v,
                 negb (pte_us e =? 0) && upper_us (mem s) (hhdm_offset s) root (upper_path v))
  end.

(** Two addresses in the same 48-bit page. *)
Definition same_page (v v' : Z) : bool := bf_get v 12 36 =? bf_get v' 12 36.

(** ** Well-formed trees *)

Definition good_path (path : list Z) : Prop :=
  (length path <= 3)%nat /\ Forall (fun i => 0 <= i < 512) path.

Definition frame_ok (f : Z) : Prop := 0 <= f < 2 ^ 40.

(** Every table lies in a frame that [own]s it, and no two paths share one. *)
Definition tree_mem (m : Z -> Z) (h root : Z) (own : Z -> Prop) : Prop :=
  (forall path t, good_path path -> table_at m h root path = Some t ->
     exists f, t = PHYS_TO_VIRT h (f * PAGE_SIZE) /\ frame_ok f /\ own f) /\
  (forall path path' t, good_path path -> good_path path' ->
     table_at m h root path = Some t -> table_at m h root path' = Some t -> path = path').

(** The allocator will not hand out frame [f]. *)
Definition not_free (p : pmm) (f : Z) : Prop :=
  ~ (1 <= f < total_pages p /\ page_used (bitmap p) f = false).

Definition tree_ok (s : vm) (root : Z) : Prop :=
  tree_mem (mem s) (hhdm_offset s) root (not_free (vm_pmm s)).

(** ** Lemmas: addresses *)

Lemma entry_addr_eq h f i :
  entry_addr (PHYS_TO_VIRT h (f * PAGE_SIZE)) i = u64 (f * PAGE_SIZE + 8 * i + h).
Proof. unfold entry_addr, PHYS_TO_VIRT. rewrite u64_add_l. f_equal. lia. Qed.

Lemma entry_addr_inj h f g i j :
  frame_ok f -> frame_ok g -> 0 <= i < 512 -> 0 <= j < 512 ->
  entry_addr (PHYS_TO_VIRT h (f * PAGE_SIZE)) i = entry_addr (PHYS_TO_VIRT h (g * PAGE_SIZE)) j ->
  f = g /\ i = j.
Proof.
  unfold frame_ok, PAGE_SIZE. intros Hf Hg Hi Hj H. rewrite !entry_addr_eq in H.
  apply u64_inj_add in H; unfold fits_u64, PAGE_SIZE in *; lia.
Qed.

Lemma clear_page_entry m h f g i :
  frame_ok f -> frame_ok g -> 0 <= i < 512 ->
  clear_page m (PHYS_TO_VIRT h (g * PAGE_SIZE)) (entry_addr (PHYS_TO_VIRT h (f * PAGE_SIZE)) i)
  = if decide (f = g) then 0 else m (entry_addr (PHYS_TO_VIRT h (f * PAGE_SIZE)) i).
Proof.
  intros Hf Hg Hi. unfold clear_page. rewrite entry_addr_eq at 1. unfold PHYS_TO_VIRT at 1.
  rewrite u64_sub_l, u64_sub_r. unfold frame_ok, PAGE_SIZE in *.
  replace (f * 4096 + 8 * i + h - (g * 4096 + h)) with ((f - g) * 4096 + 8 * i) by lia.
  unfold u64. destruct (decide (f = g)) as [->|].
  - rewrite Z.mod_small by lia. destruct (Z.ltb_spec ((g - g) * 4096 + 8 * i) 4096); [done|lia].
  - destruct (Z.ltb_spec (((f - g) * 4096 + 8 * i) mod 18446744073709551616) 4096); [zdiv|done].
Qed.

Lemma next_table_frame h e : exists f, frame_ok f /\ next_table h e = PHYS_TO_VIRT h (f * PAGE_SIZE).
Proof. exists (pte_address e). split; [|done]. apply bf_get_range. lia. Qed.

Lemma table_at_snoc m h t path i :
  table_at m h t (path ++ [i]) =
  match table_at m h t path with
  | None => None
  | Some t' =>
      let e := m (entry_addr t' i) in
      if pte_present e =? 0 then None else Some (next_table h e)
  end.
Proof.
  revert t. induction path as [|j path IH]; intros t; simpl; [done|]. by case_match.
Qed.

Lemma upper_us_snoc m h t path i :
  upper_us m h t (path ++ [i]) =
  upper_us m h t path &&
  match table_at m h t path with
  | None => true
  | Some t' =>
      let e := m (entry_addr t' i) in
      if pte_present e =? 0 then true else negb (pte_us e =? 0)
  end.
Proof.
  revert t. induction path as [|j path IH]; intros t; simpl.
  { case_match; [done|]. by rewrite andb_true_r. }
  case_match; [done|]. by rewrite IH, andb_assoc.
Qed.

Lemma good_path_snoc path i :
  good_path (path ++ [i]) <-> (length path <= 2)%nat /\ Forall (fun i => 0 <= i < 512) path /\ 0 <= i < 512.
Proof.
  unfold good_path. rewrite length_app, Forall_app, Forall_singleton. simpl. intuition lia.
Qed.

(** In a tree, an entry's address determines its table and its index. *)
Lemma entry_addr_path m h root own q tq j p t i :
  tree_mem m h root own -> good_path q -> good_path p -> 0 <= j < 512 -> 0 <= i < 512 ->
  table_at m h root q = Some tq -> table_at m h root p = Some t ->
  entry_addr tq j = entry_addr t i -> q = p /\ j = i.
Proof.
  intros Htree Hq Hp Hj Hi Htq Ht He.
  destruct (proj1 Htree q tq Hq Htq) as (f & -> & Hf & _).
  destruct (proj1 Htree p t Hp Ht) as (f' & Ht' & Hf' & _). rewrite Ht' in He.
  apply entry_addr_inj in He as [-> ->]; [|done..]. split; [|done].
  apply (proj2 Htree q p t Hq Hp); [by rewrite Ht'|done].
Qed.

(** ** Lemmas: linking a fresh, cleared table into a tree *)

Section Link.
Context (m m' : Z -> Z) (h root : Z) (own : Z -> Prop).
Context (p : list Z) (i t g e' : Z).
Hypothesis Htree : tree_mem m h root own.
Hypothesis Hgood : good_path (p ++ [i]).
Hypothesis Ht : table_at m h root p = Some t.
Hypothesis Habsent : pte_present (m (entry_addr t i)) = 0.
Hypothesis Hg : frame_ok g.
Hypothesis Hfresh : ~ own g.
Hypothesis Hpresent : pte_present e' = 1.
Hypothesis Hnext : next_table h e' = PHYS_TO_VIRT h (g * PAGE_SIZE).
(** The memory after the link: the new table is zero, one entry changed. *)
Hypothesis Hm' : forall f j, frame_ok f -> 0 <= j < 512 ->
  let a := entry_addr (PHYS_TO_VIRT h (f * PAGE_SIZE)) j in
  m' a = if decide (f = g) then 0 else if decide (a = entry_addr t i) then e' else m a.

Lemma good_prefix q j : good_path (q ++ [j]) -> good_path q /\ 0 <= j < 512.
Proof. intros Hq%good_path_snoc. unfold good_path. split; [split|]; [lia|tauto|lia]. Qed.

(** An entry of an old table other than the one linked is unchanged. *)
Lemma link_entry q tq j :
  good_path q -> table_at m h root q = Some tq -> 0 <= j < 512 ->
  m' (entry_addr tq j) =
    if decide (entry_addr tq j = entry_addr t i) then e' else m (entry_addr tq j).
Proof.
  intros Hq Htq Hj. destruct (proj1 Htree q tq Hq Htq) as (f & -> & Hf & Hown).
  rewrite Hm' by done. destruct (decide (f = g)) as [->|]; [done|done].
Qed.

Lemma link_path q tq j :
  good_path q -> table_at m h root q = Some tq -> 0 <= j < 512 ->
  entry_addr tq j = entry_addr t i -> q = p /\ j = i.
Proof.
  intros. destruct (good_prefix _ _ Hgood). by eapply (entry_addr_path m h root own q tq j p t i).
Qed.

Lemma link_new_entry j : 0 <= j < 512 -> m' (entry_addr (PHYS_TO_VIRT h (g * PAGE_SIZE)) j) = 0.
Proof. intros. rewrite Hm' by done. by rewrite decide_True. Qed.

Lemma link_old_path q tq :
  good_path q -> table_at m h root q = Some tq ->
  table_at m' h root q = Some tq /\ upper_us m' h root q = upper_us m h root q.
Proof.
  revert tq. induction q as [|j q IH] using rev_ind; intros tq Hq Htq; [done|].
  destruct (good_prefix _ _ Hq) as [Hq' Hj]. rewrite table_at_snoc in Htq |- *.
  rewrite !upper_us_snoc. destruct (table_at m h root q) as [tq'|] eqn:Hq0; [|done].
  destruct (IH tq' Hq' eq_refl) as [-> ->]. cbv zeta in *.
  rewrite (link_entry q tq' j) by done. destruct (decide _) as [He|]; [|done].
  rewrite He, Habsent in Htq. done.
Qed.

Lemma link_new_path : table_at m' h root (p ++ [i]) = Some (PHYS_TO_VIRT h (g * PAGE_SIZE)).
Proof.
  destruct (good_prefix _ _ Hgood) as [Hp Hi]. rewrite table_at_snoc.
  destruct (link_old_path p t Hp Ht) as [-> _]. cbv zeta.
  rewrite (link_entry p t i), decide_True by done. by rewrite Hpresent, Hnext.
Qed.

Lemma link_old_absent : table_at m h root (p ++ [i]) = None.
Proof. rewrite table_at_snoc, Ht. cbv zeta. by rewrite Habsent. Qed.

Lemma link_inv_path q tq :
  good_path q -> table_at m' h root q = Some tq ->
  table_at m h root q = Some tq \/ (q = p ++ [i] /\ tq = PHYS_TO_VIRT h (g * PAGE_SIZE)).
Proof.
  revert tq. induction q as [|j q IH] using rev_ind; intros tq Hq Htq; [by left|].
  destruct (good_prefix _ _ Hq) as [Hq' Hj]. rewrite table_at_snoc in Htq |- *.
  destruct (table_at m' h root q) as [tq'|] eqn:Hq0; [|done]. cbv zeta in *.
  destruct (IH tq' Hq' eq_refl) as [Hold|[-> ->]].
  - rewrite Hold. cbv zeta. rewrite (link_entry q tq' j) in Htq by done.
    destruct (decide _) as [He|]; [|by left].
    destruct (link_path q tq' j Hq' Hold Hj He) as [-> ->]. right.
    rewrite Hpresent in Htq. simpl in Htq. injection Htq as <-. done.
  - rewrite link_new_entry in Htq by done. done.
Qed.

Lemma link_tree (own' : Z -> Prop) :
  (forall f, own f -> own' f) -> own' g -> tree_mem m' h root own'.
Proof.
  intros Hsub Hown'. split.
  - intros q tq Hq Htq. destruct (link_inv_path q tq Hq Htq) as [Hold|[_ ->]]; [|by exists g].
    destruct (proj1 Htree q tq Hq Hold) as (f & -> & Hf & Hown). exists f. auto.
  - assert (forall q, good_path q ->
      table_at m h root q = Some (PHYS_TO_VIRT h (g * PAGE_SIZE)) -> False) as Hno.
    { intros q Hq Htq. destruct (proj1 Htree q _ Hq Htq) as (f & He & Hf & Hown).
      apply Hfresh. apply (f_equal (fun a => entry_addr a 0)) in He.
      apply entry_addr_inj in He as [-> _]; done || lia. }
    intros q q' tq Hq Hq' H1 H2.
    destruct (link_inv_path q tq Hq H1) as [O1|[-> ->]];
      destruct (link_inv_path q' _ Hq' H2) as [O2|[-> E2]]; try done; subst.
    + by eapply (proj2 Htree).
    + by destruct (Hno q Hq).
    + by destruct (Hno q' Hq').
Qed.

Lemma link_us q (b : bool) :
  good_path q -> negb (pte_us e' =? 0) = b ->
  b && upper_us m' h root q = b && upper_us m h root q.
Proof.
  intros Hq Hb. revert Hq. induction q as [|j q IH] using rev_ind; intros Hq; [done|].
  destruct (good_prefix _ _ Hq) as [Hq' Hj]. specialize (IH Hq').
  rewrite !upper_us_snoc, !andb_assoc, IH.
  destruct (table_at m h root q) as [tq|] eqn:Hold.
  - destruct (link_old_path q tq Hq' Hold) as [-> _]. cbv zeta.
    rewrite (link_entry q tq j) by done. destruct (decide _) as [He|]; [|done].
    rewrite Hpresent, He, Habsent. simpl. rewrite Hb. by destruct b, (upper_us m h root q).
  - f_equal. destruct (table_at m' h root q) as [tq|] eqn:Hnew; [|done].
    destruct (link_inv_path q tq Hq' Hnew) as [|[_ ->]]; [congruence|].
    cbv zeta. by rewrite link_new_entry.
Qed.
End Link.

(** ** Lemmas: entries *)

Lemma fill_entry_fields e flags frame :
  pte_present (fill_entry e flags frame) = 1 /\
  pte_rw (fill_entry e flags frame) = 1 /\
  pte_us (fill_entry e flags frame) = us_flag flags /\
  pte_address (fill_entry e flags frame) = frame mod 2 ^ 40.
Proof.
  unfold fill_entry, pte_present, pte_rw, pte_us, pte_address, set_present, set_rw, set_us, set_address.
  assert (us_flag flags mod 2 ^ 1 = us_flag flags) by (unfold us_flag; by case_match).
  split_and!; bf_simpl; done.
Qed.

Lemma us_flag_eqb flags : negb (us_flag flags =? 0) = negb (Z.land flags PTE_USER =? 0).
Proof. unfold us_flag. by destruct (Z.land flags PTE_USER =? 0). Qed.

Lemma index_range_9 v o : 0 <= bf_get v o 9 < 512.
Proof. apply (bf_get_range v o 9). lia. Qed.

(** ** Lemmas: one level of [map_page] *)

(** What growing a tree preserves: the tree and the allocator stay well
    formed, existing tables and every translation stay as they were, and user
    access along a path changes only through entries made with [flags]. *)
Record extends (s s' : vm) (root flags : Z) : Prop := {
  ext_tree : tree_ok s' root;
  ext_pmm : pmm_ok (vm_pmm s');
  ext_frame : same_frame (vm_pmm s) (vm_pmm s');
  ext_hhdm : hhdm_offset s' = hhdm_offset s;
  ext_kernel : kernel_pml4 s' = kernel_pml4 s;
  ext_own : forall f, not_free (vm_pmm s) f -> not_free (vm_pmm s') f;
  ext_old : forall q t, good_path q ->
    table_at (mem s) (hhdm_offset s) root q = Some t ->
    table_at (mem s') (hhdm_offset s') root q = Some t;
  ext_us : forall q, good_path q ->
    negb (us_flag flags =? 0) && upper_us (mem s') (hhdm_offset s') root q
    = negb (us_flag flags =? 0) && upper_us (mem s) (hhdm_offset s) root q;
  ext_walk : forall v, walk s' root v = walk s root v
}.

Lemma extends_refl s root flags : tree_ok s root -> pmm_ok (vm_pmm s) -> extends s s root flags.
Proof. intros. constructor; done. Qed.

Lemma extends_trans s1 s2 s3 root flags :
  extends s1 s2 root flags -> extends s2 s3 root flags -> extends s1 s3 root flags.
Proof.
  intros [] []. constructor; try congruence; eauto using same_frame_trans.
Qed.

Lemma upper_path_good v : good_path (upper_path v).
Proof.
  unfold upper_path, good_path. split; [done|].
  repeat constructor; apply index_range_9.
Qed.

(** A tree that linked in a fresh table extends the old one. *)
Lemma link_extends s s' root flags p i t g :
  tree_ok s root -> pmm_ok (vm_pmm s') -> same_frame (vm_pmm s) (vm_pmm s') ->
  hhdm_offset s' = hhdm_offset s -> kernel_pml4 s' = kernel_pml4 s ->
  (forall f, not_free (vm_pmm s) f -> not_free (vm_pmm s') f) ->
  ~ not_free (vm_pmm s) g -> not_free (vm_pmm s') g -> frame_ok g ->
  good_path (p ++ [i]) -> table_at (mem s) (hhdm_offset s) root p = Some t ->
  pte_present (mem s (entry_addr t i)) = 0 ->
  (forall f j, frame_ok f -> 0 <= j < 512 ->
    let a := entry_addr (PHYS_TO_VIRT (hhdm_offset s) (f * PAGE_SIZE)) j in
    mem s' a = if decide (f = g) then 0
               else if decide (a = entry_addr t i)
                    then fill_entry (mem s (entry_addr t i)) flags g else mem s a) ->
  extends s s' root flags /\
  table_at (mem s') (hhdm_offset s') root (p ++ [i])
  = Some (PHYS_TO_VIRT (hhdm_offset s) (g * PAGE_SIZE)).
Proof.
  intros Htree Hpmm Hsame Hh Hk Hown Hg Hg' Hgf Hgood Ht Habs Hm.
  destruct (fill_entry_fields (mem s (entry_addr t i)) flags g) as (Hpr & _ & Hus & Had).
  assert (next_table (hhdm_offset s) (fill_entry (mem s (entry_addr t i)) flags g)
          = PHYS_TO_VIRT (hhdm_offset s) (g * PAGE_SIZE)) as Hnext.
  { unfold next_table. rewrite Had, Z.mod_small by done. done. }
  assert (forall q tq, good_path q -> table_at (mem s) (hhdm_offset s) root q = Some tq ->
    table_at (mem s') (hhdm_offset s) root q = Some tq /\
    upper_us (mem s') (hhdm_offset s) root q = upper_us (mem s) (hhdm_offset s) root q) as Hold.
  { intros. eapply (link_old_path (mem s) (mem s')); eauto. }
  rewrite Hh. split; [|by eapply (link_new_path (mem s) (mem s'))].
  constructor; try done; rewrite ?Hh.
  - unfold tree_ok. rewrite Hh. by eapply (link_tree (mem s) (mem s')).
  - intros q tq Hq Htq. by apply Hold.
  - intros q Hq. eapply (link_us (mem s) (mem s')); eauto. by rewrite Hus.
  - intros v. pose proof (upper_path_good v) as Hv. pose proof (index_range_9 v 12) as Hi9.
    unfold walk. rewrite Hh.
    destruct (table_at (mem s) _ root (upper_path v)) as [pt|] eqn:Hpt.
    + destruct (Hold _ _ Hv Hpt) as [-> ->].
      erewrite (link_entry (mem s) (mem s')) by eauto.
      destruct (decide _) as [He|]; [|done].
      assert (upper_path v = p) as <- by (eapply (link_path (mem s)); eauto).
      apply good_path_snoc in Hgood as [Hlen _]. simpl in Hlen. lia.
    + destruct (table_at (mem s') _ root (upper_path v)) as [pt|] eqn:Hpt'; [|done].
      assert (pt = PHYS_TO_VIRT (hhdm_offset s) (g * PAGE_SIZE)) as ->.
      { eapply (link_inv_path (mem s) (mem s')) in Hpt' as [|[_ ?]]; eauto; congruence. }
      by erewrite (link_new_entry (mem s) (mem s')) by eauto.
Qed.

(** Allocation in terms of the pages left. *)
Lemma alloc_fresh p F :
  pmm_ok p -> free_pages p F ->
  (F = ∅ /\ pmm_alloc p = Ok (0, p)) \/
  exists g p', pmm_alloc p = Ok (g * PAGE_SIZE, p') /\ g ∈ F /\ free_pages p' (F ∖ {[g]}) /\
    same_frame p p' /\ pmm_ok p' /\ 1 <= g /\ frame_ok g /\
    ~ not_free p g /\ not_free p' g /\ (forall f, not_free p f -> not_free p' f).
Proof.
  intros Hok HF. destruct (alloc_refines p F Hok HF) as (r & p' & F' & Ha & Hs & HF' & Hsame & _).
  pose proof (same_frame_ok _ _ Hsame Hok) as Hok'. pose proof Hsame as (Ht & _).
  inversion Hs as [? g Hg Hmin| |]; subst.
  - right. exists g, p'. pose proof (proj1 (HF g) Hg) as [Hr Hu].
    assert (forall f, not_free p' f <-> not_free p f \/ f = g) as Hnf.
    { intros f. unfold not_free. rewrite <-(HF f), <-(HF' f).
      rewrite elem_of_difference, elem_of_singleton.
      destruct (decide (f = g)), (decide (f ∈ F)); tauto. }
    split_and!; try done.
    + lia.
    + destruct Hok as (_ & ? & _). unfold frame_ok. lia.
    + unfold not_free. tauto.
    + apply Hnf. by right.
    + intros f Hf. apply Hnf. by left.
  - left. split; [done|]. destruct (pmm_alloc_cases p Hok) as (r & q & Ha' & _ & [Hsome|Hnone]).
    + destruct Hsome as (i & -> & Hi & Hu & _). assert (i ∈ (∅ : gset Z)) by by apply HF.
      set_solver.
    + destruct Hnone as (-> & -> & _). done.
Qed.

Lemma address_shift e : u64 (Z.shiftl (pte_address e) 12) = pte_address e * PAGE_SIZE.
Proof.
  pose proof (bf_get_range e 12 40) as Hr. rewrite Z.shiftl_mul_pow2 by lia.
  change (2 ^ 12) with PAGE_SIZE. unfold pte_address in *. apply u64_small.
  unfold fits_u64, PAGE_SIZE. lia.
Qed.

Lemma page_number_shift g : Z.shiftr (g * PAGE_SIZE) 12 = g.
Proof. rewrite Z.shiftr_div_pow2 by lia. by apply Z.div_mul. Qed.

Lemma ensure_table_ok s root flags p i t F :
  tree_ok s root -> pmm_ok (vm_pmm s) -> free_pages (vm_pmm s) F ->
  good_path (p ++ [i]) -> table_at (mem s) (hhdm_offset s) root p = Some t ->
  match ensure_table (entry_addr t i) flags s with
  | Ok (t', s') => extends s s' root flags /\
      table_at (mem s') (hhdm_offset s') root (p ++ [i]) = Some t' /\
      exists F', free_pages (vm_pmm s') F' /\ (size F <= S (size F'))%nat
  | Halt => F = ∅
  | _ => False
  end.
Proof.
  intros Htree Hok HF Hgood Ht. unfold ensure_table.
  destruct (Z.eqb_spec (pte_present (mem s (entry_addr t i))) 0) as [Habs|Hpr]; mred.
  2:{ rewrite address_shift. split_and!; [by apply extends_refl| |exists F; split; [done|lia]].
      rewrite table_at_snoc, Ht. cbv zeta. by rewrite (proj2 (Z.eqb_neq _ 0) Hpr). }
  unfold alloc_page_table.
  destruct (alloc_fresh (vm_pmm s) F Hok HF) as [[-> ->]|Hsome]; [done|].
  destruct Hsome as (g & p' & -> & Hg & HF' & Hsame & Hok' & Hg1 & Hgf & Hnf & Hnf' & Hmono).
  mred. destruct (Z.eqb_spec (g * PAGE_SIZE) 0); [unfold PAGE_SIZE in *; lia|]. mred.
  destruct (Z.eqb_spec (g * PAGE_SIZE) 0); [done|]. mred. cbn [with_mem with_pmm mem hhdm_offset].
  rewrite page_number_shift. destruct (good_prefix _ _ Hgood) as [Hp Hi].
  destruct (proj1 Htree p t Hp Ht) as (ft & Ht' & Hft & Hown).
  assert (ft <> g) as Hne by (intros ->; done).
  assert (clear_page (mem s) (PHYS_TO_VIRT (hhdm_offset s) (g * PAGE_SIZE)) (entry_addr t i)
          = mem s (entry_addr t i)) as Hrd.
  { rewrite Ht', clear_page_entry, decide_False by done. done. }
  rewrite Hrd. set (s' := with_mem _ _).
  destruct (link_extends s s' root flags p i t g) as [Hext Hnew]; try done.
  { intros f j Hf Hj. cbv zeta. unfold s'. cbn [with_mem mem]. unfold store.
    destruct (Z.eqb_spec (entry_addr (PHYS_TO_VIRT (hhdm_offset s) (f * PAGE_SIZE)) j) (entry_addr t i)) as [He|He].
    - rewrite decide_False, decide_True; [done|done|]. intros ->. rewrite Ht' in He.
      apply entry_addr_inj in He as [? _]; done.
    - rewrite clear_page_entry by done. destruct (decide (f = g)); [done|]. by rewrite decide_False. }
  split; [done|]. split.
  - etrans; [exact Hnew|]. unfold s'. cbn [with_mem mem hhdm_offset].
    unfold store at 1. rewrite Z.eqb_refl, address_shift.
    destruct (fill_entry_fields (mem s (entry_addr t i)) flags g) as (_ & _ & _ & ->).
    by rewrite Z.mod_small by done.
  - exists (F ∖ {[g]}). split; [done|]. pose proof (size_take F g Hg). lia.
Qed.

(** ** Lemmas: the leaf entry *)

Lemma page_number_split v :
  bf_get v 12 36
  = pt_index v + 512 * (pd_index v + 512 * (pdpt_index v + 512 * pml4_index v)).
Proof.
  unfold pt_index, pd_index, pdpt_index, pml4_index. rewrite !bf_get_div by lia.
  replace (v / 2 ^ 21) with (v / 2 ^ 12 / 512) by (rewrite Z.div_div by lia; f_equal).
  replace (v / 2 ^ 30) with (v / 2 ^ 12 / 262144) by (rewrite Z.div_div by lia; f_equal).
  replace (v / 2 ^ 39) with (v / 2 ^ 12 / 134217728) by (rewrite Z.div_div by lia; f_equal).
  generalize (v / 2 ^ 12). intros a. change (2 ^ 36) with 68719476736. change (2 ^ 9) with 512. zdiv.
Qed.

Lemma same_page_indices v v' :
  same_page v v' = true <->
  upper_path v = upper_path v' /\ pt_index v = pt_index v'.
Proof.
  unfold same_page. rewrite Z.eqb_eq, !page_number_split. unfold upper_path.
  pose proof (index_range_9 v 12). pose proof (index_range_9 v' 12).
  pose proof (index_range_9 v 21). pose proof (index_range_9 v' 21).
  pose proof (index_range_9 v 30). pose proof (index_range_9 v' 30).
  pose proof (index_range_9 v 39). pose proof (index_range_9 v' 39).
  fold (pt_index v) (pt_index v') (pd_index v) (pd_index v') (pdpt_index v) (pdpt_index v')
    (pml4_index v) (pml4_index v') in *.
  split; [intros Heq|by intros [[= -> -> ->] ->]].
  assert (pt_index v = pt_index v' /\ pd_index v = pd_index v' /\
    pdpt_index v = pdpt_index v' /\ pml4_index v = pml4_index v') as (-> & -> & -> & ->) by lia.
  done.
Qed.

Section Leaf.
Context (s : vm) (root v pt e : Z).
Hypothesis Htree : tree_ok s root.
Hypothesis Hpt : table_at (mem s) (hhdm_offset s) root (upper_path v) = Some pt.
Hypothesis Hpresent : pte_present e = 1.
Let s' := with_mem s (store (mem s) (entry_addr pt (pt_index v)) e).

(** Only the stored entry changes. *)
Lemma leaf_other q t j :
  good_path q -> table_at (mem s) (hhdm_offset s) root q = Some t -> 0 <= j < 512 ->
  (q, j) <> (upper_path v, pt_index v) -> mem s' (entry_addr t j) = mem s (entry_addr t j).
Proof.
  intros Hq Ht Hj Hne. unfold s', store. simpl.
  destruct (Z.eqb_spec (entry_addr t j) (entry_addr pt (pt_index v))) as [He|]; [|done].
  destruct (entry_addr_path _ _ _ _ q t j (upper_path v) pt (pt_index v) Htree) as [-> ->];
    try done; [apply upper_path_good|apply index_range_9].
Qed.

Lemma leaf_paths q :
  good_path q ->
  table_at (mem s') (hhdm_offset s) root q = table_at (mem s) (hhdm_offset s) root q /\
  upper_us (mem s') (hhdm_offset s) root q = upper_us (mem s) (hhdm_offset s) root q.
Proof.
  induction q as [|j q IH] using rev_ind; intros Hq; [done|].
  destruct (good_prefix _ _ Hq) as [Hq' Hj]. destruct (IH Hq') as [IH1 IH2].
  rewrite !table_at_snoc, !upper_us_snoc, IH1, IH2.
  destruct (table_at (mem s) (hhdm_offset s) root q) as [t|] eqn:Ht; [|done]. cbv zeta.
  rewrite (leaf_other q t j); [done|done|done|done|]. intros [= -> _].
  apply good_path_snoc in Hq as [Hlen _]. simpl in Hlen. lia.
Qed.

Lemma leaf_tree : tree_ok s' root.
Proof.
  destruct Htree as [H1 H2]. split.
  - intros q t Hq. change (hhdm_offset s') with (hhdm_offset s).
    destruct (leaf_paths q Hq) as [-> _]. by apply H1.
  - intros q q' t Hq Hq'. change (hhdm_offset s') with (hhdm_offset s).
    destruct (leaf_paths q Hq) as [-> _], (leaf_paths q' Hq') as [-> _]. by apply H2.
Qed.

Lemma leaf_walk_same v' :
  same_page v v' = true ->
  walk s' root v' = Some (pte_address e * PAGE_SIZE + va_offset v',
    negb (pte_us e =? 0) && upper_us (mem s) (hhdm_offset s) root (upper_path v)).
Proof.
  intros [Hu Hi]%same_page_indices. unfold walk. rewrite <-Hu, <-Hi.
  change (hhdm_offset s') with (hhdm_offset s).
  destruct (leaf_paths _ (upper_path_good v)) as [-> ->]. rewrite Hpt.
  unfold s', store. cbn [with_mem mem]. by rewrite Z.eqb_refl, Hpresent.
Qed.

Lemma leaf_walk_other v' :
  same_page v v' = false -> walk s' root v' = walk s root v'.
Proof.
  intros Hne. unfold walk. change (hhdm_offset s') with (hhdm_offset s).
  destruct (leaf_paths _ (upper_path_good v')) as [-> ->].
  destruct (table_at (mem s) (hhdm_offset s) root (upper_path v')) as [pt'|] eqn:Ht; [|done].
  rewrite (leaf_other (upper_path v') pt'); [done|apply upper_path_good|done|apply index_range_9|].
  intros [= H1 H2 H3 H4]. assert (same_page v v' = true); [|congruence].
  apply same_page_indices. unfold upper_path. by rewrite H1, H2, H3, H4.
Qed.
End Leaf.

(** ** Lemmas: map_page *)

(** The state after mapping the page of [v] to [paddr]. *)
Record mapped (s s' : vm) (root v paddr flags : Z) : Prop := {
  map_tree : tree_ok s' root;
  map_pmm : pmm_ok (vm_pmm s');
  map_frame : same_frame (vm_pmm s) (vm_pmm s');
  map_hhdm : hhdm_offset s' = hhdm_offset s;
  map_kernel_root : kernel_pml4 s' = kernel_pml4 s;
  map_own : forall f, not_free (vm_pmm s) f -> not_free (vm_pmm s') f;
  map_us : forall q, good_path q ->
    negb (us_flag flags =? 0) && upper_us (mem s') (hhdm_offset s') root q
    = negb (us_flag flags =? 0) && upper_us (mem s) (hhdm_offset s) root q;
  map_walk : forall v', same_page v v' = true ->
    walk s' root v' = Some ((paddr / PAGE_SIZE) mod 2 ^ 40 * PAGE_SIZE + va_offset v',
      negb (Z.land flags PTE_USER =? 0)
      && upper_us (mem s) (hhdm_offset s) root (upper_path v));
  map_other : forall v', same_page v v' = false -> walk s' root v' = walk s root v'
}.

Lemma extends_mapped s s1 root v pt flags paddr :
  extends s s1 root flags ->
  table_at (mem s1) (hhdm_offset s1) root (upper_path v) = Some pt ->
  let a := entry_addr pt (pt_index v) in
  mapped s (with_mem s1 (store (mem s1) a (fill_entry (mem s1 a) flags (Z.shiftr paddr 12))))
    root v paddr flags.
Proof.
  intros [] Hpt a. destruct (fill_entry_fields (mem s1 a) flags (Z.shiftr paddr 12)) as (Hpr & _ & Hus & Had).
  constructor; try done.
  - by apply leaf_tree.
  - intros q Hq. rewrite <-ext_us0 by done. f_equal.
    by destruct (leaf_paths s1 root v pt (fill_entry (mem s1 a) flags (Z.shiftr paddr 12)) ext_tree0 Hpt q Hq).
  - intros v' Hv'. etrans; [by apply leaf_walk_same|].
    rewrite Had, Hus, ext_us0, us_flag_eqb by apply upper_path_good.
    by rewrite Z.shiftr_div_pow2 by lia.
  - intros v' Hv'. rewrite <-ext_walk0. by apply leaf_walk_other.
Qed.

Lemma map_page_ok s root v paddr flags F :
  tree_ok s root -> pmm_ok (vm_pmm s) -> free_pages (vm_pmm s) F ->
  match map_page root v paddr flags s with
  | Ok s' => mapped s s' root v paddr flags /\
      exists F', free_pages (vm_pmm s') F' /\ (size F <= size F' + 3)%nat
  | Halt => (size F < 3)%nat
  | _ => False
  end.
Proof.
  intros Htree Hok HF. unfold map_page.
  destruct (upper_path_good v) as [_ Hidx].
  unfold upper_path in Hidx. rewrite !Forall_cons in Hidx. destruct Hidx as (H4 & H3 & H2 & _).
  assert (good_path ([] ++ [pml4_index v])) as G1 by (split; simpl; auto with lia).
  assert (good_path ([pml4_index v] ++ [pdpt_index v])) as G2
    by (split; simpl; auto with lia).
  assert (good_path ([pml4_index v; pdpt_index v] ++ [pd_index v])) as G3
    by (split; simpl; auto with lia).
  pose proof (ensure_table_ok s root flags [] (pml4_index v) root F Htree Hok HF G1 eq_refl) as E1.
  destruct (ensure_table _ _ s) as [[pdpt s1]| | |]; mred; try done.
  2:{ rewrite E1, size_empty. lia. }
  destruct E1 as (X1 & T1 & F1 & HF1 & S1).
  pose proof (ensure_table_ok s1 root flags [pml4_index v] (pdpt_index v) pdpt F1
    (ext_tree _ _ _ _ X1) (ext_pmm _ _ _ _ X1) HF1 G2 T1) as E2.
  destruct (ensure_table _ _ s1) as [[pd s2]| | |]; mred; try done.
  2:{ rewrite E2, size_empty in S1. lia. }
  destruct E2 as (X2 & T2 & F2 & HF2 & S2).
  pose proof (ensure_table_ok s2 root flags [pml4_index v; pdpt_index v] (pd_index v) pd F2
    (ext_tree _ _ _ _ X2) (ext_pmm _ _ _ _ X2) HF2 G3 T2) as E3.
  destruct (ensure_table _ _ s2) as [[pt s3]| | |]; mred; try done.
  2:{ rewrite E3, size_empty in S2. lia. }
  destruct E3 as (X3 & T3 & F3 & HF3 & S3).
  split; [|exists F3; split; [done|lia]].
  apply extends_mapped; [|done]. eauto using extends_trans.
Qed.

(** ** Lemmas: new address spaces *)

Lemma copy_entries_spec n m h d k i f j :
  frame_ok d -> frame_ok k -> frame_ok f -> d <> k -> 0 <= i -> i + Z.of_nat n <= 512 ->
  0 <= j < 512 ->
  let at_entry f j := entry_addr (PHYS_TO_VIRT h (f * PAGE_SIZE)) j in
  copy_entries n m (PHYS_TO_VIRT h (d * PAGE_SIZE)) (PHYS_TO_VIRT h (k * PAGE_SIZE)) i (at_entry f j)
  = if decide (f = d /\ i <= j < i + Z.of_nat n) then m (at_entry k j) else m (at_entry f j).
Proof.
  intros Hd Hk Hf Hne. cbv zeta. revert m i. induction n as [|n IH]; intros m i Hi Hn Hj; simpl.
  { rewrite decide_False by lia. done. }
  rewrite IH by lia. unfold store.
  destruct (Z.eqb_spec (entry_addr (PHYS_TO_VIRT h (k * PAGE_SIZE)) j)
    (entry_addr (PHYS_TO_VIRT h (d * PAGE_SIZE)) i)) as [He|_].
  { apply entry_addr_inj in He as [-> _]; [done|done|done|lia|lia]. }
  destruct (Z.eqb_spec (entry_addr (PHYS_TO_VIRT h (f * PAGE_SIZE)) j)
    (entry_addr (PHYS_TO_VIRT h (d * PAGE_SIZE)) i)) as [He|He].
  - apply entry_addr_inj in He as [-> ->]; [|done|done|lia|lia].
    rewrite decide_False, decide_True by lia. done.
  - assert (~ (f = d /\ j = i)) by (intros [-> ->]; done).
    destruct (decide (f = d /\ i + 1 <= j < i + 1 + Z.of_nat n)),
      (decide (f = d /\ i <= j < i + Z.of_nat (S n))); done || lia.
Qed.

(** A tree does not see changes to frames it does not own. *)
Lemma tree_agree m m' h root own q :
  tree_mem m h root own ->
  (forall f j, own f -> frame_ok f -> 0 <= j < 512 ->
     m' (entry_addr (PHYS_TO_VIRT h (f * PAGE_SIZE)) j)
     = m (entry_addr (PHYS_TO_VIRT h (f * PAGE_SIZE)) j)) ->
  good_path q ->
  table_at m' h root q = table_at m h root q /\ upper_us m' h root q = upper_us m h root q.
Proof.
  intros Htree Hm. induction q as [|j q IH] using rev_ind; intros Hq; [done|].
  destruct (good_prefix _ _ Hq) as [Hq' Hj]. destruct (IH Hq') as [IH1 IH2].
  rewrite !table_at_snoc, !upper_us_snoc, IH1, IH2.
  destruct (table_at m h root q) as [t|] eqn:Ht; [|done]. cbv zeta.
  destruct (proj1 Htree q t Hq' Ht) as (f & -> & Hf & Hown). by rewrite Hm.
Qed.

Lemma tree_agree_tree m m' h root (own own' : Z -> Prop) :
  tree_mem m h root own ->
  (forall f j, own f -> frame_ok f -> 0 <= j < 512 ->
     m' (entry_addr (PHYS_TO_VIRT h (f * PAGE_SIZE)) j)
     = m (entry_addr (PHYS_TO_VIRT h (f * PAGE_SIZE)) j)) ->
  (forall f, own f -> own' f) -> tree_mem m' h root own'.
Proof.
  intros Htree Hm Hown. split.
  - intros q t Hq. destruct (tree_agree m m' h root own q Htree Hm Hq) as [-> _].
    intros Ht. destruct (proj1 Htree q t Hq Ht) as (f & ? & ? & ?). eauto.
  - intros q q' t Hq Hq'.
    destruct (tree_agree m m' h root own q Htree Hm Hq) as [-> _].
    destruct (tree_agree m m' h root own q' Htree Hm Hq') as [-> _]. by apply Htree.
Qed.

Section NewRoot.
Context (m m' : Z -> Z) (h kroot kf g lo : Z) (own own' : Z -> Prop).
Hypothesis Htree : tree_mem m h kroot own.
Hypothesis Hkroot : kroot = PHYS_TO_VIRT h (kf * PAGE_SIZE).
Hypothesis Hkf : frame_ok kf.
Hypothesis Hkown : own kf.
Hypothesis Hg : frame_ok g.
Hypothesis Hfresh : ~ own g.
Hypothesis Hown' : forall f, own f -> own' f.
Hypothesis Hgown : own' g.
(** The new root: the entries from [lo] on are the other root's. *)
Hypothesis Hm' : forall f j, frame_ok f -> 0 <= j < 512 ->
  m' (entry_addr (PHYS_TO_VIRT h (f * PAGE_SIZE)) j)
  = if decide (f = g) then if decide (lo <= j) then m (entry_addr kroot j) else 0
    else m (entry_addr (PHYS_TO_VIRT h (f * PAGE_SIZE)) j).
Let r := PHYS_TO_VIRT h (g * PAGE_SIZE).

Lemma new_root_old f j :
  own f -> frame_ok f -> 0 <= j < 512 ->
  m' (entry_addr (PHYS_TO_VIRT h (f * PAGE_SIZE)) j)
  = m (entry_addr (PHYS_TO_VIRT h (f * PAGE_SIZE)) j).
Proof. intros Hf Hok Hj. rewrite Hm' by done. by rewrite decide_False by (intros ->; done). Qed.

Lemma new_root_cons j q :
  good_path (j :: q) ->
  table_at m' h r (j :: q) = (if decide (lo <= j) then table_at m h kroot (j :: q) else None) /\
  upper_us m' h r (j :: q) = (if decide (lo <= j) then upper_us m h kroot (j :: q) else true).
Proof.
  intros Hq. pose proof Hq as [_ [Hj _]%Forall_cons].
  pose proof (tree_agree m m' h kroot own (j :: q) Htree new_root_old Hq) as [<- <-].
  simpl. unfold r. rewrite Hm', decide_True by done.
  destruct (decide (lo <= j)); [|done].
  replace (m' (entry_addr kroot j)) with (m (entry_addr kroot j)); [done|].
  rewrite Hkroot. symmetry. by apply new_root_old.
Qed.

Lemma new_root_tree : tree_mem m' h r own'.
Proof.
  assert (forall j q t, good_path (j :: q) -> table_at m' h r (j :: q) = Some t ->
    table_at m h kroot (j :: q) = Some t) as Hcons.
  { intros j q t Hq. destruct (new_root_cons j q Hq) as [-> _]. by case_decide. }
  assert (forall q, good_path q -> table_at m h kroot q <> Some r) as Hno.
  { intros q Hq Ht. destruct (proj1 Htree q _ Hq Ht) as (f & He & Hf & Hown).
    apply Hfresh. apply (f_equal (fun a => entry_addr a 0)) in He.
    apply entry_addr_inj in He as [-> _]; done || lia. }
  split.
  - intros [|j q] t Hq Ht; [injection Ht as <-; by exists g|]. apply Hcons in Ht; [|done].
    destruct (proj1 Htree _ t Hq Ht) as (f & ? & ? & ?). eauto.
  - intros [|j q] [|j' q'] t Hq Hq' Ht Ht'; [done| | |].
    + injection Ht as <-. apply Hcons in Ht'; [|done]. by apply Hno in Ht'.
    + injection Ht' as <-. apply Hcons in Ht; [|done]. by apply Hno in Ht.
    + apply Hcons in Ht, Ht'; [|done..]. by apply (proj2 Htree _ _ t).
Qed.
End NewRoot.

(** Translation through a tree whose memory did not change. *)
Lemma walk_agree s s' root :
  tree_ok s root -> hhdm_offset s' = hhdm_offset s ->
  (forall f j, not_free (vm_pmm s) f -> frame_ok f -> 0 <= j < 512 ->
     mem s' (entry_addr (PHYS_TO_VIRT (hhdm_offset s) (f * PAGE_SIZE)) j)
     = mem s (entry_addr (PHYS_TO_VIRT (hhdm_offset s) (f * PAGE_SIZE)) j)) ->
  forall v, walk s' root v = walk s root v.
Proof.
  intros Htree Hh Hm v. unfold walk. rewrite Hh.
  destruct (tree_agree _ _ _ _ _ (upper_path v) Htree Hm (upper_path_good v)) as [-> ->].
  destruct (table_at (mem s) (hhdm_offset s) root (upper_path v)) as [pt|] eqn:Ht; [|done].
  destruct (proj1 Htree _ pt (upper_path_good v) Ht) as (f & -> & Hf & Hown).
  rewrite Hm; [done|done|done|apply index_range_9].
Qed.

Lemma tree_ok_mono s p' root :
  tree_ok s root -> (forall f, not_free (vm_pmm s) f -> not_free p' f) ->
  tree_ok (with_pmm s p') root.
Proof. intros Ht Hm. by eapply tree_agree_tree. Qed.

(** ** Large pages

    A present entry of a PDPT or a page directory with bit 7 set maps 1 GiB or
    2 MiB by itself; the processor stops there. *)

Definition pte_pat (e : Z) : Z := bf_get e 7 1.

Definition huge (m : Z -> Z) (t i : Z) : bool :=
  negb (pte_present (m (entry_addr t i)) =? 0) && negb (pte_pat (m (entry_addr t i)) =? 0).

(** The translation of [v] when its page-directory entry is a 2 MiB page: the
    frame's low nine bits are not part of the address. *)
Definition huge_walk (s : vm) (root v : Z) : option Z :=
  match table_at (mem s) (hhdm_offset s) root [pml4_index v; pdpt_index v] with
  | None => None
  | Some pd =>
      if huge (mem s) pd (pd_index v) then
        Some (pte_address (mem s (entry_addr pd (pd_index v))) / 512 * 512 * PAGE_SIZE
              + bf_get v 0 21)
      else None
  end.

Lemma ensure_table_present s entry flags :
  pte_present (mem s entry) <> 0 ->
  ensure_table entry flags s = Ok (next_table (hhdm_offset s) (mem s entry), s).
Proof.
  intros H%Z.eqb_neq. unfold ensure_table. rewrite H. mred. by rewrite address_shift.
Qed.

Lemma table_at_cons m h t i q t' :
  table_at m h t (i :: q) = Some t' ->
  pte_present (m (entry_addr t i)) <> 0 /\
  table_at m h (next_table h (m (entry_addr t i))) q = Some t'.
Proof. simpl. destruct (Z.eqb_spec (pte_present (m (entry_addr t i))) 0); [done|done]. Qed.

(** The tables above a page depend on its 2 MiB block only. *)
Lemma upper_path_block v v' : v / 2 ^ 21 = v' / 2 ^ 21 -> upper_path v = upper_path v'.
Proof.
  intros E. unfold upper_path, pml4_index, pdpt_index, pd_index. rewrite !bf_get_div by lia.
  assert (forall k, 0 <= k -> forall x, x / 2 ^ (21 + k) = x / 2 ^ 21 / 2 ^ k) as Hd.
  { intros k Hk x. rewrite Z.div_div by lia. f_equal. rewrite Z.pow_add_r by lia. done. }
  rewrite !(Hd 18), !(Hd 9), E by lia. done.
Qed.

(** A page next to one that is mapped needs no new table. *)
Lemma map_page_known s root v v' paddr flags :
  tree_ok s root -> pmm_ok (vm_pmm s) -> is_Some (walk s root v') -> v / 2 ^ 21 = v' / 2 ^ 21 ->
  exists s', map_page root v paddr flags s = Ok s' /\ mapped s s' root v paddr flags /\ vm_pmm s' = vm_pmm s.
Proof.
  intros Ht Hp [? Hw] Hb. unfold walk in Hw.
  destruct (table_at _ _ root (upper_path v')) as [pt|] eqn:Hpt; [|done]. rewrite <-(upper_path_block _ _ Hb) in Hpt.
  pose proof Hpt as Hpt'. apply table_at_cons in Hpt as [H1 Hpt]. apply table_at_cons in Hpt as [H2 Hpt].
  apply table_at_cons in Hpt as [H3 Hpt]. cbn [table_at] in Hpt. injection Hpt as Hpt.
  unfold map_page. do 3 (rewrite ensure_table_present by done; mred). rewrite Hpt. eexists. split; [reflexivity|].
  split; [|done]. apply extends_mapped; [by apply extends_refl|done].
Qed.

(** ** Theorems *)

(** C10: [map_page] on a well-formed tree with three pages in reserve returns;
    afterwards every address of the page translates into the page frame of
    [paddr], user code may use it exactly when [PTE_USER] was asked for and the
    tables that were already on the path allow it, every other page translates
    as before, and tree and allocator are again well formed. *)
Theorem map_page_correct s root v paddr flags F :
  tree_ok s root -> pmm_ok (vm_pmm s) -> free_pages (vm_pmm s) F -> (3 <= size F)%nat ->
  exists s', map_page root v paddr flags s = Ok s' /\
    tree_ok s' root /\ pmm_ok (vm_pmm s') /\ same_frame (vm_pmm s) (vm_pmm s') /\
    (forall v', same_page v v' = true ->
       walk s' root v' = Some ((paddr / PAGE_SIZE) mod 2 ^ 40 * PAGE_SIZE + va_offset v',
         negb (Z.land flags PTE_USER =? 0)
         && upper_us (mem s) (hhdm_offset s) root (upper_path v))) /\
    (forall v', same_page v v' = false -> walk s' root v' = walk s root v').
Proof.
  intros Htree Hok HF Hsize. pose proof (map_page_ok s root v paddr flags F Htree Hok HF) as H.
  destruct (map_page root v paddr flags s) as [s'| | |]; [|lia|done|done].
  destruct H as [[] _]. by exists s'.
Qed.

(** A machine of 16 pages whose kernel table is the empty page 1. *)
Definition sample_vm : vm :=
  mk_vm (mk_pmm [3; 0] 18446603336221200384 2 16 2 (mk_safe_lock 0) (mk_cpu 514))
        (fun _ => 0) 18446603336221196288 (PHYS_TO_VIRT 18446603336221196288 4096).

Lemma sample_vm_tree : tree_ok sample_vm (kernel_pml4 sample_vm).
Proof.
  split.
  - intros [|i q] t _ Ht; [|by simpl in Ht]. injection Ht as <-. exists 1.
    split; [done|]. split; [unfold frame_ok; lia|]. by intros [_ ?].
  - intros [|i q] [|i' q'] t _ _ Ht Ht'; [done|by simpl in *..].
Qed.

Lemma sample_vm_pmm : pmm_ok (vm_pmm sample_vm).
Proof. unfold pmm_ok, capacity. simpl. lia. Qed.

Lemma sample_vm_free : free_pages (vm_pmm sample_vm) (list_to_set (seqZ 2 14)).
Proof.
  intros i. rewrite elem_of_list_to_set, elem_of_seqZ. cbn [vm_pmm sample_vm total_pages bitmap].
  split.
  - intros Hi. split; [lia|].
    assert (forallb (fun i => negb (page_used [3; 0] i)) (seqZ 2 14) = true) as H by reflexivity.
    rewrite forallb_forall in H. apply negb_true_iff, H. apply list_elem_of_In, elem_of_seqZ. lia.
  - intros [Hi Hu]. destruct (decide (i = 1)) as [->|]; [discriminate Hu|lia].
Qed.

Lemma map_page_correct_witness :
  exists s', map_page (kernel_pml4 sample_vm) 4198400 40960 PTE_USER sample_vm = Ok s' /\
    walk s' (kernel_pml4 sample_vm) 4198405 = Some (40965, true) /\
    walk s' (kernel_pml4 sample_vm) 4202496 = None.
Proof.
  destruct (map_page_correct sample_vm (kernel_pml4 sample_vm) 4198400 40960 PTE_USER
    (list_to_set (seqZ 2 14)) sample_vm_tree sample_vm_pmm sample_vm_free)
    as (s' & Hs & _ & _ & _ & Hw & Ho).
  { vm_compute. lia. }
  exists s'. split; [exact Hs|]. split.
  - rewrite Hw by reflexivity. vm_compute. reflexivity.
  - rewrite Ho by reflexivity. vm_compute. reflexivity.
Defined.

(** The direct map of all managed pages lies below the top of the address
    space. *)
Definition hhdm_ok (s : vm) : Prop :=
  0 <= hhdm_offset s /\
  total_pages (vm_pmm s) * PAGE_SIZE + hhdm_offset s <= 18446744073709551616.

(** The memory [create_new_pml4] leaves, as [NewRoot] reads it. *)
Lemma new_pml4_mem m h kf g f j :
  frame_ok kf -> frame_ok g -> frame_ok f -> 0 <= j < 512 -> g <> kf ->
  let ga := PHYS_TO_VIRT h (g * PAGE_SIZE) in
  let ka := PHYS_TO_VIRT h (kf * PAGE_SIZE) in
  let a := entry_addr (PHYS_TO_VIRT h (f * PAGE_SIZE)) j in
  copy_kernel_half (clear_page m ga) ga ka a
  = if decide (f = g) then if decide (256 <= j) then m (entry_addr ka j) else 0 else m a.
Proof.
  intros Hkf Hg Hf Hj Hne. cbv zeta. unfold copy_kernel_half.
  rewrite copy_entries_spec by (done || lia). rewrite !clear_page_entry by done.
  rewrite (decide_False (P := kf = g)) by done.
  destruct (decide (f = g)) as [->|], (decide (256 <= j));
    repeat case_decide; done || lia.
Qed.

Lemma kernel_root_frame s root :
  tree_ok s root ->
  exists kf, root = PHYS_TO_VIRT (hhdm_offset s) (kf * PAGE_SIZE) /\
    frame_ok kf /\ not_free (vm_pmm s) kf.
Proof.
  intros Htree. apply (proj1 Htree [] root); [|done]. split; [simpl; lia|constructor].
Qed.

Lemma new_pml4_frame s g :
  tree_ok s (kernel_pml4 s) -> frame_ok g -> ~ not_free (vm_pmm s) g ->
  let r := PHYS_TO_VIRT (hhdm_offset s) (g * PAGE_SIZE) in
  forall f j, frame_ok f -> 0 <= j < 512 ->
  copy_kernel_half (clear_page (mem s) r) r (kernel_pml4 s)
    (entry_addr (PHYS_TO_VIRT (hhdm_offset s) (f * PAGE_SIZE)) j)
  = if decide (f = g) then if decide (256 <= j) then mem s (entry_addr (kernel_pml4 s) j) else 0
    else mem s (entry_addr (PHYS_TO_VIRT (hhdm_offset s) (f * PAGE_SIZE)) j).
Proof.
  intros Htree Hg Hfree r f j Hf Hj. destruct (kernel_root_frame s _ Htree) as (kf & Hk & Hkf & Hkown).
  rewrite Hk. unfold r. rewrite new_pml4_mem; [done|done..|]. intros ->. exact (Hfree Hkown).
Qed.

Section NewPml4.
Context (s s' : vm) (g kroot lo : Z).
Hypothesis Htree : tree_ok s kroot.
Hypothesis Hg : frame_ok g.
Hypothesis Hfree : ~ not_free (vm_pmm s) g.
Hypothesis Hgown : not_free (vm_pmm s') g.
Hypothesis Hmono : forall f, not_free (vm_pmm s) f -> not_free (vm_pmm s') f.
Hypothesis Hh : hhdm_offset s' = hhdm_offset s.
Let r := PHYS_TO_VIRT (hhdm_offset s) (g * PAGE_SIZE).
Hypothesis new_pml4_entry : forall f j,
  frame_ok f -> 0 <= j < 512 ->
  mem s' (entry_addr (PHYS_TO_VIRT (hhdm_offset s) (f * PAGE_SIZE)) j)
  = if decide (f = g) then if decide (lo <= j) then mem s (entry_addr kroot j) else 0
    else mem s (entry_addr (PHYS_TO_VIRT (hhdm_offset s) (f * PAGE_SIZE)) j).

Lemma new_pml4_old f j :
  not_free (vm_pmm s) f -> frame_ok f -> 0 <= j < 512 ->
  mem s' (entry_addr (PHYS_TO_VIRT (hhdm_offset s) (f * PAGE_SIZE)) j)
  = mem s (entry_addr (PHYS_TO_VIRT (hhdm_offset s) (f * PAGE_SIZE)) j).
Proof.
  intros Hown Hf Hj. rewrite new_pml4_entry by assumption.
  rewrite decide_False; [reflexivity|]. intros ->. exact (Hfree Hown).
Qed.

Lemma new_pml4_kernel_tree : tree_ok s' kroot.
Proof.
  unfold tree_ok. rewrite Hh. eapply tree_agree_tree; [exact Htree|apply new_pml4_old|exact Hmono].
Qed.

Lemma new_pml4_tree : tree_ok s' r.
Proof.
  destruct (kernel_root_frame s _ Htree) as (kf & Hk & Hkf & Hkown). unfold tree_ok. rewrite Hh.
  apply (new_root_tree (mem s) (mem s') (hhdm_offset s) kroot kf g lo (not_free (vm_pmm s)));
    try done.
Qed.

Lemma new_pml4_walk v :
  walk s' r v = if decide (lo <= pml4_index v) then walk s kroot v else None.
Proof.
  destruct (kernel_root_frame s _ Htree) as (kf & Hk & Hkf & Hkown).
  destruct (new_root_cons (mem s) (mem s') (hhdm_offset s) kroot kf g lo
    (not_free (vm_pmm s)) Htree Hk Hkf Hkown Hg Hfree new_pml4_entry
    (pml4_index v) [pdpt_index v; pd_index v] (upper_path_good v)) as [Ht Hu].
  rewrite <-(walk_agree s s' kroot Htree Hh new_pml4_old v).
  unfold walk, upper_path. rewrite Hh. fold r in Ht, Hu. rewrite Ht, Hu.
  destruct (tree_agree _ _ _ _ _ _ Htree new_pml4_old (upper_path_good v)) as [Ha Hb].
  unfold upper_path in Ha, Hb. rewrite Ha, Hb. by case_decide.
Qed.
End NewPml4.

(** C26: a new address space has nothing mapped in its lower half and the
    kernel's translations in its upper half; creating it changes no translation
    of the kernel's own tree, and both trees are well formed.  [NULL] comes back
    only when no page is left. *)
Theorem create_new_pml4_correct s F :
  tree_ok s (kernel_pml4 s) -> pmm_ok (vm_pmm s) -> hhdm_ok s -> free_pages (vm_pmm s) F ->
  exists r s', create_new_pml4 s = Ok (r, s') /\
    pmm_ok (vm_pmm s') /\ kernel_pml4 s' = kernel_pml4 s /\
    (r = 0 <-> F = ∅) /\
    tree_ok s' (kernel_pml4 s) /\
    (forall v, walk s' (kernel_pml4 s) v = walk s (kernel_pml4 s) v) /\
    (r <> 0 -> tree_ok s' r /\
       forall v, walk s' r v =
         if decide (256 <= pml4_index v) then walk s (kernel_pml4 s) v else None).
Proof.
  intros Htree Hok Hhh HF. unfold create_new_pml4.
  destruct (alloc_fresh (vm_pmm s) F Hok HF) as [[-> ->]|Hsome]; mred.
  { exists 0, s. rewrite Z.eqb_refl. destruct s. by split_and!. }
  destruct Hsome as (g & p' & -> & Hg & HF' & Hsame & Hok' & Hg1 & Hgf & Hnf & Hnf' & Hmono).
  mred. destruct (Z.eqb_spec (g * PAGE_SIZE) 0); [unfold PAGE_SIZE in *; lia|].
  cbn [with_pmm with_mem hhdm_offset mem kernel_pml4].
  pose proof (new_pml4_frame s g Htree Hgf Hnf) as Hmem.
  cbv zeta in Hmem.
  set (m' := copy_kernel_half _ _ _) in *. clearbody m'.
  eexists _, _. split; [reflexivity|]. cbn [with_mem with_pmm vm_pmm kernel_pml4].
  split_and!; try done.
  - split; [|set_solver]. intros H0. exfalso. destruct Hhh as [H1 H2].
    pose proof (proj1 (HF g) Hg). unfold PHYS_TO_VIRT, PAGE_SIZE in *.
    rewrite u64_small in H0 by (unfold fits_u64; lia). lia.
  - by apply (new_pml4_kernel_tree s _ g (kernel_pml4 s) 256).
  - apply walk_agree; [done|done|]. intros f j. by apply (new_pml4_old s _ g (kernel_pml4 s) 256).
  - intros _. split; [by apply (new_pml4_tree s _ g (kernel_pml4 s) 256)|]. intros v. by apply (new_pml4_walk s _ g (kernel_pml4 s) 256).
Qed.

Lemma create_new_pml4_correct_witness :
  exists r s', create_new_pml4 sample_vm = Ok (r, s') /\ r = PHYS_TO_VIRT (hhdm_offset sample_vm) 8192
    /\ walk s' r 4198400 = None.
Proof.
  destruct (create_new_pml4_correct sample_vm (list_to_set (seqZ 2 14))
    sample_vm_tree sample_vm_pmm) as (r & s' & Hc & _ & _ & Hr & _ & _ & Hn).
  { unfold hhdm_ok. simpl. unfold PAGE_SIZE. lia. }
  { apply sample_vm_free. }
  exists r, s'. split; [exact Hc|].
  assert (r = PHYS_TO_VIRT (hhdm_offset sample_vm) 8192) as ->.
  { assert (fst <$> create_new_pml4 sample_vm = Ok (PHYS_TO_VIRT (hhdm_offset sample_vm) 8192)) as H
      by (vm_compute; reflexivity).
    rewrite Hc in H. by injection H as ->. }
  split; [reflexivity|]. destruct Hn as [_ Hn]; [by vm_compute|]. rewrite Hn. reflexivity.
Defined.

(** where the direct map already uses a 2 MiB page, [map_page] takes the
    page's first frame for a page table: it returns without allocating, having
    overwritten eight bytes of the memory the large page maps. *)
Theorem map_page_overwrites_huge_page s root v paddr flags pa :
  huge_walk s root v = Some pa ->
  exists e frame,
    map_page root v paddr flags s
    = Ok (with_mem s (store (mem s)
        (entry_addr (PHYS_TO_VIRT (hhdm_offset s) (frame * PAGE_SIZE)) (pt_index v)) e)) /\
    frame / 512 * 512 * PAGE_SIZE = pa - bf_get v 0 21.
Proof.
  unfold huge_walk. intros H.
  destruct (table_at _ _ _ _) as [pd|] eqn:Ht; [|done].
  destruct (huge (mem s) pd (pd_index v)) eqn:Hh; [|done]. injection H as <-.
  apply table_at_cons in Ht as [H1 Ht]. apply table_at_cons in Ht as [H2 Ht].
  simpl in Ht. injection Ht as Ht. unfold huge in Hh. bool_hyps.
  unfold map_page. rewrite ensure_table_present by done. mred.
  rewrite ensure_table_present by done. mred. rewrite Ht.
  rewrite ensure_table_present by done. mred. eexists _, _. split; [reflexivity|].
  lia.
Qed.

(** A root whose first page directory holds one 2 MiB page at 8 MiB. *)
Definition huge_vm : vm :=
  let h := hhdm_offset sample_vm in
  let m := store (store (store (fun _ => 0)
    (entry_addr (PHYS_TO_VIRT h 4096) 0) (2 * 4096 + 3))
    (entry_addr (PHYS_TO_VIRT h 8192) 0) (3 * 4096 + 3))
    (entry_addr (PHYS_TO_VIRT h 12288) 4) (2048 * 4096 + 131) in
  with_mem sample_vm m.

Lemma map_page_overwrites_huge_page_witness :
  huge_walk huge_vm (kernel_pml4 huge_vm) 8392709 = Some 8392709 /\
  exists s', map_page (kernel_pml4 huge_vm) 8392709 8392704 PTE_WRITABLE huge_vm = Ok s' /\
    vm_pmm s' = vm_pmm huge_vm.
Proof.
  assert (huge_walk huge_vm (kernel_pml4 huge_vm) 8392709 = Some 8392709) as H
    by (vm_compute; reflexivity).
  split; [exact H|].
  destruct (map_page_overwrites_huge_page _ _ _ 8392704 PTE_WRITABLE _ H) as (e & f & He & _).
  eexists. split; [exact He|]. reflexivity.
Defined.

(** [is_valid_user_address] accepts exactly the ranges that end inside the
    lower half without wrapping around. *)
Theorem is_valid_user_address_spec addr size :
  fits_u64 addr -> fits_u64 size ->
  is_valid_user_address addr size = true <-> addr + size <= USER_SPACE_END.
Proof.
  unfold fits_u64, is_valid_user_address, USER_SPACE_END, u64. intros Ha Hs.
  destruct (Z.ltb_spec ((addr + size) mod 18446744073709551616) addr).
  - split; [done|]. zdiv.
  - rewrite Z.gtb_ltb. destruct (Z.ltb_spec 140737488355327 ((addr + size) mod 18446744073709551616));
      (split; [intros; try done; zdiv|intros; try done; zdiv]).
Qed.

Lemma is_valid_user_address_spec_witness :
  is_valid_user_address 140737488355000 327 = true /\
  (is_valid_user_address 18446744073709551600 100 = true ->
     18446744073709551600 + 100 <= USER_SPACE_END).
Proof.
  split.
  - apply (is_valid_user_address_spec 140737488355000 327);
      unfold fits_u64, USER_SPACE_END; lia.
  - apply (is_valid_user_address_spec 18446744073709551600 100); unfold fits_u64; lia.
Defined.
