(* ===== verification/Bytes.v ===== *)
(** * Byte memory

    A region of virtual memory as a function from addresses to bytes, with the
    little-endian loads and stores the compiler emits for 8- to 64-bit fields,
    and [memset], [memcpy] and [memmove] as the C library defines them
    (addresses are taken modulo 2^64). *)

From S2P Require Import Prelude.

Definition bytes := Z -> Z.

Definition store8 (m : bytes) (a v : Z) : bytes := fun x => if x =? a then u8 v else m x.

(** [n] bytes from [a] on, least significant first. *)
Fixpoint load_le (n : nat) (m : bytes) (a : Z) : Z :=
  match n with
  | O => 0
  | S n => m a + 256 * load_le n m (u64 (a + 1))
  end.
Fixpoint store_le (n : nat) (m : bytes) (a v : Z) : bytes :=
  match n with
  | O => m
  | S n => store_le n (store8 m a v) (u64 (a + 1)) (v / 256)
  end.

Definition load16 := load_le 2.
Definition load32 := load_le 4.
Definition load64 := load_le 8.
Definition store16 := store_le 2.
Definition store32 := store_le 4.
Definition store64 := store_le 8.

(** [memset(p, c, n)]. *)
Definition memset (m : bytes) (p c n : Z) : bytes :=
  fun x => if u64 (x - p) <? n then u8 c else m x.

(** [memcpy(d, s, n)] and [memmove(d, s, n)]: the bytes as they were. *)
Definition memcpy (m : bytes) (d s n : Z) : bytes :=
  fun x => if u64 (x - d) <? n then m (u64 (s + u64 (x - d))) else m x.

(** ** Lemmas *)

(** [x] is one of the [n] bytes from [a] on. *)
Definition within (a n x : Z) : Prop := a <= x < a + n.

(** A range that does not run past the top of the address space. *)
Definition range_ok (a n : Z) : Prop := 0 <= a /\ 0 <= n /\ a + n <= 18446744073709551616.

Lemma u64_next a : 0 <= a < 18446744073709551615 -> u64 (a + 1) = a + 1.
Proof. intros. apply u64_small. unfold fits_u64. lia. Qed.

Lemma load_le_ext n m m' a :
  range_ok a (Z.of_nat n) -> (forall x, within a (Z.of_nat n) x -> m' x = m x) ->
  load_le n m' a = load_le n m a.
Proof.
  revert a. induction n as [|n IH]; intros a Ha Hm; simpl; [done|].
  unfold range_ok, within in *. rewrite Hm by lia. destruct n; [done|].
  rewrite u64_next, IH; [done|unfold range_ok|intros; apply Hm; unfold within in *|]; lia.
Qed.

Lemma store_le_other n m a v x :
  range_ok a (Z.of_nat n) -> ~ within a (Z.of_nat n) x -> store_le n m a v x = m x.
Proof.
  revert m a v. induction n as [|n IH]; intros m a v Ha Hx; simpl; [done|].
  unfold range_ok, within in *.
  assert (store8 m a v x = m x) as H8.
  { unfold store8. destruct (Z.eqb_spec x a); [lia|done]. }
  destruct n; [done|]. rewrite u64_next, IH; [done|unfold range_ok|unfold within|]; lia.
Qed.

Lemma load_store_le n m a v :
  range_ok a (Z.of_nat n) -> load_le n (store_le n m a v) a = v mod 256 ^ Z.of_nat n.
Proof.
  revert m a v. induction n as [|n IH]; intros m a v Ha; [by rewrite Z.mod_1_r|].
  rewrite Nat2Z.inj_succ, Z.pow_succ_r by lia. unfold range_ok in *. simpl load_le. simpl store_le.
  destruct n as [|n].
  { simpl. unfold store8. rewrite Z.eqb_refl. unfold u8. by rewrite Z.mul_1_r, Z.add_0_r. }
  rewrite u64_next, IH by (unfold range_ok; lia).
  rewrite store_le_other by (unfold range_ok, within; lia).
  unfold store8. rewrite Z.eqb_refl. unfold u8.
  rewrite (Z.rem_mul_r v 256) by lia. done.
Qed.

Lemma load_store_le_ne n k m a b v :
  range_ok a (Z.of_nat n) -> range_ok b (Z.of_nat k) ->
  a + Z.of_nat n <= b \/ b + Z.of_nat k <= a ->
  load_le n (store_le k m b v) a = load_le n m a.
Proof.
  intros Ha Hb Hd. apply load_le_ext; [done|]. intros x Hx.
  apply store_le_other; [done|]. unfold within in *. lia.
Qed.

Lemma load_le_range n m a : (forall x, 0 <= m x < 256) -> 0 <= load_le n m a < 256 ^ Z.of_nat n.
Proof.
  intros Hm. revert a. induction n as [|n IH]; intros a; [simpl; lia|].
  rewrite Nat2Z.inj_succ, Z.pow_succ_r by lia. simpl load_le.
  specialize (IH (u64 (a + 1))). specialize (Hm a). lia.
Qed.

Lemma memset_other m p c n x :
  range_ok p n -> fits_u64 x -> ~ within p n x -> memset m p c n x = m x.
Proof.
  unfold range_ok, fits_u64, within, memset, u64. intros.
  destruct (Z.ltb_spec ((x - p) mod 18446744073709551616) n); [zdiv|done].
Qed.

Lemma memset_in m p c n x : range_ok p n -> within p n x -> memset m p c n x = u8 c.
Proof.
  unfold range_ok, within, memset, u64. intros. rewrite Z.mod_small by lia.
  destruct (Z.ltb_spec (x - p) n); [done|lia].
Qed.

Lemma memcpy_other m d s n x :
  range_ok d n -> fits_u64 x -> ~ within d n x -> memcpy m d s n x = m x.
Proof.
  unfold range_ok, fits_u64, within, memcpy, u64. intros.
  destruct (Z.ltb_spec ((x - d) mod 18446744073709551616) n); [zdiv|done].
Qed.

Lemma memcpy_in m d s n i :
  range_ok d n -> range_ok s n -> 0 <= i < n -> memcpy m d s n (d + i) = m (s + i).
Proof.
  unfold range_ok, memcpy, u64. intros. replace (d + i - d) with i by lia.
  rewrite !(Z.mod_small i) by lia.
  destruct (Z.ltb_spec i n); [|lia]. by rewrite Z.mod_small by lia.
Qed.
