(* ===== verification/Heap.v ===== *)
(** * The kernel heap (src/kernel/mem/heap.c, src/kernel/mem/kmalloc.c)

    Block headers live in the heap's own memory, 24 bytes in front of each
    payload, and free blocks are chained through them.  [hmem] is the heap's
    virtual memory byte by byte; an access outside
    [heap_start, heap_current_limit) faults.  [blocks] is the sequence of
    blocks that tile the heap, [fl] the free list as a list of addresses;
    [heap_ok] says that memory, tiling and free list agree. *)

From S2P Require Import Prelude Sync Bitmap Pmm Paging Bytes.

Definition KERNEL_HEAP_START : Z := 18446638520593285120.
Definition HEAP_INIT_PAGES : Z := 1024.
Definition SIZE_MAX : Z := 18446744073709551615.
(** [sizeof(heap_header_t)]: 64-bit size at 0, [is_free] at 8, [next] at 16. *)
Definition sizeof_header : Z := 24.

Record heap := mk_heap {
  h_vm : vm;
  kmalloc_lock : safe_lock_t;
  hmem : bytes;
  heap_start : Z;
  heap_current_limit : Z;
  heap_free_list : Z
}.

Definition with_vm (h : heap) (s : vm) : heap :=
  mk_heap s (kmalloc_lock h) (hmem h) (heap_start h) (heap_current_limit h) (heap_free_list h).
Definition with_hmem (h : heap) (m : bytes) : heap :=
  mk_heap (h_vm h) (kmalloc_lock h) m (heap_start h) (heap_current_limit h) (heap_free_list h).
Definition with_limit (h : heap) (a : Z) : heap :=
  mk_heap (h_vm h) (kmalloc_lock h) (hmem h) (heap_start h) a (heap_free_list h).
Definition with_free_list (h : heap) (a : Z) : heap :=
  mk_heap (h_vm h) (kmalloc_lock h) (hmem h) (heap_start h) (heap_current_limit h) a.
Definition with_kmalloc_lock (h : heap) (l : safe_lock_t) (c : cpu) : heap :=
  mk_heap (with_pmm (h_vm h) (with_lock (vm_pmm (h_vm h)) (pmm_lock (vm_pmm (h_vm h))) c))
    l (hmem h) (heap_start h) (heap_current_limit h) (heap_free_list h).

Definition heap_cpu (h : heap) : cpu := pmm_cpu (vm_pmm (h_vm h)).

Definition lock_heap (h : heap) : outcome (Z * heap) :=
  '(flags, l, c) ← safe_lock (kmalloc_lock h) (heap_cpu h);
  Ok (flags, with_kmalloc_lock h l c).
Definition unlock_heap (h : heap) (flags : Z) : heap :=
  let '(l, c) := safe_unlock (kmalloc_lock h) flags (heap_cpu h) in with_kmalloc_lock h l c.

(** ** Memory accesses *)

Definition mapped_range (h : heap) (a n : Z) : bool :=
  (heap_start h <=? a) && (a + n <=? heap_current_limit h).

Definition hread (h : heap) (a : Z) : outcome Z :=
  if mapped_range h a 8 then Ok (load64 (hmem h) a) else Fault.
Definition hwrite (h : heap) (a v : Z) : outcome heap :=
  if mapped_range h a 8 then Ok (with_hmem h (store64 (hmem h) a v)) else Fault.
Definition hread8 (h : heap) (a : Z) : outcome Z :=
  if mapped_range h a 1 then Ok (hmem h a) else Fault.
Definition hwrite8 (h : heap) (a v : Z) : outcome heap :=
  if mapped_range h a 1 then Ok (with_hmem h (store8 (hmem h) a v)) else Fault.

Definition get_size (h : heap) (a : Z) : outcome Z := hread h a.
Definition set_size (h : heap) (a v : Z) : outcome heap := hwrite h a v.
Definition get_is_free (h : heap) (a : Z) : outcome bool :=
  b ← hread8 h (u64 (a + 8)); Ok (negb (b =? 0)).
Definition set_is_free (h : heap) (a : Z) (b : bool) : outcome heap :=
  hwrite8 h (u64 (a + 8)) (if b then 1 else 0).
Definition get_next (h : heap) (a : Z) : outcome Z := hread h (u64 (a + 16)).
Definition set_next (h : heap) (a v : Z) : outcome heap := hwrite h (u64 (a + 16)) v.

(** ** heap.c *)

Fixpoint expand_loop (n : nat) (h : heap) : outcome (Z * heap) :=
  match n with
  | O => Ok (0, h)
  | S n =>
      '(phys, p) ← pmm_alloc (vm_pmm (h_vm h));
      let h := with_vm h (with_pmm (h_vm h) p) in
      if phys =? 0 then Ok (-1, h)
      else
        s ← map_page (kernel_pml4 (h_vm h)) (heap_current_limit h) phys
              (Z.lor PTE_PRESENT PTE_WRITABLE) (h_vm h);
        let h := with_vm h s in
        expand_loop n (with_limit h (u64 (heap_current_limit h + PAGE_SIZE)))
  end.

Definition expand_pages (size_needed : Z) : Z :=
  u64 (size_needed + sizeof_header + PAGE_SIZE - 1) / PAGE_SIZE.

(** 0 on success, -1 when a page is missing. *)
Definition heap_expand (size_needed : Z) (h : heap) : outcome (Z * heap) :=
  expand_loop (Z.to_nat (expand_pages size_needed)) h.

Definition heap_init (h : heap) : outcome heap :=
  let h := with_limit h KERNEL_HEAP_START in
  let h := mk_heap (h_vm h) (kmalloc_lock h) (hmem h) (heap_current_limit h)
             (heap_current_limit h) 0 in
  let total_bytes_needed := HEAP_INIT_PAGES * PAGE_SIZE in
  '(_, h) ← heap_expand total_bytes_needed h;
  let init_block := heap_start h in
  h ← set_size h init_block
        (u64 (u64 (heap_current_limit h - heap_start h) - sizeof_header));
  h ← set_is_free h init_block true;
  h ← set_next h init_block 0;
  Ok (with_free_list h init_block).

(** ** kmalloc.c *)

(** [while (current)] up to the first block that is large enough: that block
    and the one before it, 0 for none. *)
Fixpoint find_fit (fuel : nat) (h : heap) (size prev current : Z) : outcome (option (Z * Z)) :=
  if current =? 0 then Ok None
  else
    match fuel with
    | O => Hang
    | S fuel =>
        csize ← get_size h current;
        if csize >=? size then Ok (Some (prev, current))
        else
          next ← get_next h current;
          find_fit fuel h size current next
    end.

(** The block [kmalloc] has twice: what is left of [block] beyond [size] bytes
    becomes a free block of its own if it is large enough. *)
Definition split_block (h : heap) (block size : Z) : outcome heap :=
  bsize ← get_size h block;
  if bsize >=? u64 (size + sizeof_header + 16) then
    let next_block := u64 (block + sizeof_header + size) in
    h ← set_size h next_block (u64 (bsize - size - sizeof_header));
    h ← set_is_free h next_block true;
    h ← set_next h next_block (heap_free_list h);
    let h := with_free_list h next_block in
    set_size h block size
  else Ok h.

(** As many headers as fit into the heap, and one. *)
Definition find_fuel (h : heap) : nat :=
  S (Z.to_nat ((heap_current_limit h - heap_start h) / sizeof_header)).

Definition round16 (size : Z) : Z := Z.land (u64 (size + 15)) (u64 (Z.lnot 15)).

(** Returns the payload's address, 0 for [NULL]. *)
Definition kmalloc (size : Z) (h : heap) : outcome (Z * heap) :=
  '(flags, h) ← lock_heap h;
  if size =? 0 then Ok (0, unlock_heap h flags)
  else
    let size := round16 size in
    r ← find_fit (find_fuel h) h size 0 (heap_free_list h);
    match r with
    | Some (prev, current) =>
        next ← get_next h current;
        h ← (if negb (prev =? 0) then set_next h prev next else Ok (with_free_list h next));
        h ← split_block h current size;
        h ← set_is_free h current false;
        Ok (u64 (current + sizeof_header), unlock_heap h flags)
    | None =>
        let old_limit := heap_current_limit h in
        let allocation_size := u64 (size + sizeof_header) in
        '(r, h) ← heap_expand allocation_size h;
        if r <? 0 then Halt
        else
          let new_block := old_limit in
          h ← set_size h new_block
                (u64 (u64 (heap_current_limit h - old_limit) - sizeof_header));
          h ← set_is_free h new_block false;
          h ← set_next h new_block 0;
          h ← split_block h new_block size;
          Ok (u64 (new_block + sizeof_header), unlock_heap h flags)
    end.

Definition kfree (ptr : Z) (h : heap) : outcome heap :=
  if ptr =? 0 then Ok h
  else
    '(flags, h) ← lock_heap h;
    let header := u64 (ptr - sizeof_header) in
    is_free ← get_is_free h header;
    if (is_free : bool) then Ok (unlock_heap h flags)
    else
      h ← set_is_free h header true;
      h ← set_next h header (heap_free_list h);
      Ok (unlock_heap (with_free_list h header) flags).

Definition hmemset (h : heap) (p c n : Z) : outcome heap :=
  if mapped_range h p n then Ok (with_hmem h (memset (hmem h) p c n)) else Fault.
Definition hmemcpy (h : heap) (d s n : Z) : outcome heap :=
  if mapped_range h d n && mapped_range h s n then Ok (with_hmem h (memcpy (hmem h) d s n))
  else Fault.

Definition kcalloc (n size : Z) (h : heap) : outcome (Z * heap) :=
  if negb (n =? 0) && (size >? SIZE_MAX / n) then Ok (0, h)
  else
    let total_size := u64 (n * size) in
    if total_size =? 0 then Ok (0, h)
    else
      '(ptr, h) ← kmalloc total_size h;
      if ptr =? 0 then Ok (0, h)
      else
        h ← hmemset h ptr 0 total_size;
        Ok (ptr, h).

Definition krealloc (p new_n new_size old_total_size : Z) (h : heap) : outcome (Z * heap) :=
  if p =? 0 then
    if negb (new_n =? 0) && (new_size >? SIZE_MAX / new_n) then Ok (0, h)
    else kmalloc (u64 (new_n * new_size)) h
  else if (new_n =? 0) || (new_size =? 0) then
    h ← kfree p h;
    Ok (0, h)
  else
    let new_total_size := u64 (new_n * new_size) in
    '(new_ptr, h) ← kmalloc new_total_size h;
    if new_ptr =? 0 then Ok (0, h)
    else
      let copy_size := if old_total_size <? new_total_size then old_total_size else new_total_size in
      h ← hmemcpy h new_ptr p copy_size;
      h ← kfree p h;
      Ok (new_ptr, h).

Definition kzalloc (size : Z) (h : heap) : outcome (Z * heap) :=
  '(ptr, h) ← kmalloc size h;
  if ptr =? 0 then Ok (0, h)
  else
    h ← hmemset h ptr 0 size;
    Ok (ptr, h).

(** ** Well-formed heaps *)

Record block := mk_block { b_addr : Z; b_size : Z; b_free : bool }.

#[export] Instance block_eq_dec : EqDecision block.
Proof. solve_decision. Defined.

Definition b_end (b : block) : Z := b_addr b + sizeof_header + b_size b.
Definition payload (b : block) : Z := b_addr b + sizeof_header.

(** The size and flag fields in memory are those of [b]. *)
Definition tagged (m : bytes) (b : block) : Prop :=
  load64 m (b_addr b) = b_size b /\ negb (m (b_addr b + 8) =? 0) = b_free b.

(** [bl] fills the addresses from [a] to [z]. *)
Fixpoint tiles (m : bytes) (a : Z) (bl : list block) (z : Z) : Prop :=
  match bl with
  | [] => a = z
  | b :: rest => b_addr b = a /\ 0 <= b_size b /\ tagged m b /\ tiles m (b_end b) rest z
  end.

(** Following [next] from [a] visits [fl] and ends at [NULL]. *)
Fixpoint chain (m : bytes) (a : Z) (fl : list Z) : Prop :=
  match fl with
  | [] => a = 0
  | x :: rest => a = x /\ x <> 0 /\ chain m (load64 m (x + 16)) rest
  end.

(** The part of the invariant that the heap's own memory carries: the blocks
    tile the heap and the chain visits some of them, each once. *)
Record shape (h : heap) (bl : list block) (fl : list Z) : Prop := {
  sh_start : 4096 <= heap_start h;
  sh_limit : heap_current_limit h < 18446744073709551616;
  sh_tiles : tiles (hmem h) (heap_start h) bl (heap_current_limit h);
  sh_chain : chain (hmem h) (heap_free_list h) fl;
  sh_nodup : NoDup fl;
  sh_in : forall a, a ∈ fl -> exists b, b ∈ bl /\ b_addr b = a
}.

(** The free list lists exactly the free blocks. *)
Definition lists_free (fl : list Z) (bl : list block) : Prop :=
  forall a, a ∈ fl <-> exists b, b ∈ bl /\ b_addr b = a /\ b_free b = true.

(** What the heap relies on: page tables, page allocator, backed pages. *)
Record backed (h : heap) : Prop := {
  bk_tree : tree_ok (h_vm h) (kernel_pml4 (h_vm h));
  bk_pmm : pmm_ok (vm_pmm (h_vm h));
  bk_align : heap_current_limit h mod PAGE_SIZE = 0;
  (** the free pages, were they all added, would not reach the top *)
  bk_room : forall F, free_pages (vm_pmm (h_vm h)) F ->
    heap_current_limit h + Z.of_nat (base.size F) * PAGE_SIZE < 18446744073709551616;
  bk_walk : forall v, heap_start h <= v < heap_current_limit h ->
    walk (h_vm h) (kernel_pml4 (h_vm h)) v <> None
}.

Record heap_ok (h : heap) (bl : list block) (fl : list Z) : Prop := {
  ok_shape : shape h bl fl;
  ok_free : lists_free fl bl;
  ok_lock : locked (kmalloc_lock h) = 0;
  ok_backed : backed h
}.

(** Everything of a heap but its memory and its free list. *)
Definition same_env (h h' : heap) : Prop :=
  h_vm h' = h_vm h /\ kmalloc_lock h' = kmalloc_lock h /\
  heap_start h' = heap_start h /\ heap_current_limit h' = heap_current_limit h.

(** The payloads of the blocks of [bl] that satisfy [P] are untouched. *)
Definition keeps (bl : list block) (P : block -> Prop) (m m' : bytes) : Prop :=
  forall b x, b ∈ bl -> P b -> within (payload b) (b_size b) x -> m' x = m x.

(** ** Lemmas: tilings *)

Ltac hdr := unfold tagged, within, range_ok, payload, b_end, sizeof_header in *.

Lemma tiles_app m a l1 l2 z :
  tiles m a (l1 ++ l2) z <-> exists mid, tiles m a l1 mid /\ tiles m mid l2 z.
Proof.
  revert a. induction l1 as [|b l1 IH]; intros a; simpl.
  - split; [eauto|]. by intros (? & -> & ?).
  - rewrite IH. naive_solver.
Qed.

Lemma tiles_bounds m a bl z :
  tiles m a bl z ->
  a <= z /\ forall b, b ∈ bl -> a <= b_addr b /\ 0 <= b_size b /\ b_end b <= z /\ tagged m b.
Proof.
  revert a. induction bl as [|c bl IH]; intros a; simpl.
  - intros ->. split; [lia|]. set_solver.
  - intros (<- & Hs & Ht & Hr). apply IH in Hr as [Hz Hb]. unfold b_end, sizeof_header in *.
    split; [lia|]. intros b [->|Hin]%elem_of_cons; [done|].
    destruct (Hb b Hin) as (? & ? & ? & ?). split_and!; try done; lia.
Qed.

Lemma tiles_split m a bl z b :
  tiles m a bl z -> b ∈ bl ->
  exists l1 l2, bl = l1 ++ b :: l2 /\ tiles m a l1 (b_addr b) /\ tiles m (b_end b) l2 z.
Proof.
  intros Ht (l1 & l2 & ->)%list_elem_of_split. exists l1, l2. split; [done|].
  apply tiles_app in Ht as (mid & H1 & <- & _ & _ & H2). done.
Qed.

Lemma tiles_disjoint m a bl z b c :
  tiles m a bl z -> b ∈ bl -> c ∈ bl ->
  b = c \/ b_end b <= b_addr c \/ b_end c <= b_addr b.
Proof.
  intros Ht Hb Hc. destruct (tiles_split _ _ _ _ _ Ht Hb) as (l1 & l2 & -> & H1 & H2).
  apply elem_of_app in Hc as [Hc|[->|Hc]%elem_of_cons]; [|by left|].
  - apply tiles_bounds in H1 as [_ H1]. destruct (H1 c Hc) as (? & ? & ? & ?). lia.
  - apply tiles_bounds in H2 as [_ H2]. destruct (H2 c Hc) as (? & ? & ? & ?). lia.
Qed.

Lemma tiles_addr_inj m a bl z b c :
  tiles m a bl z -> b ∈ bl -> c ∈ bl -> b_addr b = b_addr c -> b = c.
Proof.
  intros Ht Hb Hc He. destruct (tiles_bounds _ _ _ _ Ht) as [_ Hall].
  destruct (Hall b Hb) as (_ & ? & _), (Hall c Hc) as (_ & ? & _).
  destruct (tiles_disjoint _ _ _ _ _ _ Ht Hb Hc) as [|]; [done|]. hdr. lia.
Qed.

Lemma tiles_length m a bl z :
  tiles m a bl z -> sizeof_header * Z.of_nat (length bl) <= z - a.
Proof.
  revert a. induction bl as [|b bl IH]; intros a; cbn [tiles length]; [lia|].
  intros (<- & Hs & _ & Hr). apply IH in Hr. hdr. lia.
Qed.

Lemma tagged_ext m m' b :
  range_ok (b_addr b) sizeof_header ->
  (forall x, within (b_addr b) 9 x -> m' x = m x) -> tagged m b -> tagged m' b.
Proof.
  hdr. intros Ha Hm. unfold load64. rewrite (load_le_ext 8 m m'), Hm; [done|lia|unfold range_ok; lia|].
  intros x Hx. apply Hm. unfold within in Hx. lia.
Qed.

Lemma tiles_ext m m' a bl z :
  0 <= a -> z <= 18446744073709551616 ->
  (forall b x, b ∈ bl -> within (b_addr b) 9 x -> m' x = m x) ->
  tiles m a bl z -> tiles m' a bl z.
Proof.
  intros Ha Hz. revert a Ha. induction bl as [|b bl IH]; intros a Ha Hm Ht; [done|].
  pose proof (proj1 (tiles_bounds _ _ _ _ (proj2 (proj2 (proj2 Ht))))) as Hend.
  destruct Ht as (<- & Hs & Htag & Hr). simpl. split_and!; try done.
  - eapply tagged_ext; [|intros; by apply (Hm b); [left|]|done]. hdr. lia.
  - apply IH; [hdr; lia| |done]. intros. eapply Hm; [by right|done].
Qed.

(** ** Lemmas: chains *)

Lemma chain_ext m m' a fl :
  (forall x, x ∈ fl -> load64 m' (x + 16) = load64 m (x + 16)) -> chain m a fl -> chain m' a fl.
Proof.
  revert a. induction fl as [|x fl IH]; intros a Hm; simpl; [done|].
  intros (-> & Hx & Hc). split_and!; [done|done|]. rewrite Hm by left. apply IH; [|done].
  intros. apply Hm. by right.
Qed.

(** The last element of a list, or a default. *)
Definition last_or (d : Z) (l : list Z) : Z := default d (last l).

Lemma last_or_snoc d l x : last_or d (l ++ [x]) = x.
Proof. unfold last_or. by rewrite last_snoc. Qed.

(** Unlinking [c]: its predecessor takes over its [next]. *)
Lemma chain_unlink m m' a f1 p c f2 :
  chain m a (f1 ++ p :: c :: f2) ->
  load64 m' (p + 16) = load64 m (c + 16) ->
  (forall x, x ∈ f1 ++ f2 -> load64 m' (x + 16) = load64 m (x + 16)) ->
  chain m' a (f1 ++ p :: f2).
Proof.
  revert a. induction f1 as [|x f1 IH]; intros a; simpl.
  - intros (-> & Hp & <- & Hc & Hr) He Hm. split_and!; [done|done|]. rewrite He.
    by eapply chain_ext.
  - intros (-> & Hx & Hr) He Hm. split_and!; [done|done|]. rewrite Hm by left.
    apply IH; [done|done|]. intros. apply Hm. by right.
Qed.

(** ** Lemmas: field accesses in a shaped heap *)

Section Fields.
Context (h : heap) (bl : list block) (fl : list Z).
Hypothesis Hsh : shape h bl fl.

Lemma block_range b :
  b ∈ bl -> heap_start h <= b_addr b /\ 0 <= b_size b /\ b_end b <= heap_current_limit h /\
    tagged (hmem h) b.
Proof. intros Hb. by apply (tiles_bounds _ _ _ _ (sh_tiles _ _ _ Hsh)). Qed.

Lemma block_u64 b k :
  b ∈ bl -> 0 <= k <= sizeof_header + b_size b -> u64 (b_addr b + k) = b_addr b + k.
Proof.
  intros Hb Hk. destruct (block_range b Hb) as (? & ? & ? & _).
  destruct Hsh. apply u64_small. unfold fits_u64. hdr. lia.
Qed.

Lemma block_mapped b k n :
  b ∈ bl -> 0 <= k -> k + n <= sizeof_header + b_size b ->
  mapped_range h (b_addr b + k) n = true.
Proof.
  intros Hb Hk Hn. destruct (block_range b Hb) as (? & ? & ? & _). hdr.
  unfold mapped_range. apply andb_true_iff. rewrite !Z.leb_le. lia.
Qed.

Lemma get_size_ok b : b ∈ bl -> get_size h (b_addr b) = Ok (b_size b).
Proof.
  intros Hb. destruct (block_range b Hb) as (? & ? & ? & Ht & _).
  unfold get_size, hread. pose proof (block_mapped b 0 8 Hb) as Hm. rewrite Z.add_0_r in Hm.
  rewrite Hm by (hdr; lia). by rewrite Ht.
Qed.

Lemma get_is_free_ok b : b ∈ bl -> get_is_free h (b_addr b) = Ok (b_free b).
Proof.
  intros Hb. destruct (block_range b Hb) as (? & ? & ? & _ & Ht).
  unfold get_is_free, hread8. rewrite block_u64, block_mapped by (done || hdr; lia).
  mred. by rewrite Ht.
Qed.

Lemma get_next_ok b : b ∈ bl -> get_next h (b_addr b) = Ok (load64 (hmem h) (b_addr b + 16)).
Proof.
  intros Hb. destruct (block_range b Hb) as (? & ? & ? & _).
  unfold get_next, hread. rewrite block_u64, block_mapped by (done || hdr; lia). done.
Qed.

Lemma set_next_ok b v :
  b ∈ bl -> set_next h (b_addr b) v = Ok (with_hmem h (store64 (hmem h) (b_addr b + 16) v)).
Proof.
  intros Hb. destruct (block_range b Hb) as (? & ? & ? & _).
  unfold set_next, hwrite. rewrite block_u64, block_mapped by (done || hdr; lia). done.
Qed.

Lemma set_is_free_ok b f :
  b ∈ bl ->
  set_is_free h (b_addr b) f
  = Ok (with_hmem h (store8 (hmem h) (b_addr b + 8) (if f then 1 else 0))).
Proof.
  intros Hb. destruct (block_range b Hb) as (? & ? & ? & _).
  unfold set_is_free, hwrite8. rewrite block_u64, block_mapped by (done || hdr; lia). done.
Qed.

(** Headers do not touch each other, and no header touches a payload. *)
Lemma header_apart b c :
  b ∈ bl -> c ∈ bl -> b <> c ->
  b_addr b + 24 + b_size b <= b_addr c \/ b_addr c + 24 + b_size c <= b_addr b.
Proof.
  intros Hb Hc Hne. destruct (tiles_disjoint _ _ _ _ b c (sh_tiles _ _ _ Hsh) Hb Hc) as [|Hd];
    [done|]. by hdr.
Qed.

Lemma addr_apart b c :
  b ∈ bl -> c ∈ bl -> b_addr b <> b_addr c ->
  b_addr b + 24 <= b_addr c \/ b_addr c + 24 <= b_addr b.
Proof.
  intros Hb Hc Hne. destruct (block_range b Hb) as (_ & ? & _), (block_range c Hc) as (_ & ? & _).
  destruct (header_apart b c Hb Hc) as [|]; [congruence|lia|lia].
Qed.

(** Writing a [next] field leaves the tiling and every payload alone. *)
Lemma next_write_tiles b v :
  b ∈ bl ->
  tiles (store64 (hmem h) (b_addr b + 16) v) (heap_start h) bl (heap_current_limit h).
Proof.
  intros Hb. pose proof Hsh as [H0 Hz Ht _ _ _]. destruct (block_range b Hb) as (? & ? & ? & _).
  apply (tiles_ext (hmem h)); [lia|lia| |done]. intros c x Hc Hx.
  apply (store_le_other 8); [hdr; lia|]. destruct (decide (b = c)) as [->|Hne]; [hdr; lia|].
  destruct (block_range c Hc) as (? & ? & ? & _).
  destruct (header_apart b c Hb Hc Hne); hdr; lia.
Qed.

Lemma next_write_keeps b v P :
  b ∈ bl -> keeps bl P (hmem h) (store64 (hmem h) (b_addr b + 16) v).
Proof.
  intros Hb c x Hc _ Hx. destruct Hsh as [H0 Hz _ _ _ _].
  destruct (block_range b Hb) as (? & ? & ? & _), (block_range c Hc) as (? & ? & ? & _).
  apply (store_le_other 8); [hdr; lia|].
  destruct (decide (b = c)) as [->|Hne]; [hdr; lia|].
  destruct (header_apart b c Hb Hc Hne); hdr; lia.
Qed.

Lemma load_next_write b c v :
  b ∈ bl -> c ∈ bl -> fits_u64 v ->
  load64 (store64 (hmem h) (b_addr b + 16) v) (b_addr c + 16)
  = if decide (b_addr b = b_addr c) then v else load64 (hmem h) (b_addr c + 16).
Proof.
  intros Hb Hc Hv. destruct Hsh as [H0 Hz _ _ _ _].
  destruct (block_range b Hb) as (? & ? & ? & _), (block_range c Hc) as (? & ? & ? & _).
  case_decide as He.
  - rewrite He. unfold load64, store64. rewrite load_store_le by (hdr; lia).
    apply Z.mod_small. exact Hv.
  - apply (load_store_le_ne 8 8); [hdr; lia..|]. destruct (addr_apart b c Hb Hc He); lia.
Qed.
End Fields.

(** ** Lemmas: searching the free list *)

Lemma free_in_block h bl fl x :
  shape h bl fl -> x ∈ fl -> exists b, b ∈ bl /\ b_addr b = x.
Proof. intros []. auto. Qed.

Lemma find_fit_ok h bl fl0 size fl prev a fuel :
  shape h bl fl0 -> chain (hmem h) a fl -> (forall x, x ∈ fl -> x ∈ fl0) ->
  (length fl < fuel)%nat ->
  (find_fit fuel h size prev a = Ok None) \/
  exists f1 b f2, fl = f1 ++ b_addr b :: f2 /\ b ∈ bl /\ size <= b_size b /\
    find_fit fuel h size prev a = Ok (Some (last_or prev f1, b_addr b)).
Proof.
  intros Hsh. revert prev a fl. induction fuel as [|fuel IH]; intros prev a fl Hc Hin Hlen; [lia|].
  destruct fl as [|x fl]; simpl in Hc |- *.
  { left. by rewrite Hc. }
  destruct Hc as (-> & Hx & Hc). destruct (Z.eqb_spec x 0); [done|].
  destruct (free_in_block h bl fl0 x Hsh) as (b & Hb & <-); [apply Hin; left|].
  rewrite (get_size_ok h bl fl0 Hsh b Hb). mred. rewrite Z.geb_leb.
  destruct (Z.leb_spec size (b_size b)).
  { right. exists [], b, fl. done. }
  rewrite (get_next_ok h bl fl0 Hsh b Hb). mred. simpl in Hlen.
  destruct (IH (b_addr b) _ fl Hc) as [Hn|(f1 & b' & f2 & -> & Hb' & Hs & Hf)]; [|lia|by left|].
  { intros. apply Hin. by right. }
  right. exists (b_addr b :: f1), b', f2. split_and!; [done|done|done|].
  rewrite Hf. do 3 f_equal. unfold last_or. rewrite last_cons. by destruct (last f1).
Qed.

Lemma NoDup_length_blocks h bl fl :
  shape h bl fl -> (length fl < find_fuel h)%nat.
Proof.
  intros Hsh. unfold find_fuel. destruct Hsh as [H0 Hz Ht _ Hnd Hin].
  assert (length fl <= length (b_addr <$> bl))%nat as Hle.
  { apply submseteq_length, NoDup_submseteq; [done|]. intros x Hx.
    destruct (Hin x Hx) as (b & Hb & <-). by apply list_elem_of_fmap_2. }
  rewrite length_fmap in Hle. apply tiles_length in Ht. unfold sizeof_header in *.
  assert (Z.of_nat (length bl) <= (heap_current_limit h - heap_start h) / 24); [|lia].
  apply Z.div_le_lower_bound; lia.
Qed.

(** ** Lemmas: taking a block off the free list *)

Lemma chain_head m a fl :
  chain m a fl -> (forall x, x ∈ fl -> fits_u64 x) -> fits_u64 a.
Proof. destruct fl; simpl; [intros ->|intros [-> _] H; apply H; left]. unfold fits_u64. lia. Qed.

Lemma chain_after m a f1 x f2 : chain m a (f1 ++ x :: f2) -> chain m (load64 m (x + 16)) f2.
Proof.
  revert a. induction f1 as [|y f1 IH]; simpl; intros a; [tauto|]. intros (_ & _ & H). eauto.
Qed.

Lemma chain_nonzero m a fl x : chain m a fl -> x ∈ fl -> x <> 0.
Proof.
  revert a. induction fl as [|y fl IH]; intros a; simpl; [set_solver|].
  intros (-> & Hy & Hc) [->|Hx]%elem_of_cons; [done|eauto].
Qed.

Lemma fl_fits h bl fl x : shape h bl fl -> x ∈ fl -> fits_u64 x.
Proof.
  intros Hsh Hx. destruct (free_in_block h bl fl x Hsh Hx) as (b & Hb & <-).
  destruct (block_range h bl fl Hsh b Hb) as (? & ? & ? & _). destruct Hsh.
  unfold fits_u64. hdr. lia.
Qed.

Definition unlink (h : heap) (prev current : Z) : outcome heap :=
  next ← get_next h current;
  if negb (prev =? 0) then set_next h prev next else Ok (with_free_list h next).

Lemma NoDup_remove_middle (f1 f2 : list Z) x : NoDup (f1 ++ x :: f2) -> NoDup (f1 ++ f2) /\ x ∉ f1 ++ f2.
Proof. rewrite <-Permutation_middle. intros [? ?]%NoDup_cons. done. Qed.

Lemma unlink_ok h bl f1 b f2 :
  shape h bl (f1 ++ b_addr b :: f2) -> b ∈ bl ->
  exists h1, unlink h (last_or 0 f1) (b_addr b) = Ok h1 /\ shape h1 bl (f1 ++ f2) /\
    same_env h h1 /\ keeps bl (fun _ => True) (hmem h) (hmem h1).
Proof.
  intros Hsh Hb. unfold unlink. rewrite (get_next_ok _ _ _ Hsh b Hb). mred.
  pose proof (NoDup_remove_middle _ _ _ (sh_nodup _ _ _ Hsh)) as [Hnd' Hnot].
  assert (forall a, a ∈ f1 ++ f2 -> exists c, c ∈ bl /\ b_addr c = a) as Hin'.
  { intros a Ha. apply (free_in_block _ _ _ a Hsh). set_solver. }
  pose proof (chain_after _ _ _ _ _ (sh_chain _ _ _ Hsh)) as Hc2.
  destruct f1 as [|p f1 _] using rev_ind.
  - exists (with_free_list h (load64 (hmem h) (b_addr b + 16))). split; [done|].
    destruct Hsh. split_and!; [by constructor|done|by intros c x].
  - rewrite last_or_snoc. assert (p ∈ (f1 ++ [p]) ++ b_addr b :: f2) as Hp by set_solver.
    pose proof (chain_nonzero _ _ _ p (sh_chain _ _ _ Hsh) Hp) as Hp0.
    rewrite (proj2 (Z.eqb_neq p 0) Hp0). destruct (free_in_block _ _ _ p Hsh Hp) as (q & Hq & <-).
    cbn [negb]. rewrite (set_next_ok _ _ _ Hsh q _ Hq).
    assert (fits_u64 (load64 (hmem h) (b_addr b + 16))) as Hfit.
    { eapply chain_head; [done|]. intros. eapply fl_fits; [done|set_solver]. }
    eexists. split; [reflexivity|]. split; [|split; [done|by apply (next_write_keeps h bl _ Hsh)]].
    constructor; try (by destruct Hsh); cbn [with_hmem hmem heap_start heap_current_limit heap_free_list].
    + by apply (next_write_tiles h bl _ Hsh).
    + rewrite <-app_assoc. simpl. eapply chain_unlink.
      * pose proof (sh_chain _ _ _ Hsh) as Hc. rewrite <-app_assoc in Hc. exact Hc.
      * rewrite (load_next_write h bl _ Hsh q q) by done. by rewrite decide_True.
      * intros x Hx. destruct (Hin' x) as (c & Hcb & <-); [set_solver|].
        rewrite (load_next_write h bl _ Hsh q c) by done.
        rewrite decide_False; [done|]. intros He. rewrite <-app_assoc in Hnd'. simpl in Hnd'.
        apply NoDup_remove_middle in Hnd' as [_ Hnd']. by rewrite He in Hnd'.
Qed.

(** ** Lemmas: splitting a block *)

Definition split_mem (m : bytes) (a size rest head : Z) : bytes :=
  let n := a + sizeof_header + size in
  store64 (store64 (store8 (store64 m n rest) (n + 8) 1) (n + 16) head) a size.

Section Split.
Context (m : bytes) (a size rest head : Z).
Hypothesis Ha : 0 <= a.
Hypothesis Hsize : 0 <= size.
Hypothesis Hrest : 0 <= rest.
Hypothesis Hend : a + 24 + size + 24 + rest < 18446744073709551616.
Hypothesis Hhead : fits_u64 head.
Let m' := split_mem m a size rest head.
Let n := a + sizeof_header + size.

Lemma split_other x : ~ within a 8 x -> ~ within n 24 x -> m' x = m x.
Proof.
  intros H1 H2. unfold n in *. hdr. unfold m', split_mem, store64. hdr.
  rewrite !(store_le_other 8) by (hdr; lia). unfold store8.
  destruct (Z.eqb_spec x (a + 24 + size + 8)); [lia|].
  by rewrite (store_le_other 8) by (hdr; lia).
Qed.

Lemma split_fields :
  load64 m' a = size /\ m' (a + 8) = m (a + 8) /\
  load64 m' n = rest /\ m' (n + 8) = 1 /\ load64 m' (n + 16) = head.
Proof.
  unfold n, m', split_mem, load64, store64. hdr. unfold fits_u64 in Hhead. split_and!.
  - rewrite load_store_le by (hdr; lia). apply Z.mod_small. cbn. lia.
  - rewrite !(store_le_other 8) by (hdr; lia). unfold store8.
    destruct (Z.eqb_spec (a + 8) (a + 24 + size + 8)); [lia|].
    by rewrite (store_le_other 8) by (hdr; lia).
  - rewrite !(load_store_le_ne 8 8) by (hdr; lia).
    rewrite (load_le_ext 8 (store_le 8 m (a + 24 + size) rest)); [|hdr; lia|].
    + rewrite load_store_le by (hdr; lia). apply Z.mod_small. cbn. lia.
    + intros x Hx. unfold store8. destruct (Z.eqb_spec x (a + 24 + size + 8)); [hdr; lia|done].
  - rewrite !(store_le_other 8) by (hdr; lia). unfold store8. by rewrite Z.eqb_refl.
  - rewrite (load_store_le_ne 8 8) by (hdr; lia). rewrite load_store_le by (hdr; lia).
    apply Z.mod_small. cbn. lia.
Qed.
End Split.

(** A block in the middle of a tiling, and what surrounds it. *)
Lemma shape_around h l1 b l2 fl :
  shape h (l1 ++ b :: l2) fl ->
  tiles (hmem h) (heap_start h) l1 (b_addr b) /\ tiles (hmem h) (b_end b) l2 (heap_current_limit h) /\
  (forall c, c ∈ l1 ++ l2 -> b_end c <= b_addr b \/ b_end b <= b_addr c).
Proof.
  intros Hsh. pose proof (sh_tiles _ _ _ Hsh) as Ht.
  apply tiles_app in Ht as (mid & H1 & <- & _ & _ & H2). split_and!; [done|done|].
  intros c [Hc|Hc]%elem_of_app.
  - left. by apply (tiles_bounds _ _ _ _ H1).
  - right. by apply (tiles_bounds _ _ _ _ H2).
Qed.

(** Replacing the memory between [b_addr b] and [b_end b], and the blocks there. *)
Lemma tiles_replace h l1 b l2 fl m' bs :
  shape h (l1 ++ b :: l2) fl ->
  (forall x, fits_u64 x -> ~ within (b_addr b) (sizeof_header + b_size b) x -> m' x = hmem h x) ->
  tiles m' (b_addr b) bs (b_end b) ->
  tiles m' (heap_start h) (l1 ++ bs ++ l2) (heap_current_limit h).
Proof.
  intros Hsh Hm Hbs. destruct (shape_around _ _ _ _ _ Hsh) as (H1 & H2 & _).
  destruct (block_range _ _ _ Hsh b) as (Hb1 & Hb2 & Hb3 & _); [set_solver|].
  pose proof (sh_start _ _ _ Hsh). pose proof (sh_limit _ _ _ Hsh).
  apply tiles_app. exists (b_addr b). split.
  - apply (tiles_ext (hmem h)); [lia|hdr; lia| |done]. intros c x Hc Hx.
    destruct (proj2 (tiles_bounds _ _ _ _ H1) c Hc) as (? & ? & ? & _).
    apply Hm; [unfold fits_u64|]; hdr; lia.
  - apply tiles_app. exists (b_end b). split; [done|].
    apply (tiles_ext (hmem h)); [hdr; lia|lia| |done]. intros c x Hc Hx.
    destruct (proj2 (tiles_bounds _ _ _ _ H2) c Hc) as (? & ? & ? & _).
    apply Hm; [unfold fits_u64|]; hdr; lia.
Qed.

(** Such a change does not disturb a chain that avoids [b], nor other payloads. *)
Lemma chain_replace h l1 b l2 fl m' a fl' :
  shape h (l1 ++ b :: l2) fl ->
  (forall x, fits_u64 x -> ~ within (b_addr b) (sizeof_header + b_size b) x -> m' x = hmem h x) ->
  (forall x, x ∈ fl' -> x ∈ fl) -> b_addr b ∉ fl' -> chain (hmem h) a fl' -> chain m' a fl'.
Proof.
  intros Hsh Hm Hsub Hnot. apply chain_ext. intros x Hx.
  destruct (free_in_block _ _ _ x Hsh (Hsub x Hx)) as (c & Hc & <-).
  destruct (shape_around _ _ _ _ _ Hsh) as (_ & _ & Hap).
  destruct (block_range _ _ _ Hsh c Hc) as (? & ? & ? & _).
  destruct (block_range _ _ _ Hsh b) as (? & ? & ? & _); [set_solver|].
  pose proof (sh_start _ _ _ Hsh). pose proof (sh_limit _ _ _ Hsh).
  assert (c ∈ l1 ++ l2) as Hc'.
  { apply elem_of_app in Hc as [?|[->|?]%elem_of_cons]; set_solver. }
  apply (load_le_ext 8); [hdr; lia|]. intros y Hy.
  destruct (Hap c Hc'); apply Hm; [unfold fits_u64| |unfold fits_u64|]; hdr; lia.
Qed.

Lemma keeps_replace h l1 b l2 fl m' :
  shape h (l1 ++ b :: l2) fl ->
  (forall x, fits_u64 x -> ~ within (b_addr b) (sizeof_header + b_size b) x -> m' x = hmem h x) ->
  keeps (l1 ++ l2) (fun _ => True) (hmem h) m'.
Proof.
  intros Hsh Hm c x Hc _ Hx. destruct (shape_around _ _ _ _ _ Hsh) as (_ & _ & Hap).
  destruct (block_range _ _ _ Hsh c) as (? & ? & ? & _); [set_solver|].
  destruct (block_range _ _ _ Hsh b) as (? & ? & ? & _); [set_solver|].
  pose proof (sh_start _ _ _ Hsh). pose proof (sh_limit _ _ _ Hsh).
  destruct (Hap c Hc); apply Hm; [unfold fits_u64| |unfold fits_u64|]; hdr; lia.
Qed.

(** What [split_block] writes when it splits. *)
Lemma split_block_writes h a size rest :
  heap_start h <= a -> 0 <= a -> 0 <= size -> 16 <= rest ->
  a + 24 + size + 24 + rest <= heap_current_limit h < 18446744073709551616 ->
  get_size h a = Ok (size + 24 + rest) ->
  split_block h a size
  = Ok (mk_heap (h_vm h) (kmalloc_lock h)
      (split_mem (hmem h) a size rest (heap_free_list h)) (heap_start h) (heap_current_limit h)
      (a + sizeof_header + size)).
Proof.
  intros H1 H2 H3 H4 H5 Hg. unfold split_block. rewrite Hg. mred. rewrite Z.geb_leb.
  hdr. rewrite !(u64_small (size + 24 + 16)) by (unfold fits_u64; lia).
  rewrite (u64_small (a + 24 + size)) by (unfold fits_u64; lia).
  rewrite (u64_small (size + 24 + rest - size - 24)) by (unfold fits_u64; lia).
  destruct (Z.leb_spec (size + 24 + 16) (size + 24 + rest)); [|lia].
  replace (size + 24 + rest - size - 24) with rest by lia.
  unfold set_size, set_is_free, set_next, hwrite, hwrite8.
  rewrite !(u64_small (a + 24 + size + _)) by (unfold fits_u64; lia).
  assert (forall h' k n, heap_start h' = heap_start h -> heap_current_limit h' = heap_current_limit h ->
    0 <= k -> k + n <= 24 + size + 24 + rest -> mapped_range h' (a + k) n = true) as Hmap.
  { intros h' k n E1 E2 ??. unfold mapped_range. rewrite E1, E2. apply andb_true_iff.
    rewrite !Z.leb_le. lia. }
  replace (mapped_range h (a + 24 + size) 8) with true
    by (rewrite <-Z.add_assoc, Hmap by (done || lia); done). mred.
  replace (mapped_range _ (a + 24 + size + 8) 1) with true
    by (rewrite <-!Z.add_assoc, Hmap by (done || lia); done). mred.
  replace (mapped_range _ (a + 24 + size + 16) 8) with true
    by (rewrite <-!Z.add_assoc, Hmap by (done || lia); done). mred.
  replace (mapped_range _ a 8) with true
    by (rewrite <-(Z.add_0_r a), Hmap by (done || lia); done). done.
Qed.

(** The two shapes [split_block] can leave. *)
Lemma split_block_ok h l1 b l2 fl size :
  shape h (l1 ++ b :: l2) fl -> b_addr b ∉ fl -> 0 <= size <= b_size b ->
  let a := b_addr b in
  let n := a + sizeof_header + size in
  let rest := b_size b - size - sizeof_header in
  (b_size b < size + 40 /\ split_block h a size = Ok h) \/
  (0 <= rest /\ exists h', split_block h a size = Ok h' /\
     shape h' (l1 ++ [mk_block a size (b_free b); mk_block n rest true] ++ l2) (n :: fl) /\
     same_env h h' /\ keeps (l1 ++ l2) (fun _ => True) (hmem h) (hmem h')).
Proof.
  intros Hsh Hnot Hsize. cbv zeta. assert (b ∈ l1 ++ b :: l2) as Hb by set_solver.
  destruct (block_range _ _ _ Hsh b Hb) as (R1 & R2 & R3 & Htag & Hfree).
  pose proof (sh_start _ _ _ Hsh) as H0. pose proof (sh_limit _ _ _ Hsh) as Hz.
  pose proof (get_size_ok _ _ _ Hsh b Hb) as Hget.
  destruct (decide (b_size b < size + 40)) as [Hlt|Hge].
  { left. split; [done|]. unfold split_block. rewrite Hget. mred. rewrite Z.geb_leb.
    rewrite u64_small by (unfold fits_u64; hdr; lia).
    destruct (Z.leb_spec (size + sizeof_header + 16) (b_size b)); [hdr; lia|done]. }
  right. set (rest := b_size b - size - sizeof_header). split; [unfold rest; hdr; lia|].
  eexists. split.
  { apply (split_block_writes h (b_addr b) size rest); try (unfold rest; hdr; lia).
    rewrite Hget. unfold rest. f_equal. hdr. lia. }
  set (m' := split_mem _ _ _ _ _).
  assert (fits_u64 (heap_free_list h)) as Hhead.
  { eapply chain_head; [apply Hsh|]. intros. by eapply fl_fits. }
  assert (forall x, fits_u64 x -> ~ within (b_addr b) (sizeof_header + b_size b) x -> m' x = hmem h x) as Hm.
  { intros x _ Hx. apply split_other; unfold rest in *; hdr; lia. }
  destruct (split_fields (hmem h) (b_addr b) size rest (heap_free_list h))
    as (F1 & F2 & F3 & F4 & F5); try (unfold rest; hdr; lia); try done. fold m' in F1, F2, F3, F4, F5.
  split; [|split; [done|by eapply keeps_replace]].
  constructor; cbn [hmem heap_start heap_current_limit heap_free_list]; try done.
  - eapply tiles_replace; [done|done|]. simpl. unfold tagged, b_end. simpl.
    rewrite F1, F2, F3, F4. unfold rest. hdr. split_and!; (done || lia).
  - simpl. split_and!; [done|hdr; lia|]. rewrite F5.
    apply (chain_replace h l1 b l2 fl); [done..|apply Hsh].
  - constructor; [|apply Hsh]. intros Hn.
    destruct (free_in_block _ _ _ _ Hsh Hn) as (c & Hc & He).
    destruct (decide (c = b)) as [->|Hne]; [hdr; lia|].
    destruct (header_apart _ _ _ Hsh c b Hc Hb Hne); unfold rest in *; hdr;
      destruct (block_range _ _ _ Hsh c Hc) as (? & ? & ? & _); hdr; lia.
  - intros x [->|Hx]%elem_of_cons; [exists (mk_block (b_addr b + sizeof_header + size) rest true); split; [set_solver|done]|].
    destruct (free_in_block _ _ _ _ Hsh Hx) as (c & Hc & He).
    exists c. split; [|done]. apply elem_of_app in Hc as [?|[->|?]%elem_of_cons]; [set_solver| |set_solver].
    by rewrite He in Hnot.
Qed.

(** ** Lemmas: the flag, and a block behind the last one *)

Definition set_flag (b : block) (f : bool) : block := mk_block (b_addr b) (b_size b) f.

Lemma set_flag_ok h l1 b l2 fl f :
  shape h (l1 ++ b :: l2) fl ->
  exists h', set_is_free h (b_addr b) f = Ok h' /\ shape h' (l1 ++ set_flag b f :: l2) fl /\
    same_env h h' /\ heap_free_list h' = heap_free_list h /\
    keeps (l1 ++ b :: l2) (fun _ => True) (hmem h) (hmem h').
Proof.
  intros Hsh. assert (b ∈ l1 ++ b :: l2) as Hb by set_solver.
  destruct (block_range _ _ _ Hsh b Hb) as (R1 & R2 & R3 & Htag & _).
  pose proof (sh_start _ _ _ Hsh). pose proof (sh_limit _ _ _ Hsh).
  eexists. split; [by apply (set_is_free_ok h _ fl Hsh)|].
  set (m' := store8 _ _ _). assert (forall x, x <> b_addr b + 8 -> m' x = hmem h x) as Hm.
  { intros x Hx. unfold m', store8. by destruct (Z.eqb_spec x (b_addr b + 8)). }
  assert (forall x, x ∈ fl -> load64 m' (x + 16) = load64 (hmem h) (x + 16)) as Hnext.
  { intros x Hx. destruct (free_in_block _ _ _ _ Hsh Hx) as (c & Hc & <-).
    destruct (block_range _ _ _ Hsh c Hc) as (? & ? & ? & _).
    apply (load_le_ext 8); [hdr; lia|]. intros y Hy. apply Hm.
    destruct (decide (b_addr c = b_addr b)); [hdr; lia|].
    destruct (addr_apart _ _ _ Hsh c b Hc Hb); hdr; lia. }
  split_and!; try done.
  - destruct Hsh as [S1 S2 S3 S4 S5 S6].
    constructor; cbn [with_hmem hmem heap_start heap_current_limit heap_free_list]; try done.
    + eapply (tiles_replace h l1 b l2 fl m' [set_flag b f]); [done|..].
      * intros x _ Hx. apply Hm. hdr. lia.
      * simpl. split_and!; try done. split; simpl.
        -- rewrite <-Htag. apply (load_le_ext 8); [hdr; lia|]. intros y Hy. apply Hm. hdr. lia.
        -- unfold m', store8. rewrite Z.eqb_refl. by destruct f.
    + by apply (chain_ext (hmem h)).
    + intros a Ha. destruct (S6 a Ha) as (c & Hc & He). destruct (decide (c = b)) as [->|].
      * exists (set_flag b f). split; [set_solver|done].
      * exists c. split; [set_solver|done].
  - intros c x Hc _ Hx. apply Hm. destruct (decide (b = c)) as [->|Hne]; [hdr; lia|].
    destruct (block_range _ _ _ Hsh c Hc) as (? & ? & ? & _).
    destruct (header_apart _ _ _ Hsh b c Hb Hc Hne); hdr; lia.
Qed.

(** The header [kmalloc] writes at the old limit of a heap that has grown. *)
Lemma append_block_ok h bl fl limit' s f :
  shape h bl fl -> heap_current_limit h + 24 <= limit' < 18446744073709551616 ->
  let a := heap_current_limit h in
  let h0 := with_limit (with_vm h s) limit' in
  exists h', (h ← set_size h0 a (u64 (u64 (limit' - a) - sizeof_header));
              h ← set_is_free h a f; set_next h a 0) = Ok h' /\
    shape h' (bl ++ [mk_block a (limit' - a - 24) f]) fl /\ load64 (hmem h') (a + 16) = 0 /\
    same_env h0 h' /\ keeps bl (fun _ => True) (hmem h) (hmem h').
Proof.
  intros Hsh Hl. cbv zeta. set (a := heap_current_limit h) in *.
  pose proof (sh_start _ _ _ Hsh) as H0. pose proof (tiles_bounds _ _ _ _ (sh_tiles _ _ _ Hsh)) as [Hz Hall].
  fold a in Hz, Hall. set (h0 := with_limit (with_vm h s) limit').
  unfold set_size, set_is_free, set_next, hwrite, hwrite8. hdr.
  rewrite !(u64_small (limit' - a)), !(u64_small (limit' - a - 24)), !(u64_small (a + _))
    by (unfold fits_u64; lia).
  assert (forall h' k n, heap_start h' = heap_start h -> heap_current_limit h' = limit' ->
    0 <= k -> k + n <= 24 -> mapped_range h' (a + k) n = true) as Hmap.
  { intros h' k n E1 E2 ??. unfold mapped_range. rewrite E1, E2. apply andb_true_iff.
    rewrite !Z.leb_le. lia. }
  replace (mapped_range h0 a 8) with true by (rewrite <-(Z.add_0_r a), Hmap by (done || lia); done).
  mred. rewrite Hmap by (done || lia). mred. rewrite Hmap by (done || lia).
  eexists. split; [reflexivity|]. cbn [with_hmem hmem with_limit with_vm heap_free_list h0].
  set (m' := store64 _ (a + 16) 0).
  assert (forall x, x < a -> m' x = hmem h x) as Hm.
  { intros x Hx. unfold m', store64. rewrite (store_le_other 8) by (hdr; lia). unfold store8.
    destruct (Z.eqb_spec x (a + 8)); [lia|]. by rewrite (store_le_other 8) by (hdr; lia). }
  split_and!; try done.
  2:{ unfold m', load64, store64. by rewrite load_store_le by (hdr; lia). }
  2:{ intros c x Hc _ Hx. apply Hm. destruct (Hall c Hc) as (? & ? & ? & _). hdr. lia. }
  constructor; cbn [with_hmem hmem with_limit with_vm heap_free_list heap_start heap_current_limit h0];
    try (lia || by apply Hsh).
  - apply tiles_app. exists a. split.
    + apply (tiles_ext (hmem h)); [lia|lia| |apply Hsh]. intros c x Hc Hx. apply Hm.
      destruct (Hall c Hc) as (? & ? & ? & _). hdr. lia.
    + simpl. unfold tagged. simpl. split_and!; [done|lia| | |hdr; simpl; lia].
      * unfold m', load64, store64. rewrite (load_store_le_ne 8 8) by (hdr; lia).
        rewrite (load_le_ext 8 (store_le 8 (hmem h) a (limit' - a - 24))); [|hdr; lia|].
        { rewrite load_store_le by (hdr; lia). apply Z.mod_small. cbn. lia. }
        intros x Hx. unfold store8. destruct (Z.eqb_spec x (a + 8)); [hdr; lia|done].
      * unfold m', store64. rewrite (store_le_other 8) by (hdr; lia).
        unfold store8. rewrite Z.eqb_refl. by destruct f.
  - apply (chain_ext (hmem h)); [|apply Hsh]. intros x Hx.
    destruct (free_in_block _ _ _ _ Hsh Hx) as (c & Hc & <-).
    destruct (Hall c Hc) as (? & ? & ? & _).
    apply (load_le_ext 8); [hdr; lia|]. intros y Hy. apply Hm. hdr. lia.
  - intros x Hx. destruct (free_in_block _ _ _ _ Hsh Hx) as (c & Hc & <-). exists c. set_solver.
Qed.

(** ** Lemmas: growing the heap *)

Lemma same_page_limit a v :
  a mod PAGE_SIZE = 0 -> a <= v < a + PAGE_SIZE -> same_page a v = true.
Proof.
  unfold same_page, PAGE_SIZE. rewrite !bf_get_div by lia. intros Ha Hv. apply Z.eqb_eq.
  f_equal. change (2 ^ 12) with 4096. zdiv.
Qed.

Lemma free_pages_unique p F F' : free_pages p F -> free_pages p F' -> F = F'.
Proof. intros H H'. apply set_eq. intros i. by rewrite (H i), (H' i). Qed.

Lemma free_pages_shrink p p' F F' :
  free_pages p F -> free_pages p' F' -> (forall f, not_free p f -> not_free p' f) -> F' ⊆ F.
Proof.
  intros H H' Hm i Hi. destruct (decide (i ∈ F)) as [|Hn]; [done|]. exfalso.
  rewrite (H i) in Hn. apply (Hm i Hn). by apply H'.
Qed.

(** One round of the loop in [heap_expand]: no page, no page table, or a heap
    that is one page larger. *)
(** Address [v] is on no page from [lo] up to [hi]. *)
Definition off_pages (lo hi v : Z) : Prop := forall p, lo <= p < hi -> same_page p v = false.
(** What the growth of the heap from [lo] to [hi] leaves of the page tables. *)
Record grows (s s' : vm) (lo hi : Z) : Prop := {
  gw_frame : same_frame (vm_pmm s) (vm_pmm s');
  gw_hhdm : hhdm_offset s' = hhdm_offset s;
  gw_kernel : kernel_pml4 s' = kernel_pml4 s;
  gw_walk v : off_pages lo hi v -> walk s' (kernel_pml4 s) v = walk s (kernel_pml4 s) v
}.

Lemma grows_refl s lo hi : grows s s lo hi.
Proof. by constructor. Qed.
Lemma grows_trans s1 s2 s3 lo mid hi :
  grows s1 s2 lo mid -> grows s2 s3 mid hi -> lo <= mid <= hi -> grows s1 s3 lo hi.
Proof.
  intros [F1 H1 K1 W1] [F2 H2 K2 W2] Hm. constructor; [by eapply same_frame_trans|congruence|congruence|].
  intros v Hv. rewrite K1 in W2. rewrite W2, W1; [done|..]; intros p Hp; apply Hv; lia.
Qed.

Lemma expand_step h F :
  backed h -> free_pages (vm_pmm (h_vm h)) F -> 0 <= heap_current_limit h ->
  (F = ∅ /\ pmm_alloc (vm_pmm (h_vm h)) = Ok (0, vm_pmm (h_vm h))) \/
  exists phys p, pmm_alloc (vm_pmm (h_vm h)) = Ok (phys, p) /\ phys <> 0 /\
    match map_page (kernel_pml4 (h_vm h)) (heap_current_limit h) phys
            (Z.lor PTE_PRESENT PTE_WRITABLE) (with_pmm (h_vm h) p) with
    | Ok s =>
        backed (with_limit (with_vm h s) (heap_current_limit h + PAGE_SIZE)) /\
        grows (h_vm h) s (heap_current_limit h) (heap_current_limit h + PAGE_SIZE) /\
        exists F', free_pages (vm_pmm s) F' /\ (size F' + 1 <= size F <= size F' + 4)%nat
    | Halt => (size F < 4)%nat
    | _ => False
    end.
Proof.
  intros [Ht Hp Ha Hroom Hw] HF Hl0. destruct (alloc_fresh _ F Hp HF) as [[-> ->]|Hsome]; [by left|right].
  destruct Hsome as (g & p & Halloc & Hg & HF' & Hsame & Hok' & Hg1 & _ & _ & _ & Hmono).
  pose proof (size_take F g Hg) as Hsz.
  exists (g * PAGE_SIZE), p. split; [done|]. split; [unfold PAGE_SIZE; lia|].
  pose proof (tree_ok_mono (h_vm h) p _ Ht Hmono) as Ht'.
  pose proof (map_page_ok (with_pmm (h_vm h) p) (kernel_pml4 (h_vm h)) (heap_current_limit h)
    (g * PAGE_SIZE) (Z.lor PTE_PRESENT PTE_WRITABLE) _ Ht' Hok' HF') as Hmap.
  destruct (map_page _ _ _ _ _) as [s| | |]; [|lia|done|done].
  destruct Hmap as [[M1 M2 M3 M4 M5 M6 _ M7 M8] (F' & HF2 & Hsz')].
  cbn [with_pmm kernel_pml4 vm_pmm] in M5, M6.
  pose proof (subseteq_size _ _ (free_pages_shrink _ _ _ _ HF' HF2 M6)) as Hsub.
  split; [|split; [|exists F'; split; [done|lia]]].
  2: { constructor; [by eapply same_frame_trans|done|done|]. intros v Hv. apply M8, Hv. unfold PAGE_SIZE. lia. }
  specialize (Hroom F HF).
  constructor; cbn [with_limit with_vm h_vm heap_current_limit heap_start]; rewrite ?M5; try done.
  - unfold PAGE_SIZE in *. zdiv.
  - intros F2 HF2'. rewrite (free_pages_unique _ _ _ HF2' HF2). unfold PAGE_SIZE in *. lia.
  - intros v Hv. destruct (same_page (heap_current_limit h) v) eqn:Hs; [by rewrite M7|].
    rewrite M8 by done. apply (Hw v). split; [lia|].
    destruct (decide (v < heap_current_limit h)); [done|].
    rewrite same_page_limit in Hs; [done|done|lia].
Qed.

Lemma expand_loop_ok n h F :
  backed h -> free_pages (vm_pmm (h_vm h)) F ->
  0 <= heap_current_limit h ->
  match expand_loop n h with
  | Ok (r, h') =>
      (r = 0 /\ exists s, h' = with_limit (with_vm h s) (heap_current_limit h + Z.of_nat n * PAGE_SIZE) /\
         backed h' /\ grows (h_vm h) s (heap_current_limit h) (heap_current_limit h + Z.of_nat n * PAGE_SIZE) /\
         exists F', free_pages (vm_pmm s) F' /\ (size F' + n <= size F)%nat)
      \/ (r = -1 /\ (size F < 4 * n)%nat)
  | Halt => (size F < 4 * n)%nat
  | _ => False
  end.
Proof.
  revert h F. induction n as [|n IH]; intros h F Hb HF H0; cbn [expand_loop].
  { left. split; [done|]. exists (h_vm h). replace (heap_current_limit h + _) with (heap_current_limit h) by lia.
    destruct h. split_and!; try done. exists F. split; [done|lia]. }
  destruct (expand_step h F Hb HF H0) as [[-> ->]|(phys & p & -> & Hne & Hmap)]; mred.
  { rewrite Z.eqb_refl. right. split; [done|]. rewrite size_empty. lia. }
  rewrite (proj2 (Z.eqb_neq phys 0) Hne). cbn [with_vm h_vm heap_current_limit with_pmm kernel_pml4] in *.
  destruct (map_page _ _ _ _ _) as [s| | |]; mred; [|lia|done|done].
  destruct Hmap as (Hb' & Hsame & F' & HF' & Hsz).
  pose proof (bk_room _ Hb F HF) as Hroom.
  rewrite u64_small by (unfold fits_u64, PAGE_SIZE in *; lia).
  set (h1 := with_limit _ _). change (with_limit (with_vm h s) _) with h1 in Hb'.
  specialize (IH h1 F' Hb' HF').
  assert (heap_current_limit h1 = heap_current_limit h + PAGE_SIZE) as E by done. rewrite E in IH.
  specialize (IH ltac:(unfold PAGE_SIZE; lia)).
  destruct (expand_loop n h1) as [[r h']| | |]; [|lia|done|done].
  destruct IH as [(-> & s' & -> & Hb2 & Hs2 & F2 & HF2 & Hsz2)|[-> ?]]; [left|right; split; [done|lia]].
  split; [done|]. exists s'. split_and!; try done.
  - unfold h1. cbn. f_equal. lia.
  - replace (heap_current_limit h + Z.of_nat (S n) * PAGE_SIZE) with (heap_current_limit h + PAGE_SIZE + Z.of_nat n * PAGE_SIZE) by lia.
    apply (grows_trans _ _ _ _ _ _ Hsame Hs2). unfold PAGE_SIZE. lia.
  - exists F2. split; [done|lia].
Qed.

(** ** Lemmas: the free list as a set of blocks *)

Lemma lists_free_take l1 b b' l2 f1 f2 :
  lists_free (f1 ++ b_addr b :: f2) (l1 ++ b :: l2) -> NoDup (f1 ++ b_addr b :: f2) ->
  (forall c, c ∈ l1 ++ l2 -> b_addr c <> b_addr b) -> b_free b' = false ->
  lists_free (f1 ++ f2) (l1 ++ b' :: l2).
Proof.
  intros Hl [_ Hnot]%NoDup_remove_middle Hap Hb' a. specialize (Hl a). split.
  - intros Ha. destruct (proj1 Hl) as (c & Hc & He & Hf); [set_solver|].
    exists c. split_and!; [|done|done]. apply elem_of_app in Hc as [?|[->|?]%elem_of_cons]; [set_solver| |set_solver].
    by rewrite He in Hnot.
  - intros (c & Hc & He & Hf). assert (c ∈ l1 ++ l2) as Hc'.
    { apply elem_of_app in Hc as [?|[->|?]%elem_of_cons]; [set_solver|congruence|set_solver]. }
    pose proof (Hap c Hc'). assert (a ∈ f1 ++ b_addr b :: f2) as Ha; [|set_solver].
    apply Hl. exists c. split_and!; [set_solver|done|done].
Qed.

Lemma lists_free_push l1 n l2 fl :
  lists_free fl (l1 ++ l2) -> b_free n = true -> lists_free (b_addr n :: fl) (l1 ++ n :: l2).
Proof.
  intros Hl Hn a. specialize (Hl a). rewrite elem_of_cons, Hl. split.
  - intros [->|(c & Hc & He & Hf)]; [exists n|exists c]; split_and!; try done; set_solver.
  - intros (c & Hc & He & Hf). apply elem_of_app in Hc as [?|[->|?]%elem_of_cons]; [|by left|];
      right; exists c; split_and!; try done; set_solver.
Qed.

(** ** Lemmas: kmalloc *)

(** The heap after [size] bytes were given out as block [b]: the allocated
    blocks are those from before and [b], with their payloads unchanged. *)
Record given (h h' : heap) (bl bl' : list block) (fl' : list Z) (b : block) (size : Z) : Prop := {
  gv_shape : shape h' bl' fl';
  gv_free : lists_free fl' bl';
  gv_in : b ∈ bl';
  gv_flag : b_free b = false;
  gv_size : size <= b_size b;
  gv_keeps : keeps bl (fun c => b_free c = false) (hmem h) (hmem h');
  gv_old : forall c, c ∈ bl -> b_free c = false -> c ∈ bl' /\ c <> b;
  gv_new : forall c, c ∈ bl' -> b_free c = false -> c = b \/ c ∈ bl
}.

Lemma keeps_trans bl (P : block -> Prop) m1 m2 m3 :
  keeps bl P m1 m2 -> keeps bl P m2 m3 -> keeps bl P m1 m3.
Proof. intros H1 H2 b x Hb HP Hx. by rewrite (H2 b x), (H1 b x). Qed.

Lemma keeps_mono bl bl' (P P' : block -> Prop) m m' :
  keeps bl P m m' -> (forall b, b ∈ bl' -> P' b -> b ∈ bl /\ P b) -> keeps bl' P' m m'.
Proof. intros H Hi b x Hb HP Hx. destruct (Hi b Hb HP). eauto. Qed.

Lemma same_env_trans h1 h2 h3 : same_env h1 h2 -> same_env h2 h3 -> same_env h1 h3.
Proof. unfold same_env. intuition congruence. Qed.

(** Cutting [size] bytes off a block that is not on the free list. *)
Lemma split_given h l1 b l2 fl size :
  shape h (l1 ++ b :: l2) fl -> b_addr b ∉ fl -> 0 <= size <= b_size b ->
  lists_free fl (l1 ++ set_flag b false :: l2) ->
  exists h', split_block h (b_addr b) size = Ok h' /\ same_env h h' /\
    keeps (l1 ++ l2) (fun _ => True) (hmem h) (hmem h') /\
    exists b1 rest fl', shape h' (l1 ++ b1 :: rest ++ l2) fl' /\
      lists_free fl' (l1 ++ set_flag b1 false :: rest ++ l2) /\
      b_addr b1 = b_addr b /\ b_free b1 = b_free b /\ size <= b_size b1 < size + 40 /\
      Forall (fun c => b_free c = true) rest.
Proof.
  intros Hsh Hnot Hsize Hl.
  destruct (split_block_ok h l1 b l2 fl size Hsh Hnot Hsize) as [[Hlt Hs]|(Hr & h' & Hs & Hsh' & He & Hk)].
  - exists h. split_and!; try done. exists b, [], fl. split_and!; try done; lia.
  - exists h'. split_and!; try done.
    set (n := mk_block _ _ true) in *. set (b1 := mk_block _ _ (b_free b)) in *.
    exists b1, [n], (b_addr n :: fl). split_and!; try done.
    + change (l1 ++ set_flag b1 false :: [n] ++ l2) with (l1 ++ [set_flag b1 false] ++ n :: l2).
      rewrite app_assoc. apply lists_free_push; [|done]. rewrite <-app_assoc. simpl.
      intros a. rewrite (Hl a). split; intros (c & Hc & Hca & Hcf);
        (apply elem_of_app in Hc as [?|[->|?]%elem_of_cons]; [|done|]);
        exists c; split_and!; try done; set_solver.
    + simpl. lia.
    + by constructor.
Qed.

Lemma give_blocks h bl h' l1 b l2 b1 rest fl' size m1 :
  bl = l1 ++ b :: l2 -> b_free b = true ->
  shape h' (l1 ++ set_flag b1 false :: rest ++ l2) fl' ->
  lists_free fl' (l1 ++ set_flag b1 false :: rest ++ l2) ->
  b_addr b1 = b_addr b -> size <= b_size b1 -> Forall (fun c => b_free c = true) rest ->
  (forall c, c ∈ l1 ++ l2 -> b_addr c <> b_addr b) ->
  keeps (l1 ++ l2) (fun _ => True) (hmem h) m1 ->
  keeps (l1 ++ l2) (fun _ => True) m1 (hmem h') ->
  given h h' bl (l1 ++ set_flag b1 false :: rest ++ l2) fl' (set_flag b1 false) size.
Proof.
  intros -> Hbf Hsh Hl Ha Hs Hrest Hap K1 K2.
  assert (forall c, c ∈ l1 ++ b :: l2 -> b_free c = false -> c ∈ l1 ++ l2) as Hold.
  { intros c [?|[->|?]%elem_of_cons]%elem_of_app Hf; [set_solver|congruence|set_solver]. }
  constructor; try done; [set_solver|..].
  - apply (keeps_mono (l1 ++ l2) _ (fun _ => True)); [by eapply keeps_trans|]. auto.
  - intros c Hc Hf. pose proof (Hold c Hc Hf) as Hc'. split; [set_solver|].
    intros ->. apply (Hap _ Hc'). done.
  - intros c Hc Hf. rewrite elem_of_app, elem_of_cons, elem_of_app in Hc.
    destruct Hc as [?|[->|[Hc|?]]]; [right; set_solver|by left| |right; set_solver].
    rewrite Forall_forall in Hrest. rewrite Hrest in Hf; done.
Qed.

(** The path through a free block that is large enough. *)
Lemma take_ok h bl f1 b f2 size :
  shape h bl (f1 ++ b_addr b :: f2) -> lists_free (f1 ++ b_addr b :: f2) bl -> b ∈ bl ->
  0 <= size <= b_size b ->
  exists h', (h ← unlink h (last_or 0 f1) (b_addr b); h ← split_block h (b_addr b) size;
              set_is_free h (b_addr b) false) = Ok h' /\ same_env h h' /\
    exists bl' fl' b', b_addr b' = b_addr b /\ b_size b' < size + 40 /\
      given h h' bl bl' fl' b' size.
Proof.
  intros Hsh Hl Hb Hsize.
  assert (b_free b = true) as Hbf.
  { destruct (proj1 (Hl (b_addr b))) as (c & Hc & He & Hf); [set_solver|].
    by rewrite <-(tiles_addr_inj _ _ _ _ c b (sh_tiles _ _ _ Hsh)). }
  destruct (unlink_ok h bl f1 b f2 Hsh Hb) as (h1 & -> & Hsh1 & E1 & K1). mred.
  pose proof (NoDup_remove_middle _ _ _ (sh_nodup _ _ _ Hsh)) as [_ Hnot].
  destruct (list_elem_of_split _ _ Hb) as (l1 & l2 & ->).
  assert (forall c, c ∈ l1 ++ l2 -> b_addr c <> b_addr b) as Hap.
  { intros c Hc He. destruct (shape_around _ _ _ _ _ Hsh) as (_ & _ & Hd).
    destruct (block_range _ _ _ Hsh b Hb) as (? & ? & ? & _).
    destruct (block_range _ _ _ Hsh c) as (? & ? & ? & _); [set_solver|].
    destruct (Hd c Hc); hdr; lia. }
  destruct (split_given h1 l1 b l2 (f1 ++ f2) size Hsh1 Hnot Hsize)
    as (h2 & -> & E2 & K2 & b1 & rest & fl' & Hsh2 & Hl2 & Ha & Hf & Hs & Hrest).
  { by eapply lists_free_take; [done|apply Hsh|..]. }
  mred. rewrite <-Ha. destruct (set_flag_ok h2 l1 b1 (rest ++ l2) fl' false Hsh2)
    as (h3 & -> & Hsh3 & E3 & _ & K3).
  exists h3. split; [done|]. split; [eauto using same_env_trans|].
  exists (l1 ++ set_flag b1 false :: rest ++ l2), fl', (set_flag b1 false). split; [done|]. split; [simpl; lia|].
  apply (give_blocks h _ h3 l1 b l2 b1 rest fl' size (hmem h2)); try (done || lia).
  - eapply keeps_trans; [|exact K2]. eapply keeps_mono; [exact K1|set_solver].
  - eapply keeps_mono; [exact K3|]. set_solver.
Qed.

(** The path that grows the heap first. *)
Lemma grow_ok h bl fl limit' s size :
  shape h bl fl -> lists_free fl bl -> 0 <= size ->
  heap_current_limit h + 24 + size <= limit' < 18446744073709551616 ->
  let a := heap_current_limit h in
  let h0 := with_limit (with_vm h s) limit' in
  exists h', (h ← set_size h0 a (u64 (u64 (limit' - a) - sizeof_header));
              h ← set_is_free h a false; h ← set_next h a 0; split_block h a size) = Ok h' /\
    same_env h0 h' /\
    exists bl' fl' b', b_addr b' = a /\ given h h' bl bl' fl' b' size.
Proof.
  intros Hsh Hl Hs Hlim. cbv zeta.
  destruct (append_block_ok h bl fl limit' s false Hsh) as (h1 & H1 & Hsh1 & _ & E1 & K1); [lia|].
  set (a := heap_current_limit h) in *. set (nb := mk_block a (limit' - a - 24) false) in *.
  assert (a ∉ fl) as Hnot.
  { intros Ha. destruct (free_in_block _ _ _ _ Hsh Ha) as (c & Hc & He).
    destruct (block_range _ _ _ Hsh c Hc) as (? & ? & ? & _). unfold a in *. hdr. lia. }
  destruct (split_given h1 bl nb [] fl size Hsh1 Hnot)
    as (h2 & H2 & E2 & K2 & b1 & rest & fl' & Hsh2 & Hl2 & Ha & Hf & Hsz & Hrest).
  { simpl. lia. }
  { intros x. rewrite (Hl x). split; intros (c & Hc & ? & ?).
    - exists c. split_and!; [set_solver|done|done].
    - apply elem_of_app in Hc as [?|[->|?]%elem_of_cons]; [by exists c|done|set_solver]. }
  rewrite app_nil_r in K2, Hl2, Hsh2.
  exists h2. split.
  { destruct (set_size _ _ _) as [g1| | |]; mred; try done. revert H1. mred.
    destruct (set_is_free _ _ _) as [g2| | |]; mred; try done. by intros ->. }
  split; [by eapply same_env_trans|].
  assert (b1 = set_flag b1 false) as Eb by (destruct b1; simpl in *; by subst).
  exists (bl ++ b1 :: rest), fl', b1. split; [done|]. rewrite <-Eb in Hl2.
  rewrite Forall_forall in Hrest.
  constructor; try (done || lia); [set_solver|..].
  - eapply keeps_mono; [by eapply keeps_trans|]. auto.
  - intros c Hc _. split; [set_solver|]. intros ->.
    destruct (block_range _ _ _ Hsh b1 Hc) as (? & ? & ? & _). unfold a in *. simpl in Ha. hdr. lia.
  - intros c [?|[->|Hc]%elem_of_cons]%elem_of_app Hcf; [by right|by left|].
    rewrite Hrest in Hcf; done.
Qed.

Lemma round16_eq size :
  0 <= size <= 18446744073709551600 -> round16 size = (size + 15) / 16 * 16.
Proof.
  intros Hs. unfold round16. rewrite (u64_small (size + 15)) by (unfold fits_u64; lia).
  apply (land_align_down _ 4); [unfold fits_u64|]; lia.
Qed.

Lemma shape_env h h' bl fl :
  hmem h' = hmem h -> heap_start h' = heap_start h ->
  heap_current_limit h' = heap_current_limit h -> heap_free_list h' = heap_free_list h ->
  shape h bl fl -> shape h' bl fl.
Proof. intros E1 E2 E3 E4 []. constructor; rewrite ?E1, ?E2, ?E3, ?E4; done. Qed.

Lemma backed_env h h' :
  h_vm h' = h_vm h -> heap_start h' = heap_start h ->
  heap_current_limit h' = heap_current_limit h -> backed h -> backed h'.
Proof. intros E1 E2 E3 []. constructor; rewrite ?E1, ?E2, ?E3; done. Qed.

Lemma backed_lock h l c : backed h -> backed (with_kmalloc_lock h l c).
Proof. intros []. constructor; done. Qed.

Lemma lock_heap_ok h :
  locked (kmalloc_lock h) = 0 ->
  exists c, lock_heap h = Ok (rflags (heap_cpu h), with_kmalloc_lock h (mk_safe_lock 1) c).
Proof. intros Hl. unfold lock_heap, safe_lock. simpl. rewrite Hl. simpl. eauto. Qed.

Lemma unlock_heap_eq h flags : unlock_heap h flags = with_kmalloc_lock h (mk_safe_lock 0) (mk_cpu flags).
Proof. done. Qed.

(** Releasing the lock of a heap in which a block was given out. *)
Lemma given_unlock h h0 h' c bl bl' fl' b size flags :
  h0 = with_kmalloc_lock h (mk_safe_lock 1) c ->
  given h0 h' bl bl' fl' b size -> backed h' ->
  given h (unlock_heap h' flags) bl bl' fl' b size /\ heap_ok (unlock_heap h' flags) bl' fl'.
Proof.
  intros -> [] Hb. split.
  - constructor; try done. by eapply (shape_env h').
  - constructor; try done; [by eapply (shape_env h')|by apply backed_lock].
Qed.

Lemma given_payload h h' bl bl' fl' b size :
  given h h' bl bl' fl' b size -> u64 (b_addr b + sizeof_header) = payload b /\ payload b <> 0.
Proof.
  intros []. destruct (block_range _ _ _ gv_shape0 b gv_in0) as (? & ? & ? & _).
  destruct gv_shape0. split; [apply u64_small; unfold fits_u64|]; hdr; lia.
Qed.

Definition kmalloc_pages (size : Z) : Z := expand_pages (round16 size + sizeof_header).

Lemma expand_pages_eq size :
  0 <= size <= 2 ^ 63 ->
  u64 (round16 size + sizeof_header) = round16 size + sizeof_header /\
  size <= round16 size <= size + 15 /\ 0 <= kmalloc_pages size /\
  round16 size + 24 <= kmalloc_pages size * PAGE_SIZE.
Proof.
  intros Hs. unfold kmalloc_pages, expand_pages, PAGE_SIZE. rewrite round16_eq by lia. hdr.
  assert (0 <= (size + 15) / 16 * 16 <= size + 15 /\ size <= (size + 15) / 16 * 16) as [H1 H2] by zdiv.
  rewrite !u64_small by (unfold fits_u64; lia). split_and!; try lia; zdiv.
Qed.

(** The heap [kmalloc] returns. *)
Definition kmalloc_post (h : heap) (bl : list block) (size p : Z) (h' : heap) : Prop :=
  exists b bl' fl', given h h' bl bl' fl' b size /\ heap_ok h' bl' fl' /\
    p = payload b /\ heap_cpu h' = heap_cpu h.

Lemma kmalloc_finish h c h' bl bl' fl' b size n :
  given (with_kmalloc_lock h (mk_safe_lock 1) c) h' bl bl' fl' b n -> size <= n -> backed h' ->
  kmalloc_post h bl size (u64 (b_addr b + sizeof_header)) (unlock_heap h' (rflags (heap_cpu h))).
Proof.
  intros G Hn Hbk.
  destruct (given_unlock h _ h' c bl bl' fl' b n (rflags (heap_cpu h)) eq_refl G Hbk) as [G' Hok'].
  exists b, bl', fl'. destruct (given_payload _ _ _ _ _ _ _ G) as [Epay _].
  split_and!; [|done|done|].
  - destruct G'. constructor; try done. lia.
  - unfold heap_cpu. rewrite unlock_heap_eq. cbn. by destruct (pmm_cpu _).
Qed.

(** What [kmalloc] does on a well-formed heap. *)
Lemma kmalloc_ok h bl fl F size :
  heap_ok h bl fl -> free_pages (vm_pmm (h_vm h)) F -> 0 < size <= 2 ^ 63 ->
  match kmalloc size h with
  | Ok (p, h') => kmalloc_post h bl size p h'
  | Halt => Z.of_nat (base.size F) < 4 * kmalloc_pages size
  | _ => False
  end.
Proof.
  intros [Hsh Hl Hlk Hbk] HF Hsize. unfold kmalloc.
  destruct (expand_pages_eq size) as (Eu & Hr & Hp0 & Hfit); [lia|].
  destruct (lock_heap_ok h Hlk) as (c & ->). mred. set (h0 := with_kmalloc_lock _ _ _).
  destruct (Z.eqb_spec size 0); [lia|].
  assert (shape h0 bl fl) as Hsh0 by (by eapply (shape_env h)).
  assert (backed h0) as Hbk0 by (by apply backed_lock).
  destruct (find_fit_ok h0 bl fl (round16 size) fl 0 (heap_free_list h0) (find_fuel h0) Hsh0
    (sh_chain _ _ _ Hsh0) (fun _ H => H) (NoDup_length_blocks _ _ _ Hsh0))
    as [-> | (f1 & b & f2 & -> & Hb & Hs & ->)]; mred.
  - rewrite Eu. unfold heap_expand. fold (kmalloc_pages size).
    pose proof (proj1 (tiles_bounds _ _ _ _ (sh_tiles _ _ _ Hsh))). pose proof (sh_start _ _ _ Hsh).
    pose proof (expand_loop_ok (Z.to_nat (kmalloc_pages size)) h0 F Hbk0 HF) as Hexp.
    change (heap_current_limit h0) with (heap_current_limit h) in *.
    rewrite Z2Nat.id in Hexp by done. specialize (Hexp ltac:(lia)).
    pose proof (bk_room _ Hbk F HF) as Hroom.
    destruct (expand_loop _ h0) as [[r h1]| | |]; mred; [|lia|done|done].
    destruct Hexp as [(-> & s & -> & Hbk1 & _ & F' & _ & HszF)|[-> Hlt]];
      [change (0 <? 0) with false; cbv iota|change (-1 <? 0) with true; cbv iota; lia].
    destruct (grow_ok h0 bl fl (heap_current_limit h + kmalloc_pages size * PAGE_SIZE) s
      (round16 size) Hsh0 Hl) as (h' & Ht & E & bl' & fl' & b & Ha & G); [lia|cbn [heap_current_limit h0 with_kmalloc_lock]; unfold PAGE_SIZE in *; lia|].
    revert Ht. cbn [heap_current_limit with_limit h0 with_kmalloc_lock].
    destruct (set_size _ _ _) as [g1| | |]; mred; try done.
    destruct (set_is_free _ _ _) as [g2| | |]; mred; try done.
    destruct (set_next _ _ _) as [g3| | |]; mred; try done. intros ->. mred.
    destruct E as (E1 & E2 & E3 & E4). cbn [heap_current_limit h0 with_kmalloc_lock] in Ha.
    rewrite <-Ha. eapply kmalloc_finish; [exact G|lia|by apply (backed_env (with_limit (with_vm h0 s)
      (heap_current_limit h + kmalloc_pages size * PAGE_SIZE)))].
  - destruct (take_ok h0 bl f1 b f2 (round16 size) Hsh0 Hl Hb) as (h' & Ht & E & bl' & fl' & b' & Ha & _ & G);
      [lia|]. revert Ht. unfold unlink. rewrite (get_next_ok _ _ _ Hsh0 b Hb). mred.
    destruct (if negb _ then _ else _) as [h1| | |]; mred; try done.
    destruct (split_block h1 _ _) as [h2| | |]; mred; try done. intros ->. mred.
    destruct E as (E1 & E2 & E3 & E4).
    rewrite <-Ha. eapply kmalloc_finish; [exact G|lia|by apply (backed_env h0)].
Qed.

(** ** Lemmas: kfree *)

(** Linking a block in at the head of the free list. *)
Lemma push_ok h l1 b l2 fl :
  shape h (l1 ++ b :: l2) fl -> b_addr b ∉ fl ->
  exists h', set_next h (b_addr b) (heap_free_list h) = Ok h' /\ same_env h h' /\
    shape (with_free_list h' (b_addr b)) (l1 ++ b :: l2) (b_addr b :: fl) /\
    keeps (l1 ++ b :: l2) (fun _ => True) (hmem h) (hmem h').
Proof.
  intros Hsh Hnot. assert (b ∈ l1 ++ b :: l2) as Hb by set_solver.
  destruct (block_range _ _ _ Hsh b Hb) as (? & ? & ? & _).
  assert (fits_u64 (heap_free_list h)) as Hfit.
  { eapply chain_head; [apply Hsh|]. intros. by eapply fl_fits. }
  eexists. split; [by apply (set_next_ok _ _ _ Hsh)|]. split; [done|].
  split; [|by apply (next_write_keeps _ _ _ Hsh)]. pose proof Hsh as [S1 S2 S3 S4 S5 S6].
  constructor; cbn [with_free_list with_hmem hmem heap_start heap_current_limit heap_free_list];
    try done.
  - by apply (next_write_tiles _ _ _ Hsh).
  - simpl. split_and!; [done|lia|]. rewrite (load_next_write _ _ _ Hsh b b) by done.
    rewrite decide_True by done. apply (chain_ext (hmem h)); [|done]. intros x Hx.
    destruct (S6 x Hx) as (c & Hc & <-). rewrite (load_next_write _ _ _ Hsh b c) by done.
    rewrite decide_False; [done|]. intros He. by rewrite He in Hnot.
  - by constructor.
  - intros x [->|Hx]%elem_of_cons; [by exists b|auto].
Qed.

Lemma payload_header h bl fl b :
  shape h bl fl -> b ∈ bl -> payload b <> 0 /\ u64 (payload b - sizeof_header) = b_addr b.
Proof.
  intros Hsh Hb. destruct (block_range _ _ _ Hsh b Hb) as (? & ? & ? & _). destruct Hsh.
  split; [hdr; lia|]. unfold payload. rewrite Z.add_simpl_r. apply u64_small.
  unfold fits_u64. hdr. lia.
Qed.

Lemma kfree_ok h l1 b l2 fl :
  heap_ok h (l1 ++ b :: l2) fl -> b_free b = false ->
  exists h', kfree (payload b) h = Ok h' /\
    heap_ok h' (l1 ++ set_flag b true :: l2) (b_addr b :: fl) /\
    keeps (l1 ++ b :: l2) (fun _ => True) (hmem h) (hmem h') /\ heap_cpu h' = heap_cpu h.
Proof.
  intros [Hsh Hl Hlk Hbk] Hf. unfold kfree. assert (b ∈ l1 ++ b :: l2) as Hb by set_solver.
  destruct (payload_header _ _ _ _ Hsh Hb) as [Hp0 Hp].
  rewrite (proj2 (Z.eqb_neq _ 0) Hp0). destruct (lock_heap_ok h Hlk) as (c & ->). mred.
  set (h0 := with_kmalloc_lock _ _ _). rewrite Hp.
  assert (shape h0 (l1 ++ b :: l2) fl) as Hsh0 by (by eapply (shape_env h)).
  rewrite (get_is_free_ok _ _ _ Hsh0 b Hb), Hf. mred.
  destruct (set_flag_ok h0 l1 b l2 fl true Hsh0) as (h1 & -> & Hsh1 & E1 & Hfl & K1). mred.
  assert (b_addr b ∉ fl) as Hnot.
  { intros (d & Hd & He & Hdf)%Hl.
    rewrite (tiles_addr_inj _ _ _ _ d b (sh_tiles _ _ _ Hsh)) in Hdf by done. congruence. }
  destruct (push_ok h1 l1 (set_flag b true) l2 fl Hsh1 Hnot) as (h2 & Hset & E2 & Hsh2 & K2).
  change (b_addr (set_flag b true)) with (b_addr b) in *. rewrite Hset. mred.
  eexists. split; [reflexivity|]. destruct (same_env_trans _ _ _ E1 E2) as (V1 & V2 & V3 & V4).
  split_and!.
  - constructor; try done.
    + by eapply (shape_env (with_free_list h2 (b_addr b))).
    + change (b_addr b) with (b_addr (set_flag b true)). apply lists_free_push; [|done].
      intros a. rewrite (Hl a). split; intros (d & Hd & ? & ?); exists d; split_and!; try done.
      * apply elem_of_app in Hd as [?|[->|?]%elem_of_cons]; [set_solver|congruence|set_solver].
      * set_solver.
    + apply backed_lock. apply (backed_env h0); [done..|]. by apply backed_lock.
  - intros d x Hd _ Hx. change (hmem h2 x = hmem h0 x). destruct (decide (d = b)) as [->|Hne].
    + rewrite (K2 (set_flag b true) x), (K1 b x) by (done || set_solver). done.
    + rewrite (K2 d x), (K1 d x) by (done || set_solver). done.
  - unfold heap_cpu. rewrite unlock_heap_eq. cbn. by destruct (pmm_cpu _).
Qed.

Lemma with_kmalloc_lock_id h : with_kmalloc_lock h (kmalloc_lock h) (heap_cpu h) = h.
Proof. destruct h as [[[] m o k] l hm st li f]. done. Qed.

Lemma lock_unlock_id h l c flags :
  locked (kmalloc_lock h) = 0 -> flags = rflags (heap_cpu h) ->
  unlock_heap (with_kmalloc_lock h l c) flags = h.
Proof.
  intros Hl ->. rewrite <-(with_kmalloc_lock_id h) at 3. rewrite unlock_heap_eq.
  destruct (kmalloc_lock h) as [w] eqn:E. simpl in Hl. subst w.
  destruct h as [[[] m o k] l' hm st li f]. unfold with_kmalloc_lock, heap_cpu. cbn.
  by destruct pmm_cpu.
Qed.

(** Freeing a block that is free already changes nothing at all. *)
Lemma kfree_again h bl fl b :
  heap_ok h bl fl -> b ∈ bl -> b_free b = true -> kfree (payload b) h = Ok h.
Proof.
  intros [Hsh Hl Hlk Hbk] Hb Hf. unfold kfree.
  destruct (payload_header _ _ _ _ Hsh Hb) as [Hp0 Hp].
  rewrite (proj2 (Z.eqb_neq _ 0) Hp0). destruct (lock_heap_ok h Hlk) as (c & ->). mred.
  set (h0 := with_kmalloc_lock _ _ _). rewrite Hp.
  assert (shape h0 bl fl) as Hsh0 by (by eapply (shape_env h)).
  rewrite (get_is_free_ok _ _ _ Hsh0 b Hb), Hf. mred. f_equal. by apply lock_unlock_id.
Qed.

(** ** Lemmas: writing into a payload *)

Lemma payload_write h bl fl b m' :
  heap_ok h bl fl -> b ∈ bl ->
  (forall x, fits_u64 x -> ~ within (payload b) (b_size b) x -> m' x = hmem h x) ->
  heap_ok (with_hmem h m') bl fl /\ keeps bl (fun c => c <> b) (hmem h) m'.
Proof.
  intros [Hsh Hl Hlk Hbk] Hb Hm. destruct (block_range _ _ _ Hsh b Hb) as (R1 & R2 & R3 & _).
  pose proof (sh_start _ _ _ Hsh). pose proof (sh_limit _ _ _ Hsh). split.
  - constructor; try done; [|by apply (backed_env h)]. destruct Hsh as [S1 S2 S3 S4 S5 S6].
    assert (forall c x, c ∈ bl -> within (b_addr c) 24 x -> m' x = hmem h x) as Hhd.
    { intros c x Hc Hx. destruct (tiles_bounds _ _ _ _ S3) as [_ Hall].
      destruct (Hall c Hc) as (? & ? & ? & _). apply Hm; [unfold fits_u64; hdr; lia|].
      destruct (tiles_disjoint _ _ _ _ b c S3 Hb Hc) as [<-|[|]]; hdr; lia. }
    constructor; cbn [with_hmem hmem heap_start heap_current_limit heap_free_list]; try done.
    + apply (tiles_ext (hmem h)); [lia|lia| |done]. intros c x Hc Hx.
      apply (Hhd c x Hc). hdr. lia.
    + apply (chain_ext (hmem h)); [|done]. intros a Ha. destruct (S6 a Ha) as (c & Hc & <-).
      destruct (tiles_bounds _ _ _ _ S3) as [_ Hall]. destruct (Hall c Hc) as (? & ? & ? & _).
      apply (load_le_ext 8); [hdr; lia|]. intros x Hx. apply (Hhd c x Hc). hdr. lia.
  - intros c x Hc Hne Hx. destruct (block_range _ _ _ Hsh c Hc) as (? & ? & ? & _).
    apply Hm; [unfold fits_u64; hdr; lia|].
    destruct (header_apart _ _ _ Hsh b c Hb Hc) as [|]; [congruence|hdr; lia|hdr; lia].
Qed.

Lemma payload_mapped h bl fl b n :
  shape h bl fl -> b ∈ bl -> 0 <= n <= b_size b -> mapped_range h (payload b) n = true.
Proof. intros Hsh Hb Hn. apply (block_mapped _ _ _ Hsh b 24); [done|lia|hdr; lia]. Qed.

Lemma payload_range h bl fl b n :
  shape h bl fl -> b ∈ bl -> 0 <= n <= b_size b -> range_ok (payload b) n.
Proof.
  intros Hsh Hb Hn. destruct (block_range _ _ _ Hsh b Hb) as (? & ? & ? & _).
  destruct Hsh. hdr. lia.
Qed.

(** A block that was given out and then zeroed. *)
Lemma zeroed_ok h bl size p h' :
  kmalloc_post h bl size p h' -> 0 <= size ->
  exists h'', hmemset h' p 0 size = Ok h'' /\ kmalloc_post h bl size p h'' /\ p <> 0 /\
    forall i, 0 <= i < size -> hmem h'' (p + i) = 0.
Proof.
  intros (b & bl' & fl' & G & Hok & -> & Hcpu) Hs. unfold hmemset.
  destruct (given_payload _ _ _ _ _ _ _ G) as [_ Hp0]. pose proof G as [].
  rewrite (payload_mapped h' bl' fl') by done. eexists. split; [reflexivity|].
  pose proof (payload_range h' bl' fl' b size gv_shape0 gv_in0 ltac:(lia)) as Hr.
  assert (forall x, fits_u64 x -> ~ within (payload b) (b_size b) x ->
    memset (hmem h') (payload b) 0 size x = hmem h' x) as Hm.
  { intros x Hx Hn. apply memset_other; [done|done|]. unfold within in *. lia. }
  destruct (payload_write h' bl' fl' b _ Hok gv_in0 Hm) as [Hok' Hk].
  split_and!; try done.
  - exists b, bl', fl'. split_and!; try done. constructor; try done; [apply Hok'|].
    eapply keeps_trans; [done|]. intros c x Hc Hf Hx. destruct (gv_old0 c Hc Hf). by apply (Hk c).
  - intros i Hi. cbn [with_hmem hmem]. rewrite memset_in; [done|done|]. unfold within. lia.
Qed.

(** The overflow test of [kcalloc] and [krealloc]. *)
Lemma size_max_div n size :
  0 < n -> (18446744073709551615 / n <? size) = (18446744073709551615 <? n * size).
Proof.
  intros Hn. pose proof (Z.div_mod 18446744073709551615 n ltac:(lia)) as Hd.
  pose proof (Z.mod_pos_bound 18446744073709551615 n Hn) as Hr.
  destruct (Z.ltb_spec (18446744073709551615 / n) size),
    (Z.ltb_spec 18446744073709551615 (n * size)); nia || done.
Qed.

(** ** Theorems *)

(** C9: on a well-formed heap [kmalloc] returns a block of at least the size
    asked for; its payload lies inside the heap and overlaps no allocated
    block, the contents of allocated blocks are unchanged, the heap is well
    formed again and the interrupt flag is what it was.  The only other outcome
    is the panic, when fewer pages are left than growing the heap may take. *)
Theorem kmalloc_separates h bl fl F size :
  heap_ok h bl fl -> free_pages (vm_pmm (h_vm h)) F -> 0 < size <= 2 ^ 63 ->
  match kmalloc size h with
  | Ok (p, h') =>
      p <> 0 /\ heap_start h' <= p /\ p + size <= heap_current_limit h' /\
      heap_cpu h' = heap_cpu h /\
      (exists bl' fl' b, heap_ok h' bl' fl' /\ b ∈ bl' /\ payload b = p /\ b_free b = false) /\
      forall c, c ∈ bl -> b_free c = false ->
        (p + size <= payload c \/ payload c + b_size c <= p) /\
        forall x, within (payload c) (b_size c) x -> hmem h' x = hmem h x
  | Halt => Z.of_nat (base.size F) < 4 * kmalloc_pages size
  | _ => False
  end.
Proof.
  intros Hok HF Hs. pose proof (kmalloc_ok h bl fl F size Hok HF Hs) as H.
  destruct (kmalloc size h) as [[p h']| | |]; try done.
  destruct H as (b & bl' & fl' & G & Hok' & -> & Hcpu).
  destruct (given_payload _ _ _ _ _ _ _ G) as [_ Hp0]. destruct G.
  destruct (block_range _ _ _ gv_shape0 b gv_in0) as (? & ? & ? & _).
  split_and!; try done; [hdr; lia|hdr; lia|by exists bl', fl', b|].
  intros c Hc Hf. destruct (gv_old0 c Hc Hf) as [Hc' Hne].
  split; [|intros x Hx; by apply (gv_keeps0 c)].
  destruct (header_apart _ _ _ gv_shape0 b c gv_in0 Hc') as [|]; [congruence|hdr; lia|].
  destruct (block_range _ _ _ gv_shape0 c Hc') as (? & ? & ? & _). hdr. lia.
Qed.

(** A heap that has no page yet. *)
Definition empty_heap : heap :=
  mk_heap sample_vm (mk_safe_lock 0) (fun _ => 0) KERNEL_HEAP_START KERNEL_HEAP_START 0.

Lemma empty_heap_ok : heap_ok empty_heap [] [].
Proof.
  constructor.
  - constructor; simpl; try done; unfold KERNEL_HEAP_START; try lia; [constructor|set_solver].
  - intros a. set_solver.
  - done.
  - constructor; simpl; [apply sample_vm_tree|apply sample_vm_pmm|done| |lia].
    intros F HF. rewrite (free_pages_unique _ _ _ HF sample_vm_free). vm_compute. reflexivity.
Qed.

Lemma kmalloc_separates_witness :
  exists p h', kmalloc 100 empty_heap = Ok (p, h') /\ p = KERNEL_HEAP_START + 24 /\
    p + 100 <= heap_current_limit h'.
Proof.
  assert (0 < 100 <= 2 ^ 63) as Hs by lia.
  pose proof (kmalloc_separates empty_heap [] [] _ 100 empty_heap_ok sample_vm_free Hs) as H.
  assert (fst <$> kmalloc 100 empty_heap = Ok (KERNEL_HEAP_START + 24)) as Hp
    by (vm_compute; reflexivity).
  destruct (kmalloc 100 empty_heap) as [[p h']| | |]; try discriminate Hp.
  injection Hp as ->. destruct H as (_ & _ & H & _). exists (KERNEL_HEAP_START + 24), h'. auto.
Defined.

(** C19: [kfree] of an allocated block puts it at the head of the free list and
    changes no payload; freeing it a second time changes nothing at all. *)
Theorem kfree_correct h bl fl b :
  heap_ok h bl fl -> b ∈ bl -> b_free b = false ->
  exists h' bl', kfree (payload b) h = Ok h' /\ heap_ok h' bl' (b_addr b :: fl) /\
    (forall c, c ∈ bl' <-> c = set_flag b true \/ (c ∈ bl /\ c <> b)) /\
    keeps bl (fun _ => True) (hmem h) (hmem h') /\ heap_cpu h' = heap_cpu h /\
    kfree (payload b) h' = Ok h'.
Proof.
  intros Hok Hb Hf. pose proof (ok_shape _ _ _ Hok) as Hsh.
  destruct (list_elem_of_split _ _ Hb) as (l1 & l2 & ->).
  destruct (kfree_ok h l1 b l2 fl Hok Hf) as (h' & Hk & Hok' & Hkeep & Hcpu).
  exists h', (l1 ++ set_flag b true :: l2). split_and!; try done.
  - assert (forall c, c ∈ l1 ++ l2 -> c <> b) as Hne.
    { intros c Hc ->. destruct (shape_around _ _ _ _ _ Hsh) as (_ & _ & Hd).
      destruct (block_range _ _ _ Hsh b Hb) as (? & ? & ? & _). destruct (Hd b Hc); hdr; lia. }
    intros c. rewrite !elem_of_app, !elem_of_cons. specialize (Hne c). set_solver.
  - change (payload b) with (payload (set_flag b true)). eapply kfree_again; [done| |done]. set_solver.
Qed.

Lemma kfree_correct_witness :
  exists p h h', kmalloc 100 empty_heap = Ok (p, h) /\ kfree p h = Ok h' /\ kfree p h' = Ok h'.
Proof.
  assert (0 < 100 <= 2 ^ 63) as Hs by lia.
  pose proof (kmalloc_ok empty_heap [] [] _ 100 empty_heap_ok sample_vm_free Hs) as H.
  assert (is_ok (kmalloc 100 empty_heap) = true) as Hp by (vm_compute; reflexivity).
  destruct (kmalloc 100 empty_heap) as [[p h]| | |]; try discriminate Hp.
  destruct H as (b & bl & fl & G & Hok & -> & _). destruct G.
  destruct (kfree_correct h bl fl b Hok gv_in0 gv_flag0) as (h' & _ & H1 & _ & _ & _ & _ & H2).
  exists (payload b), h, h'. auto.
Defined.

(** [kcalloc] returns [NULL], with the heap untouched, exactly when the
    product does not fit or is zero; otherwise its block is separate from all
    others, as [kmalloc]'s is, and its bytes are zero. *)
Theorem kcalloc_correct h bl fl F n size :
  heap_ok h bl fl -> free_pages (vm_pmm (h_vm h)) F -> fits_u64 n -> fits_u64 size ->
  (n * size = 0 \/ SIZE_MAX < n * size -> kcalloc n size h = Ok (0, h)) /\
  (0 < n * size <= 2 ^ 63 ->
   match kcalloc n size h with
   | Ok (p, h') => p <> 0 /\ kmalloc_post h bl (n * size) p h' /\
       forall i, 0 <= i < n * size -> hmem h' (p + i) = 0
   | Halt => Z.of_nat (base.size F) < 4 * kmalloc_pages (n * size)
   | _ => False
   end).
Proof.
  intros Hok HF Hn Hsz. unfold fits_u64 in *. unfold kcalloc, SIZE_MAX.
  assert (negb (n =? 0) && (size >? 18446744073709551615 / n) = (18446744073709551615 <? n * size)) as ->.
  { destruct (Z.eqb_spec n 0) as [->|]; [done|]. rewrite Z.gtb_ltb. cbn [negb andb].
    apply size_max_div. lia. }
  split.
  - intros [H0|H0]; [rewrite H0; done|]. by rewrite (proj2 (Z.ltb_lt _ _) H0).
  - intros Hp. destruct (Z.ltb_spec 18446744073709551615 (n * size)); [lia|].
    rewrite u64_small by (unfold fits_u64; lia). destruct (Z.eqb_spec (n * size) 0); [lia|].
    pose proof (kmalloc_ok h bl fl F (n * size) Hok HF Hp) as Hpost0.
    destruct (kmalloc (n * size) h) as [[p h']| | |]; mred; try done.
    destruct (zeroed_ok _ _ _ _ _ Hpost0) as (h'' & -> & Hpost & Hp0 & Hz); [lia|].
    rewrite (proj2 (Z.eqb_neq p 0) Hp0). mred. done.
Qed.

Lemma kcalloc_correct_witness :
  kcalloc 4294967296 4294967296 empty_heap = Ok (0, empty_heap) /\
  exists p h', kcalloc 3 7 empty_heap = Ok (p, h') /\ hmem h' (p + 20) = 0.
Proof.
  split.
  - assert (fits_u64 4294967296) as H32 by (unfold fits_u64; lia).
    destruct (kcalloc_correct empty_heap [] [] _ _ _ empty_heap_ok sample_vm_free H32 H32) as [H _].
    apply H. right. reflexivity.
  - assert (fits_u64 3) as H3 by (unfold fits_u64; lia).
    assert (fits_u64 7) as H7 by (unfold fits_u64; lia).
    destruct (kcalloc_correct empty_heap [] [] _ 3 7 empty_heap_ok sample_vm_free H3 H7) as [_ H].
    specialize (H ltac:(lia)).
    assert (is_ok (kcalloc 3 7 empty_heap) = true) as Hp by (vm_compute; reflexivity).
    destruct (kcalloc 3 7 empty_heap) as [[p h']| | |]; try discriminate Hp.
    destruct H as (_ & _ & H). exists p, h'. split; [reflexivity|]. apply H. lia.
Defined.

(** C28: [krealloc] of an allocated block moves its contents: the new block
    holds the old bytes up to the smaller size, the old block is free, and
    every other allocated block is as it was. *)
Theorem krealloc_moves h bl fl F b n size old :
  heap_ok h bl fl -> free_pages (vm_pmm (h_vm h)) F -> b ∈ bl -> b_free b = false ->
  0 <= old <= b_size b -> 0 < n -> 0 < size -> n * size <= 2 ^ 63 ->
  match krealloc (payload b) n size old h with
  | Ok (p, h') =>
      (forall i, 0 <= i < Z.min old (n * size) -> hmem h' (p + i) = hmem h (payload b + i)) /\
      keeps bl (fun c => b_free c = false /\ c <> b) (hmem h) (hmem h') /\
      exists bl' fl' nb, heap_ok h' bl' fl' /\ nb ∈ bl' /\ payload nb = p /\ b_free nb = false /\
        n * size <= b_size nb /\ set_flag b true ∈ bl' /\
        (forall c, c ∈ bl -> b_free c = false -> c <> b -> c ∈ bl' /\ c <> nb)
  | Halt => Z.of_nat (base.size F) < 4 * kmalloc_pages (n * size)
  | _ => False
  end.
Proof.
  intros Hok HF Hb Hbf Hold Hn Hsz Hmax. unfold krealloc.
  destruct (payload_header _ _ _ _ (ok_shape _ _ _ Hok) Hb) as [Hp0 _].
  rewrite (proj2 (Z.eqb_neq _ 0) Hp0), (proj2 (Z.eqb_neq n 0)), (proj2 (Z.eqb_neq size 0)) by lia.
  cbn [orb]. assert (0 < n * size) as Hpos by nia. rewrite u64_small by (unfold fits_u64; lia).
  pose proof (kmalloc_ok h bl fl F (n * size) Hok HF (conj Hpos Hmax)) as Hk.
  destruct (kmalloc (n * size) h) as [[p h1]| | |]; mred; try done.
  destruct Hk as (nb & bl1 & fl1 & G & Hok1 & -> & _). destruct (given_payload _ _ _ _ _ _ _ G) as [_ Hnp0].
  destruct G. rewrite (proj2 (Z.eqb_neq _ 0) Hnp0).
  set (k := if old <? n * size then old else n * size).
  assert (k = Z.min old (n * size)) as Hkmin by (unfold k; destruct (Z.ltb_spec old (n * size)); lia).
  clearbody k. subst k. destruct (gv_old0 b Hb Hbf) as [Hb1 Hbne]. set (k := Z.min old (n * size)).
  pose proof (payload_range h1 bl1 fl1 nb k gv_shape0 gv_in0 ltac:(lia)) as Rn.
  pose proof (payload_range h1 bl1 fl1 b k gv_shape0 Hb1 ltac:(lia)) as Rb.
  unfold hmemcpy. rewrite !(payload_mapped h1 bl1 fl1) by (done || lia). cbn [andb]. mred.
  assert (forall x, fits_u64 x -> ~ within (payload nb) (b_size nb) x ->
    memcpy (hmem h1) (payload nb) (payload b) k x = hmem h1 x) as Hm.
  { intros x Hx Hnw. apply memcpy_other; [done|done|]. unfold within in *. lia. }
  destruct (payload_write h1 bl1 fl1 nb _ Hok1 gv_in0 Hm) as [Hok2 K2].
  destruct (list_elem_of_split _ _ Hb1) as (l1 & l2 & ->).
  destruct (kfree_ok _ l1 b l2 fl1 Hok2 Hbf) as (h3 & -> & Hok3 & K3 & _). mred.
  split_and!.
  - intros i Hi. rewrite (K3 nb) by (done || unfold within; lia). cbn [with_hmem hmem].
    rewrite memcpy_in by done. apply (gv_keeps0 b); [done|done|]. unfold within. lia.
  - intros c x Hc [Hcf Hcne] Hx. destruct (gv_old0 c Hc Hcf).
    rewrite (K3 c) by done. cbn [with_hmem hmem]. rewrite (K2 c) by done. by apply (gv_keeps0 c).
  - exists (l1 ++ set_flag b true :: l2), (b_addr b :: fl1), nb. split_and!; try done; [|set_solver|].
    + set_solver.
    + intros c Hc Hcf Hcne. destruct (gv_old0 c Hc Hcf). split; [set_solver|done].
Qed.

(** The heap of the witnesses once 100 bytes have been allocated. *)
Lemma sample_heap_ok :
  exists h bl fl b, kmalloc 100 empty_heap = Ok (payload b, h) /\ heap_ok h bl fl /\ b ∈ bl /\
    b_free b = false /\ 100 <= b_size b /\ fl = [KERNEL_HEAP_START + 136].
Proof.
  pose proof (kmalloc_ok empty_heap [] [] _ 100 empty_heap_ok sample_vm_free
    ltac:(lia)) as H.
  assert ((fun '(p, h) => (heap_free_list h, load64 (hmem h) (heap_free_list h + 16))) <$> kmalloc 100 empty_heap
    = Ok (KERNEL_HEAP_START + 136, 0)) as Hp by (vm_compute; reflexivity).
  destruct (kmalloc 100 empty_heap) as [[p h]| | |]; try discriminate Hp.
  injection Hp as Hf Hn. destruct H as (b & bl & fl & G & Hok & -> & _). destruct G.
  exists h, bl, fl, b. split_and!; try done.
  pose proof (sh_chain _ _ _ gv_shape0) as Hc. rewrite Hf in Hc.
  destruct fl as [|x [|y fl]]; simpl in Hc; [done|by destruct Hc as [<- _]|].
  destruct Hc as (<- & _ & Hy & Hy0 & _). rewrite Hf in Hn. rewrite Hn in Hy. congruence.
Qed.

Lemma krealloc_moves_witness :
  exists p h r, kmalloc 100 empty_heap = Ok (p, h) /\ krealloc p 2 100 100 h = r /\
    match r with Ok (q, h') => hmem h' (q + 99) = hmem h (p + 99) | Halt => True | _ => False end.
Proof.
  destruct sample_heap_ok as (h & bl & fl & b & Hk & Hok & Hb & Hbf & Hs & _).
  assert (exists F, free_pages (vm_pmm (h_vm h)) F) as (F & HF).
  { apply free_pages_exists. }
  pose proof (krealloc_moves h bl fl F b 2 100 100 Hok HF Hb Hbf ltac:(lia) ltac:(lia) ltac:(lia)
    ltac:(lia)) as H.
  exists (payload b), h, (krealloc (payload b) 2 100 100 h). split; [exact Hk|]. split; [reflexivity|].
  clear Hk. destruct (krealloc (payload b) 2 100 100 h) as [[q h']| | |];
    [|exact I|exact H|exact H].
  destruct H as [H _]. apply H. lia.
Defined.

(** a request of the last fifteen sizes before 2^64 is rounded to zero, so
    [kmalloc] hands out the first free block, cut down to less than 40 bytes,
    instead of failing. *)
Theorem kmalloc_wraps h bl b fl size :
  heap_ok h bl (b_addr b :: fl) -> b ∈ bl ->
  18446744073709551601 <= size < 18446744073709551616 ->
  exists h' bl' fl' nb, kmalloc size h = Ok (payload nb, h') /\ b_addr nb = b_addr b /\
    heap_ok h' bl' fl' /\ nb ∈ bl' /\ b_free nb = false /\ b_size nb < 40.
Proof.
  intros [Hsh Hl Hlk Hbk] Hb Hsz. unfold kmalloc.
  destruct (lock_heap_ok h Hlk) as (c & ->). mred. set (h0 := with_kmalloc_lock _ _ _).
  destruct (Z.eqb_spec size 0); [lia|].
  assert (round16 size = 0) as ->.
  { unfold round16. rewrite (land_align_down _ 4); [|apply u64_fits|lia]. unfold u64. zdiv. }
  assert (shape h0 bl (b_addr b :: fl)) as Hsh0 by (by eapply (shape_env h)).
  destruct (block_range _ _ _ Hsh0 b Hb) as (? & ? & ? & _). pose proof (sh_start _ _ _ Hsh0).
  assert (find_fit (find_fuel h0) h0 0 0 (heap_free_list h0) = Ok (Some (0, b_addr b))) as ->.
  { destruct (sh_chain _ _ _ Hsh0) as (E & E0 & _). rewrite E. unfold find_fuel. simpl.
    rewrite (proj2 (Z.eqb_neq _ 0) E0), (get_size_ok _ _ _ Hsh0 b Hb). mred.
    rewrite Z.geb_leb. by rewrite (proj2 (Z.leb_le 0 (b_size b))). }
  mred. destruct (take_ok h0 bl [] b fl 0 Hsh0 Hl Hb) as (h' & Ht & E & bl' & fl' & nb & Ha & Hlt & G);
    [lia|]. revert Ht. unfold unlink. rewrite (get_next_ok _ _ _ Hsh0 b Hb).
  change (last_or 0 []) with 0. mred.
  destruct (if negb _ then _ else _) as [h1| | |]; mred; try done.
  destruct (split_block h1 _ _) as [h2| | |]; mred; try done. intros ->. mred.
  destruct E as (E1 & E2 & E3 & E4).
  assert (backed h') as Hbk' by (by apply (backed_env h0); [..|apply backed_lock]).
  destruct (given_unlock h h0 h' c bl bl' fl' nb _ (rflags (heap_cpu h)) eq_refl G Hbk') as [[] Hok'].
  destruct (given_payload _ _ _ _ _ _ _ G) as [Ep _]. rewrite <-Ha, Ep.
  by eexists _, bl', fl', nb.
Qed.

Lemma kmalloc_wraps_witness :
  exists p h q h' nb, kmalloc 100 empty_heap = Ok (p, h) /\
    kmalloc 18446744073709551615 h = Ok (q, h') /\ q = payload nb /\ b_size nb < 40.
Proof.
  destruct sample_heap_ok as (h & bl & fl & b & Hk & Hok & Hb & Hbf & Hs & ->).
  destruct (proj1 (ok_free _ _ _ Hok (KERNEL_HEAP_START + 136))) as (f & Hf & He & _); [by left|].
  rewrite <-He in Hok.
  destruct (kmalloc_wraps h bl f [] 18446744073709551615 Hok Hf ltac:(lia))
    as (h' & _ & _ & nb & Hm & _ & _ & _ & _ & Hlt).
  exists (payload b), h, (payload nb), h', nb. auto.
Defined.

(** [heap_init] with 4100 free pages, and what it leaves of the page tables. *)
Lemma heap_init_ok h F :
  tree_ok (h_vm h) (kernel_pml4 (h_vm h)) -> pmm_ok (vm_pmm (h_vm h)) ->
  locked (kmalloc_lock h) = 0 -> free_pages (vm_pmm (h_vm h)) F -> 4100 <= Z.of_nat (base.size F) <= 2 ^ 34 ->
  exists h', heap_init h = Ok h' /\
    heap_ok h' [mk_block KERNEL_HEAP_START (1025 * PAGE_SIZE - 24) true] [KERNEL_HEAP_START] /\
    grows (h_vm h) (h_vm h') KERNEL_HEAP_START (KERNEL_HEAP_START + 1025 * PAGE_SIZE).
Proof.
  intros Ht Hp Hlk HF Hsz. unfold heap_init.
  cbn [with_limit heap_current_limit h_vm kmalloc_lock hmem]. set (h0 := mk_heap _ _ _ _ _ _).
  assert (backed h0) as Hb0.
  { constructor; try done; simpl; [|lia]. intros F' HF'. rewrite (free_pages_unique _ _ _ HF' HF).
    unfold KERNEL_HEAP_START, PAGE_SIZE. lia. }
  assert (shape h0 [] []) as Hsh0.
  { constructor; simpl; try done; unfold KERNEL_HEAP_START; try lia; [constructor|set_solver]. }
  unfold heap_expand. change (expand_pages (HEAP_INIT_PAGES * PAGE_SIZE)) with 1025.
  pose proof (expand_loop_ok (Z.to_nat 1025) h0 F Hb0 HF) as Hexp.
  rewrite Z2Nat.id in Hexp by lia.
  specialize (Hexp ltac:(simpl; unfold KERNEL_HEAP_START; lia)).
  destruct (expand_loop _ h0) as [[r h1]| | |]; mred; [|lia|done|done].
  destruct Hexp as [(-> & s & -> & Hbk & Hgr & _)|[_ Hlt]]; [|lia].
  destruct (append_block_ok h0 [] [] (heap_current_limit h0 + 1025 * PAGE_SIZE) s true Hsh0)
    as (h2 & Hw & Hsh2 & Hn & (E1 & E2 & E3 & E4) & _).
  { simpl. unfold KERNEL_HEAP_START, PAGE_SIZE. lia. }
  revert Hw. cbn [heap_start with_limit with_vm heap_current_limit h0].
  destruct (set_size _ _ _) as [g1| | |]; mred; try done.
  destruct (set_is_free _ _ _) as [g2| | |]; mred; try done. intros ->. mred.
  eexists. split; [reflexivity|]. split; [|by change (grows (h_vm h) (h_vm h2) KERNEL_HEAP_START (KERNEL_HEAP_START + 1025 * PAGE_SIZE)); rewrite E1].
  assert (1025 * PAGE_SIZE - 24 = KERNEL_HEAP_START + 1025 * PAGE_SIZE - KERNEL_HEAP_START - 24) as -> by lia.
  constructor; [|..|by change (locked (kmalloc_lock h2) = 0); rewrite E2|by apply (backed_env (with_limit (with_vm h0 s)
      (heap_current_limit h0 + 1025 * PAGE_SIZE)))].
  - destruct Hsh2 as [S1 S2 S3 S4 _ _].
    constructor; cbn [with_free_list hmem heap_start heap_current_limit heap_free_list]; try done.
    + apply NoDup_singleton.
    + intros a ->%list_elem_of_singleton. eexists. split; [by left|done].
  - intros a. rewrite list_elem_of_singleton. split.
    + intros ->. eexists. split; [by left|done].
    + intros (b & ->%list_elem_of_singleton & <- & _). done.
Qed.

(** with 4100 free pages [heap_init] leaves a well-formed, backed heap of
    1025 pages whose only block is free. *)
Theorem heap_init_correct h F :
  tree_ok (h_vm h) (kernel_pml4 (h_vm h)) -> pmm_ok (vm_pmm (h_vm h)) ->
  locked (kmalloc_lock h) = 0 -> free_pages (vm_pmm (h_vm h)) F -> 4100 <= Z.of_nat (base.size F) <= 2 ^ 34 ->
  exists h', heap_init h = Ok h' /\
    heap_ok h' [mk_block KERNEL_HEAP_START (1025 * PAGE_SIZE - 24) true] [KERNEL_HEAP_START].
Proof. intros Ht Hp Hl HF Hs. destruct (heap_init_ok h F Ht Hp Hl HF Hs) as (h' & E & Hok & _). by exists h'. Qed.

(** A machine with 8192 pages, the first two of them taken. *)
Definition large_pmm : pmm :=
  mk_pmm (3 :: replicate 1023 0) 18446603336221200384 1024 8192 2 (mk_safe_lock 0) (mk_cpu 514).
Definition large_vm : vm :=
  mk_vm large_pmm (fun _ => 0) (hhdm_offset sample_vm) (kernel_pml4 sample_vm).

Lemma large_vm_free : free_pages large_pmm (list_to_set (seqZ 2 8190)).
Proof.
  intros i. rewrite elem_of_list_to_set, elem_of_seqZ. cbn [total_pages bitmap large_pmm]. split.
  - intros Hi. split; [lia|].
    assert (forallb (fun i => negb (page_used (3 :: replicate 1023 0) i)) (seqZ 2 8190) = true) as H
      by (vm_compute; reflexivity).
    rewrite forallb_forall in H. apply negb_true_iff, H. apply list_elem_of_In, elem_of_seqZ. lia.
  - intros [Hi Hu]. destruct (decide (i = 1)) as [->|]; [discriminate Hu|lia].
Qed.

Lemma heap_init_correct_witness :
  exists h', heap_init (mk_heap large_vm (mk_safe_lock 0) (fun _ => 0) 0 0 0) = Ok h' /\
    heap_ok h' [mk_block KERNEL_HEAP_START 4198376 true] [KERNEL_HEAP_START].
Proof.
  apply (heap_init_correct (mk_heap large_vm (mk_safe_lock 0) (fun _ => 0) 0 0 0)
           (list_to_set (seqZ 2 8190))).
  - split.
    + intros [|i q] t _ Ht; [|by simpl in Ht]. injection Ht as <-. exists 1.
      split; [done|]. split; [unfold frame_ok; lia|]. intros [_ Hu]. discriminate Hu.
    + intros [|i q] [|i' q'] t _ _ Ht Ht'; [done|by simpl in *..].
  - unfold pmm_ok, capacity. split; [vm_compute; split; discriminate|]. split; [vm_compute; discriminate|reflexivity].
  - reflexivity.
  - exact large_vm_free.
  - rewrite size_list_to_set by apply NoDup_seqZ. rewrite length_seqZ. lia.
Defined.
