(* ===== verification/Alloc.v ===== *)
(** * The allocator as its clients see it

    What [kmalloc], [kzalloc] and [kfree] promise, as a class: the components
    that only allocate and free (lists, files, processes) are modelled and
    proved against it.  The heap of Heap.v is an instance. *)

From S2P Require Import Prelude Sync Bitmap Pmm Paging Bytes Heap.

(** ** The allocator's interface *)

Class Allocator (A : Type) := {
  alloc_inv : A -> Prop;
  (** [p] is the payload of an allocated block. *)
  live : A -> Z -> Prop;
  a_kmalloc : Z -> A -> outcome (Z * A);
  a_kzalloc : Z -> A -> outcome (Z * A);
  a_kfree : Z -> A -> outcome A;
  a_kmalloc_ok n a : alloc_inv a -> 0 < n <= 2 ^ 63 ->
    match a_kmalloc n a with
    | Ok (p, a') => alloc_inv a' /\ p <> 0 /\ ~ live a p /\
        forall q, live a' q <-> q = p \/ live a q
    | Halt => True
    | _ => False
    end;
  a_kzalloc_ok n a : alloc_inv a -> 0 < n <= 2 ^ 63 ->
    match a_kzalloc n a with
    | Ok (p, a') => alloc_inv a' /\ p <> 0 /\ ~ live a p /\
        forall q, live a' q <-> q = p \/ live a q
    | Halt => True
    | _ => False
    end;
  a_kfree_ok p a : alloc_inv a -> live a p ->
    exists a', a_kfree p a = Ok a' /\ alloc_inv a' /\ forall q, live a' q <-> live a q /\ q <> p;
  a_kfree_null a : a_kfree 0 a = Ok a;
  (** Blocks have addresses of 64 bits. *)
  live_range a p : alloc_inv a -> live a p -> 0 < p < 18446744073709551616
}.

(** ** The heap implements the interface *)

Definition heap_inv (h : heap) : Prop := exists bl fl, heap_ok h bl fl.
Definition heap_live (h : heap) (p : Z) : Prop :=
  exists bl fl b, heap_ok h bl fl /\ b ∈ bl /\ payload b = p /\ b_free b = false.

(** Memory determines the blocks. *)
Lemma tiles_det m a l1 l2 z : tiles m a l1 z -> tiles m a l2 z -> l1 = l2.
Proof.
  revert a l2. induction l1 as [|b l1 IH]; intros a [|c l2]; simpl; [done|..].
  - intros -> (<- & Hs & _ & Hr). apply tiles_bounds in Hr as [Hr _]. hdr. lia.
  - intros (<- & Hs & _ & Hr) <-. apply tiles_bounds in Hr as [Hr _]. hdr. lia.
  - intros (<- & _ & [Hs Hf] & Hr) (Ha & _ & [Hs' Hf'] & Hr').
    assert (b = c) as <-.
    { destruct b as [a1 s1 f1], c as [a2 s2 f2]. simpl in *. subst a2. congruence. }
    f_equal. by apply (IH (b_end b)).
Qed.

Lemma heap_live_iff h bl fl p :
  heap_ok h bl fl -> heap_live h p <-> exists b, b ∈ bl /\ payload b = p /\ b_free b = false.
Proof.
  intros Hok. split; [|intros (b & ?); by exists bl, fl, b].
  intros (bl' & fl' & b & Hok' & Hb & Hp & Hf). exists b. split_and!; try done.
  by rewrite (tiles_det _ _ bl bl' _ (sh_tiles _ _ _ (ok_shape _ _ _ Hok)) (sh_tiles _ _ _ (ok_shape _ _ _ Hok'))).
Qed.

(** The block just handed out becomes live and no other one changes. *)
Lemma kmalloc_post_live h bl fl n p h' :
  heap_ok h bl fl -> kmalloc_post h bl n p h' -> 0 < n ->
  heap_inv h' /\ p <> 0 /\ ~ heap_live h p /\ forall q, heap_live h' q <-> q = p \/ heap_live h q.
Proof.
  intros Hok (b & bl' & fl' & G & Hok' & -> & _) Hn.
  destruct (given_payload _ _ _ _ _ _ _ G) as [_ Hp0].
  destruct G as [gshape _ gin gflag _ _ gold gnew].
  split; [by exists bl', fl'|]. split; [done|]. split.
  - rewrite (heap_live_iff h bl fl) by done. intros (c & Hc & Hpc & Hf).
    destruct (gold c Hc Hf) as [Hc' Hne]. apply Hne.
    apply (tiles_addr_inj _ _ _ _ c b (sh_tiles _ _ _ gshape)); [done|done|]. hdr. lia.
  - intros q. rewrite (heap_live_iff h bl fl), (heap_live_iff h' bl' fl') by done. split.
    + intros (c & Hc & <- & Hf). destruct (gnew c Hc Hf) as [->|]; [by left|right; by exists c].
    + intros [->|(c & Hc & <- & Hf)]; [by exists b|]. exists c. split_and!; try done. by apply gold.
Qed.

Lemma heap_kmalloc_ok n h :
  heap_inv h -> 0 < n <= 2 ^ 63 ->
  match kmalloc n h with
  | Ok (p, h') => heap_inv h' /\ p <> 0 /\ ~ heap_live h p /\
      forall q, heap_live h' q <-> q = p \/ heap_live h q
  | Halt => True
  | _ => False
  end.
Proof.
  intros (bl & fl & Hok) Hn. destruct (free_pages_exists (vm_pmm (h_vm h))) as (F & HF).
  pose proof (kmalloc_ok h bl fl F n Hok HF Hn) as Hk.
  destruct (kmalloc n h) as [[p h1]| | |]; try done.
  apply (kmalloc_post_live _ _ _ _ _ _ Hok Hk). lia.
Qed.

Lemma heap_kzalloc_ok n h :
  heap_inv h -> 0 < n <= 2 ^ 63 ->
  match kzalloc n h with
  | Ok (p, h') => heap_inv h' /\ p <> 0 /\ ~ heap_live h p /\
      forall q, heap_live h' q <-> q = p \/ heap_live h q
  | Halt => True
  | _ => False
  end.
Proof.
  intros (bl & fl & Hok) Hn. destruct (free_pages_exists (vm_pmm (h_vm h))) as (F & HF).
  pose proof (kmalloc_ok h bl fl F n Hok HF Hn) as Hk. unfold kzalloc.
  destruct (kmalloc n h) as [[p h1]| | |]; mred; try done.
  destruct (zeroed_ok _ _ _ _ _ Hk) as (h2 & -> & Hk' & Hp0 & _); [lia|].
  rewrite (proj2 (Z.eqb_neq _ 0) Hp0). mred.
  apply (kmalloc_post_live _ _ _ _ _ _ Hok Hk'). lia.
Qed.

Lemma heap_kfree_ok p h :
  heap_inv h -> heap_live h p ->
  exists h', kfree p h = Ok h' /\ heap_inv h' /\ forall q, heap_live h' q <-> heap_live h q /\ q <> p.
Proof.
  intros (bl & fl & Hok) (b & Hb & <- & Hf)%(heap_live_iff h bl fl); [|done].
  pose proof (sh_tiles _ _ _ (ok_shape _ _ _ Hok)) as Ht.
  destruct (list_elem_of_split _ _ Hb) as (l1 & l2 & ->).
  destruct (kfree_ok h l1 b l2 fl Hok Hf) as (h' & Hk & Hok' & _). exists h'.
  split; [done|]. split; [by eexists _, _|]. intros q.
  rewrite (heap_live_iff h _ fl), (heap_live_iff h' _ (b_addr b :: fl)) by done.
  assert (forall c, c ∈ l1 ++ b :: l2 -> payload c = payload b -> c = b) as Hinj.
  { intros c Hc Hp. apply (tiles_addr_inj _ _ _ _ c b Ht); [done|done|]. hdr. lia. }
  split.
  - intros (c & Hc & <- & Hcf).
    assert (c ∈ l1 ++ l2) as Hc'.
    { apply elem_of_app in Hc as [?|[->|?]%elem_of_cons]; [set_solver|done|set_solver]. }
    split; [exists c; split_and!; try done; set_solver|]. intros Hp.
    rewrite (Hinj c) in Hc' by (done || set_solver).
    apply (shape_around _ _ _ _ _ (ok_shape _ _ _ Hok)) in Hc'.
    destruct (block_range _ _ _ (ok_shape _ _ _ Hok) b Hb) as (? & ? & _). hdr. lia.
  - intros [(c & Hc & <- & Hcf) Hne]. exists c. split_and!; try done.
    apply elem_of_app in Hc as [?|[->|?]%elem_of_cons]; [set_solver|done|set_solver].
Qed.

Lemma heap_live_range h p : heap_inv h -> heap_live h p -> 0 < p < 18446744073709551616.
Proof.
  intros (bl & fl & Hok) (b & Hb & <- & _)%(heap_live_iff h bl fl); [|done].
  pose proof (ok_shape _ _ _ Hok) as Hsh. destruct (block_range _ _ _ Hsh b Hb) as (? & ? & ? & _).
  destruct Hsh. hdr. lia.
Qed.

#[export] Instance heap_allocator : Allocator heap := {|
  alloc_inv := heap_inv;
  live := heap_live;
  a_kmalloc := kmalloc;
  a_kzalloc := kzalloc;
  a_kfree := kfree;
  a_kmalloc_ok := heap_kmalloc_ok;
  a_kzalloc_ok := heap_kzalloc_ok;
  a_kfree_ok := heap_kfree_ok;
  a_kfree_null _ := eq_refl;
  live_range := heap_live_range
|}.

(** ** An allocator to run the clients with

    It hands out ever higher addresses, and gives up where they end. *)

Record arena := mk_arena { brk : Z; blocks : gset Z }.

Definition arena_alloc (n : Z) (a : arena) : outcome (Z * arena) :=
  if brk a <? 18446744073709551616 then Ok (brk a, mk_arena (brk a + Z.max 1 n) ({[brk a]} ∪ blocks a)) else Halt.
Definition arena_free (p : Z) (a : arena) : outcome arena :=
  if p =? 0 then Ok a else Ok (mk_arena (brk a) (blocks a ∖ {[p]})).
Definition arena_inv (a : arena) : Prop := 0 < brk a /\ 
  forall p, p ∈ blocks a -> 0 < p < brk a /\ p < 18446744073709551616.

Lemma arena_alloc_ok n a :
  arena_inv a -> 0 < n <= 2 ^ 63 ->
  match arena_alloc n a with
  | Ok (p, a') => arena_inv a' /\ p <> 0 /\ ~ p ∈ blocks a /\
      forall q, q ∈ blocks a' <-> q = p \/ q ∈ blocks a
  | Halt => True
  | _ => False
  end.
Proof.
  intros [Hb Hl] Hn. unfold arena_alloc. destruct (Z.ltb_spec (brk a) 18446744073709551616); [|done]. split_and!.
  - split; simpl; [lia|]. intros p [->%elem_of_singleton|Hp%Hl]%elem_of_union; lia.
  - lia.
  - intros Hp%Hl. lia.
  - simpl. set_solver.
Qed.

Lemma arena_free_ok p a :
  arena_inv a -> p ∈ blocks a ->
  exists a', arena_free p a = Ok a' /\ arena_inv a' /\ forall q, q ∈ blocks a' <-> q ∈ blocks a /\ q <> p.
Proof.
  intros [Hb Hl] Hp. unfold arena_free. destruct (Z.eqb_spec p 0) as [->|].
  - apply Hl in Hp. lia.
  - eexists. split; [reflexivity|]. split; [|set_solver]. split; simpl; [done|].
    intros q Hq. apply Hl. set_solver.
Qed.

Lemma arena_live_range a p : arena_inv a -> p ∈ blocks a -> 0 < p < 18446744073709551616.
Proof. intros [_ Hl] Hp%Hl. lia. Qed.

#[export] Instance arena_allocator : Allocator arena := {|
  alloc_inv := arena_inv;
  live a p := p ∈ blocks a;
  a_kmalloc := arena_alloc;
  a_kzalloc := arena_alloc;
  a_kfree := arena_free;
  a_kmalloc_ok := arena_alloc_ok;
  a_kzalloc_ok := arena_alloc_ok;
  a_kfree_ok := arena_free_ok;
  a_kfree_null _ := eq_refl;
  live_range := arena_live_range
|}.

Definition arena0 : arena := mk_arena 4096 ∅.
Lemma arena0_inv : arena_inv arena0.
Proof. split; [done|set_solver]. Qed.

(** ** Blocks that are somebody else's

    The same allocator as a component sees it that does not touch the blocks
    [S]: they stay allocated and are not the component's.  What is proved of a
    component against the interface holds for this instance too, so a component
    leaves the blocks of the others alone. *)
Section Framed.
Context {A : Type} `{Allocator A}.
Context (S : list Z).

Definition framed_inv (a : A) : Prop := alloc_inv a /\ forall p, p ∈ S -> live a p.
Definition framed_live (a : A) (p : Z) : Prop := live a p /\ p ∉ S.

Lemma framed_new a a' p :
  framed_inv a -> alloc_inv a' /\ p <> 0 /\ ~ live a p /\ (forall q, live a' q <-> q = p \/ live a q) ->
  framed_inv a' /\ p <> 0 /\ ~ framed_live a p /\ forall q, framed_live a' q <-> q = p \/ framed_live a q.
Proof.
  intros [_ HS] (Hi & Hp & Hf & Hl). assert (p ∉ S) as HpS by (by intros ?%HS).
  split; [split; [done|]|split; [done|split]].
  - intros q Hq. apply Hl. right. by apply HS.
  - by intros [? _].
  - intros q. unfold framed_live. rewrite Hl. split; [tauto|]. intros [->|[? ?]]; tauto.
Qed.

Lemma framed_kmalloc_ok n a :
  framed_inv a -> 0 < n <= 2 ^ 63 ->
  match a_kmalloc n a with
  | Ok (p, a') => framed_inv a' /\ p <> 0 /\ ~ framed_live a p /\ forall q, framed_live a' q <-> q = p \/ framed_live a q
  | Halt => True
  | _ => False
  end.
Proof.
  intros Ha Hn. pose proof (a_kmalloc_ok n a (proj1 Ha) Hn) as Hk.
  destruct (a_kmalloc n a) as [[p a']| | |]; try done. by apply framed_new.
Qed.

Lemma framed_kzalloc_ok n a :
  framed_inv a -> 0 < n <= 2 ^ 63 ->
  match a_kzalloc n a with
  | Ok (p, a') => framed_inv a' /\ p <> 0 /\ ~ framed_live a p /\ forall q, framed_live a' q <-> q = p \/ framed_live a q
  | Halt => True
  | _ => False
  end.
Proof.
  intros Ha Hn. pose proof (a_kzalloc_ok n a (proj1 Ha) Hn) as Hk.
  destruct (a_kzalloc n a) as [[p a']| | |]; try done. by apply framed_new.
Qed.

Lemma framed_kfree_ok p a :
  framed_inv a -> framed_live a p ->
  exists a', a_kfree p a = Ok a' /\ framed_inv a' /\ forall q, framed_live a' q <-> framed_live a q /\ q <> p.
Proof.
  intros [Hi HS] [Hp HpS]. destruct (a_kfree_ok p a Hi Hp) as (a' & E & Hi' & Hl). exists a'. split; [done|].
  split; [split; [done|]|].
  - intros q Hq. apply Hl. split; [by apply HS|by intros ->].
  - intros q. unfold framed_live. rewrite Hl. tauto.
Qed.

Lemma framed_live_range a p : framed_inv a -> framed_live a p -> 0 < p < 18446744073709551616.
Proof. intros [Hi _] [Hp _]. by apply (live_range a). Qed.

Definition framed : Allocator A := {|
  alloc_inv := framed_inv;
  live := framed_live;
  a_kmalloc := a_kmalloc;
  a_kzalloc := a_kzalloc;
  a_kfree := a_kfree;
  a_kmalloc_ok := framed_kmalloc_ok;
  a_kzalloc_ok := framed_kzalloc_ok;
  a_kfree_ok := framed_kfree_ok;
  a_kfree_null := a_kfree_null;
  live_range := framed_live_range
|}.
End Framed.

(** ** Facts that allocation keeps

    The same allocator with a condition on its state that no operation breaks. *)
Section Kept.
Context {A : Type} `{Allocator A}.
Context (P : A -> Prop).
Hypothesis kmalloc_keeps : forall n a p a', a_kmalloc n a = Ok (p, a') -> P a -> P a'.
Hypothesis kzalloc_keeps : forall n a p a', a_kzalloc n a = Ok (p, a') -> P a -> P a'.
Hypothesis kfree_keeps : forall p a a', a_kfree p a = Ok a' -> P a -> P a'.

Definition kept_inv (a : A) : Prop := alloc_inv a /\ P a.

Lemma kept_kmalloc_ok n a :
  kept_inv a -> 0 < n <= 2 ^ 63 ->
  match a_kmalloc n a with
  | Ok (p, a') => kept_inv a' /\ p <> 0 /\ ~ live a p /\ forall q, live a' q <-> q = p \/ live a q
  | Halt => True
  | _ => False
  end.
Proof.
  intros [Hi HP] Hn. pose proof (a_kmalloc_ok n a Hi Hn) as Hk. pose proof (kmalloc_keeps n a) as Hp.
  destruct (a_kmalloc n a) as [[p a']| | |]; try done. destruct Hk as (? & ? & ? & ?). split_and!; try done.
  split; [done|by eapply Hp].
Qed.

Lemma kept_kzalloc_ok n a :
  kept_inv a -> 0 < n <= 2 ^ 63 ->
  match a_kzalloc n a with
  | Ok (p, a') => kept_inv a' /\ p <> 0 /\ ~ live a p /\ forall q, live a' q <-> q = p \/ live a q
  | Halt => True
  | _ => False
  end.
Proof.
  intros [Hi HP] Hn. pose proof (a_kzalloc_ok n a Hi Hn) as Hk. pose proof (kzalloc_keeps n a) as Hp.
  destruct (a_kzalloc n a) as [[p a']| | |]; try done. destruct Hk as (? & ? & ? & ?). split_and!; try done.
  split; [done|by eapply Hp].
Qed.

Lemma kept_kfree_ok p a :
  kept_inv a -> live a p ->
  exists a', a_kfree p a = Ok a' /\ kept_inv a' /\ forall q, live a' q <-> live a q /\ q <> p.
Proof.
  intros [Hi HP] Hl. destruct (a_kfree_ok p a Hi Hl) as (a' & E & Hi' & Hlv). exists a'. split; [done|].
  split; [split; [done|by eapply kfree_keeps]|done].
Qed.

Definition keeping : Allocator A := {|
  alloc_inv := kept_inv;
  live := live;
  a_kmalloc := a_kmalloc;
  a_kzalloc := a_kzalloc;
  a_kfree := a_kfree;
  a_kmalloc_ok := kept_kmalloc_ok;
  a_kzalloc_ok := kept_kzalloc_ok;
  a_kfree_ok := kept_kfree_ok;
  a_kfree_null := a_kfree_null;
  live_range a p Ha := live_range a p (proj1 Ha)
|}.
End Kept.

(** The direct map's place, the kernel's root table and the number of pages,
    which the heap does not change when it grows. *)
Definition vm_env (s : vm) : Z * Z * Z := (hhdm_offset s, kernel_pml4 s, total_pages (vm_pmm s)).

Lemma alloc_loop_env n : forall i p j q, alloc_loop n p i = Ok (Some (j, q)) -> total_pages q = total_pages p.
Proof. induction n as [|n IH]; intros i p j q Hq; simpl in Hq; ok_inv; [done|by eapply IH]. Qed.

Lemma pmm_alloc_env p f p' : pmm_alloc p = Ok (f, p') -> total_pages p' = total_pages p.
Proof.
  unfold pmm_alloc, lock_pmm. intros Ha. ok_inv. repeat case_match; simplify_eq; [|done].
  match goal with H : alloc_loop _ _ _ = _ |- _ => apply alloc_loop_env in H; exact H end.
Qed.

Lemma ensure_table_env e flags s t s' : ensure_table e flags s = Ok (t, s') -> vm_env s' = vm_env s.
Proof.
  unfold ensure_table, alloc_page_table. intros He. ok_inv; [discriminate| |done]. unfold vm_env. simpl.
  match goal with H : pmm_alloc _ = _ |- _ => apply pmm_alloc_env in H; by rewrite H end.
Qed.

Lemma map_page_env root v p flags s s' : map_page root v p flags s = Ok s' -> vm_env s' = vm_env s.
Proof.
  unfold map_page. intros Hm. ok_inv.
  repeat match goal with H : ensure_table _ _ _ = _ |- _ => apply ensure_table_env in H end.
  unfold vm_env in *. simpl. congruence.
Qed.

Definition heap_env (h : heap) : Z * Z * Z := vm_env (h_vm h).

Lemma hwrite_env h a v h' : hwrite h a v = Ok h' -> h_vm h' = h_vm h.
Proof. unfold hwrite. intros Hw. by ok_inv. Qed.
Lemma hwrite8_env h a v h' : hwrite8 h a v = Ok h' -> h_vm h' = h_vm h.
Proof. unfold hwrite8. intros Hw. by ok_inv. Qed.

Lemma expand_loop_env n : forall h r h', expand_loop n h = Ok (r, h') -> heap_env h' = heap_env h.
Proof.
  induction n as [|n IH]; intros h r h' He; simpl in He; ok_inv; [done|..].
  - unfold heap_env, vm_env. simpl. match goal with H : pmm_alloc _ = _ |- _ => apply pmm_alloc_env in H; by rewrite H end.
  - apply IH in He. rewrite He. unfold heap_env. simpl.
    match goal with H : map_page _ _ _ _ _ = _ |- _ => apply map_page_env in H; rewrite H end.
    unfold vm_env. simpl. match goal with H : pmm_alloc _ = _ |- _ => apply pmm_alloc_env in H; by rewrite H end.
Qed.

Lemma split_block_env h b n h' : split_block h b n = Ok h' -> h_vm h' = h_vm h.
Proof.
  unfold split_block, set_size, set_is_free, set_next. intros Hs. ok_inv; [|done].
  repeat match goal with
  | H : hwrite _ _ _ = _ |- _ => apply hwrite_env in H
  | H : hwrite8 _ _ _ = _ |- _ => apply hwrite8_env in H end. simpl in *. congruence.
Qed.

Lemma lock_heap_env h f h' : lock_heap h = Ok (f, h') -> heap_env h' = heap_env h.
Proof. unfold lock_heap. intros Hl. by ok_inv. Qed.
Lemma unlock_heap_env h f : heap_env (unlock_heap h f) = heap_env h.
Proof. done. Qed.

(** Rewrites with what every step of the heap's code keeps. *)
Ltac heap_env_steps :=
  repeat match goal with
  | H : hwrite _ _ _ = _ |- _ => apply hwrite_env in H
  | H : hwrite8 _ _ _ = _ |- _ => apply hwrite8_env in H
  | H : split_block _ _ _ = _ |- _ => apply split_block_env in H
  | H : expand_loop _ _ = _ |- _ => apply expand_loop_env in H
  | H : lock_heap _ = _ |- _ => apply lock_heap_env in H
  end; unfold heap_env in *; simpl in *; congruence.

Lemma kmalloc_env n h p h' : kmalloc n h = Ok (p, h') -> heap_env h' = heap_env h.
Proof.
  unfold kmalloc, set_size, set_is_free, set_next, heap_expand. intros Hk.
  ok_inv; try case_match; ok_inv; repeat case_match; ok_inv; rewrite ?unlock_heap_env; heap_env_steps.
Qed.
Lemma kzalloc_env n h p h' : kzalloc n h = Ok (p, h') -> heap_env h' = heap_env h.
Proof. unfold kzalloc, hmemset. intros Hk. ok_inv; by apply kmalloc_env in E. Qed.
Lemma kfree_env p h h' : kfree p h = Ok h' -> heap_env h' = heap_env h.
Proof. unfold kfree, set_is_free, set_next. intros Hk. ok_inv; rewrite ?unlock_heap_env; try done; heap_env_steps. Qed.

(** The heap of a kernel whose page tables are at their place. *)
Definition heap_at (e : Z * Z * Z) : Allocator heap :=
  keeping (fun h => heap_env h = e)
    (fun n h p h' E HP => eq_trans (kmalloc_env n h p h' E) HP)
    (fun n h p h' E HP => eq_trans (kzalloc_env n h p h' E) HP)
    (fun p h h' E HP => eq_trans (kfree_env p h h' E) HP).
