(* ===== verification/Klist.v ===== *)
(** * Linked lists (src/kernel/data/list.c, src/include/data_structure/list.h)

    The lists are written against the allocator, so they are modelled against
    its interface: the list code and its theorems use nothing of the heap but
    the class [Allocator] of Alloc.v.  The fields of the list and node structures are kept
    by address; an address with no structure faults. *)

From S2P Require Import Prelude Sync Bitmap Pmm Paging Bytes Heap Alloc.

(** ** Data *)

Record list_node_t := mk_node { data : Z; next : Z }.
Record list_t := mk_list { count : Z; head : Z }.

Definition sizeof_list : Z := 16.
Definition sizeof_node : Z := 16.

Record kstate (A : Type) := mk_kstate {
  alloc : A;
  lists : gmap Z list_t;
  nodes : gmap Z list_node_t
}.
Arguments mk_kstate {A} _ _ _.
Arguments alloc {A} _.
Arguments lists {A} _.
Arguments nodes {A} _.

Section Code.
Context {A : Type} `{Allocator A}.
Implicit Types (s : kstate A).

Definition set_list s (l : Z) (v : list_t) : kstate A :=
  mk_kstate (alloc s) (<[l := v]> (lists s)) (nodes s).
Definition set_node s (n : Z) (v : list_node_t) : kstate A :=
  mk_kstate (alloc s) (lists s) (<[n := v]> (nodes s)).

(** [kfree(p)]: what was at [p] may no longer be used. *)
Definition free s (p : Z) : outcome (kstate A) :=
  a ← a_kfree p (alloc s);
  Ok (mk_kstate a (delete p (lists s)) (delete p (nodes s))).

Definition init_list s : outcome (Z * kstate A) :=
  '(l, a) ← a_kzalloc sizeof_list (alloc s);
  let s := mk_kstate a (lists s) (nodes s) in
  if l =? 0 then Ok (0, s) else Ok (l, set_list s l (mk_list 0 0)).

Definition new_node (d nx : Z) s : outcome (Z * kstate A) :=
  '(n, a) ← a_kzalloc sizeof_node (alloc s);
  let s := mk_kstate a (lists s) (nodes s) in
  if n =? 0 then Ok (0, s) else Ok (n, set_node s n (mk_node d nx)).

(** [for (i = 1; i <= at && current != NULL; i++) current = current->next]. *)
Fixpoint get_node_loop (k : nat) (current : Z) s : outcome Z :=
  match k with
  | O => Ok current
  | S k =>
      if current =? 0 then Ok current
      else
        n ← deref (nodes s !! current);
        get_node_loop k (next n) s
  end.

Definition list_get_node_at (l at_ : Z) s : outcome Z :=
  v ← deref (lists s !! l);
  if at_ >=? count v then Ok 0 else get_node_loop (Z.to_nat at_) (head v) s.

Definition list_get_at (l at_ : Z) s : outcome Z :=
  node ← list_get_node_at l at_ s;
  if negb (node =? 0) then n ← deref (nodes s !! node); Ok (data n) else Ok 0.

(** The new node is never created: [node] is still [NULL] when it is tested. *)
Definition list_append (l d : Z) s : outcome (kstate A) :=
  let node := 0 in
  if node =? 0 then Ok s
  else
    v ← deref (lists s !! l);
    s ← (if negb (count v =? 0) then
           last ← list_get_at l (u64 (count v - 1)) s;
           '(n, s) ← new_node d 0 s;
           v ← deref (nodes s !! last);
           Ok (set_node s last (mk_node (data v) n))
         else Ok (set_list s l (mk_list (count v) node)));
    v ← deref (lists s !! l);
    Ok (set_list s l (mk_list (u64 (count v + 1)) (head v))).

Definition list_push (l d : Z) s : outcome (kstate A) :=
  v ← deref (lists s !! l);
  '(n, s) ← new_node d (head v) s;
  v ← deref (lists s !! l);
  let s := set_list s l (mk_list (count v) n) in
  v ← deref (lists s !! l);
  Ok (set_list s l (mk_list (u64 (count v + 1)) (head v))).

Definition list_insert_at (l at_ d : Z) s : outcome (kstate A) :=
  v ← deref (lists s !! l);
  if at_ =? count v then list_append l d s
  else if at_ =? 0 then list_push l d s
  else
    prev ← list_get_node_at l (u64 (at_ - 1)) s;
    p ← deref (nodes s !! prev);
    '(n, s) ← new_node d (next p) s;
    p ← deref (nodes s !! prev);
    let s := set_node s prev (mk_node (data p) n) in
    v ← deref (lists s !! l);
    Ok (set_list s l (mk_list (u64 (count v + 1)) (head v))).

Definition list_pop (l : Z) s : outcome (kstate A) :=
  v ← deref (lists s !! l);
  if count v =? 0 then Ok s
  else
    h ← deref (nodes s !! head v);
    let nx := next h in
    s ← (if negb (data h =? 0) then free s (data h) else Ok s);
    s ← free s (head v);
    v ← deref (lists s !! l);
    let s := set_list s l (mk_list (count v) nx) in
    Ok (set_list s l (mk_list (u64 (count v - 1)) nx)).

(** [for (i = 1; i < at && current != NULL; i++)]: [i] is a 32-bit counter. *)
Fixpoint remove_loop (fuel : nat) (i at_ current : Z) s : outcome Z :=
  if (i <? at_) && negb (current =? 0) then
    match fuel with
    | O => Hang
    | S fuel =>
        n ← deref (nodes s !! current);
        remove_loop fuel (u32 (i + 1)) at_ (next n) s
    end
  else Ok current.

Definition list_remove_at (l at_ : Z) s : outcome (kstate A) :=
  v ← deref (lists s !! l);
  if count v =? 0 then Ok s
  else if at_ =? 0 then list_pop l s
  else
    current ← remove_loop (S (size (nodes s))) 1 at_ (head v) s;
    c ← deref (nodes s !! current);
    let temp := next c in
    t ← deref (nodes s !! temp);
    let s := set_node s current (mk_node (data c) (next t)) in
    s ← (if negb (data t =? 0) then free s (data t) else Ok s);
    s ← free s (data t);
    v ← deref (lists s !! l);
    Ok (set_list s l (mk_list (u64 (count v - 1)) (head v))).

Fixpoint filter_loop (fuel : nat) (callback : Z -> bool) (res p : Z) s : outcome (kstate A) :=
  if p =? 0 then Ok s
  else
    match fuel with
    | O => Hang
    | S fuel =>
        n ← deref (nodes s !! p);
        s ← (if callback (data n) then list_push res (data n) s else Ok s);
        n ← deref (nodes s !! p);
        filter_loop fuel callback res (next n) s
    end.

(** [callback] is [None] for a null function pointer. *)
Definition list_filter (l : Z) (callback : option (Z -> bool)) s : outcome (Z * kstate A) :=
  if l =? 0 then Ok (0, s)
  else
    v ← deref (lists s !! l);
    if count v =? 0 then Ok (0, s)
    else
      match callback with
      | None => Ok (0, s)
      | Some f =>
          '(res, s) ← init_list s;
          if res =? 0 then Ok (0, s)
          else
            v ← deref (lists s !! l);
            s ← filter_loop (S (size (nodes s))) f res (head v) s;
            Ok (res, s)
      end.

Fixpoint match_loop (fuel : nat) (callback : Z -> bool) (p : Z) s : outcome Z :=
  if p =? 0 then Ok 0
  else
    match fuel with
    | O => Hang
    | S fuel =>
        n ← deref (nodes s !! p);
        if callback (data n) then Ok (data n) else match_loop fuel callback (next n) s
    end.

(** The callback with its second argument applied. *)
Definition get_first_match (l : Z) (callback : option (Z -> bool)) s : outcome Z :=
  if l =? 0 then Ok 0
  else
    v ← deref (lists s !! l);
    if count v =? 0 then Ok 0
    else
      match callback with
      | None => Ok 0
      | Some f => match_loop (S (size (nodes s))) f (head v) s
      end.
End Code.

(** ** Specification: the list of data pointers *)

(** The nodes reached from [a], as addresses and data. *)
Fixpoint node_chain (ns : gmap Z list_node_t) (a : Z) (xs : list (Z * Z)) : Prop :=
  match xs with
  | [] => a = 0
  | (p, d) :: rest =>
      a = p /\ p <> 0 /\ exists nx, ns !! p = Some (mk_node d nx) /\ node_chain ns nx rest
  end.

Section Spec.
Context {A : Type} `{Allocator A}.

(** List [l] holds [xs]; its nodes and itself are allocated, distinct blocks. *)
Record is_list (s : kstate A) (l : Z) (xs : list (Z * Z)) : Prop := {
  il_inv : alloc_inv (alloc s);
  il_list : exists h, lists s !! l = Some (mk_list (Z.of_nat (length xs)) h) /\ node_chain (nodes s) h xs;
  il_count : Z.of_nat (length xs) < 18446744073709551616;
  il_nodup : NoDup (l :: xs.*1);
  il_live : forall p, p ∈ l :: xs.*1 -> live (alloc s) p
}.
End Spec.

(** ** Lemmas *)

Section Lemmas.
Context {A : Type} `{Allocator A}.
Implicit Types (s : kstate A).

Lemma new_node_ok s d nx :
  alloc_inv (alloc s) ->
  match new_node d nx s with
  | Ok (n, s') => n <> 0 /\ ~ live (alloc s) n /\ alloc_inv (alloc s') /\
      lists s' = lists s /\ nodes s' = <[n := mk_node d nx]> (nodes s) /\
      forall q, live (alloc s') q <-> q = n \/ live (alloc s) q
  | Halt => True
  | _ => False
  end.
Proof.
  intros Hi. unfold new_node. pose proof (a_kzalloc_ok sizeof_node (alloc s) Hi) as Hk.
  specialize (Hk ltac:(unfold sizeof_node; lia)).
  destruct (a_kzalloc sizeof_node (alloc s)) as [[n a]| | |]; mred; try done.
  destruct Hk as (Hi' & Hn & Hl & Hlive). rewrite (proj2 (Z.eqb_neq n 0) Hn). done.
Qed.

Lemma node_chain_ext ns ns' a xs :
  (forall p, p ∈ xs.*1 -> ns' !! p = ns !! p) -> node_chain ns a xs -> node_chain ns' a xs.
Proof.
  revert a. induction xs as [|[p d] xs IH]; intros a Hn; simpl; [done|].
  intros (-> & Hp & nx & Hl & Hc). split_and!; [done|done|]. exists nx.
  rewrite Hn by (simpl; left). split; [done|]. apply IH; [|done]. intros. apply Hn. simpl. by right.
Qed.

(** [l] and its nodes are untouched between [s] and [s']. *)
Lemma is_list_kept s s' l xs :
  is_list s l xs -> alloc_inv (alloc s') -> lists s' !! l = lists s !! l ->
  (forall p, p ∈ xs.*1 -> nodes s' !! p = nodes s !! p) ->
  (forall p, p ∈ l :: xs.*1 -> live (alloc s) p -> live (alloc s') p) -> is_list s' l xs.
Proof.
  intros [I1 (h & I2 & I3) I4 I5 I6] Hi Hl Hn Hlive. constructor; try done.
  - exists h. rewrite Hl. split; [done|]. by eapply node_chain_ext.
  - intros p Hp. apply Hlive; auto.
Qed.

Lemma is_list_frame s s' l xs :
  is_list s l xs -> alloc_inv (alloc s') -> lists s' !! l = lists s !! l ->
  (forall p, p ∈ xs.*1 -> nodes s' !! p = nodes s !! p) ->
  (forall p, live (alloc s) p -> live (alloc s') p) -> is_list s' l xs.
Proof. intros. eapply is_list_kept; eauto. Qed.

(** What [list_push] does to list [l] and to the rest of the state. *)
Record pushed s s' (l d p : Z) : Prop := {
  pu_alloc : alloc_inv (alloc s');
  pu_fresh : ~ live (alloc s) p;
  pu_live : forall q, live (alloc s') q <-> q = p \/ live (alloc s) q;
  pu_lists : forall l', l' <> l -> lists s' !! l' = lists s !! l';
  pu_nodes : forall q, q <> p -> nodes s' !! q = nodes s !! q
}.

Lemma list_push_ok s l xs d :
  is_list s l xs -> Z.of_nat (length xs) + 1 < 18446744073709551616 ->
  match list_push l d s with
  | Ok s' => exists p, is_list s' l ((p, d) :: xs) /\ pushed s s' l d p
  | Halt => True
  | _ => False
  end.
Proof.
  intros [I1 (h & I2 & I3) I4 I5 I6] Hlen. unfold list_push. rewrite I2. mred. cbn [head].
  pose proof (new_node_ok s d h I1) as Hn.
  destruct (new_node d h s) as [[n s1]| | |]; mred; try done.
  destruct Hn as (Hn0 & Hfresh & Hi' & Hlists & Hnodes & Hlive).
  rewrite Hlists, I2. mred. cbn [set_list lists count head].
  rewrite lookup_insert_eq. mred. cbn [count head]. rewrite u64_small by (unfold fits_u64; lia).
  assert (forall p, p ∈ l :: xs.*1 -> p <> n) as Hne.
  { intros p Hp ->. apply Hfresh, I6, Hp. }
  exists n. split.
  - constructor; cbn [set_list alloc lists nodes].
    + done.
    + exists n. rewrite lookup_insert_eq. split.
      { do 2 f_equal. simpl length. lia. }
      simpl. split_and!; [done|done|]. exists h. rewrite Hnodes, lookup_insert_eq. split; [done|].
      eapply node_chain_ext; [|done]. intros p Hp. rewrite lookup_insert_ne; [done|].
      intros <-. apply (Hne n); [by right|done].
    + simpl length. lia.
    + simpl. apply NoDup_cons in I5 as [I5 I7]. constructor; [|constructor].
      * intros [->|?]%elem_of_cons; [|done]. apply (Hne n); [by left|done].
      * intros Hin. apply (Hne n); [by right|done].
      * done.
    + simpl. intros p Hp. apply Hlive. apply elem_of_cons in Hp as [->|[->|Hp]%elem_of_cons].
      * right. apply I6. by left.
      * by left.
      * right. apply I6. by right.
  - constructor; cbn [set_list alloc lists nodes]; try done.
    + intros l' Hl'. rewrite !lookup_insert_ne by done. by rewrite Hlists.
    + intros q Hq. rewrite Hnodes, lookup_insert_ne by done. done.
Qed.

(** What [list_pop] does to list [l], whose first node is [p] and owns [d]. *)
Record popped s s' (l p d : Z) : Prop := {
  po_alloc : alloc_inv (alloc s');
  po_live : forall q, live (alloc s') q <-> live (alloc s) q /\ q <> d /\ q <> p;
  po_lists : forall l', l' <> l -> l' <> d -> l' <> p -> lists s' !! l' = lists s !! l';
  po_nodes : forall q, q <> d -> q <> p -> nodes s' !! q = nodes s !! q
}.

Lemma free_ok s p :
  alloc_inv (alloc s) -> live (alloc s) p ->
  exists a, free s p = Ok (mk_kstate a (delete p (lists s)) (delete p (nodes s))) /\ alloc_inv a /\
    forall q, live a q <-> live (alloc s) q /\ q <> p.
Proof.
  intros Hi Hl. destruct (a_kfree_ok p (alloc s) Hi Hl) as (a & Ha & Hi' & Hq).
  exists a. unfold free. by rewrite Ha.
Qed.

Lemma list_pop_ok s l p d xs :
  is_list s l ((p, d) :: xs) -> d <> 0 -> live (alloc s) d -> d ∉ l :: p :: xs.*1 ->
  exists s', list_pop l s = Ok s' /\ is_list s' l xs /\ popped s s' l p d.
Proof.
  intros [I1 (h & I2 & I3) I4 I5 I6] Hd Hld Hfresh. destruct I3 as (-> & Hp & nx & Hn & Hc).
  assert (d <> l /\ d <> p) as [Hdl Hdp] by (split; intros ->; set_solver).
  simpl in I5. apply NoDup_cons in I5 as [Hl I5]. apply NoDup_cons in I5 as [Hpx I5].
  assert (p <> l) as Hpl by (intros ->; apply Hl; by left).
  unfold list_pop. rewrite I2. mred. cbn [count head]. cbn [length]. destruct (Z.eqb_spec (Z.of_nat (S (length xs))) 0); [lia|].
  rewrite Hn. mred. cbn [data next]. rewrite (proj2 (Z.eqb_neq d 0) Hd). cbn [negb].
  destruct (free_ok s d I1 Hld) as (a1 & -> & Hi1 & Hl1). mred.
  destruct (free_ok (mk_kstate a1 (delete d (lists s)) (delete d (nodes s))) p Hi1) as (a2 & -> & Hi2 & Hl2).
  { cbn [alloc]. apply Hl1. split; [|done]. apply I6. simpl. right. left. }
  mred. cbn [lists nodes]. rewrite !lookup_delete_ne, I2 by done. mred. eexists. split; [reflexivity|].
  assert (forall q, live a2 q <-> live (alloc s) q /\ q <> d /\ q <> p) as Hlive.
  { intros q. rewrite Hl2. cbn [alloc]. rewrite Hl1. naive_solver. }
  split; constructor; cbn [set_list alloc lists nodes count]; try done.
  - exists nx. rewrite lookup_insert_eq. split.
    { do 2 f_equal. rewrite u64_small; unfold fits_u64; simpl length in *; lia. }
    apply (node_chain_ext (nodes s)); [|done]. intros q Hq. rewrite !lookup_delete_ne; [done|set_solver|].
    intros <-. by apply Hpx.
  - simpl in I4. lia.
  - constructor; [|done]. intros Hin. apply Hl. by right.
  - intros q Hq. apply Hlive. split; [apply I6; set_solver|]. split; [set_solver|].
    intros ->. apply elem_of_cons in Hq as [|]; [done|by apply Hpx].
  - intros l' ? ? ?. by rewrite !lookup_insert_ne, !lookup_delete_ne by done.
  - intros q ? ?. by rewrite !lookup_delete_ne by done.
Qed.

Lemma get_node_loop_ok s k a xs :
  node_chain (nodes s) a xs -> (k <= length xs)%nat ->
  get_node_loop k a s = Ok (match xs !! k with Some (p, _) => p | None => 0 end).
Proof.
  revert a k. induction xs as [|[p d] xs IH]; intros a [|k] Hc Hk; simpl in *; [by subst|lia|by destruct Hc as [-> _]|].
  destruct Hc as (-> & Hp & nx & Hl & Hc). rewrite (proj2 (Z.eqb_neq p 0) Hp), Hl. mred.
  cbn [next]. apply IH; [done|lia].
Qed.

Lemma node_chain_lookup ns a xs (k : nat) p d :
  node_chain ns a xs -> xs !! k = Some (p, d) -> p <> 0 /\ exists nx, ns !! p = Some (mk_node d nx).
Proof.
  revert a k. induction xs as [|[q e] xs IH]; intros a [|k]; simpl; try done.
  - intros (_ & Hq & nx & Hl & _) [= -> ->]. eauto.
  - intros (_ & _ & nx & _ & Hc) Hk. eauto.
Qed.

(** Reading is list lookup. *)
Lemma list_get_at_ok s l xs i :
  is_list s l xs -> 0 <= i ->
  list_get_at l i s = Ok (default 0 (xs.*2 !! Z.to_nat i)).
Proof.
  intros [_ (h & I2 & I3) _ _ _] Hi. unfold list_get_at, list_get_node_at. rewrite I2. mred.
  cbn [count head]. rewrite Z.geb_leb, list_lookup_fmap.
  destruct (Z.leb_spec (Z.of_nat (length xs)) i).
  { mred. cbn. by rewrite lookup_ge_None_2 by lia. }
  rewrite (get_node_loop_ok s _ h xs I3) by lia. mred.
  destruct (lookup_lt_is_Some_2 xs (Z.to_nat i)) as [[p d] Hl]; [lia|]. rewrite Hl.
  destruct (node_chain_lookup _ _ _ _ _ _ I3 Hl) as (Hp & nx & Hn).
  rewrite (proj2 (Z.eqb_neq p 0) Hp). cbn [negb]. rewrite Hn. done.
Qed.

Lemma node_chain_dom ns a xs p : node_chain ns a xs -> p ∈ xs.*1 -> p ∈ dom ns.
Proof.
  revert a. induction xs as [|[q e] xs IH]; intros a; simpl; [set_solver|].
  intros (_ & _ & nx & Hl & Hc) [->|Hp]%elem_of_cons; [by eapply elem_of_dom_2|eauto].
Qed.

Lemma is_list_size s l xs : is_list s l xs -> (length xs <= size (nodes s))%nat.
Proof.
  intros [_ (h & _ & Hc) _ Hnd _]. apply NoDup_cons in Hnd as [_ Hnd].
  rewrite <-(length_fmap fst), <-size_dom.
  rewrite <-(size_list_to_set (C := gset Z) (xs.*1) Hnd). apply subseteq_size.
  intros p Hp%elem_of_list_to_set. by eapply node_chain_dom.
Qed.

Lemma pushed_keeps s s' l d p l' xs :
  pushed s s' l d p -> l' <> l -> is_list s l' xs -> is_list s' l' xs.
Proof.
  intros [P1 P2 P3 P4 P5] Hne Hl. apply (is_list_frame s); try done.
  - by apply P4.
  - intros q Hq. apply P5. intros ->. apply P2, (il_live _ _ _ Hl). by right.
  - intros q Hq. apply P3. by right.
Qed.

Lemma filter_loop_ok f l res fuel xs0 xs ys a s :
  is_list s l xs0 -> is_list s res ys -> l <> res -> node_chain (nodes s) a xs ->
  (forall p, p ∈ xs.*1 -> p ∈ xs0.*1) -> (length xs < fuel)%nat ->
  Z.of_nat (length xs) + Z.of_nat (length ys) < 18446744073709551616 ->
  match filter_loop fuel f res a s with
  | Ok s' => is_list s' l xs0 /\ exists ys', is_list s' res ys' /\
      ys'.*2 = rev (filter (fun d => f d = true) xs.*2) ++ ys.*2
  | Halt => True
  | _ => False
  end.
Proof.
  revert xs ys a s. induction fuel as [|fuel IH]; intros xs ys a s Hl Hres Hne Hc Hsub Hfuel Hlen; [lia|].
  destruct xs as [|[p d] xs]; simpl in Hc |- *.
  { rewrite Hc. simpl. split; [done|]. by exists ys. }
  destruct Hc as (-> & Hp & nx & Hn & Hc). rewrite (proj2 (Z.eqb_neq p 0) Hp), Hn. mred. cbn [data next].
  simpl in Hfuel, Hlen. destruct (f d) eqn:Hf; mred.
  - pose proof (list_push_ok s res ys d Hres) as Hpush. specialize (Hpush ltac:(lia)).
    destruct (list_push res d s) as [s1| | |]; mred; try done.
    destruct Hpush as (n & Hres1 & Hpu). pose proof (pushed_keeps _ _ _ _ _ _ _ Hpu Hne Hl) as Hl1.
    assert (forall q, q ∈ ((p, d) :: xs).*1 -> nodes s1 !! q = nodes s !! q) as Hkeep.
    { intros q Hq. apply (pu_nodes _ _ _ _ _ Hpu). intros ->.
      apply (pu_fresh _ _ _ _ _ Hpu), (il_live _ _ _ Hl). right. auto. }
    rewrite Hkeep by (simpl; left). rewrite Hn. mred. cbn [next].
    assert (node_chain (nodes s1) nx xs) as Hc1.
    { eapply node_chain_ext; [|done]. intros q Hq. apply Hkeep. simpl. by right. }
    specialize (IH xs ((n, d) :: ys) nx s1 Hl1 Hres1 Hne Hc1
      ltac:(intros q Hq; apply Hsub; simpl; by right) ltac:(lia) ltac:(simpl; lia)).
    destruct (filter_loop fuel f res nx s1) as [s2| | |]; try done.
    destruct IH as (H1 & ys' & H2 & H3). split; [done|]. exists ys'. split; [done|].
    rewrite H3, filter_cons_True by done. simpl. by rewrite <-app_assoc.
  - rewrite Hn. mred. cbn [next].
    rewrite filter_cons_False by congruence.
    apply IH; try done; [intros q Hq; apply Hsub; simpl; by right|lia|lia].
Qed.

Lemma match_loop_ok f fuel xs a s :
  node_chain (nodes s) a xs -> (length xs < fuel)%nat ->
  match_loop fuel f a s = Ok (default 0 (snd <$> list_find (fun d => f d = true) xs.*2)).
Proof.
  revert xs a. induction fuel as [|fuel IH]; intros [|[p d] xs] a Hc Hf; simpl in *; try lia.
  { by rewrite Hc. }
  destruct Hc as (-> & Hp & nx & Hn & Hc). rewrite (proj2 (Z.eqb_neq p 0) Hp), Hn. mred.
  cbn [data next]. destruct (f d) eqn:Hd; simpl.
  - done.
  - rewrite (IH xs nx Hc) by lia. f_equal. by destruct (list_find _ _) as [[]|].
Qed.
End Lemmas.

(** ** Theorems *)

(** [list_push] puts the new element in front and keeps the others: after
    it, reading index 0 gives the new element and index [i + 1] what index [i]
    gave; reading past the end gives [NULL]. *)
Theorem list_push_get {A} `{Allocator A} (s : kstate A) l xs d :
  is_list s l xs -> Z.of_nat (length xs) + 1 < 18446744073709551616 ->
  match list_push l d s with
  | Ok s' => (exists p, is_list s' l ((p, d) :: xs)) /\
      list_get_at l 0 s' = Ok d /\
      forall i, 0 <= i -> list_get_at l (i + 1) s' = list_get_at l i s
  | Halt => True
  | _ => False
  end.
Proof.
  intros Hl Hlen. pose proof (list_push_ok s l xs d Hl Hlen) as Hp.
  destruct (list_push l d s) as [s'| | |]; try done. destruct Hp as (p & Hl' & _).
  split; [by exists p|]. split; [by rewrite (list_get_at_ok _ _ _ 0 Hl')|]. intros i Hi.
  rewrite (list_get_at_ok _ _ _ (i + 1) Hl'), (list_get_at_ok _ _ _ i Hl) by lia.
  by replace (Z.to_nat (i + 1)) with (S (Z.to_nat i)) by lia.
Qed.

(** A kernel heap of two lists: one list structure allocated in the heap of
    the witnesses, empty. *)
Lemma sample_list :
  exists l (s : kstate heap), init_list (mk_kstate empty_heap ∅ ∅) = Ok (l, s) /\ is_list s l [].
Proof.
  assert (heap_inv empty_heap) as Hi by (exists [], []; exact empty_heap_ok).
  pose proof (heap_kzalloc_ok sizeof_list empty_heap Hi ltac:(unfold sizeof_list; lia)) as Hk.
  assert (is_ok (kzalloc sizeof_list empty_heap) = true) as Hok by (vm_compute; reflexivity).
  unfold init_list. cbn [alloc a_kzalloc heap_allocator].
  destruct (kzalloc sizeof_list empty_heap) as [[l h]| | |]; try discriminate Hok.
  destruct Hk as (Hi' & Hl0 & _ & Hlive). mred. rewrite (proj2 (Z.eqb_neq l 0) Hl0).
  eexists l, _. split; [reflexivity|]. constructor; cbn [set_list alloc lists nodes].
  - exact Hi'.
  - exists 0. rewrite lookup_insert_eq. done.
  - simpl. lia.
  - apply NoDup_singleton.
  - intros p ->%list_elem_of_singleton. apply Hlive. by left.
Qed.

Lemma list_push_get_witness :
  exists l (s : kstate heap), init_list (mk_kstate empty_heap ∅ ∅) = Ok (l, s) /\
    match list_push l 42 s with
    | Ok s' => list_get_at l 0 s' = Ok 42
    | Halt => True
    | _ => False
    end.
Proof.
  destruct sample_list as (l & s & Hi & Hl). exists l, s. split; [exact Hi|].
  pose proof (list_push_get s l [] 42 Hl ltac:(simpl; lia)) as H.
  destruct (list_push l 42 s); try exact H. exact (proj1 (proj2 H)).
Defined.

(** [list_filter] returns a new list of the elements the callback accepts,
    in reverse order, and leaves the list it reads as it was. *)
Theorem list_filter_reverses {A} `{Allocator A} (s : kstate A) l xs f :
  is_list s l xs -> xs <> [] -> l <> 0 ->
  match list_filter l (Some f) s with
  | Ok (res, s') => res <> 0 /\ is_list s' l xs /\
      exists ys, is_list s' res ys /\ ys.*2 = rev (filter (fun d => f d = true) xs.*2)
  | Halt => True
  | _ => False
  end.
Proof.
  intros Hl Hxs Hl0. unfold list_filter. rewrite (proj2 (Z.eqb_neq l 0) Hl0).
  pose proof Hl as [I1 (h & I2 & I3) I4 I5 I6]. rewrite I2. mred. cbn [count].
  destruct (Z.eqb_spec (Z.of_nat (length xs)) 0); [by destruct xs|].
  unfold init_list. pose proof (a_kzalloc_ok sizeof_list (alloc s) I1) as Hk.
  specialize (Hk ltac:(unfold sizeof_list; lia)).
  destruct (a_kzalloc sizeof_list (alloc s)) as [[res a]| | |]; mred; try done.
  destruct Hk as (Hi' & Hres0 & Hfresh & Hlive). rewrite (proj2 (Z.eqb_neq res 0) Hres0). mred.
  rewrite (proj2 (Z.eqb_neq res 0) Hres0). set (s1 := set_list _ _ _).
  assert (l <> res) as Hne by (intros ->; apply Hfresh, I6; by left).
  assert (is_list s1 l xs) as Hl1.
  { apply (is_list_frame s); try done.
    - unfold s1. cbn [set_list lists]. by rewrite lookup_insert_ne.
    - intros p Hp. apply Hlive. by right. }
  assert (is_list s1 res []) as Hr1.
  { constructor; cbn [s1 set_list alloc lists nodes]; try done.
    - exists 0. by rewrite lookup_insert_eq.
    - apply NoDup_singleton.
    - intros p ->%list_elem_of_singleton. apply Hlive. by left. }
  pose proof (is_list_size _ _ _ Hl1) as Hsz. pose proof Hl1 as [_ (h1 & J2 & J3) _ _ _].
  rewrite J2. mred. cbn [head].
  pose proof (filter_loop_ok f l res (S (size (nodes s1))) xs xs [] h1 s1 Hl1 Hr1 Hne J3
    (fun _ Hp => Hp) ltac:(lia) ltac:(simpl; lia)) as Hf.
  destruct (filter_loop _ f res h1 s1) as [s2| | |]; mred; try done.
  destruct Hf as (H1 & ys & H2 & H3). split_and!; [done|done|]. exists ys.
  by rewrite app_nil_r in H3.
Qed.

Lemma list_filter_reverses_witness :
  exists l (s : kstate heap), init_list (mk_kstate empty_heap ∅ ∅) = Ok (l, s) /\
    match list_push l 3 s with
    | Ok s' => match list_filter l (Some Z.odd) s' with Fault => False | _ => True end
    | Halt => True
    | _ => False
    end.
Proof.
  destruct sample_list as (l & s & Hi & Hl). exists l, s. split; [exact Hi|].
  pose proof (list_push_ok s l [] 3 Hl ltac:(simpl; lia)) as H.
  destruct (list_push l 3 s) as [s'| | |]; try exact H. destruct H as (p & Hl' & _).
  assert (l <> 0) as Hl0.
  { intros ->. destruct (il_live _ _ _ Hl' 0) as (bl & fl & b & Hok & Hb & Hp & _); [by left|].
    destruct (payload_header _ _ _ _ (ok_shape _ _ _ Hok) Hb) as [Hn _]. exact (Hn Hp). }
  pose proof (list_filter_reverses s' l [(p, 3)] Z.odd Hl' ltac:(discriminate) Hl0) as Hf.
  destruct (list_filter l (Some Z.odd) s'); try exact I. exact Hf.
Defined.

(** [list_append] never adds anything, and so neither does
    [list_insert_at] at the end of the list. *)
Theorem list_append_drops {A} `{Allocator A} (s : kstate A) l xs d :
  is_list s l xs ->
  list_append l d s = Ok s /\ list_insert_at l (Z.of_nat (length xs)) d s = Ok s.
Proof.
  intros [_ (h & I2 & _) _ _ _]. split; [done|]. unfold list_insert_at. rewrite I2. mred.
  cbn [count]. by rewrite Z.eqb_refl.
Qed.

Lemma list_append_drops_witness :
  exists l (s : kstate heap), init_list (mk_kstate empty_heap ∅ ∅) = Ok (l, s) /\
    list_append l 42 s = Ok s /\ list_insert_at l 0 42 s = Ok s.
Proof.
  destruct sample_list as (l & s & Hi & Hl). exists l, s. split; [exact Hi|].
  exact (list_append_drops s l [] 42 Hl).
Defined.
