(* ===== verification/Vfs.v ===== *)
(** * Files (src/kernel/fs/vfs.c, src/kernel/fs/ramfs.c, src/kernel/fs/tar.c,
    src/include/kernel/vfs.h, src/include/kernel/fs/ramfs.h, src/include/kernel/fs/tar.h)

    The path layer, the file system in memory behind it, and the loading of the
    boot archive.  Inodes, directory entries, open files and buffers are objects
    in one store, by the address the allocator gave them; an access to an
    address that holds no object of the kind expected faults.  The tables of
    function pointers are records of optional functions, reached through the
    pointer an inode or a file carries.  A C string is the list of its bytes
    without the terminator. *)

From S2P Require Import Prelude Sync Bitmap Pmm Paging Bytes Heap Alloc.

(** ** Data *)

Definition S_IFDIR : Z := 16384.
Definition S_IFREG : Z := 32768.
Definition RAMFS_MAX_CHILDREN : Z := 32.
Definition TAR_TYPE_NORMAL : Z := 48.
Definition TAR_TYPE_DIR : Z := 53.

(** The tables of operations inodes and files point to: [&ramfs_iops] is the only
    one of its kind, files have [&ramfs_fops] or the console's table. *)
Inductive iops_type := Ramfs.
Inductive fops_type := RamfsFops | ConsoleFops.

Record inode_t := mk_inode {
  i_ino : Z;
  i_mode : Z;
  i_size : Z;
  i_op : option iops_type;
  i_fop : option fops_type;
  i_private : Z
}.

Record dentry_t := mk_dentry {
  d_name : list Z;
  d_inode : Z;
  d_parent : Z
}.

Record file_t := mk_file {
  f_lock : Z;
  f_dentry : Z;
  f_pos : Z;
  f_ops : option fops_type;
  f_flags : Z
}.

Record ramfs_dir_data_t := mk_dir_data { children : list Z; child_count : Z }.
Record ramfs_file_data_t := mk_file_data { buffer : Z; capacity : Z }.

Inductive obj :=
| OInode (i : inode_t)
| ODentry (d : dentry_t)
| OFile (f : file_t)
| ODir (d : ramfs_dir_data_t)
| OData (d : ramfs_file_data_t)
| OBuf (b : list Z).

Definition sizeof_inode : Z := 48.
Definition sizeof_dentry : Z := 48.
Definition sizeof_file : Z := 40.
Definition sizeof_dir_data : Z := 264.
Definition sizeof_file_data : Z := 16.

Record fs (A : Type) := mk_fs {
  fs_alloc : A;
  objs : gmap Z obj;
  root_dentry : Z;
  next_ino_num : Z
}.
Arguments mk_fs {A} _ _ _ _.
Arguments fs_alloc {A} _.
Arguments objs {A} _.
Arguments root_dentry {A} _.
Arguments next_ino_num {A} _.

Definition inode_at (m : gmap Z obj) (p : Z) : option inode_t :=
  match m !! p with Some (OInode i) => Some i | _ => None end.
Definition dentry_at (m : gmap Z obj) (p : Z) : option dentry_t :=
  match m !! p with Some (ODentry d) => Some d | _ => None end.
Definition file_at (m : gmap Z obj) (p : Z) : option file_t :=
  match m !! p with Some (OFile f) => Some f | _ => None end.
Definition dir_at (m : gmap Z obj) (p : Z) : option ramfs_dir_data_t :=
  match m !! p with Some (ODir d) => Some d | _ => None end.
Definition data_at (m : gmap Z obj) (p : Z) : option ramfs_file_data_t :=
  match m !! p with Some (OData d) => Some d | _ => None end.
Definition buf_at (m : gmap Z obj) (p : Z) : option (list Z) :=
  match m !! p with Some (OBuf b) => Some b | _ => None end.

(** ** Paths *)

(** [while ( *path == '/') path++]. *)
Fixpoint skip_slashes (path : list Z) : list Z :=
  match path with
  | c :: p => if c =? 47 then skip_slashes p else path
  | [] => []
  end.

(** The second loop: at most 31 characters are kept. *)
Fixpoint scan_token (path token : list Z) : list Z * list Z :=
  match path with
  | c :: p =>
      if c =? 47 then (path, token)
      else scan_token p (if Nat.ltb (length token) 31 then token ++ [c] else token)
  | [] => ([], token)
  end.

(** The rest of the path and the token; [None] is the null pointer. *)
Definition next_path_token (path : list Z) : option (list Z * list Z) :=
  match skip_slashes path with
  | [] => None
  | p => Some (scan_token p [])
  end.

(** [strrchr(s, c)]: the characters before the last [c], and those after it. *)
Fixpoint strrchr (s : list Z) (c : Z) : option (list Z * list Z) :=
  match s with
  | [] => None
  | x :: s' =>
      match strrchr s' c with
      | Some (before, after) => Some (x :: before, after)
      | None => if x =? c then Some ([], s') else None
      end
  end.

Definition is_dir (mode : Z) : bool := negb (Z.land mode S_IFDIR =? 0).

(** The two output buffers are arrays of the callers and never null; [path] is
    [None] for a null pointer. *)
Definition vfs_split_path (path : option (list Z)) (dir_max file_max : Z) : option (list Z * list Z) :=
  match path with
  | None => None
  | Some path =>
      if negb (bool_decide (head path = Some 47)) then None
      else
        match strrchr path 47 with
        | None => None
        | Some (before, filename_start) =>
            if bool_decide (before = [] /\ filename_start = []) then
              if (dir_max <? 2) || (file_max <? 1) then None else Some ([47], [])
            else
              let dir_len := Z.of_nat (length before) in
              let dir_len := if dir_len =? 0 then 1 else dir_len in
              let file_len := Z.of_nat (length filename_start) in
              if file_len =? 0 then None
              else if (dir_len >=? dir_max) || (file_len >=? file_max) then None
              else Some (if bool_decide (before = []) then [47] else before, filename_start)
        end
  end.

(** ** Operations *)

Section Code.
Context {A : Type} `{Allocator A}.
(** What a fresh block holds. *)
Context (junk : nat -> Z).
Implicit Types (s : fs A).

Definition set_obj s (p : Z) (o : obj) : fs A :=
  mk_fs (fs_alloc s) (<[p := o]> (objs s)) (root_dentry s) (next_ino_num s).

(** [kmalloc(n)], and the object its block is used for. *)
Definition new_obj (n : Z) (o : obj) s : outcome (Z * fs A) :=
  '(p, a) ← a_kmalloc n (fs_alloc s);
  let s := mk_fs a (objs s) (root_dentry s) (next_ino_num s) in
  if p =? 0 then Ok (0, s) else Ok (p, set_obj s p o).

Definition free_obj (p : Z) s : outcome (fs A) :=
  a ← a_kfree p (fs_alloc s);
  Ok (mk_fs a (delete p (objs s)) (root_dentry s) (next_ino_num s)).

Definition alloc_inode s : outcome (Z * fs A) :=
  new_obj sizeof_inode (OInode (mk_inode 0 0 0 None None 0)) s.
Definition free_inode (inode : Z) s : outcome (fs A) := free_obj inode s.

(** [name] is never null in the callers. *)
Definition alloc_dentry (name : list Z) (inode parent : Z) s : outcome (Z * fs A) :=
  new_obj sizeof_dentry (ODentry (mk_dentry (take 31 name) inode parent)) s.
Definition free_dentry (dentry : Z) s : outcome (fs A) := free_obj dentry s.

Record inode_ops_t := mk_inode_ops {
  lookup : option (Z -> Z -> fs A -> outcome (Z * fs A));
  mkdir : option (Z -> Z -> Z -> fs A -> outcome (Z * fs A));
  create : option (Z -> Z -> Z -> fs A -> outcome (Z * fs A))
}.

(** [read] gives the result, the bytes put in the buffer, and the new offset. *)
Record file_ops_t := mk_file_ops {
  open : option (Z -> Z -> fs A -> outcome (Z * fs A));
  read : option (Z -> Z -> Z -> fs A -> outcome (Z * list Z * Z * fs A));
  write : option (Z -> list Z -> Z -> Z -> fs A -> outcome (Z * Z * fs A));
  close : option (Z -> Z -> fs A -> outcome (Z * fs A))
}.

(** The console's table (src/kernel/drivers/console.c). *)
Context (console_ops : file_ops_t).

(** *** ramfs.c *)

(** The loop of [ramfs_lookup] from index [i] on. *)
Fixpoint find_child (n : nat) (i : Z) (cs : list Z) (dentry : Z) s : outcome (option Z) :=
  match n with
  | O => Ok None
  | S n =>
      child ← arr_get cs i;
      c ← deref (dentry_at (objs s) child);
      d ← deref (dentry_at (objs s) dentry);
      if bool_decide (d_name c = d_name d) then Ok (Some child)
      else find_child n (i + 1) cs dentry s
  end.

Definition ramfs_lookup (dir dentry : Z) s : outcome (Z * fs A) :=
  ino ← deref (inode_at (objs s) dir);
  if i_private ino =? 0 then Ok (0, s)
  else
    dir_data ← deref (dir_at (objs s) (i_private ino));
    r ← find_child (Z.to_nat (child_count dir_data)) 0 (children dir_data) dentry s;
    match r with
    | Some child => s ← free_dentry dentry s; Ok (child, s)
    | None => Ok (0, s)
    end.

Definition ramfs_create_inode (mode : Z) s : outcome (Z * fs A) :=
  '(ino, s) ← alloc_inode s;
  if ino =? 0 then Ok (0, s)
  else
    let num := next_ino_num s in
    let s := mk_fs (fs_alloc s) (objs s) (root_dentry s) (u32 (num + 1)) in
    i ← deref (inode_at (objs s) ino);
    let s := set_obj s ino (OInode (mk_inode num mode (i_size i) (Some Ramfs) (Some RamfsFops) (i_private i))) in
    '(data, s) ← (if is_dir mode then
                    new_obj sizeof_dir_data (ODir (mk_dir_data (replicate 32 0) 0)) s
                  else new_obj sizeof_file_data (OData (mk_file_data 0 0)) s);
    if data =? 0 then Fault
    else
      i ← deref (inode_at (objs s) ino);
      Ok (ino, set_obj s ino (OInode (mk_inode (i_ino i) (i_mode i) 0 (i_op i) (i_fop i) data))).

(** [ramfs_mkdir] and [ramfs_create] differ in the type bit they add. *)
Definition ramfs_add (kind : Z) (dir dentry mode : Z) s : outcome (Z * fs A) :=
  ino ← deref (inode_at (objs s) dir);
  if i_private ino =? 0 then Ok (-1, s)
  else
    dir_data ← deref (dir_at (objs s) (i_private ino));
    if child_count dir_data >=? RAMFS_MAX_CHILDREN then Ok (-1, s)
    else
      '(new_inode, s) ← ramfs_create_inode (Z.lor kind mode) s;
      if new_inode =? 0 then Ok (-1, s)
      else
        d ← deref (dentry_at (objs s) dentry);
        let s := set_obj s dentry (ODentry (mk_dentry (d_name d) new_inode (d_parent d))) in
        dir_data ← deref (dir_at (objs s) (i_private ino));
        cs ← arr_set (children dir_data) (child_count dir_data) dentry;
        Ok (0, set_obj s (i_private ino) (ODir (mk_dir_data cs (child_count dir_data + 1)))).

Definition ramfs_mkdir : Z -> Z -> Z -> fs A -> outcome (Z * fs A) := ramfs_add S_IFDIR.
Definition ramfs_create : Z -> Z -> Z -> fs A -> outcome (Z * fs A) := ramfs_add S_IFREG.

(** [n] bytes of a buffer from its start. *)
Definition copy_out (b : list Z) (n : Z) : outcome (list Z) :=
  if n <=? Z.of_nat (length b) then Ok (take (Z.to_nat n) b) else Fault.

(** [memcpy(b + off, src, n)]. *)
Definition copy_in (b : list Z) (off : Z) (src : list Z) (n : Z) : outcome (list Z) :=
  if (off + n <=? Z.of_nat (length b)) && (n <=? Z.of_nat (length src)) then
    Ok (take (Z.to_nat off) b ++ take (Z.to_nat n) src ++ drop (Z.to_nat (off + n)) b)
  else Fault.

Definition ramfs_read (filp size offset : Z) s : outcome (Z * list Z * Z * fs A) :=
  f ← deref (file_at (objs s) filp);
  d ← deref (dentry_at (objs s) (f_dentry f));
  inode ← deref (inode_at (objs s) (d_inode d));
  if i_private inode =? 0 then Ok (0, [], offset, s)
  else
    fdata ← deref (data_at (objs s) (i_private inode));
    if (buffer fdata =? 0) || (offset >=? i_size inode) then Ok (0, [], offset, s)
    else
      let size := if u64 (offset + size) >? i_size inode
                  then u64 (size + u64 (i_size inode - offset)) else size in
      b ← deref (buf_at (objs s) (buffer fdata));
      out ← copy_out b size;
      Ok (s64 size, out, u64 (offset + size), s).

(** [while (new_cap < target_size) new_cap *= 2]. *)
Fixpoint grow_cap (fuel : nat) (new_cap target_size : Z) : outcome Z :=
  if new_cap <? target_size then
    match fuel with O => Hang | S fuel => grow_cap fuel (u64 (new_cap * 2)) target_size end
  else Ok new_cap.

(** The part of [ramfs_write] that makes room. *)
Definition ramfs_reserve (priv target_size : Z) (inode : inode_t) s : outcome (bool * fs A) :=
  fdata ← deref (data_at (objs s) priv);
  if target_size >? capacity fdata then
    new_cap ← grow_cap 64 (if capacity fdata =? 0 then 64 else u64 (capacity fdata * 2)) target_size;
    '(new_buffer, s) ← new_obj new_cap (OBuf (junk <$> seq 0 (Z.to_nat new_cap))) s;
    if new_buffer =? 0 then Ok (false, s)
    else
      s ← (if negb (buffer fdata =? 0) then
             old ← deref (buf_at (objs s) (buffer fdata));
             out ← copy_out old (i_size inode);
             nb ← deref (buf_at (objs s) new_buffer);
             nb ← copy_in nb 0 out (i_size inode);
             let s := set_obj s new_buffer (OBuf nb) in
             free_obj (buffer fdata) s
           else Ok s);
      Ok (true, set_obj s priv (OData (mk_file_data new_buffer new_cap)))
  else Ok (true, s).

(** [buf] is the memory at the pointer given; copying nothing touches no memory. *)
Definition ramfs_write (filp : Z) (buf : list Z) (size offset : Z) s : outcome (Z * Z * fs A) :=
  f ← deref (file_at (objs s) filp);
  d ← deref (dentry_at (objs s) (f_dentry f));
  inode ← deref (inode_at (objs s) (d_inode d));
  if i_private inode =? 0 then Ok (-1, offset, s)
  else
    let target_size := u64 (offset + size) in
    '(ok, s) ← ramfs_reserve (i_private inode) target_size inode s;
    if negb ok then Ok (-1, offset, s)
    else
      fdata ← deref (data_at (objs s) (i_private inode));
      s ← (if size =? 0 then Ok s
           else
             b ← deref (buf_at (objs s) (buffer fdata));
             b ← copy_in b offset buf size;
             Ok (set_obj s (buffer fdata) (OBuf b)));
      let offset := u64 (offset + size) in
      inode ← deref (inode_at (objs s) (d_inode d));
      let s := if offset >? i_size inode then
                 set_obj s (d_inode d) (OInode (mk_inode (i_ino inode) (i_mode inode) offset
                                                  (i_op inode) (i_fop inode) (i_private inode)))
               else s in
      Ok (s64 size, offset, s).

Definition ramfs_init s : outcome (fs A) :=
  '(root_inode, s) ← new_obj sizeof_inode (OInode (mk_inode 2 S_IFDIR 0 (Some Ramfs) (Some RamfsFops) 0)) s;
  if root_inode =? 0 then Fault
  else
    '(ddata, s) ← new_obj sizeof_dir_data (ODir (mk_dir_data (replicate 32 0) 0)) s;
    if ddata =? 0 then Fault
    else
      i ← deref (inode_at (objs s) root_inode);
      let s := set_obj s root_inode
                 (OInode (mk_inode (i_ino i) (i_mode i) (i_size i) (i_op i) (i_fop i) ddata)) in
      '(d, s) ← alloc_dentry [47] root_inode 0 s;
      Ok (mk_fs (fs_alloc s) (objs s) d (next_ino_num s)).

Definition ramfs_iops : inode_ops_t :=
  mk_inode_ops (Some ramfs_lookup) (Some ramfs_mkdir) (Some ramfs_create).
Definition ramfs_fops : file_ops_t := mk_file_ops None (Some ramfs_read) (Some ramfs_write) None.

Definition iops (t : iops_type) : inode_ops_t := match t with Ramfs => ramfs_iops end.
Definition fops (t : fops_type) : file_ops_t :=
  match t with RamfsFops => ramfs_fops | ConsoleFops => console_ops end.

(** *** vfs.c *)

(** The loop of [vfs_lookup]. *)
Fixpoint lookup_loop (fuel : nat) (next : list Z) (current : Z) s : outcome (Z * fs A) :=
  match next_path_token next with
  | None => Ok (current, s)
  | Some (next, token) =>
      match fuel with
      | O => Hang
      | S fuel =>
          if bool_decide (token = [46]) then lookup_loop fuel next current s
          else if bool_decide (token = [46; 46]) then
            d ← deref (dentry_at (objs s) current);
            lookup_loop fuel next (if negb (d_parent d =? 0) then d_parent d else current) s
          else
            d ← deref (dentry_at (objs s) current);
            ino ← deref (inode_at (objs s) (d_inode d));
            if negb (is_dir (i_mode ino)) then Ok (0, s)
            else
              t ← deref (i_op ino);
              match lookup (iops t) with
              | None => Ok (0, s)
              | Some op =>
                  '(search_dentry, s) ← alloc_dentry token 0 current s;
                  if search_dentry =? 0 then Ok (0, s)
                  else
                    '(found, s) ← op (d_inode d) search_dentry s;
                    missing ← (if found =? 0 then Ok true
                               else f ← deref (dentry_at (objs s) found); Ok (d_inode f =? 0));
                    if missing : bool then
                      s ← (if (found =? 0) || negb (found =? search_dentry)
                           then free_dentry search_dentry s else Ok s);
                      Ok (0, s)
                    else lookup_loop fuel next found s
              end
      end
  end.

Definition vfs_lookup (path : option (list Z)) s : outcome (Z * fs A) :=
  match path with
  | None => Ok (0, s)
  | Some path =>
      if root_dentry s =? 0 then Ok (0, s)
      else if negb (bool_decide (head path = Some 47)) then Ok (0, s)
      else lookup_loop (length path) path (root_dentry s) s
  end.

(** [!dentry || !dentry->d_inode], and the inode otherwise. *)
Definition inode_of (dentry : Z) s : outcome (option Z) :=
  if dentry =? 0 then Ok None
  else d ← deref (dentry_at (objs s) dentry); Ok (if d_inode d =? 0 then None else Some (d_inode d)).

(** [f_lock] and [f_flags] keep what the block held. *)
Definition vfs_open (path : option (list Z)) (flags : Z) s : outcome (Z * fs A) :=
  '(dentry, s) ← vfs_lookup path s;
  i ← inode_of dentry s;
  match i with
  | None => Ok (0, s)
  | Some i =>
      inode ← deref (inode_at (objs s) i);
      if is_dir (i_mode inode) then Ok (0, s)
      else
        '(filp, s) ← new_obj sizeof_file (OFile (mk_file (junk 0) dentry 0 (i_fop inode) (junk 1))) s;
        if filp =? 0 then Fault
        else
          match i_fop inode with
          | Some t =>
              match open (fops t) with
              | Some op =>
                  '(r, s) ← op i filp s;
                  if r <? 0 then s ← free_obj filp s; Ok (0, s) else Ok (filp, s)
              | None => Ok (filp, s)
              end
          | None => Ok (filp, s)
          end
  end.

(** The result and the bytes put in the buffer. *)
Definition vfs_read (filp size : Z) s : outcome (Z * list Z * fs A) :=
  if filp =? 0 then Ok (-1, [], s)
  else
    f ← deref (file_at (objs s) filp);
    match f_ops f with
    | None => Ok (-1, [], s)
    | Some t =>
        match read (fops t) with
        | None => Ok (-1, [], s)
        | Some op =>
            '(r, out, pos, s) ← op filp size (f_pos f) s;
            f ← deref (file_at (objs s) filp);
            Ok (r, out, set_obj s filp (OFile (mk_file (f_lock f) (f_dentry f) pos (f_ops f) (f_flags f))))
        end
    end.

Definition vfs_create (path : option (list Z)) (mode : Z) s : outcome (Z * fs A) :=
  match vfs_split_path path 256 32 with
  | None => Ok (-1, s)
  | Some (parent_dir, file_name) =>
      '(parent, s) ← vfs_lookup (Some parent_dir) s;
      i ← inode_of parent s;
      match i with
      | None => Ok (-2, s)
      | Some i =>
          ino ← deref (inode_at (objs s) i);
          if negb (is_dir (i_mode ino)) then Ok (-3, s)
          else
            match i_fop ino with
            | None => Ok (-4, s)
            | Some _ =>
                t ← deref (i_op ino);
                match create (iops t) with
                | None => Ok (-4, s)
                | Some op =>
                    '(new_file, s) ← alloc_dentry file_name 0 parent s;
                    if new_file =? 0 then Ok (-5, s) else op i new_file mode s
                end
            end
      end
  end.

Definition vfs_mkdir (path : option (list Z)) (mode : Z) s : outcome (Z * fs A) :=
  match vfs_split_path path 256 64 with
  | None => Ok (-1, s)
  | Some (parent_dir, new_dir_name) =>
      '(parent_dentry, s) ← vfs_lookup (Some parent_dir) s;
      i ← inode_of parent_dentry s;
      match i with
      | None => Ok (-2, s)
      | Some i =>
          ino ← deref (inode_at (objs s) i);
          if negb (is_dir (i_mode ino)) then Ok (-3, s)
          else
            match i_op ino with
            | None => Ok (-4, s)
            | Some t =>
                match mkdir (iops t) with
                | None => Ok (-4, s)
                | Some op =>
                    '(search_template, s) ← alloc_dentry new_dir_name 0 parent_dentry s;
                    if search_template =? 0 then Ok (-5, s)
                    else
                      find ← deref (lookup (iops t));
                      '(existing, s) ← find i search_template s;
                      e ← inode_of existing s;
                      match e with
                      | Some _ => Ok (-6, s)
                      | None =>
                          '(new_dir_dentry, s) ← alloc_dentry new_dir_name 0 parent_dentry s;
                          if new_dir_dentry =? 0 then Ok (-5, s)
                          else
                            '(result, s) ← op i new_dir_dentry mode s;
                            if result <? 0 then s ← free_dentry new_dir_dentry s; Ok (result, s)
                            else Ok (result, s)
                      end
                end
            end
      end
  end.

(** *** tar.c *)

(** [str] is the memory at the field; the loop ends at the first character that
    is not an octal digit. *)
Fixpoint octal_to_int (str : list Z) (size : nat) (n : Z) : outcome Z :=
  match size with
  | O => Ok n
  | S size =>
      c ← deref (head str);
      if (c =? 0) || (c =? 32) || (c <? 48) || (c >? 55) then Ok n
      else octal_to_int (tail str) size (u32 (n * 8 + (c - 48)))
  end.

(** At most [n] characters of the string at the start of [l]. *)
Fixpoint cstr (n : nat) (l : list Z) : outcome (list Z) :=
  match n with
  | O => Ok []
  | S n => c ← deref (head l); if c =? 0 then Ok [] else r ← cstr n (tail l); Ok (c :: r)
  end.

Definition ustar : list Z := [117; 115; 116; 97; 114].

(** One archive member: [hdr] is the archive from its header on. *)
Definition load_member (hdr : list Z) (file_size : Z) s : outcome (fs A) :=
  name ← cstr 254 hdr;
  let absolute_path := 47 :: name in
  typeflag ← deref (hdr !! 156%nat);
  if typeflag =? TAR_TYPE_DIR then
    let len := length absolute_path in
    let absolute_path :=
      if Nat.ltb 1 len && bool_decide (last absolute_path = Some 47)
      then take (len - 1) absolute_path else absolute_path in
    '(_, s) ← vfs_mkdir (Some absolute_path) 509 s;
    Ok s
  else if (typeflag =? TAR_TYPE_NORMAL) || (typeflag =? 0) then
    '(_, s) ← vfs_create (Some absolute_path) 420 s;
    '(file, s) ← vfs_open (Some absolute_path) 0 s;
    if file =? 0 then Ok s
    else
      f ← deref (file_at (objs s) file);
      t ← deref (f_ops f);
      op ← deref (write (fops t));
      '(_, _, s) ← op file (drop 512 hdr) file_size 0 s;
      f ← deref (file_at (objs s) file);
      d ← deref (dentry_at (objs s) (f_dentry f));
      i ← deref (inode_at (objs s) (d_inode d));
      let s := set_obj s (d_inode d) (OInode (mk_inode (i_ino i) (i_mode i) file_size (i_op i) (i_fop i)
                                                (i_private i))) in
      free_obj file s
  else Ok s.

(** [tar] is the archive in memory, [tar_size] bytes of it. *)
Fixpoint tar_loop (fuel : nat) (tar : list Z) (tar_size offset : Z) s : outcome (fs A) :=
  if u64 (offset + 512) <=? tar_size then
    match fuel with
    | O => Hang
    | S fuel =>
        let hdr := drop (Z.to_nat offset) tar in
        c ← deref (head hdr);
        if c =? 0 then Ok s
        else if negb (bool_decide (take 5 (drop 257 hdr) = ustar)) then Ok s
        else
          file_size ← octal_to_int (drop 124 hdr) 12 0;
          s ← load_member hdr file_size s;
          let aligned_data_size := Z.land (u64 (file_size + 511)) (u64 (Z.lnot 511)) in
          tar_loop fuel tar tar_size (u64 (offset + (512 + aligned_data_size))) s
    end
  else Ok s.

Definition ramfs_from_tar (tar : list Z) (tar_size : Z) s : outcome (fs A) :=
  tar_loop (S (Z.to_nat (tar_size / 512))) tar tar_size 0 s.

(** The modules of the boot loader's response: their bytes. *)
Definition vfs_init (modules : option (list (list Z))) s : outcome (fs A) :=
  match modules with
  | Some (tar :: _) => s ← ramfs_init s; ramfs_from_tar tar (Z.of_nat (length tar)) s
  | _ => Ok s
  end.
End Code.
