(* ===== verification/VfsTree.v ===== *)
(** * The file system as a tree

    Specification of Vfs.v and its theorems.  A directory entry names a file or
    a directory; [child] is the entry a name leads to from a directory, [walk]
    follows the components of a path, and [file_bytes] is what a file holds.
    [tree_ok] is the invariant of the objects behind these views. *)

From S2P Require Import Prelude Sync Bitmap Pmm Paging Bytes Heap Alloc Vfs.

(** ** Views of the store *)

Definition node_inode (m : gmap Z obj) (d : Z) : option inode_t :=
  match dentry_at m d with Some e => inode_at m (d_inode e) | None => None end.

Definition dir_children (m : gmap Z obj) (d : Z) : list Z :=
  match node_inode m d with
  | Some ino =>
      if is_dir (i_mode ino) then
        match dir_at m (i_private ino) with
        | Some dd => take (Z.to_nat (child_count dd)) (children dd)
        | None => []
        end
      else []
  | None => []
  end.

Definition named (m : gmap Z obj) (name : list Z) (c : Z) : bool :=
  match dentry_at m c with Some e => bool_decide (d_name e = name) | None => false end.

Definition child (m : gmap Z obj) (d : Z) (name : list Z) : option Z :=
  List.find (named m name) (dir_children m d).

Definition parent (m : gmap Z obj) (d : Z) : Z :=
  match dentry_at m d with Some e => if d_parent e =? 0 then d else d_parent e | None => d end.

Fixpoint walk (m : gmap Z obj) (d : Z) (tokens : list (list Z)) : option Z :=
  match tokens with
  | [] => Some d
  | t :: ts =>
      if bool_decide (t = [46]) then walk m d ts
      else if bool_decide (t = [46; 46]) then walk m (parent m d) ts
      else match child m d t with Some c => walk m c ts | None => None end
  end.

(** What a file holds; [None] for a directory. *)
Definition file_bytes (m : gmap Z obj) (d : Z) : option (list Z) :=
  match node_inode m d with
  | Some ino =>
      if is_dir (i_mode ino) then None
      else match data_at m (i_private ino) with
           | Some fd => Some (take (Z.to_nat (i_size ino)) (default [] (buf_at m (buffer fd))))
           | None => None
           end
  | None => None
  end.

(** The components of a path: what is between slashes, empty pieces dropped,
    31 characters of each. *)
Fixpoint split_slash (path acc : list Z) : list (list Z) :=
  match path with
  | [] => [acc]
  | c :: p => if c =? 47 then acc :: split_slash p [] else split_slash p (acc ++ [c])
  end.
Definition tokens (path : list Z) : list (list Z) :=
  take 31 <$> filter (fun t => t <> []) (split_slash path []).

(** ** Tokens *)

Lemma scan_token_spec p acc t :
  Nat.le (length t) 31 -> t = take 31 acc ->
  exists rest, scan_token p t = (rest, take 31 (hd [] (split_slash p acc))) /\
    Nat.le (length rest) (length p) /\
    match rest with
    | [] => tl (split_slash p acc) = []
    | x :: r => x = 47 /\ tl (split_slash p acc) = split_slash r []
    end.
Proof.
  revert acc t. induction p as [|c p IH]; intros acc t Hl Ht; simpl.
  { exists []. by rewrite Ht. }
  destruct (Z.eqb_spec c 47); simpl; [exists (c :: p); by rewrite Ht|].
  destruct (IH (acc ++ [c]) (if Nat.ltb (length t) 31 then t ++ [c] else t)) as (rest & -> & Hr & Htl).
  - destruct (Nat.ltb_spec (length t) 31); rewrite ?length_app; simpl; lia.
  - subst t. rewrite length_take. destruct (Nat.ltb_spec (Nat.min 31 (length acc)) 31).
    + rewrite (take_ge acc) by lia. rewrite take_ge; [done|]. rewrite length_app. simpl. lia.
    + by rewrite take_app_le by lia.
  - exists rest. split_and!; try done. lia.
Qed.

Lemma split_slash_hd p acc : acc <> [] -> hd [] (split_slash p acc) <> [] /\ split_slash p acc <> [].
Proof.
  revert acc. induction p as [|c p IH]; intros acc Ha; simpl; [done|].
  destruct (c =? 47); [done|]. apply IH. by destruct acc.
Qed.

Lemma tokens_slash p : tokens (47 :: p) = tokens p.
Proof. done. Qed.

Lemma tokens_skip p : tokens (skip_slashes p) = tokens p.
Proof.
  induction p as [|c p IH]; simpl; [done|]. destruct (Z.eqb_spec c 47) as [->|]; [|done].
  by rewrite tokens_slash.
Qed.

Lemma next_path_token_spec p :
  match next_path_token p with
  | None => tokens p = []
  | Some (rest, t) => tokens p = t :: tokens rest /\ Nat.lt (length rest) (length p)
  end.
Proof.
  unfold next_path_token. rewrite <-(tokens_skip p).
  assert (Nat.le (length (skip_slashes p)) (length p)) as Hlen.
  { induction p as [|c p IH]; simpl; [done|]. destruct (c =? 47); simpl; lia. }
  assert (match skip_slashes p with c :: _ => c <> 47 | [] => True end) as Hhd.
  { clear. induction p as [|c p IH]; simpl; [done|]. by destruct (Z.eqb_spec c 47). }
  destruct (skip_slashes p) as [|c q]; [done|]. simpl. destruct (Z.eqb_spec c 47); [done|].
  destruct (scan_token_spec q [c] [c]) as (rest & -> & Hr & Hm); [simpl; lia|done|].
  simpl in Hlen. split; [|lia]. unfold tokens at 1. simpl.
  destruct (Z.eqb_spec c 47); [done|]. destruct (split_slash_hd q [c] ltac:(done)) as [Hh Hne].
  destruct (split_slash q [c]) as [|h t] eqn:E; [done|]. simpl in Hh, Hm |- *.
  rewrite filter_cons, decide_True by done. simpl. f_equal.
  destruct rest as [|x r]; [by subst|]. destruct Hm as [-> ->]. by rewrite tokens_slash.
Qed.

(** ** The invariant *)

(** The entries reached from the root. *)
Inductive reach (m : gmap Z obj) (root : Z) : Z -> Prop :=
| reach_root : reach m root root
| reach_child d c : reach m root d -> c ∈ dir_children m d -> reach m root c.

(** A file's buffer holds its [n] bytes. *)
Definition data_ok (m : gmap Z obj) (fd : ramfs_file_data_t) (n : Z) : Prop :=
  (buffer fd = 0 /\ capacity fd = 0 /\ n = 0) \/
  (buffer fd <> 0 /\ exists b, buf_at m (buffer fd) = Some b /\
    Z.of_nat (length b) = capacity fd /\ 0 <= n <= capacity fd /\ fits_u64 (capacity fd)).

Definition private_ok (m : gmap Z obj) (ino : inode_t) : Prop :=
  if is_dir (i_mode ino) then
    exists dd, dir_at m (i_private ino) = Some dd /\ length (children dd) = 32%nat /\
      0 <= child_count dd <= 32
  else exists fd, data_at m (i_private ino) = Some fd /\ data_ok m fd (i_size ino).

Definition node_ok (m : gmap Z obj) (d : Z) : Prop :=
  exists e ino, dentry_at m d = Some e /\ inode_at m (d_inode e) = Some ino /\
    i_op ino = Some Ramfs /\ i_fop ino = Some RamfsFops /\ private_ok m ino.

(** The objects behind entry [d], besides itself. *)
Definition owns (m : gmap Z obj) (d p : Z) : Prop :=
  exists e ino, dentry_at m d = Some e /\ inode_at m (d_inode e) = Some ino /\
    (p = d_inode e \/ p = i_private ino \/
     exists fd, is_dir (i_mode ino) = false /\ data_at m (i_private ino) = Some fd /\
       p = buffer fd /\ p <> 0).

Record tree_ok (m : gmap Z obj) (root : Z) : Prop := {
  to_null : m !! 0 = None;
  to_node d : reach m root d -> node_ok m d;
  to_parent d c : reach m root d -> c ∈ dir_children m d ->
    exists e, dentry_at m c = Some e /\ d_parent e = d;
  to_root : exists e, dentry_at m root = Some e /\ d_parent e = 0;
  to_owns d1 d2 p : reach m root d1 -> reach m root d2 -> owns m d1 p -> owns m d2 p -> d1 = d2
}.

Section Ok.
Context {A : Type} `{Allocator A}.

(** Objects are in allocated blocks. *)
Definition store_ok (s : fs A) : Prop :=
  alloc_inv (fs_alloc s) /\ forall p, is_Some (objs s !! p) -> live (fs_alloc s) p.

Definition fs_ok (s : fs A) : Prop := store_ok s /\ tree_ok (objs s) (root_dentry s).
End Ok.

(** ** Lookup *)

Lemma find_child_spec {A} `{Allocator A} (s : fs A) de e cs n i :
  dentry_at (objs s) de = Some e -> 0 <= i -> Nat.le (Z.to_nat i + n) (length cs) ->
  (forall c, c ∈ take n (drop (Z.to_nat i) cs) -> is_Some (dentry_at (objs s) c)) ->
  find_child n i cs de s = Ok (List.find (named (objs s) (d_name e)) (take n (drop (Z.to_nat i) cs))).
Proof.
  intros He. revert i. induction n as [|n IH]; intros i Hi Hn Hc; simpl; [done|].
  destruct (lookup_lt_is_Some_2 cs (Z.to_nat i)) as [c Hci]; [lia|].
  rewrite (proj2 (arr_get_Ok_iff cs i c)) by done. mred.
  rewrite (drop_S _ _ _ Hci) in Hc |- *. simpl.
  destruct (Hc c) as [ec Hec]; [simpl; set_solver|]. rewrite Hec, He. mred. unfold named at 1. rewrite Hec.
  destruct (bool_decide (d_name ec = d_name e)); [done|].
  rewrite IH; [|lia|lia|].
  - by replace (Z.to_nat (i + 1)) with (S (Z.to_nat i)) by lia.
  - intros x Hx. apply Hc. simpl. replace (Z.to_nat (i + 1)) with (S (Z.to_nat i)) in Hx by lia. set_solver.
Qed.

(** Objects added at fresh addresses do not change the views. *)
Section Extend.
Context (m m' : gmap Z obj) (root : Z).
Hypothesis Hsub : m ⊆ m'.
Hypothesis Htree : tree_ok m root.

Lemma at_mono p o : m !! p = Some o -> m' !! p = Some o.
Proof. intros. by eapply lookup_weaken. Qed.

Ltac mono := unfold dentry_at, inode_at, dir_at, data_at, buf_at in *;
  repeat case_match; simplify_eq;
  repeat match goal with Hl : m !! ?p = Some ?o |- _ => pose proof (at_mono p o Hl); clear Hl end;
  simplify_eq; try done.

Lemma dentry_mono p e : dentry_at m p = Some e -> dentry_at m' p = Some e.
Proof. intros. mono. Qed.
Lemma inode_mono p e : inode_at m p = Some e -> inode_at m' p = Some e.
Proof. intros. mono. Qed.
Lemma dir_mono p e : dir_at m p = Some e -> dir_at m' p = Some e.
Proof. intros. mono. Qed.
Lemma data_mono p e : data_at m p = Some e -> data_at m' p = Some e.
Proof. intros. mono. Qed.
Lemma buf_mono p e : buf_at m p = Some e -> buf_at m' p = Some e.
Proof. intros. mono. Qed.

Lemma dir_children_mono d : node_ok m d -> dir_children m' d = dir_children m d.
Proof.
  intros (e & ino & He & Hi & _ & _ & Hp). unfold dir_children, node_inode.
  rewrite He, Hi, (dentry_mono _ _ He), (inode_mono _ _ Hi). unfold private_ok in Hp.
  destruct (is_dir (i_mode ino)); [|done]. destruct Hp as (dd & Hd & _).
  by rewrite Hd, (dir_mono _ _ Hd).
Qed.

Lemma child_mono d name : reach m root d -> child m' d name = child m d name.
Proof.
  intros Hd. unfold child. rewrite dir_children_mono by (by apply (to_node _ _ Htree)).
  assert (forall c, c ∈ dir_children m d -> named m' name c = named m name c) as Hn.
  { intros c Hc. destruct (to_parent _ _ Htree d c Hd Hc) as (e & He & _). unfold named.
    by rewrite He, (dentry_mono _ _ He). }
  revert Hn. generalize (dir_children m d) as l. induction l as [|c l IH]; intros Hn; simpl; [done|].
  rewrite Hn by set_solver. destruct (named m name c); [done|]. apply IH. set_solver.
Qed.

Lemma reach_mono d : reach m' root d <-> reach m root d.
Proof.
  split; intros Hr; induction Hr as [|d c Hr IH Hc]; try constructor.
  - econstructor; [done|]. by rewrite dir_children_mono in Hc by (by apply (to_node _ _ Htree)).
  - econstructor; [done|]. by rewrite dir_children_mono by (by apply (to_node _ _ Htree)).
Qed.

Lemma node_inode_mono d : node_ok m d -> node_inode m' d = node_inode m d.
Proof.
  intros (e & ino & He & Hi & _). unfold node_inode. by rewrite He, Hi, (dentry_mono _ _ He), (inode_mono _ _ Hi).
Qed.

Lemma parent_mono d : node_ok m d -> parent m' d = parent m d.
Proof. intros (e & ino & He & _). unfold parent. by rewrite He, (dentry_mono _ _ He). Qed.

Lemma file_bytes_mono d : m !! 0 = None -> m' !! 0 = None -> node_ok m d -> file_bytes m' d = file_bytes m d.
Proof.
  intros H0 H0' (e & ino & He & Hi & _ & _ & Hp). unfold file_bytes, node_inode.
  rewrite He, Hi, (dentry_mono _ _ He), (inode_mono _ _ Hi). unfold private_ok in Hp.
  destruct (is_dir (i_mode ino)); [done|]. destruct Hp as (fd & Hfd & Hok).
  rewrite Hfd, (data_mono _ _ Hfd). destruct Hok as [(-> & _)|(_ & b & Hb & _)].
  - unfold buf_at. by rewrite H0, H0'.
  - by rewrite Hb, (buf_mono _ _ Hb).
Qed.

Lemma private_mono ino : private_ok m ino -> private_ok m' ino.
Proof.
  unfold private_ok. destruct (is_dir (i_mode ino)).
  - intros (dd & Hd & ?). exists dd. split; [by apply dir_mono|done].
  - intros (fd & Hd & Hok). exists fd. split; [by apply data_mono|].
    destruct Hok as [?|(? & b & Hb & ?)]; [by left|right]. split; [done|]. exists b.
    split; [by apply buf_mono|done].
Qed.

Lemma node_mono d : node_ok m d -> node_ok m' d.
Proof.
  intros (e & ino & He & Hi & ? & ? & Hp). exists e, ino.
  split_and!; try done; [by apply dentry_mono|by apply inode_mono|by apply private_mono].
Qed.

Lemma owns_mono d p : node_ok m d -> owns m' d p -> owns m d p.
Proof.
  intros (e & ino & He & Hi & _ & _ & Hp) (e' & ino' & He' & Hi' & Ho).
  rewrite (dentry_mono _ _ He) in He'. injection He' as <-.
  rewrite (inode_mono _ _ Hi) in Hi'. injection Hi' as <-.
  exists e, ino. split_and!; try done. destruct Ho as [?|[?|(fd & Hf & Hfd & ?)]]; auto.
  right. right. unfold private_ok in Hp. rewrite Hf in Hp. destruct Hp as (fd' & Hd & _).
  rewrite (data_mono _ _ Hd) in Hfd. injection Hfd as ->. by exists fd.
Qed.

Lemma tree_mono : m' !! 0 = None -> tree_ok m' root.
Proof.
  intros H0. destruct Htree as [Hnull Hnode Hpar Hroot Hown].
  constructor; try done.
  - intros d ?%reach_mono. by apply node_mono, Hnode.
  - intros d c Hd%reach_mono Hc. rewrite dir_children_mono in Hc by (by apply Hnode).
    destruct (Hpar d c Hd Hc) as (e & He & ?). exists e. split; [by apply dentry_mono|done].
  - destruct Hroot as (e & He & ?). exists e. split; [by apply dentry_mono|done].
  - intros d1 d2 p Hd1%reach_mono Hd2%reach_mono H1 H2.
    apply (Hown d1 d2 p); try done; apply owns_mono; try done; by apply Hnode.
Qed.
End Extend.

(** ** The store *)

(** [s'] has the objects [m] and is otherwise like [s]. *)
Definition store_step {A} `{Allocator A} (s s' : fs A) (m : gmap Z obj) : Prop :=
  store_ok s' /\ objs s' = m /\ root_dentry s' = root_dentry s.

Section Store.
Context {A : Type} `{Allocator A}.
Implicit Types (s : fs A).

Lemma new_obj_ok n o s :
  store_ok s -> 0 < n <= 2 ^ 63 ->
  match new_obj n o s with
  | Ok (p, s') => p <> 0 /\ objs s !! p = None /\ store_step s s' (<[p := o]> (objs s)) /\
      next_ino_num s' = next_ino_num s
  | Halt => True
  | _ => False
  end.
Proof.
  intros [Hinv Hlive] Hn. unfold new_obj. pose proof (a_kmalloc_ok n (fs_alloc s) Hinv Hn) as Ha.
  destruct (a_kmalloc n (fs_alloc s)) as [[p a]| | |]; mred; try done.
  destruct Ha as (Hinv' & Hp & Hfresh & Hl). rewrite (proj2 (Z.eqb_neq p 0) Hp). split; [done|].
  assert (objs s !! p = None) as Hnone.
  { destruct (objs s !! p) eqn:E; [|done]. destruct Hfresh. apply Hlive. by rewrite E. }
  repeat split; try done. intros q [x Hq]. simpl in *. apply Hl.
  destruct (decide (q = p)) as [->|]; [by left|right]. apply Hlive.
  rewrite lookup_insert_ne in Hq by done. by rewrite Hq.
Qed.

Lemma free_obj_ok p s :
  store_ok s -> is_Some (objs s !! p) ->
  exists s', free_obj p s = Ok s' /\ store_step s s' (delete p (objs s)) /\
    next_ino_num s' = next_ino_num s.
Proof.
  intros [Hinv Hlive] Hp. unfold free_obj.
  destruct (a_kfree_ok p (fs_alloc s) Hinv (Hlive p Hp)) as (a & -> & Hinv' & Hl). mred.
  eexists. split; [reflexivity|]. repeat split; try done. simpl. intros q Hq.
  destruct (decide (q = p)) as [->|]; [by rewrite lookup_delete_eq in Hq; destruct Hq|].
  rewrite lookup_delete_ne in Hq by done. apply Hl. split; [by apply Hlive|done].
Qed.

Lemma set_obj_ok s p o : store_ok s -> is_Some (objs s !! p) -> store_ok (set_obj s p o).
Proof.
  intros [Hinv Hlive] Hp. split; [done|]. simpl. intros q Hq. apply Hlive.
  destruct (decide (q = p)) as [->|]; [done|]. by rewrite lookup_insert_ne in Hq.
Qed.

(** A temporary object leaves the store as it was. *)
Lemma temp_obj_gone s s1 s2 p o :
  objs s !! p = None -> store_step s s1 (<[p := o]> (objs s)) ->
  store_step s1 s2 (delete p (objs s1)) -> store_step s s2 (objs s).
Proof.
  intros Hp (_ & Hm1 & Hr1) (Hs2 & Hm2 & Hr2). split; [done|]. rewrite Hm2, Hm1, Hr2, Hr1.
  by rewrite delete_insert_id by done.
Qed.
End Store.

(** ** Path lookup *)

Lemma inode_at_ne m p i : m !! 0 = None -> inode_at m p = Some i -> p <> 0.
Proof. unfold inode_at. intros H0 Hi ->. by rewrite H0 in Hi. Qed.
(** Reading an object of some kind: there is an object. *)
Lemma at_some m p :
  is_Some (inode_at m p) \/ is_Some (dentry_at m p) \/ is_Some (dir_at m p) \/
  is_Some (data_at m p) \/ is_Some (buf_at m p) -> is_Some (m !! p).
Proof.
  unfold inode_at, dentry_at, dir_at, data_at, buf_at. destruct (m !! p); [done|].
  intros [[]|[[]|[[]|[[]|[]]]]]; done.
Qed.

Lemma dentry_at_ne m p d : m !! 0 = None -> dentry_at m p = Some d -> p <> 0.
Proof. unfold dentry_at. intros H0 Hi ->. by rewrite H0 in Hi. Qed.
Lemma dir_at_ne m p d : m !! 0 = None -> dir_at m p = Some d -> p <> 0.
Proof. unfold dir_at. intros H0 Hi ->. by rewrite H0 in Hi. Qed.
Lemma data_at_ne m p d : m !! 0 = None -> data_at m p = Some d -> p <> 0.
Proof. unfold data_at. intros H0 Hi ->. by rewrite H0 in Hi. Qed.

Lemma data_some m p fd : data_at m p = Some fd -> m !! p = Some (OData fd).
Proof. unfold data_at. intros. by repeat case_match; simplify_eq. Qed.
Lemma buf_some m p b : buf_at m p = Some b -> m !! p = Some (OBuf b).
Proof. unfold buf_at. intros. by repeat case_match; simplify_eq. Qed.
Lemma inode_some m p i : inode_at m p = Some i -> m !! p = Some (OInode i).
Proof. unfold inode_at. intros. by repeat case_match; simplify_eq. Qed.
Lemma dentry_some m p d : dentry_at m p = Some d -> m !! p = Some (ODentry d).
Proof. unfold dentry_at. intros. by repeat case_match; simplify_eq. Qed.

Lemma private_ne m ino : m !! 0 = None -> private_ok m ino -> i_private ino <> 0.
Proof.
  intros H0. unfold private_ok. destruct (is_dir (i_mode ino)).
  - intros (dd & Hd & _). by eapply dir_at_ne.
  - intros (fd & Hd & _). by eapply data_at_ne.
Qed.

(** A directory with its objects. *)
Record is_directory (m : gmap Z obj) (d i : Z) (ino : inode_t) (dd : ramfs_dir_data_t) : Prop := {
  dr_entry : exists e, dentry_at m d = Some e /\ d_inode e = i;
  dr_inode : inode_at m i = Some ino;
  dr_mode : is_dir (i_mode ino) = true;
  dr_iop : i_op ino = Some Ramfs;
  dr_fop : i_fop ino = Some RamfsFops;
  dr_data : dir_at m (i_private ino) = Some dd;
  dr_len : length (children dd) = 32%nat;
  dr_count : 0 <= child_count dd <= 32
}.

Lemma is_directory_children m d i ino dd :
  is_directory m d i ino dd -> dir_children m d = take (Z.to_nat (child_count dd)) (children dd).
Proof.
  intros [(e & He & <-) Hi Hm _ _ Hd _ _]. unfold dir_children, node_inode. by rewrite He, Hi, Hm, Hd.
Qed.

Lemma is_directory_mono m m' d i ino dd :
  m ⊆ m' -> is_directory m d i ino dd -> is_directory m' d i ino dd.
Proof.
  intros Hsub [(e & He & ?) Hi ? ? ? Hdd ? ?].
  constructor; try done; [|by apply (inode_mono m)|by apply (dir_mono m)].
  exists e. split; [by apply (dentry_mono m)|done].
Qed.

Section Lookup.
Context {A : Type} `{Allocator A}.
Implicit Types (s : fs A).

Lemma ramfs_lookup_ok m s root d i ino dd q x :
  tree_ok m root -> reach m root d -> is_directory m d i ino dd ->
  store_ok s -> m ⊆ objs s -> dentry_at (objs s) q = Some x ->
  match child m d (d_name x) with
  | Some c => exists s', ramfs_lookup i q s = Ok (c, s') /\ store_step s s' (delete q (objs s)) /\
      next_ino_num s' = next_ino_num s
  | None => ramfs_lookup i q s = Ok (0, s)
  end.
Proof.
  intros Ht Hr Hd Hs Hsub Hq. pose proof (to_null _ _ Ht) as H0.
  rewrite <-(child_mono m (objs s) root Hsub Ht d _ Hr). unfold child.
  rewrite (dir_children_mono m (objs s) Hsub d) by (by apply (to_node _ _ Ht)).
  rewrite (is_directory_children _ _ _ _ _ Hd). unfold ramfs_lookup.
  rewrite (inode_mono _ _ Hsub _ _ (dr_inode _ _ _ _ _ Hd)). mred.
  rewrite (proj2 (Z.eqb_neq _ 0)) by (eapply dir_at_ne; [done|apply Hd]).
  rewrite (dir_mono _ _ Hsub _ _ (dr_data _ _ _ _ _ Hd)). mred.
  pose proof (dr_len _ _ _ _ _ Hd). pose proof (dr_count _ _ _ _ _ Hd).
  rewrite (find_child_spec s q x); [|done|lia|simpl; lia|]; rewrite drop_0.
  - mred. destruct (List.find _ _) as [c|]; [|done].
    destruct (free_obj_ok q s Hs) as (s' & Hf & ?); [unfold dentry_at in Hq; by case_match|].
    exists s'. unfold free_dentry. by rewrite Hf.
  - intros c Hc. rewrite <-(is_directory_children _ _ _ _ _ Hd) in Hc.
    destruct (to_parent _ _ Ht d c Hr Hc) as (e & He & _). exists e. by apply (dentry_mono m).
Qed.

Lemma reach_parent m root d : tree_ok m root -> reach m root d -> reach m root (parent m d).
Proof.
  intros Ht Hr. unfold parent. destruct Hr as [|d c Hr Hc].
  - destruct (to_root _ _ Ht) as (e & -> & ->). simpl. constructor.
  - destruct (to_parent _ _ Ht d c Hr Hc) as (e & -> & ->).
    destruct (Z.eqb_spec d 0); [by econstructor|done].
Qed.

Lemma child_reach m root d name c :
  reach m root d -> child m d name = Some c -> reach m root c.
Proof. intros Hr [Hc _]%List.find_some. econstructor; [done|]. by apply list_elem_of_In. Qed.

Lemma child_not_dir m d ino name :
  node_inode m d = Some ino -> is_dir (i_mode ino) = false -> child m d name = None.
Proof. intros Hi Hd. unfold child, dir_children. by rewrite Hi, Hd. Qed.

Lemma node_directory m d e ino :
  node_ok m d -> dentry_at m d = Some e -> inode_at m (d_inode e) = Some ino ->
  is_dir (i_mode ino) = true -> exists dd, is_directory m d (d_inode e) ino dd.
Proof.
  intros (e' & ino' & He' & Hi' & Ho & Hf & Hp) He Hi Hd.
  rewrite He in He'. injection He' as <-. rewrite Hi in Hi'. injection Hi' as <-.
  unfold private_ok in Hp. rewrite Hd in Hp. destruct Hp as (dd & ? & ? & ?).
  exists dd. constructor; try done. by exists e.
Qed.

Lemma alloc_dentry_ok name i par s :
  store_ok s ->
  match alloc_dentry name i par s with
  | Ok (q, s') => q <> 0 /\ objs s !! q = None /\ next_ino_num s' = next_ino_num s /\
      store_step s s' (<[q := ODentry (mk_dentry (take 31 name) i par)]> (objs s))
  | Halt => True
  | _ => False
  end.
Proof.
  intros Hs. pose proof (new_obj_ok sizeof_dentry (ODentry (mk_dentry (take 31 name) i par)) s Hs) as Hn.
  unfold alloc_dentry.
  destruct (new_obj sizeof_dentry _ s) as [[q s1]| | |]; try (apply Hn; unfold sizeof_dentry; lia).
  destruct Hn as (? & ? & ? & ?); [unfold sizeof_dentry; lia|]. done.
Qed.

(** A search entry is looked up and released again when there is such a child. *)
Lemma search_step s d i ino dd token j par q s1 :
  fs_ok s -> reach (objs s) (root_dentry s) d -> is_directory (objs s) d i ino dd ->
  objs s !! q = None -> store_step s s1 (<[q := ODentry (mk_dentry token j par)]> (objs s)) ->
  match child (objs s) d token with
  | Some c => exists s2, ramfs_lookup i q s1 = Ok (c, s2) /\ store_step s s2 (objs s) /\
      next_ino_num s2 = next_ino_num s1
  | None => ramfs_lookup i q s1 = Ok (0, s1)
  end.
Proof.
  intros [Hs Ht] Hr Hd Hq Hst. pose proof Hst as (Hs1 & Hm1 & Hr1).
  pose proof (ramfs_lookup_ok (objs s) s1 (root_dentry s) d i ino dd q (mk_dentry token j par) Ht Hr Hd Hs1) as Hl.
  rewrite Hm1 in Hl. specialize (Hl (insert_subseteq _ _ _ Hq)).
  unfold dentry_at in Hl. rewrite lookup_insert_eq in Hl. specialize (Hl eq_refl). simpl in Hl.
  destruct (child (objs s) d token) as [c|]; [|done].
  destruct Hl as (s2 & Hl & Hst2 & ?). exists s2. split_and!; try done.
  eapply temp_obj_gone; try done. by rewrite Hm1.
Qed.

Lemma tokens_length p t : t ∈ tokens p -> Nat.le (length t) 31.
Proof. intros (x & -> & _)%list_elem_of_fmap. rewrite length_take. lia. Qed.

Lemma walk_reach m root ts d c : tree_ok m root -> reach m root d -> walk m d ts = Some c -> reach m root c.
Proof.
  intros Ht. revert d. induction ts as [|t ts IH]; intros d Hr; simpl; [congruence|].
  destruct (bool_decide (t = [46])); [by apply IH|].
  destruct (bool_decide (t = [46; 46])); [by apply IH, reach_parent|].
  destruct (child m d t) eqn:Hc; [|done]. apply IH. by eapply child_reach.
Qed.

Lemma store_step_ok s s' : fs_ok s -> store_step s s' (objs s) -> fs_ok s'.
Proof. intros [_ Ht] (Hs & Hm & Hr). split; [done|]. by rewrite Hm, Hr. Qed.

Lemma lookup_loop_ok fuel : forall next current s,
  fs_ok s -> reach (objs s) (root_dentry s) current -> Nat.le (length next) fuel ->
  match lookup_loop fuel next current s with
  | Ok (r, s') => store_step s s' (objs s) /\ next_ino_num s' = next_ino_num s /\
      r = default 0 (walk (objs s) current (tokens next))
  | Halt => True
  | _ => False
  end.
Proof.
  induction fuel as [|fuel IH]; intros next current s Hok Hr Hl;
    pose proof (next_path_token_spec next) as Hn; pose proof (tokens_length next) as Hlen;
    [destruct next; [|simpl in Hl; lia]|]; simpl.
  { split; [by destruct Hok as [? _]|done]. }
  destruct (next_path_token next) as [[rest t]|].
  2: { rewrite Hn. split; [by destruct Hok as [? _]|done]. }
  destruct Hn as [Htok Hrest]. rewrite Htok in Hlen |- *. simpl.
  destruct (bool_decide (t = [46])); [apply IH; try done; lia|].
  pose proof Hok as [Hs Ht]. destruct (to_node _ _ Ht current Hr) as (e & ino & He & Hi & Ho & Hf & Hp).
  rewrite He. mred. pose proof (reach_parent _ _ _ Ht Hr) as Hpar. unfold parent in *. rewrite He in *.
  destruct (bool_decide (t = [46; 46])).
  { destruct (d_parent e =? 0); apply IH; try done; lia. }
  rewrite Hi. mred. destruct (is_dir (i_mode ino)) eqn:Hdir; simpl.
  2: { rewrite (child_not_dir _ current ino) by (unfold node_inode; by rewrite ?He). by split. }
  rewrite Ho. mred. simpl.
  destruct (node_directory (objs s) current e ino) as (dd & Hd); try done; [by apply (to_node _ _ Ht)|].
  pose proof (alloc_dentry_ok t 0 current s Hs) as Ha.
  destruct (alloc_dentry t 0 current s) as [[q s1]| | |]; mred; try done.
  destruct Ha as (Hq0 & Hq & Hnum & Hst). rewrite (proj2 (Z.eqb_neq q 0) Hq0).
  rewrite take_ge in Hst by (apply Hlen; set_solver).
  pose proof (search_step s current _ ino dd t 0 current q s1 Hok Hr Hd Hq Hst) as Hl'.
  destruct (child (objs s) current t) as [c|] eqn:Hc; simpl.
  - destruct Hl' as (s2 & -> & Hst2 & Hnum2). mred.
    pose proof (child_reach _ _ _ _ _ Hr Hc) as Hrc.
    destruct (to_node _ _ Ht c Hrc) as (ec & inoc & Hec & Hic & _).
    rewrite (proj2 (Z.eqb_neq c 0)) by (by eapply dentry_at_ne, Hec; apply Ht).
    pose proof Hst2 as (Hs2 & Hm2 & Hr2). rewrite Hm2, Hec. mred.
    rewrite (proj2 (Z.eqb_neq (d_inode ec) 0)) by (by eapply inode_at_ne, Hic; apply Ht).
    specialize (IH rest c s2 (store_step_ok _ _ Hok Hst2)). rewrite Hm2, Hr2 in IH.
    destruct (lookup_loop fuel rest c s2) as [[r s3]| | |]; try (apply IH; [done|lia]).
    destruct IH as ((Hs3 & Hm3 & Hr3) & Hnum3 & ->); [done|lia|].
    split; [repeat split; congruence || apply Hs3|]. split; [congruence|done].
  - rewrite Hl'. mred. simpl. pose proof Hst as (Hs1 & Hm1 & Hr1).
    destruct (free_obj_ok q s1 Hs1) as (s2 & Hfr & Hst2 & Hnum2); [rewrite Hm1, lookup_insert_eq; done|].
    unfold free_dentry. rewrite Hfr. mred. split; [by eapply temp_obj_gone|]. split; [congruence|done].
Qed.
End Lookup.

(** ** Adding an entry to a directory *)

Definition empty_private (mode : Z) : obj :=
  if is_dir mode then ODir (mk_dir_data (replicate 32 0) 0) else OData (mk_file_data 0 0).

(** An entry with its objects, empty and not yet in the tree. *)
Record fresh_entry (m : gmap Z obj) (root n : Z) (nm : list Z) (par mode : Z) : Prop := {
  fe_new : ~ reach m root n;
  fe_entry : exists i num q, dentry_at m n = Some (mk_dentry nm i par) /\
    inode_at m i = Some (mk_inode num mode 0 (Some Ramfs) (Some RamfsFops) q) /\
    m !! q = Some (empty_private mode) /\
    (forall d x, reach m root d -> owns m d x -> x <> i /\ x <> q)
}.

Section Add.
Context (m : gmap Z obj) (root p i : Z) (ino : inode_t) (dd : ramfs_dir_data_t).
Context (n : Z) (nm : list Z) (mode : Z).
Hypothesis Ht : tree_ok m root.
Hypothesis Hr : reach m root p.
Hypothesis Hd : is_directory m p i ino dd.
Hypothesis Hc : child_count dd < 32.
Hypothesis Hf : fresh_entry m root n nm p mode.

Let priv := i_private ino.
Let dd' := mk_dir_data (<[Z.to_nat (child_count dd) := n]> (children dd)) (child_count dd + 1).
Let m' := <[priv := ODir dd']> m.

Lemma priv_dir : m !! priv = Some (ODir dd).
Proof. pose proof (dr_data _ _ _ _ _ Hd) as H. unfold dir_at in H. fold priv in H. by repeat case_match; simplify_eq. Qed.

Lemma add_other {B} (f : obj -> option B) x :
  (forall d, f (ODir d) = None) -> (m' !! x ≫= f) = (m !! x ≫= f).
Proof.
  intros H. unfold m'. destruct (decide (x = priv)) as [->|].
  - by rewrite lookup_insert_eq, priv_dir; simpl; rewrite !H.
  - by rewrite lookup_insert_ne.
Qed.

Lemma add_dentry x : dentry_at m' x = dentry_at m x.
Proof. apply (add_other (fun o => match o with ODentry d => Some d | _ => None end)). done. Qed.
Lemma add_inode x : inode_at m' x = inode_at m x.
Proof. apply (add_other (fun o => match o with OInode d => Some d | _ => None end)). done. Qed.
Lemma add_data x : data_at m' x = data_at m x.
Proof. apply (add_other (fun o => match o with OData d => Some d | _ => None end)). done. Qed.
Lemma add_buf x : buf_at m' x = buf_at m x.
Proof. apply (add_other (fun o => match o with OBuf d => Some d | _ => None end)). done. Qed.
Lemma add_dir x : dir_at m' x = if decide (x = priv) then Some dd' else dir_at m x.
Proof.
  unfold dir_at, m'. destruct (decide (x = priv)) as [->|]; [by rewrite lookup_insert_eq|].
  by rewrite lookup_insert_ne.
Qed.

Lemma owns_priv : owns m p priv.
Proof. destruct (dr_entry _ _ _ _ _ Hd) as (e & He & <-). exists e, ino. split_and!; [done|apply Hd|auto]. Qed.

Lemma add_children d :
  reach m root d -> dir_children m' d = dir_children m d ++ (if decide (d = p) then [n] else []).
Proof.
  intros Hrd. destruct (decide (d = p)) as [->|Hne].
  - destruct (dr_entry _ _ _ _ _ Hd) as (e & He & Hi). unfold dir_children, node_inode.
    rewrite add_dentry, He, add_inode, Hi, (dr_inode _ _ _ _ _ Hd), (dr_mode _ _ _ _ _ Hd).
    fold priv. rewrite add_dir, decide_True by done. pose proof (dr_data _ _ _ _ _ Hd) as Hx.
    fold priv in Hx. rewrite Hx. simpl. pose proof (dr_count _ _ _ _ _ Hd). pose proof (dr_len _ _ _ _ _ Hd).
    replace (Z.to_nat (child_count dd + 1)) with (S (Z.to_nat (child_count dd))) by lia.
    rewrite (take_S_r _ _ n) by (rewrite list_lookup_insert_eq; [done|lia]).
    by rewrite take_insert_ge by lia.
  - rewrite app_nil_r. destruct (to_node _ _ Ht d Hrd) as (e & io & He & Hi & _).
    unfold dir_children, node_inode. rewrite add_dentry, He, add_inode, Hi.
    destruct (is_dir (i_mode io)) eqn:Hm; [|done]. rewrite add_dir, decide_False; [done|].
    intros Hx. apply Hne. apply (to_owns _ _ Ht d p priv Hrd Hr); [|apply owns_priv].
    exists e, io. split_and!; auto.
Qed.

Lemma add_children_new : dir_children m' n = [].
Proof.
  destruct Hf as [_ (i2 & num & q & He & Hi & Hq & Ho)]. unfold dir_children, node_inode.
  rewrite add_dentry, He. simpl. rewrite add_inode, Hi. simpl. destruct (is_dir mode) eqn:Hm; [|done].
  rewrite add_dir, decide_False. 2: { intros ->. by destruct (Ho p priv Hr owns_priv). }
  unfold dir_at, empty_private in *. rewrite Hm in Hq. by rewrite Hq.
Qed.

Lemma add_reach_old d : reach m root d -> reach m' root d.
Proof.
  induction 1 as [|d c Hrd IH Hcc]; [constructor|]. econstructor; [done|].
  rewrite add_children by done. set_solver.
Qed.

Lemma add_reach d : reach m' root d <-> reach m root d \/ d = n.
Proof.
  split.
  - induction 1 as [|d c Hrd [IH| ->] Hcc]; [left; constructor| |rewrite add_children_new in Hcc; set_solver].
    rewrite add_children in Hcc by done. apply elem_of_app in Hcc as [Hcc|Hcc].
    + left. by econstructor.
    + destruct (decide (d = p)); set_solver.
  - intros [Hrd| ->]; [by apply add_reach_old|].
    apply reach_child with p; [by apply add_reach_old|]. rewrite add_children, decide_True by done. set_solver.
Qed.

Lemma add_owns d x : owns m' d x <-> owns m d x.
Proof.
  unfold owns. split; intros (e & io & He & Hi & Ho); exists e, io.
  all: rewrite ?add_dentry, ?add_inode in *; split_and!; try done.
  all: destruct Ho as [?|[?|(fd & ? & Hfd & ?)]]; auto; right; right; exists fd.
  all: by rewrite ?add_data in *.
Qed.

Lemma add_private io : private_ok m io -> private_ok m' io.
Proof.
  unfold private_ok. destruct (is_dir (i_mode io)).
  - intros (d0 & Hd0 & Hlen & Hcnt). rewrite add_dir. destruct (decide (i_private io = priv)) as [Hx|]; [|by exists d0].
    exists dd'. split; [done|]. simpl. rewrite length_insert. pose proof (dr_count _ _ _ _ _ Hd).
    split; [apply Hd|lia].
  - intros (fd & Hfd & Hok). exists fd. rewrite add_data. split; [done|].
    unfold data_ok in *. by rewrite add_buf.
Qed.

Lemma add_node d : node_ok m d -> node_ok m' d.
Proof.
  intros (e & io & He & Hi & ? & ? & Hp). exists e, io. rewrite add_dentry, add_inode.
  split_and!; try done. by apply add_private.
Qed.

Lemma fresh_node : node_ok m n.
Proof.
  destruct Hf as [_ (i2 & num & q & He & Hi & Hq & Ho)]. eexists _, _. split; [done|]. split; [done|].
  split_and!; try done. unfold private_ok, empty_private in *. simpl. destruct (is_dir mode).
  - eexists. unfold dir_at. rewrite Hq. split; [done|]. by split.
  - eexists. unfold data_at. rewrite Hq. split; [done|]. by left.
Qed.

Lemma fresh_owns d x : reach m root d -> owns m d x -> ~ owns m n x.
Proof.
  intros Hrd Hox (e & io & He' & Hi' & Hx). destruct Hf as [_ (i2 & num & q & He & Hi & Hq & Ho)].
  rewrite He in He'. injection He' as <-. simpl in *. rewrite Hi in Hi'. injection Hi' as <-. simpl in *.
  destruct (Ho d x Hrd Hox) as [? ?]. destruct Hx as [?|[?|(fd & Hm & Hfd & -> & Hb)]]; try done.
  unfold data_at, empty_private in *. rewrite Hq, Hm in Hfd. by injection Hfd as <-.
Qed.

Lemma add_tree : tree_ok m' root.
Proof.
  constructor.
  - assert (priv <> 0) by (eapply dir_at_ne; [apply Ht|apply Hd]).
    unfold m'. rewrite lookup_insert_ne by done. apply Ht.
  - intros d [Hrd| ->]%add_reach; apply add_node; [by apply Ht|apply fresh_node].
  - intros d c [Hrd| ->]%add_reach Hcc; [|rewrite add_children_new in Hcc; set_solver].
    setoid_rewrite add_dentry. rewrite add_children in Hcc by done.
    apply elem_of_app in Hcc as [Hcc|Hcc]; [by apply (to_parent _ _ Ht)|].
    destruct (decide (d = p)) as [->|]; [|set_solver]. apply list_elem_of_singleton in Hcc as ->.
    destruct Hf as [_ (i2 & num & q & He & _)]. by eexists.
  - setoid_rewrite add_dentry. apply (to_root _ _ Ht).
  - intros d1 d2 x H1%add_reach H2%add_reach Ho1%add_owns Ho2%add_owns.
    destruct H1 as [H1| ->], H2 as [H2| ->]; [by apply (to_owns _ _ Ht d1 d2 x)| | |done].
    + by destruct (fresh_owns d1 x).
    + by destruct (fresh_owns d2 x).
Qed.

Lemma add_child d name :
  reach m root d ->
  child m' d name = if bool_decide (d = p /\ name = nm /\ child m p nm = None) then Some n else child m d name.
Proof.
  intros Hrd. unfold child at 1. rewrite add_children by done.
  assert (forall l, List.find (named m' name) l = List.find (named m name) l) as He.
  { induction l as [|c l IH]; simpl; [done|]. unfold named at 1 3. by rewrite add_dentry, IH. }
  rewrite He. assert (forall l l', List.find (named m name) (l ++ l')
    = match List.find (named m name) l with Some c => Some c | None => List.find (named m name) l' end) as Happ.
  { induction l as [|c l IH]; intros l'; simpl; [done|]. by destruct (named m name c). }
  rewrite Happ. fold (child m d name). destruct (child m d name) as [c|] eqn:Hch.
  { rewrite bool_decide_false; [done|]. intros (-> & -> & ?). congruence. }
  destruct (decide (d = p)) as [->|]; [|by rewrite bool_decide_false by naive_solver].
  simpl. unfold named. destruct Hf as [_ (i2 & num & q & Hen & _)]. rewrite Hen. simpl.
  destruct (decide (name = nm)) as [->|]; rewrite ?(bool_decide_true (nm = nm)) by done.
  - by rewrite bool_decide_true.
  - rewrite bool_decide_false by congruence. by rewrite bool_decide_false by naive_solver.
Qed.

Lemma add_bytes d : file_bytes m' d = file_bytes m d.
Proof.
  unfold file_bytes, node_inode. rewrite add_dentry. destruct (dentry_at m d); [|done].
  rewrite add_inode. destruct (inode_at m _) as [io|]; [|done]. destruct (is_dir (i_mode io)); [done|].
  rewrite add_data. destruct (data_at m _); [|done]. by rewrite add_buf.
Qed.

Lemma fresh_bytes : file_bytes m n = if is_dir mode then None else Some [].
Proof.
  destruct Hf as [_ (i2 & num & q & He & Hi & Hq & _)]. unfold file_bytes, node_inode.
  rewrite He. simpl. rewrite Hi. simpl. unfold data_at, empty_private in *.
  destruct (is_dir mode); [done|]. by rewrite Hq.
Qed.
End Add.

(** [d] is a directory. *)
Definition dir_b (m : gmap Z obj) (d : Z) : bool :=
  match node_inode m d with Some ino => is_dir (i_mode ino) | None => false end.

(** [m'] is the tree of [m] with a new, empty entry [n] named [nm] in [p]; a
    name the directory already has keeps its meaning. *)
Record added (m m' : gmap Z obj) (root p : Z) (nm : list Z) (n mode : Z) : Prop := {
  ad_tree : tree_ok m' root;
  ad_new : ~ reach m root n;
  ad_reach d : reach m' root d <-> reach m root d \/ d = n;
  ad_child d name : reach m root d ->
    child m' d name
    = if bool_decide (d = p /\ name = nm /\ child m p nm = None) then Some n else child m d name;
  ad_parent : parent m' n = p;
  ad_parents d : reach m root d -> parent m' d = parent m d;
  ad_empty name : child m' n name = None;
  ad_mode : i_mode <$> node_inode m' n = Some mode;
  ad_contents : file_bytes m' n = if is_dir mode then None else Some [];
  ad_bytes d : reach m root d -> file_bytes m' d = file_bytes m d;
  ad_children d : reach m root d -> dir_children m' d = dir_children m d ++ (if decide (d = p) then [n] else []);
  ad_none : dir_children m' n = [];
  ad_dir d : reach m root d -> dir_b m' d = dir_b m d
}.

Section Create.
Context {A : Type} `{Allocator A}.
Implicit Types (s : fs A).

Lemma alloc_inode_ok s :
  store_ok s ->
  match alloc_inode s with
  | Ok (p, s') => p <> 0 /\ objs s !! p = None /\
      store_step s s' (<[p := OInode (mk_inode 0 0 0 None None 0)]> (objs s)) /\
      next_ino_num s' = next_ino_num s
  | Halt => True
  | _ => False
  end.
Proof. intros Hs. apply (new_obj_ok _ _ s Hs). unfold sizeof_inode. lia. Qed.

Lemma ramfs_create_inode_ok mode s :
  store_ok s ->
  match ramfs_create_inode mode s with
  | Ok (i, s') => i <> 0 /\ objs s !! i = None /\ exists q, q <> 0 /\ q <> i /\ objs s !! q = None /\
      store_step s s' (<[i := OInode (mk_inode (next_ino_num s) mode 0 (Some Ramfs) (Some RamfsFops) q)]>
                         (<[q := empty_private mode]> (objs s)))
  | Halt => True
  | _ => False
  end.
Proof.
  intros Hs. unfold ramfs_create_inode. pose proof (alloc_inode_ok s Hs) as Ha.
  destruct (alloc_inode s) as [[i s1]| | |]; mred; try done.
  destruct Ha as (Hi0 & Hi & (Hs1 & Hm1 & Hr1) & Hnum). rewrite (proj2 (Z.eqb_neq i 0) Hi0).
  assert (inode_at (objs s1) i = Some (mk_inode 0 0 0 None None 0)) as Hi1.
  { unfold inode_at. by rewrite Hm1, lookup_insert_eq. }
  cbn [objs]. rewrite Hi1. mred. cbn [i_size i_private].
  set (s2 := set_obj _ i _).
  assert (store_ok s2) as Hs2.
  { apply set_obj_ok; [done|]. simpl. by rewrite Hm1, lookup_insert_eq. }
  assert (objs s2 = <[i := OInode (mk_inode (next_ino_num s1) mode 0 (Some Ramfs) (Some RamfsFops) 0)]> (objs s)) as Hm2.
  { unfold s2. simpl. by rewrite Hm1, insert_insert_eq. }
  assert (root_dentry s2 = root_dentry s) as Hr2 by done. clearbody s2.
  assert (exists k, 0 < k <= 2 ^ 63 /\
    (if is_dir mode then new_obj sizeof_dir_data (ODir (mk_dir_data (replicate 32 0) 0)) s2
     else new_obj sizeof_file_data (OData (mk_file_data 0 0)) s2) = new_obj k (empty_private mode) s2) as (k & Hk & ->).
  { unfold empty_private. destruct (is_dir mode); eexists; (split; [|reflexivity]); done. }
  pose proof (new_obj_ok k (empty_private mode) s2 Hs2 Hk) as Hn.
  destruct (new_obj k (empty_private mode) s2) as [[q s3]| | |]; mred; try done.
  destruct Hn as (Hq0 & Hq & (Hs3 & Hm3 & Hr3) & _). rewrite (proj2 (Z.eqb_neq q 0) Hq0).
  rewrite Hm2 in Hq. apply lookup_insert_None in Hq as [Hq Hqi]. rewrite Hm2 in Hm3.
  unfold inode_at. rewrite Hm3, lookup_insert_ne, lookup_insert_eq by done. mred. simpl.
  split; [done|]. split; [done|]. exists q. split_and!; try done. split; [|split].
  - apply set_obj_ok; [done|]. by rewrite Hm3, lookup_insert_ne, lookup_insert_eq by done.
  - simpl. rewrite Hm3, Hnum. rewrite insert_insert_ne, insert_insert_eq by done. by rewrite insert_insert_ne.
  - simpl. congruence.
Qed.

Lemma owns_dom m d x : node_ok m d -> owns m d x -> is_Some (m !! x).
Proof.
  intros (e & ino & He & Hi & _ & _ & Hp) (e' & ino' & He' & Hi' & Ho).
  rewrite He in He'. injection He' as <-. rewrite Hi in Hi'. injection Hi' as <-.
  unfold private_ok in Hp. destruct Ho as [->|[->|(fd & Hf & Hfd & -> & Hb)]].
  - apply at_some. rewrite Hi. eauto.
  - apply at_some. destruct (is_dir (i_mode ino)); destruct Hp as (? & Hx & _); rewrite Hx; eauto 6.
  - rewrite Hf in Hp. destruct Hp as (fd' & Hx & Hok). rewrite Hfd in Hx. injection Hx as <-.
    destruct Hok as [[? _]|(_ & b & Hx & _)]; [done|]. apply at_some. rewrite Hx. eauto 6.
Qed.

Lemma reach_dom m root d : tree_ok m root -> reach m root d -> is_Some (m !! d).
Proof.
  intros Ht Hr. destruct (to_node _ _ Ht d Hr) as (e & _ & He & _). apply at_some. rewrite He. eauto.
Qed.

Lemma fresh_entry_intro m m1 root n nm par mode i num q :
  tree_ok m root -> m ⊆ m1 -> m !! n = None -> m !! i = None -> m !! q = None ->
  m1 !! n = Some (ODentry (mk_dentry nm i par)) ->
  m1 !! i = Some (OInode (mk_inode num mode 0 (Some Ramfs) (Some RamfsFops) q)) ->
  m1 !! q = Some (empty_private mode) -> fresh_entry m1 root n nm par mode.
Proof.
  intros Ht Hsub Hn Hi Hq Hn1 Hi1 Hq1. constructor.
  - intros Hr%(reach_mono m m1 root Hsub Ht). apply (reach_dom _ _ _ Ht) in Hr as [? Hr]. congruence.
  - exists i, num, q. unfold dentry_at, inode_at. rewrite Hn1, Hi1. split_and!; try done.
    intros d x Hr%(reach_mono m m1 root Hsub Ht) Ho%(owns_mono m m1 Hsub); [|by apply Ht].
    apply owns_dom in Ho as [o Ho]; [|by apply Ht]. split; congruence.
Qed.

(** What a step keeps of a tree it extends. *)
Lemma added_mono m m1 m' root p nm n mode :
  tree_ok m root -> m ⊆ m1 -> m1 !! 0 = None -> reach m root p ->
  added m1 m' root p nm n mode -> added m m' root p nm n mode.
Proof.
  intros Ht Hsub H0 Hp [Htree Hnew Hreach Hchild]. pose proof (reach_mono m m1 root Hsub Ht) as Hrm.
  constructor; try done.
  - by rewrite <-Hrm.
  - intros d. rewrite Hreach. by rewrite Hrm.
  - intros d name Hd. rewrite Hchild by (by apply Hrm).
    by rewrite !(child_mono m m1 root Hsub Ht) by done.
  - intros d Hd. rewrite ad_parents0 by (by apply Hrm). by apply (parent_mono m m1 Hsub), Ht.
  - intros d Hd. rewrite ad_bytes0 by (by apply Hrm).
    apply (file_bytes_mono m m1 Hsub); [apply Ht|done|by apply Ht].
  - intros d Hd. rewrite ad_children0 by (by apply Hrm). by rewrite (dir_children_mono m m1 Hsub) by (by apply Ht).
  - intros d Hd. rewrite ad_dir0 by (by apply Hrm). unfold dir_b. by rewrite (node_inode_mono m m1 Hsub) by (by apply Ht).
Qed.

(** Linking a fresh entry into its directory. *)
Lemma link_added m root p i ino dd n nm mode :
  tree_ok m root -> reach m root p -> is_directory m p i ino dd -> child_count dd < 32 ->
  fresh_entry m root n nm p mode -> m !! 0 = None -> p <> 0 ->
  added m (<[i_private ino := ODir (mk_dir_data (<[Z.to_nat (child_count dd) := n]> (children dd))
                                      (child_count dd + 1))]> m) root p nm n mode.
Proof.
  intros Ht Hr Hd Hc Hf H0 Hp0. constructor.
  - by eapply add_tree.
  - apply Hf.
  - intros d. by eapply add_reach.
  - intros d name Hrd. by eapply add_child.
  - unfold parent. erewrite add_dentry by done. destruct Hf as [_ (i2 & num & q & He & _)].
    rewrite He. simpl. by rewrite (proj2 (Z.eqb_neq p 0)).
  - intros d _. unfold parent. by erewrite add_dentry.
  - intros name. unfold child. by erewrite add_children_new.
  - unfold node_inode. erewrite add_dentry by done. destruct Hf as [_ (i2 & num & q & He & Hi & _)].
    rewrite He. simpl. erewrite add_inode by done. by rewrite Hi.
  - erewrite add_bytes by done. by eapply fresh_bytes.
  - intros d _. by erewrite add_bytes.
  - intros d Hrd. by eapply add_children.
  - by eapply add_children_new.
  - intros d _. unfold dir_b, node_inode. erewrite add_dentry by done. destruct (dentry_at m d); [|done].
    simpl. by erewrite add_inode.
Qed.

Lemma ramfs_add_ok kind m s root p i ino dd n nm j mode :
  store_ok s -> tree_ok m root -> m ⊆ objs s -> objs s !! 0 = None ->
  reach m root p -> is_directory m p i ino dd ->
  m !! n = None -> dentry_at (objs s) n = Some (mk_dentry nm j p) ->
  match ramfs_add kind i n mode s with
  | Ok (r, s') =>
      if child_count dd <? 32 then
        r = 0 /\ store_ok s' /\ root_dentry s' = root_dentry s /\
        added m (objs s') root p nm n (Z.lor kind mode)
      else r = -1 /\ s' = s
  | Halt => True
  | _ => False
  end.
Proof.
  intros Hs Ht Hsub H0 Hr Hd Hn Hne. pose proof (is_directory_mono _ _ _ _ _ _ Hsub Hd) as Hd'.
  pose proof (dr_count _ _ _ _ _ Hd). pose proof (dr_len _ _ _ _ _ Hd) as Hlen. unfold ramfs_add.
  rewrite (dr_inode _ _ _ _ _ Hd'). mred.
  rewrite (proj2 (Z.eqb_neq _ 0)) by (eapply dir_at_ne; [done|apply Hd']).
  rewrite (dr_data _ _ _ _ _ Hd'). mred. unfold RAMFS_MAX_CHILDREN. rewrite Z.geb_leb.
  destruct (Z.leb_spec 32 (child_count dd)), (Z.ltb_spec (child_count dd) 32); try lia; [done|].
  pose proof (ramfs_create_inode_ok (Z.lor kind mode) s Hs) as Hi.
  destruct (ramfs_create_inode _ s) as [[i2 s1]| | |]; mred; try done.
  destruct Hi as (Hi0 & Hi & q & Hq0 & Hqi & Hq & (Hs1 & Hm1 & Hr1)).
  rewrite (proj2 (Z.eqb_neq i2 0) Hi0).
  pose proof (lookup_weaken_None _ _ _ Hi Hsub) as Hi'. pose proof (lookup_weaken_None _ _ _ Hq Hsub) as Hq'.
  assert (objs s !! n = Some (ODentry (mk_dentry nm j p))) as Hno.
  { unfold dentry_at in Hne. by repeat case_match; simplify_eq. }
  assert (n <> i2 /\ n <> q) as [Hni Hnq] by (split; congruence).
  assert (objs s1 !! n = Some (ODentry (mk_dentry nm j p))) as Hn1.
  { by rewrite Hm1, !lookup_insert_ne by done. }
  unfold dentry_at. rewrite Hn1. mred. cbn [d_name d_parent]. set (s2 := set_obj s1 n _).
  assert (store_ok s2) as Hs2 by (apply set_obj_ok; by rewrite ?Hn1).
  assert (m ⊆ objs s2) as Hsub2.
  { unfold s2. simpl. rewrite Hm1. by repeat apply insert_subseteq_r. }
  pose proof (is_directory_mono _ _ _ _ _ _ Hsub2 Hd) as Hd2.
  rewrite (dr_data _ _ _ _ _ Hd2). mred. rewrite arr_set_ok by lia. mred.
  assert (objs s2 !! 0 = None) as H02.
  { unfold s2. simpl. rewrite Hm1, !lookup_insert_ne; try done. intros ->. congruence. }
  assert (fresh_entry (objs s2) root n nm p (Z.lor kind mode)) as Hf.
  { apply (fresh_entry_intro m _ root n nm p _ i2 (next_ino_num s) q); try done.
    - unfold s2. simpl. by rewrite lookup_insert_eq.
    - unfold s2. simpl. by rewrite Hm1, lookup_insert_ne, lookup_insert_eq by done.
    - unfold s2. simpl. by rewrite Hm1, (lookup_insert_ne _ n), (lookup_insert_ne _ i2), lookup_insert_eq by done. }
  split; [done|]. split.
  { apply set_obj_ok; [done|]. apply at_some. rewrite (dr_data _ _ _ _ _ Hd2). eauto. }
  split; [done|]. apply (added_mono m (objs s2)); try done. simpl.
  apply (link_added _ _ _ i); try done; [by apply (tree_mono m)|by apply (reach_mono m)|].
  destruct (reach_dom _ _ _ Ht Hr) as [? Hpd]. intros ->. by rewrite (to_null _ _ Ht) in Hpd.
Qed.
End Create.

(** ** The path operations *)

(** The same tree, seen through paths. *)
Definition same_tree (m m' : gmap Z obj) (root : Z) : Prop :=
  (forall d, reach m' root d <-> reach m root d) /\
  forall d, reach m root d -> (forall name, child m' d name = child m d name) /\
    parent m' d = parent m d /\ file_bytes m' d = file_bytes m d.

Lemma same_tree_mono m m' root :
  tree_ok m root -> m ⊆ m' -> m' !! 0 = None -> same_tree m m' root.
Proof.
  intros Ht Hsub H0. split; [intros; by apply reach_mono|]. intros d Hd. split_and!.
  - intros. by apply (child_mono m m' root).
  - by apply parent_mono, Ht.
  - apply file_bytes_mono; try done; by apply Ht.
Qed.

Lemma split_slash_app a b acc : split_slash (a ++ 47 :: b) acc = split_slash a acc ++ split_slash b [].
Proof.
  revert acc. induction a as [|c a IH]; intros acc; simpl; [done|].
  destruct (c =? 47); simpl; by rewrite IH.
Qed.

Lemma tokens_app a b : tokens (a ++ 47 :: b) = tokens a ++ tokens b.
Proof. unfold tokens. by rewrite split_slash_app, filter_app, fmap_app. Qed.

Lemma tokens_plain b : 47 ∉ b -> tokens b = if decide (b = []) then [] else [take 31 b].
Proof.
  intros Hb. unfold tokens. assert (forall acc, split_slash b acc = [acc ++ b]) as ->.
  { induction b as [|c b IH]; intros acc; simpl; [by rewrite app_nil_r|].
    destruct (Z.eqb_spec c 47) as [->|]; [set_solver|]. rewrite IH by set_solver. by rewrite <-app_assoc. }
  simpl. rewrite filter_cons. destruct (decide (b = [])) as [->|]; [by rewrite decide_False by auto|].
  by rewrite decide_True.
Qed.

Lemma strrchr_spec l c a b : strrchr l c = Some (a, b) -> l = a ++ c :: b /\ c ∉ b.
Proof.
  revert a. induction l as [|x l IH]; intros a; simpl; [done|].
  destruct (strrchr l c) as [[a' b']|] eqn:Hs.
  - intros Heq. simplify_eq. destruct (IH a' eq_refl) as [-> ?]. done.
  - destruct (Z.eqb_spec x c) as [->|]; [|done]. intros Heq. simplify_eq. split; [done|].
    clear IH. revert Hs. induction b as [|y b IH]; simpl; [set_solver|].
    destruct (strrchr b c) as [[? ?]|]; [done|]. destruct (Z.eqb_spec y c); [done|]. intros _.
    specialize (IH eq_refl). set_solver.
Qed.

Lemma split_path_tokens path dm fm dir name :
  vfs_split_path (Some path) dm fm = Some (dir, name) ->
  tokens path = tokens dir ++ if decide (name = []) then [] else [take 31 name].
Proof.
  unfold vfs_split_path. destruct (bool_decide _); [|done]. simpl.
  destruct (strrchr path 47) as [[a b]|] eqn:Hs; [|done]. apply strrchr_spec in Hs as [-> Hb].
  rewrite tokens_app, (tokens_plain b) by done. intros Hsp.
  case_bool_decide as Hab; [destruct Hab as [-> ->]; by repeat case_match; simplify_eq|].
  destruct (Z.of_nat (length b) =? 0) eqn:?; [done|].
  destruct (_ || _); [done|]. injection Hsp as <- <-. f_equal. case_bool_decide as Ha; [by subst|done].
Qed.

Lemma walk_app m d ts1 ts2 :
  walk m d (ts1 ++ ts2) = match walk m d ts1 with Some c => walk m c ts2 | None => None end.
Proof.
  revert d. induction ts1 as [|t ts1 IH]; intros d; simpl; [done|].
  repeat (case_match; try done).
Qed.

Lemma walk_added m m' root p nm n mode d ts c :
  tree_ok m root -> added m m' root p nm n mode -> reach m root d ->
  walk m d ts = Some c -> walk m' d ts = Some c.
Proof.
  intros Ht Ha. revert d. induction ts as [|t ts IH]; intros d Hr; simpl; [done|].
  rewrite (ad_parents _ _ _ _ _ _ _ Ha) by done. destruct (bool_decide (t = [46])); [by apply IH|].
  destruct (bool_decide (t = [46; 46])); [by apply IH, reach_parent|].
  rewrite (ad_child _ _ _ _ _ _ _ Ha) by done. destruct (child m d t) as [c'|] eqn:Hc; [|done].
  rewrite bool_decide_false by (intros (-> & -> & ?); congruence). apply IH. by eapply child_reach.
Qed.

(** The new entry is what its path now leads to. *)
Lemma added_walk m m' root p name n mode path dm fm dir :
  tree_ok m root -> vfs_split_path (Some path) dm fm = Some (dir, name) ->
  walk m root (tokens dir) = Some p -> added m m' root p (take 31 name) n mode ->
  child m p (take 31 name) = None -> name ∉ [[]; [46]; [46; 46]] ->
  walk m' root (tokens path) = Some n.
Proof.
  intros Ht Hsp Hw Ha Hc Hn. rewrite (split_path_tokens _ _ _ _ _ Hsp), decide_False by set_solver.
  rewrite walk_app, (walk_added _ _ _ _ _ _ _ _ _ _ Ht Ha (reach_root _ _) Hw). simpl.
  assert (forall k, Nat.lt (length k) 31 -> take 31 name = k -> name = k) as Htk.
  { intros k Hk <-. rewrite length_take in Hk. rewrite take_ge by lia. done. }
  rewrite bool_decide_false by (intros He%Htk; [set_solver|simpl; lia]).
  rewrite bool_decide_false by (intros He%Htk; [set_solver|simpl; lia]).
  rewrite (ad_child _ _ _ _ _ _ _ Ha) by (by eapply walk_reach; [| |exact Hw]; [done|constructor]).
  by rewrite bool_decide_true.
Qed.

Section Paths.
Context {A : Type} `{Allocator A}.
Implicit Types (s : fs A).

Lemma vfs_lookup_ok path s :
  fs_ok s -> head path = Some 47 ->
  match vfs_lookup (Some path) s with
  | Ok (r, s') => store_step s s' (objs s) /\ r = default 0 (walk (objs s) (root_dentry s) (tokens path))
  | Halt => True
  | _ => False
  end.
Proof.
  intros Hok Hh. unfold vfs_lookup. pose proof Hok as [Hs Ht].
  destruct (reach_dom _ _ _ Ht (reach_root _ _)) as [o Ho].
  rewrite (proj2 (Z.eqb_neq _ 0)) by (intros Hx; rewrite Hx, (to_null _ _ Ht) in Ho; done).
  rewrite bool_decide_true by done. simpl.
  pose proof (lookup_loop_ok (length path) path (root_dentry s) s Hok (reach_root _ _) (le_n _)) as Hl.
  destruct (lookup_loop _ _ _ s) as [[r s']| | |]; try done. naive_solver.
Qed.

(** The entry a path leads to, with its inode. *)
Lemma walk_inode s ts d c :
  fs_ok s -> reach (objs s) (root_dentry s) d -> walk (objs s) d ts = Some c ->
  c <> 0 /\ reach (objs s) (root_dentry s) c /\ exists e ino, dentry_at (objs s) c = Some e /\
    inode_at (objs s) (d_inode e) = Some ino /\ node_inode (objs s) c = Some ino /\
    inode_of c s = Ok (Some (d_inode e)) /\ i_op ino = Some Ramfs /\ i_fop ino = Some RamfsFops.
Proof.
  intros [Hs Ht] Hr Hw. pose proof (walk_reach _ _ _ _ _ Ht Hr Hw) as Hc.
  destruct (to_node _ _ Ht c Hc) as (e & ino & He & Hi & Ho & Hf & Hp).
  assert (c <> 0) by (by eapply dentry_at_ne, He; apply Ht). split; [done|]. split; [done|].
  exists e, ino. split_and!; try done.
  - unfold node_inode. by rewrite He.
  - unfold inode_of. rewrite (proj2 (Z.eqb_neq c 0)), He by done. mred.
    by rewrite (proj2 (Z.eqb_neq (d_inode e) 0)) by (by eapply inode_at_ne, Hi; apply Ht).
Qed.

(** A path that splits has a slash first, and so has its directory. *)
Lemma split_path_head path dm fm dir name :
  vfs_split_path (Some path) dm fm = Some (dir, name) -> head dir = Some 47.
Proof.
  unfold vfs_split_path. destruct (bool_decide (head path = Some 47)) eqn:Hh; [|done].
  apply bool_decide_eq_true in Hh. simpl. destruct path as [|c p]; [done|]. simpl in Hh. injection Hh as ->.
  simpl. destruct (strrchr p 47) as [[before after]|].
  - rewrite bool_decide_false by naive_solver. simpl. intros. repeat case_match; simplify_eq; done.
  - simpl. intros. repeat case_match; simplify_eq; done.
Qed.

(** What adding an entry at a path comes to: the result code on every branch,
    and the tree after it.  [exists_check] is whether an existing name is an
    error, [max] the size of the name buffer. *)
Definition add_result (exists_check : bool) (kind max mode : Z) (path : list Z) s (r : Z) s' : Prop :=
  let m := objs s in
  let root := root_dentry s in
  fs_ok s' /\ root_dentry s' = root /\
  let failed code := r = code /\ same_tree m (objs s') root in
  match vfs_split_path (Some path) 256 max with
  | None => failed (-1)
  | Some (dir, name) =>
      match walk m root (tokens dir) with
      | None => failed (-2)
      | Some p =>
          if negb (dir_b m p) then failed (-3)
          else if exists_check && bool_decide (is_Some (child m p (take 31 name))) then failed (-6)
          else if Nat.leb 32 (length (dir_children m p)) then failed (-1)
          else r = 0 /\ exists n, added m (objs s') root p (take 31 name) n (Z.lor kind mode) /\
            (child m p (take 31 name) = None -> name ∉ [[]; [46]; [46; 46]] ->
             walk (objs s') root (tokens path) = Some n)
      end
  end.

Lemma same_tree_refl m root : same_tree m m root.
Proof. split; [done|]. intros. by split_and!. Qed.

Lemma step_fs_ok s s' : fs_ok s -> store_step s s' (objs s) -> fs_ok s' /\ root_dentry s' = root_dentry s /\ same_tree (objs s) (objs s') (root_dentry s).
Proof.
  intros Hok Hst. split; [by eapply store_step_ok|]. destruct Hst as (_ & -> & ?).
  split; [done|apply same_tree_refl].
Qed.

(** A store grown by unreferenced objects is still in order. *)
Lemma grown_fs_ok s s' :
  fs_ok s -> store_ok s' -> root_dentry s' = root_dentry s -> objs s ⊆ objs s' -> objs s' !! 0 = None ->
  fs_ok s' /\ root_dentry s' = root_dentry s /\ same_tree (objs s) (objs s') (root_dentry s).
Proof.
  intros [Hs Ht] Hs' Hr Hsub H0. split; [split; [done|]|split; [done|by apply same_tree_mono]].
  rewrite Hr. by apply (tree_mono (objs s)).
Qed.

Lemma dir_children_length m d i ino dd :
  is_directory m d i ino dd -> Nat.leb 32 (length (dir_children m d)) = negb (child_count dd <? 32).
Proof.
  intros Hd. rewrite (is_directory_children _ _ _ _ _ Hd), length_take.
  pose proof (dr_count _ _ _ _ _ Hd). rewrite (dr_len _ _ _ _ _ Hd).
  destruct (Z.ltb_spec (child_count dd) 32); cbn [negb]; [apply Nat.leb_gt|apply Nat.leb_le]; lia.
Qed.

(** The directory part of the two functions. *)
Lemma lookup_parent dir s :
  fs_ok s -> head dir = Some 47 ->
  match vfs_lookup (Some dir) s with
  | Ok (p, s1) => store_step s s1 (objs s) /\
      match walk (objs s) (root_dentry s) (tokens dir) with
      | None => p = 0
      | Some c => p = c /\ c <> 0 /\ reach (objs s) (root_dentry s) c /\
          exists e ino, dentry_at (objs s) c = Some e /\
            inode_at (objs s) (d_inode e) = Some ino /\ inode_of c s1 = Ok (Some (d_inode e)) /\
            i_op ino = Some Ramfs /\ i_fop ino = Some RamfsFops /\ dir_b (objs s) c = is_dir (i_mode ino) /\
            (is_dir (i_mode ino) = true -> exists dd, is_directory (objs s) c (d_inode e) ino dd)
      end
  | Halt => True
  | _ => False
  end.
Proof.
  intros Hok Hh. pose proof (vfs_lookup_ok dir s Hok Hh) as Hl.
  destruct (vfs_lookup (Some dir) s) as [[p s1]| | |]; try done. destruct Hl as [Hst ->].
  split; [done|]. destruct (walk _ _ (tokens dir)) as [c|] eqn:Hw; simpl; [|done].
  pose proof (store_step_ok _ _ Hok Hst) as Hok1. pose proof Hst as (_ & Hm & Hr).
  rewrite <-Hm, <-Hr in Hw. destruct (walk_inode s1 _ _ c Hok1 (reach_root _ _) Hw)
    as (? & Hrc & e & ino & He & Hi & Hni & Hio & Ho & Hf). rewrite Hm, ?Hr in *.
  split_and!; try done. exists e, ino. split_and!; try done; [unfold dir_b; by rewrite Hni|].
  intros Hd. destruct Hok as [_ Ht]. apply (node_directory (objs s)); try done. by apply Ht.
Qed.

Lemma vfs_create_ok path mode s :
  fs_ok s ->
  match vfs_create (Some path) mode s with
  | Ok (r, s') => add_result false S_IFREG 32 mode path s r s'
  | Halt => True
  | _ => False
  end.
Proof.
  intros Hok. unfold vfs_create, add_result.
  destruct (vfs_split_path (Some path) 256 32) as [[dir name]|] eqn:Hsp.
  2: { by split_and!. }
  pose proof (lookup_parent dir s Hok (split_path_head _ _ _ _ _ Hsp)) as Hl.
  destruct (vfs_lookup (Some dir) s) as [[p s1]| | |]; mred; try done. destruct Hl as [Hst Hl].
  destruct (step_fs_ok _ _ Hok Hst) as (Hok1 & Hr1 & Hsame). pose proof Hst as (Hs1 & Hm1 & _).
  destruct (walk (objs s) (root_dentry s) (tokens dir)) as [c|] eqn:Hw; [|subst p; by split_and!].
  destruct Hl as (-> & Hc0 & Hrc & e & ino & He & Hi & -> & Ho & Hf & Hdb & Hdir). mred.
  rewrite Hm1, Hi, Hdb. mred. destruct (is_dir (i_mode ino)); cbn [negb]; [|by split_and!].
  destruct (Hdir eq_refl) as (dd & Hd). rewrite Hf, Ho, (dir_children_length _ _ _ _ _ Hd). mred. simpl.
  pose proof (alloc_dentry_ok name 0 c s1 Hs1) as Ha.
  destruct (alloc_dentry name 0 c s1) as [[n s2]| | |]; mred; try done.
  destruct Ha as (Hn0 & Hn & _ & (Hs2 & Hm2 & Hr2)). rewrite (proj2 (Z.eqb_neq n 0) Hn0).
  rewrite Hm1 in Hm2, Hn. destruct Hok as [Hs Ht].
  assert (objs s ⊆ objs s2) as Hsub by (rewrite Hm2; by apply insert_subseteq).
  assert (objs s2 !! 0 = None) as H0 by (rewrite Hm2, lookup_insert_ne by done; apply Ht).
  pose proof (ramfs_add_ok S_IFREG (objs s) s2 (root_dentry s) c _ ino dd n (take 31 name) 0 mode
    Hs2 Ht Hsub H0 Hrc Hd Hn) as Hadd.
  unfold dentry_at in Hadd. rewrite Hm2, lookup_insert_eq in Hadd. specialize (Hadd eq_refl).
  unfold ramfs_create. destruct (ramfs_add _ _ n mode s2) as [[r s3]| | |]; try done.
  destruct (child_count dd <? 32); simpl.
  - destruct Hadd as (-> & Hs3 & Hr3 & Hadd). rewrite Hr3, Hr2, Hr1. split_and!; try done.
    + split; [done|]. rewrite Hr3, Hr2, Hr1. apply Hadd.
    + exists n. split; [done|]. intros. by eapply added_walk.
  - destruct Hadd as [-> ->]. destruct (grown_fs_ok s s2) as (? & ? & ?); try done; congruence.
Qed.

(** A directory that does not have the name yet gets the entry; the search entry
    [q] is left behind. *)
Lemma mkdir_new s s1 c i ino dd name mode q :
  fs_ok s -> store_ok s1 -> root_dentry s1 = root_dentry s ->
  objs s1 = <[q := ODentry (mk_dentry (take 31 name) 0 c)]> (objs s) -> objs s !! q = None -> q <> 0 ->
  reach (objs s) (root_dentry s) c -> is_directory (objs s) c i ino dd ->
  match '(n, s2) ← alloc_dentry name 0 c s1;
        if n =? 0 then Ok (-5, s2)
        else '(r, s3) ← ramfs_mkdir i n mode s2;
             if r <? 0 then s4 ← free_dentry n s3; Ok (r, s4) else Ok (r, s3) with
  | Ok (r, s') => fs_ok s' /\ root_dentry s' = root_dentry s /\
      if child_count dd <? 32 then
        r = 0 /\ exists n, added (objs s) (objs s') (root_dentry s) c (take 31 name) n (Z.lor S_IFDIR mode)
      else r = -1 /\ same_tree (objs s) (objs s') (root_dentry s)
  | Halt => True
  | _ => False
  end.
Proof.
  intros [Hs Ht] Hs1 Hr1 Hm1 Hq Hq0 Hrc Hd. pose proof (alloc_dentry_ok name 0 c s1 Hs1) as Ha.
  destruct (alloc_dentry name 0 c s1) as [[n s2]| | |]; mred; try done.
  destruct Ha as (Hn0 & Hn & _ & Hst2). pose proof Hst2 as (Hs2 & Hm2 & Hr2).
  rewrite (proj2 (Z.eqb_neq n 0) Hn0).
  assert (objs s ⊆ objs s1) as Hsub1 by (rewrite Hm1; by apply insert_subseteq).
  assert (objs s ⊆ objs s2) as Hsub2.
  { etransitivity; [exact Hsub1|]. rewrite Hm2. by apply insert_subseteq. }
  assert (objs s1 !! 0 = None) as H01 by (rewrite Hm1, lookup_insert_ne by done; apply Ht).
  assert (objs s2 !! 0 = None) as H02 by (by rewrite Hm2, lookup_insert_ne by done).
  pose proof (ramfs_add_ok S_IFDIR (objs s) s2 (root_dentry s) c i ino dd n (take 31 name) 0 mode
    Hs2 Ht Hsub2 H02 Hrc Hd (lookup_weaken_None _ _ _ Hn Hsub1)) as Hadd.
  unfold dentry_at in Hadd. rewrite Hm2, lookup_insert_eq in Hadd. specialize (Hadd eq_refl).
  unfold ramfs_mkdir. destruct (ramfs_add _ i n mode s2) as [[r s3]| | |]; mred; try done.
  destruct (child_count dd <? 32).
  - destruct Hadd as (-> & Hs3 & Hr3 & Hadd). simpl. rewrite Hr3, Hr2, Hr1. split; [|by eauto].
    split; [done|]. rewrite Hr3, Hr2, Hr1. apply Hadd.
  - destruct Hadd as [-> ->]. simpl.
    destruct (free_obj_ok n s2 Hs2) as (s4 & Hfr & Hst4 & _); [by rewrite Hm2, lookup_insert_eq|].
    unfold free_dentry. rewrite Hfr. mred.
    pose proof (temp_obj_gone s1 s2 s4 n _ Hn Hst2 Hst4) as (Hs4 & Hm4 & Hr4).
    destruct (grown_fs_ok s s4) as (? & ? & ?); try done; rewrite ?Hm4; try done; congruence.
Qed.

Lemma vfs_mkdir_ok path mode s :
  fs_ok s ->
  match vfs_mkdir (Some path) mode s with
  | Ok (r, s') => add_result true S_IFDIR 64 mode path s r s'
  | Halt => True
  | _ => False
  end.
Proof.
  intros Hok. unfold vfs_mkdir, add_result.
  destruct (vfs_split_path (Some path) 256 64) as [[dir name]|] eqn:Hsp; [|by split_and!].
  pose proof (lookup_parent dir s Hok (split_path_head _ _ _ _ _ Hsp)) as Hl.
  destruct (vfs_lookup (Some dir) s) as [[p s1]| | |]; mred; try done. destruct Hl as [Hst Hl].
  destruct (step_fs_ok _ _ Hok Hst) as (Hok1 & Hr1 & Hsame). pose proof Hst as (Hs1 & Hm1 & _).
  destruct (walk (objs s) (root_dentry s) (tokens dir)) as [c|] eqn:Hw; [|subst p; by split_and!].
  destruct Hl as (-> & Hc0 & Hrc & e & ino & He & Hi & -> & Ho & Hf & Hdb & Hdir). mred.
  rewrite Hm1, Hi, Hdb. mred. destruct (is_dir (i_mode ino)); cbn [negb]; [|by split_and!].
  destruct (Hdir eq_refl) as (dd & Hd). rewrite Ho, (dir_children_length _ _ _ _ _ Hd).
  cbn [mkdir iops ramfs_iops lookup]. pose proof (alloc_dentry_ok name 0 c s1 Hs1) as Ha.
  destruct (alloc_dentry name 0 c s1) as [[q s2]| | |]; mred; try done.
  destruct Ha as (Hq0 & Hq & _ & Hst2). rewrite (proj2 (Z.eqb_neq q 0) Hq0).
  rewrite <-Hm1, <-Hr1 in Hrc. rewrite <-Hm1 in Hd.
  pose proof (search_step s1 c _ ino dd (take 31 name) 0 c q s2 Hok1 Hrc Hd Hq Hst2) as Hse.
  rewrite Hm1 in Hse. destruct (child (objs s) c (take 31 name)) as [x|] eqn:Hc.
  - destruct Hse as (s3 & -> & Hst3 & _). mred. rewrite bool_decide_true by done.
    pose proof (child_reach _ _ _ _ _ Hrc ltac:(by rewrite Hm1)) as Hrx.
    pose proof (store_step_ok _ _ Hok1 ltac:(by rewrite Hm1)) as Hok3. destruct Hst3 as (? & Hm3 & Hr3).
    rewrite Hm1, Hr1 in Hrx. assert (walk (objs s3) x [] = Some x) as Hwx by done.
    apply (walk_inode s3 [] x x Hok3) in Hwx as (_ & _ & ex & _ & _ & _ & _ & -> & _); [|congruence].
    mred. rewrite Hm3, Hr3. by split_and!.
  - rewrite Hse. mred. rewrite bool_decide_false by (by intros []). cbn [inode_of Z.eqb andb]. mred.
    pose proof Hst2 as (Hs2 & Hm2 & Hr2).
    pose proof (mkdir_new s1 s2 c _ ino dd name mode q Hok1 Hs2 Hr2 Hm2 Hq Hq0 Hrc Hd) as Hn.
    rewrite Hm1, Hr1 in Hn.
    match type of Hn with match ?x with _ => _ end => destruct x as [[r s5]| | |] end; try done.
    destruct Hn as (? & ? & Hn). split_and!; try done. destruct (child_count dd <? 32); [|done].
    destruct Hn as (-> & n & Hadd). split; [done|]. exists n. split; [done|]. intros.
    eapply added_walk; try done. by destruct Hok.
Qed.
End Paths.

(** ** File contents *)

(** A file with its objects. *)
Record is_file (m : gmap Z obj) (d i : Z) (ino : inode_t) (fd : ramfs_file_data_t) : Prop := {
  fl_entry : exists e, dentry_at m d = Some e /\ d_inode e = i;
  fl_inode : inode_at m i = Some ino;
  fl_mode : is_dir (i_mode ino) = false;
  fl_data : data_at m (i_private ino) = Some fd;
  fl_ok : data_ok m fd (i_size ino);
  fl_iop : i_op ino = Some Ramfs;
  fl_fop : i_fop ino = Some RamfsFops
}.

(** An object that belongs to a file holds no entry, directory or open file. *)
Definition file_obj (o : obj) : Prop :=
  match o with OInode _ | OData _ | OBuf _ => True | _ => False end.

Lemma file_owns m d i ino fd x :
  is_file m d i ino fd -> owns m d x <-> x = i \/ x = i_private ino \/ (x = buffer fd /\ x <> 0).
Proof.
  intros [(e & He & <-) Hi Hm Hfd _ _ _]. split.
  - intros (e' & io & He' & Hi' & Ho). rewrite He in He'. injection He' as <-.
    rewrite Hi in Hi'. injection Hi' as <-.
    destruct Ho as [->|[->|(fd' & _ & Hfd' & -> & ?)]]; [by left|right; by left|].
    rewrite Hfd in Hfd'. injection Hfd' as <-. auto.
  - intros Hx. exists e, ino. split_and!; try done. destruct Hx as [->|[->|[-> ?]]]; auto.
    right. right. by exists fd.
Qed.

Lemma file_owns_obj m d i ino fd x :
  is_file m d i ino fd -> owns m d x -> exists o, m !! x = Some o /\ file_obj o.
Proof.
  intros Hf [->|[->|[-> Hx]]]%(file_owns _ _ _ _ _ _ Hf).
  - pose proof (fl_inode _ _ _ _ _ Hf) as Hi. unfold inode_at in Hi.
    destruct (m !! i) as [[]|]; try done. by eexists.
  - pose proof (fl_data _ _ _ _ _ Hf) as Hi. unfold data_at in Hi.
    destruct (m !! i_private ino) as [[]|]; try done. by eexists.
  - destruct (fl_ok _ _ _ _ _ Hf) as [[? _]|(_ & b & Hi & _)]; [done|]. unfold buf_at in Hi.
    destruct (m !! buffer fd) as [[]|]; try done. by eexists.
Qed.

(** Rewriting the objects of one file. *)
Section Update.
Context (m m' : gmap Z obj) (root d i : Z) (ino ino' : inode_t) (fd fd' : ramfs_file_data_t).
Hypothesis Ht : tree_ok m root.
Hypothesis Hr : reach m root d.
Hypothesis Hf : is_file m d i ino fd.
Hypothesis Hframe : forall x, m' !! x = m !! x \/ owns m d x \/ m !! x = None.
Hypothesis H0 : m' !! 0 = None.
Hypothesis Hf' : is_file m' d i ino' fd'.
Hypothesis Hpriv : i_private ino' = i_private ino.
Hypothesis Hbuf : buffer fd' = buffer fd \/ m !! buffer fd' = None.

Lemma update_dentry x e : dentry_at m x = Some e -> dentry_at m' x = Some e.
Proof.
  unfold dentry_at. intros Hx. destruct (Hframe x) as [->|[Ho|Hn]]; [done| |].
  - destruct (file_owns_obj _ _ _ _ _ _ Hf Ho) as (o & Hxo & Hk). rewrite Hxo in Hx. by destruct o.
  - by rewrite Hn in Hx.
Qed.

Lemma update_dir x dd : dir_at m x = Some dd -> dir_at m' x = Some dd.
Proof.
  unfold dir_at. intros Hx. destruct (Hframe x) as [->|[Ho|Hn]]; [done| |].
  - destruct (file_owns_obj _ _ _ _ _ _ Hf Ho) as (o & Hxo & Hk). rewrite Hxo in Hx. by destruct o.
  - by rewrite Hn in Hx.
Qed.

Lemma update_other d2 x : reach m root d2 -> d2 <> d -> owns m d2 x -> m' !! x = m !! x.
Proof.
  intros Hr2 Hne Ho. destruct (Hframe x) as [?|[Ho'|Hn]]; [done| |].
  - by destruct Hne; apply (to_owns _ _ Ht d2 d x).
  - destruct (owns_dom m d2 x) as [? Hx]; [by apply Ht|done|]. congruence.
Qed.

Lemma update_node_inode d2 : reach m root d2 -> d2 <> d -> node_inode m' d2 = node_inode m d2.
Proof.
  intros Hr2 Hne. destruct (to_node _ _ Ht d2 Hr2) as (e & io & He & Hi & _). unfold node_inode.
  rewrite He, (update_dentry _ _ He). unfold inode_at. rewrite (update_other d2 (d_inode e)); try done.
  exists e, io. auto.
Qed.

Lemma update_private d2 io : reach m root d2 -> d2 <> d -> node_inode m d2 = Some io ->
  m' !! i_private io = m !! i_private io.
Proof.
  intros Hr2 Hne Hio. destruct (to_node _ _ Ht d2 Hr2) as (e & io' & He & Hi & _).
  unfold node_inode in Hio. rewrite He in Hio. apply (update_other d2); try done. exists e, io. auto.
Qed.

Lemma update_children d2 : reach m root d2 -> dir_children m' d2 = dir_children m d2.
Proof.
  intros Hr2. unfold dir_children. destruct (decide (d2 = d)) as [->|Hne].
  - destruct Hf as [(e & He & Hi) Hii Hm _ _ _], Hf' as [(e' & He' & Hi') Hii' Hm' _ _ _].
    unfold node_inode. by rewrite He, He', Hi, Hi', Hii, Hii', Hm, Hm'.
  - rewrite update_node_inode by done. destruct (node_inode m d2) as [io|] eqn:Hio; [|done].
    unfold dir_at. by rewrite (update_private d2).
Qed.

Lemma update_reach d2 : reach m' root d2 <-> reach m root d2.
Proof.
  split; induction 1 as [|a c Ha IH Hc]; try constructor.
  - econstructor; [done|]. by rewrite <-update_children.
  - econstructor; [done|]. by rewrite update_children.
Qed.

Lemma update_views d2 : reach m root d2 ->
  (forall name, child m' d2 name = child m d2 name) /\ parent m' d2 = parent m d2 /\
  (d2 <> d -> file_bytes m' d2 = file_bytes m d2).
Proof.
  intros Hr2. destruct (to_node _ _ Ht d2 Hr2) as (e & io & He & Hi & _ & _ & Hp). split_and!.
  - intros name. unfold child. rewrite update_children by done.
    assert (forall c, c ∈ dir_children m d2 -> named m' name c = named m name c) as Hn.
    { intros c Hc. destruct (to_parent _ _ Ht d2 c Hr2 Hc) as (ec & Hec & _). unfold named.
      by rewrite Hec, (update_dentry _ _ Hec). }
    revert Hn. generalize (dir_children m d2) as l. induction l as [|c l IH]; intros Hn; simpl; [done|].
    rewrite Hn by set_solver. destruct (named m name c); [done|]. apply IH. set_solver.
  - unfold parent. by rewrite He, (update_dentry _ _ He).
  - intros Hne. unfold file_bytes. rewrite update_node_inode by done.
    destruct (node_inode m d2) as [io'|] eqn:Hio; [|done]. destruct (is_dir (i_mode io')) eqn:Hm; [done|].
    unfold data_at. rewrite (update_private d2) by done.
    destruct (m !! i_private io') as [[| | | |fd2|]|] eqn:Hd2; try done. unfold buf_at.
    destruct (decide (buffer fd2 = 0)) as [->|Hb]; [by rewrite H0, (to_null _ _ Ht)|].
    rewrite (update_other d2 (buffer fd2)); try done. unfold node_inode in Hio. rewrite He in Hio.
    exists e, io'. split_and!; try done. right. right. exists fd2. unfold data_at. by rewrite Hd2.
Qed.

Lemma update_owns d2 x : reach m root d2 -> d2 <> d -> owns m' d2 x -> owns m d2 x.
Proof.
  intros Hr2 Hne (e' & io' & He' & Hi' & Ho).
  destruct (to_node _ _ Ht d2 Hr2) as (e & io & He & Hi & _ & _ & Hp).
  rewrite (update_dentry _ _ He) in He'. injection He' as <-.
  pose proof (update_node_inode d2 Hr2 Hne) as Hni. unfold node_inode in Hni.
  rewrite He, (update_dentry _ _ He), Hi, Hi' in Hni. injection Hni as ->.
  exists e, io. split_and!; try done. destruct Ho as [?|[?|(fd2 & ? & Hfd2 & ?)]]; auto.
  right. right. exists fd2. unfold data_at in *. rewrite (update_private d2) in Hfd2; try done.
  unfold node_inode. by rewrite He.
Qed.

Lemma update_owns_self x : owns m' d x -> owns m d x \/ m !! x = None.
Proof.
  intros [->|[->|[-> Hx]]]%(file_owns _ _ _ _ _ _ Hf'); rewrite (file_owns _ _ _ _ _ _ Hf).
  - auto.
  - rewrite Hpriv. auto.
  - destruct Hbuf as [Hb|Hb]; rewrite ?Hb; [|by right]. left. right. right. split; congruence.
Qed.

Lemma update_node d2 : reach m root d2 -> node_ok m' d2.
Proof.
  intros Hr2. destruct (decide (d2 = d)) as [->|Hne].
  { destruct Hf' as [(e & He & Hi) Hii Hm Hdt Hok Ho Hfo]. exists e, ino'. rewrite Hi. split_and!; try done.
    unfold private_ok. rewrite Hm. by exists fd'. }
  destruct (to_node _ _ Ht d2 Hr2) as (e & io & He & Hi & Ho & Hfo & Hp). exists e, io.
  pose proof (update_node_inode d2 Hr2 Hne) as Hni. unfold node_inode in Hni.
  rewrite He, (update_dentry _ _ He), Hi in Hni. split_and!; try done; [by apply update_dentry|].
  assert (node_inode m d2 = Some io) as Hio by (unfold node_inode; by rewrite He).
  unfold private_ok in *. destruct (is_dir (i_mode io)) eqn:Hm.
  - destruct Hp as (dd & Hd & ?). exists dd. split; [by apply update_dir|done].
  - destruct Hp as (fd2 & Hd & Hok). exists fd2. unfold data_at in *.
    rewrite (update_private d2) by done. split; [done|].
    destruct Hok as [?|(Hb & b & Hbb & ?)]; [by left|right]. split; [done|]. exists b. split; [|done].
    unfold buf_at in *. rewrite (update_other d2 (buffer fd2)); try done. exists e, io.
    split_and!; try done. right. right. by exists fd2.
Qed.

Lemma update_tree : tree_ok m' root.
Proof.
  constructor; [done|..].
  - intros d2 ?%update_reach. by apply update_node.
  - intros a c Ha%update_reach Hc. rewrite update_children in Hc by done.
    destruct (to_parent _ _ Ht a c Ha Hc) as (e & He & ?). exists e. split; [by apply update_dentry|done].
  - destruct (to_root _ _ Ht) as (e & He & ?). exists e. split; [by apply update_dentry|done].
  - intros d1 d2 x H1%update_reach H2%update_reach Ho1 Ho2.
    assert (forall a, reach m root a -> a <> d -> owns m' a x -> owns m' d x -> False) as Hex.
    { intros a Ha Hne Hoa%update_owns Hod%update_owns_self; [|done|done].
      destruct Hod as [Hod|Hn]; [by destruct Hne; apply (to_owns _ _ Ht a d x)|].
      destruct (owns_dom m a x) as [? Hx]; [by apply Ht|done|congruence]. }
    destruct (decide (d1 = d)) as [->|Hd1], (decide (d2 = d)) as [->|Hd2]; [done| | |].
    + by destruct (Hex d2).
    + by destruct (Hex d1).
    + apply (to_owns _ _ Ht d1 d2 x); try done; by apply update_owns.
Qed.
End Update.

(** *** Reading and writing *)

Lemma grow_cap_ok fuel c t :
  0 < c -> 0 <= t <= 2 ^ 62 -> c <= 2 ^ 63 -> t <= c * 2 ^ Z.of_nat fuel ->
  exists c', grow_cap fuel c t = Ok c' /\ t <= c' <= 2 ^ 63 /\ c <= c'.
Proof.
  revert c. induction fuel as [|fuel IH]; intros c Hc Ht Hm Hf; simpl; destruct (Z.ltb_spec c t).
  - rewrite Z.mul_1_r in Hf. lia.
  - exists c. split; [done|lia].
  - rewrite u64_small by (unfold fits_u64; lia). destruct (IH (c * 2)) as (c' & -> & ?); try lia.
    + rewrite Nat2Z.inj_succ, Z.pow_succ_r in Hf by lia. lia.
    + exists c'. split; [done|lia].
  - exists c. split; [done|lia].
Qed.

Lemma splice_take {B} (b w : list B) (o n : nat) :
  Nat.le o n -> Nat.le n (length b) ->
  take (Nat.max n (o + length w)) (take o b ++ w ++ drop (o + length w) b)
  = take o (take n b) ++ w ++ drop (o + length w) (take n b).
Proof.
  intros Ho Hn. rewrite take_take, Nat.min_l by done.
  rewrite take_app_ge by (rewrite length_take; lia). rewrite length_take, Nat.min_l by lia. f_equal.
  rewrite take_app_ge by lia. f_equal. rewrite skipn_firstn_comm. f_equal. lia.
Qed.

Lemma splice_length {B} (b w : list B) (o : Z) :
  0 <= o -> o + Z.of_nat (length w) <= Z.of_nat (length b) ->
  length (take (Z.to_nat o) b ++ w ++ drop (Z.to_nat (o + Z.of_nat (length w))) b) = length b.
Proof. intros. rewrite !length_app, length_take, length_drop. lia. Qed.

Lemma splice_take_Z {B} (b w : list B) (o n : Z) :
  0 <= o <= n -> n <= Z.of_nat (length b) ->
  let k := Z.to_nat (o + Z.of_nat (length w)) in
  take (Z.to_nat (Z.max n (o + Z.of_nat (length w)))) (take (Z.to_nat o) b ++ w ++ drop k b)
  = take (Z.to_nat o) (take (Z.to_nat n) b) ++ w ++ drop k (take (Z.to_nat n) b).
Proof.
  intros Ho Hn k. replace k with (Z.to_nat o + length w)%nat by (unfold k; lia).
  rewrite <-splice_take by lia. f_equal. lia.
Qed.

Lemma copy_out_ok b n : n <= Z.of_nat (length b) -> copy_out b n = Ok (take (Z.to_nat n) b).
Proof. intros. unfold copy_out. by rewrite (proj2 (Z.leb_le _ _)). Qed.

Lemma copy_in_ok b off src n :
  off + n <= Z.of_nat (length b) -> n <= Z.of_nat (length src) ->
  copy_in b off src n = Ok (take (Z.to_nat off) b ++ take (Z.to_nat n) src ++ drop (Z.to_nat (off + n)) b).
Proof. intros. unfold copy_in. by rewrite !(proj2 (Z.leb_le _ _)). Qed.

Lemma copy_in_start b src n :
  n <= Z.of_nat (length b) -> Z.of_nat (length src) = n ->
  copy_in b 0 src n = Ok (src ++ drop (Z.to_nat n) b).
Proof. intros. rewrite copy_in_ok by lia. simpl. by rewrite (take_ge src) by lia. Qed.

Section Files.
Context {A : Type} `{Allocator A} (junk : nat -> Z).
Implicit Types (s : fs A).

(** [s1] keeps all but the objects of file [d]. *)
Definition file_step s s1 (d : Z) : Prop :=
  store_ok s1 /\ root_dentry s1 = root_dentry s /\ objs s1 !! 0 = None /\
  forall x, objs s1 !! x = objs s !! x \/ owns (objs s) d x \/ objs s !! x = None.

Lemma is_file_distinct m d i ino fd :
  is_file m d i ino fd -> d <> i /\ d <> i_private ino /\ i <> i_private ino /\
    (buffer fd <> 0 -> d <> buffer fd /\ i <> buffer fd /\ i_private ino <> buffer fd).
Proof.
  intros [(e & He%dentry_some & _) Hi%inode_some _ Hd%data_some Hok _ _].
  split_and!; [congruence..|]. intros Hb.
  destruct Hok as [[? _]|(_ & b & Hbb%buf_some & _)]; [done|]. split_and!; congruence.
Qed.

(** A file whose buffer was replaced by the block [nb]. *)
Lemma is_file_rebuf m m1 d i ino fd nb b :
  is_file m d i ino fd -> nb <> 0 -> m !! nb = None ->
  (forall x, x <> i_private ino -> x <> buffer fd -> x <> nb -> m1 !! x = m !! x) ->
  m1 !! i_private ino = Some (OData (mk_file_data nb (Z.of_nat (length b)))) ->
  m1 !! nb = Some (OBuf b) -> i_size ino <= Z.of_nat (length b) -> 0 <= i_size ino ->
  fits_u64 (Z.of_nat (length b)) -> m !! 0 = None ->
  is_file m1 d i ino (mk_file_data nb (Z.of_nat (length b))).
Proof.
  intros Hf Hnb Hfr Hkeep Hp Hb Hsz Hsz0 Hfit H0.
  destruct (is_file_distinct _ _ _ _ _ Hf) as (Hdi & Hdp & Hip & Hbu).
  destruct Hf as [(e & He & Hi) Hii Hm Hdt Hok Ho Hfo].
  assert (forall x, x <> i_private ino -> (x = buffer fd -> x = 0) -> is_Some (m !! x) -> m1 !! x = m !! x) as Hk.
  { intros x Hx Hxb [o Hxo]. destruct (decide (x = buffer fd)) as [->|]; [rewrite Hxb in Hxo by done; congruence|].
    apply Hkeep; try done. congruence. }
  constructor; try done.
  - exists e. split; [|done]. apply dentry_some in He. unfold dentry_at. rewrite Hk, He; try done.
    intros ->. destruct (decide (buffer fd = 0)); [done|]. naive_solver.
  - apply inode_some in Hii. unfold inode_at. rewrite Hk, Hii; try done.
    intros ->. destruct (decide (buffer fd = 0)); [done|]. naive_solver.
  - unfold data_at. by rewrite Hp.
  - right. simpl. split; [done|]. exists b. unfold buf_at. rewrite Hb. split_and!; done || lia.
Qed.

Lemma file_step_refl s d : fs_ok s -> file_step s s d.
Proof. intros [Hs Ht]. split_and!; try done; [apply Ht|auto]. Qed.

Lemma data_size_range m fd n : data_ok m fd n -> 0 <= n /\ fits_u64 (capacity fd).
Proof. intros [(_ & -> & ->)|(_ & b & _ & _ & ? & ?)]; [by split|split; lia || done]. Qed.

(** What making room for [target] bytes leaves. *)
Definition reserved s s1 (d i : Z) (ino : inode_t) (fd : ramfs_file_data_t) (target : Z) : Prop :=
  file_step s s1 d /\ exists fd1, is_file (objs s1) d i ino fd1 /\
    target <= capacity fd1 /\ (buffer fd1 = buffer fd \/ objs s !! buffer fd1 = None) /\
    take (Z.to_nat (i_size ino)) (default [] (buf_at (objs s1) (buffer fd1)))
    = take (Z.to_nat (i_size ino)) (default [] (buf_at (objs s) (buffer fd))).

Lemma reserved_moved s s2 d i ino fd target nb b :
  fs_ok s -> is_file (objs s) d i ino fd -> store_ok s2 -> root_dentry s2 = root_dentry s ->
  nb <> 0 -> objs s !! nb = None ->
  (forall x, x <> i_private ino -> x <> buffer fd -> x <> nb -> objs s2 !! x = objs s !! x) ->
  objs s2 !! i_private ino = Some (OData (mk_file_data nb (Z.of_nat (length b)))) ->
  objs s2 !! nb = Some (OBuf b) -> objs s2 !! 0 = None -> fits_u64 (Z.of_nat (length b)) ->
  i_size ino <= Z.of_nat (length b) -> target <= Z.of_nat (length b) ->
  take (Z.to_nat (i_size ino)) b = take (Z.to_nat (i_size ino)) (default [] (buf_at (objs s) (buffer fd))) ->
  reserved s s2 d i ino fd target.
Proof.
  intros [Hs Ht] Hf Hs2 Hr2 Hnb0 Hnb Hkeep Hp Hb H0 Hfit Hsz Htg Htake. split.
  - split_and!; try done. intros x.
    destruct (decide (x = nb)) as [->|Hx1]; [auto|]. rewrite (file_owns _ _ _ _ _ _ Hf).
    destruct (decide (x = i_private ino)) as [->|Hx2]; [auto|].
    destruct (decide (x = buffer fd)) as [->|Hx3]; [|by left; apply Hkeep].
    destruct (decide (buffer fd = 0)) as [Hx|]; [left|right; left; auto].
    by rewrite Hx, H0, (to_null _ _ Ht).
  - eexists. split; [eapply is_file_rebuf; try done; [|apply Ht]|]. 2: split_and!; try done; [by right|].
    + apply (data_size_range _ _ _ (fl_ok _ _ _ _ _ Hf)).
    + simpl. unfold buf_at at 1. by rewrite Hb.
Qed.

Lemma ramfs_reserve_ok s d i ino fd target :
  fs_ok s -> is_file (objs s) d i ino fd -> 0 <= target <= 2 ^ 62 ->
  match ramfs_reserve junk (i_private ino) target ino s with
  | Ok (ok, s1) => ok = true /\ reserved s s1 d i ino fd target
  | Halt => True
  | _ => False
  end.
Proof.
  intros Hok Hf Htg. pose proof Hok as [Hs Ht]. unfold ramfs_reserve.
  pose proof (data_some _ _ _ (fl_data _ _ _ _ _ Hf)) as Hpd.
  rewrite (fl_data _ _ _ _ _ Hf). mred. destruct (Z.gtb_spec target (capacity fd)).
  2: { split; [done|]. split; [by apply file_step_refl|]. exists fd. split_and!; try done. by left. }
  pose proof (data_size_range _ _ _ (fl_ok _ _ _ _ _ Hf)) as [Hsz Hcap]. unfold fits_u64 in Hcap.
  destruct (grow_cap_ok 64 (if capacity fd =? 0 then 64 else u64 (capacity fd * 2)) target) as (cap & -> & Hc & _).
  1-4: destruct (Z.eqb_spec (capacity fd) 0); rewrite ?u64_small by (unfold fits_u64; lia); lia.
  mred. set (fresh := junk <$> seq 0 (Z.to_nat cap)). pose proof (new_obj_ok cap (OBuf fresh) s Hs ltac:(lia)) as Hn.
  assert (Z.of_nat (length fresh) = cap) as Hlf by (unfold fresh; rewrite length_fmap, length_seq; lia).
  destruct (new_obj cap (OBuf fresh) s) as [[nb s1]| | |]; mred; try done.
  destruct Hn as (Hnb0 & Hnb & (Hs1 & Hm1 & Hr1) & _). rewrite (proj2 (Z.eqb_neq nb 0) Hnb0).
  assert (nb <> i_private ino) as Hnp by congruence.
  assert (i_private ino <> 0) as Hp0 by (intros Hx; rewrite Hx, (to_null _ _ Ht) in Hpd; done).
  pose proof (is_file_distinct _ _ _ _ _ Hf) as (_ & _ & _ & Hdist).
  destruct (fl_ok _ _ _ _ _ Hf) as [(Hb & Hcap0 & Hi0)|(Hb & b & Hbb & Hbl & Hn & _)].
  - rewrite (proj2 (Z.eqb_eq _ 0) Hb). mred. split; [done|].
    apply (reserved_moved s _ d i ino fd target nb fresh); try done.
    + apply set_obj_ok; [done|]. by rewrite Hm1, lookup_insert_ne, Hpd by done.
    + intros x Hx1 _ Hx3. simpl. by rewrite Hm1, !lookup_insert_ne by done.
    + simpl. by rewrite lookup_insert_eq, Hlf.
    + simpl. by rewrite Hm1, lookup_insert_ne, lookup_insert_eq by done.
    + simpl. rewrite Hm1, !lookup_insert_ne by done. apply Ht.
    + unfold fits_u64. lia.
    + lia.
    + lia.
    + rewrite Hi0. done.
  - rewrite (proj2 (Z.eqb_neq _ 0) Hb). pose proof (buf_some _ _ _ Hbb) as Hbs. destruct (Hdist Hb) as (_ & _ & Hpb).
    cbn [negb]. assert (nb <> buffer fd) as Hnbb by congruence.
    assert (buf_at (objs s1) (buffer fd) = Some b) as -> by (unfold buf_at; by rewrite Hm1, lookup_insert_ne, Hbs).
    mred. rewrite copy_out_ok by lia. mred.
    assert (buf_at (objs s1) nb = Some fresh) as -> by (unfold buf_at; by rewrite Hm1, lookup_insert_eq).
    assert (Z.of_nat (length (take (Z.to_nat (i_size ino)) b)) = i_size ino) as Hlt.
    { clear -Hsz Hbl Hn. rewrite length_take. lia. }
    mred. rewrite copy_in_start by (exact Hlt || lia). mred. set (nb' := _ ++ drop _ fresh).
    assert (length nb' = length fresh) as Hlen.
    { unfold nb'. rewrite length_app, length_drop. clear -Hlt Hlf Hc Hsz Hbl Hn H0. lia. }
    destruct (free_obj_ok (buffer fd) (set_obj s1 nb (OBuf nb'))) as (s2 & -> & (Hs2 & Hm2 & Hr2) & _).
    { apply set_obj_ok; [done|]. by rewrite Hm1, lookup_insert_eq. }
    { simpl. by rewrite Hm1, !lookup_insert_ne, Hbs by done. }
    mred. split; [done|]. simpl in Hm2. rewrite Hm1, insert_insert_eq in Hm2.
    apply (reserved_moved s _ d i ino fd target nb nb'); try done; try (unfold fits_u64; lia).
    + apply set_obj_ok; [done|]. by rewrite Hm2, lookup_delete_ne, lookup_insert_ne, Hpd by done.
    + simpl. by rewrite Hr2.
    + intros x Hx1 Hx2 Hx3. simpl. by rewrite Hm2, lookup_insert_ne, lookup_delete_ne, lookup_insert_ne by done.
    + simpl. by rewrite lookup_insert_eq, Hlen, Hlf.
    + simpl. by rewrite Hm2, lookup_insert_ne, lookup_delete_ne, lookup_insert_eq by done.
    + simpl. rewrite Hm2, lookup_insert_ne, lookup_delete_ne, lookup_insert_ne by done. apply Ht.
    + rewrite Hbb. simpl. unfold nb'. rewrite take_app_le by (clear -Hlt; lia). by rewrite take_take, Nat.min_id.
Qed.

Lemma node_is_file m root d old :
  tree_ok m root -> reach m root d -> file_bytes m d = Some old ->
  exists i ino fd, is_file m d i ino fd /\ 
    old = take (Z.to_nat (i_size ino)) (default [] (buf_at m (buffer fd))) /\ Z.of_nat (length old) = i_size ino.
Proof.
  intros Ht Hr. destruct (to_node _ _ Ht d Hr) as (e & ino & He & Hi & Ho & Hf & Hp).
  unfold file_bytes, node_inode. rewrite He, Hi. unfold private_ok in Hp.
  destruct (is_dir (i_mode ino)) eqn:Hm; [done|]. destruct Hp as (fd & Hfd & Hok). rewrite Hfd.
  intros [= <-]. exists (d_inode e), ino, fd. split; [constructor; eauto|]. split; [done|].
  rewrite length_take. destruct Hok as [(-> & _ & ->)|(_ & b & -> & Hb & Hn & _)]; simpl; lia.
Qed.

Lemma is_file_bytes m d i ino fd :
  is_file m d i ino fd -> file_bytes m d = Some (take (Z.to_nat (i_size ino)) (default [] (buf_at m (buffer fd)))).
Proof.
  intros [(e & He & <-) Hi Hm Hd _ _ _]. unfold file_bytes, node_inode. by rewrite He, Hi, Hm, Hd.
Qed.

(** The file system after a write to [d]. *)
Record written s s' (d : Z) (content : list Z) : Prop := {
  wr_ok : fs_ok s';
  wr_root : root_dentry s' = root_dentry s;
  wr_content : file_bytes (objs s') d = Some content;
  wr_reach d2 : reach (objs s') (root_dentry s) d2 <-> reach (objs s) (root_dentry s) d2;
  wr_others d2 : reach (objs s) (root_dentry s) d2 ->
    (forall name, child (objs s') d2 name = child (objs s) d2 name) /\
    parent (objs s') d2 = parent (objs s) d2 /\
    (d2 <> d -> file_bytes (objs s') d2 = file_bytes (objs s) d2);
  wr_open p f : file_at (objs s) p = Some f -> file_at (objs s') p = Some f;
  wr_children d2 : reach (objs s) (root_dentry s) d2 -> dir_children (objs s') d2 = dir_children (objs s) d2;
  wr_dir d2 : reach (objs s) (root_dentry s) d2 -> dir_b (objs s') d2 = dir_b (objs s) d2
}.

(** The bytes are in the buffer, the size is set. *)
Lemma write_done s s1 s' d i ino ino' fd fd1 fd' content :
  fs_ok s -> reach (objs s) (root_dentry s) d -> is_file (objs s) d i ino fd -> file_step s s1 d ->
  store_ok s' -> root_dentry s' = root_dentry s1 -> objs s' !! 0 = None ->
  (forall x, x <> i -> x <> buffer fd1 -> objs s' !! x = objs s1 !! x) ->
  (buffer fd1 = buffer fd \/ objs s !! buffer fd1 = None) -> buffer fd' = buffer fd1 ->
  is_file (objs s') d i ino' fd' -> i_private ino' = i_private ino ->
  file_bytes (objs s') d = Some content -> written s s' d content.
Proof.
  intros [Hs Ht] Hr Hf (Hs1 & Hr1 & H01 & Hfr) Hs' Hr' H0' Hk Hbu Hbe Hf' Hp Hc.
  assert (forall x, objs s' !! x = objs s !! x \/ owns (objs s) d x \/ objs s !! x = None) as Hframe.
  { intros x. rewrite (file_owns _ _ _ _ _ _ Hf). destruct (decide (x = i)) as [->|Hxi]; [auto|].
    destruct (decide (x = buffer fd1)) as [->|Hxb].
    - destruct Hbu as [Hb|Hb]; [|auto]. destruct (decide (buffer fd1 = 0)) as [Hz|].
      + left. by rewrite Hz, H0', (to_null _ _ Ht).
      + right. left. right. right. split; congruence.
    - rewrite Hk by done. rewrite <-(file_owns _ _ _ _ _ _ Hf). apply Hfr. }
  assert (buffer fd' = buffer fd \/ objs s !! buffer fd' = None) as Hbu' by (by rewrite Hbe).
  constructor; try done.
  - split; [done|]. rewrite Hr', Hr1. by eapply update_tree.
  - congruence.
  - intros d2. by eapply update_reach.
  - intros d2 Hr2. by eapply update_views.
  - intros p f. unfold file_at. intros Hpf. destruct (Hframe p) as [->|[Ho|Hn]]; [done| |by rewrite Hn in Hpf].
    destruct (file_owns_obj _ _ _ _ _ _ Hf Ho) as (o & Ho' & Hkind). rewrite Ho' in Hpf. by destruct o.
  - intros d2 Hr2. eapply update_children; [exact Ht|exact Hr|exact Hf|exact Hframe|exact Hf'|exact Hr2].
  - intros d2 Hr2. unfold dir_b. destruct (decide (d2 = d)) as [->|Hne].
    + destruct Hf as [(e & He & Hi) Hii Hm _ _ _], Hf' as [(e' & He' & Hi') Hii' Hm' _ _ _].
      unfold node_inode. by rewrite He, He', Hi, Hi', Hii, Hii', Hm, Hm'.
    + erewrite update_node_inode; [done|exact Ht|exact Hr|exact Hf|exact Hframe|done|done].
Qed.

(** Storing [w] at [off] in the buffer of a file with room for it. *)
Lemma store_bytes s s1 s' d i ino fd fd1 b off w num :
  fs_ok s -> reach (objs s) (root_dentry s) d -> is_file (objs s) d i ino fd -> file_step s s1 d ->
  is_file (objs s1) d i ino fd1 -> (buffer fd1 = buffer fd \/ objs s !! buffer fd1 = None) ->
  buffer fd1 <> 0 -> buf_at (objs s1) (buffer fd1) = Some b -> 0 <= off <= i_size ino ->
  off + Z.of_nat (length w) <= Z.of_nat (length b) -> root_dentry s' = root_dentry s1 -> store_ok s' ->
  num = Z.max (i_size ino) (off + Z.of_nat (length w)) ->
  objs s' = <[i := OInode (mk_inode (i_ino ino) (i_mode ino) num (i_op ino) (i_fop ino) (i_private ino))]>
             (<[buffer fd1 := OBuf (take (Z.to_nat off) b ++ w ++ drop (Z.to_nat (off + Z.of_nat (length w))) b)]> (objs s1)) ->
  let old := take (Z.to_nat (i_size ino)) b in
  written s s' d (take (Z.to_nat off) old ++ w ++ drop (Z.to_nat (off + Z.of_nat (length w))) old).
Proof.
  intros Hok Hr Hf Hst Hf1 Hbu Hb0 Hb Hoff Hroom Hr' Hs' -> Hm' old.
  pose proof (is_file_distinct _ _ _ _ _ Hf1) as (Hdi & Hdp & Hip & Hdist). destruct (Hdist Hb0) as (Hdb & Hib & Hpb).
  pose proof Hf1 as [(e & He & Hei) Hi Hm Hd Hdok Ho Hfo].
  destruct Hdok as [[? _]|(_ & b' & Hb' & Hlb & Hn & Hfit)]; [done|]. rewrite Hb in Hb'. injection Hb' as <-.
  set (b2 := take (Z.to_nat off) b ++ _) in Hm'. set (ino' := mk_inode _ _ _ _ _ _) in Hm'.
  assert (length b2 = length b) as Hl2.
  { apply splice_length; [apply Hoff|done]. }
  assert (buf_at (objs s') (buffer fd1) = Some b2) as Hbb.
  { unfold buf_at. by rewrite Hm', lookup_insert_ne, lookup_insert_eq by done. }
  assert (is_file (objs s') d i ino' fd1) as Hf'.
  { constructor; try done.
    - exists e. split; [|done]. apply dentry_some in He. unfold dentry_at.
      by rewrite Hm', !lookup_insert_ne, He by done.
    - unfold inode_at. by rewrite Hm', lookup_insert_eq.
    - apply data_some in Hd. unfold data_at. simpl. by rewrite Hm', !lookup_insert_ne, Hd by done.
    - right. split; [done|]. exists b2. rewrite Hbb, Hl2. simpl. split_and!; try done; lia. }
  eapply (write_done s s1 s' d i ino ino' fd fd1 fd1); try done.
  - assert (i <> 0) by (eapply inode_at_ne; [apply Hst|done]). rewrite Hm', !lookup_insert_ne by done. apply Hst.
  - intros x Hx1 Hx2. by rewrite Hm', !lookup_insert_ne by done.
  - rewrite (is_file_bytes _ _ _ _ _ Hf'), Hbb. simpl. f_equal. apply splice_take_Z; [done|].
    rewrite Hlb. apply Hn.
Qed.

Lemma ramfs_write_ok s filp lk pos ops fl d old buf size offset :
  fs_ok s -> file_at (objs s) filp = Some (mk_file lk d pos ops fl) -> reach (objs s) (root_dentry s) d ->
  file_bytes (objs s) d = Some old -> 0 <= offset <= Z.of_nat (length old) ->
  0 <= size <= Z.of_nat (length buf) -> offset + size <= 2 ^ 62 ->
  match ramfs_write junk filp buf size offset s with
  | Ok (r, off', s') => r = size /\ off' = offset + size /\
      written s s' d (take (Z.to_nat offset) old ++ take (Z.to_nat size) buf ++ drop (Z.to_nat (offset + size)) old)
  | Halt => True
  | _ => False
  end.
Proof.
  intros Hok Hfile Hr Hold Hoff Hsize Hmax. pose proof Hok as [Hs Ht].
  destruct (node_is_file _ _ _ _ Ht Hr Hold) as (i & ino & fd & Hf & -> & Hlen). rewrite Hlen in Hoff.
  pose proof Hf as [(e & He & Hei) Hi _ _ _ _ _]. unfold ramfs_write. rewrite Hfile. mred. simpl f_dentry.
  rewrite He. mred. rewrite Hei, Hi. mred.
  assert (i_private ino <> 0) as Hp0 by (eapply data_at_ne; [apply Ht|apply Hf]).
  rewrite (proj2 (Z.eqb_neq _ 0) Hp0), (u64_small (offset + size)) by (unfold fits_u64; lia).
  pose proof (ramfs_reserve_ok s d i ino fd (offset + size) Hok Hf ltac:(lia)) as Hres.
  destruct (ramfs_reserve junk (i_private ino) (offset + size) ino s) as [[ok s1]| | |]; mred; try done.
  destruct Hres as (-> & Hst & fd1 & Hf1 & Hcap & Hbu & Htake). cbn [negb]. rewrite (fl_data _ _ _ _ _ Hf1). mred.
  assert (s64 size = size) as Hs64.
  { unfold s64, u64. rewrite Z.mod_small by lia. destruct (Z.ltb_spec size 9223372036854775808); lia. }
  rewrite Hs64. destruct (Z.eqb_spec size 0) as [->|Hnz].
  - mred. rewrite (fl_inode _ _ _ _ _ Hf1). mred. destruct (Z.gtb_spec (offset + 0) (i_size ino)); [lia|].
    split; [done|]. split; [done|]. rewrite Z.add_0_r, app_nil_l, take_drop.
    apply (write_done s s1 s1 d i ino ino fd fd1 fd1); try done; try apply Hst.
    by rewrite (is_file_bytes _ _ _ _ _ Hf1), Htake.
  - destruct (fl_ok _ _ _ _ _ Hf1) as [(_ & ? & _)|(Hb0 & b & Hb & Hlb & Hn & _)]; [lia|].
    rewrite Hb in Htake |- *. mred. rewrite copy_in_ok by lia. mred. set (s2 := set_obj s1 _ _).
    pose proof (is_file_distinct _ _ _ _ _ Hf1) as (_ & _ & _ & Hdist). destruct (Hdist Hb0) as (_ & Hib & _).
    assert (inode_at (objs s2) i = Some ino) as Hi2.
    { pose proof (inode_some _ _ _ (fl_inode _ _ _ _ _ Hf1)) as Hx. unfold inode_at, s2. simpl.
      by rewrite lookup_insert_ne, Hx by done. }
    rewrite Hi2. mred. split; [done|]. split; [done|].
    assert (store_ok s2) as Hs2.
    { apply set_obj_ok; [apply Hst|]. apply at_some. rewrite Hb. eauto 6. }
    simpl in Htake. rewrite <-Htake. assert (length (take (Z.to_nat size) buf) = Z.to_nat size) as Hlw by (rewrite length_take; lia).
    replace (offset + size) with (offset + Z.of_nat (length (take (Z.to_nat size) buf))) by lia.
    eapply (store_bytes s s1 _ d i ino fd fd1 b offset); try done; try lia.
    + destruct (offset + _ >? i_size ino); [done|done].
    + destruct (offset + _ >? i_size ino); [|done]. apply set_obj_ok; [done|]. apply at_some. rewrite Hi2. eauto.
    + rewrite Hlw, Z2Nat.id by lia. destruct (Z.gtb_spec (offset + size) (i_size ino)).
      * rewrite Z.max_r by lia. unfold s2. simpl. done.
      * rewrite Z.max_l by lia. rewrite insert_id; [done|]. apply inode_some in Hi2. unfold s2 in Hi2. simpl in Hi2.
        rewrite Hi2. by destruct ino.
Qed.
End Files.

(** Opening a file: a fresh open file at the start of it, and nothing else. *)
Lemma vfs_open_new {A} `{Allocator A} (junk : nat -> Z) (con : @file_ops_t A) path flags (s : fs A) d old :
  fs_ok s -> head path = Some 47 -> walk (objs s) (root_dentry s) (tokens path) = Some d ->
  file_bytes (objs s) d = Some old ->
  match vfs_open junk con (Some path) flags s with
  | Ok (filp, s') => filp <> 0 /\ objs s !! filp = None /\
      store_step s s' (<[filp := OFile (mk_file (junk 0%nat) d 0 (Some RamfsFops) (junk 1%nat))]> (objs s))
  | Halt => True
  | _ => False
  end.
Proof.
  intros Hok Hh Hw Hold. pose proof (lookup_parent path s Hok Hh) as Hl. unfold vfs_open.
  destruct (vfs_lookup (Some path) s) as [[p s1]| | |]; mred; try done. destruct Hl as [Hst Hl].
  rewrite Hw in Hl. destruct Hl as (-> & _ & Hr & e & ino & He & Hi & -> & _ & Hf & _).
  destruct Hst as (Hs1 & Hm1 & Hr1). mred. rewrite Hm1, Hi. mred.
  assert (is_dir (i_mode ino) = false) as ->.
  { unfold file_bytes, node_inode in Hold. rewrite He, Hi in Hold. by destruct (is_dir (i_mode ino)). }
  pose proof (new_obj_ok sizeof_file (OFile (mk_file (junk 0%nat) d 0 (i_fop ino) (junk 1%nat))) s1 Hs1 ltac:(by unfold sizeof_file)) as Hn.
  destruct (new_obj sizeof_file _ s1) as [[filp s2]| | |]; mred; try done.
  destruct Hn as (Hf0 & Hfr & (Hs2 & Hm2 & Hr2) & _). rewrite (proj2 (Z.eqb_neq filp 0) Hf0), Hf. cbn [fops open ramfs_fops].
  rewrite Hm1 in Hm2, Hfr. rewrite Hf in Hm2. split_and!; try done. split_and!; try done. congruence.
Qed.

Lemma vfs_open_ok {A} `{Allocator A} (junk : nat -> Z) (con : @file_ops_t A) path flags (s : fs A) d old :
  fs_ok s -> head path = Some 47 -> walk (objs s) (root_dentry s) (tokens path) = Some d ->
  file_bytes (objs s) d = Some old ->
  match vfs_open junk con (Some path) flags s with
  | Ok (filp, s') => filp <> 0 /\ fs_ok s' /\ root_dentry s' = root_dentry s /\
      same_tree (objs s) (objs s') (root_dentry s) /\
      file_at (objs s') filp = Some (mk_file (junk 0%nat) d 0 (Some RamfsFops) (junk 1%nat))
  | Halt => True
  | _ => False
  end.
Proof.
  intros Hok Hh Hw Hold. pose proof (vfs_open_new junk con path flags s d old Hok Hh Hw Hold) as Ho.
  destruct (vfs_open junk con (Some path) flags s) as [[filp s2]| | |]; try done.
  destruct Ho as (Hf0 & Hfr & Hs2 & Hm2 & Hr2). destruct (grown_fs_ok s s2) as (? & ? & ?); try done.
  - rewrite Hm2. by apply insert_subseteq.
  - rewrite Hm2, lookup_insert_ne by done. by destruct Hok as [_ Ht]; apply Ht.
  - split_and!; try done. unfold file_at. by rewrite Hm2, lookup_insert_eq.
Qed.

(** ** The empty file system *)

Section Init.
Context {A : Type} `{Allocator A}.
Implicit Types (s : fs A).

Lemma lone_root_tree m r i q num :
  m !! 0 = None -> r <> 0 ->
  m !! r = Some (ODentry (mk_dentry [47] i 0)) ->
  m !! i = Some (OInode (mk_inode num S_IFDIR 0 (Some Ramfs) (Some RamfsFops) q)) ->
  m !! q = Some (ODir (mk_dir_data (replicate 32 0) 0)) ->
  tree_ok m r /\ (forall d, reach m r d <-> d = r) /\ dir_children m r = [] /\ dir_b m r = true.
Proof.
  intros H0 Hr0 Hr Hi Hq.
  assert (dentry_at m r = Some (mk_dentry [47] i 0)) as Hre by (unfold dentry_at; by rewrite Hr).
  assert (inode_at m i = Some (mk_inode num S_IFDIR 0 (Some Ramfs) (Some RamfsFops) q)) as Hie
    by (unfold inode_at; by rewrite Hi).
  assert (dir_at m q = Some (mk_dir_data (replicate 32 0) 0)) as Hqe by (unfold dir_at; by rewrite Hq).
  assert (dir_children m r = []) as Hch.
  { unfold dir_children, node_inode. rewrite Hre. simpl. rewrite Hie. simpl. by rewrite Hqe. }
  assert (forall d, reach m r d <-> d = r) as Hreach.
  { intros d. split; [|intros ->; constructor]. induction 1 as [|d c _ -> Hc]; [done|]. rewrite Hch in Hc. set_solver. }
  split_and!; try done; [|unfold dir_b, node_inode; by rewrite Hre; simpl; rewrite Hie]. constructor; try done.
  - intros d ->%Hreach. eexists _, _. split; [done|]. split; [done|]. split_and!; try done.
    unfold private_ok. simpl. eexists. split; [done|]. by split.
  - intros d c ->%Hreach. rewrite Hch. set_solver.
  - by eexists.
  - intros d1 d2 x ->%Hreach ->%Hreach. done.
Qed.

Lemma ramfs_init_ok s :
  store_ok s -> objs s !! 0 = None ->
  match ramfs_init s with
  | Ok s' => fs_ok s' /\ (forall d, reach (objs s') (root_dentry s') d <-> d = root_dentry s') /\
      dir_children (objs s') (root_dentry s') = [] /\ dir_b (objs s') (root_dentry s') = true
  | Halt => True
  | _ => False
  end.
Proof.
  intros Hs H0. unfold ramfs_init.
  set (o := OInode _). pose proof (new_obj_ok sizeof_inode o s Hs ltac:(by unfold sizeof_inode)) as Hn.
  destruct (new_obj sizeof_inode o s) as [[i s1]| | |]; mred; try done.
  destruct Hn as (Hi0 & Hi & (Hs1 & Hm1 & Hr1) & _). rewrite (proj2 (Z.eqb_neq i 0) Hi0).
  set (o2 := ODir _). pose proof (new_obj_ok sizeof_dir_data o2 s1 Hs1 ltac:(by unfold sizeof_dir_data)) as Hn.
  destruct (new_obj sizeof_dir_data o2 s1) as [[q s2]| | |]; mred; try done.
  destruct Hn as (Hq0 & Hq & (Hs2 & Hm2 & Hr2) & _). rewrite (proj2 (Z.eqb_neq q 0) Hq0).
  rewrite Hm1 in Hq, Hm2. apply lookup_insert_None in Hq as [Hq Hqi].
  assert (objs s2 !! i = Some o) as Hi2 by (by rewrite Hm2, lookup_insert_ne, lookup_insert_eq by done).
  assert (inode_at (objs s2) i = Some (mk_inode 2 S_IFDIR 0 (Some Ramfs) (Some RamfsFops) 0)) as ->
    by (unfold inode_at; by rewrite Hi2).
  mred. cbn [i_ino i_mode i_size i_op i_fop]. set (s3 := set_obj s2 i _).
  assert (store_ok s3) as Hs3 by (apply set_obj_ok; by rewrite ?Hi2).
  pose proof (alloc_dentry_ok [47] i 0 s3 Hs3) as Ha.
  destruct (alloc_dentry [47] i 0 s3) as [[d s4]| | |]; mred; try done.
  destruct Ha as (Hd0 & Hd & _ & (Hs4 & Hm4 & Hr4)).
  assert (objs s3 = <[i := OInode (mk_inode 2 S_IFDIR 0 (Some Ramfs) (Some RamfsFops) q)]>
    (<[q := o2]> (<[i := o]> (objs s)))) as Hm3 by (unfold s3; simpl; by rewrite Hm2).
  rewrite Hm3 in Hd, Hm4. apply lookup_insert_None in Hd as [Hd Hdi]. apply lookup_insert_None in Hd as [_ Hdq].
  cbn [objs root_dentry]. destruct (lone_root_tree (objs s4) d i q 2) as (? & ? & ? & ?); try done.
  - by rewrite Hm4, !lookup_insert_ne by done.
  - by rewrite Hm4, lookup_insert_eq.
  - by rewrite Hm4, lookup_insert_ne, lookup_insert_eq by done.
  - by rewrite Hm4, (lookup_insert_ne _ d), (lookup_insert_ne _ i), lookup_insert_eq by done.
Qed.
End Init.

(** ** Theorems *)

(** A file system to run the operations on: just initialised. *)
Definition fs0 : fs arena := mk_fs arena0 ∅ 0 100.
Definition sample_fs : fs arena := match ramfs_init fs0 with Ok s => s | _ => fs0 end.

Lemma sample_fs_ok : fs_ok sample_fs.
Proof.
  assert (store_ok fs0) as Hs. { split; [apply arena0_inv|]. intros p [x Hx]. simpl in Hx. by rewrite lookup_empty in Hx. }
  pose proof (ramfs_init_ok fs0 Hs (lookup_empty _)) as Hi. unfold sample_fs.
  assert (is_ok (ramfs_init fs0) = true) as Hok by (vm_compute; reflexivity).
  destruct (ramfs_init fs0); try discriminate Hok. apply Hi.
Qed.

(** C11: [vfs_lookup] of an absolute path returns the entry its components lead
    to, [.] and [..] included, or null when there is none; it terminates, leaves
    every object as it was and releases what it allocated on the way. *)
Theorem vfs_lookup_walks {A} `{Allocator A} (s : fs A) path :
  fs_ok s ->
  match vfs_lookup (Some path) s with
  | Ok (r, s') => fs_ok s' /\ objs s' = objs s /\ root_dentry s' = root_dentry s /\
      r = if bool_decide (head path = Some 47)
          then default 0 (walk (objs s) (root_dentry s) (tokens path)) else 0
  | Halt => True
  | _ => False
  end.
Proof.
  intros Hok. case_bool_decide as Hh.
  - pose proof (vfs_lookup_ok path s Hok Hh) as Hl.
    destruct (vfs_lookup (Some path) s) as [[r s']| | |]; try done. destruct Hl as [Hst ->].
    split; [by eapply store_step_ok|]. by destruct Hst as (_ & ? & ?).
  - unfold vfs_lookup. destruct (root_dentry s =? 0); [done|]. by rewrite bool_decide_false.
Qed.

(** The path [/a]. *)
Definition path_a : list Z := [47; 97].

Lemma vfs_lookup_walks_witness :
  fs_ok sample_fs /\ exists s', vfs_lookup (Some path_a) sample_fs = Ok (0, s') /\ fs_ok s'.
Proof.
  split; [apply sample_fs_ok|].
  pose proof (vfs_lookup_walks sample_fs path_a sample_fs_ok) as H.
  assert (is_ok (vfs_lookup (Some path_a) sample_fs) = true) as Hok by (vm_compute; reflexivity).
  destruct (vfs_lookup (Some path_a) sample_fs) as [[r s']| | |]; try discriminate Hok.
  exists s'. destruct H as (H1 & _ & _ & Hr). split; [|exact H1].
  assert (r = 0) as -> by (rewrite Hr; vm_compute; reflexivity). reflexivity.
Defined.

(** C20: [vfs_mkdir] on every branch: the code it returns for a malformed path, a
    missing or non-directory parent, an existing name and a full directory, with
    the tree unchanged; otherwise it adds an empty directory that the path then
    leads to, and changes nothing else. *)
Theorem vfs_mkdir_correct {A} `{Allocator A} (s : fs A) path mode :
  fs_ok s ->
  match vfs_mkdir (Some path) mode s with
  | Ok (r, s') => add_result true S_IFDIR 64 mode path s r s'
  | Halt => True
  | _ => False
  end.
Proof. apply vfs_mkdir_ok. Qed.

Lemma vfs_mkdir_correct_witness :
  fs_ok sample_fs /\ exists s', vfs_mkdir (Some path_a) 509 sample_fs = Ok (0, s') /\
    add_result true S_IFDIR 64 509 path_a sample_fs 0 s'.
Proof.
  split; [apply sample_fs_ok|]. pose proof (vfs_mkdir_correct sample_fs path_a 509 sample_fs_ok) as H.
  assert (match vfs_mkdir (Some path_a) 509 sample_fs with Ok (r, _) => r =? 0 | _ => false end = true) as Hok
    by (vm_compute; reflexivity).
  destruct (vfs_mkdir (Some path_a) 509 sample_fs) as [[r s']| | |]; try discriminate Hok.
  apply Z.eqb_eq in Hok as ->. exists s'. split; [reflexivity|exact H].
Defined.

(** C32: [vfs_create] on every branch, as for [vfs_mkdir], but without a check for
    the name: a file whose name the directory already has is added too, and the
    older entry goes on being the one paths lead to. *)
Theorem vfs_create_correct {A} `{Allocator A} (s : fs A) path mode :
  fs_ok s ->
  match vfs_create (Some path) mode s with
  | Ok (r, s') => add_result false S_IFREG 32 mode path s r s'
  | Halt => True
  | _ => False
  end.
Proof. apply vfs_create_ok. Qed.

Lemma vfs_create_correct_witness :
  fs_ok sample_fs /\ exists s', vfs_create (Some path_a) 420 sample_fs = Ok (0, s') /\
    add_result false S_IFREG 32 420 path_a sample_fs 0 s'.
Proof.
  split; [apply sample_fs_ok|]. pose proof (vfs_create_correct sample_fs path_a 420 sample_fs_ok) as H.
  assert (match vfs_create (Some path_a) 420 sample_fs with Ok (r, _) => r =? 0 | _ => false end = true) as Hok
    by (vm_compute; reflexivity).
  destruct (vfs_create (Some path_a) 420 sample_fs) as [[r s']| | |]; try discriminate Hok.
  apply Z.eqb_eq in Hok as ->. exists s'. split; [reflexivity|exact H].
Defined.

(** What [ramfs_read] does with [size] bytes wanted at [offset] of a file of [n]
    bytes: past the end it adds the bytes left instead of cutting down to them. *)
Definition read_length (n size offset : Z) : Z := if offset + size <=? n then size else size + (n - offset).

Lemma ramfs_read_ok {A} `{Allocator A} (s : fs A) filp lk pos ops fl d i ino fd b size offset :
  fs_ok s -> file_at (objs s) filp = Some (mk_file lk d pos ops fl) -> is_file (objs s) d i ino fd ->
  buf_at (objs s) (buffer fd) = Some b -> 0 <= offset < i_size ino -> 0 <= size -> size + i_size ino < 2 ^ 63 ->
  let k := read_length (i_size ino) size offset in
  ramfs_read filp size offset s
  = if k <=? Z.of_nat (length b) then Ok (k, take (Z.to_nat k) b, offset + k, s) else Fault.
Proof.
  intros [Hs Ht] Hfile Hf Hb Hoff Hsize Hmax k. unfold ramfs_read. rewrite Hfile. mred.
  pose proof Hf as [(e & He & Hei) Hi _ Hd _ _ _]. cbn [f_dentry]. rewrite He. mred. rewrite Hei, Hi. mred.
  rewrite (proj2 (Z.eqb_neq _ 0)) by (eapply data_at_ne; [apply Ht|done]). rewrite Hd. mred.
  assert (buffer fd <> 0) by (intros Hz; unfold buf_at in Hb; rewrite Hz, (to_null _ _ Ht) in Hb; done).
  rewrite (proj2 (Z.eqb_neq _ 0)) by done. rewrite Z.geb_leb, (proj2 (Z.leb_gt _ _)) by lia. cbn [orb].
  rewrite (u64_small (offset + size)) by (unfold fits_u64; lia).
  replace (if offset + size >? i_size ino then _ else size) with k.
  2: { unfold k, read_length. rewrite Z.gtb_ltb.
       destruct (Z.leb_spec (offset + size) (i_size ino)), (Z.ltb_spec (i_size ino) (offset + size)); try lia.
       rewrite (u64_small (i_size ino - offset)), u64_small by (unfold fits_u64; lia). lia. }
  assert (0 <= k < 2 ^ 63) as Hk. { unfold k, read_length. destruct (offset + size <=? i_size ino); lia. }
  rewrite Hb. mred. unfold copy_out. destruct (Z.leb_spec k (Z.of_nat (length b))); [|done]. mred.
  assert (offset + k < 2 ^ 64) by lia. rewrite (u64_small (offset + k)) by (unfold fits_u64; lia).
  unfold s64. rewrite (u64_small k) by (unfold fits_u64; lia). by rewrite (proj2 (Z.ltb_lt _ _)) by lia.
Qed.

Lemma ramfs_read_empty {A} `{Allocator A} (s : fs A) filp lk pos ops fl d i ino fd size :
  file_at (objs s) filp = Some (mk_file lk d pos ops fl) -> is_file (objs s) d i ino fd -> i_size ino = 0 ->
  ramfs_read filp size 0 s = Ok (0, [], 0, s).
Proof.
  intros Hfile [(e & He & Hei) Hi _ Hd _ _ _] Hz. unfold ramfs_read. rewrite Hfile. mred. cbn [f_dentry].
  rewrite He. mred. rewrite Hei, Hi. mred. rewrite Hd, Hz. mred.
  by destruct (i_private ino =? 0), (buffer fd =? 0).
Qed.

(** C21: a file reads back as it was written: [ramfs_write] at an offset within
    the file replaces exactly the bytes it covers, growing the buffer when it
    must, changes no other file, name or open file, and reading the whole file
    from its start then returns the new contents. *)
Theorem ramfs_write_read {A} `{Allocator A} (junk : nat -> Z) (s : fs A) filp lk pos ops fl d old buf size offset :
  fs_ok s -> file_at (objs s) filp = Some (mk_file lk d pos ops fl) -> reach (objs s) (root_dentry s) d ->
  file_bytes (objs s) d = Some old -> 0 <= offset <= Z.of_nat (length old) ->
  0 <= size <= Z.of_nat (length buf) -> offset + size < 2 ^ 62 -> Z.of_nat (length old) < 2 ^ 62 ->
  match ramfs_write junk filp buf size offset s with
  | Ok (r, off', s') =>
      let content := take (Z.to_nat offset) old ++ take (Z.to_nat size) buf ++ drop (Z.to_nat (offset + size)) old in
      let n := Z.of_nat (length content) in
      r = size /\ off' = offset + size /\ written s s' d content /\
      ramfs_read filp n 0 s' = Ok (n, content, n, s')
  | Halt => True
  | _ => False
  end.
Proof.
  intros Hok Hfile Hr Hold Hoff Hsize Hmax Hmax'.
  pose proof (ramfs_write_ok junk s filp lk pos ops fl d old buf size offset Hok Hfile Hr Hold Hoff Hsize ltac:(lia)) as Hw.
  destruct (ramfs_write junk filp buf size offset s) as [[[r off'] s']| | |]; try done.
  destruct Hw as (-> & -> & Hw). set (content := _ ++ _ ++ _) in *. split_and!; try done.
  assert (Z.of_nat (length content) < 2 ^ 62) as Hlen.
  { unfold content. rewrite !length_app, !length_take, length_drop. lia. }
  pose proof Hw as [Hok' Hroot Hc Hreach _ Hopen]. pose proof Hok' as [_ Ht']. rewrite Hroot in Ht'.
  destruct (node_is_file _ _ _ _ Ht' (proj2 (Hreach d) Hr) Hc) as (i & ino & fd & Hf & Hcon & Hn).
  apply Hopen in Hfile. destruct (decide (content = [])) as [He|Hne].
  { rewrite He in *. by apply (ramfs_read_empty s' filp lk pos ops fl d i ino fd). }
  assert (0 < Z.of_nat (length content)) by (destruct content; [done|simpl; lia]).
  destruct (fl_ok _ _ _ _ _ Hf) as [(_ & _ & ?)|(Hb0 & b & Hb & Hlb & Hsz & _)]; [lia|].
  rewrite Hn in *. rewrite (ramfs_read_ok s' filp lk pos ops fl d i ino fd b); try done; try lia.
  unfold read_length. rewrite Z.add_0_l, Z.leb_refl. rewrite (proj2 (Z.leb_le _ _)) by lia.
  by rewrite Hcon, Hb.
Qed.

(** The file [/a], created and opened. *)
Definition opened_fs : outcome (Z * fs arena) :=
  '(_, s) ← vfs_create (Some path_a) 420 sample_fs; vfs_open (fun _ => 0) (mk_file_ops None None None None) (Some path_a) 0 s.

Lemma opened_fs_ok :
  exists filp s d, opened_fs = Ok (filp, s) /\ fs_ok s /\ reach (objs s) (root_dentry s) d /\
    file_bytes (objs s) d = Some [] /\ file_at (objs s) filp = Some (mk_file 0 d 0 (Some RamfsFops) 0).
Proof.
  assert (is_ok opened_fs = true) as Hok by (vm_compute; reflexivity). unfold opened_fs in *.
  assert (match vfs_create (Some path_a) 420 sample_fs with Ok (r, _) => r =? 0 | _ => false end = true) as Hz
    by (vm_compute; reflexivity).
  pose proof (vfs_create_ok path_a 420 sample_fs sample_fs_ok) as Hc.
  destruct (vfs_create (Some path_a) 420 sample_fs) as [[r s1]| | |]; try discriminate Hz.
  apply Z.eqb_eq in Hz as ->. destruct Hc as (Hok1 & Hr1 & Hc). cbn [mbind outcome_bind] in *.
  assert (vfs_split_path (Some path_a) 256 32 = Some ([47], [97])) as Hsp by reflexivity. rewrite Hsp in Hc.
  assert (walk (objs sample_fs) (root_dentry sample_fs) (tokens [47]) = Some (root_dentry sample_fs)) as Hw by done.
  rewrite Hw in Hc. assert (dir_b (objs sample_fs) (root_dentry sample_fs) = true) as Hd by (vm_compute; reflexivity).
  rewrite Hd in Hc. cbn [negb andb] in Hc. destruct (Nat.leb 32 _); [by destruct Hc|].
  destruct Hc as (_ & n & Ha & Hwalk).
  assert (child (objs sample_fs) (root_dentry sample_fs) (take 31 [97]) = None) as Hch by (vm_compute; reflexivity).
  specialize (Hwalk Hch ltac:(set_solver)). pose proof (ad_contents _ _ _ _ _ _ _ Ha) as Hcon.
  rewrite <-Hr1 in Hwalk.
  pose proof (vfs_open_ok (fun _ => 0) (mk_file_ops None None None None) path_a 0 s1 n [] Hok1 eq_refl Hwalk Hcon) as Hop.
  destruct (vfs_open _ _ (Some path_a) 0 s1) as [[filp s2]| | |]; try discriminate Hok.
  destruct Hop as (_ & Hok2 & Hr2 & [Hreach Hsame] & Hfile). exists filp, s2, n.
  assert (reach (objs s1) (root_dentry s1) n) as Hrn by (rewrite Hr1; apply (ad_reach _ _ _ _ _ _ _ Ha); by right).
  split_and!; try done; [rewrite Hr2; by apply Hreach|].
  destruct (Hsame n Hrn) as (_ & _ & ->). exact Hcon.
Qed.

Lemma ramfs_write_read_witness :
  exists filp s d, opened_fs = Ok (filp, s) /\ fs_ok s /\ file_bytes (objs s) d = Some [] /\
    match ramfs_write (fun _ => 0) filp [104; 105] 2 0 s with
    | Ok (_, _, s') => ramfs_read filp 2 0 s' = Ok (2, [104; 105], 2, s')
    | Halt => True
    | _ => False
    end.
Proof.
  destruct opened_fs_ok as (filp & s & d & Ho & Hok & Hr & Hb & Hf). exists filp, s, d.
  split; [exact Ho|]. split; [exact Hok|]. split; [exact Hb|].
  pose proof (ramfs_write_read (fun _ => 0) s filp 0 0 (Some RamfsFops) 0 d [] [104; 105] 2 0 Hok Hf Hr Hb
    ltac:(simpl; lia) ltac:(simpl; lia) ltac:(lia) ltac:(simpl; lia)) as H.
  destruct (ramfs_write _ filp _ 2 0 s) as [[[r o] s']| | |]; try exact H.
  exact (proj2 (proj2 (proj2 H))).
Defined.

(** [ramfs_read] takes the bytes from the start of the file whatever the
    offset, and a request that reaches past the end is lengthened by the bytes
    left instead of shortened to them: it returns more bytes than were asked
    for, or reads outside the buffer. *)
Theorem ramfs_read_overruns {A} `{Allocator A} (s : fs A) filp lk pos ops fl d old size offset :
  fs_ok s -> file_at (objs s) filp = Some (mk_file lk d pos ops fl) -> reach (objs s) (root_dentry s) d ->
  file_bytes (objs s) d = Some old -> 0 <= offset < Z.of_nat (length old) ->
  0 <= size -> size + Z.of_nat (length old) < 2 ^ 63 ->
  match ramfs_read filp size offset s with
  | Ok (r, out, off', s') =>
      s' = s /\ off' = offset + r /\
      if offset + size <=? Z.of_nat (length old) then r = size /\ out = take (Z.to_nat size) old
      else r = size + (Z.of_nat (length old) - offset) /\ size < r /\ Z.of_nat (length out) = r
  | Fault => Z.of_nat (length old) < offset + size
  | _ => False
  end.
Proof.
  intros Hok Hfile Hr Hold Hoff Hs0 Hmax. pose proof Hok as [_ Ht].
  destruct (node_is_file _ _ _ _ Ht Hr Hold) as (i & ino & fd & Hf & Hcon & Hn). rewrite Hn in *.
  destruct (fl_ok _ _ _ _ _ Hf) as [(_ & _ & ?)|(Hb0 & b & Hb & Hlb & Hsz & _)]; [lia|].
  rewrite (ramfs_read_ok s filp lk pos ops fl d i ino fd b) by done. unfold read_length.
  rewrite Hb in Hcon. simpl in Hcon. destruct (Z.leb_spec (offset + size) (i_size ino)).
  - rewrite (proj2 (Z.leb_le _ _)) by lia. split_and!; try done. rewrite Hcon, take_take. f_equal. lia.
  - destruct (Z.leb_spec (size + (i_size ino - offset)) (Z.of_nat (length b))); [|lia].
    split_and!; try done; try lia. rewrite length_take. lia.
Qed.

Lemma ramfs_read_overruns_witness :
  exists filp s s', opened_fs = Ok (filp, s) /\
    ramfs_write (fun _ => 0) filp [104; 105] 2 0 s = Ok (2, 2, s') /\ fs_ok s' /\
    match ramfs_read filp 1 1 s' with Ok (r, out, _, _) => r = 1 /\ out = [104] | _ => False end /\
    match ramfs_read filp 8 0 s' with Ok (r, _, _, _) => r = 10 | _ => False end.
Proof.
  destruct opened_fs_ok as (filp & s & d & Ho & Hok & Hr & Hb & Hf).
  pose proof (ramfs_write_ok (fun _ => 0) s filp 0 0 (Some RamfsFops) 0 d [] [104; 105] 2 0 Hok Hf Hr Hb
    ltac:(simpl; lia) ltac:(simpl; lia) ltac:(lia)) as H.
  assert (match opened_fs with Ok (filp, s) => match ramfs_write (fun _ => 0) filp [104; 105] 2 0 s with
    | Ok (_, _, s') => match ramfs_read filp 8 0 s' with Ok _ => true | _ => false end | _ => false end
    | _ => false end = true) as Hrun by (vm_compute; reflexivity). rewrite Ho in Hrun.
  destruct (ramfs_write _ filp _ 2 0 s) as [[[r o] s']| | |] eqn:E; try discriminate Hrun.
  destruct H as (-> & -> & Hw). exists filp, s, s'. split; [exact Ho|]. split; [exact E|].
  pose proof Hw as [Hok' Hroot Hc Hreach _ Hopen]. apply Hopen in Hf. split; [exact Hok'|].
  assert (reach (objs s') (root_dentry s') d) as Hr' by (rewrite Hroot; by apply Hreach).
  pose proof (ramfs_read_overruns s' filp 0 0 (Some RamfsFops) 0 d [104; 105] 1 1 Hok' Hf Hr' Hc
    ltac:(simpl; lia) ltac:(lia) ltac:(simpl; lia)) as H1.
  pose proof (ramfs_read_overruns s' filp 0 0 (Some RamfsFops) 0 d [104; 105] 8 0 Hok' Hf Hr' Hc
    ltac:(simpl; lia) ltac:(lia) ltac:(simpl; lia)) as H2. simpl in H1, H2. split.
  - destruct (ramfs_read filp 1 1 s') as [[[[? ?] ?] ?]| | |]; try exact H1; [|exfalso; lia].
    exact (proj2 (proj2 H1)).
  - destruct (ramfs_read filp 8 0 s') as [[[[? ?] ?] ?]| | |]; try discriminate Hrun.
    exact (proj1 (proj2 (proj2 H2))).
Defined.

(** ** The boot archive *)

Section Archive.
Context {A : Type} `{Allocator A}.
Context (junk : nat -> Z) (console_ops : @file_ops_t A).
Implicit Types (s : fs A).

Lemma octal_to_int_range str n acc r :
  octal_to_int str n acc = Ok r -> 0 <= acc < 4294967296 -> 0 <= r < 4294967296.
Proof.
  revert str acc. induction n as [|n IH]; intros str acc; simpl; [by intros [= ->]|]. intros Ho Hacc. ok_inv; [done|].
  eapply IH; [eassumption|]. apply Z.mod_pos_bound. lia.
Qed.

(** Each member advances the offset by a block at least. *)
Lemma tar_loop_fuel f1 f2 tar tar_size offset s :
  0 <= tar_size < 2 ^ 63 -> 0 <= offset < 2 ^ 63 + 2 ^ 33 ->
  (Z.to_nat ((tar_size - offset) / 512) <= f1)%nat -> (Z.to_nat ((tar_size - offset) / 512) <= f2)%nat ->
  tar_loop junk console_ops f1 tar tar_size offset s = tar_loop junk console_ops f2 tar tar_size offset s.
Proof.
  intros Ht. revert f2 offset s. induction f1 as [|f1 IH]; intros f2 offset s Ho H1 H2; destruct f2 as [|f2];
    cbn [tar_loop]; rewrite u64_small by (unfold fits_u64; lia);
    (destruct (Z.leb_spec (offset + 512) tar_size); [|done]); try zdiv.
  destruct (deref (List.head (drop (Z.to_nat offset) tar))) as [c| | |]; mred; try done.
  destruct (c =? 0); [done|]. destruct (negb _); [done|].
  destruct (octal_to_int _ 12 0) as [sz| | |] eqn:Hoct; mred; try done.
  apply octal_to_int_range in Hoct; [|lia].
  destruct (load_member junk console_ops _ sz s) as [s'| | |]; mred; try done.
  assert (Z.land (u64 (sz + 511)) (u64 (Z.lnot 511)) = (sz + 511) / 512 * 512) as ->.
  { rewrite (u64_small (sz + 511)) by (unfold fits_u64; lia). apply (land_align_down _ 9); [unfold fits_u64; lia|lia]. }
  rewrite (u64_small (offset + _)) by (unfold fits_u64; zdiv). apply IH; zdiv.
Qed.
End Archive.


