(* ===== verification/Archive.v ===== *)
(** * The boot archive (src/kernel/fs/tar.c, [vfs_init] of src/kernel/fs/vfs.c)

    What an archive in the ustar format says, independently of the code that
    reads it, and that the loader puts exactly that into the file system: every
    directory and every file with its bytes, at its path. *)

From S2P Require Import Prelude Sync Bitmap Pmm Paging Bytes Heap Alloc Vfs VfsTree.

(** ** Reference: an archive is a list of members *)

(** A directory has no data.  [m_dir] are the components of the directory the
    member is in. *)
Record member := mk_member { m_dir : list (list Z); m_name : list Z; m_data : option (list Z) }.
Definition m_path (u : member) : list (list Z) := m_dir u ++ [m_name u].

(** The absolute path with these components; the root is the empty text. *)
Definition path_of (ts : list (list Z)) : list Z := concat ((fun t => 47 :: t) <$> ts).

(** The name in the header: no slash first, and one last for a directory. *)
Definition header_name (u : member) : list Z :=
  tail (path_of (m_path u)) ++ (match m_data u with None => [47] | Some _ => [] end).

(** A name a component of a path can have. *)
Definition component_ok (t : list Z) : Prop :=
  (t ∉ [[]; [46]; [46; 46]]) /\ (47 ∉ t) /\ (0 ∉ t) /\ (length t <= 31)%nat.

Definition octal_digit (c : Z) : Prop := 48 <= c <= 55.
Definition octal_value (ds : list Z) : Z := fold_left (fun n c => n * 8 + (c - 48)) ds 0.

(** The 512 bytes of a member's header: the name with its terminator, the size
    in octal with its terminator, the kind and the magic text. *)
Record header_ok (hdr : list Z) (u : member) : Prop := {
  hd_length : length hdr = 512%nat;
  hd_name : (header_name u ++ [0]) `prefix_of` hdr;
  hd_short : (length (header_name u) < 100)%nat;
  hd_size : exists ds c rest, drop 124 hdr = ds ++ c :: rest /\ (c = 0 \/ c = 32) /\ (length ds <= 11)%nat /\
    Forall octal_digit ds /\ octal_value ds = Z.of_nat (length (default [] (m_data u)));
  hd_kind : exists c, hdr !! 156%nat = Some c /\
    match m_data u with None => c = TAR_TYPE_DIR | Some _ => c = TAR_TYPE_NORMAL \/ c = 0 end;
  hd_magic : take 5 (drop 257 hdr) = ustar
}.

(** The bytes of an archive: headers, each followed by the data in blocks of 512
    bytes, up to a block that starts with zero or to the end. *)
Inductive tar_of : list Z -> list member -> Prop :=
| tar_end l : (length l < 512)%nat \/ head l = Some 0 -> tar_of l []
| tar_member hdr pad rest u us :
    header_ok hdr u -> Z.of_nat (length (default [] (m_data u))) < 2 ^ 32 ->
    Z.of_nat (length pad) = (- Z.of_nat (length (default [] (m_data u)))) mod 512 ->
    tar_of rest us -> tar_of (hdr ++ default [] (m_data u) ++ pad ++ rest) (u :: us).

(** The directories there are once [us] are loaded. *)
Definition dirs (us : list member) : list (list (list Z)) :=
  [] :: map m_path (filter (fun u => m_data u = None) us).
(** How many members are in directory [ts]. *)
Definition entries_in (us : list member) (ts : list (list Z)) : nat := length (filter (fun u => m_dir u = ts) us).

(** Members with the members before them: proper names, every path once, every
    directory before what is in it, at most 32 entries in a directory. *)
Definition member_fits (us : list member) (u : member) : Prop :=
  Forall component_ok (m_path u) /\ m_dir u ∈ dirs us /\ (m_path u ∉ map m_path us) /\ (entries_in us (m_dir u) < 32)%nat.
Fixpoint archive_ok (us ms : list member) : Prop :=
  match ms with
  | [] => True
  | u :: ms => member_fits us u /\ archive_ok (us ++ [u]) ms
  end.

(** ** Paths *)

Lemma path_of_app ts t : path_of (ts ++ [t]) = path_of ts ++ 47 :: t.
Proof. unfold path_of. rewrite fmap_app, concat_app. simpl. by rewrite app_nil_r. Qed.

Lemma path_of_head ts : ts <> [] -> head (path_of ts) = Some 47.
Proof. by destruct ts. Qed.

Lemma component_token t : component_ok t -> tokens t = [t].
Proof.
  intros (Hn & Hs & _ & Hl). rewrite tokens_plain by done. rewrite decide_False by set_solver. by rewrite take_ge by lia.
Qed.

Lemma path_of_tokens ts : Forall component_ok ts -> tokens (path_of ts) = ts.
Proof.
  induction ts as [|t ts IH] using rev_ind; [done|]. intros [Hts Ht]%Forall_app. apply Forall_cons in Ht as [Ht _].
  by rewrite path_of_app, tokens_app, IH, component_token.
Qed.

Lemma strrchr_none l : 47 ∉ l -> strrchr l 47 = None.
Proof.
  induction l as [|c l IH]; intros Hn; simpl; [done|]. rewrite IH by set_solver.
  by rewrite (proj2 (Z.eqb_neq c 47)) by set_solver.
Qed.

Lemma strrchr_last a b : 47 ∉ b -> strrchr (a ++ 47 :: b) 47 = Some (a, b).
Proof. intros Hb. induction a as [|c a IH]; simpl; [by rewrite strrchr_none|by rewrite IH]. Qed.

(** A member's path splits into its directory and its name. *)
Lemma split_member_path u max :
  Forall component_ok (m_path u) -> (length (path_of (m_path u)) < 256)%nat -> 32 <= max ->
  exists dir, vfs_split_path (Some (path_of (m_path u))) 256 max = Some (dir, m_name u) /\ tokens dir = m_dir u.
Proof.
  unfold m_path. intros Hc Hl Hmax. apply Forall_app in Hc as [Hd [(Hn & Hs & _ & Hlt) _]%Forall_cons].
  rewrite path_of_app in *. rewrite length_app in Hl. simpl in Hl. unfold vfs_split_path.
  assert (head (path_of (m_dir u) ++ 47 :: m_name u) = Some 47) as -> by (by destruct (m_dir u)).
  rewrite bool_decide_true by done. simpl. rewrite strrchr_last by done. rewrite bool_decide_false by set_solver.
  assert (0 < Z.of_nat (length (m_name u))) by (destruct (m_name u); [set_solver|simpl; lia]).
  rewrite (proj2 (Z.eqb_neq (Z.of_nat (length (m_name u))) 0)) by lia.
  rewrite (proj2 (orb_false_iff _ _)).
  2: { rewrite !Z.geb_leb, !Z.leb_gt. destruct (Z.eqb_spec (Z.of_nat (length (path_of (m_dir u)))) 0); lia. }
  eexists. split; [reflexivity|]. case_bool_decide as Hb; [|by apply path_of_tokens].
  rewrite <-(path_of_tokens (m_dir u)), Hb by done. done.
Qed.

(** ** Fields of a header *)

Lemma prefix_cstr n t l : (length t < n)%nat -> 0 ∉ t -> (t ++ [0]) `prefix_of` l -> cstr n l = Ok t.
Proof.
  intros Hn H0 [r ->]. revert n Hn. induction t as [|c t IH]; intros [|n] Hn; simpl in *; try lia; [done|].
  rewrite (proj2 (Z.eqb_neq c 0)) by set_solver. rewrite IH by (set_solver || lia). done.
Qed.

Lemma octal_fold_lower ds a : Forall octal_digit ds -> 0 <= a -> a <= fold_left (fun n c => n * 8 + (c - 48)) ds a.
Proof.
  revert a. induction ds as [|d ds IH]; intros a Hd Ha; simpl; [lia|]. apply Forall_cons in Hd as [[? ?] Hd].
  etransitivity; [|apply IH; [done|lia]]. lia.
Qed.

Lemma octal_field ds c rest n a :
  Forall octal_digit ds -> c = 0 \/ c = 32 -> (length ds < n)%nat -> 0 <= a ->
  fold_left (fun n c => n * 8 + (c - 48)) ds a < 2 ^ 32 ->
  octal_to_int (ds ++ c :: rest) n a = Ok (fold_left (fun n c => n * 8 + (c - 48)) ds a).
Proof.
  revert n a. induction ds as [|d ds IH]; intros [|n] a Hd Hc Hl Ha Hv; simpl in *; try lia.
  - by destruct Hc as [-> | ->].
  - apply Forall_cons in Hd as [[? ?] Hd].
    assert ((d =? 0) || (d =? 32) || (d <? 48) || (d >? 55) = false) as ->.
    { rewrite !orb_false_iff, !Z.eqb_neq, Z.gtb_ltb, !Z.ltb_ge. lia. }
    pose proof (octal_fold_lower ds (a * 8 + (d - 48)) Hd ltac:(lia)).
    unfold u32. rewrite Z.mod_small by lia. apply IH; try done; lia.
Qed.

Lemma drop_prefix {B} (n : nat) (a b : list B) : (n <= length a)%nat -> drop n (a ++ b) = drop n a ++ b.
Proof. intros. by rewrite drop_app_le. Qed.

(** ** What the loader keeps *)

(** From [m] to [m'] nothing of the tree changed but the bytes of [x]. *)
Record keeps_tree (m m' : gmap Z obj) (root x : Z) : Prop := {
  kt_reach d : reach m' root d <-> reach m root d;
  kt_child d name : reach m root d -> child m' d name = child m d name;
  kt_parent d : reach m root d -> parent m' d = parent m d;
  kt_dir d : reach m root d -> dir_b m' d = dir_b m d;
  kt_children d : reach m root d -> dir_children m' d = dir_children m d;
  kt_bytes d : reach m root d -> d <> x -> file_bytes m' d = file_bytes m d
}.

Lemma keeps_tree_trans m1 m2 m3 root x : keeps_tree m1 m2 root x -> keeps_tree m2 m3 root x -> keeps_tree m1 m3 root x.
Proof.
  intros [R1 C1 P1 D1 L1 B1] [R2 C2 P2 D2 L2 B2]. split; intros; try (rewrite R2; apply R1);
    first [rewrite C2|rewrite P2|rewrite D2|rewrite L2|rewrite B2]; auto; by apply R1.
Qed.

Lemma keeps_tree_mono m m' root x : tree_ok m root -> m ⊆ m' -> m' !! 0 = None -> keeps_tree m m' root x.
Proof.
  intros Ht Hs H0. destruct (same_tree_mono m m' root Ht Hs H0) as [Hr Hv]. split; try done.
  - intros d name Hd. by apply Hv.
  - intros d Hd. by apply Hv.
  - intros d Hd. unfold dir_b. by rewrite (node_inode_mono m m' Hs) by (by apply Ht).
  - intros d Hd. apply (dir_children_mono m m' Hs). by apply Ht.
  - intros d Hd _. by apply Hv.
Qed.

Lemma keeps_tree_walk m m' root x ts : tree_ok m root -> keeps_tree m m' root x ->
  forall d, reach m root d -> walk m' d ts = walk m d ts.
Proof.
  intros Ht [R C P _ _ _]. induction ts as [|t ts IH]; intros d Hd; simpl; [done|]. rewrite P, C by done.
  destruct (bool_decide (t = [46])); [by apply IH|]. destruct (bool_decide (t = [46; 46])); [by apply IH, reach_parent|].
  destruct (child m d t) as [c|] eqn:Hc; [|done]. apply IH. by eapply child_reach.
Qed.

(** An open file is no part of the tree. *)
Section DropFile.
Context (m : gmap Z obj) (root p : Z) (f : file_t).
Hypothesis Hp : m !! p = Some (OFile f).
Hypothesis Ht : tree_ok m root.
Abbreviation m' := (delete p m).

Lemma drop_view {B} (v : obj -> option B) x :
  v (OFile f) = None ->
  match m' !! x with Some o => v o | None => None end = match m !! x with Some o => v o | None => None end.
Proof. intros Hv. destruct (decide (x = p)) as [->|Hne]; [by rewrite lookup_delete_eq, Hp|by rewrite lookup_delete_ne]. Qed.

Lemma drop_dentry x : dentry_at m' x = dentry_at m x.
Proof. unfold dentry_at. by apply (drop_view (fun o => match o with ODentry e => Some e | _ => None end)). Qed.
Lemma drop_inode x : inode_at m' x = inode_at m x.
Proof. unfold inode_at. by apply (drop_view (fun o => match o with OInode e => Some e | _ => None end)). Qed.
Lemma drop_dir x : dir_at m' x = dir_at m x.
Proof. unfold dir_at. by apply (drop_view (fun o => match o with ODir e => Some e | _ => None end)). Qed.
Lemma drop_data x : data_at m' x = data_at m x.
Proof. unfold data_at. by apply (drop_view (fun o => match o with OData e => Some e | _ => None end)). Qed.
Lemma drop_buf x : buf_at m' x = buf_at m x.
Proof. unfold buf_at. by apply (drop_view (fun o => match o with OBuf e => Some e | _ => None end)). Qed.

Lemma drop_node_inode d : node_inode m' d = node_inode m d.
Proof. unfold node_inode. rewrite drop_dentry. destruct (dentry_at m d); [|done]. simpl. apply drop_inode. Qed.
Lemma drop_children d : dir_children m' d = dir_children m d.
Proof. unfold dir_children. rewrite drop_node_inode. destruct (node_inode m d); [|done]. by rewrite drop_dir. Qed.
Lemma drop_reach d : reach m' root d <-> reach m root d.
Proof.
  split; induction 1 as [|a c Ha IH Hc]; try constructor.
  - econstructor; [done|]. by rewrite <-drop_children.
  - econstructor; [done|]. by rewrite drop_children.
Qed.
Lemma drop_bytes d : file_bytes m' d = file_bytes m d.
Proof.
  unfold file_bytes. rewrite drop_node_inode. destruct (node_inode m d) as [ino|]; [|done].
  destruct (is_dir (i_mode ino)); [done|]. rewrite drop_data. destruct (data_at m (i_private ino)); [|done]. by rewrite drop_buf.
Qed.
Lemma drop_child d name : child m' d name = child m d name.
Proof.
  unfold child. rewrite drop_children. induction (dir_children m d) as [|c l IH]; [done|]. simpl.
  assert (named m' name c = named m name c) as -> by (unfold named; by rewrite drop_dentry). by rewrite IH.
Qed.

Lemma drop_keeps x : keeps_tree m m' root x.
Proof.
  split; intros; [apply drop_reach|apply drop_child| | |apply drop_children|apply drop_bytes].
  - unfold parent. by rewrite drop_dentry.
  - unfold dir_b. by rewrite drop_node_inode.
Qed.

Lemma drop_data_ok fd n : data_ok m fd n -> data_ok m' fd n.
Proof. unfold data_ok. by setoid_rewrite drop_buf. Qed.
Lemma drop_owns d x : owns m' d x <-> owns m d x.
Proof. unfold owns. by setoid_rewrite drop_dentry; setoid_rewrite drop_inode; setoid_rewrite drop_data. Qed.
Lemma drop_node d : node_ok m d -> node_ok m' d.
Proof.
  intros (e & ino & He & Hi & Ho & Hf & Hpr). exists e, ino. rewrite drop_dentry, drop_inode. split_and!; try done.
  unfold private_ok in *. destruct (is_dir (i_mode ino)).
  - by rewrite drop_dir.
  - destruct Hpr as (fd & Hfd & Hd). exists fd. rewrite drop_data. split; [done|by apply drop_data_ok].
Qed.
Lemma drop_tree : tree_ok m' root.
Proof.
  destruct Ht as [T1 T2 T3 T4 T5]. split.
  - destruct (decide (0 = p)) as [<-|]; [apply lookup_delete_eq|by rewrite lookup_delete_ne].
  - intros d Hd%drop_reach. by apply drop_node, T2.
  - intros d c Hd%drop_reach. rewrite drop_children, drop_dentry. by apply T3.
  - by rewrite drop_dentry.
  - intros d1 d2 x H1%drop_reach H2%drop_reach ?%drop_owns ?%drop_owns. by apply (T5 _ _ x).
Qed.
End DropFile.

(** ** The file system while the archive is loaded *)

Section Load.
Context {A : Type} `{Allocator A}.
Context (junk : nat -> Z) (console_ops : @file_ops_t A).
Implicit Types (s : fs A).

(** The members [us], and nothing else, are in the file system. *)
Record loaded s (us : list member) : Prop := {
  ld_fs : fs_ok s;
  ld_dir ts : ts ∈ dirs us -> exists d, walk (objs s) (root_dentry s) ts = Some d /\ dir_b (objs s) d = true /\
    length (dir_children (objs s) d) = entries_in us ts /\
    forall name, child (objs s) d name <> None -> ts ++ [name] ∈ map m_path us;
  ld_distinct ts ts' d : ts ∈ dirs us -> ts' ∈ dirs us ->
    walk (objs s) (root_dentry s) ts = Some d -> walk (objs s) (root_dentry s) ts' = Some d -> ts = ts';
  ld_closed u : u ∈ us -> m_dir u ∈ dirs us;
  ld_file u data : u ∈ us -> m_data u = Some data -> exists d,
    walk (objs s) (root_dentry s) (m_path u) = Some d /\ file_bytes (objs s) d = Some data
}.

Lemma dirs_snoc us u ts : ts ∈ dirs (us ++ [u]) <-> ts ∈ dirs us \/ (m_data u = None /\ ts = m_path u).
Proof.
  unfold dirs. rewrite filter_app, map_app. rewrite !elem_of_cons, elem_of_app.
  assert (ts ∈ map m_path (filter (fun u => m_data u = None) [u]) <-> m_data u = None /\ ts = m_path u) as ->; [|tauto].
  rewrite filter_cons. destruct (decide (m_data u = None)); simpl; rewrite ?elem_of_cons, ?elem_of_nil; tauto.
Qed.

Lemma entries_snoc us u ts : entries_in (us ++ [u]) ts = (entries_in us ts + (if decide (m_dir u = ts) then 1 else 0))%nat.
Proof.
  unfold entries_in. rewrite filter_app, length_app, filter_cons. by destruct (decide (m_dir u = ts)).
Qed.

(** Nothing is in a directory that is not there yet. *)
Lemma entries_new us ts : (forall u, u ∈ us -> m_dir u <> ts) -> entries_in us ts = 0%nat.
Proof.
  intros Hn. unfold entries_in. induction us as [|u us IH]; [done|]. rewrite filter_cons, decide_False by (apply Hn; set_solver).
  apply IH. set_solver.
Qed.

Lemma dirs_path us ts : ts ∈ dirs us -> ts = [] \/ ts ∈ map m_path us.
Proof.
  unfold dirs. rewrite elem_of_cons. intros [->|(u & -> & [_ Hu]%list_elem_of_filter)%list_elem_of_fmap]; [by left|right].
  by apply list_elem_of_fmap_2.
Qed.

(** A member has been added at [n] and, if it is a file, its bytes stored. *)
Lemma loaded_add s s' us u m1 p n mode :
  loaded s us -> member_fits us u -> walk (objs s) (root_dentry s) (m_dir u) = Some p ->
  added (objs s) m1 (root_dentry s) p (m_name u) n mode -> walk m1 (root_dentry s) (m_path u) = Some n ->
  is_dir mode = bool_decide (m_data u = None) ->
  fs_ok s' -> root_dentry s' = root_dentry s -> keeps_tree m1 (objs s') (root_dentry s) n ->
  (forall data, m_data u = Some data -> file_bytes (objs s') n = Some data) -> loaded s' (us ++ [u]).
Proof.
  intros [L1 L2 L3 L4 L5] (Hc & Hd & Hnew & _) Hp Ha Hw Hmode Hok Hroot K Hdata. pose proof (proj2 L1) as Ht.
  pose proof (ad_tree _ _ _ _ _ _ _ Ha) as Ht1. set (root := root_dentry s) in *.
  assert (forall ts, walk (objs s') root ts = walk m1 root ts) as Wk.
  { intros ts. apply (keeps_tree_walk _ _ _ _ _ Ht1 K). constructor. }
  assert (forall ts d, walk (objs s) root ts = Some d -> reach (objs s) root d /\ reach m1 root d /\ d <> n /\ walk (objs s') root ts = Some d) as Old.
  { intros ts d Hts. pose proof (walk_reach _ _ _ _ _ Ht (reach_root _ _) Hts) as Hr. split; [done|].
    split; [by apply (ad_reach _ _ _ _ _ _ _ Ha); left|]. split; [intros ->; by apply (ad_new _ _ _ _ _ _ _ Ha)|].
    rewrite Wk. by apply (walk_added _ _ _ _ _ _ _ _ _ _ Ht Ha (reach_root _ _)). }
  assert (reach m1 root n) as Hrn by (apply (ad_reach _ _ _ _ _ _ _ Ha); by right).
  assert (m_path u <> []) as Hnil by (unfold m_path; by destruct (m_dir u)).
  assert (m_path u ∉ dirs us) as Hnd by (by intros [?|?]%dirs_path).
  assert (dir_b (objs s') n = bool_decide (m_data u = None)) as Hdn.
  { rewrite (kt_dir _ _ _ _ K) by done. rewrite <-Hmode. unfold dir_b. pose proof (ad_mode _ _ _ _ _ _ _ Ha) as Hm.
    destruct (node_inode m1 n); simpl in Hm; by simplify_eq. }
  constructor; try rewrite Hroot; [done|..].
  - intros ts. rewrite dirs_snoc. intros [Hts|[Hdir ->]].
    + destruct (L2 ts Hts) as (d & W & D & E & C). destruct (Old ts d W) as (Hr & Hr1 & Hne & W'). exists d.
      split; [done|]. rewrite (kt_dir _ _ _ _ K), (ad_dir _ _ _ _ _ _ _ Ha) by done. split; [done|].
      rewrite (kt_children _ _ _ _ K), (ad_children _ _ _ _ _ _ _ Ha), length_app, E, entries_snoc by done. split.
      * f_equal. destruct (decide (d = p)) as [->|Hdp]; destruct (decide (m_dir u = ts)) as [<-|Hm]; try done.
        -- destruct Hm. by apply (L3 _ _ p).
        -- congruence.
      * intros name Hch. rewrite map_app, elem_of_app.
        rewrite (kt_child _ _ _ _ K), (ad_child _ _ _ _ _ _ _ Ha) in Hch by done. case_bool_decide as Hx; [|left; by apply C].
        destruct Hx as (-> & -> & _). right. simpl. apply list_elem_of_singleton. unfold m_path. f_equal. by apply (L3 _ _ p).
    + exists n. rewrite Wk. split; [done|]. rewrite Hdn, bool_decide_true by done. split; [done|].
      rewrite (kt_children _ _ _ _ K), (ad_none _ _ _ _ _ _ _ Ha), entries_snoc by done. split.
      * rewrite entries_new by (intros v Hv Hx; apply Hnd; rewrite <-Hx; by apply L4). rewrite decide_False; [done|].
        intros Hx. apply Hnd. by rewrite Hx in Hd.
      * intros name Hch. rewrite (kt_child _ _ _ _ K), (ad_empty _ _ _ _ _ _ _ Ha) in Hch by done. done.
  - assert (forall ts d, ts ∈ dirs us -> walk (objs s') root ts = Some d -> walk (objs s) root ts = Some d) as Back.
    { intros ts d Hts W. destruct (L2 ts Hts) as (d' & W' & _). destruct (Old ts d' W') as (_ & _ & _ & ?). congruence. }
    assert (forall ts, ts ∈ dirs us -> walk (objs s') root ts <> Some n) as Hnn.
    { intros ts Hts W. destruct (Old ts n (Back _ _ Hts W)) as (_ & _ & ? & _). done. }
    assert (walk (objs s') root (m_path u) = Some n) as Wn by (by rewrite Wk).
    intros ts ts' d. rewrite !dirs_snoc. intros [H1|[_ ->]] [H2|[_ ->]] W1 W2; try done.
    + apply (L3 _ _ d); auto.
    + destruct (Hnn ts H1). congruence.
    + destruct (Hnn ts' H2). congruence.
  - intros v. rewrite elem_of_app, list_elem_of_singleton, dirs_snoc. intros [Hv| ->]; left; auto.
  - intros v data. rewrite elem_of_app, list_elem_of_singleton. intros [Hv| ->] Hd'.
    + destruct (L5 v data Hv Hd') as (d & W & B). destruct (Old _ d W) as (Hr & Hr1 & Hne & W'). exists d. split; [done|].
      by rewrite (kt_bytes _ _ _ _ K), (ad_bytes _ _ _ _ _ _ _ Ha).
    + exists n. rewrite Wk. auto.
Qed.

Lemma header_path u :
  47 :: header_name u = path_of (m_path u) ++ (match m_data u with None => [47] | Some _ => [] end).
Proof.
  unfold header_name. assert (head (path_of (m_path u)) = Some 47) as Hh.
  { apply path_of_head. unfold m_path. by destruct (m_dir u). }
  destruct (path_of (m_path u)) as [|c l]; simplify_eq/=. done.
Qed.

Lemma header_no_zero u : Forall component_ok (m_path u) -> 0 ∉ header_name u.
Proof.
  intros Hc Hin. assert (0 ∈ 47 :: header_name u) as H0 by (by right). rewrite header_path in H0.
  apply elem_of_app in H0 as [H0|H0]; [|destruct (m_data u); set_solver].
  unfold path_of in H0. apply list_elem_of_In, in_concat in H0 as (t & Ht & H0). apply list_elem_of_In in Ht, H0.
  apply list_elem_of_fmap in Ht as (t' & -> & Ht'). rewrite Forall_forall in Hc. destruct (Hc t' Ht') as (_ & _ & Hz & _).
  set_solver.
Qed.

(** What adding the member's entry does, with either operation. *)
Lemma member_added s us u check kind max mode s' r :
  loaded s us -> member_fits us u -> (length (path_of (m_path u)) < 256)%nat -> 32 <= max ->
  add_result check kind max mode (path_of (m_path u)) s r s' ->
  fs_ok s' /\ root_dentry s' = root_dentry s /\ exists p n,
    walk (objs s) (root_dentry s) (m_dir u) = Some p /\
    added (objs s) (objs s') (root_dentry s) p (m_name u) n (Z.lor kind mode) /\
    walk (objs s') (root_dentry s) (m_path u) = Some n.
Proof.
  intros Hld (Hc & Hd & Hnew & Hroom) Hlen Hmax (Hok & Hroot & Hadd). split; [done|]. split; [done|].
  destruct (split_member_path u max Hc Hlen Hmax) as (dir & Hsp & Htok). rewrite Hsp, Htok in Hadd.
  destruct (ld_dir _ _ Hld _ Hd) as (p & Hw & Hb & Hn & Hch). rewrite Hw, Hb in Hadd. cbn [negb] in Hadd.
  rewrite (path_of_tokens (m_path u)) in Hadd by done.
  apply Forall_app in Hc as [_ [(Hs1 & Hs2 & _ & Hs4) _]%Forall_cons].
  rewrite (take_ge (m_name u)) in Hadd by done. assert (child (objs s) p (m_name u) = None) as Hnone.
  { destruct (child (objs s) p (m_name u)) eqn:E; [|done]. destruct Hnew. apply Hch. by rewrite E. }
  rewrite (bool_decide_false (is_Some _)), andb_false_r in Hadd by (rewrite Hnone; by intros []).
  rewrite (proj2 (Nat.leb_gt _ _)) in Hadd by (rewrite Hn; done). destruct Hadd as (_ & n & Ha & Hwn).
  exists p, n. split; [done|]. split; [done|]. by apply Hwn.
Qed.

(** The entry of a file gets its bytes through an open file, which is closed again. *)
Lemma fill_member s n data more :
  fs_ok s -> reach (objs s) (root_dentry s) n -> file_bytes (objs s) n = Some [] -> Z.of_nat (length data) < 2 ^ 32 ->
  forall filp s1, filp <> 0 -> objs s !! filp = None ->
  store_step s s1 (<[filp := OFile (mk_file (junk 0%nat) n 0 (Some RamfsFops) (junk 1%nat))]> (objs s)) ->
  match ('(_, _, s) ← ramfs_write junk filp (data ++ more) (Z.of_nat (length data)) 0 s1;
         f ← deref (file_at (objs s) filp);
         d ← deref (dentry_at (objs s) (f_dentry f));
         i ← deref (inode_at (objs s) (d_inode d));
         let s := set_obj s (d_inode d) (OInode (mk_inode (i_ino i) (i_mode i) (Z.of_nat (length data)) (i_op i) (i_fop i)
                                                   (i_private i))) in
         free_obj filp s) with
  | Ok s' => fs_ok s' /\ root_dentry s' = root_dentry s /\ keeps_tree (objs s) (objs s') (root_dentry s) n /\
      file_bytes (objs s') n = Some data
  | Halt => True
  | _ => False
  end.
Proof.
  intros Hok Hr Hb Hl filp s1 Hf0 Hf Hst. pose proof Hst as (Hs1 & Hm1 & Hr1). pose proof Hok as [_ Ht].
  assert (objs s ⊆ objs s1) as Hsub by (rewrite Hm1; by apply insert_subseteq).
  assert (objs s1 !! 0 = None) as H01 by (rewrite Hm1, lookup_insert_ne by done; apply Ht).
  destruct (grown_fs_ok s s1) as (Hok1 & _ & _); try done.
  pose proof (keeps_tree_mono (objs s) (objs s1) (root_dentry s) n Ht Hsub H01) as K1.
  assert (reach (objs s1) (root_dentry s1) n) as Hrn by (rewrite Hr1; by apply K1).
  assert (file_bytes (objs s1) n = Some []) as Hb1 by (rewrite <-Hb; apply file_bytes_mono; try done; by apply Ht).
  assert (file_at (objs s1) filp = Some (mk_file (junk 0%nat) n 0 (Some RamfsFops) (junk 1%nat))) as Hfile.
  { unfold file_at. by rewrite Hm1, lookup_insert_eq. }
  pose proof (ramfs_write_ok junk s1 filp _ 0 _ _ n [] (data ++ more) (Z.of_nat (length data)) 0 Hok1 Hfile Hrn Hb1
    ltac:(simpl; lia) ltac:(rewrite length_app; lia) ltac:(lia)) as Hwr.
  destruct (ramfs_write _ _ _ _ _ _) as [[[r o] s2]| | |]; mred; try done. destruct Hwr as (_ & _ & [W1 W2 W3 W4 W5 W6 W7 W8]).
  rewrite Nat2Z.id, take_app_length, drop_nil, app_nil_r, take_nil, app_nil_l in W3.
  rewrite (W6 _ _ Hfile). mred. cbn [f_dentry]. pose proof W1 as [Hs2 Ht2]. rewrite W2 in Ht2.
  assert (reach (objs s2) (root_dentry s1) n) as Hrn2 by (by apply W4).
  destruct (node_is_file _ _ _ _ Ht2 Hrn2 W3) as (i & ino & fd & Hfl & _ & Hsz).
  pose proof Hfl as [(e & He & Hei) Hi _ _ _ _ _]. rewrite He. mred. rewrite Hei, Hi. mred.
  assert (set_obj s2 i (OInode (mk_inode (i_ino ino) (i_mode ino) (Z.of_nat (length data)) (i_op ino) (i_fop ino) (i_private ino))) = s2) as ->.
  { rewrite Hsz. unfold set_obj. apply inode_some in Hi. destruct s2. simpl in *. f_equal. apply insert_id. rewrite Hi. by destruct ino. }
  assert (objs s2 !! filp = Some (OFile (mk_file (junk 0%nat) n 0 (Some RamfsFops) (junk 1%nat)))) as Hfo.
  { pose proof (W6 _ _ Hfile) as Hx. unfold file_at in Hx. by repeat case_match; simplify_eq. }
  destruct (free_obj_ok filp s2 Hs2 ltac:(by rewrite Hfo)) as (s3 & -> & (Hs3 & Hm3 & Hr3) & _).
  assert (keeps_tree (objs s1) (objs s2) (root_dentry s) n) as K2.
  { rewrite Hr1 in *. split; try done; intros; try (by apply W5); by apply W5. }
  pose proof (drop_keeps (objs s2) (root_dentry s) filp _ Hfo n) as K3. rewrite Hr1 in *.
  split; [|split; [congruence|split]].
  - split; [done|]. rewrite Hm3, Hr3, W2. by apply (drop_tree _ _ _ _ Hfo).
  - rewrite Hm3. by apply (keeps_tree_trans _ (objs s1)), (keeps_tree_trans _ (objs s2)).
  - rewrite Hm3. by rewrite (drop_bytes _ _ _ Hfo).
Qed.

Lemma load_member_ok s us u hdr more :
  loaded s us -> member_fits us u -> header_ok hdr u -> Z.of_nat (length (default [] (m_data u))) < 2 ^ 32 ->
  match load_member junk console_ops (hdr ++ default [] (m_data u) ++ more) (Z.of_nat (length (default [] (m_data u)))) s with
  | Ok s' => loaded s' (us ++ [u])
  | Halt => True
  | _ => False
  end.
Proof.
  intros Hld Hfit [H1 H2 H3 _ (c & Hc & Hkind) _] Hsz. pose proof Hfit as (Hcomp & _). unfold load_member.
  rewrite (prefix_cstr 254 (header_name u)); [|lia|by apply header_no_zero|by apply prefix_app_r]. mred.
  rewrite lookup_app_l, Hc by lia. mred. pose proof (header_path u) as Hpath. rewrite Hpath.
  assert (length (path_of (m_path u)) < 256)%nat as Hlen.
  { apply (f_equal length) in Hpath. rewrite length_app in Hpath. simpl in Hpath. lia. }
  pose proof (ld_fs _ _ Hld) as Hok. destruct (m_data u) as [data|] eqn:Hdata; cbn [default] in *.
  - rewrite app_nil_r. rewrite (proj2 (Z.eqb_neq c TAR_TYPE_DIR)) by (destruct Hkind as [-> | ->]; done).
    assert ((c =? TAR_TYPE_NORMAL) || (c =? 0) = true) as -> by (by destruct Hkind as [-> | ->]).
    pose proof (vfs_create_ok (path_of (m_path u)) 420 s Hok) as Hcr.
    destruct (vfs_create (Some (path_of (m_path u))) 420 s) as [[r s1]| | |]; mred; try done.
    destruct (member_added s us u false S_IFREG 32 420 s1 r Hld Hfit Hlen ltac:(done) Hcr) as (Hok1 & Hr1 & p & n & Hp & Ha & Hw).
    assert (head (path_of (m_path u)) = Some 47) as Hh by (apply path_of_head; unfold m_path; by destruct (m_dir u)).
    pose proof (ad_contents _ _ _ _ _ _ _ Ha) as Hb. cbn in Hb.
    pose proof (vfs_open_new junk console_ops (path_of (m_path u)) 0 s1 n [] Hok1 Hh) as Ho.
    rewrite (path_of_tokens (m_path u)), Hr1 in Ho by done. specialize (Ho Hw Hb).
    destruct (vfs_open junk console_ops _ 0 s1) as [[filp s2]| | |]; mred; try done. destruct Ho as (Hf0 & Hfr & Hst).
    rewrite (proj2 (Z.eqb_neq _ _) Hf0). pose proof Hst as (_ & Hm2 & _).
    assert (file_at (objs s2) filp = Some (mk_file (junk 0%nat) n 0 (Some RamfsFops) (junk 1%nat))) as Hfile
      by (unfold file_at; by rewrite Hm2, lookup_insert_eq).
    rewrite Hfile. cbn [f_ops deref mbind outcome_bind fops write ramfs_fops id].
    replace (drop 512 (hdr ++ data ++ more)) with (data ++ more) by (by rewrite drop_app_length').
    pose proof (fill_member s1 n data more Hok1) as Hfill. rewrite Hr1 in Hfill.
    specialize (Hfill ltac:(apply (ad_reach _ _ _ _ _ _ _ Ha); by right) Hb Hsz filp s2 Hf0 Hfr Hst).
    match goal with |- match ?x with _ => _ end => destruct x as [s3| | |] end; try done.
    destruct Hfill as (Hok3 & Hr3 & K & Hd3). apply (loaded_add s s3 us u (objs s1) p n (Z.lor S_IFREG 420)); try done.
    + by rewrite Hdata, bool_decide_false.
    + intros data' Hd'. rewrite Hdata in Hd'. by simplify_eq.
  - rewrite Hkind. cbn [Z.eqb TAR_TYPE_DIR Pos.eqb].
    set (path := path_of (m_path u)) in *. rewrite last_snoc, bool_decide_true, andb_true_r by done.
    assert (0 < length path)%nat as Hpos by (unfold path, m_path; rewrite path_of_app, length_app; simpl; lia).
    rewrite length_app. cbn [length]. rewrite (proj2 (Nat.ltb_lt _ _)) by lia.
    rewrite Nat.add_sub, take_app_length.
    pose proof (vfs_mkdir_ok path 509 s Hok) as Hmk.
    destruct (vfs_mkdir (Some path) 509 s) as [[r s1]| | |]; mred; try done.
    destruct (member_added s us u true S_IFDIR 64 509 s1 r Hld Hfit Hlen ltac:(done) Hmk) as (Hok1 & Hr1 & p & n & Hp & Ha & Hw).
    apply (loaded_add s s1 us u (objs s1) p n (Z.lor S_IFDIR 509)); try done.
    + by rewrite Hdata, bool_decide_true.
    + intros data' Hd'. by rewrite Hdata in Hd'.
Qed.

(** One round per member, from [offset] on. *)
Lemma tar_loop_ok fuel : forall tar offset us ms s,
  tar_of (drop offset tar) ms -> archive_ok us ms -> loaded s us -> (offset <= length tar)%nat ->
  Z.of_nat (length tar) < 2 ^ 62 -> (length tar - offset < fuel * 512)%nat ->
  match tar_loop junk console_ops fuel tar (Z.of_nat (length tar)) (Z.of_nat offset) s with
  | Ok s' => loaded s' (us ++ ms)
  | Halt => True
  | _ => False
  end.
Proof.
  induction fuel as [|fuel IH]; intros tar offset us ms s Htar Hok Hld Hoff Hmax Hf; [lia|]. cbn [tar_loop].
  rewrite u64_small by (unfold fits_u64; lia). assert (length (drop offset tar) = (length tar - offset)%nat) as Hdl by apply length_drop.
  inversion Htar as [l Hl|hdr pad rest u ms' Hh Hsz Hpad Hrest]; subst.
  { rewrite app_nil_r. destruct (Z.leb_spec (Z.of_nat offset + 512) (Z.of_nat (length tar))); [|done].
    rewrite Nat2Z.id. destruct Hl as [Hl|Hl]; [lia|]. rewrite Hl. done. }
  destruct Hok as [Hfit Hok]. set (n := length (default [] (m_data u))) in *.
  assert (length tar - offset = 512 + n + length pad + length rest)%nat as Hlen.
  { rewrite <-Hdl. match goal with H : _ = drop offset tar |- _ => rewrite <-H end.
    rewrite !length_app, (hd_length _ _ Hh). fold n. lia. }
  destruct (Z.leb_spec (Z.of_nat offset + 512) (Z.of_nat (length tar))); [|lia]. rewrite Nat2Z.id.
  match goal with H : _ = drop offset tar |- _ => rename H into Hdrop end. rewrite <-Hdrop.
  pose proof Hh as [Hl512 [hr Hr] Hl100 (ds & c & dr & Hds & Hc & Hdl' & Hdig & Hval) _ Hmagic].
  assert (exists c0 t, header_name u = c0 :: t /\ c0 <> 0) as (c0 & t & Hnm & Hc0).
  { pose proof (header_no_zero u (proj1 Hfit)) as Hz. destruct (header_name u) as [|c0 t] eqn:E; [|set_solver].
    exfalso. pose proof (header_path u) as Hp. rewrite E in Hp. unfold m_path in Hp. rewrite path_of_app in Hp.
    destruct Hfit as [[_ [(Hn & _) _]%Forall_cons]%Forall_app _]. apply (f_equal length) in Hp.
    rewrite !length_app in Hp. simpl in Hp. destruct (m_name u); [set_solver|simpl in Hp; lia]. }
  assert (forall x, head (hdr ++ x) = Some c0) as Hhead by (intros x; by rewrite Hr, Hnm).
  rewrite Hhead. cbn [deref mbind outcome_bind]. rewrite (proj2 (Z.eqb_neq c0 0) Hc0).
  rewrite drop_prefix by lia. rewrite take_app_le by (rewrite length_drop; lia). rewrite Hmagic, bool_decide_true by done. cbn [negb].
  rewrite (drop_prefix 124), Hds by lia. rewrite <-app_assoc. cbn [app].
  rewrite octal_field; try done; [|lia|unfold octal_value in Hval; rewrite Hval; fold n; lia]. mred.
  fold (octal_value ds). rewrite Hval. fold n.
  pose proof (load_member_ok s us u hdr (pad ++ rest) Hld Hfit Hh Hsz) as Hm. fold n in Hm.
  destruct (load_member junk console_ops _ _ s) as [s1| | |]; mred; try done.
  assert (Z.land (u64 (Z.of_nat n + 511)) (u64 (Z.lnot 511)) = (Z.of_nat n + 511) / 512 * 512) as ->.
  { rewrite (u64_small (Z.of_nat n + 511)) by (unfold fits_u64; lia). apply (land_align_down _ 9); [unfold fits_u64; lia|lia]. }
  assert ((Z.of_nat n + 511) / 512 * 512 = Z.of_nat (n + length pad)) as -> by (rewrite Nat2Z.inj_add, Hpad; zdiv).
  rewrite (u64_small (Z.of_nat offset + _)) by (unfold fits_u64; lia).
  replace (Z.of_nat offset + (512 + Z.of_nat (n + length pad))) with (Z.of_nat (offset + (512 + n + length pad))) by lia.
  replace (us ++ u :: ms') with ((us ++ [u]) ++ ms') by (by rewrite <-app_assoc).
  apply IH; try done; [|lia|lia].
  rewrite <-drop_drop, <-Hdrop. replace (drop _ _) with rest; [done|].
  rewrite !app_assoc, drop_app_length'; [done|]. rewrite !length_app. fold n. lia.
Qed.
End Load.

Lemma vfs_init_ok {A} `{Allocator A} junk con (s : fs A) tar more ms :
  store_ok s -> objs s !! 0 = None -> tar_of tar ms -> archive_ok [] ms -> Z.of_nat (length tar) < 2 ^ 62 ->
  match vfs_init junk con (Some (tar :: more)) s with
  | Ok s' => loaded s' ms
  | Halt => True
  | _ => False
  end.
Proof.
  intros Hs H0 Htar Hms Hlen. unfold vfs_init. pose proof (ramfs_init_ok s Hs H0) as Hi.
  destruct (ramfs_init s) as [s1| | |]; mred; try done. destruct Hi as (Hok & Hreach & Hch & Hdir).
  assert (loaded s1 []) as Hld.
  { constructor; try done.
    - intros ts ->%list_elem_of_singleton. exists (root_dentry s1). split; [done|]. split; [done|]. rewrite Hch.
      split; [done|]. intros name. unfold child. by rewrite Hch.
    - intros ts ts' d ->%list_elem_of_singleton ->%list_elem_of_singleton. done.
    - intros u Hu. by apply elem_of_nil in Hu.
    - intros u data Hu. by apply elem_of_nil in Hu. }
  unfold ramfs_from_tar. change 0 with (Z.of_nat 0).
  apply (tar_loop_ok junk con _ tar 0 [] ms s1); try done; [lia|]. rewrite Nat.sub_0_r.
  pose proof (Z.div_mod (Z.of_nat (length tar)) 512 ltac:(lia)). pose proof (Z.mod_pos_bound (Z.of_nat (length tar)) 512 ltac:(lia)).
  lia.
Qed.

(** ** Theorem *)

(** C6: the boot archive becomes the file system: [vfs_init] on an archive in the
    ustar format, in which every directory comes before what is in it, every path
    comes once and no directory has more than 32 entries, stops for want of memory
    or returns with a well-formed tree in which every directory of the archive is a
    directory, every file is found at its path and holds exactly its bytes, and a
    directory has no name that the archive does not give it. *)
Theorem vfs_init_loads {A} `{Allocator A} junk con (s : fs A) tar more ms :
  store_ok s -> objs s !! 0 = None -> tar_of tar ms -> archive_ok [] ms -> Z.of_nat (length tar) < 2 ^ 62 ->
  match vfs_init junk con (Some (tar :: more)) s with
  | Ok s' => fs_ok s' /\
      (forall u data, u ∈ ms -> m_data u = Some data -> exists d,
         walk (objs s') (root_dentry s') (m_path u) = Some d /\ file_bytes (objs s') d = Some data) /\
      (forall ts, ts ∈ dirs ms -> exists d, walk (objs s') (root_dentry s') ts = Some d /\ dir_b (objs s') d = true /\
         forall name, child (objs s') d name <> None -> ts ++ [name] ∈ map m_path ms)
  | Halt => True
  | _ => False
  end.
Proof.
  intros Hs H0 Htar Hms Hlen. pose proof (vfs_init_ok junk con s tar more ms Hs H0 Htar Hms Hlen) as Hi.
  destruct (vfs_init junk con _ s) as [s'| | |]; try done. destruct Hi as [L1 L2 _ _ L5].
  split; [done|]. split; [done|]. intros ts Hts. destruct (L2 ts Hts) as (d & W & D & _ & C). by exists d.
Qed.

(** *** An archive *)

(** The header an archiver writes: name, modes and owners, size, time, kind, magic. *)
Definition sample_header (name size : list Z) (kind : Z) : list Z :=
  name ++ replicate (124 - length name) 0 ++ size ++ replicate (156 - 124 - length size) 0 ++
  [kind] ++ replicate 100 0 ++ ustar ++ replicate 250 0.

(** [etc/] and [etc/init] with three bytes. *)
Definition etc : list Z := [101; 116; 99].
Definition init_name : list Z := [105; 110; 105; 116].
Definition sample_members : list member := [mk_member [] etc None; mk_member [etc] init_name (Some [7; 8; 9])].
Definition sample_tar : list Z :=
  sample_header (etc ++ [47]) [48; 0] TAR_TYPE_DIR ++ [] ++ [] ++
  sample_header (etc ++ [47] ++ init_name) [48; 51; 0] TAR_TYPE_NORMAL ++ [7; 8; 9] ++ replicate 509 0 ++ replicate 512 0.

Lemma component_ok_dec t :
  bool_decide (t ∉ [[]; [46]; [46; 46]]) && bool_decide (47 ∉ t) && bool_decide (0 ∉ t) && Nat.leb (length t) 31 = true ->
  component_ok t.
Proof. rewrite !andb_true_iff, !bool_decide_eq_true, Nat.leb_le. by intros [[[? ?] ?] ?]. Qed.

(** A header written that way is read as its fields say. *)
Lemma sample_header_ok name ds kind u :
  header_name u = name -> (length name < 100)%nat -> (length ds <= 11)%nat -> Forall octal_digit ds ->
  octal_value ds = Z.of_nat (length (default [] (m_data u))) ->
  match m_data u with None => kind = TAR_TYPE_DIR | Some _ => kind = TAR_TYPE_NORMAL \/ kind = 0 end ->
  header_ok (sample_header name (ds ++ [0]) kind) u.
Proof.
  intros <- Hn Hl Hd Hv Hk. unfold sample_header. set (name := header_name u) in *.
  constructor; fold name; [| |done|..].
  - rewrite !length_app, !length_replicate, ?length_app. simpl. lia.
  - exists (replicate (123 - length name) 0 ++ (ds ++ [0]) ++ replicate (156 - 124 - length (ds ++ [0])) 0 ++ [kind] ++
      replicate 100 0 ++ ustar ++ replicate 250 0).
    replace (124 - length name)%nat with (S (123 - length name)) by lia. by rewrite <-(app_assoc name [0]).
  - rewrite app_assoc, drop_app_length' by (rewrite length_app, length_replicate; lia). exists ds, 0. eexists.
    rewrite <-app_assoc. split; [reflexivity|]. by split; [left|].
  - exists kind. split; [|done]. rewrite (app_assoc name), (app_assoc _ (ds ++ [0])), (app_assoc _ (replicate (156 - _ - _) 0)).
    apply list_lookup_middle. rewrite !length_app, !length_replicate, ?length_app. simpl. lia.
  - rewrite !app_assoc, <-(app_assoc _ ustar), drop_app_length'; [done|]. rewrite !length_app, !length_replicate, ?length_app. simpl. lia.
Qed.

Lemma sample_tar_of : tar_of sample_tar sample_members.
Proof.
  apply (tar_member _ [] _ (mk_member [] etc None)); [|done|done|].
  { apply (sample_header_ok _ [48]); try done; [simpl; lia|simpl; lia|repeat constructor; done]. }
  apply (tar_member _ (replicate 509 0) _ (mk_member [etc] init_name (Some [7; 8; 9]))); [|done|done|by apply tar_end; right].
  apply (sample_header_ok _ [48; 51]); try done; [simpl; lia|simpl; lia|repeat constructor; done|by left].
Qed.

Lemma sample_archive_ok : archive_ok [] sample_members.
Proof.
  assert (component_ok etc /\ component_ok init_name) as [? ?] by (split; by apply component_ok_dec).
  split; [|split; [|done]]; unfold member_fits;
    (split; [repeat (apply List.Forall_cons; [done|]); apply List.Forall_nil|]).
  - split; [by left|]. split; [by apply not_elem_of_nil|]. vm_compute. lia.
  - split; [by right; left|]. split; [|vm_compute; lia]. apply (bool_decide_unpack _). by vm_compute.
Qed.

Lemma vfs_init_loads_witness :
  match vfs_init (fun _ => 0) (mk_file_ops None None None None) (Some [sample_tar]) fs0 with
  | Ok s' => exists d, walk (objs s') (root_dentry s') [etc; init_name] = Some d /\ file_bytes (objs s') d = Some [7; 8; 9]
  | _ => False
  end.
Proof.
  assert (store_ok fs0) as Hs. { split; [apply arena0_inv|]. intros p [x Hx]. simpl in Hx. by rewrite lookup_empty in Hx. }
  pose proof (vfs_init_loads (fun _ => 0) (mk_file_ops None None None None) fs0 sample_tar [] sample_members Hs (lookup_empty _)
    sample_tar_of sample_archive_ok ltac:(vm_compute; reflexivity)) as Hx.
  assert (is_ok (vfs_init (fun _ => 0) (mk_file_ops None None None None) (Some [sample_tar]) fs0) = true) as Hok by (vm_compute; reflexivity).
  destruct (vfs_init _ _ _ fs0) as [s'| | |]; try discriminate Hok. destruct Hx as (_ & Hf & _).
  apply (Hf (mk_member [etc] init_name (Some [7; 8; 9]))); [right; left|reflexivity].
Defined.
