(* ===== verification/Keyboard.v ===== *)
(** * Keyboard driver (src/kernel/drivers/keyboard.c, src/include/drivers/)

    Scan codes become characters in a ring buffer of 256 bytes.  The interrupt
    handler also notifies the console's waiters and yields; these calls go to
    the scheduler and are recorded as events, in order.  What other threads do
    to the keyboard's state during a yield is the parameter [others]. *)

From S2P Require Import Prelude.

Definition KEYBOARD_DATA_PORT : Z := 96.
Definition KEYBOARD_STATUS_PORT : Z := 100.
Definition BACKSPACE : Z := 14.
Definition LSHIFT : Z := 42.
Definition RSHIFT : Z := 54.
Definition LCTRL : Z := 29.
Definition KDB_BUFFER_SIZE : Z := 256.
Definition CANCEL : Z := 24.
Definition CLEAR : Z := 2.

(** Character codes, in rows of sixteen scan codes. *)
Definition normal_scan_code_table : list Z :=
  [0; 0; 49; 50; 51; 52; 53; 54; 55; 56; 57; 48; 45; 61; 0; 0;
   113; 119; 101; 114; 116; 121; 117; 105; 111; 112; 91; 93; 10; 0; 97; 115;
   100; 102; 103; 104; 106; 107; 108; 59; 39; 96; 0; 92; 122; 120; 99; 118;
   98; 110; 109; 44; 46; 47; 0; 0; 0; 32; 0; 0; 0; 0; 0; 0;
   0; 0; 0; 0; 0; 0; 0; 0; 0; 0; 0; 0; 0; 0; 0; 0;
   0; 0; 0; 0; 0; 0; 0; 0; 0; 0; 0; 0; 0; 0; 0; 0;
   0; 0; 0; 0; 0; 0; 0; 0; 0; 0; 0; 0; 0; 0; 0; 0;
   0; 0; 0; 0; 0; 0; 0; 0; 0; 0; 0; 0; 0; 0; 0; 0].
Definition shift_scan_code_table : list Z :=
  [0; 0; 33; 64; 35; 36; 37; 94; 38; 42; 40; 41; 95; 43; 0; 0;
   81; 87; 69; 82; 84; 89; 85; 73; 79; 80; 123; 125; 10; 0; 65; 83;
   68; 70; 71; 72; 74; 75; 76; 58; 34; 126; 0; 124; 90; 88; 67; 86;
   66; 78; 77; 60; 62; 63; 0; 0; 0; 32; 0; 0; 0; 0; 0; 0;
   0; 0; 0; 0; 0; 0; 0; 0; 0; 0; 0; 0; 0; 0; 0; 0;
   0; 0; 0; 0; 0; 0; 0; 0; 0; 0; 0; 0; 0; 0; 0; 0;
   0; 0; 0; 0; 0; 0; 0; 0; 0; 0; 0; 0; 0; 0; 0; 0;
   0; 0; 0; 0; 0; 0; 0; 0; 0; 0; 0; 0; 0; 0; 0; 0].

Inductive event := NotifyConsole | KernelYield.

Record kbd := mk_kbd {
  kdb_queue : list Z;
  kdb_head : Z;
  kdb_tail : Z;
  kdb_queue_occupancy : Z;
  key_pressed : list bool;
  events : list event
}.

Definition with_key (k : kbd) (kp : list bool) : kbd :=
  mk_kbd (kdb_queue k) (kdb_head k) (kdb_tail k) (kdb_queue_occupancy k) kp (events k).
Definition record_event (k : kbd) (e : event) : kbd :=
  mk_kbd (kdb_queue k) (kdb_head k) (kdb_tail k) (kdb_queue_occupancy k) (key_pressed k)
    (events k ++ [e]).

Definition append_to_input_buffer (c : Z) (k : kbd) : outcome kbd :=
  k ← (if kdb_queue_occupancy k <? KDB_BUFFER_SIZE then
         q ← arr_set (kdb_queue k) (kdb_head k) c;
         Ok (mk_kbd q (u32 (kdb_head k + 1) mod KDB_BUFFER_SIZE) (kdb_tail k)
               (u32 (kdb_queue_occupancy k + 1)) (key_pressed k) (events k))
       else Ok k);
  Ok (record_event k NotifyConsole).

Definition keyboard_get_char (k : kbd) : outcome (Z * kbd) :=
  if kdb_queue_occupancy k >? 0 then
    c ← arr_get (kdb_queue k) (kdb_tail k);
    Ok (c, mk_kbd (kdb_queue k) (kdb_head k) (u32 (kdb_tail k + 1) mod KDB_BUFFER_SIZE)
             (u32 (kdb_queue_occupancy k - 1)) (key_pressed k) (events k))
  else Ok (0, k).

Section Handler.
(** What happens to the keyboard's state while the handler is not running. *)
Context (others : kbd -> kbd).

Definition kernel_yield (k : kbd) : kbd := others (record_event k KernelYield).

(** The scan code is the byte read from [KEYBOARD_DATA_PORT]. *)
Definition keyboard_handler_c (code : Z) (k : kbd) : outcome kbd :=
  let pressed := negb (code >=? 128) in
  let scancode := if code >=? 128 then code - 128 else code in
  kp ← arr_set (key_pressed k) scancode pressed;
  let k := with_key k kp in
  if negb pressed then Ok k
  else
    k ← (if scancode =? BACKSPACE then
           k ← append_to_input_buffer 8 k; Ok (kernel_yield k)
         else Ok k);
    ctrl ← arr_get (key_pressed k) LCTRL;
    k ← (if (ctrl : bool) then
           c ← arr_get normal_scan_code_table scancode;
           k ← (if c =? 99 then k ← append_to_input_buffer CANCEL k; Ok (kernel_yield k) else Ok k);
           if c =? 108 then k ← append_to_input_buffer CLEAR k; Ok (kernel_yield k) else Ok k
         else Ok k);
    lsh ← arr_get (key_pressed k) LSHIFT;
    rsh ← (if (lsh : bool) then Ok true else arr_get (key_pressed k) RSHIFT);
    c ← arr_get (if rsh : bool then shift_scan_code_table else normal_scan_code_table) scancode;
    k ← append_to_input_buffer c k;
    Ok (kernel_yield k).
End Handler.

(** ** Specification: a bounded queue of characters *)

(** The characters in the buffer, oldest first. *)
Definition contents (k : kbd) : list Z :=
  (fun i => nth (Z.to_nat ((kdb_tail k + Z.of_nat i) mod KDB_BUFFER_SIZE)) (kdb_queue k) 0)
  <$> seq 0 (Z.to_nat (kdb_queue_occupancy k)).

Record kbd_ok (k : kbd) : Prop := {
  kb_len : Z.of_nat (length (kdb_queue k)) = KDB_BUFFER_SIZE;
  kb_keys : Z.of_nat (length (key_pressed k)) = 128;
  kb_tail : 0 <= kdb_tail k < KDB_BUFFER_SIZE;
  kb_occ : 0 <= kdb_queue_occupancy k <= KDB_BUFFER_SIZE;
  kb_head : kdb_head k = (kdb_tail k + kdb_queue_occupancy k) mod KDB_BUFFER_SIZE
}.

Definition enqueue (q : list Z) (c : Z) : list Z :=
  if decide (Z.of_nat (length q) < KDB_BUFFER_SIZE) then q ++ [c] else q.
Definition dequeue (q : list Z) : Z * list Z :=
  match q with [] => (0, []) | c :: q => (c, q) end.

Inductive kbd_op := OpAppend (c : Z) | OpGet.

Definition kbd_run (op : kbd_op) (k : kbd) : outcome (Z * kbd) :=
  match op with
  | OpAppend c => k ← append_to_input_buffer c k; Ok (0, k)
  | OpGet => keyboard_get_char k
  end.
Definition queue_run (op : kbd_op) (q : list Z) : Z * list Z :=
  match op with
  | OpAppend c => (0, enqueue q c)
  | OpGet => dequeue q
  end.
Fixpoint kbd_trace (ops : list kbd_op) (k : kbd) : outcome (list Z * kbd) :=
  match ops with
  | [] => Ok ([], k)
  | op :: ops =>
      '(r, k) ← kbd_run op k;
      '(rs, k) ← kbd_trace ops k;
      Ok (r :: rs, k)
  end.
Fixpoint queue_trace (ops : list kbd_op) (q : list Z) : list Z * list Z :=
  match ops with
  | [] => ([], q)
  | op :: ops =>
      let '(r, q) := queue_run op q in
      let '(rs, q) := queue_trace ops q in (r :: rs, q)
  end.

(** The characters one key press puts into the buffer, given the modifiers. *)
Definition key_chars (ctrl shift : bool) (scancode : Z) : list Z :=
  let n := nth (Z.to_nat scancode) normal_scan_code_table 0 in
  (if scancode =? BACKSPACE then [8] else [])
  ++ (if ctrl && (n =? 99) then [CANCEL] else [])
  ++ (if ctrl && (n =? 108) then [CLEAR] else [])
  ++ [if shift then nth (Z.to_nat scancode) shift_scan_code_table 0 else n].

(** ** Lemmas *)

Lemma length_contents k : length (contents k) = Z.to_nat (kdb_queue_occupancy k).
Proof. unfold contents. by rewrite length_fmap, length_seq. Qed.

(** The slot of the [i]th character. *)
Lemma ring_slot_ne t i n :
  0 <= i < n -> n < 256 -> (t + i) mod 256 <> (t + n) mod 256.
Proof. intros. zdiv. Qed.

Lemma append_ok c k :
  kbd_ok k ->
  exists k', append_to_input_buffer c k = Ok k' /\ kbd_ok k' /\
    contents k' = enqueue (contents k) c /\ key_pressed k' = key_pressed k /\
    events k' = events k ++ [NotifyConsole].
Proof.
  intros [H1 H2 H3 H4 H5]. unfold append_to_input_buffer, enqueue. rewrite length_contents.
  unfold KDB_BUFFER_SIZE in *.
  destruct (Z.ltb_spec (kdb_queue_occupancy k) 256) as [Hlt|Hge].
  2:{ mred. rewrite decide_False by lia. eexists. split; [reflexivity|]. done. }
  rewrite decide_True by lia.
  assert (0 <= kdb_head k < 256) as Hh by (rewrite H5; apply Z.mod_pos_bound; lia).
  rewrite arr_set_ok by lia. mred. eexists. split; [reflexivity|].
  unfold u32. rewrite !Z.mod_small with (b := 4294967296) by lia.
  split; [constructor; unfold KDB_BUFFER_SIZE; cbn; rewrite ?length_insert; try done; try lia; zdiv|].
  split; [|done]. unfold contents. cbn [record_event kdb_queue kdb_tail kdb_queue_occupancy].
  replace (Z.to_nat (kdb_queue_occupancy k + 1)) with (Z.to_nat (kdb_queue_occupancy k) + 1)%nat by lia.
  rewrite seq_app, fmap_app. simpl seq. f_equal.
  - apply list_fmap_ext. intros i x [Hx Hi]%lookup_seq. unfold KDB_BUFFER_SIZE.
    rewrite !nth_lookup, list_lookup_insert_ne; [done|].
    pose proof (ring_slot_ne (kdb_tail k) (Z.of_nat x) (kdb_queue_occupancy k)). rewrite H5.
    pose proof (Z.mod_pos_bound (kdb_tail k + Z.of_nat x) 256).
    pose proof (Z.mod_pos_bound (kdb_tail k + kdb_queue_occupancy k) 256). lia.
  - simpl. unfold KDB_BUFFER_SIZE. rewrite Z2Nat.id, <-H5 by lia.
    rewrite nth_lookup, list_lookup_insert_eq by lia. done.
Qed.

Lemma get_ok k :
  kbd_ok k ->
  exists k', keyboard_get_char k = Ok (fst (dequeue (contents k)), k') /\ kbd_ok k' /\
    contents k' = snd (dequeue (contents k)) /\ key_pressed k' = key_pressed k /\
    events k' = events k.
Proof.
  intros [H1 H2 H3 H4 H5]. unfold keyboard_get_char. unfold KDB_BUFFER_SIZE in *. rewrite Z.gtb_ltb.
  destruct (Z.ltb_spec 0 (kdb_queue_occupancy k)) as [Hlt|Hge].
  2:{ assert (kdb_queue_occupancy k = 0) as H0 by lia. exists k. unfold contents. rewrite H0. done. }
  destruct (arr_get_ok (kdb_queue k) (kdb_tail k)) as (c & Hc); [lia|]. rewrite Hc. mred.
  unfold u32. rewrite !Z.mod_small with (b := 4294967296) by lia.
  apply arr_get_Ok_iff in Hc as [_ Hc].
  assert (exists n, Z.to_nat (kdb_queue_occupancy k) = S n) as (n & Hn)
    by (exists (pred (Z.to_nat (kdb_queue_occupancy k))); lia).
  assert (contents k = c :: ((fun i => nth (Z.to_nat ((kdb_tail k + Z.of_nat (S i)) mod 256)) (kdb_queue k) 0)
    <$> seq 0 n)) as Hcont.
  { unfold contents, KDB_BUFFER_SIZE. rewrite Hn. simpl seq. rewrite fmap_cons. f_equal.
    - rewrite Z.add_0_r, Z.mod_small, nth_lookup, Hc by lia. done.
    - by rewrite <-(fmap_S_seq 0 n), <-list_fmap_compose. }
  rewrite Hcont. eexists. split; [reflexivity|].
  split; [constructor; unfold KDB_BUFFER_SIZE; cbn; try done; try lia; zdiv|].
  split; [|done]. unfold contents. cbn [kdb_queue kdb_tail kdb_queue_occupancy snd dequeue].
  replace (Z.to_nat (kdb_queue_occupancy k - 1)) with n by lia.
  apply list_fmap_ext. intros i x _. unfold KDB_BUFFER_SIZE. rewrite Zplus_mod_idemp_l.
  do 3 f_equal. lia.
Qed.

Lemma kbd_run_ok op k :
  kbd_ok k ->
  exists k', kbd_run op k = Ok (fst (queue_run op (contents k)), k') /\ kbd_ok k' /\
    contents k' = snd (queue_run op (contents k)).
Proof.
  intros Hk. destruct op as [c|]; simpl.
  - destruct (append_ok c k Hk) as (k' & -> & Hk' & Hc & _). mred. eauto.
  - destruct (get_ok k Hk) as (k' & -> & Hk' & Hc & _). eauto.
Qed.

(** ** Theorems *)

(** C30: the ring buffer is a queue of 256 characters: any sequence of
    [append_to_input_buffer] and [keyboard_get_char] calls runs to the end and
    returns what a first-in first-out queue returns that drops a character when
    it is full and gives 0 when it is empty. *)
Theorem keyboard_buffer_fifo ops k :
  kbd_ok k ->
  exists k', kbd_trace ops k = Ok (fst (queue_trace ops (contents k)), k') /\ kbd_ok k' /\
    contents k' = snd (queue_trace ops (contents k)).
Proof.
  revert k. induction ops as [|op ops IH]; intros k Hk; simpl; [by exists k|].
  destruct (kbd_run_ok op k Hk) as (k1 & -> & Hk1 & Hc). mred.
  destruct (IH k1 Hk1) as (k' & Ht & Hk' & Hc'). rewrite Hc in Ht, Hc'.
  destruct (queue_run op (contents k)) as [r q]. simpl in *. rewrite Ht. mred.
  destruct (queue_trace ops q) as [rs q']. by exists k'.
Qed.

Definition empty_kbd : kbd := mk_kbd (replicate 256 0) 0 0 0 (replicate 128 false) [].

Lemma empty_kbd_ok : kbd_ok empty_kbd.
Proof.
  constructor; [reflexivity|reflexivity|..|reflexivity]; unfold KDB_BUFFER_SIZE; simpl; lia.
Qed.

Lemma keyboard_buffer_fifo_witness :
  exists k', kbd_trace [OpAppend 97; OpAppend 98; OpGet; OpAppend 99; OpGet; OpGet; OpGet] empty_kbd
    = Ok ([0; 0; 97; 0; 98; 99; 0], k') /\ contents k' = [].
Proof.
  destruct (keyboard_buffer_fifo [OpAppend 97; OpAppend 98; OpGet; OpAppend 99; OpGet; OpGet; OpGet]
    empty_kbd empty_kbd_ok) as (k' & Ht & _ & Hc).
  exists k'. split; [exact Ht|exact Hc].
Defined.

(** The state after a key press, when no other thread touches the buffer during
    the yields. *)
Lemma press_ok c k :
  kbd_ok k ->
  exists k', append_to_input_buffer c k = Ok k' /\ kbd_ok (kernel_yield id k') /\
    contents (kernel_yield id k') = enqueue (contents k) c /\
    key_pressed (kernel_yield id k') = key_pressed k /\
    events (kernel_yield id k') = events k ++ [NotifyConsole; KernelYield].
Proof.
  intros Hk. destruct (append_ok c k Hk) as (k' & -> & [] & Hc & Hp & He). exists k'.
  split; [done|]. split; [by constructor|]. split; [done|]. split; [done|].
  unfold kernel_yield, id. cbn [events record_event]. rewrite He, <-app_assoc. done.
Qed.

Definition n_events (n : nat) : list event := concat (replicate n [NotifyConsole; KernelYield]).

(** An optional extra character. *)
Lemma press_if (b : bool) c k :
  kbd_ok k ->
  exists k', (if b then k ← append_to_input_buffer c k; Ok (kernel_yield id k) else Ok k) = Ok k' /\
    kbd_ok k' /\ contents k' = fold_left enqueue (if b then [c] else []) (contents k) /\
    key_pressed k' = key_pressed k /\
    events k' = events k ++ n_events (length (if b then [c] else [])).
Proof.
  intros Hk. destruct b.
  - destruct (press_ok c k Hk) as (k' & -> & H1 & H2 & H3 & H4). mred. by eexists.
  - exists k. simpl. by rewrite app_nil_r.
Qed.

Lemma n_events_app a b : n_events (a + b) = n_events a ++ n_events b.
Proof. unfold n_events. by rewrite replicate_add, concat_app. Qed.

Lemma table_get (t : list Z) i : length t = 128%nat -> 0 <= i < 128 -> arr_get t i = Ok (nth (Z.to_nat i) t 0).
Proof.
  intros Hl Hi. destruct (arr_get_ok t i) as (x & Hx); [lia|]. rewrite Hx. f_equal.
  apply arr_get_Ok_iff in Hx as [_ Hx]. by rewrite nth_lookup, Hx.
Qed.

Lemma key_get (t : list bool) i :
  Z.of_nat (length t) = 128 -> 0 <= i < 128 -> arr_get t i = Ok (nth (Z.to_nat i) t false).
Proof.
  intros Hl Hi. destruct (arr_get_ok t i) as (x & Hx); [lia|]. rewrite Hx. f_equal.
  apply arr_get_Ok_iff in Hx as [_ Hx]. by rewrite nth_lookup, Hx.
Qed.

(** a key press records the key as down and puts exactly its characters
    into the buffer: backspace, the control codes when Ctrl is down, and then,
    also after those, the entry of the plain or shifted table; each character is
    followed by one notification and one yield.  A release only records the key
    as up. *)
Theorem keyboard_handler_types code k :
  kbd_ok k -> 0 <= code < 256 ->
  let scancode := code mod 128 in
  let keys := <[Z.to_nat scancode := code <? 128]> (key_pressed k) in
  let down i := nth (Z.to_nat i) keys false in
  let typed := if code <? 128
               then key_chars (down LCTRL) (down LSHIFT || down RSHIFT) scancode else [] in
  exists k', keyboard_handler_c id code k = Ok k' /\ kbd_ok k' /\ key_pressed k' = keys /\
    contents k' = fold_left enqueue typed (contents k) /\
    events k' = events k ++ n_events (length typed).
Proof.
  intros Hk Hcode scancode keys down typed. unfold keyboard_handler_c.
  assert ((if code >=? 128 then code - 128 else code) = scancode) as ->.
  { unfold scancode. rewrite Z.geb_leb. destruct (Z.leb_spec 128 code); zdiv. }
  assert (negb (code >=? 128) = (code <? 128)) as ->.
  { rewrite Z.geb_leb, Z.leb_antisym. apply negb_involutive. }
  assert (0 <= scancode < 128) as Hs by (apply Z.mod_pos_bound; lia).
  pose proof Hk as [K1 K2 K3 K4 K5]. rewrite arr_set_ok by lia. mred. fold keys.
  set (k0 := with_key k keys).
  assert (kbd_ok k0) as Hk0 by (constructor; cbn; unfold keys; rewrite ?length_insert; done).
  unfold typed. destruct (code <? 128); cbn [negb].
  2:{ exists k0. simpl. by rewrite app_nil_r. }
  destruct (press_if (scancode =? BACKSPACE) 8 k0 Hk0) as (k1 & -> & Hk1 & C1 & P1 & E1). mred.
  assert (Z.of_nat (length keys) = 128) as Hkl by (unfold keys; rewrite length_insert; done).
  change (key_pressed k0) with keys in P1.
  rewrite P1, (key_get keys LCTRL Hkl) by (unfold LCTRL; lia). mred.
  rewrite (table_get normal_scan_code_table) by done. mred.
  set (n := nth (Z.to_nat scancode) normal_scan_code_table 0).
  destruct (press_if (down LCTRL && (n =? 99)) CANCEL k1 Hk1) as (k2 & H2 & Hk2 & C2 & P2 & E2).
  destruct (press_if (down LCTRL && (n =? 108)) CLEAR k2 Hk2) as (k3 & H3 & Hk3 & C3 & P3 & E3).
  assert ((if down LCTRL then
             k ← (if n =? 99 then k ← append_to_input_buffer CANCEL k1; Ok (kernel_yield id k) else Ok k1);
             if n =? 108 then k ← append_to_input_buffer CLEAR k; Ok (kernel_yield id k) else Ok k
           else Ok k1) = Ok k3) as Hctl.
  { destruct (down LCTRL); cbn [andb] in H2, H3; [rewrite H2; mred; exact H3|congruence]. }
  unfold down in Hctl. rewrite Hctl. mred.
  rewrite P3, P2, P1. rewrite (key_get keys LSHIFT Hkl) by (unfold LSHIFT; lia). mred.
  assert ((if nth (Z.to_nat LSHIFT) keys false then Ok true else arr_get keys RSHIFT)
    = Ok (down LSHIFT || down RSHIFT)) as ->.
  { unfold down. destruct (nth (Z.to_nat LSHIFT) keys false); [done|].
    rewrite (key_get keys RSHIFT Hkl) by (unfold RSHIFT; lia). done. }
  mred. set (sh := down LSHIFT || down RSHIFT).
  rewrite table_get by (by destruct sh). mred.
  destruct (press_ok (nth (Z.to_nat scancode) (if sh then shift_scan_code_table else normal_scan_code_table) 0) k3 Hk3)
    as (k4 & -> & Hk4 & C4 & P4 & E4). mred. eexists. split; [reflexivity|].
  split; [done|]. split; [by rewrite P4, P3, P2, P1|].
  unfold key_chars. fold n. rewrite !fold_left_app, !length_app, !n_events_app.
  rewrite C4, C3, C2, C1, E4, E3, E2, E1. rewrite <-!app_assoc. by destruct sh.
Qed.

(** Shift held, then the [c] key with Ctrl held: the control code comes first
    and the letter after it. *)
Lemma keyboard_handler_types_witness :
  exists k', keyboard_handler_c id 46 (with_key empty_kbd (<[29%nat := true]> (replicate 128 false)))
    = Ok k' /\ contents k' = [24; 99] /\
    events k' = [NotifyConsole; KernelYield; NotifyConsole; KernelYield].
Proof.
  set (k := with_key empty_kbd (<[29%nat := true]> (replicate 128 false))).
  assert (kbd_ok k) as Hk.
  { constructor; [reflexivity|reflexivity|..|reflexivity]; unfold KDB_BUFFER_SIZE; simpl; lia. }
  destruct (keyboard_handler_types 46 k Hk ltac:(lia)) as (k' & He & _ & _ & Hc & Hev).
  exists k'. split; [exact He|]. split; [exact Hc|exact Hev].
Defined.
