(* ===== verification/Device.v ===== *)
(** * Port and memory-mapped I/O (src/include/cpu/io.h), and the drivers that
    only program a chip (pit.c, pic.c, local_apic.c, io_apic.c)

    The devices are not part of the kernel: they are the parameter [Device], a
    state with the effect of each bus access on it.  The drivers are state
    transformers over any device.  A polling loop has a fuel; running out of it
    is [Hang].  The accessors of other widths, which no driver uses yet, are over
    the larger class [WideDevice]. *)

From S2P Require Import Prelude Bytes.

Class Device (D : Type) := {
  out8 : Z -> Z -> D -> D;
  in8 : Z -> D -> Z * D;
  mmio_out32 : Z -> Z -> D -> D;
  mmio_in32 : Z -> D -> Z * D
}.

(** A device that answers 0 and remembers what it was told, newest last. *)
Inductive access := Out8 (port v : Z) | In8 (port : Z) | Write32 (a v : Z) | Read32 (a : Z).
#[export] Instance bus_log : Device (list access) := {|
  out8 p v d := d ++ [Out8 p v];
  in8 p d := (0, d ++ [In8 p]);
  mmio_out32 a v d := d ++ [Write32 a v];
  mmio_in32 a d := (0, d ++ [Read32 a])
|}.

Definition PORT_CMOS_INDEX : Z := 112.
Definition PORT_CMOS_DATA : Z := 113.
Definition PORT_POST_CHECK : Z := 128.
Definition PIT_COUNTER0 : Z := 64.
Definition PIT_CMD : Z := 67.
Definition CMD_BINARY : Z := 0.
Definition CMD_MODE3 : Z := 6.
Definition CMD_RW_BOTH : Z := 48.
Definition CMD_COUNTER0 : Z := 0.
Definition PIT_FREQUENCY : Z := 1193182.
Definition PIC1_CMD : Z := 32.
Definition PIC1_DATA : Z := 33.
Definition PIC2_CMD : Z := 160.
Definition PIC2_DATA : Z := 161.
Definition ICW1_ICW4 : Z := 1.
Definition ICW1_INIT : Z := 16.
Definition ICW4_8086 : Z := 1.
Definition IRQ_BASE : Z := 32.
Definition IOREGSEL : Z := 0.
Definition IOWIN : Z := 16.
Definition IOAPICVER : Z := 1.
Definition IOREDTBL : Z := 16.
Definition LAPIC_ID : Z := 32.
Definition LAPIC_TPR : Z := 128.
Definition LAPIC_LDR : Z := 208.
Definition LAPIC_DFR : Z := 224.
Definition LAPIC_SVR : Z := 240.
Definition LAPIC_ICRLO : Z := 768.
Definition LAPIC_ICRHI : Z := 784.
Definition ICR_INIT : Z := 1280.
Definition ICR_STARTUP : Z := 1536.
Definition ICR_PHYSICAL : Z := 0.
Definition ICR_SEND_PENDING : Z := 4096.
Definition ICR_ASSERT : Z := 16384.
Definition ICR_EDGE : Z := 0.
Definition ICR_NO_SHORTHAND : Z := 0.
Definition ICR_DESTINATION_SHIFT : Z := 24.

Section Drivers.
Context {D : Type} `{Device D}.
Implicit Types (d : D).

Definition io_write_8 (port data : Z) d : D := out8 (u16 port) (u8 data) d.
Definition io_read_8 (port : Z) d : Z * D :=
  let '(v, d) := in8 (u16 port) d in (u8 v, d).
Definition io_wait d : D := io_write_8 PORT_POST_CHECK 0 d.
Definition mmio_write_32 (p data : Z) d : D := mmio_out32 (u64 p) (u32 data) d.
Definition mmio_read_32 (p : Z) d : Z * D :=
  let '(v, d) := mmio_in32 (u64 p) d in (u32 v, d).

(** ** pit.c *)

(** [hz] is 50 when built with [DEBUGGING] and 1000 otherwise. *)
Definition pit_divisor (debugging : bool) : Z := PIT_FREQUENCY / (if debugging then 50 else 1000).
Definition pit_init (debugging : bool) d : D :=
  let divisor := pit_divisor debugging in
  let d := io_write_8 PIT_CMD (Z.lor (Z.lor (Z.lor CMD_BINARY CMD_MODE3) CMD_RW_BOTH) CMD_COUNTER0) d in
  let d := io_write_8 PIT_COUNTER0 divisor d in
  io_write_8 PIT_COUNTER0 (Z.shiftr divisor 8) d.

(** [while (g_pit_ticks - now < ms)]: [ticks] are the values the counter has
    when it is read, one per round; the loop hangs if they end too early. *)
Fixpoint pit_wait_loop (ticks : list Z) (now ms : Z) : outcome nat :=
  match ticks with
  | [] => Hang
  | t :: ticks =>
      if u64 (t - now) <? ms then S <$> pit_wait_loop ticks now ms else Ok 0%nat
  end.
(** The number of rounds spent waiting. *)
Definition pit_wait (now : Z) (ticks : list Z) (ms : Z) : outcome nat := pit_wait_loop ticks now ms.

(** ** pic.c *)

Definition pic_init d : D :=
  let d := io_write_8 PIC1_CMD (Z.lor ICW1_INIT ICW1_ICW4) d in
  let d := io_write_8 PIC2_CMD (Z.lor ICW1_INIT ICW1_ICW4) d in
  let d := io_write_8 PIC1_DATA IRQ_BASE d in
  let d := io_write_8 PIC2_DATA (IRQ_BASE + 8) d in
  let d := io_write_8 PIC1_DATA 4 d in
  let d := io_write_8 PIC2_DATA 2 d in
  let d := io_write_8 PIC1_DATA ICW4_8086 d in
  let d := io_write_8 PIC2_DATA ICW4_8086 d in
  let d := io_write_8 PIC1_DATA 255 d in
  io_write_8 PIC2_DATA 255 d.

(** ** io_apic.c *)

Definition io_apic_out (base reg val : Z) d : D :=
  let d := mmio_write_32 (base + IOREGSEL) (u8 reg) d in
  mmio_write_32 (base + IOWIN) val d.

(** The function reads the window and has no [return]: the value its caller
    sees is whatever the register holds, [garbage]. *)
Definition io_apic_in (garbage : Z) (base reg : Z) d : Z * D :=
  let d := mmio_write_32 (base + IOREGSEL) (u8 reg) d in
  let '(_, d) := mmio_read_32 (base + IOWIN) d in
  (u32 garbage, d).

Definition io_apic_set_entry (base index data : Z) d : D :=
  let d := io_apic_out base (IOREDTBL + index * 2) (u32 data) d in
  io_apic_out base (IOREDTBL + index * 2 + 1) (u32 (Z.shiftr data 32)) d.

Fixpoint io_apic_mask (n : nat) (base i : Z) d : D :=
  match n with
  | O => d
  | S n => io_apic_mask n base (i + 1) (io_apic_set_entry base (u8 i) (Z.shiftl 1 16) d)
  end.
Definition io_apic_init (garbage base : Z) d : D :=
  let '(x, d) := io_apic_in garbage base IOAPICVER d in
  let count := Z.land (Z.shiftr x 16) 255 + 1 in
  io_apic_mask (Z.to_nat count) base 0 d.

(** ** local_apic.c; [lapic] is [g_local_apic_address] *)

Definition local_apic_in (lapic reg : Z) d : Z * D := mmio_read_32 (lapic + reg) d.
Definition local_apic_out (lapic reg data : Z) d : D := mmio_write_32 (lapic + reg) data d.

Definition local_apic_init (lapic : Z) d : D :=
  let d := local_apic_out lapic LAPIC_TPR 0 d in
  let d := local_apic_out lapic LAPIC_DFR 4294967295 d in
  let d := local_apic_out lapic LAPIC_LDR 16777216 d in
  local_apic_out lapic LAPIC_SVR (Z.lor 256 255) d.

Definition local_apic_timer_init (lapic : Z) d : D :=
  let d := local_apic_out lapic 992 3 d in
  let d := local_apic_out lapic 800 (Z.lor 32 131072) d in
  local_apic_out lapic 896 1048576 d.

Definition local_apic_get_id (lapic : Z) d : Z * D :=
  let '(v, d) := local_apic_in lapic LAPIC_ID d in (Z.shiftr v 24, d).

(** [while (local_apic_in(LAPIC_ICRLO) & ICR_SEND_PENDING)]. *)
Fixpoint icr_wait (fuel : nat) (lapic : Z) d : outcome D :=
  match fuel with
  | O => Hang
  | S fuel =>
      let '(v, d) := local_apic_in lapic LAPIC_ICRLO d in
      if Z.land v ICR_SEND_PENDING =? 0 then Ok d else icr_wait fuel lapic d
  end.

Definition local_apic_send_init (fuel : nat) (lapic apic_id : Z) d : outcome D :=
  let d := local_apic_out lapic LAPIC_ICRHI (Z.shiftl apic_id ICR_DESTINATION_SHIFT) d in
  let d := local_apic_out lapic LAPIC_ICRLO
    (Z.lor (Z.lor (Z.lor (Z.lor ICR_INIT ICR_PHYSICAL) ICR_ASSERT) ICR_EDGE) ICR_NO_SHORTHAND) d in
  icr_wait fuel lapic d.

Definition local_apic_send_startup (fuel : nat) (lapic apic_id vector : Z) d : outcome D :=
  let d := local_apic_out lapic LAPIC_ICRHI (Z.shiftl apic_id ICR_DESTINATION_SHIFT) d in
  let d := local_apic_out lapic LAPIC_ICRLO
    (Z.lor (Z.lor (Z.lor (Z.lor (Z.lor vector ICR_STARTUP) ICR_PHYSICAL) ICR_ASSERT) ICR_EDGE)
       ICR_NO_SHORTHAND) d in
  icr_wait fuel lapic d.
End Drivers.

(** ** The other accessors of io.h *)

Class WideDevice (D : Type) `{Device D} := {
  out16 : Z -> Z -> D -> D;
  in16 : Z -> D -> Z * D;
  out32 : Z -> Z -> D -> D;
  in32 : Z -> D -> Z * D;
  mmio_out8 : Z -> Z -> D -> D;
  mmio_in8 : Z -> D -> Z * D;
  mmio_out16 : Z -> Z -> D -> D;
  mmio_in16 : Z -> D -> Z * D;
  mmio_out64 : Z -> Z -> D -> D;
  mmio_in64 : Z -> D -> Z * D
}.

Section Wide.
Context {D : Type} `{WideDevice D}.
Implicit Types (d : D).

Definition io_write_16 (port data : Z) d : D := out16 (u16 port) (u16 data) d.
Definition io_read_16 (port : Z) d : Z * D :=
  let '(v, d) := in16 (u16 port) d in (u16 v, d).
Definition io_write_32 (port data : Z) d : D := out32 (u16 port) (u32 data) d.
Definition io_read_32 (port : Z) d : Z * D :=
  let '(v, d) := in32 (u16 port) d in (u32 v, d).
Definition mmio_write_8 (p data : Z) d : D := mmio_out8 (u64 p) (u8 data) d.
Definition mmio_read_8 (p : Z) d : Z * D :=
  let '(v, d) := mmio_in8 (u64 p) d in (u8 v, d).
Definition mmio_write_16 (p data : Z) d : D := mmio_out16 (u64 p) (u16 data) d.
Definition mmio_read_16 (p : Z) d : Z * D :=
  let '(v, d) := mmio_in16 (u64 p) d in (u16 v, d).
Definition mmio_write_64 (p data : Z) d : D := mmio_out64 (u64 p) (u64 data) d.
Definition mmio_read_64 (p : Z) d : Z * D :=
  let '(v, d) := mmio_in64 (u64 p) d in (u64 v, d).

(** Byte after byte from the device into memory. *)
Fixpoint mmio_read_n (bytes : nat) (dst src : Z) (m : Bytes.bytes) d : Bytes.bytes * D :=
  match bytes with
  | O => (m, d)
  | S bytes =>
      let '(v, d) := mmio_read_8 src d in
      mmio_read_n bytes (u64 (dst + 1)) (u64 (src + 1)) (store8 m dst v) d
  end.

(** The bytes the device gives from [src] on, in order. *)
Fixpoint device_bytes (n : nat) (src : Z) d : list Z * D :=
  match n with
  | O => ([], d)
  | S n =>
      let '(v, d) := mmio_read_8 src d in
      let '(l, d) := device_bytes n (u64 (src + 1)) d in (v :: l, d)
  end.

Lemma device_bytes_length n : forall src d, length (device_bytes n src d).1 = n.
Proof.
  induction n as [|n IH]; intros src d; [done|]. cbn [device_bytes].
  destruct (mmio_read_8 src d) as [v d1]. specialize (IH (u64 (src + 1)) d1).
  destruct (device_bytes n _ d1). simpl in *. by rewrite IH.
Qed.

(** [mmio_read_n] reads each byte of the source once, in order, puts them one
    after the other at the destination, and changes no other byte. *)
Lemma mmio_read_n_ok n : forall dst src m d,
  range_ok dst (Z.of_nat n) ->
  let '(m', d') := mmio_read_n n dst src m d in
  d' = (device_bytes n src d).2 /\
  (forall i v, (device_bytes n src d).1 !! i = Some v -> m' (dst + Z.of_nat i) = v) /\
  (forall x, ~ within dst (Z.of_nat n) x -> m' x = m x).
Proof.
  induction n as [|n IH]; intros dst src m d Hr; [by split; [|split]|]. cbn [mmio_read_n device_bytes].
  destruct (mmio_read_8 src d) as [v d1] eqn:Ev.
  assert (v = u8 v) as Hv.
  { revert Ev. unfold mmio_read_8. destruct (mmio_in8 _ _) as [v0 ?]. intros [= <- _]. unfold u8. by rewrite Z.mod_mod. }
  destruct n as [|n].
  { cbn. split; [done|]. split.
    - intros [|i] w; [|done]. intros [= <-]. rewrite Z.add_0_r. unfold store8. by rewrite Z.eqb_refl.
    - intros x Hx. unfold store8, within in *. destruct (Z.eqb_spec x dst); [lia|done]. }
  unfold range_ok in Hr. rewrite (u64_next dst) by lia.
  specialize (IH (dst + 1) (u64 (src + 1)) (store8 m dst v) d1 ltac:(unfold range_ok; lia)).
  destruct (mmio_read_n _ _ _ _ _) as [m' d'], (device_bytes (S n) _ d1) as [l d2]. destruct IH as (-> & Hin & Hout).
  split; [done|]. split.
  - intros [|i] w; cbn [fst lookup list_lookup].
    + intros [= <-]. rewrite Z.add_0_r, Hout by (unfold within; lia). unfold store8. by rewrite Z.eqb_refl.
    + intros Hi. replace (dst + Z.of_nat (S i)) with (dst + 1 + Z.of_nat i) by lia. by apply Hin.
  - intros x Hx. rewrite Hout by (unfold within in *; lia). unfold store8, within in *.
    destruct (Z.eqb_spec x dst); [lia|done].
Qed.
End Wide.
