(* ===== verification/Time.v ===== *)
(** * The real-time clock and dates (src/kernel/time/rtc.c, src/include/kernel/time.h)

    Reading and writing the CMOS clock over any device, the BCD decoding, and
    the conversions between calendar dates and seconds since 1970.  The
    arithmetic is C's: fields are bytes, intermediate results [long long] or
    [unsigned int], so quotients truncate towards zero. *)

From S2P Require Import Prelude Device.

Record datetime_t := mk_datetime {
  century : Z; year : Z; month : Z; day : Z; hour : Z; minute : Z; second : Z
}.

Definition weekday_map : list (list Z) :=
  [[83; 117; 110]; [77; 111; 110]; [84; 117; 101]; [87; 101; 100]; [84; 104; 117];
   [70; 114; 105]; [83; 97; 116]].

(** ** The CMOS clock *)

Section Clock.
Context {D : Type} `{Device D}.
Implicit Types (d : D).

Definition is_updating_rtc d : bool * D :=
  let d := io_write_8 PORT_CMOS_INDEX 10 d in
  let '(status, d) := io_read_8 PORT_CMOS_DATA d in
  (negb (Z.land status 128 =? 0), d).

Definition get_rtc_reg (reg : Z) d : Z * D :=
  io_read_8 PORT_CMOS_DATA (io_write_8 PORT_CMOS_INDEX reg d).

Definition set_rtc_reg (reg val : Z) d : D :=
  io_write_8 PORT_CMOS_DATA val (io_write_8 PORT_CMOS_INDEX reg d).

(** [while (is_updating_rtc());]. *)
Fixpoint wait_rtc (fuel : nat) d : outcome D :=
  match fuel with
  | O => Hang
  | S fuel =>
      let '(busy, d) := is_updating_rtc d in
      if (busy : bool) then wait_rtc fuel d else Ok d
  end.

Definition from_bcd (v : Z) : Z := u8 (Z.land v 15 + v / 16 * 10).
(** The hour keeps bit 7, the PM flag. *)
Definition from_bcd_hour (v : Z) : Z :=
  u8 (Z.lor (Z.land v 15 + Z.land v 112 / 16 * 10) (Z.land v 128)).

(** [current_datetime] is read, updated field by field; the century is not. *)
Definition rtc_read_datetime (fuel : nat) (dt : datetime_t) d : outcome (datetime_t * D) :=
  d ← wait_rtc fuel d;
  let '(sec, d) := get_rtc_reg 0 d in
  let '(min, d) := get_rtc_reg 2 d in
  let '(hr, d) := get_rtc_reg 4 d in
  let '(dy, d) := get_rtc_reg 7 d in
  let '(mon, d) := get_rtc_reg 8 d in
  let '(yr, d) := get_rtc_reg 9 d in
  let '(reg_b, d) := get_rtc_reg 11 d in
  if Z.land reg_b 4 =? 0 then
    Ok (mk_datetime (century dt) (from_bcd yr) (from_bcd mon) (from_bcd dy) (from_bcd_hour hr)
          (from_bcd min) (from_bcd sec), d)
  else Ok (mk_datetime (century dt) yr mon dy hr min sec, d).

Definition rtc_write_datetime (fuel : nat) (dt : datetime_t) d : outcome D :=
  d ← wait_rtc fuel d;
  let d := set_rtc_reg 0 (second dt) d in
  let d := set_rtc_reg 2 (minute dt) d in
  let d := set_rtc_reg 4 (hour dt) d in
  let d := set_rtc_reg 7 (day dt) d in
  let d := set_rtc_reg 8 (month dt) d in
  Ok (set_rtc_reg 9 (year dt) d).

(** [now()] and [init_rtc()] are both a read into [current_datetime]. *)
Definition now (fuel : nat) (dt : datetime_t) d : outcome (datetime_t * D) :=
  rtc_read_datetime fuel dt d.
Definition init_rtc (fuel : nat) (dt : datetime_t) d : outcome (datetime_t * D) :=
  rtc_read_datetime fuel dt d.
End Clock.

(** ** Weekdays and printing *)

Definition is_leap_year (y m : Z) : Z :=
  if (Z.rem y 4 =? 0) && ((m =? 1) || (m =? 2)) then 1 else 0.

Definition month_code_array : list Z := [0; 3; 3; 6; 1; 4; 6; 2; 5; 0; 3; 5].
Definition century_code_array : list Z := [4; 2; 0; 6; 4; 2; 0].

(** Sets the century of its argument to 21. *)
Definition get_weekday_from_date (dt : datetime_t) : outcome (Z * datetime_t) :=
  let dt := mk_datetime 21 (year dt) (month dt) (day dt) (hour dt) (minute dt) (second dt) in
  let year_code := Z.rem (year dt + Z.quot (year dt) 4) 7 in
  month_code ← arr_get month_code_array (month dt - 1);
  century_code ← arr_get century_code_array (century dt - 1 - 17);
  let leap_year_code := is_leap_year (year dt) (month dt) in
  Ok (Z.rem (year_code + month_code + century_code + day dt - leap_year_code) 7, dt).

(** Decimal digits of a byte, most significant first, at least two ([%02d]). *)
Definition digits2 (v : Z) : list Z :=
  (if 100 <=? v then [48 + v / 100] else []) ++ [48 + v / 10 mod 10; 48 + v mod 10].

(** The characters [sprintf] writes, before the terminating 0; the buffer holds
    22 bytes and a longer text overruns it. *)
Definition datetime_to_str (dt : datetime_t) : outcome (list Z * datetime_t) :=
  '(w, dt) ← get_weekday_from_date dt;
  weekday ← arr_get weekday_map w;
  let text := weekday ++ [32] ++ digits2 (day dt) ++ [46] ++ digits2 (month dt) ++ [46]
    ++ digits2 (year dt) ++ [32] ++ digits2 (Z.rem (hour dt + 2) 24) ++ [58]
    ++ digits2 (minute dt) ++ [58] ++ digits2 (second dt) in
  if Z.of_nat (length text) + 1 <=? 22 then Ok (text, dt) else Fault.

Definition get_current_datetime_str (current_datetime : datetime_t) : outcome (list Z * datetime_t) :=
  datetime_to_str current_datetime.

(** ** Dates and timestamps *)

Definition days_to_1970 : Z := 719468.

Definition dttots (dt : datetime_t) : Z :=
  let full_year := century dt * 100 + year dt in
  let '(m, full_year) :=
    if month dt <=? 2 then (month dt + 12, full_year - 1) else (month dt, full_year) in
  let m := m - 3 in
  let days_since_zero := day dt + Z.quot (153 * m + 2) 5 + 365 * full_year
    + Z.quot full_year 4 - Z.quot full_year 100 + Z.quot full_year 400 in
  let epoch_days := days_since_zero - days_to_1970 in
  u64 (epoch_days * 86400 + hour dt * 3600 + minute dt * 60 + second dt).

(** The date part of [tstodt], from the day number counted from 0000-03-01. *)
Definition civil_from_days (z : Z) : Z * Z * Z :=
  let era := Z.quot z 146097 in
  let doe := u32 (Z.rem z 146097) in
  let yoe := u32 (doe - doe / 1460 + doe / 36524 - doe / 146096) / 365 in
  let full_year := yoe + era * 400 in
  let doy := u32 (doe - (365 * yoe + yoe / 4 - yoe / 100)) in
  let mp := u32 (5 * doy + 2) / 153 in
  let day := u8 (doy - (153 * mp + 2) / 5 + 1) in
  let month := u8 (if mp <? 10 then mp + 3 else mp - 9) in
  (if month <=? 2 then full_year + 1 else full_year, month, day).

(** The block [tstodt] allocates is taken to be there. *)
Definition tstodt (ts : Z) : datetime_t :=
  let epch_days := s64 (ts / 86400) in
  let day_remainder := u32 (ts mod 86400) in
  let hour := u8 (day_remainder / 3600) in
  let day_remainder := day_remainder mod 3600 in
  let minute := u8 (day_remainder / 60) in
  let second := u8 (day_remainder mod 60) in
  let '(full_year, month, day) := civil_from_days (epch_days + days_to_1970) in
  mk_datetime (u8 (Z.quot full_year 100)) (u8 (Z.rem full_year 100)) month day hour minute second.

(** ** What the clock chip does (MC146818 data sheet) *)

Class CmosChip (D : Type) `{Device D} := {
  cmos_reg : D -> Z -> Z;
  cmos_index : D -> Z;
  cmos_bytes d r : 0 <= cmos_reg d r < 256;
  cmos_select d r : 0 <= r < 128 ->
    cmos_index (out8 PORT_CMOS_INDEX r d) = r /\
    forall i, cmos_reg (out8 PORT_CMOS_INDEX r d) i = cmos_reg d i;
  cmos_read d : fst (in8 PORT_CMOS_DATA d) = cmos_reg d (cmos_index d) /\
    forall i, cmos_reg (snd (in8 PORT_CMOS_DATA d)) i = cmos_reg d i
}.

Definition to_bcd (v : Z) : Z := v / 10 * 16 + v mod 10.

(** The value a clock register stands for, in the mode of register B. *)
Definition decode_reg (binary : bool) (v : Z) : Z := if binary then v else from_bcd v.

(** ** Lemmas *)

Section ClockLemmas.
Context {D : Type} `{CmosChip D}.

Lemma get_rtc_reg_ok r d :
  0 <= r < 128 ->
  fst (get_rtc_reg r d) = cmos_reg d r /\ forall i, cmos_reg (snd (get_rtc_reg r d)) i = cmos_reg d i.
Proof.
  intros Hr. unfold get_rtc_reg, io_read_8, io_write_8.
  change (u16 PORT_CMOS_INDEX) with PORT_CMOS_INDEX. change (u16 PORT_CMOS_DATA) with PORT_CMOS_DATA.
  rewrite u8_small by lia. destruct (cmos_select d r Hr) as [Hi Hs].
  destruct (cmos_read (out8 PORT_CMOS_INDEX r d)) as [Hv Hk].
  destruct (in8 PORT_CMOS_DATA _) as [v d']. simpl in *.
  rewrite Hv, Hi, Hs. split; [apply u8_small, cmos_bytes|]. intros i. by rewrite Hk, Hs.
Qed.

Lemma wait_rtc_ok fuel d :
  Z.land (cmos_reg d 10) 128 = 0 ->
  exists d', wait_rtc (S fuel) d = Ok d' /\ forall i, cmos_reg d' i = cmos_reg d i.
Proof.
  intros Hb. simpl. unfold is_updating_rtc. fold (get_rtc_reg 10 d).
  destruct (get_rtc_reg_ok 10 d ltac:(lia)) as [Hv Hk].
  destruct (get_rtc_reg 10 d) as [v d']. simpl in *. rewrite Hv, Hb. simpl. eauto.
Qed.
End ClockLemmas.

Lemma from_bcd_to_bcd v : 0 <= v < 100 -> from_bcd (to_bcd v) = v.
Proof.
  intros Hv. unfold from_bcd, to_bcd, u8. change 15 with (Z.ones 4). rewrite Z.land_ones by lia.
  change (2 ^ 4) with 16. zdiv.
Qed.

(** The algorithm of [tstodt] on day numbers, and the days [dttots] counts. *)
Definition march_year (y m : Z) : Z := if m <=? 2 then y - 1 else y.
Definition march_month (m : Z) : Z := if m <=? 2 then m + 9 else m - 3.
Definition days_of (y m d : Z) : Z :=
  let y' := march_year y m in
  d + (153 * march_month m + 2) / 5 + 365 * y' + y' / 4 - y' / 100 + y' / 400.

Lemma era_ok doe :
  0 <= doe < 146097 ->
  let yoe := (doe - doe / 1460 + doe / 36524 - doe / 146096) / 365 in
  let doy := doe - (365 * yoe + yoe / 4 - yoe / 100) in
  0 <= yoe < 400 /\ 0 <= doy <= 365.
Proof. intros Hd. cbv zeta. split; [zdiv|]. split; zdiv. Qed.

Lemma civil_ok z :
  0 <= z < 2 ^ 40 ->
  let '(y, m, d) := civil_from_days z in
  0 <= march_year y m /\ 1 <= m <= 12 /\ 1 <= d <= 31 /\ days_of y m d = z + 1.
Proof.
  intros Hz. unfold civil_from_days. rewrite Z.quot_div_nonneg, Z.rem_mod_nonneg by lia.
  set (era := z / 146097). set (doe := z mod 146097).
  assert (0 <= doe < 146097 /\ 0 <= era /\ z = 146097 * era + doe) as (Hd & He & Hz') by (unfold doe, era; zdiv).
  destruct (era_ok doe Hd) as [Hy Hdoy]. unfold u32.
  rewrite (Z.mod_small doe), (Z.mod_small (doe - doe / 1460 + doe / 36524 - doe / 146096)) by zdiv.
  set (yoe := (doe - doe / 1460 + doe / 36524 - doe / 146096) / 365) in *.
  rewrite (Z.mod_small (doe - (365 * yoe + yoe / 4 - yoe / 100))) by lia.
  set (doy := doe - (365 * yoe + yoe / 4 - yoe / 100)) in *.
  rewrite (Z.mod_small (5 * doy + 2)) by lia. set (mp := (5 * doy + 2) / 153).
  assert (0 <= mp <= 11 /\ 1 <= doy - (153 * mp + 2) / 5 + 1 <= 31) as [Hmp Hday] by (unfold mp; split; zdiv).
  unfold u8. rewrite (Z.mod_small (doy - (153 * mp + 2) / 5 + 1)) by lia.
  rewrite (Z.mod_small (if mp <? 10 then mp + 3 else mp - 9)) by (destruct (Z.ltb_spec mp 10); lia).
  set (m := if mp <? 10 then mp + 3 else mp - 9).
  set (y := if m <=? 2 then yoe + era * 400 + 1 else yoe + era * 400).
  assert (1 <= m <= 12 /\ march_month m = mp /\ march_year y m = yoe + era * 400) as (Hm & Emm & Emy).
  { unfold march_month, march_year, y, m. destruct (Z.ltb_spec mp 10).
    - destruct (Z.leb_spec (mp + 3) 2); lia.
    - destruct (Z.leb_spec (mp - 9) 2); lia. }
  unfold days_of. rewrite Emm, Emy. split_and!; try lia.
  assert ((yoe + era * 400) / 4 = yoe / 4 + era * 100) as -> by zdiv.
  assert ((yoe + era * 400) / 100 = yoe / 100 + era * 4) as -> by zdiv.
  assert ((yoe + era * 400) / 400 = era) as -> by zdiv. lia.
Qed.

Lemma march_year_bounds y m d z :
  days_of y m d = z + 1 -> 1 <= d <= 31 -> 1 <= m <= 12 -> 0 <= march_year y m ->
  365 * march_year y m <= z.
Proof.
  unfold days_of, march_month. intros H Hd Hm Hy. destruct (Z.leb_spec m 2); zdiv.
Qed.

Lemma civil_year z y m d :
  0 <= z < 2 ^ 40 -> civil_from_days z = (y, m, d) ->
  0 <= march_year y m /\ 1 <= m <= 12 /\ 1 <= d <= 31 /\ days_of y m d = z + 1 /\
  0 <= y /\ 365 * (y - 1) <= z.
Proof.
  intros Hz He. pose proof (civil_ok z Hz) as H. rewrite He in H. destruct H as (H1 & H2 & H3 & H4).
  pose proof (march_year_bounds y m d z H4 H3 H2 H1).
  unfold march_year in *. destruct (Z.leb_spec m 2); split_and!; lia.
Qed.

(** The day count of [dttots]. *)
Lemma dttots_days c yr m d hr mi se :
  0 <= march_year (c * 100 + yr) m -> 1 <= m <= 12 ->
  dttots (mk_datetime c yr m d hr mi se)
  = u64 ((days_of (c * 100 + yr) m d - days_to_1970) * 86400 + hr * 3600 + mi * 60 + se).
Proof.
  intros Hy Hm. unfold dttots, days_of, march_year, march_month in *.
  cbn [century year month day hour minute second].
  destruct (Z.leb_spec m 2); cbv zeta; rewrite !Z.quot_div_nonneg by lia; do 3 f_equal; zdiv.
Qed.

(** The fields [tstodt] computes, as numbers. *)
Lemma tstodt_fields ts y m d :
  0 <= ts < 2 ^ 39 -> civil_from_days (ts / 86400 + days_to_1970) = (y, m, d) ->
  0 <= y < 25600 ->
  tstodt ts = mk_datetime (y / 100) (y mod 100) m d
    (ts mod 86400 / 3600) (ts mod 86400 mod 3600 / 60) (ts mod 86400 mod 3600 mod 60).
Proof.
  intros Hts He Hy. unfold tstodt.
  assert (s64 (ts / 86400) = ts / 86400) as ->.
  { unfold s64. rewrite u64_small by (unfold fits_u64; zdiv).
    destruct (Z.ltb_spec (ts / 86400) 9223372036854775808); [done|zdiv]. }
  rewrite He. unfold u32, u8. rewrite !(Z.mod_small (ts mod 86400)) by zdiv.
  rewrite Z.quot_div_nonneg, Z.rem_mod_nonneg by lia.
  f_equal; apply Z.mod_small; zdiv.
Qed.

(** The weekday formula for day 0 of month [m] of the year 2000 + [yy]. *)
Definition weekday_code (yy m : Z) : Z :=
  (yy + yy / 4) mod 7 + nth (Z.to_nat (m - 1)) month_code_array 0 + 6
  - (if (yy mod 4 =? 0) && ((m =? 1) || (m =? 2)) then 1 else 0).
Definition weekday_check (yy m : Z) : bool :=
  (days_of (2000 + yy) m 0 - 1 - days_to_1970 + 4) mod 7 =? weekday_code yy m mod 7.

Lemma weekday_table :
  forallb (fun yy => forallb (weekday_check yy) (seqZ 1 12)) (seqZ 0 100) = true.
Proof. vm_compute. reflexivity. Qed.

Lemma weekday_formula yy m d mc :
  0 <= yy < 100 -> 1 <= m <= 12 -> mc = nth (Z.to_nat (m - 1)) month_code_array 0 ->
  (days_of (2000 + yy) m d - 1 - days_to_1970 + 4) mod 7
  = ((yy + yy / 4) mod 7 + mc + 6 + d
     - (if (yy mod 4 =? 0) && ((m =? 1) || (m =? 2)) then 1 else 0)) mod 7.
Proof.
  intros Hyy Hm ->. pose proof weekday_table as H. rewrite forallb_forall in H.
  specialize (H yy). rewrite forallb_forall in H.
  assert (weekday_check yy m = true) as Hc%Z.eqb_eq.
  { apply H; apply list_elem_of_In, elem_of_seqZ; lia. }
  assert (days_of (2000 + yy) m d = days_of (2000 + yy) m 0 + d) as -> by (unfold days_of; lia).
  replace (days_of (2000 + yy) m 0 + d - 1 - days_to_1970 + 4)
    with (days_of (2000 + yy) m 0 - 1 - days_to_1970 + 4 + d) by lia.
  rewrite <-Zplus_mod_idemp_l, Hc, Zplus_mod_idemp_l. f_equal. unfold weekday_code. lia.
Qed.

Lemma month_code_nonneg m : 0 <= nth m month_code_array 0.
Proof. do 12 (destruct m as [|m]; [simpl; lia|]). simpl. by destruct m. Qed.

(** ** Theorems *)

(** [dttots] is a day ahead: the timestamp of the date of a timestamp is
    that timestamp plus 86400 seconds, for every second up to the year 19390. *)
Theorem dttots_tstodt_off_by_one_day ts :
  0 <= ts < 2 ^ 39 -> dttots (tstodt ts) = ts + 86400.
Proof.
  intros Hts. destruct (civil_from_days (ts / 86400 + days_to_1970)) as [[y m] d] eqn:He.
  destruct (civil_year (ts / 86400 + days_to_1970) y m d ltac:(unfold days_to_1970; zdiv) He) as (H1 & H2 & H3 & H4 & H5 & H6).
  assert (y < 25600) as Hy by (unfold days_to_1970 in *; zdiv).
  assert (y / 100 * 100 + y mod 100 = y) as Ey by zdiv.
  rewrite (tstodt_fields ts y m d), dttots_days by (rewrite ?Ey; done).
  rewrite Ey, H4. unfold days_to_1970. rewrite u64_small by (unfold fits_u64; zdiv). zdiv.
Qed.

Lemma dttots_tstodt_off_by_one_day_witness : dttots (tstodt 1700000000) = 1700086400.
Proof. exact (dttots_tstodt_off_by_one_day 1700000000 ltac:(lia)). Defined.

(** for every date from 2000 to 2099 [get_weekday_from_date] returns the
    weekday of the calendar (day 0 of 1970 was a Thursday, 0 is Sunday); it also
    overwrites the century. *)
Theorem weekday_correct ts :
  946684800 <= ts < 4102444800 ->
  exists dt', get_weekday_from_date (tstodt ts) = Ok ((ts / 86400 + 4) mod 7, dt') /\ century dt' = 21.
Proof.
  intros Hts. destruct (civil_from_days (ts / 86400 + days_to_1970)) as [[y m] d] eqn:He.
  destruct (civil_year (ts / 86400 + days_to_1970) y m d ltac:(unfold days_to_1970; zdiv) He) as (H1 & H2 & H3 & H4 & H5 & H6).
  assert (2000 <= y < 2100) as Hy.
  { revert H4. unfold days_of, march_year, march_month, days_to_1970.
    destruct (Z.leb_spec m 2); intros H4; zdiv. }
  rewrite (tstodt_fields ts y m d) by (done || lia). unfold get_weekday_from_date.
  cbn [century year month day hour minute second].
  assert (0 <= y mod 100) by zdiv. rewrite !Z.quot_div_nonneg by lia.
  assert (exists mc, arr_get month_code_array (m - 1) = Ok mc /\
    mc = nth (Z.to_nat (m - 1)) month_code_array 0) as (mc & -> & Hmc).
  { destruct (arr_get_ok month_code_array (m - 1)) as (mc & Hmc); [simpl; lia|]. exists mc.
    split; [done|]. apply arr_get_Ok_iff in Hmc as [_ Hmc]. by rewrite nth_lookup, Hmc. }
  mred. change (arr_get century_code_array (21 - 1 - 17)) with (Ok 6). mred.
  eexists (mk_datetime 21 _ _ _ _ _ _). split; [|reflexivity]. do 2 f_equal. unfold is_leap_year.
  assert (ts / 86400 = days_of y m d - 1 - days_to_1970) as -> by lia. clear He Hts H4 H6 H1.
  assert (exists yy, y = 2000 + yy /\ y mod 100 = yy /\ 0 <= yy < 100) as (yy & -> & -> & Hyy)
    by (exists (y - 2000); zdiv).
  rewrite (Z.rem_mod_nonneg (yy + yy / 4) 7), (Z.rem_mod_nonneg yy 4) by zdiv.
  rewrite (weekday_formula yy m d mc) by done.
  rewrite Z.rem_mod_nonneg; [done| |lia].
  assert (0 <= mc) by (subst mc; by apply month_code_nonneg).
  destruct (_ && _); zdiv.
Qed.

Lemma weekday_correct_witness :
  exists dt', get_weekday_from_date (tstodt 1700000000) = Ok (2, dt') /\ century dt' = 21.
Proof. exact (weekday_correct 1700000000 ltac:(lia)). Defined.


(** A chip as an index and a function from registers to bytes. *)
Record chip := mk_chip { chip_index : Z; chip_regs : Z -> Z }.
#[export] Instance chip_device : Device chip := {|
  out8 p v c :=
    if p =? 112 then mk_chip (v mod 128) (chip_regs c)
    else if p =? 113 then mk_chip (chip_index c) (fun r => if r =? chip_index c then v else chip_regs c r)
    else c;
  in8 p c := (if p =? 113 then u8 (chip_regs c (chip_index c)) else 255, c);
  mmio_out32 _ _ c := c;
  mmio_in32 _ c := (0, c)
|}.

#[export] Instance chip_cmos : CmosChip chip.
Proof.
  refine {| cmos_reg c r := u8 (chip_regs c r); cmos_index := chip_index |}.
  - intros. apply u8_range.
  - intros d r Hr. simpl. split; [by apply Z.mod_small|done].
  - done.
Defined.

(** 29 November 24, 12:59:03, in BCD. *)
Definition sample_chip : chip :=
  mk_chip 0 (fun r => if r =? 9 then 36 else if r =? 8 then 17 else if r =? 7 then 41
                      else if r =? 4 then 18 else if r =? 2 then 89 else if r =? 0 then 3 else 0).

