(* ===== verification/Elf.v ===== *)
(** * The program loader (src/kernel/elf.c, src/include/kernel/elf.h)

    [load_elf_binary] makes an address space and fills it from the program
    headers of a file in memory.  The file is the list of its bytes; an access
    outside it faults.  The page tables are those of Paging.v; the bytes of the
    page frames the program gets are written through the direct map. *)

From S2P Require Import Prelude Sync Bitmap Pmm Paging Bytes.

(** ** Data *)

Definition ELF_MAGIC : Z := 1179403647.
Definition PT_LOAD : Z := 1.

(** The fields of [elf64_header_t] the loader reads, by their offset. *)
Definition off_e_ident : Z := 0.
Definition off_e_entry : Z := 24.
Definition off_e_phoff : Z := 32.
Definition off_e_phnum : Z := 56.

Record elf64_pheader_t := mk_pheader {
  p_type : Z;
  p_flags : Z;
  p_offset : Z;
  p_vaddr : Z;
  p_paddr : Z;
  p_filesz : Z;
  p_memsz : Z;
  p_align : Z
}.
Definition sizeof_pheader : Z := 56.

(** Page tables, and the bytes of memory that is no page table. *)
Record umem := mk_umem { u_vm : vm; u_bytes : bytes }.

(** ** Reading the file *)

Fixpoint read_le (n : nat) (elf : list Z) (off : Z) : outcome Z :=
  match n with
  | O => Ok 0
  | S n => b ← arr_get elf off; r ← read_le n elf (off + 1); Ok (b + 256 * r)
  end.

Definition read_pheader (elf : list Z) (a : Z) : outcome elf64_pheader_t :=
  ty ← read_le 4 elf a;
  fl ← read_le 4 elf (a + 4);
  off ← read_le 8 elf (a + 8);
  va ← read_le 8 elf (a + 16);
  pa ← read_le 8 elf (a + 24);
  fsz ← read_le 8 elf (a + 32);
  msz ← read_le 8 elf (a + 40);
  al ← read_le 8 elf (a + 48);
  Ok (mk_pheader ty fl off va pa fsz msz al).

(** [n] bytes of the file from [off] on. *)
Definition slice (elf : list Z) (off n : Z) : outcome (list Z) :=
  if (0 <=? off) && (off + n <=? Z.of_nat (length elf)) then Ok (take (Z.to_nat n) (drop (Z.to_nat off) elf))
  else Fault.

(** [memcpy] from the file to memory. *)
Definition put_bytes (m : bytes) (a : Z) (l : list Z) : bytes :=
  fun x => if u64 (x - a) <? Z.of_nat (length l) then nth (Z.to_nat (u64 (x - a))) l 0 else m x.

(** ** Loading *)

Definition user_flags : Z := Z.lor (Z.lor PTE_PRESENT PTE_WRITABLE) PTE_USER.

(** The size of a segment in memory, rounded up to pages. *)
Definition segment_size (ph : elf64_pheader_t) : Z :=
  let total_size := u64 (p_memsz ph + p_vaddr ph mod PAGE_SIZE) in
  if negb (total_size mod PAGE_SIZE =? 0) then u64 ((total_size / PAGE_SIZE + 1) * PAGE_SIZE) else total_size.

(** What one page of a segment gets: file bytes, then zeros. *)
Definition fill_page (elf : list Z) (ph : elf64_pheader_t) (off phys_frame h : Z) (m : bytes) : outcome bytes :=
  let page_offset := p_vaddr ph mod PAGE_SIZE in
  let dest_page_offset := if off =? 0 then page_offset else 0 in
  let file_read_offset := if off =? 0 then 0 else u64 (off - page_offset) in
  '(m, bytes_copied) ←
    (if file_read_offset <? p_filesz ph then
       let byte_to_copy := u64 (p_filesz ph - file_read_offset) in
       let byte_to_copy := if byte_to_copy >? PAGE_SIZE - dest_page_offset
                           then PAGE_SIZE - dest_page_offset else byte_to_copy in
       src ← slice elf (u64 (p_offset ph + file_read_offset)) byte_to_copy;
       Ok (put_bytes m (u64 (PHYS_TO_VIRT h phys_frame + dest_page_offset)) src, byte_to_copy + dest_page_offset)
     else Ok (m, dest_page_offset));
  Ok (if bytes_copied <? PAGE_SIZE
      then memset m (u64 (PHYS_TO_VIRT h phys_frame + bytes_copied)) 0 (PAGE_SIZE - bytes_copied) else m).

(** The loop over the pages of a segment; [false]: out of memory. *)
Fixpoint load_pages (fuel : nat) (elf : list Z) (ph : elf64_pheader_t) (root off : Z) (u : umem)
    : outcome (bool * umem) :=
  if off <? segment_size ph then
    match fuel with
    | O => Hang
    | S fuel =>
        '(phys_frame, p) ← pmm_alloc (vm_pmm (u_vm u));
        let s := with_pmm (u_vm u) p in
        if phys_frame =? 0 then Ok (false, mk_umem s (u_bytes u))
        else
          let vaddr_page := p_vaddr ph - p_vaddr ph mod PAGE_SIZE in
          s ← map_page root (u64 (vaddr_page + off)) phys_frame user_flags s;
          m ← fill_page elf ph off phys_frame (hhdm_offset s) (u_bytes u);
          load_pages fuel elf ph root (u64 (off + PAGE_SIZE)) (mk_umem s m)
    end
  else Ok (true, u).

Definition segment_fuel (ph : elf64_pheader_t) : nat := Z.to_nat (segment_size ph / PAGE_SIZE).

(** The loop over the program headers, [n] of them from the one at [a] on. *)
Fixpoint load_segments (n : nat) (elf : list Z) (a root : Z) (u : umem) : outcome (bool * umem) :=
  match n with
  | O => Ok (true, u)
  | S n =>
      ty ← read_le 4 elf a;
      if negb (ty =? PT_LOAD) then load_segments n elf (a + sizeof_pheader) root u
      else
        ph ← read_pheader elf a;
        '(ok, u) ← load_pages (segment_fuel ph) elf ph root 0 u;
        if negb ok then Ok (false, u) else load_segments n elf (a + sizeof_pheader) root u
  end.

(** Why the loader stops: [BadMagic] frees the file's buffer. *)
Inductive load_result := BadMagic | OutOfMemory | Loaded (e_entry pml4_phys : Z).

Definition load_elf_binary (elf : list Z) (u : umem) : outcome (load_result * umem) :=
  magic ← read_le 4 elf off_e_ident;
  if negb (magic =? ELF_MAGIC) then Ok (BadMagic, u)
  else
    '(pml4_phys, p) ← pmm_alloc (vm_pmm (u_vm u));
    let s := with_pmm (u_vm u) p in
    let pml4_virt := PHYS_TO_VIRT (hhdm_offset s) pml4_phys in
    let m := clear_page (mem s) pml4_virt in
    let s := with_mem s (copy_kernel_half m pml4_virt (kernel_pml4 s)) in
    phoff ← read_le 8 elf off_e_phoff;
    phnum ← read_le 2 elf off_e_phnum;
    '(ok, u) ← load_segments (Z.to_nat phnum) elf phoff pml4_virt (mk_umem s (u_bytes u));
    if negb ok then Ok (OutOfMemory, u)
    else e_entry ← read_le 8 elf off_e_entry; Ok (Loaded e_entry pml4_phys, u).

(** ** Specification *)

(** The byte user code finds at [v], if it may access it. *)
Definition user_byte (u : umem) (root v : Z) : option Z :=
  match walk (u_vm u) root v with
  | Some (pa, true) => Some (u_bytes u (PHYS_TO_VIRT (hhdm_offset (u_vm u)) pa))
  | _ => None
  end.

(** Byte [j] of a segment in memory. *)
Definition segment_byte (elf : list Z) (ph : elf64_pheader_t) (j : Z) : Z :=
  if j <? p_filesz ph then nth (Z.to_nat (p_offset ph + j)) elf 0 else 0.

(** The loadable headers among [n] headers from [a] on. *)
Fixpoint loadable (n : nat) (elf : list Z) (a : Z) : outcome (list elf64_pheader_t) :=
  match n with
  | O => Ok []
  | S n =>
      ty ← read_le 4 elf a;
      if negb (ty =? PT_LOAD) then loadable n elf (a + sizeof_pheader)
      else ph ← read_pheader elf a; phs ← loadable n elf (a + sizeof_pheader); Ok (ph :: phs)
  end.

(** A segment in the lower half whose contents lie in the file. *)
Record segment_ok (elf : list Z) (ph : elf64_pheader_t) : Prop := {
  se_addr : 0 <= p_vaddr ph /\ p_vaddr ph + p_memsz ph <= 2 ^ 47;
  se_size : 0 <= p_filesz ph <= p_memsz ph;
  se_file : 0 <= p_offset ph /\ p_offset ph + p_filesz ph <= Z.of_nat (length elf) /\ Z.of_nat (length elf) < 2 ^ 63
}.

Definition seg_first (ph : elf64_pheader_t) : Z := p_vaddr ph - p_vaddr ph mod PAGE_SIZE.
Definition seg_last (ph : elf64_pheader_t) : Z := seg_first ph + segment_size ph.
Definition in_segment (ph : elf64_pheader_t) (v : Z) : Prop := seg_first ph <= v < seg_last ph.

(** No page belongs to two segments. *)
Fixpoint disjoint_segments (phs : list elf64_pheader_t) : Prop :=
  match phs with
  | [] => True
  | ph :: rest =>
      Forall (fun q => seg_last ph <= seg_first q \/ seg_last q <= seg_first ph) rest /\ disjoint_segments rest
  end.

(** The pages a program may need, tables included. *)
Definition pages_needed (phs : list elf64_pheader_t) : nat := 4 * sum_list_with segment_fuel phs.

(** An address space whose lower half is the program's. *)
Record space_ok (u : umem) (root : Z) : Prop := {
  sp_tree : tree_ok (u_vm u) root;
  sp_pmm : pmm_ok (vm_pmm (u_vm u));
  sp_hhdm : hhdm_ok (u_vm u);
  sp_us v : pml4_index v < 256 -> upper_us (mem (u_vm u)) (hhdm_offset (u_vm u)) root (upper_path v) = true;
  sp_frames v pa us : pml4_index v < 256 -> walk (u_vm u) root v = Some (pa, us) ->
    exists g, pa = g * PAGE_SIZE + va_offset v /\ 1 <= g < total_pages (vm_pmm (u_vm u)) /\ not_free (vm_pmm (u_vm u)) g
}.

(** ** Lemmas *)

Lemma segment_size_eq elf ph :
  segment_ok elf ph ->
  segment_size ph = (p_memsz ph + p_vaddr ph mod PAGE_SIZE + (PAGE_SIZE - 1)) / PAGE_SIZE * PAGE_SIZE.
Proof.
  intros [[] [] _]. unfold segment_size, PAGE_SIZE. set (po := p_vaddr ph mod 4096).
  assert (0 <= po < 4096) as Hpo by (apply Z.mod_pos_bound; lia). cbv zeta.
  rewrite (u64_small (p_memsz ph + po)) by (unfold fits_u64; lia).
  destruct (Z.eqb_spec ((p_memsz ph + po) mod 4096) 0) as [He|He]; simpl.
  - zdiv.
  - rewrite u64_small; [zdiv|]. unfold fits_u64. zdiv.
Qed.

Lemma segment_size_bounds elf ph :
  segment_ok elf ph ->
  p_memsz ph + p_vaddr ph mod PAGE_SIZE <= segment_size ph /\ 0 <= segment_size ph /\
  segment_size ph mod PAGE_SIZE = 0 /\ seg_last ph <= 2 ^ 47.
Proof.
  intros Hok. unfold seg_last, seg_first. rewrite (segment_size_eq elf) by done. destruct Hok as [[] [] _].
  unfold PAGE_SIZE. assert (0 <= p_vaddr ph mod 4096 < 4096) by (apply Z.mod_pos_bound; lia).
  split_and!; [zdiv|zdiv|apply Z.mod_mul; lia|zdiv].
Qed.

Lemma put_bytes_in m a l x :
  range_ok a (Z.of_nat (length l)) -> within a (Z.of_nat (length l)) x -> put_bytes m a l x = nth (Z.to_nat (x - a)) l 0.
Proof.
  unfold range_ok, within, put_bytes, u64. intros. rewrite Z.mod_small by lia.
  destruct (Z.ltb_spec (x - a) (Z.of_nat (length l))); [done|lia].
Qed.

Lemma put_bytes_other m a l x :
  range_ok a (Z.of_nat (length l)) -> fits_u64 x -> ~ within a (Z.of_nat (length l)) x -> put_bytes m a l x = m x.
Proof.
  unfold range_ok, within, put_bytes, fits_u64, u64. intros.
  destruct (Z.ltb_spec ((x - a) mod 18446744073709551616) (Z.of_nat (length l))); [zdiv|done].
Qed.

Lemma slice_ok elf off n :
  0 <= off -> 0 <= n -> off + n <= Z.of_nat (length elf) ->
  exists l, slice elf off n = Ok l /\ Z.of_nat (length l) = n /\
    forall i, 0 <= i < n -> nth (Z.to_nat i) l 0 = nth (Z.to_nat (off + i)) elf 0.
Proof.
  intros Ho Hn Hl. unfold slice.
  destruct (Z.leb_spec 0 off), (Z.leb_spec (off + n) (Z.of_nat (length elf))); simpl; try lia.
  eexists. split; [reflexivity|]. rewrite length_take, length_drop. split; [lia|]. intros i Hi.
  rewrite !nth_lookup, lookup_take, lookup_drop, decide_True by lia.
  by replace (Z.to_nat off + Z.to_nat i)%nat with (Z.to_nat (off + i)) by lia.
Qed.

(** The page from byte [n] on is cleared. *)
Lemma clear_rest m a n :
  range_ok a 4096 -> 0 <= n <= 4096 ->
  let m' := if n <? 4096 then memset m (u64 (a + n)) 0 (4096 - n) else m in
  (forall k, 0 <= k < 4096 -> m' (a + k) = if k <? n then m (a + k) else 0) /\
  (forall x, fits_u64 x -> ~ within a 4096 x -> m' x = m x).
Proof.
  intros Hr Hn m'. unfold range_ok in Hr. unfold m'. destruct (Z.ltb_spec n 4096) as [Hn'|Hn'].
  - rewrite u64_small by (unfold fits_u64; lia).
    split; [intros k Hk|intros x Hx Hw; apply memset_other; unfold range_ok, within in *; lia || done].
    destruct (Z.ltb_spec k n); [rewrite memset_other; unfold range_ok, within, fits_u64; lia || done|].
    by rewrite memset_in by (unfold range_ok, within; lia).
  - split; [|done]. intros k Hk. destruct (Z.ltb_spec k n); [done|lia].
Qed.

(** A page of a segment gets the segment's bytes; what lies before the segment
    in its first page keeps what the frame held. *)
Lemma fill_page_ok elf ph off g h m :
  segment_ok elf ph -> 0 <= off < segment_size ph -> off mod PAGE_SIZE = 0 ->
  range_ok (g * PAGE_SIZE + h) PAGE_SIZE ->
  let a := g * PAGE_SIZE + h in
  exists m', fill_page elf ph off (g * PAGE_SIZE) h m = Ok m' /\
    (forall k, 0 <= k < PAGE_SIZE -> 0 <= off + k - p_vaddr ph mod PAGE_SIZE ->
       m' (a + k) = segment_byte elf ph (off + k - p_vaddr ph mod PAGE_SIZE)) /\
    (forall x, fits_u64 x -> ~ within a PAGE_SIZE x -> m' x = m x).
Proof.
  intros Hok Hoff Hmod Hr a. pose proof (segment_size_bounds _ _ Hok) as (_ & _ & _ & Hlast).
  unfold seg_last, seg_first in Hlast. destruct Hok as [[] [] (Hpo & Hfile & Hlen)].
  unfold fill_page, segment_byte, range_ok in *. unfold PAGE_SIZE in *.
  set (po := p_vaddr ph mod 4096) in *. assert (0 <= po < 4096) as Hpo' by (apply Z.mod_pos_bound; lia).
  set (dpo := if off =? 0 then po else 0). set (fro := if off =? 0 then 0 else u64 (off - po)).
  assert (0 <= dpo < 4096 /\ 0 <= fro /\ off - po = fro - dpo /\ (0 <= off - po + dpo) /\
    forall k, 0 <= off + k - po -> 0 <= k -> dpo <= k) as (Hd & Hf & He & _ & Hk).
  { subst dpo fro. destruct (Z.eqb_spec off 0) as [->|Hne]; [split_and!; try lia; intros; lia|].
    rewrite u64_small by (unfold fits_u64; zdiv). split_and!; zdiv. }
  clearbody dpo fro. assert (PHYS_TO_VIRT h (g * 4096) = a) as ->.
  { unfold PHYS_TO_VIRT, a. apply u64_small. unfold fits_u64. lia. }
  destruct (Z.ltb_spec fro (p_filesz ph)) as [Hlt|Hge].
  - rewrite (u64_small (p_filesz ph - fro)), (u64_small (p_offset ph + fro)) by (unfold fits_u64; lia).
    set (n := if p_filesz ph - fro >? 4096 - dpo then 4096 - dpo else p_filesz ph - fro).
    assert (0 <= n /\ n <= 4096 - dpo /\ n <= p_filesz ph - fro /\ (n = 4096 - dpo \/ n = p_filesz ph - fro)) as (N1 & N2 & N3 & N4).
    { subst n. rewrite Z.gtb_ltb. destruct (Z.ltb_spec (4096 - dpo) (p_filesz ph - fro)); split_and!; lia. }
    clearbody n. destruct (slice_ok elf (p_offset ph + fro) n) as (l & -> & Hll & Hnth); [lia..|]. mred.
    rewrite (u64_small (a + dpo)) by (unfold fits_u64; lia).
    destruct (clear_rest (put_bytes m (a + dpo) l) a (n + dpo) Hr) as [Hin Hout]; [lia|].
    eexists. split; [reflexivity|]. split.
    + intros k Hkr Hj. specialize (Hk k Hj). rewrite Hin by done. destruct (Z.ltb_spec k (n + dpo)).
      * rewrite put_bytes_in by (unfold range_ok, within; lia). destruct (Z.ltb_spec (off + k - po) (p_filesz ph)); [|lia].
        rewrite Hnth by lia. f_equal. lia.
      * destruct (Z.ltb_spec (off + k - po) (p_filesz ph)); [lia|done].
    + intros x Hx Hw. rewrite Hout by done. apply put_bytes_other; unfold range_ok, within in *; lia || done.
  - mred. destruct (clear_rest m a dpo Hr) as [Hin Hout]; [lia|]. eexists. split; [reflexivity|]. split; [|done].
    intros k Hkr Hj. specialize (Hk k Hj). rewrite Hin by done.
    destruct (Z.ltb_spec k dpo), (Z.ltb_spec (off + k - po) (p_filesz ph)); lia || done.
Qed.

Lemma va_offset_mod v : va_offset v = v mod PAGE_SIZE.
Proof. unfold va_offset. rewrite bf_get_div by lia. by rewrite Z.pow_0_r, Z.div_1_r. Qed.

Lemma pml4_index_low v : 0 <= v < 2 ^ 47 -> pml4_index v < 256.
Proof. intros. unfold pml4_index. rewrite bf_get_div by lia. zdiv. Qed.

Lemma same_page_div v v' :
  0 <= v < 2 ^ 48 -> 0 <= v' < 2 ^ 48 -> same_page v v' = (v / PAGE_SIZE =? v' / PAGE_SIZE).
Proof.
  intros Hv Hv'. unfold same_page, PAGE_SIZE. rewrite !bf_get_div by lia. change (2 ^ 12) with 4096.
  rewrite !Z.mod_small by zdiv. done.
Qed.

Lemma same_page_pml4 v v' : same_page v v' = true -> pml4_index v = pml4_index v'.
Proof. intros [Hu _]%same_page_indices. by injection Hu. Qed.

(** What a page gains and what stays. *)
Record page_added (u u' : umem) (root v g : Z) (m' : bytes) : Prop := {
  pa_ok : space_ok u' root;
  pa_hhdm : hhdm_offset (u_vm u') = hhdm_offset (u_vm u);
  pa_page v' : same_page v v' = true ->
    user_byte u' root v' = Some (m' (g * PAGE_SIZE + hhdm_offset (u_vm u) + va_offset v'));
  pa_rest v' : pml4_index v' < 256 -> same_page v v' = false -> user_byte u' root v' = user_byte u root v';
  pa_kernel v' : 256 <= pml4_index v' -> walk (u_vm u') root v' = walk (u_vm u) root v'
}.

Lemma frame_addr u g o :
  hhdm_ok (u_vm u) -> 1 <= g < total_pages (vm_pmm (u_vm u)) -> 0 <= o < PAGE_SIZE ->
  PHYS_TO_VIRT (hhdm_offset (u_vm u)) (g * PAGE_SIZE + o) = g * PAGE_SIZE + hhdm_offset (u_vm u) + o.
Proof.
  intros [H1 H2] Hg Ho. unfold PHYS_TO_VIRT, PAGE_SIZE in *. rewrite u64_small; [lia|]. unfold fits_u64. lia.
Qed.

(** A fresh frame [g] is behind the page of [v]. *)
Record frame_mapped (s s' : vm) (root v g : Z) : Prop := {
  fm_fresh : ~ not_free (vm_pmm s) g;
  fm_taken : not_free (vm_pmm s') g;
  fm_own f : not_free (vm_pmm s) f -> not_free (vm_pmm s') f;
  fm_page v' : same_page v v' = true -> walk s' root v' = Some (g * PAGE_SIZE + va_offset v', true);
  fm_rest v' : same_page v v' = false -> walk s' root v' = walk s root v'
}.

Lemma add_page_ok u root v F :
  space_ok u root -> free_pages (vm_pmm (u_vm u)) F -> (4 <= size F)%nat -> 0 <= v < 2 ^ 47 ->
  exists g p s', pmm_alloc (vm_pmm (u_vm u)) = Ok (g * PAGE_SIZE, p) /\ g * PAGE_SIZE <> 0 /\
    map_page root v (g * PAGE_SIZE) user_flags (with_pmm (u_vm u) p) = Ok s' /\
    hhdm_offset s' = hhdm_offset (u_vm u) /\ 1 <= g < total_pages (vm_pmm (u_vm u)) /\
    (exists F', free_pages (vm_pmm s') F' /\ (size F <= size F' + 4)%nat) /\ frame_mapped (u_vm u) s' root v g /\
    forall m', (forall x, fits_u64 x -> ~ within (g * PAGE_SIZE + hhdm_offset (u_vm u)) PAGE_SIZE x -> m' x = u_bytes u x) ->
      page_added u (mk_umem s' m') root v g m'.
Proof.
  intros [T P Hh Hus Hfr] HF Hsz Hv.
  destruct (alloc_fresh _ _ P HF) as [[-> _]|(g & p & Ha & Hg & HF' & Hsame & Hok' & Hg1 & Hgf & Hnf & Hnf' & Hmono)].
  { rewrite size_empty in Hsz. lia. }
  assert (1 <= g < total_pages (vm_pmm (u_vm u))) as Hgr by (by apply HF).
  exists g, p. assert (size (F ∖ {[g]}) = size F - 1)%nat as Hs1.
  { rewrite size_difference by set_solver. by rewrite size_singleton. }
  pose proof (map_page_ok (with_pmm (u_vm u) p) root v (g * PAGE_SIZE) user_flags _
    (tree_ok_mono _ p root T Hmono) Hok' HF') as Hmap.
  destruct (map_page root v (g * PAGE_SIZE) user_flags (with_pmm (u_vm u) p)) as [s'| | |]; [|lia|done|done].
  destruct Hmap as [[M1 M2 M3 M4 M5 M6 M7 M8 M9] (F' & HF2 & Hsz')]. exists s'.
  cbn [with_pmm mem hhdm_offset vm_pmm kernel_pml4] in *.
  assert (total_pages (vm_pmm s') = total_pages (vm_pmm (u_vm u))) as Htot
    by (destruct M3 as [-> _], Hsame as [-> _]; done).
  assert (g * PAGE_SIZE / PAGE_SIZE mod 2 ^ 40 = g) as Hgd.
  { unfold PAGE_SIZE. rewrite Z.div_mul by lia. apply Z.mod_small. apply Hgf. }
  assert (pml4_index v < 256) as Hvl by (by apply pml4_index_low).
  rewrite Hgd, (Hus v Hvl), andb_true_r in M8. change (negb (Z.land user_flags PTE_USER =? 0)) with true in M8.
  split_and!; [done|unfold PAGE_SIZE; lia|done|done|lia|lia|exists F'; split; [done|lia]|constructor; auto|].
  intros m' Hm'. constructor; cbn [u_vm u_bytes].
  - constructor; cbn [u_vm u_bytes]; try done.
    + unfold hhdm_ok in *. by rewrite M4, Htot.
    + intros v' Hv'. specialize (M7 (upper_path v') (upper_path_good v')). rewrite (Hus v' Hv') in M7. exact M7.
    + intros v' pa us Hv' Hw. rewrite Htot. destruct (same_page v v') eqn:Hsp.
      * rewrite M8 in Hw by done. injection Hw as <- _. exists g. split_and!; [done|lia|lia|auto].
      * rewrite M9 in Hw by done. destruct (Hfr v' pa us Hv' Hw) as (f & -> & ? & ?). exists f. split_and!; auto; lia.
  - done.
  - intros v' Hsp. unfold user_byte. cbn [u_vm u_bytes]. rewrite M8, M4 by done.
    rewrite (frame_addr u) by (done || apply (bf_get_range v' 0 12); lia). done.
  - intros v' Hv' Hsp. unfold user_byte. cbn [u_vm u_bytes]. rewrite M9, M4 by done. fold (walk (u_vm u) root v').
    change (walk (with_pmm (u_vm u) p) root v') with (walk (u_vm u) root v').
    destruct (walk (u_vm u) root v') as [[pa []]|] eqn:Hw; [|done..]. f_equal.
    destruct (Hfr v' pa true Hv' Hw) as (f & -> & Hf & Hfn).
    assert (f <> g) as Hfg by (intros ->; done).
    assert (0 <= va_offset v' < PAGE_SIZE) as Ho by (apply (bf_get_range v' 0 12); lia).
    rewrite (frame_addr u f) by done. destruct Hh as [Hh1 Hh2]. unfold PAGE_SIZE in *.
    apply Hm'; unfold fits_u64, within; lia.
  - intros v' Hv'. apply M9. destruct (same_page v v') eqn:Hsp; [|done]. apply same_page_pml4 in Hsp. lia.
Qed.

(** The pages of a segment from address [lo] on are in memory. *)
Record seg_loaded (elf : list Z) (ph : elf64_pheader_t) (u u' : umem) (root lo : Z) : Prop := {
  sg_ok : space_ok u' root;
  sg_bytes v : lo <= v < seg_last ph -> p_vaddr ph <= v ->
    user_byte u' root v = Some (segment_byte elf ph (v - p_vaddr ph));
  sg_rest v : 0 <= v < 2 ^ 47 -> ~ (lo <= v < seg_last ph) -> user_byte u' root v = user_byte u root v;
  sg_kernel v : 256 <= pml4_index v -> walk (u_vm u') root v = walk (u_vm u) root v;
  sg_hhdm : hhdm_offset (u_vm u') = hhdm_offset (u_vm u)
}.

Lemma load_pages_ok elf ph root fuel u off F :
  segment_ok elf ph -> space_ok u root -> free_pages (vm_pmm (u_vm u)) F -> (4 * fuel <= size F)%nat ->
  0 <= off -> off mod PAGE_SIZE = 0 -> segment_size ph - off = Z.of_nat fuel * PAGE_SIZE ->
  exists u', load_pages fuel elf ph root off u = Ok (true, u') /\
    seg_loaded elf ph u u' root (seg_first ph + off) /\
    exists F', free_pages (vm_pmm (u_vm u')) F' /\ (size F <= size F' + 4 * fuel)%nat.
Proof.
  intros Hseg. pose proof (segment_size_bounds _ _ Hseg) as (_ & _ & Hsm & Hlast).
  pose proof (se_addr _ _ Hseg) as [Hva _]. unfold seg_last in Hlast.
  assert (seg_first ph = p_vaddr ph / PAGE_SIZE * PAGE_SIZE) as Hfirst by (unfold seg_first, PAGE_SIZE; zdiv).
  assert (0 <= seg_first ph) as Hf0 by (rewrite Hfirst; unfold PAGE_SIZE; zdiv).
  revert u off F. induction fuel as [|fuel IH]; intros u off F Hsp HF Hsz Hoff Hmod Hleft; cbn [load_pages].
  { destruct (Z.ltb_spec off (segment_size ph)); [lia|]. exists u. split; [done|]. split; [|exists F; split; [done|lia]].
    constructor; try done. intros v Hv'. unfold seg_last in Hv'. lia. }
  destruct (Z.ltb_spec off (segment_size ph)); [|unfold PAGE_SIZE in *; lia].
  assert (0 <= seg_first ph + off < 2 ^ 47) as Hv by (unfold PAGE_SIZE in *; zdiv).
  destruct (add_page_ok u root (seg_first ph + off) F Hsp HF ltac:(lia) Hv)
    as (g & p & s' & Ha & Hg0 & Hm & Hh & Hg & (F1 & HF1 & Hs1) & _ & Hadd).
  rewrite Ha. mred. rewrite (proj2 (Z.eqb_neq _ 0) Hg0). fold (seg_first ph).
  rewrite (u64_small (seg_first ph + off)) by (unfold fits_u64; lia). rewrite Hm. mred. rewrite Hh.
  assert (range_ok (g * PAGE_SIZE + hhdm_offset (u_vm u)) PAGE_SIZE) as Hr.
  { destruct (sp_hhdm _ _ Hsp). unfold range_ok, PAGE_SIZE in *. lia. }
  destruct (fill_page_ok elf ph off g (hhdm_offset (u_vm u)) (u_bytes u) Hseg ltac:(lia) Hmod Hr)
    as (m' & -> & Hin & Hout). mred.
  destruct (Hadd m' Hout) as [A1 A2 A3 A4 A5]. rewrite u64_small by (unfold fits_u64, PAGE_SIZE in *; lia).
  destruct (IH (mk_umem s' m') (off + PAGE_SIZE) F1) as (u' & -> & [L1 L2 L3 L4 L5] & F' & HF' & Hs'); try done;
    [lia|unfold PAGE_SIZE in *; lia|unfold PAGE_SIZE in *; zdiv|lia|].
  exists u'. split; [done|]. split; [|exists F'; split; [done|lia]].
  assert (forall v, 0 <= v < 2 ^ 47 -> same_page (seg_first ph + off) v = true <->
    seg_first ph + off <= v < seg_first ph + (off + PAGE_SIZE)) as Hpage.
  { intros v Hvr. rewrite same_page_div by lia. rewrite Z.eqb_eq, Hfirst. unfold PAGE_SIZE in *. zdiv. }
  constructor; [done| | |intros v Hv'; by rewrite L4, A5|by rewrite L5].
  - intros v Hv1 Hv2. unfold seg_last in Hv1. destruct (decide (seg_first ph + (off + PAGE_SIZE) <= v)).
    { apply L2; [unfold seg_last; lia|done]. }
    rewrite L3 by lia. rewrite A3 by (apply Hpage; lia). rewrite va_offset_mod.
    assert (v mod PAGE_SIZE = v - seg_first ph - off) as Hk by (rewrite Hfirst; unfold PAGE_SIZE in *; zdiv).
    assert (0 <= v mod PAGE_SIZE < PAGE_SIZE) by (apply Z.mod_pos_bound; done).
    rewrite Hin; [|done|unfold seg_first in Hk; lia]. do 2 f_equal. unfold seg_first in Hk. lia.
  - intros v Hvr Hn. unfold seg_last in *. rewrite L3 by (unfold PAGE_SIZE in *; lia). apply A4; [by apply pml4_index_low|].
    destruct (same_page _ v) eqn:Hsame; [|done]. apply Hpage in Hsame; [|done]. unfold PAGE_SIZE in *. lia.
Qed.

Lemma loadable_cons n elf a phs :
  loadable (S n) elf a = Ok phs ->
  exists ty, read_le 4 elf a = Ok ty /\
    if ty =? PT_LOAD then exists ph rest, phs = ph :: rest /\ read_pheader elf a = Ok ph /\
      loadable n elf (a + sizeof_pheader) = Ok rest
    else loadable n elf (a + sizeof_pheader) = Ok phs.
Proof.
  cbn [loadable]. destruct (read_le 4 elf a) as [ty| | |]; mred; try discriminate. intros Hl. exists ty. split; [done|].
  destruct (ty =? PT_LOAD); cbn [negb] in Hl; [|done]. ok_inv. by eexists _, _.
Qed.

(** All segments are in memory, the rest of the lower half is as it was. *)
Record all_loaded (elf : list Z) (phs : list elf64_pheader_t) (u u' : umem) (root : Z) : Prop := {
  al_ok : space_ok u' root;
  al_bytes ph v : ph ∈ phs -> p_vaddr ph <= v < seg_last ph ->
    user_byte u' root v = Some (segment_byte elf ph (v - p_vaddr ph));
  al_rest v : 0 <= v < 2 ^ 47 -> (forall ph, ph ∈ phs -> ~ in_segment ph v) -> user_byte u' root v = user_byte u root v;
  al_kernel v : 256 <= pml4_index v -> walk (u_vm u') root v = walk (u_vm u) root v;
  al_hhdm : hhdm_offset (u_vm u') = hhdm_offset (u_vm u)
}.

Lemma load_segments_ok elf root n a phs u F :
  loadable n elf a = Ok phs -> Forall (segment_ok elf) phs -> disjoint_segments phs -> space_ok u root ->
  free_pages (vm_pmm (u_vm u)) F -> (pages_needed phs <= size F)%nat ->
  exists u', load_segments n elf a root u = Ok (true, u') /\ all_loaded elf phs u u' root /\
    exists F', free_pages (vm_pmm (u_vm u')) F' /\ (size F <= size F' + pages_needed phs)%nat.
Proof.
  revert a phs u F. induction n as [|n IH]; intros a phs u F Hl Hok Hdis Hsp HF Hsz.
  { injection Hl as <-. exists u. split; [done|]. split; [|exists F; split; [done|lia]]. constructor; try done. set_solver. }
  apply loadable_cons in Hl as (ty & Hty & Hl). cbn [load_segments]. rewrite Hty. mred.
  destruct (ty =? PT_LOAD); cbn [negb]; [|by apply (IH _ phs u F)].
  destruct Hl as (ph & rest & -> & -> & Hl). mred.
  apply Forall_cons in Hok as [Hph Hrest]. destruct Hdis as [Hd Hdis]. rewrite Forall_forall in Hd.
  unfold pages_needed in Hsz. cbn [sum_list_with] in Hsz.
  pose proof (segment_size_bounds _ _ Hph) as (Hmem & Hs0 & Hsm & Hlast).
  destruct (load_pages_ok elf ph root (segment_fuel ph) u 0 F Hph Hsp HF ltac:(lia) ltac:(lia) eq_refl)
    as (u1 & -> & [L1 L2 L3 L4 L5] & F1 & HF1 & Hs1).
  { unfold segment_fuel, PAGE_SIZE in *. rewrite Z2Nat.id by zdiv. zdiv. }
  mred. cbn [negb]. rewrite Z.add_0_r in *.
  destruct (IH _ rest u1 F1 Hl Hrest Hdis L1 HF1) as (u2 & -> & [A1 A2 A3 A4 A5] & F2 & HF2 & Hs2);
    [unfold pages_needed; lia|].
  exists u2. split; [done|]. split; [|exists F2; split; [done|unfold pages_needed in *; simpl; lia]].
  constructor; [done| | |intros v Hv; by rewrite A4, L4|by rewrite A5].
  - intros q v [->|Hq]%elem_of_cons Hv; [|by apply A2].
    assert (seg_first ph <= p_vaddr ph /\ 0 <= p_vaddr ph) as [Hf Hva].
    { destruct (se_addr _ _ Hph). unfold seg_first, PAGE_SIZE. zdiv. }
    rewrite A3; [apply L2; lia|lia|]. intros q Hq Hin. unfold in_segment in Hin. destruct (Hd q Hq); lia.
  - intros v Hv Hno. rewrite A3; [|done|intros q Hq; apply Hno; by right]. apply L3; [done|]. apply Hno. by left.
Qed.

(** The fresh address space [load_elf_binary] starts from: an empty lower half,
    the kernel's upper half. *)
Lemma fresh_space u F :
  tree_ok (u_vm u) (kernel_pml4 (u_vm u)) -> pmm_ok (vm_pmm (u_vm u)) -> hhdm_ok (u_vm u) ->
  free_pages (vm_pmm (u_vm u)) F -> F <> ∅ ->
  exists g p, pmm_alloc (vm_pmm (u_vm u)) = Ok (g * PAGE_SIZE, p) /\
    let s := with_pmm (u_vm u) p in
    let r := PHYS_TO_VIRT (hhdm_offset s) (g * PAGE_SIZE) in
    let u' := mk_umem (with_mem s (copy_kernel_half (clear_page (mem s) r) r (kernel_pml4 s))) (u_bytes u) in
    space_ok u' r /\ free_pages (vm_pmm (u_vm u')) (F ∖ {[g]}) /\ g ∈ F /\
    forall v, walk (u_vm u') r v = if decide (256 <= pml4_index v) then walk (u_vm u) (kernel_pml4 (u_vm u)) v else None.
Proof.
  intros Htree Hok Hhh HF Hne. set (s := u_vm u) in *.
  destruct (alloc_fresh (vm_pmm s) F Hok HF) as [[-> _]|Hsome]; [done|].
  destruct Hsome as (g & p' & Ha & Hg & HF' & Hsame & Hok' & Hg1 & Hgf & Hnf & Hnf' & Hmono).
  exists g, p'. split; [exact Ha|]. cbn [with_pmm with_mem hhdm_offset mem kernel_pml4 u_vm vm_pmm].
  pose proof (new_pml4_frame s g Htree Hgf Hnf) as Hmem. cbv zeta in Hmem.
  set (r := PHYS_TO_VIRT (hhdm_offset s) (g * PAGE_SIZE)) in *.
  set (m' := copy_kernel_half _ _ _) in *. clearbody m'. set (s' := with_mem _ m').
  assert (tree_ok s' r) as Ht by (by apply (new_pml4_tree s s' g (kernel_pml4 s) 256)).
  assert (forall v, walk s' r v = if decide (256 <= pml4_index v) then walk s (kernel_pml4 s) v else None) as Hw
    by (intros v; by apply (new_pml4_walk s s' g (kernel_pml4 s) 256)).
  split; [|by split_and!]. constructor; cbn [u_vm]; try assumption.
  - destruct Hsame as [Htot _]. unfold hhdm_ok in *. cbn. by rewrite Htot.
  - intros v Hv. unfold upper_path. cbn [upper_us].
    assert (mem s' (entry_addr r (pml4_index v)) = 0) as ->; [|reflexivity].
    pose proof (index_range_9 v 39) as Hi. fold (pml4_index v) in Hi. cbn [s' with_mem mem]. unfold r.
    rewrite Hmem by (done || lia). rewrite decide_True, decide_False by (done || lia). done.
  - intros v pa us Hv Hx. rewrite Hw, decide_False in Hx by lia. done.
Qed.

(** A program file: its header, its loadable segments [phs] and its entry point. *)
Record program_ok (elf : list Z) (phs : list elf64_pheader_t) (entry : Z) : Prop := {
  pr_magic : read_le 4 elf off_e_ident = Ok ELF_MAGIC;
  pr_headers : exists phoff phnum, read_le 8 elf off_e_phoff = Ok phoff /\ read_le 2 elf off_e_phnum = Ok phnum /\
    loadable (Z.to_nat phnum) elf phoff = Ok phs;
  pr_entry : read_le 8 elf off_e_entry = Ok entry;
  pr_segments : Forall (segment_ok elf) phs;
  pr_disjoint : disjoint_segments phs
}.

(** The address space at [root] holds the program and nothing else below the kernel. *)
Record program_loaded (elf : list Z) (phs : list elf64_pheader_t) (u u' : umem) (root : Z) : Prop := {
  pl_space : space_ok u' root;
  pl_hhdm : hhdm_offset (u_vm u') = hhdm_offset (u_vm u);
  pl_bytes ph j : ph ∈ phs -> 0 <= j < p_memsz ph -> user_byte u' root (p_vaddr ph + j) = Some (segment_byte elf ph j);
  pl_rest v : 0 <= v < 2 ^ 47 -> (forall ph, ph ∈ phs -> ~ in_segment ph v) -> user_byte u' root v = None;
  pl_kernel v : 256 <= pml4_index v -> walk (u_vm u') root v = walk (u_vm u) (kernel_pml4 (u_vm u)) v
}.

Lemma load_elf_ok elf u F phs entry :
  tree_ok (u_vm u) (kernel_pml4 (u_vm u)) -> pmm_ok (vm_pmm (u_vm u)) -> hhdm_ok (u_vm u) ->
  free_pages (vm_pmm (u_vm u)) F -> (S (pages_needed phs) <= size F)%nat -> program_ok elf phs entry ->
  exists pml4_phys u', load_elf_binary elf u = Ok (Loaded entry pml4_phys, u') /\
    program_loaded elf phs u u' (PHYS_TO_VIRT (hhdm_offset (u_vm u)) pml4_phys) /\
    exists F', free_pages (vm_pmm (u_vm u')) F' /\ (size F <= size F' + S (pages_needed phs))%nat.
Proof.
  intros Ht Hp Hh HF Hsz [Hmagic (phoff & phnum & Hoff & Hnum & Hl) Hent Hok Hdis].
  destruct (fresh_space u F Ht Hp Hh HF) as (g & p & Ha & Hsp & HF' & Hg & Hw).
  { intros ->. rewrite size_empty in Hsz. lia. }
  unfold load_elf_binary. rewrite Hmagic. mred. rewrite Z.eqb_refl, Ha. cbn [negb]. mred. rewrite Hoff, Hnum. mred.
  assert (size (F ∖ {[g]}) = size F - 1)%nat as Hs1.
  { rewrite size_difference by (apply singleton_subseteq_l; exact Hg). by rewrite size_singleton. }
  revert Hsp HF' Hw. set (r := PHYS_TO_VIRT _ (g * PAGE_SIZE)). set (u1 := mk_umem _ (u_bytes u)).
  assert (hhdm_offset (u_vm u1) = hhdm_offset (u_vm u)) as Hh1 by done. clearbody u1. intros Hsp HF' Hw.
  destruct (load_segments_ok elf r (Z.to_nat phnum) phoff phs u1 _ Hl Hok Hdis Hsp HF')
    as (u' & -> & [A1 A2 A3 A4 A5] & F2 & HF2 & Hs2); [lia|].
  mred. cbn [negb]. rewrite Hent. mred. exists (g * PAGE_SIZE), u'. split; [done|].
  split; [|exists F2; split; [done|lia]].
  change (PHYS_TO_VIRT (hhdm_offset (u_vm u)) (g * PAGE_SIZE)) with r. constructor; [done|by rewrite A5|..].
  - intros ph j Hph Hj. rewrite (A2 ph) by (done || (pose proof (proj1 (Forall_forall _ _) Hok ph Hph) as Hs;
      destruct (segment_size_bounds _ _ Hs); unfold seg_last, seg_first; lia)). do 2 f_equal. lia.
  - intros v Hv Hno. rewrite A3 by done. unfold user_byte. rewrite Hw, decide_False; [done|].
    pose proof (pml4_index_low v Hv). lia.
  - intros v Hv. rewrite A4, Hw, decide_True by done. reflexivity.
Qed.

(** ** Theorems *)

(** C8: [load_elf_binary] on a file with the right magic number, whose loadable
    segments lie in the lower half and share no page, and with pages enough,
    returns the entry point and a new address space in which user code reads, at
    every address of a segment, the segment's byte from the file or zero past the
    file's part; no other address of the lower half is mapped, and the upper half
    is the kernel's. *)
Theorem load_elf_binary_correct elf u F phs entry :
  tree_ok (u_vm u) (kernel_pml4 (u_vm u)) -> pmm_ok (vm_pmm (u_vm u)) -> hhdm_ok (u_vm u) ->
  free_pages (vm_pmm (u_vm u)) F -> (S (pages_needed phs) <= size F)%nat -> program_ok elf phs entry ->
  exists pml4_phys u', load_elf_binary elf u = Ok (Loaded entry pml4_phys, u') /\
    let root := PHYS_TO_VIRT (hhdm_offset (u_vm u)) pml4_phys in
    (forall ph j, ph ∈ phs -> 0 <= j < p_memsz ph ->
       user_byte u' root (p_vaddr ph + j) = Some (segment_byte elf ph j)) /\
    (forall v, 0 <= v < 2 ^ 47 -> (forall ph, ph ∈ phs -> ~ in_segment ph v) -> user_byte u' root v = None) /\
    (forall v, 256 <= pml4_index v -> walk (u_vm u') root v = walk (u_vm u) (kernel_pml4 (u_vm u)) v).
Proof.
  intros Ht Hp Hh HF Hsz Hpr. destruct (load_elf_ok elf u F phs entry Ht Hp Hh HF Hsz Hpr) as (pml4 & u' & Hl & [] & _).
  exists pml4, u'. by split_and!.
Qed.

(** A program of four bytes of code and four of zeros at 4 MiB. *)
Definition sample_pheader : elf64_pheader_t := mk_pheader 1 5 120 4194304 0 4 8 4096.
Definition sample_elf : list Z :=
  [127; 69; 76; 70] ++ replicate 12 0 ++ replicate 8 0 ++ [0; 0; 64; 0; 0; 0; 0; 0] ++ [64; 0; 0; 0; 0; 0; 0; 0]
  ++ replicate 16 0 ++ [1; 0] ++ replicate 6 0
  ++ [1; 0; 0; 0] ++ [5; 0; 0; 0] ++ [120; 0; 0; 0; 0; 0; 0; 0] ++ [0; 0; 64; 0; 0; 0; 0; 0] ++ replicate 8 0
  ++ [4; 0; 0; 0; 0; 0; 0; 0] ++ [8; 0; 0; 0; 0; 0; 0; 0] ++ [0; 16; 0; 0; 0; 0; 0; 0] ++ [11; 12; 13; 14].

Lemma sample_program : program_ok sample_elf [sample_pheader] 4194304.
Proof.
  constructor; try reflexivity.
  - exists 64, 1. split_and!; reflexivity.
  - constructor; [|constructor]. constructor; vm_compute; split_and!; congruence || reflexivity.
  - split; [constructor|exact I].
Qed.

Lemma load_elf_binary_correct_witness :
  exists pml4_phys u', load_elf_binary sample_elf (mk_umem sample_vm (fun _ => 0)) = Ok (Loaded 4194304 pml4_phys, u') /\
    user_byte u' (PHYS_TO_VIRT (hhdm_offset sample_vm) pml4_phys) 4194305 = Some 12 /\
    user_byte u' (PHYS_TO_VIRT (hhdm_offset sample_vm) pml4_phys) 4194310 = Some 0.
Proof.
  destruct (load_elf_binary_correct sample_elf (mk_umem sample_vm (fun _ => 0)) (list_to_set (seqZ 2 14))
    [sample_pheader] 4194304 sample_vm_tree sample_vm_pmm) as (p & u' & Hl & Hb & _).
  - unfold hhdm_ok. simpl. unfold PAGE_SIZE. lia.
  - exact sample_vm_free.
  - vm_compute. lia.
  - exact sample_program.
  - exists p, u'. split; [exact Hl|]. split.
    + apply (Hb sample_pheader 1); [left|vm_compute; split; congruence].
    + apply (Hb sample_pheader 6); [left|vm_compute; split; congruence].
Defined.
