(* ===== verification/Desc.v ===== *)
(** * Descriptor tables (src/kernel/gdt.c, src/kernel/intr/idt.c, src/kernel/intr/intr.c,
    src/include/asm/desc_defs.h, src/include/asm/segment.h)

    A segment descriptor is the 64-bit word the processor reads, written field
    by field through bit-fields; an interrupt gate is a record of its packed
    fields.  [intr_init] is the whole set-up of the interrupt descriptor table;
    handlers are their addresses. *)

From S2P Require Import Prelude Device.

(** ** Segment descriptors *)

Definition d_limit0 (e : Z) : Z := bf_get e 0 16.
Definition d_base0 (e : Z) : Z := bf_get e 16 16.
Definition d_base1 (e : Z) : Z := bf_get e 32 8.
Definition d_type (e : Z) : Z := bf_get e 40 4.
Definition d_s (e : Z) : Z := bf_get e 44 1.
Definition d_dpl (e : Z) : Z := bf_get e 45 2.
Definition d_p (e : Z) : Z := bf_get e 47 1.
Definition d_limit1 (e : Z) : Z := bf_get e 48 4.
Definition d_avl (e : Z) : Z := bf_get e 52 1.
Definition d_l (e : Z) : Z := bf_get e 53 1.
Definition d_d (e : Z) : Z := bf_get e 54 1.
Definition d_g (e : Z) : Z := bf_get e 55 1.
Definition d_base2 (e : Z) : Z := bf_get e 56 8.

Definition _DESC_ACCESSED : Z := 1.
Definition _DESC_DATA_WRITABLE : Z := 2.
Definition _DESC_CODE_READABLE : Z := 2.
Definition _DESC_CODE_EXECUTABLE : Z := 8.
Definition _DESC_S : Z := 16.
Definition _DESC_DPL (dpl : Z) : Z := Z.shiftl dpl 5.
Definition _DESC_PRESENT : Z := 128.
Definition _DESC_LONG_CODE : Z := 8192.
Definition _DESC_DB : Z := 16384.
Definition _DESC_GRAN_4K : Z := 32768.
Definition _DESC_DATA : Z :=
  Z.lor (Z.lor (Z.lor _DESC_S _DESC_PRESENT) _DESC_ACCESSED) _DESC_DATA_WRITABLE.
Definition _DESC_CODE : Z :=
  Z.lor (Z.lor (Z.lor (Z.lor _DESC_S _DESC_PRESENT) _DESC_ACCESSED) _DESC_CODE_READABLE)
    _DESC_CODE_EXECUTABLE.
Definition DESC_CODE64 : Z := Z.lor (Z.lor _DESC_CODE _DESC_GRAN_4K) _DESC_LONG_CODE.
Definition DESC_DATA64 : Z := Z.lor (Z.lor _DESC_DATA _DESC_GRAN_4K) _DESC_DB.
Definition DESC_USER : Z := _DESC_DPL 3.

Definition GDT_ENTRY_KERNEL_CS : Z := 1.
Definition GDT_ENTRY_KERNEL_DS : Z := 2.
Definition GDT_ENTRY_DEFAULT_USER_DS : Z := 3.
Definition GDT_ENTRY_DEFAULT_USER_CS : Z := 4.
Definition GDT_ENTRY_TSS : Z := 5.
Definition GDT_ENTRIES : Z := 7.
Definition __KERNEL_CS : Z := GDT_ENTRY_KERNEL_CS * 8.
Definition __KERNEL_DS : Z := GDT_ENTRY_KERNEL_DS * 8.
Definition __USER_CS : Z := GDT_ENTRY_DEFAULT_USER_CS * 8.
Definition __USER_DS : Z := GDT_ENTRY_DEFAULT_USER_DS * 8.
Definition __TSS_SEG : Z := GDT_ENTRY_TSS * 8.

Definition set_gdt_gate (e base limit flags : Z) : Z :=
  let e := bf_set e 16 16 (Z.land base 65535) in
  let e := bf_set e 32 8 (Z.land (Z.shiftr base 16) 255) in
  let e := bf_set e 56 8 (Z.land (Z.shiftr base 24) 255) in
  let e := bf_set e 0 16 (Z.land limit 65535) in
  let e := bf_set e 48 4 (Z.land (Z.shiftr limit 16) 65535) in
  let e := bf_set e 40 4 (Z.land flags 15) in
  let e := bf_set e 40 4 (Z.land (Z.shiftr flags 0) 15) in
  let e := bf_set e 44 1 (Z.land (Z.shiftr flags 4) 1) in
  let e := bf_set e 45 2 (Z.land (Z.shiftr flags 5) 3) in
  let e := bf_set e 47 1 (Z.land (Z.shiftr flags 7) 1) in
  let e := bf_set e 52 1 (Z.land (Z.shiftr flags 12) 1) in
  let e := bf_set e 53 1 (Z.land (Z.shiftr flags 13) 1) in
  let e := bf_set e 54 1 (Z.land (Z.shiftr flags 14) 1) in
  bf_set e 55 1 (Z.land (Z.shiftr flags 15) 1).

(** The two words of a TSS descriptor. *)
Definition set_gdt_tss_gate (base limit : Z) : Z * Z :=
  let e := 0 in
  let e := bf_set e 0 16 (Z.land limit 65535) in
  let e := bf_set e 16 16 (Z.land base 65535) in
  let e := bf_set e 32 8 (Z.land (Z.shiftr base 16) 255) in
  let e := bf_set e 40 4 9 in
  let e := bf_set e 44 1 0 in
  let e := bf_set e 45 2 0 in
  let e := bf_set e 47 1 1 in
  let e := bf_set e 48 4 (Z.land (Z.shiftr limit 16) 15) in
  let e := bf_set e 52 1 0 in
  let e := bf_set e 53 1 0 in
  let e := bf_set e 54 1 0 in
  let e := bf_set e 55 1 0 in
  let e := bf_set e 56 8 (Z.land (Z.shiftr base 24) 255) in
  (e, u32 (Z.shiftr base 32)).

(** ** The per-processor tables *)

Record tss_entry_t := mk_tss { rsp0 : Z; rsp1 : Z; rsp2 : Z; ist : list Z; iomap_base : Z }.
Definition zero_tss : tss_entry_t := mk_tss 0 0 0 (replicate 7 0) 0.
Definition sizeof_tss : Z := 104.

(** [at_] is the address of the structure, for the address of its [tss]. *)
Record gdt_t := mk_gdt { at_ : Z; entries : list Z; tss : tss_entry_t }.

Record gdt_state := mk_gdt_state {
  gdt_list : list gdt_t;
  syscall_kernel_stack : Z;
  gdtr : option (Z * Z)
}.

(** [ptr] is 10 bytes and [entries] aligned to 16. *)
Definition offset_entries : Z := 16.
Definition offset_tss : Z := 80.

(** The blocks are at [addrs], one per core, and are cleared. *)
Definition init_gdt (addrs : list Z) (s : gdt_state) : gdt_state :=
  mk_gdt_state ((fun a => mk_gdt a (replicate 7 0) zero_tss) <$> addrs)
    (syscall_kernel_stack s) (gdtr s).

Definition get_local_tss (apic_id : Z) (s : gdt_state) : outcome tss_entry_t :=
  g ← arr_get (gdt_list s) apic_id; Ok (tss g).

Definition tss_set_kernel_stack (apic_id stack_ptr : Z) (s : gdt_state) : outcome gdt_state :=
  g ← arr_get (gdt_list s) apic_id;
  let t := tss g in
  gs ← arr_set (gdt_list s) apic_id
         (mk_gdt (at_ g) (entries g) (mk_tss stack_ptr (rsp1 t) (rsp2 t) (ist t) (iomap_base t)));
  Ok (mk_gdt_state gs stack_ptr (gdtr s)).

(** [set_gdt_gate(&entries[i], ...)]. *)
Definition gate_at (es : list Z) (i base limit flags : Z) : outcome (list Z) :=
  e ← arr_get es i;
  arr_set es i (set_gdt_gate e base limit flags).

Definition init_gdt_local (apic_id : Z) (s : gdt_state) : outcome gdt_state :=
  g ← arr_get (gdt_list s) apic_id;
  let ptr := (GDT_ENTRIES * 8 - 1, u64 (at_ g + offset_entries)) in
  es ← gate_at (entries g) 0 0 0 0;
  es ← gate_at es GDT_ENTRY_KERNEL_CS 0 4294967295 DESC_CODE64;
  es ← gate_at es GDT_ENTRY_KERNEL_DS 0 4294967295 DESC_DATA64;
  es ← gate_at es GDT_ENTRY_DEFAULT_USER_DS 0 4294967295 (Z.lor DESC_DATA64 DESC_USER);
  es ← gate_at es GDT_ENTRY_DEFAULT_USER_CS 0 4294967295 (Z.lor DESC_CODE64 DESC_USER);
  let '(w1, w2) := set_gdt_tss_gate (u64 (at_ g + offset_tss)) (sizeof_tss - 1) in
  es ← arr_set es GDT_ENTRY_TSS w1;
  es ← arr_set es (GDT_ENTRY_TSS + 1) w2;
  gs ← arr_set (gdt_list s) apic_id (mk_gdt (at_ g) es zero_tss);
  Ok (mk_gdt_state gs (syscall_kernel_stack s) (Some ptr)).

(** ** Interrupt gates *)

Definition INTERRUPT_GATE : Z := 142.
Definition TRAP_GATE : Z := 143.

Record idt_entry_t := mk_idt_entry {
  offset_1 : Z; selector : Z; idt_ist : Z; type_attributes : Z; offset_2 : Z; offset_3 : Z; zero : Z
}.

Definition idt_set_entry (idt : list idt_entry_t) (index base sel ty : Z) : outcome (list idt_entry_t) :=
  e ← arr_get idt index;
  arr_set idt index
    (mk_idt_entry (u16 base) sel (idt_ist e) (u8 ty) (u16 (Z.shiftr base 16)) (u32 (Z.shiftr base 32)) 0).

Definition idt_set_entry_with_ist (idt : list idt_entry_t) (index base sel ty i : Z)
    : outcome (list idt_entry_t) :=
  arr_set idt index
    (mk_idt_entry (u16 base) sel (Z.land i 7) (u8 ty) (u16 (Z.shiftr base 16)) (u32 (Z.shiftr base 32)) 0).

Definition idt_set_handler (index ty handler : Z) (idt : list idt_entry_t) : outcome (list idt_entry_t) :=
  if negb (handler =? 0) then
    idt_set_entry_with_ist idt (u8 index) handler 8 ty (if u8 index =? 48 then 1 else 0)
  else idt_set_entry idt (u8 index) 0 0 0.

Definition idt_set_gate (vector handler i : Z) (idt : list idt_entry_t) : outcome (list idt_entry_t) :=
  arr_set idt vector
    (mk_idt_entry (u16 (Z.land handler 65535)) 8 (u8 i) 142 (u16 (Z.land (Z.shiftr handler 16) 65535))
       (u32 (Z.land (Z.shiftr handler 32) 4294967295)) 0).

(** [for (i = a; i < a + n; ++i) idt_set_handler(i, ty, h(i))]. *)
Fixpoint idt_fill (n : nat) (a ty : Z) (h : Z -> Z) (idt : list idt_entry_t) : outcome (list idt_entry_t) :=
  match n with
  | O => Ok idt
  | S n => idt ← idt_set_handler a ty (h a) idt; idt_fill n (a + 1) ty h idt
  end.

(** The addresses of the assembly entry points. *)
Record stubs := mk_stubs {
  exception_handlers : Z -> Z;
  default_exception_handler : Z;
  default_interrupt_handler : Z;
  pit_interrupt : Z;
  keyboard_interrupt : Z;
  spurious_interrupt : Z;
  scheduler_isr_asm : Z;
  generic_exeption_handler : Z;
  pagefault_interrupt : Z;
  gpf_exc : Z
}.

Definition idt_init (st : stubs) (idt : list idt_entry_t) : outcome (list idt_entry_t) :=
  idt ← idt_fill 20 0 INTERRUPT_GATE (exception_handlers st) idt;
  idt ← idt_fill 12 20 INTERRUPT_GATE (fun _ => default_exception_handler st) idt;
  idt_fill 224 32 TRAP_GATE (fun _ => default_interrupt_handler st) idt.

Definition INT_GP : Z := 13.
Definition INT_PAGE_FAULT : Z := 14.
Definition INT_TIMER : Z := 32.
Definition INT_KBD : Z := 33.
Definition INT_SPURIOUS : Z := 255.
Definition INT_SCHEDULER : Z := 48.
Definition IRQ_TIMER : Z := 0.
Definition IRQ_KEYBOARD : Z := 1.

(** The gates of [intr_init]. *)
Definition intr_gates (st : stubs) (idt : list idt_entry_t) : outcome (list idt_entry_t) :=
  idt ← idt_init st idt;
  idt ← idt_set_handler INT_TIMER INTERRUPT_GATE (pit_interrupt st) idt;
  idt ← idt_set_handler INT_KBD INTERRUPT_GATE (keyboard_interrupt st) idt;
  idt ← idt_set_handler INT_SPURIOUS INTERRUPT_GATE (spurious_interrupt st) idt;
  idt ← idt_set_handler INT_SCHEDULER INTERRUPT_GATE (scheduler_isr_asm st) idt;
  idt ← idt_fill 13 0 INTERRUPT_GATE (fun _ => generic_exeption_handler st) idt;
  idt ← idt_set_handler INT_PAGE_FAULT INTERRUPT_GATE (pagefault_interrupt st) idt;
  idt_set_handler INT_GP INTERRUPT_GATE (gpf_exc st) idt.

(** [intr_init]: the gates, then the interrupt controllers.  [remap] is
    [acpi_remap_irq], [garbage] what [io_apic_in] leaves in its register. *)
Definition intr_init {D} `{Device D} (st : stubs) (garbage lapic ioapic : Z) (remap : Z -> Z)
    (idt : list idt_entry_t) (d : D) : outcome (list idt_entry_t * D) :=
  idt ← intr_gates st idt;
  let d := pic_init d in
  let d := local_apic_init lapic d in
  let d := io_apic_init garbage ioapic d in
  let d := io_write_8 34 112 d in
  let d := io_write_8 35 1 d in
  let d := local_apic_timer_init lapic d in
  let kbd_low_bits := INT_KBD in
  let '(id, d) := local_apic_get_id lapic d in
  let kbd_high_bits := u64 (Z.shiftl id 56) in
  let d := io_apic_set_entry ioapic (u8 (remap IRQ_TIMER)) INT_TIMER d in
  let d := io_apic_set_entry ioapic (u8 (remap IRQ_KEYBOARD)) (Z.lor kbd_low_bits kbd_high_bits) d in
  Ok (idt, d).

(** ** What the processor reads *)

Definition d_base (e : Z) : Z := d_base0 e + 2 ^ 16 * d_base1 e + 2 ^ 24 * d_base2 e.
Definition d_limit (e : Z) : Z := d_limit0 e + 2 ^ 16 * d_limit1 e.
(** Access byte in bits 0-7, flags nibble in bits 12-15. *)
Definition d_flags (e : Z) : Z :=
  d_type e + 2 ^ 4 * d_s e + 2 ^ 5 * d_dpl e + 2 ^ 7 * d_p e
  + 2 ^ 12 * d_avl e + 2 ^ 13 * d_l e + 2 ^ 14 * d_d e + 2 ^ 15 * d_g e.

(** The offset a gate jumps to. *)
Definition gate_offset (g : idt_entry_t) : Z := offset_1 g + 2 ^ 16 * offset_2 g + 2 ^ 32 * offset_3 g.

(** Which type and handler vector [v] has after [intr_init]. *)
Definition handler_of (st : stubs) (v : Z) : Z * Z :=
  if v =? INT_GP then (INTERRUPT_GATE, gpf_exc st)
  else if v =? INT_PAGE_FAULT then (INTERRUPT_GATE, pagefault_interrupt st)
  else if v <? INT_GP then (INTERRUPT_GATE, generic_exeption_handler st)
  else if v <? 20 then (INTERRUPT_GATE, exception_handlers st v)
  else if v <? 32 then (INTERRUPT_GATE, default_exception_handler st)
  else if v =? INT_TIMER then (INTERRUPT_GATE, pit_interrupt st)
  else if v =? INT_KBD then (INTERRUPT_GATE, keyboard_interrupt st)
  else if v =? INT_SCHEDULER then (INTERRUPT_GATE, scheduler_isr_asm st)
  else if v =? INT_SPURIOUS then (INTERRUPT_GATE, spurious_interrupt st)
  else (TRAP_GATE, default_interrupt_handler st).

(** ** Lemmas *)

(** [(v >> s) & (2^k - 1)] stored into a field of [k] bits, or of fewer. *)
Lemma field_of v s k w m :
  0 <= s -> 0 <= w <= k -> m = Z.ones k -> Z.land (Z.shiftr v s) m mod 2 ^ w = v / 2 ^ s mod 2 ^ w.
Proof.
  intros Hs Hw ->. rewrite Z.land_ones, Z.shiftr_div_pow2 by lia.
  replace (2 ^ k) with (2 ^ w * 2 ^ (k - w)) by (rewrite <-Z.pow_add_r by lia; f_equal; lia).
  rewrite Z.rem_mul_r by lia. by rewrite Z.mul_comm, Z.mod_add, Z.mod_mod by lia.
Qed.

(** ** Theorems *)

(** Whatever the entry held before, [set_gdt_gate] leaves a descriptor
    with the base, the low 20 bits of the limit, and the access and granularity
    flags it was given. *)
Theorem set_gdt_gate_fields e base limit flags :
  0 <= base < 2 ^ 32 -> 0 <= flags < 2 ^ 16 ->
  let g := set_gdt_gate e base limit flags in
  d_base g = base /\ d_limit g = limit mod 2 ^ 20 /\
  d_flags g = flags mod 2 ^ 8 + flags / 2 ^ 12 * 2 ^ 12.
Proof.
  intros Hb Hf. unfold set_gdt_gate. cbv zeta.
  unfold d_base, d_limit, d_flags, d_base0, d_base1, d_base2, d_limit0, d_limit1, d_type, d_s, d_dpl,
    d_p, d_avl, d_l, d_d, d_g. bf_simpl.
  rewrite (field_of base 16 8 8 255), (field_of base 24 8 8 255), (field_of limit 16 16 4 65535),
    (field_of flags 0 4 4 15), (field_of flags 4 1 1 1), (field_of flags 5 2 2 3), (field_of flags 7 1 1 1),
    (field_of flags 12 1 1 1), (field_of flags 13 1 1 1), (field_of flags 14 1 1 1),
    (field_of flags 15 1 1 1) by (done || lia).
  pose proof (field_of base 0 16 16 65535) as B0. pose proof (field_of limit 0 16 16 65535) as L0.
  rewrite !Z.shiftr_0_r in *. rewrite B0, L0 by (done || lia). clear B0 L0.
  rewrite !Z.div_1_r. split_and!; zdiv.
Qed.

Lemma set_gdt_gate_fields_witness :
  d_base (set_gdt_gate 0 305419896 1048575 DESC_CODE64) = 305419896 /\
  d_flags (set_gdt_gate 0 305419896 1048575 DESC_CODE64) = DESC_CODE64.
Proof.
  destruct (set_gdt_gate_fields 0 305419896 1048575 DESC_CODE64) as (H1 & _ & H2);
    [lia|vm_compute; split; congruence|]. split; [exact H1|exact H2].
Defined.

Lemma tss_gate_fields base limit :
  0 <= base < 2 ^ 64 -> 0 <= limit < 2 ^ 20 ->
  let '(w1, w2) := set_gdt_tss_gate base limit in
  d_base w1 + 2 ^ 32 * w2 = base /\ d_limit w1 = limit /\ d_flags w1 = 137.
Proof.
  intros Hb Hl. unfold set_gdt_tss_gate. cbv zeta.
  unfold d_base, d_limit, d_flags, d_base0, d_base1, d_base2, d_limit0, d_limit1, d_type, d_s, d_dpl,
    d_p, d_avl, d_l, d_d, d_g. bf_simpl.
  rewrite (field_of base 16 8 8 255), (field_of base 24 8 8 255), (field_of limit 16 4 4 15) by (done || lia).
  pose proof (field_of base 0 16 16 65535) as B0. pose proof (field_of limit 0 16 16 65535) as L0.
  rewrite !Z.shiftr_0_r in *. rewrite B0, L0 by (done || lia). clear B0 L0.
  unfold u32. rewrite Z.div_1_r, Z.shiftr_div_pow2 by lia. split_and!; [zdiv|zdiv|done].
Qed.

(** The table [init_gdt_local] makes for the block at [a]. *)
Definition local_gdt (a : Z) : gdt_t :=
  let '(w1, w2) := set_gdt_tss_gate (u64 (a + offset_tss)) (sizeof_tss - 1) in
  mk_gdt a [0; 49428545226735615; 58426948388454399; 58532501504720895; 49534098343002111; w1; w2] zero_tss.

Lemma init_gdt_local_ok addrs apic_id a s :
  arr_get addrs apic_id = Ok a ->
  exists s', init_gdt_local apic_id (init_gdt addrs s) = Ok s' /\
    arr_get (gdt_list s') apic_id = Ok (local_gdt a) /\ gdtr s' = Some (55, u64 (a + offset_entries)) /\
    forall i, i <> apic_id -> arr_get (gdt_list s') i = arr_get (gdt_list (init_gdt addrs s)) i.
Proof.
  intros Ha. apply arr_get_Ok_iff in Ha as [Hi Ha].
  pose proof (lookup_lt_Some _ _ _ Ha) as Hlen. unfold init_gdt_local. cbn [init_gdt gdt_list].
  set (gs := (fun a => mk_gdt a (replicate 7 0) zero_tss) <$> addrs).
  assert (length gs = length addrs) as Hgs by apply length_fmap.
  assert (gs !! Z.to_nat apic_id = Some (mk_gdt a (replicate 7 0) zero_tss)) as Hg
    by (unfold gs; by rewrite list_lookup_fmap, Ha).
  clearbody gs.
  rewrite (proj2 (arr_get_Ok_iff gs apic_id _) (conj Hi Hg)). mred. cbn [entries at_].
  change (gate_at (replicate 7 0) 0 0 0 0) with (Ok (replicate 7 0)). mred.
  replace (gate_at _ GDT_ENTRY_KERNEL_CS _ _ _)
    with (Ok [0; 49428545226735615; 0; 0; 0; 0; 0]) by (vm_compute; reflexivity). mred.
  replace (gate_at _ GDT_ENTRY_KERNEL_DS _ _ _)
    with (Ok [0; 49428545226735615; 58426948388454399; 0; 0; 0; 0]) by (vm_compute; reflexivity). mred.
  replace (gate_at _ GDT_ENTRY_DEFAULT_USER_DS _ _ _)
    with (Ok [0; 49428545226735615; 58426948388454399; 58532501504720895; 0; 0; 0])
    by (vm_compute; reflexivity). mred.
  replace (gate_at _ GDT_ENTRY_DEFAULT_USER_CS _ _ _)
    with (Ok [0; 49428545226735615; 58426948388454399; 58532501504720895; 49534098343002111; 0; 0])
    by (vm_compute; reflexivity). mred.
  unfold local_gdt. destruct (set_gdt_tss_gate _ _) as [w1 w2].
  rewrite arr_set_ok by (cbn [length]; unfold GDT_ENTRY_TSS; lia).
  mred. rewrite arr_set_ok by (rewrite length_insert; cbn [length]; unfold GDT_ENTRY_TSS; lia).
  mred. rewrite arr_set_ok by lia. mred. eexists. split; [reflexivity|]. cbn [gdt_list gdtr].
  split_and!.
  - apply arr_get_Ok_iff. split; [done|]. apply list_lookup_insert_eq. lia.
  - reflexivity.
  - intros i Hne. unfold arr_get. destruct (Z.ltb_spec i 0); [done|].
    rewrite list_lookup_insert_ne by lia. done.
Qed.

(** after [init_gdt] and [init_gdt_local] the table of this processor holds
    the null descriptor, 64-bit kernel code and data, user data and code, and a
    TSS descriptor for its own cleared TSS; the table register covers seven
    entries; the tables of other processors are as they were. *)
Theorem init_gdt_local_correct addrs apic_id a s :
  arr_get addrs apic_id = Ok a -> 0 <= a <= 2 ^ 64 - 208 ->
  exists s' g, init_gdt_local apic_id (init_gdt addrs s) = Ok s' /\
    arr_get (gdt_list s') apic_id = Ok g /\
    firstn 5 (entries g) = [0; 49428545226735615; 58426948388454399; 58532501504720895; 49534098343002111] /\
    (exists w1 w2, skipn 5 (entries g) = [w1; w2] /\ d_base w1 + 2 ^ 32 * w2 = a + 80 /\
       d_limit w1 = 103 /\ d_flags w1 = 137) /\
    tss g = zero_tss /\ gdtr s' = Some (55, a + 16) /\
    forall i, i <> apic_id -> arr_get (gdt_list s') i = arr_get (gdt_list (init_gdt addrs s)) i.
Proof.
  intros Ha Hr. destruct (init_gdt_local_ok addrs apic_id a s Ha) as (s' & E & Hg & Hp & Ho).
  exists s', (local_gdt a). split; [done|]. split; [done|]. unfold local_gdt. rewrite !u64_small in * by (unfold fits_u64, offset_tss, offset_entries in *; lia).
  pose proof (tss_gate_fields (a + offset_tss) (sizeof_tss - 1)) as Htss. destruct (set_gdt_tss_gate _ _) as [w1 w2].
  specialize (Htss ltac:(unfold offset_tss; lia) ltac:(unfold sizeof_tss; lia)).
  split_and!; try done. by exists w1, w2.
Qed.

Lemma init_gdt_local_correct_witness :
  exists s' g, init_gdt_local 1 (init_gdt [4096; 8192] (mk_gdt_state [] 0 None)) = Ok s' /\
    arr_get (gdt_list s') 1 = Ok g /\ gdtr s' = Some (55, 8208).
Proof.
  assert (arr_get [4096; 8192] 1 = Ok 8192) as Ha by reflexivity.
  destruct (init_gdt_local_correct [4096; 8192] 1 8192 (mk_gdt_state [] 0 None) Ha ltac:(lia))
    as (s' & g & H1 & H2 & _ & _ & _ & H3 & _).
  exists s', g. split; [exact H1|]. split; [exact H2|exact H3].
Defined.

(** ** Lemmas: filling the interrupt table *)

(** The gate [idt_set_handler] writes for a handler that is not null. *)
Definition gate (v ty handler : Z) : idt_entry_t :=
  mk_idt_entry (u16 handler) 8 (if v =? 48 then 1 else 0) (u8 ty) (u16 (Z.shiftr handler 16))
    (u32 (Z.shiftr handler 32)) 0.

Lemma idt_set_handler_ok v ty h (idt : list idt_entry_t) :
  length idt = 256%nat -> 0 <= v < 256 -> h <> 0 ->
  idt_set_handler v ty h idt = Ok (<[Z.to_nat v := gate v ty h]> idt).
Proof.
  intros Hl Hv Hh. unfold idt_set_handler, idt_set_entry_with_ist.
  rewrite (proj2 (Z.eqb_neq h 0) Hh), u8_small by done. cbn [negb].
  rewrite arr_set_ok by lia. unfold gate. by destruct (v =? 48).
Qed.

Lemma lookup_insert_vec (idt : list idt_entry_t) a v e :
  length idt = 256%nat -> 0 <= a < 256 -> 0 <= v < 256 ->
  <[Z.to_nat a := e]> idt !! Z.to_nat v = if v =? a then Some e else idt !! Z.to_nat v.
Proof.
  intros Hl Ha Hv. destruct (Z.eqb_spec v a) as [->|]; [by rewrite list_lookup_insert_eq by lia|].
  by rewrite list_lookup_insert_ne by lia.
Qed.

Definition in_vectors (a : Z) (n : nat) (v : Z) : bool := (a <=? v) && (v <? a + Z.of_nat n).

Lemma idt_fill_ok n a ty h (idt : list idt_entry_t) :
  length idt = 256%nat -> 0 <= a -> a + Z.of_nat n <= 256 ->
  (forall v, 0 <= v < 256 -> h v <> 0) ->
  exists idt', idt_fill n a ty h idt = Ok idt' /\ length idt' = 256%nat /\
    forall v, 0 <= v < 256 ->
      idt' !! Z.to_nat v = if in_vectors a n v then Some (gate v ty (h v)) else idt !! Z.to_nat v.
Proof.
  revert a idt. induction n as [|n IH]; intros a idt Hl Ha Hn Hh; cbn [idt_fill].
  { exists idt. split_and!; [done|done|]. intros v Hv. unfold in_vectors.
    destruct (_ && _) eqn:E; [bool_hyps; lia|done]. }
  rewrite idt_set_handler_ok by (done || lia || (apply Hh; lia)). mred.
  destruct (IH (a + 1) (<[Z.to_nat a := gate a ty (h a)]> idt)) as (idt' & He & Hl' & Hv');
    [by rewrite length_insert|lia|lia|done|].
  exists idt'. split_and!; [done|done|]. intros v Hv. rewrite Hv' by done.
  assert (in_vectors a (S n) v = (v =? a) || in_vectors (a + 1) n v) as ->.
  { unfold in_vectors. apply eq_true_iff_eq.
    rewrite orb_true_iff, !andb_true_iff, Z.eqb_eq, !Z.leb_le, !Z.ltb_lt. lia. }
  rewrite (lookup_insert_vec idt a v) by (done || lia).
  destruct (Z.eqb_spec v a) as [->|]; [|done]. cbn [orb].
  by destruct (in_vectors (a + 1) n a).
Qed.

Definition stubs_ok (st : stubs) : Prop :=
  (forall v, 0 <= v < 256 -> exception_handlers st v <> 0) /\
  default_exception_handler st <> 0 /\ default_interrupt_handler st <> 0 /\ pit_interrupt st <> 0 /\
  keyboard_interrupt st <> 0 /\ spurious_interrupt st <> 0 /\ scheduler_isr_asm st <> 0 /\
  generic_exeption_handler st <> 0 /\ pagefault_interrupt st <> 0 /\ gpf_exc st <> 0.

Lemma gate_offset_ok v ty h : 0 <= h < 2 ^ 64 -> gate_offset (gate v ty h) = h.
Proof.
  intros Hh. unfold gate_offset, gate, u16, u32. cbn [offset_1 offset_2 offset_3].
  rewrite !Z.shiftr_div_pow2 by lia. zdiv.
Qed.

(** The writes of [intr_init], last first, and [handler_of]. *)
Lemma handler_of_gate st v ty h (old : option idt_entry_t) :
  0 <= v < 256 -> handler_of st v = (ty, h) ->
  (if v =? INT_GP then Some (gate INT_GP INTERRUPT_GATE (gpf_exc st))
   else if v =? INT_PAGE_FAULT then Some (gate INT_PAGE_FAULT INTERRUPT_GATE (pagefault_interrupt st))
   else if in_vectors 0 13 v then Some (gate v INTERRUPT_GATE (generic_exeption_handler st))
   else if v =? INT_SCHEDULER then Some (gate INT_SCHEDULER INTERRUPT_GATE (scheduler_isr_asm st))
   else if v =? INT_SPURIOUS then Some (gate INT_SPURIOUS INTERRUPT_GATE (spurious_interrupt st))
   else if v =? INT_KBD then Some (gate INT_KBD INTERRUPT_GATE (keyboard_interrupt st))
   else if v =? INT_TIMER then Some (gate INT_TIMER INTERRUPT_GATE (pit_interrupt st))
   else if in_vectors 32 224 v then Some (gate v TRAP_GATE (default_interrupt_handler st))
   else if in_vectors 20 12 v then Some (gate v INTERRUPT_GATE (default_exception_handler st))
   else if in_vectors 0 20 v then Some (gate v INTERRUPT_GATE (exception_handlers st v))
   else old) = Some (gate v ty h).
Proof.
  intros Hv. unfold handler_of, in_vectors, INT_GP, INT_PAGE_FAULT, INT_SCHEDULER, INT_SPURIOUS,
    INT_KBD, INT_TIMER.
  repeat match goal with |- context [if ?b then _ else _] =>
    let E := fresh "E" in destruct b eqn:E end;
  bool_hyps; intros [= <- <-]; subst;
  repeat match goal with H : (_ && _) = false |- _ => apply andb_false_iff in H as [H|H] end;
  bool_hyps; done || lia.
Qed.

Lemma intr_init_ok {D} `{Device D} st garbage lapic ioapic remap idt (d : D) :
  length idt = 256%nat -> stubs_ok st ->
  exists idt' d', intr_init st garbage lapic ioapic remap idt d = Ok (idt', d') /\
    forall v, 0 <= v < 256 ->
      let '(ty, h) := handler_of st v in
      exists g, idt' !! Z.to_nat v = Some g /\ type_attributes g = ty /\ selector g = 8 /\
        idt_ist g = (if v =? INT_SCHEDULER then 1 else 0) /\ (0 <= h < 2 ^ 64 -> gate_offset g = h).
Proof.
  intros Hl (S1 & S2 & S3 & S4 & S5 & S6 & S7 & S8 & S9 & S10). unfold intr_init, intr_gates, idt_init.
  destruct (idt_fill_ok 20 0 INTERRUPT_GATE (exception_handlers st) idt) as (i1 & -> & L1 & V1);
    [done|lia|lia|done|]. mred.
  destruct (idt_fill_ok 12 20 INTERRUPT_GATE (fun _ => default_exception_handler st) i1)
    as (i2 & -> & L2 & V2); [done|lia|lia|done|]. mred.
  destruct (idt_fill_ok 224 32 TRAP_GATE (fun _ => default_interrupt_handler st) i2)
    as (i3 & -> & L3 & V3); [done|lia|lia|done|]. mred.
  rewrite !idt_set_handler_ok by (rewrite ?length_insert; done || (unfold INT_TIMER; lia)). mred.
  rewrite !idt_set_handler_ok by (rewrite ?length_insert; done || (unfold INT_KBD; lia)). mred.
  rewrite !idt_set_handler_ok by (rewrite ?length_insert; done || (unfold INT_SPURIOUS; lia)). mred.
  rewrite !idt_set_handler_ok by (rewrite ?length_insert; done || (unfold INT_SCHEDULER; lia)). mred.
  destruct (idt_fill_ok 13 0 INTERRUPT_GATE (fun _ => generic_exeption_handler st)
    (<[Z.to_nat INT_SCHEDULER := gate INT_SCHEDULER INTERRUPT_GATE (scheduler_isr_asm st)]>
      (<[Z.to_nat INT_SPURIOUS := gate INT_SPURIOUS INTERRUPT_GATE (spurious_interrupt st)]>
        (<[Z.to_nat INT_KBD := gate INT_KBD INTERRUPT_GATE (keyboard_interrupt st)]>
          (<[Z.to_nat INT_TIMER := gate INT_TIMER INTERRUPT_GATE (pit_interrupt st)]> i3)))))
    as (i4 & -> & L4 & V4); [by rewrite !length_insert|lia|lia|done|]. mred.
  rewrite !idt_set_handler_ok by (rewrite ?length_insert; done || (unfold INT_PAGE_FAULT; lia)). mred.
  rewrite !idt_set_handler_ok by (rewrite ?length_insert; done || (unfold INT_GP; lia)). mred.
  destruct (local_apic_get_id _ _) as [id d1]. eexists _, _. split; [reflexivity|]. intros v Hv.
  destruct (handler_of st v) as [ty h] eqn:Eh. exists (gate v ty h).
  split; [|split_and!; [|done| |intros; by apply gate_offset_ok]].
  - rewrite (lookup_insert_vec _ INT_GP) by (rewrite ?length_insert; done || (unfold INT_GP; lia)).
    rewrite (lookup_insert_vec _ INT_PAGE_FAULT) by (done || (unfold INT_PAGE_FAULT; lia)).
    rewrite V4 by done.
    rewrite (lookup_insert_vec _ INT_SCHEDULER) by (rewrite ?length_insert; done || (unfold INT_SCHEDULER; lia)).
    rewrite (lookup_insert_vec _ INT_SPURIOUS) by (rewrite ?length_insert; done || (unfold INT_SPURIOUS; lia)).
    rewrite (lookup_insert_vec _ INT_KBD) by (rewrite ?length_insert; done || (unfold INT_KBD; lia)).
    rewrite (lookup_insert_vec _ INT_TIMER) by (done || (unfold INT_TIMER; lia)).
    rewrite V3, V2, V1 by done. by apply handler_of_gate.
  - unfold handler_of in Eh. repeat case_match; by injection Eh as <- <-.
  - unfold gate, INT_SCHEDULER. done.
Qed.

(** C36: after [intr_init] every one of the 256 vectors has a present kernel
    gate to the handler meant for it - the exceptions, the page fault, the
    general protection fault, timer, keyboard, scheduler and spurious
    interrupts, and the defaults for the rest - and only the scheduler's gate
    switches to interrupt stack 1. *)
Theorem intr_init_gates {D} `{Device D} st garbage lapic ioapic remap idt (d : D) :
  length idt = 256%nat -> stubs_ok st ->
  exists idt' d', intr_init st garbage lapic ioapic remap idt d = Ok (idt', d') /\
    forall v, 0 <= v < 256 ->
      let '(ty, h) := handler_of st v in
      exists g, idt' !! Z.to_nat v = Some g /\ type_attributes g = ty /\ selector g = 8 /\
        idt_ist g = (if v =? INT_SCHEDULER then 1 else 0) /\ (0 <= h < 2 ^ 64 -> gate_offset g = h).
Proof. apply intr_init_ok. Qed.

Definition sample_stubs : stubs := mk_stubs (fun v => 1000 + v) 1 2 3 4 5 6 7 8 9.

Lemma intr_init_gates_witness :
  exists idt' d', intr_init sample_stubs 0 4096 8192 (fun irq => irq)
      (replicate 256 (mk_idt_entry 0 0 0 0 0 0 0)) ([] : list access) = Ok (idt', d') /\
    exists g, idt' !! 48%nat = Some g /\ gate_offset g = 6 /\ idt_ist g = 1.
Proof.
  assert (stubs_ok sample_stubs) as Hst by (unfold stubs_ok; simpl; split_and!; lia).
  destruct (intr_init_gates sample_stubs 0 4096 8192 (fun irq => irq)
    (replicate 256 (mk_idt_entry 0 0 0 0 0 0 0)) ([] : list access) eq_refl Hst) as (idt' & d' & He & Hv).
  exists idt', d'. split; [exact He|]. destruct (Hv 48 ltac:(lia)) as (g & H1 & _ & _ & H2 & H3).
  exists g. split; [exact H1|]. split; [apply H3; simpl; lia|exact H2].
Defined.
