(* ===== verification/Video.v ===== *)
(** * The text console (src/video.c)

    The cursor, the colours and the frame buffer, with every write a store of
    the frame buffer's memory at the address the code computes.  The second
    part is what the console promises: a grid of character cells with a cursor
    ([tty]), drawn on the screen by [render]; each operation of the code is
    shown to keep the screen equal to the drawing of its abstract counterpart. *)

From S2P Require Import Prelude Bytes Font.

(** ** Data *)

(** The fields of [struct limine_framebuffer] the code reads. *)
Record limine_framebuffer := mk_fb { address : Z; width : Z; height : Z; pitch : Z }.

Record term := mk_term {
  fb : limine_framebuffer;
  line : Z;
  col : Z;
  max_col : Z;
  max_line : Z;
  fgc : Z;
  bgc : Z;
  cursor_visible : bool;
  (** [update_cursor]'s own counter. *)
  ticks : Z;
  (** The processor's interrupt flag, which [cli] and [sti] set. *)
  intr_on : bool;
  vram : bytes
}.

Definition font_width : Z := 8.
Definition font_height : Z := 16.
Definition term_margin : Z := 10.
Definition tab_space : Z := 8.
Definition WHITE : Z := 4294967295.
Definition BLACK : Z := 0.
Definition RED : Z := 4294901760.

Definition set_pos (t : term) (l c : Z) : term :=
  mk_term (fb t) l c (max_col t) (max_line t) (fgc t) (bgc t) (cursor_visible t) (ticks t) (intr_on t) (vram t).
Definition set_colors (t : term) (f b : Z) : term :=
  mk_term (fb t) (line t) (col t) (max_col t) (max_line t) f b (cursor_visible t) (ticks t) (intr_on t) (vram t).
Definition set_visible (t : term) (v : bool) : term :=
  mk_term (fb t) (line t) (col t) (max_col t) (max_line t) (fgc t) (bgc t) v (ticks t) (intr_on t) (vram t).
Definition set_ticks (t : term) (n : Z) : term :=
  mk_term (fb t) (line t) (col t) (max_col t) (max_line t) (fgc t) (bgc t) (cursor_visible t) n (intr_on t) (vram t).
Definition set_vram (t : term) (m : bytes) : term :=
  mk_term (fb t) (line t) (col t) (max_col t) (max_line t) (fgc t) (bgc t) (cursor_visible t) (ticks t) (intr_on t) m.

Definition set_intr (t : term) (b : bool) : term :=
  mk_term (fb t) (line t) (col t) (max_col t) (max_line t) (fgc t) (bgc t) (cursor_visible t) (ticks t) b (vram t).

(** [for (i = a; i < b; i++)] over a state, without and with failure. *)
Fixpoint for_range {S} (n : nat) (i : Z) (body : Z -> S -> S) (s : S) : S :=
  match n with O => s | Datatypes.S n => for_range n (i + 1) body (body i s) end.
Fixpoint for_range_ok {S} (n : nat) (i : Z) (body : Z -> S -> outcome S) (s : S) : outcome S :=
  match n with O => Ok s | Datatypes.S n => s ← body i s; for_range_ok n (i + 1) body s end.

(** ** Drawing *)

Definition rgb_to_color (r g b : Z) : Z :=
  Z.lor (Z.lor (Z.lor (Z.shiftl 255 24) (Z.shiftl (u8 r) 16)) (Z.shiftl (u8 g) 8)) (u8 b).

Definition put_pixel (f : limine_framebuffer) (x y color : Z) (m : bytes) : bytes :=
  let x := u32 x in
  let y := u32 y in
  if (x >=? width f) || (y >=? height f) then m
  else store32 m (u64 (u64 (address f + u64 (y * pitch f)) + u32 (x * 4))) color.

Definition _print_cursor (show : bool) (t : term) : term :=
  let posx := u32 (col t * font_width + term_margin) in
  let posy := u32 (line t * font_height + term_margin) in
  let color := if show then fgc t else bgc t in
  set_vram t
    (for_range (Z.to_nat font_height) 0 (fun y m =>
       for_range 2 0 (fun x m =>
         if (posx + x <? width (fb t)) && (posy + y <? height (fb t))
         then put_pixel (fb t) (posx + x) (posy + y) color m else m) m) (vram t)).

Definition draw_cursor (t : term) : term :=
  let t := if negb (cursor_visible t) then _print_cursor true t else t in
  set_visible t true.

Definition hide_cursor (t : term) : term :=
  let t := if cursor_visible t then _print_cursor false t else t in
  set_visible t false.

Definition draw_rect (posx posy w h color : Z) (t : term) : term :=
  set_vram t
    (for_range (Z.to_nat (u32 (posy + h) - posy)) posy (fun y m =>
       for_range (Z.to_nat (u32 (posx + w) - posx)) posx (fun x m =>
         put_pixel (fb t) x y color m) m) (vram t)).

(** [g] is the glyph's rows; [px] and [py] are [int]s that [put_pixel] takes
    back to [uint32_t]. *)
Definition draw_glyph (f : limine_framebuffer) (x y fg bg : Z) (g : list Z) (m : bytes) : outcome bytes :=
  let target_height := font_height in
  let target_width := font_width in
  let stride := (8 + 7) / 8 in
  for_range_ok (Z.to_nat target_height) 0 (fun dy m =>
    let src_y := dy * 16 / target_height in
    for_range_ok (Z.to_nat target_width) 0 (fun dx m =>
      let src_x := dx * 8 / target_width in
      let byte_index := Z.shiftr src_x 3 in
      let mask := u8 (Z.shiftr 128 (Z.land src_x 7)) in
      let px := s32 (x + dx) in
      let py := s32 (y + dy) in
      b ← arr_get g (src_y * stride + byte_index);
      Ok (if negb (Z.land b mask =? 0) then put_pixel f px py fg m else put_pixel f px py bg m)) m) m.

(** The rows from [y] on, [n] of them, set to [c] up to the pitch. *)
Definition clear_rows (f : limine_framebuffer) (n : nat) (y c : Z) (m : bytes) : bytes :=
  let pixels_per_pitch_row := u32 (pitch f / 4) in
  for_range n y (fun y m =>
    let row := u64 (address f + u64 (y * pitch f)) in
    for_range (Z.to_nat pixels_per_pitch_row) 0 (fun x m => store32 m (u64 (row + x * 4)) c) m) m.

Definition _scroll_up (t : term) : term :=
  let f := fb t in
  let bytes_per_line := pitch f in
  let scroll_dist_bytes := u64 (font_height * bytes_per_line) in
  let total_fb_size := u64 (height f * bytes_per_line) in
  let copy_size_bytes := u64 (total_fb_size - scroll_dist_bytes) in
  let m := memcpy (vram t) (address f) (u64 (address f + scroll_dist_bytes)) copy_size_bytes in
  let first := u32 (height f - font_height) in
  set_vram t (clear_rows f (Z.to_nat (height f - first)) first (bgc t) m).

(** ** The cursor *)

Definition move_cursor_right (t : term) : term :=
  let t := hide_cursor t in
  let t := if col t <? max_col t then set_pos t (line t) (u32 (col t + 1)) else t in
  draw_cursor t.
Definition move_cursor_left (t : term) : term :=
  let t := hide_cursor t in
  let t := if col t >? 0 then set_pos t (line t) (u32 (col t - 1)) else t in
  draw_cursor t.
Definition move_cursor_up (t : term) : term :=
  let t := hide_cursor t in
  let t := if line t >? 0 then set_pos t (u32 (line t - 1)) (col t) else t in
  draw_cursor t.
Definition move_cursor_down (t : term) : term :=
  let t := hide_cursor t in
  let t := if line t <? max_line t then set_pos t (u32 (line t + 1)) (col t) else t in
  draw_cursor t.
Definition update_cursor (t : term) : term :=
  let t := set_ticks t (u64 (ticks t + 1)) in
  if ticks t mod 50 =? 0 then if cursor_visible t then hide_cursor t else draw_cursor t else t.

Definition _newline (t : term) : term :=
  let t := hide_cursor t in
  let t := set_pos t (u32 (line t + 1)) 0 in
  draw_cursor t.

(** ** Text *)

(** [space] is the call [put_char(' ')] of the backspace. *)
Definition put_char_body (space : term -> outcome term) (c : Z) (t : term) : outcome term :=
  let g := font8x16 !! Z.to_nat (u8 c) in
  let t := hide_cursor t in
  if c =? 10 then Ok (_newline t)
  else if c =? 9 then
    let mod_ := col t mod tab_space in
    let next_col := u32 (u32 (col t - mod_) + tab_space) in
    Ok (set_pos t (line t) next_col)
  else if c =? 8 then
    let t := move_cursor_left t in
    t ← space t;
    Ok (move_cursor_left t)
  else
    let t := if col t >=? max_col t then _newline t else t in
    let t := if line t >=? max_line t then let t := _scroll_up t in set_pos t (u32 (line t - 1)) (col t) else t in
    g ← deref g;
    m ← draw_glyph (fb t) (u32 (col t * font_width + term_margin)) (u32 (line t * font_height + term_margin))
          (fgc t) (bgc t) g (vram t);
    Ok (draw_cursor (move_cursor_right (set_vram t m))).

Definition put_char (c : Z) (t : term) : outcome term := put_char_body (put_char_body (fun _ => Hang) 32) c t.

(** A C string: what comes before the first zero of its bytes. *)
Fixpoint _strlen (str : list Z) : outcome Z :=
  match str with
  | [] => Fault
  | c :: str => if c =? 0 then Ok 0 else n ← _strlen str; Ok (1 + n)
  end.

Definition _set_fg (color : Z) (t : term) : term := set_colors t color (bgc t).
Definition _set_bg (color : Z) (t : term) : term := set_colors t (fgc t) color.
Definition _reset_colors (t : term) : term := set_colors t WHITE BLACK.
Definition get_fgc (t : term) : Z := fgc t.
Definition set_fgc (nfgc : Z) (t : term) : term := set_colors t nfgc (bgc t).

Definition _print (str : list Z) (t : term) : outcome term :=
  len ← _strlen str;
  for_range_ok (Z.to_nat len) 0 (fun i t => c ← arr_get str i; put_char c t) t.
Definition print (str : list Z) (t : term) : outcome term := _print str t.
Definition print_error (str : list Z) (t : term) : outcome term :=
  let t := _set_fg RED t in
  t ← _print str t;
  Ok (_reset_colors t).

Definition clear_screen (t : term) : term :=
  let t := set_intr t false in
  let m := clear_rows (fb t) (Z.to_nat (height (fb t))) 0 BLACK (vram t) in
  set_intr (set_pos (set_vram t m) 0 0) true.

Definition init_fb (f : limine_framebuffer) (t : term) : term :=
  let mc := u32 (u64 (width f - u32 (term_margin * 2)) / font_width) in
  let ml := u32 (u64 (height f - u32 (term_margin * 2)) / font_height - 1) in
  clear_screen (mk_term f (line t) (col t) mc ml (fgc t) (bgc t) (cursor_visible t) (ticks t) (intr_on t)
    (vram t)).

(** ** Stores and pixels *)

(** A frame buffer the boot loader can hand over: it lies below the top of the
    address space, a row holds its pixels, and a text line and its margins fit. *)
Record fb_ok (f : limine_framebuffer) : Prop := {
  ok_address : 0 <= address f;
  ok_top : address f + height f * pitch f <= 18446744073709551616;
  ok_pitch : 4 * width f <= pitch f < 17179869184;
  ok_width : 28 <= width f < 1073741824;
  ok_height : 52 <= height f < 1073741824
}.

(** Where pixel ([x], [y]) is, and its colour. *)
Definition pix (f : limine_framebuffer) (x y : Z) : Z := address f + y * pitch f + x * 4.
Definition pixel (t : term) (x y : Z) : Z := load32 (vram t) (pix (fb t) x y).
Definition on_screen (f : limine_framebuffer) (x y : Z) : Prop := 0 <= x < width f /\ 0 <= y < height f.

(** [paints f m m' P]: from [m] to [m'] the pixels [P] names got its colours,
    the others and all memory outside the frame buffer are as before. *)
Record paints (f : limine_framebuffer) (m m' : bytes) (P : Z -> Z -> option Z) : Prop := {
  paints_pixel x y : on_screen f x y ->
    load32 m' (pix f x y) = match P x y with Some c => u32 c | None => load32 m (pix f x y) end;
  paints_frame a : fits_u64 a -> ~ within (address f) (height f * pitch f) a -> m' a = m a
}.

Definition over (Q P : Z -> Z -> option Z) (x y : Z) : option Z :=
  match Q x y with Some c => Some c | None => P x y end.
Definition only (x0 y0 c x y : Z) : option Z := if (x =? x0) && (y =? y0) then Some c else None.
(** The rectangle of [w] by [h] pixels at ([x0], [y0]), coloured by its own coordinates. *)
Definition rect (x0 y0 w h : Z) (color : Z -> Z -> Z) (x y : Z) : option Z :=
  if (x0 <=? x) && (x <? x0 + w) && (y0 <=? y) && (y <? y0 + h) then Some (color (x - x0) (y - y0)) else None.

Section Paint.
Context (f : limine_framebuffer) (Hf : fb_ok f).

Lemma paints_refl m : paints f m m (fun _ _ => None).
Proof. by split. Qed.

Lemma paints_over m m1 m2 P Q : paints f m m1 P -> paints f m1 m2 Q -> paints f m m2 (over Q P).
Proof.
  intros [Hp Hpf] [Hq Hqf]. split.
  - intros x y Hx. rewrite Hq by done. unfold over. by destruct (Q x y); [|apply Hp].
  - intros a Ha Hw. by rewrite Hqf, Hpf.
Qed.

Lemma paints_ext m m' P Q :
  paints f m m' P -> (forall x y, on_screen f x y -> P x y = Q x y) -> paints f m m' Q.
Proof. intros [Hp Hpf] E. split; [|done]. intros x y Hx. by rewrite <-E; [apply Hp|]. Qed.

Lemma pix_bounds x y :
  0 <= x -> 4 * x + 4 <= pitch f -> 0 <= y < height f ->
  address f <= pix f x y /\ pix f x y + 4 <= address f + height f * pitch f.
Proof. destruct Hf. unfold pix. intros. nia. Qed.

Lemma pix_apart x y x' y' :
  0 <= x -> 4 * x + 4 <= pitch f -> 0 <= x' -> 4 * x' + 4 <= pitch f ->
  (x, y) <> (x', y') -> pix f x y + 4 <= pix f x' y' \/ pix f x' y' + 4 <= pix f x y.
Proof.
  intros ???? Hne. unfold pix. destruct (decide (y = y')) as [->|Hy].
  - assert (x <> x') by (intros ->; done). lia.
  - destruct (decide (y < y')); [left|right]; nia.
Qed.

Lemma paints_store m x y c :
  0 <= x -> 4 * x + 4 <= pitch f -> 0 <= y < height f -> paints f m (store32 m (pix f x y) c) (only x y c).
Proof.
  intros Hx Hxp Hy. pose proof (pix_bounds x y Hx Hxp Hy) as Hb. destruct Hf. split.
  - intros x' y' [Hx' Hy']. pose proof (pix_bounds x' y' ltac:(lia) ltac:(lia) Hy') as Hb'. unfold only.
    destruct (Z.eqb_spec x' x) as [->|]; [destruct (Z.eqb_spec y' y) as [->|]|]; simpl.
    + unfold load32, store32. by rewrite load_store_le by (unfold range_ok; lia).
    + apply load_store_le_ne; [unfold range_ok; lia..|]. apply pix_apart; try lia. congruence.
    + apply load_store_le_ne; [unfold range_ok; lia..|]. apply pix_apart; try lia. congruence.
  - intros a Ha Hw. apply store_le_other; [unfold range_ok; lia|]. unfold within in *. lia.
Qed.

Lemma paints_put_pixel m x y c :
  0 <= x < 4294967296 -> 0 <= y < 4294967296 -> paints f m (put_pixel f x y c m) (only x y c).
Proof.
  intros Hx Hy. unfold put_pixel, u32. rewrite !Z.mod_small by lia.
  destruct (Z.geb_spec x (width f)), (Z.geb_spec y (height f)); simpl;
    try (eapply paints_ext; [apply paints_refl|]; unfold on_screen, only; intros x' y' ?;
         destruct (Z.eqb_spec x' x), (Z.eqb_spec y' y); simpl; done || lia).
  pose proof Hf as [???? ?]. pose proof (pix_bounds x y ltac:(lia) ltac:(lia) ltac:(lia)) as Hb.
  replace (u64 (u64 (address f + u64 (y * pitch f)) + (x * 4) mod 4294967296)) with (pix f x y).
  - apply paints_store; lia.
  - rewrite u64_add_l. rewrite (Z.mod_small (x * 4)) by lia. unfold pix in *.
    rewrite (u64_small (y * pitch f)) by (unfold fits_u64; nia). rewrite u64_small; [done|unfold fits_u64; nia].
Qed.

Lemma paints_loop (R : Z -> Z -> Z -> option Z) (P : Z -> Z -> Z -> option Z) body n : forall i m,
  (forall j, i <= j < i + Z.of_nat n -> forall m, paints f m (body j m) (P j)) ->
  (forall x y, R i x y = None) ->
  (forall j x y, i <= j < i + Z.of_nat n -> R (j + 1) x y = over (P j) (R j) x y) ->
  paints f m (for_range n i body m) (R (i + Z.of_nat n)).
Proof.
  revert R P. enough (forall R P i m m0 , (forall j, i <= j < i + Z.of_nat n -> forall m, paints f m (body j m) (P j)) ->
    paints f m0 m (R i) ->
    (forall j x y, i <= j < i + Z.of_nat n -> R (j + 1) x y = over (P j) (R j) x y) ->
    paints f m0 (for_range n i body m) (R (i + Z.of_nat n))) as G.
  { intros R P i m Hb H0 HR. eapply G; [done| |done]. eapply paints_ext; [apply paints_refl|]. intros. by rewrite H0. }
  induction n as [|n IH]; intros R P i m m0 Hb H0 HR; simpl for_range.
  { by rewrite Z.add_0_r. }
  rewrite Nat2Z.inj_succ. replace (i + Z.succ (Z.of_nat n)) with (i + 1 + Z.of_nat n) by lia.
  apply (IH R P); [intros; apply Hb; lia| |intros; apply HR; lia].
  eapply paints_ext; [eapply paints_over; [apply H0|apply Hb; lia]|]. intros. rewrite HR by lia. done.
Qed.

(** Two nested loops over a rectangle paint the rectangle. *)
Lemma paints_rect m x0 y0 w h color body :
  0 <= x0 -> 0 <= y0 ->
  (forall dx dy, 0 <= dx < Z.of_nat w -> 0 <= dy < Z.of_nat h -> forall m,
     paints f m (body dx dy m) (only (x0 + dx) (y0 + dy) (color dx dy))) ->
  paints f m (for_range h 0 (fun dy m => for_range w 0 (fun dx m => body dx dy m) m) m)
    (rect x0 y0 (Z.of_nat w) (Z.of_nat h) color).
Proof.
  intros Hx0 Hy0 Hb.
  apply (paints_loop (fun j => rect x0 y0 (Z.of_nat w) j color)
           (fun j => rect x0 (y0 + j) (Z.of_nat w) 1 (fun x y => color x j))).
  - intros j Hj m1. apply (paints_loop (fun i => rect x0 (y0 + j) i 1 (fun x y => color x j))
      (fun i => only (x0 + i) (y0 + j) (color i j))).
    + intros i Hi m2. apply Hb; lia.
    + intros x y. unfold rect. by zcases.
    + intros i x y Hi. unfold over, only, rect. zcases; try done; do 2 f_equal; lia.
  - intros x y. unfold rect. by zcases.
  - intros j x y Hj. unfold over, rect. zcases; try done; do 2 f_equal; lia.
Qed.
End Paint.

(** ** What the loops of the code paint *)

Lemma for_range_ok_pure {S} (body : Z -> S -> outcome S) (body' : Z -> S -> S) n : forall i s,
  (forall j s, i <= j < i + Z.of_nat n -> body j s = Ok (body' j s)) ->
  for_range_ok n i body s = Ok (for_range n i body' s).
Proof.
  induction n as [|n IH]; intros i s Hb; simpl; [done|].
  rewrite Hb by lia. mred. apply IH. intros. apply Hb. lia.
Qed.

Lemma for_range_shift {S} (body : Z -> S -> S) n : forall i k s,
  for_range n (i + k) body s = for_range n i (fun j => body (j + k)) s.
Proof.
  induction n as [|n IH]; intros i k s; simpl; [done|].
  by replace (i + k + 1) with (i + 1 + k) by lia.
Qed.

(** Pixel [dx] of row [dy] of a glyph. *)
Definition glyph_bit (g : list Z) (dx dy : Z) : bool :=
  match g !! Z.to_nat dy with Some b => Z.testbit b (7 - dx) | None => false end.
Definition glyph_color (g : list Z) (fg bg dx dy : Z) : Z := if glyph_bit g dx dy then fg else bg.

Lemma mask_bit b dx : 0 <= dx < 8 ->
  negb (Z.land b (u8 (Z.shiftr 128 (Z.land (dx * 8 / font_width) 7))) =? 0) = Z.testbit b (7 - dx).
Proof.
  intros Hdx. unfold font_width. rewrite Z.div_mul by done. change 7 with (Z.ones 3) at 1.
  rewrite Z.land_ones, Z.mod_small, Z.shiftr_div_pow2 by lia.
  replace (128 / 2 ^ dx) with (Z.shiftl 1 (7 - dx)).
  - rewrite u8_small, bit_test_eqb, negb_involutive by lia || (rewrite Z.shiftl_1_l;
      split; [lia|]; pose proof (Z.pow_lt_mono_r 2 (7 - dx) 8); lia). done.
  - rewrite Z.shiftl_1_l, Z.pow_sub_r by lia. done.
Qed.

Lemma u32_s32 z : u32 (s32 z) = u32 z.
Proof. unfold s32, u32. zcases; zdiv. Qed.

Section Loops.
Context (f : limine_framebuffer) (Hf : fb_ok f).

Lemma put_pixel_u32 x y x' y' c m :
  u32 x = u32 x' -> u32 y = u32 y' -> put_pixel f x y c m = put_pixel f x' y' c m.
Proof. intros Hx Hy. unfold put_pixel. by rewrite Hx, Hy. Qed.

Lemma draw_glyph_paints m x y fg bg g :
  0 <= x < 2147483648 -> 0 <= y < 2147483648 -> length g = 16%nat ->
  exists m', draw_glyph f x y fg bg g m = Ok m' /\ paints f m m' (rect x y 8 16 (glyph_color g fg bg)).
Proof.
  intros Hx Hy Hg. unfold draw_glyph.
  eexists. split.
  - apply for_range_ok_pure. intros dy m1 Hdy.
    apply (for_range_ok_pure _ (fun dx m => put_pixel f (x + dx) (y + dy) (glyph_color g fg bg dx dy) m)).
    intros dx m2 Hdx. change (Z.of_nat (Z.to_nat font_width)) with 8 in Hdx.
    change (Z.of_nat (Z.to_nat font_height)) with 16 in Hdy.
    replace (dy * 16 / font_height * ((8 + 7) / 8) + Z.shiftr (dx * 8 / font_width) 3) with dy.
    + unfold glyph_color, glyph_bit, arr_get. destruct (Z.ltb_spec dy 0); [lia|].
      destruct (lookup_lt_is_Some_2 g (Z.to_nat dy)) as [b Hb]; [lia|]. rewrite Hb. mred.
      rewrite mask_bit by lia. f_equal. destruct (Z.testbit b (7 - dx)); apply put_pixel_u32; apply u32_s32.
    + unfold font_height, font_width. rewrite !Z.div_mul, Z.shiftr_div_pow2 by lia. change ((8 + 7) / 8) with 1.
      rewrite (Z.div_small dx) by lia. lia.
  - apply (paints_rect f m x y 8 16 _ (fun dx dy => put_pixel f (x + dx) (y + dy) (glyph_color g fg bg dx dy)));
      [lia..|]. intros. apply paints_put_pixel; [done|lia..].
Qed.

Lemma clear_rows_paints m y c n :
  0 <= y -> y + Z.of_nat n <= height f ->
  paints f m (clear_rows f n y c m) (rect 0 y (pitch f / 4) (Z.of_nat n) (fun _ _ => c)).
Proof.
  intros Hy Hn. pose proof Hf as [? Ht Hp ??]. unfold clear_rows. unfold u32. rewrite Z.mod_small by zdiv.
  rewrite <-(Z.add_0_l y) at 1. rewrite for_range_shift.
  pose proof (paints_rect f m 0 y (Z.to_nat (pitch f / 4)) n (fun _ _ => c)
    (fun x dy m => store32 m (u64 (u64 (address f + u64 ((dy + y) * pitch f)) + x * 4)) c)) as G.
  rewrite Z2Nat.id in G by zdiv. apply G; [lia..|]. clear G.
  intros dx dy Hdx Hdy m1.
  pose proof (pix_bounds f Hf dx (y + dy) ltac:(lia) ltac:(zdiv) ltac:(lia)) as Hb.
  replace (u64 (u64 (address f + u64 ((dy + y) * pitch f)) + dx * 4)) with (pix f (0 + dx) (y + dy)).
  - apply paints_store; [done|zdiv..].
  - rewrite u64_add_l. unfold pix in *. rewrite (Z.add_comm dy y), (u64_small ((y + dy) * pitch f)) by (unfold fits_u64; nia).
    rewrite u64_small; [done|unfold fits_u64; lia].
Qed.
End Loops.

Lemma scroll_pixels t x y :
  fb_ok (fb t) -> on_screen (fb t) x y ->
  pixel (_scroll_up t) x y = if y + 16 <? height (fb t) then pixel t x (y + 16) else u32 (bgc t).
Proof.
  intros Hf [Hx Hy]. pose proof Hf as [Ha Ht Hp ? Hh]. unfold _scroll_up, pixel.
  cbn [set_vram vram fb bgc]. unfold font_height, u32 at 1 2. rewrite !(Z.mod_small (_ - 16)) by lia.
  replace (height (fb t) - (height (fb t) - 16)) with 16 by lia.
  rewrite (paints_pixel _ _ _ _ (clear_rows_paints _ Hf _ (height (fb t) - 16) (bgc t) (Z.to_nat 16) ltac:(lia) ltac:(lia)))
    by done.
  unfold rect. change (Z.of_nat (Z.to_nat 16)) with 16.
  assert (x < pitch (fb t) / 4) by zdiv.
  destruct (Z.ltb_spec (y + 16) (height (fb t))) as [Hl|Hl]; [|by zcases].
  zcases.
  rewrite !(u64_small (16 * _)), !(u64_small (height (fb t) * _)) by (unfold fits_u64; nia).
  rewrite !u64_small by (unfold fits_u64; nia).
  unfold load32, pix.
  (* four bytes, each copied from sixteen rows below *)
  replace (address (fb t) + y * pitch (fb t) + x * 4) with (address (fb t) + (y * pitch (fb t) + x * 4)) by lia.
  replace (address (fb t) + (y + 16) * pitch (fb t) + x * 4)
    with (address (fb t) + 16 * pitch (fb t) + (y * pitch (fb t) + x * 4)) by lia.
  assert (0 <= y * pitch (fb t) + x * 4 /\ y * pitch (fb t) + x * 4 + 4 <= height (fb t) * pitch (fb t) - 16 * pitch (fb t))
    as Hi by nia.
  set (i := y * pitch (fb t) + x * 4) in *. clearbody i.
  cbn [load_le]. rewrite !u64_next by (rewrite ?u64_next; lia).
  rewrite <-!Z.add_assoc. rewrite !memcpy_in by (unfold range_ok; lia). by rewrite !Z.add_assoc.
Qed.

Lemma scroll_frame t a :
  fb_ok (fb t) -> fits_u64 a -> ~ within (address (fb t)) (height (fb t) * pitch (fb t)) a -> vram (_scroll_up t) a = vram t a.
Proof.
  intros Hf Hfa Hw. pose proof Hf as [Ha Ht Hp ? Hh]. unfold _scroll_up.
  cbn [set_vram vram fb bgc]. unfold font_height, u32. rewrite (Z.mod_small (_ - 16)) by lia.
  replace (height (fb t) - (height (fb t) - 16)) with 16 by lia.
  rewrite (paints_frame _ _ _ _ (clear_rows_paints _ Hf _ (height (fb t) - 16) (bgc t) (Z.to_nat 16) ltac:(lia) ltac:(lia)))
    by done.
  rewrite !(u64_small (16 * _)), !(u64_small (height (fb t) * _)) by (unfold fits_u64; nia).
  rewrite !u64_small by (unfold fits_u64; nia).
  apply memcpy_other; [unfold range_ok; nia|done|]. unfold within in *. nia.
Qed.

(** ** What the console shows *)

(** A cell holds the rows of a glyph and the colour it was drawn with. *)
Definition cell : Type := list Z * Z.
Definition blank : cell := ([], 0).

(** The text on the screen.  [cursor] is the colour of the cursor's bar when it
    is drawn.  Line -1 is the one scrolled out last: its lower part stays in
    the upper margin. *)
Record tty := mk_tty { cells : Z -> Z -> cell; t_line : Z; t_col : Z; cursor : option Z }.

(** The colour of pixel ([x], [y]) when cells of 8 by 16 pixels start at (10, 10). *)
Definition render (t : term) (T : tty) (x y : Z) : Z :=
  let l := (y - 10) / 16 in
  let c := (x - 10) / 8 in
  let text := if (0 <=? c) && (c <? max_col t) && (l <=? max_line t)
              then glyph_color (fst (cells T l c)) (snd (cells T l c)) (bgc t) ((x - 10) mod 8) ((y - 10) mod 16)
              else bgc t in
  match cursor T with
  | Some k => if (c =? t_col T) && (l =? t_line T) && ((x - 10) mod 8 <? 2) then k else text
  | None => text
  end.

Record term_ok (t : term) : Prop := {
  ok_fb : fb_ok (fb t);
  ok_max_col : max_col t = (width (fb t) - 20) / 8;
  ok_max_line : max_line t = (height (fb t) - 20) / 16 - 1;
  ok_line : 0 <= line t < 100000000;
  ok_col : 0 <= col t < 200000000
}.

Record displays (t : term) (T : tty) : Prop := {
  shows_line : line t = t_line T;
  shows_col : col t = t_col T;
  shows_cursor : cursor_visible t = bool_decide (is_Some (cursor T));
  shows x y : on_screen (fb t) x y -> pixel t x y = u32 (render t T x y)
}.

(** What no operation on text changes: the geometry, the colours, the interrupt
    flag and the memory outside the frame buffer. *)
Record kept (t t' : term) : Prop := {
  kept_fb : fb t' = fb t;
  kept_max_col : max_col t' = max_col t;
  kept_max_line : max_line t' = max_line t;
  kept_fgc : fgc t' = fgc t;
  kept_bgc : bgc t' = bgc t;
  kept_intr : intr_on t' = intr_on t;
  kept_mem a : fits_u64 a -> ~ within (address (fb t)) (height (fb t) * pitch (fb t)) a -> vram t' a = vram t a
}.

Lemma kept_refl t : kept t t.
Proof. by split. Qed.
Lemma kept_trans t1 t2 t3 : kept t1 t2 -> kept t2 t3 -> kept t1 t3.
Proof.
  intros [E1 ? ? ? ? ? M1] [E2 ? ? ? ? ? M2]. split; try congruence.
  intros a Ha Hw. rewrite M2, M1 by (rewrite ?E1; done). done.
Qed.
#[export] Instance kept_preorder : PreOrder kept.
Proof. split; [exact kept_refl|exact kept_trans]. Qed.

(** [t'] follows from [t] and shows [T]. *)
Record follows (t t' : term) (T : tty) : Prop := {
  f_ok : term_ok t'; f_kept : kept t t'; f_shows : displays t' T
}.

Lemma follows_trans t t1 t2 T1 T2 : follows t t1 T1 -> follows t1 t2 T2 -> follows t t2 T2.
Proof. intros [? K1 ?] [? K2 ?]. split; [done|by etransitivity|done]. Qed.

(** *** The abstract operations *)

(** The two left columns of a glyph wiped: what hiding the bar leaves. *)
Definition erase_left (g : list Z) : list Z := map (fun b => Z.land b 63) g.
Definition put_cell (cs : Z -> Z -> cell) (l c : Z) (k : cell) : Z -> Z -> cell :=
  fun l' c' => if (c' =? c) && (l' =? l) then k else cs l' c'.

Definition tty_hide (T : tty) : tty :=
  match cursor T with
  | None => T
  | Some _ =>
      let k := cells T (t_line T) (t_col T) in
      mk_tty (put_cell (cells T) (t_line T) (t_col T) (erase_left (fst k), snd k)) (t_line T) (t_col T) None
  end.
Definition tty_draw (fg : Z) (T : tty) : tty :=
  match cursor T with None => mk_tty (cells T) (t_line T) (t_col T) (Some fg) | Some _ => T end.
Definition tty_at (l c : Z) (T : tty) : tty := mk_tty (cells T) l c (cursor T).

(** *** Cells and pixels *)

Lemma cell_rect c0 l0 w k x y :
  0 <= w <= 8 ->
  rect (c0 * 8 + 10) (l0 * 16 + 10) w 16 k x y
  = if ((x - 10) / 8 =? c0) && ((y - 10) / 16 =? l0) && ((x - 10) mod 8 <? w)
    then Some (k ((x - 10) mod 8) ((y - 10) mod 16)) else None.
Proof.
  intros Hw. unfold rect.
  pose proof (Z.div_mod (x - 10) 8 ltac:(lia)). pose proof (Z.mod_pos_bound (x - 10) 8 ltac:(lia)).
  pose proof (Z.div_mod (y - 10) 16 ltac:(lia)). pose proof (Z.mod_pos_bound (y - 10) 16 ltac:(lia)).
  set (c := (x - 10) / 8) in *. set (dx := (x - 10) mod 8) in *.
  set (l := (y - 10) / 16) in *. set (dy := (y - 10) mod 16) in *. clearbody c dx l dy.
  zcases; try done. do 2 f_equal; lia.
Qed.

Lemma erase_left_bit g dx dy : 0 <= dx < 8 -> glyph_bit (erase_left g) dx dy = (2 <=? dx) && glyph_bit g dx dy.
Proof.
  intros Hdx. unfold glyph_bit, erase_left. rewrite list_lookup_fmap.
  destruct (g !! Z.to_nat dy) as [b|]; simpl; [|by rewrite andb_false_r].
  rewrite Z.land_spec, andb_comm. f_equal. change 63 with (Z.ones 6). rewrite testbit_ones by lia. zcases; done.
Qed.

(** Painting one cell's rectangle, or its left part, changes what is shown in one place. *)
Lemma _print_cursor_paints b t :
  term_ok t ->
  paints (fb t) (vram t) (vram (_print_cursor b t))
    (rect (col t * 8 + 10) (line t * 16 + 10) 2 16 (fun _ _ => if b then fgc t else bgc t)).
Proof.
  intros [Hf ?? Hl Hc]. unfold _print_cursor. cbn [set_vram vram].
  unfold font_width, font_height, term_margin, u32. rewrite !Z.mod_small by lia.
  apply (paints_rect _ _ _ _ 2 16 _ (fun x y m => if (col t * 8 + 10 + x <? width (fb t)) &&
     (line t * 16 + 10 + y <? height (fb t)) then put_pixel (fb t) _ _ _ m else m)); [lia..|].
  intros dx dy Hdx Hdy m.
  destruct (_ && _) eqn:E; [apply paints_put_pixel; [done|lia..]|].
  eapply paints_ext; [apply paints_refl|]. intros x y [Hx Hy]. unfold only.
  destruct (Z.eqb_spec x (col t * 8 + 10 + dx)), (Z.eqb_spec y (line t * 16 + 10 + dy)); simpl; try done.
  apply andb_false_iff in E as [E|E]; bool_hyps; lia.
Qed.

Lemma kept_paint t t' P :
  paints (fb t) (vram t) (vram t') P -> fb t' = fb t -> max_col t' = max_col t -> max_line t' = max_line t ->
  fgc t' = fgc t -> bgc t' = bgc t -> intr_on t' = intr_on t -> kept t t'.
Proof. intros [_ Hm] **. by split. Qed.

Lemma hide_cursor_shows t T : term_ok t -> displays t T -> follows t (hide_cursor t) (tty_hide T).
Proof.
  intros Ht [Hl Hc Hv Hs]. unfold hide_cursor, tty_hide.
  destruct (cursor T) as [k|] eqn:Ek.
  2: { rewrite Hv. rewrite bool_decide_eq_false_2 by (by intros [? ?]). split; [by destruct Ht|by split|]. split; try done.
       simpl. by rewrite Ek. }
  rewrite Hv, bool_decide_eq_true_2 by done.
  pose proof (_print_cursor_paints false t Ht) as Hp.
  assert (kept t (set_visible (_print_cursor false t) false)) as Hk by (by eapply kept_paint; [apply Hp|..]).
  split; [by destruct Ht|done|]. split; try done. intros x y Hon. unfold pixel. cbn [set_visible vram fb _print_cursor set_vram].
  etransitivity; [apply (paints_pixel _ _ _ _ Hp x y Hon)|]. rewrite cell_rect, Hl, Hc by lia.
  specialize (Hs x y Hon). unfold pixel in Hs. rewrite Hs. unfold render. rewrite Ek.
  cbn [cursor t_line t_col cells max_col max_line bgc]. unfold put_cell.
  pose proof (Z.mod_pos_bound (x - 10) 8 ltac:(lia)) as Hdx.
  destruct (Z.eqb_spec ((x - 10) / 8) (t_col T)) as [E1|]; [destruct (Z.eqb_spec ((y - 10) / 16) (t_line T)) as [E2|]|];
    simpl; try done.
  rewrite E1, E2. unfold glyph_color. cbn [fst snd]. rewrite erase_left_bit by done.
  by destruct (Z.ltb_spec ((x - 10) mod 8) 2), (Z.leb_spec 2 ((x - 10) mod 8)); simpl; try lia; repeat case_match.
Qed.

Lemma draw_cursor_shows t T : term_ok t -> displays t T -> follows t (draw_cursor t) (tty_draw (fgc t) T).
Proof.
  intros Ht [Hl Hc Hv Hs]. unfold draw_cursor, tty_draw.
  destruct (cursor T) as [k|] eqn:Ek.
  { rewrite Hv, bool_decide_eq_true_2 by done. split; [by destruct Ht|by split|]. split; try done.
    simpl. by rewrite Ek. }
  rewrite Hv, bool_decide_eq_false_2 by (by intros [? ?]).
  pose proof (_print_cursor_paints true t Ht) as Hp.
  split; [by destruct Ht|by eapply kept_paint; [apply Hp|..]|]. split; try done.
  intros x y Hon. unfold pixel. cbn [set_visible vram fb _print_cursor set_vram].
  etransitivity; [apply (paints_pixel _ _ _ _ Hp x y Hon)|]. rewrite cell_rect, Hl, Hc by lia.
  specialize (Hs x y Hon). unfold pixel in Hs. rewrite Hs. unfold render. rewrite Ek.
  cbn [negb set_visible _print_cursor set_vram cursor t_line t_col cells max_col max_line bgc].
  by destruct (_ && _ && (_ <? 2)).
Qed.

(** Moving the position while the bar is not drawn. *)
Lemma set_pos_shows t T l c :
  term_ok t -> displays t T -> cursor T = None -> 0 <= l < 100000000 -> 0 <= c < 200000000 ->
  follows t (set_pos t l c) (tty_at l c T).
Proof.
  intros [] [Hl Hc Hv Hs] E ??. split; [by split|by split|]. split; try done.
  intros x y Hon. etransitivity; [exact (Hs x y Hon)|]. unfold render, tty_at. simpl. by rewrite E.
Qed.

Lemma tty_hide_cursor T : cursor (tty_hide T) = None.
Proof. unfold tty_hide. by destruct (cursor T) eqn:?. Qed.
Lemma tty_hide_line T : t_line (tty_hide T) = t_line T.
Proof. unfold tty_hide. by destruct (cursor T). Qed.
Lemma tty_hide_col T : t_col (tty_hide T) = t_col T.
Proof. unfold tty_hide. by destruct (cursor T). Qed.

(** Hide the bar, go elsewhere, draw it: what every movement does. *)
Definition tty_move (fg l c : Z) (T : tty) : tty := mk_tty (cells (tty_hide T)) l c (Some fg).

Lemma move_shows t T l c :
  term_ok t -> displays t T -> 0 <= l < 100000000 -> 0 <= c < 200000000 ->
  follows t (draw_cursor (set_pos (hide_cursor t) l c)) (tty_move (fgc t) l c T).
Proof.
  intros Ht Hs Hl Hc. pose proof (hide_cursor_shows t T Ht Hs) as F1.
  pose proof (set_pos_shows _ _ l c (f_ok _ _ _ F1) (f_shows _ _ _ F1) (tty_hide_cursor T) Hl Hc) as F2.
  pose proof (draw_cursor_shows _ _ (f_ok _ _ _ F2) (f_shows _ _ _ F2)) as F3.
  eapply follows_trans; [apply F1|]. eapply follows_trans; [apply F2|].
  rewrite (kept_fgc _ _ (f_kept _ _ _ F2)), (kept_fgc _ _ (f_kept _ _ _ F1)) in F3.
  unfold tty_draw, tty_at in F3. cbn [cursor cells t_line t_col] in F3. by rewrite tty_hide_cursor in F3.
Qed.

(** *** Scrolling and drawing a character *)

Definition tty_scroll (ml : Z) (T : tty) : tty :=
  mk_tty (fun l c => if l <? ml then cells T (l + 1) c else blank) (t_line T - 1) (t_col T) (cursor T).

Lemma blank_color k bg dx dy : glyph_color [] k bg dx dy = bg.
Proof. unfold glyph_color, glyph_bit. by rewrite lookup_nil. Qed.

Lemma scroll_shows t T :
  term_ok t -> displays t T -> max_line t <= line t -> cursor T = None \/ line t <= max_line t ->
  follows t (set_pos (_scroll_up t) (u32 (line t - 1)) (col t)) (tty_scroll (max_line t) T).
Proof.
  intros [Hf Hmc Hml Hl Hc] [Sl Sc Sv Ss] Hm Hcur. pose proof (ok_height _ Hf) as Hh.
  assert (1 <= max_line t /\ 16 * max_line t + 36 <= height (fb t)) as [Hml1 Hml2] by (rewrite Hml; zdiv).
  unfold u32. rewrite (Z.mod_small (line t - 1)) by lia. split.
  - by split; simpl; [|..|lia|].
  - split; try done. intros a Ha Hw. by apply scroll_frame.
  - split; simpl; [lia|done..|]. intros x y Hon.
    etransitivity; [apply (scroll_pixels t x y Hf Hon)|].
    pose proof (Ss x (y + 16)) as S16. unfold render in *. simpl.
    replace ((y + 16 - 10) / 16) with ((y - 10) / 16 + 1) in S16 by zdiv.
    replace ((y + 16 - 10) mod 16) with ((y - 10) mod 16) in S16 by zdiv.
    replace ((y - 10) / 16 =? t_line T - 1) with ((y - 10) / 16 + 1 =? t_line T) by zcases.
    destruct Hon as [Hx Hy]. destruct (Z.ltb_spec (y + 16) (height (fb t))).
    + rewrite S16 by (unfold on_screen; lia). repeat f_equal.
      destruct (Z.ltb_spec ((y - 10) / 16) (max_line t)); zcases;
        by rewrite ?andb_false_r, ?andb_true_r, ?blank_color; repeat case_match.
    + destruct (Z.ltb_spec ((y - 10) / 16) (max_line t)) as [|Hge]; [zdiv|]. simpl. rewrite !blank_color.
      assert (forall b : bool, (if b then bgc t else bgc t) = bgc t) as -> by (by intros []).
      destruct (cursor T) as [k|]; [|done]. destruct Hcur as [|Hcur]; [done|].
      destruct (Z.eqb_spec ((y - 10) / 16 + 1) (t_line T)); [lia|]. by rewrite andb_false_r.
Qed.

Definition tty_put_glyph (fg : Z) (g : list Z) (T : tty) : tty :=
  mk_tty (put_cell (cells T) (t_line T) (t_col T) (if cursor T is Some _ then erase_left g else g, fg))
    (t_line T) (t_col T + 1) (Some fg).

(** Drawing a glyph and hiding the bar: a bar that was drawn takes the left of
    the new glyph with it. *)
Lemma glyph_shows t T g :
  term_ok t -> displays t T -> length g = 16%nat -> line t <= max_line t -> col t < max_col t ->
  exists m, draw_glyph (fb t) (u32 (col t * font_width + term_margin)) (u32 (line t * font_height + term_margin))
              (fgc t) (bgc t) g (vram t) = Ok m /\
    follows t (hide_cursor (set_vram t m))
      (mk_tty (put_cell (cells T) (t_line T) (t_col T) (if cursor T is Some _ then erase_left g else g, fgc t))
         (t_line T) (t_col T) None).
Proof.
  intros Ht [Sl Sc Sv Ss] Hg Hline Hcol. pose proof Ht as [Hf Hmc Hml Hl Hc].
  unfold font_width, font_height, term_margin, u32. rewrite !Z.mod_small by lia.
  destruct (draw_glyph_paints (fb t) Hf (vram t) (col t * 8 + 10) (line t * 16 + 10) (fgc t) (bgc t) g)
    as (m & -> & Hp); [lia..|done|]. exists m. split; [done|].
  assert (term_ok (set_vram t m)) as Ht' by done.
  pose proof (_print_cursor_paints false _ Ht') as Hp2. cbn [set_vram fb vram col line bgc] in Hp2.
  unfold hide_cursor. cbn [set_vram cursor_visible]. rewrite Sv.
  assert (forall x y, on_screen (fb t) x y -> load32 (vram t) (pix (fb t) x y) = u32 (render t T x y)) as Ss' by exact Ss.
  destruct (cursor T) as [k|] eqn:Ek.
  - rewrite bool_decide_eq_true_2 by done. pose proof (paints_over _ _ _ _ _ _ Hp Hp2) as Hpp.
    split; [done|by eapply kept_paint; [apply Hpp|..]|]. split; try done.
    intros x y Hon. etransitivity; [apply (paints_pixel _ _ _ _ Hpp x y Hon)|].
    unfold over. rewrite !cell_rect, Sl, Sc, Ss' by lia || done. unfold render. rewrite Ek.
    cbn [cursor cells set_visible _print_cursor set_vram max_col max_line bgc]. unfold put_cell.
    pose proof (Z.mod_pos_bound (x - 10) 8 ltac:(lia)) as Hdx.
    destruct (Z.eqb_spec ((x - 10) / 8) (t_col T)) as [->|], (Z.eqb_spec ((y - 10) / 16) (t_line T)) as [->|];
      simpl; try done.
    unfold glyph_color. cbn [fst snd]. rewrite erase_left_bit by lia. zcases; by case_match.
  - rewrite bool_decide_eq_false_2 by (by intros [? ?]).
    split; [done|by eapply kept_paint; [apply Hp|..]|]. split; try done.
    intros x y Hon. etransitivity; [apply (paints_pixel _ _ _ _ Hp x y Hon)|].
    rewrite !cell_rect, Sl, Sc, Ss' by lia || done. unfold render. rewrite Ek.
    cbn [cursor cells set_visible set_vram max_col max_line bgc]. unfold put_cell.
    pose proof (Z.mod_pos_bound (x - 10) 8 ltac:(lia)) as Hdx.
    destruct (Z.eqb_spec ((x - 10) / 8) (t_col T)) as [->|], (Z.eqb_spec ((y - 10) / 16) (t_line T)) as [->|];
      simpl; try done. zcases; by case_match.
Qed.

(** *** The text a character makes *)

Definition glyph_of (c : Z) : list Z := default [] (font8x16 !! Z.to_nat (u8 c)).

Definition tty_left (fg : Z) (T : tty) : tty :=
  tty_move fg (t_line T) (if t_col T >? 0 then t_col T - 1 else t_col T) T.

(** A character that is drawn: at the end of a line it opens a new one, below
    the last line it scrolls. *)
Definition tty_type (mc ml fg : Z) (g : list Z) (T : tty) : tty :=
  let T := tty_hide T in
  let T := if t_col T >=? mc then tty_move fg (t_line T + 1) 0 T else T in
  let T := if t_line T >=? ml then tty_scroll ml T else T in
  tty_put_glyph fg g T.

Definition tty_put (mc ml fg c : Z) (T : tty) : tty :=
  if c =? 10 then tty_move fg (t_line T + 1) 0 T
  else if c =? 9 then tty_at (t_line T) (t_col T - t_col T mod 8 + 8) (tty_hide T)
  else if c =? 8 then tty_left fg (tty_type mc ml fg (glyph_of 32) (tty_left fg (tty_hide T)))
  else tty_type mc ml fg (glyph_of c) T.

(** Whether the character lands on the screen: not more than one line below the
    last, and a line that is full has one below it. *)
Definition room (mc ml l c : Z) : bool := if c >=? mc then l <? ml else l <=? ml + 1.
Definition tty_room (mc ml c : Z) (T : tty) : bool :=
  if c =? 10 then t_line T <? 99999999
  else if c =? 9 then t_col T <? 199999990
  else if c =? 8 then room mc ml (t_line T) (if t_col T >? 0 then t_col T - 1 else t_col T)
  else room mc ml (t_line T) (t_col T).

Lemma follows_kept t t1 t2 T1 T2 :
  follows t t1 T1 -> (term_ok t1 -> displays t1 T1 -> follows t1 t2 T2) -> follows t t2 T2.
Proof. intros F G. eapply follows_trans; [exact F|]. destruct F. auto. Qed.

Lemma newline_shows t T :
  term_ok t -> displays t T -> line t < 99999999 -> follows t (_newline t) (tty_move (fgc t) (t_line T + 1) 0 T).
Proof.
  intros Ht Hs Hl. pose proof (ok_line _ Ht). unfold _newline.
  replace (u32 (line (hide_cursor t) + 1)) with (t_line T + 1).
  - apply move_shows; [done..| |lia]. rewrite <-(shows_line _ _ Hs). lia.
  - rewrite (shows_line _ _ (f_shows _ _ _ (hide_cursor_shows t T Ht Hs))), tty_hide_line, <-(shows_line _ _ Hs).
    unfold u32. by rewrite Z.mod_small by lia.
Qed.

Lemma left_shows t T : term_ok t -> displays t T -> follows t (move_cursor_left t) (tty_left (fgc t) T).
Proof.
  intros Ht Hs. pose proof Ht as [_ _ _ Hl Hc]. unfold move_cursor_left, tty_left.
  pose proof (hide_cursor_shows t T Ht Hs) as F. destruct (f_shows _ _ _ F) as [El Ec _ _].
  rewrite tty_hide_line in El. rewrite tty_hide_col in Ec. rewrite Ec, El, <-(shows_col _ _ Hs).
  assert (line t = t_line T) as El' by apply Hs.
  replace (if col t >? 0 then set_pos (hide_cursor t) (t_line T) (u32 (col t - 1)) else hide_cursor t)
    with (set_pos (hide_cursor t) (t_line T) (if col t >? 0 then col t - 1 else col t)).
  - apply move_shows; [done..|lia|]. zcases; destruct (col t >? 0) eqn:?; bool_hyps; lia.
  - destruct (col t >? 0) eqn:E; bool_hyps; [unfold u32; by rewrite Z.mod_small by lia|].
    rewrite <-El. replace (col t) with (col (hide_cursor t)) by (rewrite Ec; symmetry; apply Hs). by destruct (hide_cursor t).
Qed.

Lemma follows_refl t T : term_ok t -> displays t T -> follows t t T.
Proof. intros. by split. Qed.

(** Opening a new line when the line is full. *)
Lemma wrap_shows t T :
  term_ok t -> displays t T -> cursor T = None -> room (max_col t) (max_line t) (t_line T) (t_col T) = true ->
  let T' := if t_col T >=? max_col t then tty_move (fgc t) (t_line T + 1) 0 T else T in
  follows t (if col t >=? max_col t then _newline t else t) T' /\
  t_col T' < max_col t /\ t_line T' <= max_line t + 1 /\ (cursor T' = None \/ t_line T' <= max_line t).
Proof.
  intros Ht Hs Hcur Hr. rewrite (shows_col _ _ Hs). unfold room in Hr.
  pose proof Ht as [[] Hmc Hml ? ?]. destruct (t_col T >=? max_col t) eqn:E; bool_hyps; simpl.
  - rewrite <-(shows_line _ _ Hs) in *. split; [|split; [rewrite Hmc; zdiv|lia]].
    rewrite (shows_line _ _ Hs). apply newline_shows; [done..|zdiv].
  - split; [by apply follows_refl|]. auto.
Qed.

(** Scrolling when the line is the last one or below it. *)
Lemma scroll_if_shows t T :
  term_ok t -> displays t T -> t_line T <= max_line t + 1 -> cursor T = None \/ t_line T <= max_line t ->
  let T' := if t_line T >=? max_line t then tty_scroll (max_line t) T else T in
  follows t (if line t >=? max_line t then set_pos (_scroll_up t) (u32 (line (_scroll_up t) - 1)) (col (_scroll_up t)) else t) T'
  /\ t_line T' <= max_line t /\ t_col T' = t_col T.
Proof.
  intros Ht Hs Hl Hcur. rewrite (shows_line _ _ Hs).
  destruct (t_line T >=? max_line t) eqn:E; bool_hyps; simpl.
  - split; [|lia]. rewrite <-(shows_line _ _ Hs) in *. by apply scroll_shows.
  - split; [by apply follows_refl|]. lia.
Qed.

(** The glyph, and the bar one column further. *)
Lemma put_glyph_shows t T g :
  term_ok t -> displays t T -> length g = 16%nat -> t_line T <= max_line t -> t_col T < max_col t ->
  exists m, draw_glyph (fb t) (u32 (col t * font_width + term_margin)) (u32 (line t * font_height + term_margin))
              (fgc t) (bgc t) g (vram t) = Ok m /\
    follows t (draw_cursor (move_cursor_right (set_vram t m))) (tty_put_glyph (fgc t) g T).
Proof.
  intros Ht Hs Hg Hl Hc. pose proof (ok_col _ Ht) as Hcol. pose proof (ok_line _ Ht) as Hline.
  rewrite <-(shows_line _ _ Hs), <-(shows_col _ _ Hs) in *.
  destruct (glyph_shows t T g) as (m & Hm & F1); [done..|]. exists m. split; [done|].
  eapply follows_trans; [exact F1|]. destruct F1 as [Ok1 K1 S1]. unfold move_cursor_right.
  rewrite (shows_col _ _ S1), (kept_max_col _ _ K1). cbn [t_col]. rewrite <-(shows_col _ _ Hs).
  destruct (Z.ltb_spec (col t) (max_col t)); [|lia]. unfold u32. rewrite Z.mod_small by lia.
  assert (line (hide_cursor (set_vram t m)) = line t) as -> by (rewrite (shows_line _ _ S1); symmetry; apply Hs).
  pose proof (set_pos_shows _ _ (line t) (col t + 1) Ok1 S1 eq_refl Hline) as F2.
  assert (max_col t < 199999999) by (destruct Ht as [[] -> _ _ _]; zdiv).
  specialize (F2 ltac:(lia)). eapply follows_trans; [exact F2|]. destruct F2 as [Ok2 K2 S2].
  pose proof (draw_cursor_shows _ _ Ok2 S2) as F3. eapply follows_trans; [exact F3|]. destruct F3 as [Ok3 K3 S3].
  pose proof (draw_cursor_shows _ _ Ok3 S3) as F4.
  rewrite (kept_fgc _ _ K3), (kept_fgc _ _ K2), (kept_fgc _ _ K1) in F4.
  unfold tty_put_glyph. rewrite <-(shows_line _ _ Hs), <-(shows_col _ _ Hs) in *. exact F4.
Qed.

(** [put_char] of a character with a glyph. *)
Lemma type_shows t T space c :
  term_ok t -> displays t T -> 0 <= c < 128 -> c <> 8 -> c <> 9 -> c <> 10 ->
  room (max_col t) (max_line t) (t_line T) (t_col T) = true ->
  exists t', put_char_body space c t = Ok t' /\
    follows t t' (tty_type (max_col t) (max_line t) (fgc t) (glyph_of c) T).
Proof.
  intros Ht Hs Hc H8 H9 H10 Hr. unfold put_char_body, tty_type.
  destruct (Z.eqb_spec c 10), (Z.eqb_spec c 9), (Z.eqb_spec c 8); try lia.
  unfold glyph_of. rewrite u8_small by lia. destruct (font_glyph c Hc) as (g & Hg & Hlen). rewrite Hg. simpl default.
  pose proof (hide_cursor_shows t T Ht Hs) as F1. destruct F1 as [Ok1 K1 S1] eqn:EF1. clear EF1.
  rewrite <-(kept_max_col _ _ K1), <-(kept_max_line _ _ K1), <-(kept_fgc _ _ K1) in *.
  rewrite <-(tty_hide_line T), <-(tty_hide_col T) in Hr.
  destruct (wrap_shows _ _ Ok1 S1 (tty_hide_cursor T) Hr) as (F2 & Hc2 & Hl2 & Hcur2).
  destruct F2 as [Ok2 K2 S2] eqn:EF2. clear EF2.
  set (t2 := if col (hide_cursor t) >=? _ then _ else _) in *. cbv zeta.
  set (T2 := if t_col (tty_hide T) >=? _ then _ else _) in *. clearbody t2 T2.
  rewrite <-(kept_max_col _ _ K2), <-(kept_max_line _ _ K2), <-(kept_fgc _ _ K2) in *.
  destruct (scroll_if_shows _ _ Ok2 S2 Hl2 Hcur2) as (F3 & Hl3 & Hc3).
  destruct F3 as [Ok3 K3 S3] eqn:EF3. clear EF3.
  set (t3 := if line t2 >=? _ then _ else _) in *. set (T3 := if t_line T2 >=? _ then _ else _) in *.
  rewrite <-Hc3 in Hc2. rewrite <-(kept_max_col _ _ K3), <-(kept_max_line _ _ K3), <-(kept_fgc _ _ K3) in *.
  clearbody t3 T3. mred. destruct (put_glyph_shows _ _ g Ok3 S3 Hlen Hl3 Hc2) as (m & -> & F4). mred.
  eexists. split; [done|]. eapply follows_trans; [|exact F4]. split; [done| |done]. by do 2 (etransitivity; [eassumption|]).
Qed.

Lemma put_char_shows t T c :
  term_ok t -> displays t T -> 0 <= c < 128 -> tty_room (max_col t) (max_line t) c T = true ->
  exists t', put_char c t = Ok t' /\ follows t t' (tty_put (max_col t) (max_line t) (fgc t) c T).
Proof.
  intros Ht Hs Hc Hr. unfold put_char, tty_put, tty_room in *.
  destruct (Z.eqb_spec c 10) as [->|]; [|destruct (Z.eqb_spec c 9) as [->|]; [|destruct (Z.eqb_spec c 8) as [->|]]].
  - unfold put_char_body. simpl (10 =? 10). cbn iota. eexists. split; [done|]. bool_hyps.
    rewrite <-(shows_line _ _ Hs) in Hr. pose proof (hide_cursor_shows t T Ht Hs) as F1.
    eapply follows_kept; [exact F1|]. intros Ok1 S1.
    pose proof (newline_shows _ _ Ok1 S1) as F2. rewrite (shows_line _ _ S1), tty_hide_line in F2.
    rewrite (kept_fgc _ _ (f_kept _ _ _ F1)) in F2. unfold tty_move in *.
    replace (tty_hide (tty_hide T)) with (tty_hide T) in F2 by (unfold tty_hide at 2; by rewrite tty_hide_cursor).
    apply F2. by rewrite <-(shows_line _ _ Hs).
  - unfold put_char_body. simpl (9 =? 10). simpl (9 =? 9). cbn iota. eexists. split; [done|]. bool_hyps.
    pose proof (hide_cursor_shows t T Ht Hs) as F1. eapply follows_kept; [exact F1|]. intros Ok1 S1.
    rewrite (shows_line _ _ S1), (shows_col _ _ S1), tty_hide_line, tty_hide_col. unfold tab_space.
    pose proof (ok_col _ Ht) as Hcol. rewrite (shows_col _ _ Hs) in Hcol.
    pose proof (Z.mod_pos_bound (t_col T) 8 ltac:(lia)). pose proof (Z.mod_le (t_col T) 8 ltac:(lia) ltac:(lia)).
    unfold u32. rewrite !Z.mod_small by (rewrite ?Z.mod_small by lia; lia).
    apply set_pos_shows; [done..|apply tty_hide_cursor| |lia]. rewrite <-(shows_line _ _ Hs). apply Ht.
  - set (space := put_char_body _ 32). unfold put_char_body. simpl (8 =? 10). simpl (8 =? 9). simpl (8 =? 8). cbn iota zeta.
    pose proof (hide_cursor_shows t T Ht Hs) as F1. destruct F1 as [Ok1 K1 S1] eqn:EF1. clear EF1.
    pose proof (left_shows _ _ Ok1 S1) as F2. destruct F2 as [Ok2 K2 S2] eqn:EF2. clear EF2.
    rewrite (kept_fgc _ _ K1) in S2, F2.
    destruct (type_shows _ _ (fun _ => Hang) 32 Ok2 S2) as (t3 & E3 & F3); [lia..| |].
    { unfold tty_left. cbn [tty_move t_line t_col]. rewrite tty_hide_line, tty_hide_col.
      by rewrite (kept_max_col _ _ K2), (kept_max_line _ _ K2), (kept_max_col _ _ K1), (kept_max_line _ _ K1). }
    unfold space. rewrite E3. mred. eexists. split; [done|]. destruct F3 as [Ok3 K3 S3] eqn:EF3. clear EF3.
    rewrite (kept_max_col _ _ K2), (kept_max_line _ _ K2), (kept_max_col _ _ K1), (kept_max_line _ _ K1),
      (kept_fgc _ _ K2), (kept_fgc _ _ K1) in F3, S3.
    pose proof (left_shows _ _ Ok3 S3) as F4. rewrite (kept_fgc _ _ K3), (kept_fgc _ _ K2), (kept_fgc _ _ K1) in F4.
    eapply follows_trans; [exact F1|]. eapply follows_trans; [exact F2|]. by eapply follows_trans; [exact F3|].
  - by apply type_shows.
Qed.

(** ** Strings, and the screen at the start *)

Definition tty_print (mc ml fg : Z) (s : list Z) (T : tty) : tty :=
  fold_left (fun T c => tty_put mc ml fg c T) s T.
Fixpoint tty_rooms (mc ml fg : Z) (s : list Z) (T : tty) : bool :=
  match s with
  | [] => true
  | c :: s => tty_room mc ml c T && tty_rooms mc ml fg s (tty_put mc ml fg c T)
  end.
(** The characters a string of the font may hold. *)
Definition text_char (c : Z) : bool := (0 <? c) && (c <? 128).

Lemma strlen_str s rest :
  forallb text_char s = true -> _strlen (s ++ 0 :: rest) = Ok (Z.of_nat (length s)).
Proof.
  induction s as [|c s IH]; intros Hs; [done|]. simpl in Hs. unfold text_char at 1 in Hs. bool_hyps.
  simpl. destruct (Z.eqb_spec c 0); [lia|]. rewrite IH by done. mred. f_equal. lia.
Qed.

Lemma put_chars_shows s : forall pre rest t T,
  term_ok t -> displays t T -> forallb text_char s = true ->
  tty_rooms (max_col t) (max_line t) (fgc t) s T = true ->
  exists t', for_range_ok (length s) (Z.of_nat (length pre))
               (fun i t => c ← arr_get (pre ++ s ++ rest) i; put_char c t) t = Ok t' /\
    follows t t' (tty_print (max_col t) (max_line t) (fgc t) s T).
Proof.
  induction s as [|c s IH]; intros pre rest t T Ht Hs Hc Hr.
  { exists t. split; [done|]. by apply follows_refl. }
  simpl in Hc, Hr. unfold text_char at 1 in Hc. bool_hyps. simpl for_range_ok.
  assert (arr_get (pre ++ c :: s ++ rest) (Z.of_nat (length pre)) = Ok c) as ->
    by (apply arr_get_Ok_iff; split; [lia|]; by rewrite Nat2Z.id, lookup_app_r, Nat.sub_diag by lia).
  mred.
  destruct (put_char_shows t T c) as (t1 & -> & F1); [done..|lia|done|]. mred. destruct F1 as [Ok1 K1 S1] eqn:E. clear E.
  specialize (IH (pre ++ [c]) rest t1 _ Ok1 S1). rewrite length_app, Nat2Z.inj_add, <-app_assoc in IH.
  rewrite (kept_max_col _ _ K1), (kept_max_line _ _ K1), (kept_fgc _ _ K1) in IH.
  destruct IH as (t' & E' & F'); [done..|]. exists t'. split; [done|]. by eapply follows_trans.
Qed.

Lemma print_shows t T s rest :
  term_ok t -> displays t T -> forallb text_char s = true ->
  tty_rooms (max_col t) (max_line t) (fgc t) s T = true ->
  exists t', print (s ++ 0 :: rest) t = Ok t' /\ follows t t' (tty_print (max_col t) (max_line t) (fgc t) s T).
Proof.
  intros Ht Hs Hc Hr. unfold print, _print. rewrite strlen_str by done. mred. rewrite Nat2Z.id.
  by apply (put_chars_shows s [] (0 :: rest)).
Qed.

(** The empty screen [clear_screen] leaves; a bar that was drawn has the
    colour of the background. *)
Definition clear_tty (visible : bool) : tty := mk_tty (fun _ _ => blank) 0 0 (if visible then Some BLACK else None).

Lemma clear_screen_shows t :
  term_ok t -> bgc t = BLACK ->
  term_ok (clear_screen t) /\ displays (clear_screen t) (clear_tty (cursor_visible t)) /\
  (forall a, fits_u64 a -> ~ within (address (fb t)) (height (fb t) * pitch (fb t)) a -> vram (clear_screen t) a = vram t a).
Proof.
  intros [Hf Hmc Hml Hl Hc] Hb. pose proof Hf as [_ _ ? ? Hh].
  pose proof (clear_rows_paints (fb t) Hf (vram t) 0 BLACK (Z.to_nat (height (fb t))) ltac:(lia) ltac:(lia)) as [Hp Hm].
  split; [by split|split; [|exact Hm]]. split; [done..| |].
  - simpl. by destruct (cursor_visible t).
  - intros x y [Hx Hy]. etransitivity; [apply Hp; done|]. unfold rect.
    assert (x < pitch (fb t) / 4) by (cbn in Hx; zdiv). cbn in Hx, Hy. zcases.
    unfold render. cbn [clear_screen clear_tty cursor cells set_intr set_pos set_vram bgc max_col max_line fst snd blank].
    rewrite blank_color, Hb. f_equal. by destruct (cursor_visible t); repeat case_match.
Qed.

Lemma init_fb_geometry f t : fb_ok f ->
  max_col (init_fb f t) = (width f - 20) / 8 /\ max_line (init_fb f t) = (height f - 20) / 16 - 1.
Proof.
  intros [? ? ? Hw Hh]. unfold init_fb. cbn [clear_screen set_intr set_pos set_vram max_col max_line].
  change (u32 (term_margin * 2)) with 20. unfold font_width, font_height.
  rewrite !u64_small by (unfold fits_u64; lia). unfold u32. rewrite !Z.mod_small by zdiv. done.
Qed.

(** ** Text on one line *)

Definition plain (c : Z) : bool := text_char c && negb (c =? 8) && negb (c =? 9) && negb (c =? 10).

Lemma plain_text c : plain c = true -> text_char c = true /\ c <> 8 /\ c <> 9 /\ c <> 10.
Proof. unfold plain. intros. bool_hyps. done. Qed.

(** Inside a line a character fills its cell and moves the cursor by one. *)
Lemma tty_put_plain mc ml fg c T :
  plain c = true -> t_col T < mc -> t_line T < ml ->
  let T' := tty_put mc ml fg c T in
  t_line T' = t_line T /\ t_col T' = t_col T + 1 /\
  (forall l k, cells T' l k = if (k =? t_col T) && (l =? t_line T) then (glyph_of c, fg) else cells T l k) /\
  tty_room mc ml c T = true.
Proof.
  intros (Ht & H8 & H9 & H10)%plain_text Hc Hl. unfold tty_put, tty_room, tty_type, room.
  destruct (Z.eqb_spec c 10), (Z.eqb_spec c 9), (Z.eqb_spec c 8); try lia.
  rewrite tty_hide_col, !Z.geb_leb. destruct (Z.leb_spec mc (t_col T)); [lia|].
  rewrite tty_hide_line. destruct (Z.leb_spec ml (t_line T)); [lia|].
  unfold tty_put_glyph. cbn [t_line t_col cells]. rewrite tty_hide_line, tty_hide_col, tty_hide_cursor.
  split; [done|]. split; [done|]. split; [|lia]. intros l k. unfold put_cell.
  destruct (_ && _) eqn:E; [done|]. unfold tty_hide. destruct (cursor T); [|done]. cbn [cells]. unfold put_cell. by rewrite E.
Qed.

Lemma tty_print_plain mc ml fg s : forall T,
  forallb plain s = true -> t_col T + Z.of_nat (length s) <= mc -> t_line T < ml ->
  let T' := tty_print mc ml fg s T in
  t_line T' = t_line T /\ t_col T' = t_col T + Z.of_nat (length s) /\
  (forall l k, cells T' l k = if (t_col T <=? k) && (k <? t_col T + Z.of_nat (length s)) && (l =? t_line T)
                              then (glyph_of (s !!! Z.to_nat (k - t_col T)), fg) else cells T l k) /\
  tty_rooms mc ml fg s T = true.
Proof.
  induction s as [|c s IH]; intros T Hs Hc Hl; simpl in *.
  { split; [done|]. split; [lia|]. split; [|done]. intros l k. zcases; done. }
  bool_hyps. destruct (tty_put_plain mc ml fg c T) as (L & C & K & R); [done|lia..|].
  destruct (IH (tty_put mc ml fg c T)) as (L' & C' & K' & R'); [done|lia..|].
  rewrite R, R'. rewrite L, C in *. split; [done|]. split; [lia|]. split; [|done].
  intros l k. rewrite K', K. destruct (Z.eqb_spec k (t_col T)) as [->|].
  - rewrite Z.sub_diag. simpl. zcases; try done; destruct (l =? t_line T) eqn:E; bool_hyps; try done; lia.
  - destruct (decide (t_col T < k)); [|zcases; done].
    replace (Z.to_nat (k - t_col T)) with (S (Z.to_nat (k - (t_col T + 1)))) by lia. zcases; done.
Qed.
