(* ===== verification/Screen.v ===== *)
(** * The text console: what it shows (src/video.c)

    The properties of Video.v's console: it refines a grid of character cells,
    plain text appears where the cursor is, the start leaves a clean screen;
    and two things it does not do well: the first character of a line that was
    opened by wrapping loses its left edge, and text below the screen is lost. *)

From S2P Require Import Prelude Bytes Font Video.

(** ** A small screen *)

Definition sample_fb : limine_framebuffer := mk_fb 4096 100 100 400.
Definition boot_term : term := mk_term sample_fb 0 0 0 0 WHITE BLACK false 0 false (fun _ => 0).
Definition sample_term : term := init_fb sample_fb boot_term.
Definition sample_tty : tty := clear_tty false.

Lemma sample_fb_ok : fb_ok sample_fb.
Proof. split; simpl; lia. Qed.

Lemma init_fb_shows f t :
  fb_ok f -> bgc t = BLACK -> 0 <= line t < 100000000 -> 0 <= col t < 200000000 ->
  term_ok (init_fb f t) /\ displays (init_fb f t) (clear_tty (cursor_visible t)).
Proof.
  intros Hf Hb Hl Hc. destruct (init_fb_geometry f t Hf) as [Ec El].
  set (t0 := mk_term f (line t) (col t) (max_col (init_fb f t)) (max_line (init_fb f t)) (fgc t) (bgc t)
               (cursor_visible t) (ticks t) (intr_on t) (vram t)).
  assert (term_ok t0) as H0 by done.
  destruct (clear_screen_shows t0 H0 Hb) as (Ht & Hs & _). done.
Qed.

Lemma sample_ok : term_ok sample_term /\ displays sample_term sample_tty.
Proof. apply init_fb_shows; [apply sample_fb_ok|done|simpl; lia..]. Qed.

(** ** Properties *)

(** C12: the console refines a grid of character cells.  As long as every
    character lands on the screen ([tty_rooms]), [print] of a string returns,
    the screen is pixel for pixel the drawing of the text the string makes
    (new lines, tabs, backspaces, wrapping and scrolling included), and no byte
    outside the frame buffer changes. *)
Theorem print_refines_tty t T s rest :
  term_ok t -> displays t T -> forallb text_char s = true ->
  tty_rooms (max_col t) (max_line t) (fgc t) s T = true ->
  exists t', print (s ++ 0 :: rest) t = Ok t' /\ term_ok t' /\
    displays t' (tty_print (max_col t) (max_line t) (fgc t) s T) /\ kept t t'.
Proof.
  intros Ht Hs Hc Hr. destruct (print_shows t T s rest Ht Hs Hc Hr) as (t' & E & [O K S]). by exists t'.
Qed.

(** "Hi", a tab, a backspace and a second line. *)
Definition sample_text : list Z := [72; 105; 9; 33; 8; 10; 79; 107].

Lemma print_refines_tty_witness :
  tty_rooms (max_col sample_term) (max_line sample_term) (fgc sample_term) sample_text sample_tty = true /\
  exists t', print (sample_text ++ [0]) sample_term = Ok t' /\ term_ok t' /\
    displays t' (tty_print (max_col sample_term) (max_line sample_term) (fgc sample_term) sample_text sample_tty) /\
    kept sample_term t'.
Proof.
  assert (tty_rooms (max_col sample_term) (max_line sample_term) (fgc sample_term) sample_text sample_tty = true) as H
    by (vm_compute; reflexivity).
  split; [exact H|]. destruct sample_ok as [Ht Hs].
  exact (print_refines_tty sample_term sample_tty sample_text [] Ht Hs eq_refl H).
Defined.

(** plain text that fits on the line is shown where the cursor is: the cells
    from the cursor on hold the glyphs of the string in the current colour, every
    other cell is as before and the cursor stands after the text. *)
Theorem print_shows_text t T s rest :
  term_ok t -> displays t T -> forallb plain s = true ->
  col t + Z.of_nat (length s) <= max_col t -> line t < max_line t ->
  exists t' T', print (s ++ 0 :: rest) t = Ok t' /\ displays t' T' /\
    line t' = line t /\ col t' = col t + Z.of_nat (length s) /\
    forall l k, cells T' l k = if (col t <=? k) && (k <? col t + Z.of_nat (length s)) && (l =? line t)
                               then (glyph_of (s !!! Z.to_nat (k - col t)), fgc t) else cells T l k.
Proof.
  intros Ht Hs Hp Hc Hl. rewrite (shows_col _ _ Hs), (shows_line _ _ Hs) in *.
  destruct (tty_print_plain (max_col t) (max_line t) (fgc t) s T Hp Hc Hl) as (L & C & K & R).
  assert (forallb text_char s = true) as Ht'.
  { rewrite forallb_forall in Hp |- *. intros c Hin. by apply plain_text, Hp. }
  destruct (print_shows t T s rest Ht Hs Ht' R) as (t' & E & [O _ S]).
  exists t', (tty_print (max_col t) (max_line t) (fgc t) s T). split; [done|]. split; [done|].
  rewrite (shows_line _ _ S), (shows_col _ _ S). done.
Qed.

Lemma print_shows_text_witness :
  col sample_term + 2 <= max_col sample_term /\
  exists t' T', print ([79; 107] ++ [0]) sample_term = Ok t' /\ displays t' T' /\
    line t' = line sample_term /\ col t' = col sample_term + Z.of_nat (length [79; 107]) /\
    forall l k, cells T' l k = if (col sample_term <=? k) && (k <? col sample_term + Z.of_nat (length [79; 107]))
                                  && (l =? line sample_term)
                               then (glyph_of ([79; 107] !!! Z.to_nat (k - col sample_term)), fgc sample_term)
                               else cells sample_tty l k.
Proof.
  split; [vm_compute; discriminate|]. destruct sample_ok as [Ht Hs].
  apply (print_shows_text sample_term sample_tty [79; 107] [] Ht Hs eq_refl); vm_compute; done.
Defined.

(** [init_fb] leaves an empty screen, the cursor in its corner and as many
    columns and lines as the frame buffer has room for; it also leaves the
    processor's interrupts on, whatever they were, because [clear_screen] ends
    in [sti]. *)
Theorem init_fb_correct f t :
  fb_ok f -> bgc t = BLACK -> 0 <= line t < 100000000 -> 0 <= col t < 200000000 ->
  let t' := init_fb f t in
  term_ok t' /\ displays t' (clear_tty (cursor_visible t)) /\ line t' = 0 /\ col t' = 0 /\ intr_on t' = true /\
  max_col t' * 8 + 20 <= width f /\ (max_line t' + 1) * 16 + 20 <= height f.
Proof.
  intros Hf Hb Hl Hc. destruct (init_fb_shows f t Hf Hb Hl Hc) as [Ht Hs]. cbv zeta.
  destruct (init_fb_geometry f t Hf) as [-> ->]. destruct Hf. do 5 (split; [done|]). split; zdiv.
Qed.

Lemma init_fb_correct_witness :
  intr_on boot_term = false /\ intr_on (init_fb sample_fb boot_term) = true.
Proof.
  split; [reflexivity|].
  apply (init_fb_correct sample_fb boot_term sample_fb_ok eq_refl); simpl; lia.
Defined.

(** the first character of a line opened by wrapping loses its two left
    columns: [_newline] draws the cursor's bar in the new cell, the glyph is drawn
    over it, and [move_cursor_right] then hides the bar with the background. *)
Theorem wrapped_char_is_clipped t T c :
  term_ok t -> displays t T -> plain c = true -> max_col t <= col t -> line t < max_line t ->
  exists t', put_char c t = Ok t' /\ col t' = 1 /\
    forall dx dy, 0 <= dx < 8 -> 0 <= dy < 16 ->
      pixel t' (10 + dx) (line t' * 16 + 10 + dy)
      = u32 (if dx <? 2 then bgc t else glyph_color (glyph_of c) (fgc t) (bgc t) dx dy).
Proof.
  intros Ht Hs (Hc & H8 & H9 & H10)%plain_text Hcol Hline. unfold text_char in Hc. bool_hyps.
  pose proof Ht as [[] Hmc Hml Hl Hcl]. rewrite (shows_col _ _ Hs), (shows_line _ _ Hs) in *.
  destruct (put_char_shows t T c Ht Hs) as (t' & E & [Ok' K S]); [lia| |].
  { unfold tty_room, room. destruct (Z.eqb_spec c 10), (Z.eqb_spec c 9), (Z.eqb_spec c 8); try lia.
    destruct (t_col T >=? max_col t) eqn:G; bool_hyps; lia. }
  exists t'. split; [done|]. rewrite (shows_col _ _ S), (shows_line _ _ S).
  unfold tty_put, tty_type in *. destruct (Z.eqb_spec c 10), (Z.eqb_spec c 9), (Z.eqb_spec c 8); try lia.
  rewrite tty_hide_col, tty_hide_line in *. destruct (t_col T >=? max_col t) eqn:G; bool_hyps; [|lia].
  set (T2 := if _ >=? max_line t then _ else _) in *.
  assert (t_col T2 = 0 /\ 0 <= t_line T2 <= max_line t /\ is_Some (cursor T2)) as (C2 & L2 & [k Ek]).
  { unfold T2. destruct (t_line (tty_move _ _ _ _) >=? max_line t) eqn:Q; bool_hyps; simpl in *; repeat split; try done; lia. }
  clearbody T2. split; [simpl; lia|]. intros dx dy Hdx Hdy. cbn [tty_put_glyph t_line].
  rewrite (shows _ _ S).
  2: { rewrite (kept_fb _ _ K). unfold on_screen. split; [lia|zdiv]. }
  f_equal. unfold render. cbn [tty_put_glyph cells cursor t_line t_col].
  replace (10 + dx - 10) with dx by lia. replace (t_line T2 * 16 + 10 + dy - 10) with (dy + t_line T2 * 16) by lia.
  rewrite Z.div_add, Z.mod_add, !(Z.div_small dx), !(Z.div_small dy), !(Z.mod_small dx), !(Z.mod_small dy) by lia.
  rewrite (kept_max_col _ _ K), (kept_max_line _ _ K), (kept_bgc _ _ K), C2, Ek. unfold put_cell.
  assert (1 <= max_col t) by (rewrite Hmc; zdiv). zcases;
    unfold glyph_color; rewrite erase_left_bit by done; zcases; done.
Qed.

(** At the right edge of the sample screen. *)
Definition wrap_term : term := set_pos sample_term 0 10.

Lemma wrap_term_shows : follows sample_term wrap_term (tty_at 0 10 sample_tty).
Proof. destruct sample_ok as [Ht Hs]. apply set_pos_shows; [done..|lia|lia]. Qed.

(** The letter B has pixels in its two left columns. *)
Lemma wrapped_char_is_clipped_witness :
  glyph_bit (glyph_of 66) 1 4 = true /\ fgc wrap_term <> bgc wrap_term /\
  exists t', put_char 66 wrap_term = Ok t' /\ pixel t' (10 + 1) (line t' * 16 + 10 + 4) = u32 (bgc wrap_term).
Proof.
  split; [vm_compute; reflexivity|]. split; [vm_compute; discriminate|].
  destruct wrap_term_shows as [Ht _ Hs].
  destruct (wrapped_char_is_clipped wrap_term _ 66 Ht Hs eq_refl) as (t' & E & _ & P); [vm_compute; discriminate|done|].
  exists t'. split; [exact E|]. apply (P 1 4); lia.
Defined.

(** What is painted off the screen is not seen. *)
Lemma unseen_shows t T m P :
  term_ok t -> displays t T -> paints (fb t) (vram t) m P -> (forall x y, on_screen (fb t) x y -> P x y = None) ->
  follows t (set_vram t m) T.
Proof.
  intros Ht [Hl Hc Hv Hs] Hp Hn. split; [by destruct Ht|by eapply kept_paint|]. split; try done.
  intros x y Hon. etransitivity; [apply (paints_pixel _ _ _ _ Hp x y Hon)|]. rewrite Hn by done. by apply Hs.
Qed.

(** A glyph below the screen, and the cursor after it. *)
Lemma glyph_below t T g :
  term_ok t -> displays t T -> length g = 16%nat -> cursor T = None -> col t < max_col t -> max_line t + 3 <= line t ->
  exists m, draw_glyph (fb t) (u32 (col t * font_width + term_margin)) (u32 (line t * font_height + term_margin))
              (fgc t) (bgc t) g (vram t) = Ok m /\
    follows t (draw_cursor (move_cursor_right (set_vram t m))) (mk_tty (cells T) (line t) (col t + 1) (Some (fgc t))).
Proof.
  intros Ht Hs Hg Hcur Hc Hl. pose proof Ht as [Hf Hmc Hml Hline Hcol]. pose proof Hf as [_ _ _ Hw Hh].
  unfold font_width, font_height, term_margin. unfold u32 at 1 2. rewrite !Z.mod_small by lia.
  destruct (draw_glyph_paints (fb t) Hf (vram t) (col t * 8 + 10) (line t * 16 + 10) (fgc t) (bgc t) g)
    as (m & -> & Hp); [lia..|done|]. exists m. split; [done|].
  assert (follows t (set_vram t m) T) as F0.
  { eapply unseen_shows; [done..|exact Hp|]. intros x y [Hx Hy]. unfold rect. assert (y < line t * 16 + 10) by zdiv.
    zcases; done. }
  eapply follows_kept; [exact F0|]. intros Ok0 S0. destruct F0 as [_ K0 _]. unfold move_cursor_right.
  pose proof (hide_cursor_shows _ _ Ok0 S0) as F1. eapply follows_kept; [exact F1|]. intros Ok1 S1.
  destruct F1 as [_ K1 _]. unfold tty_hide in S1. rewrite Hcur in S1.
  assert (line (hide_cursor (set_vram t m)) = line t /\ col (hide_cursor (set_vram t m)) = col t) as [-> ->].
  { rewrite (shows_line _ _ S1), (shows_col _ _ S1). split; symmetry; apply Hs. }
  rewrite (kept_max_col _ _ K1), (kept_max_col _ _ K0). destruct (Z.ltb_spec (col t) (max_col t)); [|lia].
  unfold u32. rewrite Z.mod_small by lia. assert (max_col t < 199999999) by zdiv.
  pose proof (set_pos_shows _ _ (line t) (col t + 1) Ok1 S1 Hcur Hline ltac:(lia)) as F2.
  eapply follows_kept; [exact F2|]. intros Ok2 S2. destruct F2 as [_ K2 _].
  pose proof (draw_cursor_shows _ _ Ok2 S2) as F3. eapply follows_kept; [exact F3|]. intros Ok3 S3.
  pose proof (draw_cursor_shows _ _ Ok3 S3) as F4. destruct F3 as [_ K3 _].
  rewrite (kept_fgc _ _ K3), (kept_fgc _ _ K2), (kept_fgc _ _ K1), (kept_fgc _ _ K0) in F4.
  unfold tty_draw, tty_at in F4. cbn [cursor cells t_line t_col] in F4. rewrite Hcur in F4. exact F4.
Qed.

(** text below the screen is lost.  New lines at the bottom do not scroll;
    once the cursor is four lines below the last, a character only scrolls the
    screen by a line: no pixel of it is drawn, whatever the character. *)
Theorem text_below_screen_is_lost t T c :
  term_ok t -> displays t T -> plain c = true -> col t < max_col t -> max_line t + 4 <= line t ->
  exists t', put_char c t = Ok t' /\ line t' = line t - 1 /\ col t' = col t + 1 /\
    forall x y, on_screen (fb t) x y -> pixel t' x y = pixel (_scroll_up (hide_cursor t)) x y.
Proof.
  intros Ht Hs (Hc & H8 & H9 & H10)%plain_text Hcol Hline. unfold text_char in Hc. bool_hyps.
  unfold put_char, put_char_body. destruct (Z.eqb_spec c 10), (Z.eqb_spec c 9), (Z.eqb_spec c 8); try lia.
  rewrite u8_small by lia. destruct (font_glyph c ltac:(lia)) as (g & -> & Hlen). cbv zeta.
  destruct (hide_cursor_shows t T Ht Hs) as [Ok1 K1 S1]. pose proof Ht as [Hf Hmc Hml Hl Hcl].
  set (t1 := hide_cursor t) in *.
  assert (line t1 = line t /\ col t1 = col t) as [El Ec].
  { rewrite (shows_line _ _ S1), (shows_col _ _ S1), tty_hide_line, tty_hide_col. split; symmetry; apply Hs. }
  clearbody t1. pose proof K1 as [Kf Kc Km _ _ _ _]. rewrite <-Kc, <-Km, <-El, <-Ec in *.
  destruct (col t1 >=? max_col t1) eqn:G; bool_hyps; [lia|].
  destruct (line t1 >=? max_line t1) eqn:G2; bool_hyps; [|lia].
  destruct (scroll_shows t1 _ Ok1 S1) as [Ok2 K2 S2]; [lia|left; apply tty_hide_cursor|].
  change (line (_scroll_up t1)) with (line t1). change (col (_scroll_up t1)) with (col t1).
  set (t2 := set_pos (_scroll_up t1) _ _) in *.
  assert (line t2 = line t1 - 1 /\ col t2 = col t1) as [El2 Ec2].
  { split; [|done]. unfold t2. cbn [line set_pos]. unfold u32.
    destruct Ok1 as [[] _ Hm1 Hl1 _]. apply Z.mod_small. zdiv. }
  assert (forall x y, pixel t2 x y = pixel (_scroll_up t1) x y) as Hpx by done.
  assert (fb t2 = fb t1) as Ef by done. pose proof (kept_max_line _ _ K2) as Em. pose proof (kept_max_col _ _ K2) as Ecl.
  clearbody t2. mred.
  destruct (glyph_below t2 _ g Ok2 S2 Hlen) as (m & -> & [Ok3 K3 S3]); [apply tty_hide_cursor|lia..|]. mred.
  eexists. split; [done|]. split; [rewrite (shows_line _ _ S3); simpl; lia|].
  split; [rewrite (shows_col _ _ S3); simpl; lia|]. intros x y Hon. rewrite <-Hpx.
  assert (on_screen (fb t2) x y) as Hon2 by (by rewrite Ef, Kf).
  rewrite (shows _ _ S3) by (by rewrite (kept_fb _ _ K3)). rewrite (shows _ _ S2) by done. f_equal.
  unfold render. rewrite (kept_max_col _ _ K3), (kept_max_line _ _ K3), (kept_bgc _ _ K3). simpl.
  rewrite tty_hide_cursor. destruct Hon as [Hx Hy].
  destruct (Z.eqb_spec ((y - 10) / 16) (line t2)); [exfalso; zdiv|]. by rewrite andb_false_r.
Qed.

(** Below the sample screen, whose last line is 4. *)
Definition low_term : term := set_pos sample_term 8 0.

Lemma low_term_shows : follows sample_term low_term (tty_at 8 0 sample_tty).
Proof. destruct sample_ok as [Ht Hs]. apply set_pos_shows; [done..|lia|lia]. Qed.

Lemma text_below_screen_is_lost_witness :
  max_line low_term = 4 /\ exists t', put_char 66 low_term = Ok t' /\ line t' = 7.
Proof.
  split; [vm_compute; reflexivity|]. destruct low_term_shows as [Ht _ Hs].
  destruct (text_below_screen_is_lost low_term _ 66 Ht Hs eq_refl) as (t' & E & L & _);
    [vm_compute; reflexivity|vm_compute; discriminate|]. exists t'. split; [exact E|exact L].
Defined.
