(* ===== verification/Sched.v ===== *)
(** * Threads, processes and the scheduler (src/kernel/multitasking/mt.c, process.c,
    thread.c, scheduler.c, algorithm/cfs.c, algorithm/rr.c, src/kernel/smp.c,
    src/include/kernel/scheduler/)

    Threads, processes and sleep entries are kept by address, the lists of them
    are those of Klist.v.  The state also has what a switch touches: the page
    tables, the address-space register, the task state segment, the per-processor
    data and the memory the kernel stacks are in.  [me] is the number
    [local_apic_get_id] returns on the processor that runs the code. *)

From S2P Require Import Prelude Sync Bitmap Pmm Paging Bytes Heap Alloc Klist Vfs Desc.

(** ** Data *)

Definition STATE_NEW : Z := 0.
Definition STATE_READY : Z := 1.
Definition STATE_RUNNING : Z := 2.
Definition STATE_WAITING : Z := 3.
Definition STATE_DEAD : Z := 4.
Definition STATE_SLEEPING : Z := 5.
Definition MAX_FILES_PER_PROCESS : Z := 32.

(** ["MAIN_THREAD"] and ["IDLE_THREAD"]. *)
Definition MAIN_THREAD : list Z := [77; 65; 73; 78; 95; 84; 72; 82; 69; 65; 68].
Definition IDLE_THREAD : list Z := [73; 68; 76; 69; 95; 84; 72; 82; 69; 65; 68].

Record thread_t := mk_thread {
  tid : Z;
  name : list Z;
  state : Z;
  k_rsp : Z;
  kernel_stack_base : Z;
  priority : Z;
  vruntime : Z;
  sleep_ticks : Z;
  block_channel : Z;
  process : Z;
  t_next : Z
}.

Record process_t := mk_process {
  pid : Z;
  cr3 : Z;
  heap_end : Z;
  p_parent : Z;
  exit_code : Z;
  is_waiting : bool;
  wait_target_pid : Z;
  file_table : list Z;
  primary : Z
}.

Record cpu_task_list_t := mk_cpu_list {
  min_vruntime : Z;
  thread_count : Z;
  process_list : Z;
  thread_list : Z;
  current_thread : Z;
  nb_sleeping : Z;
  sleeping_queue : Z
}.

Record delta_queue_entry_t := mk_delta { dq_tid : Z; delta : Z }.
Record cpu_data_t := mk_cpu_data { tss_sp2 : Z; stack_top : Z }.

Definition sizeof_thread : Z := 96.
Definition sizeof_process : Z := 312.
Definition sizeof_cpu_list : Z := 56.
Definition sizeof_delta : Z := 16.
Definition sizeof_new_stack : Z := 160.

Record world (A : Type) := mk_world {
  w_k : kstate A;
  w_threads : gmap Z thread_t;
  w_procs : gmap Z process_t;
  w_files : gmap Z file_t;
  w_deltas : gmap Z delta_queue_entry_t;
  cpu_task_lists : list cpu_task_list_t;
  cpu_data_list : list cpu_data_t;
  w_vm : vm;
  w_cr3 : Z;
  w_gdt : gdt_state;
  w_stacks : bytes;
  next_tid : Z;
  next_pid : Z;
  next_tid_lock : safe_lock_t;
  next_pid_lock : safe_lock_t;
  w_cpu : cpu;
  rr_next_id : Z
}.
Arguments mk_world {A}.
Arguments w_k {A} _.
Arguments w_threads {A} _.
Arguments w_procs {A} _.
Arguments w_files {A} _.
Arguments w_deltas {A} _.
Arguments cpu_task_lists {A} _.
Arguments cpu_data_list {A} _.
Arguments w_vm {A} _.
Arguments w_cr3 {A} _.
Arguments w_gdt {A} _.
Arguments w_stacks {A} _.
Arguments next_tid {A} _.
Arguments next_pid {A} _.
Arguments next_tid_lock {A} _.
Arguments next_pid_lock {A} _.
Arguments w_cpu {A} _.
Arguments rr_next_id {A} _.

(** *** Updates of one part of the state *)
Section Setters.
Context {A : Type}.
Implicit Types (w : world A).

Definition with_k w k : world A := mk_world k (w_threads w) (w_procs w) (w_files w) (w_deltas w) (cpu_task_lists w)
  (cpu_data_list w) (w_vm w) (w_cr3 w) (w_gdt w) (w_stacks w) (next_tid w) (next_pid w) (next_tid_lock w)
  (next_pid_lock w) (w_cpu w) (rr_next_id w).
Definition with_threads w t : world A := mk_world (w_k w) t (w_procs w) (w_files w) (w_deltas w) (cpu_task_lists w)
  (cpu_data_list w) (w_vm w) (w_cr3 w) (w_gdt w) (w_stacks w) (next_tid w) (next_pid w) (next_tid_lock w)
  (next_pid_lock w) (w_cpu w) (rr_next_id w).
Definition with_procs w p : world A := mk_world (w_k w) (w_threads w) p (w_files w) (w_deltas w) (cpu_task_lists w)
  (cpu_data_list w) (w_vm w) (w_cr3 w) (w_gdt w) (w_stacks w) (next_tid w) (next_pid w) (next_tid_lock w)
  (next_pid_lock w) (w_cpu w) (rr_next_id w).
Definition with_files w f : world A := mk_world (w_k w) (w_threads w) (w_procs w) f (w_deltas w) (cpu_task_lists w)
  (cpu_data_list w) (w_vm w) (w_cr3 w) (w_gdt w) (w_stacks w) (next_tid w) (next_pid w) (next_tid_lock w)
  (next_pid_lock w) (w_cpu w) (rr_next_id w).
Definition with_deltas w d : world A := mk_world (w_k w) (w_threads w) (w_procs w) (w_files w) d (cpu_task_lists w)
  (cpu_data_list w) (w_vm w) (w_cr3 w) (w_gdt w) (w_stacks w) (next_tid w) (next_pid w) (next_tid_lock w)
  (next_pid_lock w) (w_cpu w) (rr_next_id w).
Definition with_cpus w c : world A := mk_world (w_k w) (w_threads w) (w_procs w) (w_files w) (w_deltas w) c
  (cpu_data_list w) (w_vm w) (w_cr3 w) (w_gdt w) (w_stacks w) (next_tid w) (next_pid w) (next_tid_lock w)
  (next_pid_lock w) (w_cpu w) (rr_next_id w).
Definition with_cpu_data w d : world A := mk_world (w_k w) (w_threads w) (w_procs w) (w_files w) (w_deltas w)
  (cpu_task_lists w) d (w_vm w) (w_cr3 w) (w_gdt w) (w_stacks w) (next_tid w) (next_pid w) (next_tid_lock w)
  (next_pid_lock w) (w_cpu w) (rr_next_id w).
Definition with_vm w s c : world A := mk_world (w_k w) (w_threads w) (w_procs w) (w_files w) (w_deltas w)
  (cpu_task_lists w) (cpu_data_list w) s c (w_gdt w) (w_stacks w) (next_tid w) (next_pid w) (next_tid_lock w)
  (next_pid_lock w) (w_cpu w) (rr_next_id w).
Definition with_gdt w g : world A := mk_world (w_k w) (w_threads w) (w_procs w) (w_files w) (w_deltas w)
  (cpu_task_lists w) (cpu_data_list w) (w_vm w) (w_cr3 w) g (w_stacks w) (next_tid w) (next_pid w)
  (next_tid_lock w) (next_pid_lock w) (w_cpu w) (rr_next_id w).
Definition with_stacks w m : world A := mk_world (w_k w) (w_threads w) (w_procs w) (w_files w) (w_deltas w)
  (cpu_task_lists w) (cpu_data_list w) (w_vm w) (w_cr3 w) (w_gdt w) m (next_tid w) (next_pid w)
  (next_tid_lock w) (next_pid_lock w) (w_cpu w) (rr_next_id w).
Definition with_tid w n l c : world A := mk_world (w_k w) (w_threads w) (w_procs w) (w_files w) (w_deltas w)
  (cpu_task_lists w) (cpu_data_list w) (w_vm w) (w_cr3 w) (w_gdt w) (w_stacks w) n (next_pid w)
  l (next_pid_lock w) c (rr_next_id w).
Definition with_pid w n l c : world A := mk_world (w_k w) (w_threads w) (w_procs w) (w_files w) (w_deltas w)
  (cpu_task_lists w) (cpu_data_list w) (w_vm w) (w_cr3 w) (w_gdt w) (w_stacks w) (next_tid w) n
  (next_tid_lock w) l c (rr_next_id w).
Definition with_rr w n : world A := mk_world (w_k w) (w_threads w) (w_procs w) (w_files w) (w_deltas w)
  (cpu_task_lists w) (cpu_data_list w) (w_vm w) (w_cr3 w) (w_gdt w) (w_stacks w) (next_tid w) (next_pid w)
  (next_tid_lock w) (next_pid_lock w) (w_cpu w) n.
End Setters.

(** Updates of one field. *)
Definition th_set_state (t : thread_t) v := mk_thread (tid t) (name t) v (k_rsp t) (kernel_stack_base t)
  (priority t) (vruntime t) (sleep_ticks t) (block_channel t) (process t) (t_next t).
Definition th_set_k_rsp (t : thread_t) v := mk_thread (tid t) (name t) (state t) v (kernel_stack_base t)
  (priority t) (vruntime t) (sleep_ticks t) (block_channel t) (process t) (t_next t).
Definition th_set_tid (t : thread_t) v := mk_thread v (name t) (state t) (k_rsp t) (kernel_stack_base t)
  (priority t) (vruntime t) (sleep_ticks t) (block_channel t) (process t) (t_next t).
Definition th_set_name (t : thread_t) v := mk_thread (tid t) v (state t) (k_rsp t) (kernel_stack_base t)
  (priority t) (vruntime t) (sleep_ticks t) (block_channel t) (process t) (t_next t).
Definition th_set_stack (t : thread_t) v := mk_thread (tid t) (name t) (state t) (k_rsp t) v
  (priority t) (vruntime t) (sleep_ticks t) (block_channel t) (process t) (t_next t).
Definition th_set_vruntime (t : thread_t) v := mk_thread (tid t) (name t) (state t) (k_rsp t) (kernel_stack_base t)
  (priority t) v (sleep_ticks t) (block_channel t) (process t) (t_next t).
Definition th_set_sleep (t : thread_t) v := mk_thread (tid t) (name t) (state t) (k_rsp t) (kernel_stack_base t)
  (priority t) (vruntime t) v (block_channel t) (process t) (t_next t).
Definition th_set_channel (t : thread_t) v := mk_thread (tid t) (name t) (state t) (k_rsp t) (kernel_stack_base t)
  (priority t) (vruntime t) (sleep_ticks t) v (process t) (t_next t).
Definition th_set_process (t : thread_t) v := mk_thread (tid t) (name t) (state t) (k_rsp t) (kernel_stack_base t)
  (priority t) (vruntime t) (sleep_ticks t) (block_channel t) v (t_next t).
Definition th_set_next (t : thread_t) v := mk_thread (tid t) (name t) (state t) (k_rsp t) (kernel_stack_base t)
  (priority t) (vruntime t) (sleep_ticks t) (block_channel t) (process t) v.
Definition pr_set_primary (p : process_t) v := mk_process (pid p) (cr3 p) (heap_end p) (p_parent p) (exit_code p)
  (is_waiting p) (wait_target_pid p) (file_table p) v.
Definition pr_set_cr3 (p : process_t) v := mk_process (pid p) v (heap_end p) (p_parent p) (exit_code p)
  (is_waiting p) (wait_target_pid p) (file_table p) (primary p).
Definition pr_set_heap_end (p : process_t) v := mk_process (pid p) (cr3 p) v (p_parent p) (exit_code p)
  (is_waiting p) (wait_target_pid p) (file_table p) (primary p).
Definition pr_set_parent (p : process_t) v := mk_process (pid p) (cr3 p) (heap_end p) v (exit_code p)
  (is_waiting p) (wait_target_pid p) (file_table p) (primary p).

Section Code.
Context {A : Type} `{Allocator A}.
Context (me : Z).
(** What fresh blocks hold; [kernel_yield] runs other threads and comes back;
    addresses of the boot stack and of [idle_loop]. *)
Context (junk_thread : thread_t) (junk_list : cpu_task_list_t).
Context (kernel_yield : world A -> outcome (world A)).
Context (kernel_stack idle_loop : Z).
(** Of the C library's [fcntl.h]. *)
Context (O_RDONLY O_WRONLY : Z).
Implicit Types (w : world A).

(** *** Access *)

Definition get_cpu_task_list w : outcome cpu_task_list_t := arr_get (cpu_task_lists w) me.
Definition get_current_cpu_data w : outcome cpu_data_t := arr_get (cpu_data_list w) me.
Definition thread_at w (p : Z) : outcome thread_t := deref (w_threads w !! p).
Definition process_at w (p : Z) : outcome process_t := deref (w_procs w !! p).
Definition set_thread w (p : Z) (t : thread_t) : world A := with_threads w (<[p := t]> (w_threads w)).
Definition set_process w (p : Z) (x : process_t) : world A := with_procs w (<[p := x]> (w_procs w)).
Definition set_cpu_list w (c : cpu_task_list_t) : outcome (world A) :=
  cs ← arr_set (cpu_task_lists w) me c; Ok (with_cpus w cs).

(** [t->field = v] at address [p]. *)
Definition update_thread w (p : Z) (f : thread_t -> thread_t) : outcome (world A) :=
  t ← thread_at w p; Ok (set_thread w p (f t)).
Definition update_process w (p : Z) (f : process_t -> process_t) : outcome (world A) :=
  x ← process_at w p; Ok (set_process w p (f x)).

Definition on_alloc w (f : A -> outcome (Z * A)) : outcome (Z * world A) :=
  '(p, a) ← f (alloc (w_k w)); Ok (p, with_k w (mk_kstate a (lists (w_k w)) (nodes (w_k w)))).
Definition on_lists w (f : kstate A -> outcome (kstate A)) : outcome (world A) :=
  k ← f (w_k w); Ok (with_k w k).
Definition make_list w : outcome (Z * world A) := '(l, k) ← init_list (w_k w); Ok (l, with_k w k).

Definition get_current_thread w : outcome Z := c ← get_cpu_task_list w; Ok (current_thread c).
Definition get_current_process w : outcome Z :=
  c ← get_cpu_task_list w; t ← thread_at w (current_thread c); Ok (process t).

(** *** thread.c *)

Definition get_next_tid w : outcome (Z * world A) :=
  '(flags, l, c) ← safe_lock (next_tid_lock w) (w_cpu w);
  let ret := next_tid w in
  let n := u64 (next_tid w + 1) in
  let '(l, c) := safe_unlock l flags c in
  Ok (ret, with_tid w n l c).

Definition new_thread w : outcome (Z * world A) :=
  '(t, w) ← on_alloc w (a_kmalloc sizeof_thread);
  if t =? 0 then Ok (0, w)
  else '(n, w) ← get_next_tid w; Ok (t, set_thread w t (th_set_tid junk_thread n)).

(** The frame the first switch to a thread pops: [memset], then the fields of
    [new_task_kernel_stack_t]. *)
Definition push_frame (m : bytes) (krsp rip cs ursp uss : Z) : bytes :=
  let m := memset m krsp 0 sizeof_new_stack in
  let m := store64 m (u64 (krsp + 120)) rip in
  let m := store64 m (u64 (krsp + 128)) cs in
  let m := store64 m (u64 (krsp + 136)) 514 in
  let m := store64 m (u64 (krsp + 144)) ursp in
  store64 m (u64 (krsp + 152)) uss.

Definition new_elf_thread (rip ustack kstack : Z) w : outcome (Z * world A) :=
  '(t, w) ← new_thread w;
  if t =? 0 then Ok (0, w)
  else
    let cs := Z.lor __USER_CS 3 in
    let ds := Z.lor __USER_DS 3 in
    let krsp := u64 (kstack - sizeof_new_stack) in
    let w := with_stacks w (push_frame (w_stacks w) krsp rip cs ustack ds) in
    w ← update_thread w t (fun t => th_set_stack (th_set_k_rsp t krsp) kstack);
    Ok (t, w).

Definition new_kernel_thread (rip kstack : Z) w : outcome (Z * world A) :=
  '(t, w) ← new_thread w;
  if t =? 0 then Ok (0, w)
  else
    let krsp := u64 (kstack - sizeof_new_stack) in
    let w := with_stacks w (push_frame (w_stacks w) krsp rip __KERNEL_CS kstack __KERNEL_DS) in
    w ← update_thread w t (fun t => th_set_stack (th_set_k_rsp t krsp) kstack);
    w ← update_thread w t (fun t => th_set_channel (th_set_state t STATE_READY) 0);
    Ok (t, w).

Definition push_new_thread (s : Z) w : outcome (world A) :=
  c ← get_cpu_task_list w; on_lists w (list_push (thread_list c) s).

(** [while (head->next != NULL) head = head->next]. *)
Fixpoint push_thread_loop (fuel : nat) (head : Z) w : outcome Z :=
  h ← thread_at w head;
  if t_next h =? 0 then Ok head
  else match fuel with O => Hang | S fuel => push_thread_loop fuel (t_next h) w end.

(** With an empty list only the parameter is assigned. *)
Definition push_thread (l new : Z) w : outcome (world A) :=
  if l =? 0 then Ok w
  else head ← push_thread_loop (size (w_threads w)) l w; update_thread w head (fun t => th_set_next t new).

Fixpoint remove_thread_loop (fuel : nat) (t prev head next : Z) w : outcome (Z * Z * Z) :=
  h ← thread_at w head;
  if t_next h =? 0 then Ok (prev, head, next)
  else if tid h =? t then Ok (prev, head, next)
  else
    match fuel with
    | O => Hang
    | S fuel => n ← thread_at w next; remove_thread_loop fuel t head next (t_next n) w
    end.

Definition remove_thread_from_process (s : Z) w : outcome (world A) :=
  t ← thread_at w s;
  if process t =? 0 then Ok w
  else
    p ← process_at w (process t);
    f ← thread_at w (primary p);
    '(prev, head, next) ← remove_thread_loop (size (w_threads w)) (tid t) 0 (primary p) (t_next f) w;
    h ← thread_at w head;
    if negb (tid h =? tid t) then Ok w
    else if negb (next =? 0) && negb (prev =? 0) then update_thread w prev (fun x => th_set_next x (t_next h))
    else if negb (prev =? 0) then update_thread w prev (fun x => th_set_next x 0)
    else Ok w.

Definition free_thread (t : Z) w : outcome (world A) :=
  w ← remove_thread_from_process t w;
  w ← on_lists w (fun k => free k t);
  Ok (with_threads w (delete t (w_threads w))).

(** The lists hold threads and processes, so the callbacks find their fields. *)
Definition _cb_thread_by_tid w (t n : Z) : bool :=
  match w_threads w !! t with Some t => tid t =? n | None => false end.
Definition thread_by_tid (n : Z) w : outcome Z :=
  c ← get_cpu_task_list w; get_first_match (thread_list c) (Some (fun t => _cb_thread_by_tid w t n)) (w_k w).

Definition isdead (t : Z) w : outcome bool :=
  if t =? 0 then Ok false else x ← thread_at w t; Ok (state x =? STATE_DEAD).
Definition isalive (t : Z) w : outcome bool := d ← isdead t w; Ok (negb d).

(** *** console.c: the files of a process *)

Definition create_kernel_console_file (flags : Z) w : outcome (Z * world A) :=
  '(f, w) ← on_alloc w (a_kmalloc sizeof_file);
  if f =? 0 then Ok (0, w)
  else Ok (f, with_files w (<[f := mk_file 0 0 0 (Some ConsoleFops) flags]> (w_files w))).

(** *** process.c *)

Definition get_next_pid w : outcome (Z * world A) :=
  '(flags, l, c) ← safe_lock (next_pid_lock w) (w_cpu w);
  let ret := next_pid w in
  let n := u64 (next_pid w + 1) in
  let '(l, c) := safe_unlock l flags c in
  Ok (ret, with_pid w n l c).

Definition new_process w : outcome (Z * world A) :=
  '(p, w) ← on_alloc w (a_kzalloc sizeof_process);
  if p =? 0 then Ok (0, w)
  else
    '(n, w) ← get_next_pid w;
    let ft := replicate (Z.to_nat MAX_FILES_PER_PROCESS) 0 in
    '(f0, w) ← create_kernel_console_file O_RDONLY w;
    ft ← arr_set ft 0 f0;
    '(f1, w) ← create_kernel_console_file O_WRONLY w;
    ft ← arr_set ft 1 f1;
    '(f2, w) ← create_kernel_console_file O_WRONLY w;
    ft ← arr_set ft 2 f2;
    Ok (p, set_process w p (mk_process n 0 0 0 0 false 0 ft 0)).

Definition free_process (p : Z) w : outcome (world A) :=
  w ← on_lists w (fun k => free k p); Ok (with_procs w (delete p (w_procs w))).

Definition push_new_process (p : Z) w : outcome (world A) :=
  c ← get_cpu_task_list w; on_lists w (list_push (process_list c) p).

Definition new_elf_process (rip ustack kstack : Z) w : outcome (Z * world A) :=
  '(p, w) ← new_process w;
  if p =? 0 then Ok (0, w)
  else
    '(t, w) ← new_elf_thread rip ustack kstack w;
    if t =? 0 then w ← free_process p w; Ok (0, w)
    else
      w ← update_thread w t (fun t => th_set_next (th_set_state (th_set_vruntime (th_set_channel t 0) 0) STATE_READY) 0);
      w ← update_thread w t (fun t => th_set_process t p);
      w ← update_process w p (fun x => pr_set_primary x t);
      w ← push_new_thread t w;
      w ← push_new_process p w;
      Ok (p, w).

Definition _cb_process_by_pid w (p n : Z) : bool :=
  match w_procs w !! p with Some p => pid p =? n | None => false end.
Definition process_by_pid (n : Z) w : outcome Z :=
  c ← get_cpu_task_list w; get_first_match (process_list c) (Some (fun p => _cb_process_by_pid w p n)) (w_k w).

(** Nothing is returned. *)
Definition clone_process (p : Z) w : outcome (world A) :=
  '(child, w) ← new_process w; update_process w child (fun x => pr_set_parent x p).

(** *** algorithm/cfs.c *)

(** The loop of [get_lowest_runtime] over indices [i .. i + n - 1]. *)
Fixpoint lowest_loop (n : nat) (i l next : Z) w : outcome Z :=
  match n with
  | O => Ok next
  | S n =>
      p ← list_get_at l i (w_k w);
      t ← thread_at w p;
      if state t =? STATE_READY then
        if next =? 0 then lowest_loop n (i + 1) l p w
        else
          x ← thread_at w next;
          lowest_loop n (i + 1) l (if vruntime t <? vruntime x then p else next) w
      else lowest_loop n (i + 1) l next w
  end.

Definition get_lowest_runtime w : outcome Z :=
  cpu ← get_cpu_task_list w;
  if thread_list cpu =? 0 then Ok 0
  else
    l ← deref (lists (w_k w) !! thread_list cpu);
    if count l =? 0 then Ok 0 else lowest_loop (Z.to_nat (count l)) 0 (thread_list cpu) 0 w.

Definition get_next_thread_cfs w : outcome Z := get_lowest_runtime w.

(** *** algorithm/rr.c *)

Fixpoint rr_loop (n : nat) (l cnt : Z) w : outcome (Z * world A) :=
  match n with
  | O => Ok (0, w)
  | S n =>
      let id := if rr_next_id w >=? cnt then 0 else rr_next_id w in
      candidate ← list_get_at l id (w_k w);
      let w := with_rr w (u64 (id + 1)) in
      c ← thread_at w candidate;
      if bool_decide (name c = IDLE_THREAD) then rr_loop n l cnt w
      else if state c =? STATE_READY then Ok (candidate, w)
      else rr_loop n l cnt w
  end.

Definition get_next_thread_rr w : outcome (Z * world A) :=
  cpu ← get_cpu_task_list w;
  l ← deref (lists (w_k w) !! thread_list cpu);
  if count l =? 0 then Ok (0, w) else rr_loop (Z.to_nat (count l)) (thread_list cpu) (count l) w.

(** *** scheduler.c *)

(** [SCH_ALG] is [SCH_ALG_CFS]. *)
Definition get_next_thread w : outcome Z := get_next_thread_cfs w.

Fixpoint idle_search (fuel : nat) (curr : Z) w : outcome Z :=
  if curr =? 0 then Ok 0
  else
    match fuel with
    | O => Hang
    | S fuel =>
        n ← deref (nodes (w_k w) !! curr);
        t ← thread_at w (data n);
        if bool_decide (name t = IDLE_THREAD) then Ok (data n) else idle_search fuel (next n) w
    end.

Definition find_idle_thread (l : Z) w : outcome Z :=
  x ← deref (lists (w_k w) !! l); idle_search (S (size (nodes (w_k w)))) (head x) w.

Definition switch_tss_stack (next_thread : Z) w : outcome (world A) :=
  g ← arr_get (gdt_list (w_gdt w)) me;
  n ← thread_at w next_thread;
  let t := tss g in
  gs ← arr_set (gdt_list (w_gdt w)) me
         (mk_gdt (at_ g) (entries g) (mk_tss (kernel_stack_base n) (rsp1 t) (rsp2 t) (ist t) (iomap_base t)));
  Ok (with_gdt w (mk_gdt_state gs (syscall_kernel_stack (w_gdt w)) (gdtr (w_gdt w)))).

(** The rest of [schedule] once the next thread is known. *)
Definition switch_to_thread (current next_thread : Z) w : outcome (Z * world A) :=
  if current =? next_thread then
    w ← update_thread w current (fun t => th_set_state t STATE_RUNNING);
    c ← thread_at w current;
    Ok (k_rsp c, w)
  else
    c ← thread_at w current;
    w ← (if state c =? STATE_RUNNING
         then update_thread w current (fun t => th_set_state t STATE_READY) else Ok w);
    w ← update_thread w next_thread (fun t => th_set_state t STATE_RUNNING);
    l ← get_cpu_task_list w;
    w ← set_cpu_list w (mk_cpu_list (min_vruntime l) (thread_count l) (process_list l) (thread_list l)
                          next_thread (nb_sleeping l) (sleeping_queue l));
    w ← switch_tss_stack next_thread w;
    n ← thread_at w next_thread;
    d ← get_current_cpu_data w;
    ds ← arr_set (cpu_data_list w) me (mk_cpu_data (tss_sp2 d) (kernel_stack_base n));
    let w := with_cpu_data w ds in
    c ← thread_at w current;
    cp ← process_at w (process c);
    np ← process_at w (process n);
    let h := hhdm_offset (w_vm w) in
    let current_pml4 := PHYS_TO_VIRT h (cr3 cp) in
    let next_pml4 := PHYS_TO_VIRT h (cr3 np) in
    let s := with_mem (w_vm w) (copy_kernel_half (mem (w_vm w)) next_pml4 current_pml4) in
    let w := with_vm w s (if cr3 cp =? cr3 np then w_cr3 w else cr3 np) in
    Ok (k_rsp n, w).

(** What [schedule] switches to; [None]: it returns at once. *)
Definition choose_next (current l : Z) w : outcome (option Z) :=
  next_thread ← get_next_thread w;
  if next_thread =? 0 then
    c ← thread_at w current;
    if bool_decide (name c = IDLE_THREAD) then Ok None
    else
      x ← deref (lists (w_k w) !! l);
      if count x =? 2 then Ok None else i ← find_idle_thread l w; Ok (Some i)
  else Ok (Some next_thread).

Definition schedule (old_rsp from : Z) w : outcome (Z * world A) :=
  cpu_list ← get_cpu_task_list w;
  _ ← get_current_cpu_data w;
  let current := current_thread cpu_list in
  if from =? 1 then Ok (old_rsp, w)
  else if current =? 0 then Ok (old_rsp, w)
  else
    w ← update_thread w current (fun t => th_set_k_rsp t old_rsp);
    n ← choose_next current (thread_list cpu_list) w;
    match n with
    | None => Ok (old_rsp, w)
    | Some n => switch_to_thread current n w
    end.

Definition update_curr_thread w : outcome (world A) :=
  cpu_list ← get_cpu_task_list w;
  let current := current_thread cpu_list in
  if current =? 0 then Ok w
  else
    w ← update_thread w current (fun t => th_set_vruntime t (u64 (vruntime t + 1)));
    t ← thread_at w current;
    if sleep_ticks t >? 0 then update_thread w current (fun t => th_set_sleep t (sleep_ticks t - 1)) else Ok w.

(** The loop of [notify_wait_channel] over indices [i .. i + n - 1]. *)
Fixpoint notify_loop (n : nat) (i l channel : Z) w : outcome (world A) :=
  match n with
  | O => Ok w
  | S n =>
      p ← list_get_at l i (w_k w);
      t ← thread_at w p;
      if (state t =? STATE_WAITING) && (block_channel t =? channel) then
        Ok (set_thread w p (th_set_channel (th_set_state t STATE_READY) 0))
      else notify_loop n (i + 1) l channel w
  end.

Definition notify_wait_channel (channel : Z) w : outcome (world A) :=
  if channel =? 0 then Ok w
  else
    cpu ← get_cpu_task_list w;
    l ← deref (lists (w_k w) !! thread_list cpu);
    notify_loop (Z.to_nat (count l)) 0 (thread_list cpu) channel w.

(** Every thread with the number of the sleep entry is made ready. *)
Fixpoint wake_loop (n : nat) (i l t : Z) w : outcome (world A) :=
  match n with
  | O => Ok w
  | S n =>
      p ← list_get_at l i (w_k w);
      x ← thread_at w p;
      let w := if tid x =? t then set_thread w p (th_set_state x STATE_READY) else w in
      wake_loop n (i + 1) l t w
  end.

Definition update_sleeping_queue w : outcome (world A) :=
  cpu ← get_cpu_task_list w;
  q ← deref (lists (w_k w) !! sleeping_queue cpu);
  if count q =? 0 then Ok w
  else
    top ← list_get_at (sleeping_queue cpu) 0 (w_k w);
    e ← deref (w_deltas w !! top);
    if delta e =? 0 then
      l ← deref (lists (w_k w) !! thread_list cpu);
      w ← wake_loop (Z.to_nat (count l)) 0 (thread_list cpu) (dq_tid e) w;
      w ← on_lists w (list_pop (sleeping_queue cpu));
      Ok (with_deltas w (delete top (w_deltas w)))
    else Ok (with_deltas w (<[top := mk_delta (dq_tid e) (delta e - 1)]> (w_deltas w))).

Fixpoint total_loop (n : nat) (i q total : Z) w : outcome Z :=
  match n with
  | O => Ok total
  | S n =>
      p ← list_get_at q i (w_k w);
      e ← deref (w_deltas w !! p);
      total_loop n (i + 1) q (u64 (total + delta e)) w
  end.

Definition get_total_delta w : outcome Z :=
  cpu ← get_cpu_task_list w;
  q ← deref (lists (w_k w) !! sleeping_queue cpu);
  total_loop (Z.to_nat (count q)) 0 (sleeping_queue cpu) 0 w.

(** Up to the yield. *)
Definition sleep_enqueue (ms : Z) w : outcome (world A) :=
  cpu ← get_cpu_task_list w;
  w ← update_thread w (current_thread cpu) (fun t => th_set_state t STATE_SLEEPING);
  '(dt, w) ← on_alloc w (a_kmalloc sizeof_delta);
  if dt =? 0 then Fault
  else
    total ← get_total_delta w;
    t ← thread_at w (current_thread cpu);
    let w := with_deltas w (<[dt := mk_delta (tid t) (u64 (ms - total))]> (w_deltas w)) in
    on_lists w (list_push (sleeping_queue cpu) dt).

Definition kusleep (ms : Z) w : outcome (world A) := w ← sleep_enqueue ms w; kernel_yield w.
Definition ksleep (s : Z) w : outcome (world A) := kusleep (u64 (s * 1000)) w.

(** *** mt.c *)

Definition KERNEL_STACK_SIZE : Z := 16384.

(** The first process with its main thread, and the idle thread. *)
Definition make_bsp_threads w : outcome (Z * Z * Z * world A) :=
  '(p, w) ← new_process w;
  w ← update_process w p (fun x => pr_set_cr3 x (VIRT_TO_PHYS (hhdm_offset (w_vm w)) (kernel_pml4 (w_vm w))));
  '(t, w) ← new_thread w;
  w ← update_thread w t (fun t => th_set_next (th_set_vruntime (th_set_state t STATE_RUNNING) 0) 0);
  w ← update_thread w t (fun t => th_set_stack (th_set_process (th_set_name t MAIN_THREAD) p)
                                    (u64 (kernel_stack + KERNEL_STACK_SIZE)));
  '(st, w) ← on_alloc w (a_kzalloc PAGE_SIZE);
  let idle_stack_top := u64 (st + PAGE_SIZE) in
  '(i, w) ← new_kernel_thread idle_loop idle_stack_top w;
  w ← update_thread w i (fun t => th_set_next (th_set_vruntime (th_set_state t STATE_READY) 0) 0);
  w ← update_thread w i (fun t => th_set_process (th_set_name t IDLE_THREAD) p);
  Ok (p, t, i, w).

Definition init_bsp_main_process w : outcome (world A) :=
  c ← get_cpu_task_list w;
  '(p, t, i, w) ← make_bsp_threads w;
  w ← on_lists w (list_push (process_list c) p);
  w ← on_lists w (list_push (thread_list c) t);
  w ← on_lists w (list_push (thread_list c) i);
  w ← update_process w p (fun x => pr_set_primary x t);
  c ← get_cpu_task_list w;
  w ← set_cpu_list w (mk_cpu_list (min_vruntime c) (thread_count c) (process_list c) (thread_list c) t
                        (nb_sleeping c) (sleeping_queue c));
  d ← get_current_cpu_data w;
  x ← thread_at w t;
  ds ← arr_set (cpu_data_list w) me (mk_cpu_data (tss_sp2 d) (kernel_stack_base x));
  Ok (with_cpu_data w ds).

(** The blocks of [n] more processors. *)
Fixpoint make_cpu_lists (n : nat) w : outcome (world A) :=
  match n with
  | O => Ok w
  | S n =>
      '(p, w) ← on_alloc w (a_kmalloc sizeof_cpu_list);
      if p =? 0 then Fault
      else
        '(pl, w) ← make_list w;
        '(tl, w) ← make_list w;
        let c := mk_cpu_list (min_vruntime junk_list) (thread_count junk_list) pl tl 0 (nb_sleeping junk_list)
                   (sleeping_queue junk_list) in
        make_cpu_lists n (with_cpus w (cpu_task_lists w ++ [c]))
  end.

Definition init_multitasking (g_acpi_cpu_count : Z) w : outcome (world A) :=
  '(p, w) ← on_alloc w (a_kmalloc (sizeof_cpu_list * g_acpi_cpu_count));
  if (p =? 0) && (0 <? g_acpi_cpu_count) then Fault
  else
    w ← make_cpu_lists (Z.to_nat g_acpi_cpu_count) (with_cpus w []);
    c ← get_cpu_task_list w;
    '(q, w) ← make_list w;
    w ← set_cpu_list w (mk_cpu_list 10 0 (process_list c) (thread_list c) (current_thread c) (nb_sleeping c) q);
    init_bsp_main_process w.

(** *** smp.c *)

Fixpoint make_cpu_data (n : nat) w : outcome (world A) :=
  match n with
  | O => Ok w
  | S n =>
      '(p, w) ← on_alloc w (a_kzalloc 16);
      if p =? 0 then Fault else make_cpu_data n (with_cpu_data w (cpu_data_list w ++ [mk_cpu_data 0 0]))
  end.

Definition init_smp_data (cpu_count : Z) w : outcome (world A) :=
  '(p, w) ← on_alloc w (a_kzalloc (16 * cpu_count));
  if (p =? 0) && (0 <? cpu_count) then Fault else make_cpu_data (Z.to_nat cpu_count) (with_cpu_data w []).
End Code.

(** ** Specification *)

Definition ready {A} (w : world A) (p : Z) : Prop :=
  match w_threads w !! p with Some t => state t = STATE_READY | None => False end.
Definition vrt {A} (w : world A) (p : Z) : Z :=
  match w_threads w !! p with Some t => vruntime t | None => 0 end.

(** [r] is the ready thread of [ps] that has run least, the first such one; null
    if none is ready. *)
Definition fairest {A} (w : world A) (ps : list Z) (r : Z) : Prop :=
  (r = 0 /\ forall p, p ∈ ps -> ~ ready w p) \/
  exists l1 l2, ps = l1 ++ r :: l2 /\ ready w r /\
    (forall p, p ∈ l1 -> ready w p -> vrt w r < vrt w p) /\
    (forall p, p ∈ l2 -> ready w p -> vrt w r <= vrt w p).

(** The threads of processor [me]: its list, the running thread in it, an idle
    thread that is ready or runs. *)
Record sched_ok {A} `{Allocator A} (me : Z) (w : world A) (c : cpu_task_list_t) (ps : list Z) : Prop := {
  so_cpu : arr_get (cpu_task_lists w) me = Ok c;
  so_list : exists xs, is_list (w_k w) (thread_list c) xs /\ xs.*2 = ps;
  so_null : thread_list c <> 0;
  so_threads p : p ∈ ps -> p <> 0 /\ exists t, w_threads w !! p = Some t /\ is_Some (w_procs w !! process t);
  so_current : current_thread c ∈ ps;
  so_running p t : p ∈ ps -> w_threads w !! p = Some t -> state t = STATE_RUNNING -> p = current_thread c;
  so_idle : exists i t, i ∈ ps /\ w_threads w !! i = Some t /\ name t = IDLE_THREAD /\
    (state t = STATE_READY \/ (i = current_thread c /\ state t = STATE_RUNNING));
  so_data : exists d, arr_get (cpu_data_list w) me = Ok d;
  so_gdt : exists g, arr_get (gdt_list (w_gdt w)) me = Ok g
}.

(** ** Lemmas *)

Section Lemmas.
Context {A : Type} `{Allocator A}.
Context (me : Z).
Implicit Types (w : world A).

Lemma fairest_snoc w ps r p t :
  fairest w ps r -> w_threads w !! p = Some t -> (r <> 0 -> r ∈ ps) -> p <> 0 -> (forall q, q ∈ ps -> q <> 0) ->
  fairest w (ps ++ [p])
    (if state t =? STATE_READY then if r =? 0 then p else if vruntime t <? vrt w r then p else r else r).
Proof.
  intros Hf Ht Hr Hp Hps.
  assert (ready w p <-> state t = STATE_READY) as Hrd by (unfold ready; by rewrite Ht).
  assert (vrt w p = vruntime t) as Hv by (unfold vrt; by rewrite Ht).
  destruct Hf as [[-> Hn]|(l1 & l2 & -> & Hrr & H1 & H2)].
  - simpl. destruct (Z.eqb_spec (state t) STATE_READY) as [Hs|Hs].
    + right. exists ps, []. split_and!; [done|by apply Hrd| |set_solver]. intros q Hq Hqr. by destruct (Hn q Hq).
    + left. split; [done|]. intros q [Hq| ->%list_elem_of_singleton]%elem_of_app; [by apply Hn|].
      intros Hx%Hrd. done.
  - rewrite (proj2 (Z.eqb_neq r 0)) by (apply Hps; set_solver).
    destruct (Z.eqb_spec (state t) STATE_READY) as [Hs|Hs].
    + rewrite <-Hv. destruct (Z.ltb_spec (vrt w p) (vrt w r)).
      * right. exists (l1 ++ r :: l2), []. split_and!; [done|by apply Hrd| |set_solver].
        intros q [Hq|[->|Hq]%elem_of_cons]%elem_of_app Hqr; [specialize (H1 q Hq Hqr)| |specialize (H2 q Hq Hqr)]; lia.
      * right. exists l1, (l2 ++ [p]). split_and!; try done; [by rewrite <-app_assoc|].
        intros q [Hq| ->%list_elem_of_singleton]%elem_of_app Hqr; [by apply H2|lia].
    + right. exists l1, (l2 ++ [p]). split_and!; try done; [by rewrite <-app_assoc|].
      intros q [Hq| ->%list_elem_of_singleton]%elem_of_app Hqr; [by apply H2|]. by apply Hrd in Hqr.
Qed.

Lemma fairest_in w ps r : fairest w ps r -> r <> 0 -> r ∈ ps.
Proof. intros [[-> _]|(l1 & l2 & -> & _)] ?; [done|set_solver]. Qed.

Lemma lowest_loop_ok w l xs seen rest next :
  is_list (w_k w) l xs -> xs.*2 = seen ++ rest ->
  (forall p, p ∈ seen ++ rest -> p <> 0 /\ is_Some (w_threads w !! p)) -> fairest w seen next ->
  exists r, lowest_loop (length rest) (Z.of_nat (length seen)) l next w = Ok r /\ fairest w (seen ++ rest) r.
Proof.
  intros Hl. revert seen next. induction rest as [|p rest IH]; intros seen next Hxs Hp Hf; simpl.
  { exists next. by rewrite app_nil_r. }
  rewrite (list_get_at_ok _ _ _ _ Hl) by lia. rewrite Hxs, Nat2Z.id, list_lookup_middle by done. mred. simpl.
  destruct (Hp p ltac:(set_solver)) as [Hp0 [t Ht]]. unfold thread_at. rewrite Ht. mred.
  pose proof (fairest_snoc w seen next p t Hf Ht (fairest_in _ _ _ Hf) Hp0
    (fun q Hq => proj1 (Hp q ltac:(set_solver)))) as Hs.
  assert (forall nx, fairest w (seen ++ [p]) nx -> exists r,
    lowest_loop (length rest) (Z.of_nat (length seen) + 1) l nx w = Ok r /\ fairest w (seen ++ p :: rest) r) as Hnext.
  { intros nx Hnx. destruct (IH (seen ++ [p]) nx) as (r & Hr & Hfr); try done.
    - by rewrite <-app_assoc.
    - intros q Hq. apply Hp. set_solver.
    - exists r. rewrite length_app in Hr. simpl in Hr. rewrite Nat2Z.inj_add in Hr.
      by rewrite <-app_assoc in Hfr. }
  destruct (state t =? STATE_READY); [|by apply Hnext]. destruct (Z.eqb_spec next 0) as [->|Hn0]; [by apply Hnext|].
  destruct (Hp next) as [_ [x Hx]]; [apply elem_of_app; left; by apply (fairest_in w)|].
  rewrite Hx. mred. unfold vrt in Hs. rewrite Hx in Hs. by apply Hnext.
Qed.

Lemma cfs_ok w c ps :
  sched_ok me w c ps -> exists r, get_next_thread_cfs me w = Ok r /\ fairest w ps r.
Proof.
  intros [S1 (xs & S2 & S2') S3 S4 _ _ _ _ _]. unfold get_next_thread_cfs, get_lowest_runtime, get_cpu_task_list.
  rewrite S1. mred. rewrite (proj2 (Z.eqb_neq _ 0) S3).
  pose proof S2 as [_ (h & -> & _) _ _ _]. mred. cbn [count].
  assert (length xs = length ps) as Hlen by (by rewrite <-S2', length_fmap).
  destruct (Z.eqb_spec (Z.of_nat (length xs)) 0).
  { exists 0. split; [done|]. left. split; [done|]. destruct ps; [set_solver|simpl in *; lia]. }
  rewrite Nat2Z.id, Hlen. apply (lowest_loop_ok w (thread_list c) xs [] ps 0); try done.
  - intros p Hp. destruct (S4 p Hp) as (? & t & ? & _). split; [done|]. by exists t.
  - left. split; [done|set_solver].
Qed.

Lemma fairest_ext w w' ps r :
  (forall p, p ∈ ps -> (ready w' p <-> ready w p) /\ vrt w' p = vrt w p) -> fairest w' ps r -> fairest w ps r.
Proof.
  intros He [[-> Hn]|(l1 & l2 & -> & Hr & H1 & H2)].
  - left. split; [done|]. intros p Hp Hx. apply (Hn p Hp). by apply He.
  - right. exists l1, l2. destruct (He r) as [Hrr Hvr]; [set_solver|].
    split_and!; [done|by apply Hrr|..].
    + intros p Hp Hpr. destruct (He p) as [Hx Hv]; [apply elem_of_app; by left|]. rewrite <-Hvr, <-Hv. apply H1; [done|by apply Hx].
    + intros p Hp Hpr. destruct (He p) as [Hx Hv]; [apply elem_of_app; right; by right|].
      rewrite <-Hvr, <-Hv. apply H2; [done|by apply Hx].
Qed.

(** What keeps the scheduler's invariant: names and processes stay, at most the
    current thread runs, an idle thread is ready or runs. *)
Lemma sched_ok_step w w' c c' ps :
  sched_ok me w c ps -> w_k w' = w_k w -> w_procs w' = w_procs w ->
  arr_get (cpu_task_lists w') me = Ok c' -> thread_list c' = thread_list c -> current_thread c' ∈ ps ->
  (forall p t, p ∈ ps -> w_threads w !! p = Some t -> exists t', w_threads w' !! p = Some t' /\
    name t' = name t /\ process t' = process t /\ (state t' = STATE_RUNNING -> p = current_thread c') /\
    (state t = STATE_READY \/ (p = current_thread c /\ state t = STATE_RUNNING) ->
     state t' = STATE_READY \/ (p = current_thread c' /\ state t' = STATE_RUNNING))) ->
  (exists d, arr_get (cpu_data_list w') me = Ok d) -> (exists g, arr_get (gdt_list (w_gdt w')) me = Ok g) ->
  sched_ok me w' c' ps.
Proof.
  intros [S1 S2 S3 S4 S5 S6 (i & ti & Hi & Hti & Hni & Hsi) S8 S9] Hk Hpr Hc Htl Hcur Hth Hd Hg.
  constructor; try done.
  - by rewrite Hk, Htl.
  - by rewrite Htl.
  - intros p Hp. destruct (S4 p Hp) as (? & t & Ht & Hx). split; [done|].
    destruct (Hth p t Hp Ht) as (t' & Ht' & _ & Hpt & _). exists t'. split; [done|]. by rewrite Hpt, Hpr.
  - intros p t' Hp Ht' Hs. destruct (S4 p Hp) as (_ & t & Ht & _).
    destruct (Hth p t Hp Ht) as (t'' & Ht'' & _ & _ & Hrun & _). rewrite Ht' in Ht''. injection Ht'' as <-. by apply Hrun.
  - destruct (Hth i ti Hi Hti) as (t' & Ht' & Hn & _ & _ & Hid). exists i, t'. rewrite Hn. by auto.
Qed.

(** Storing the stack pointer changes nothing the scheduler looks at. *)
Lemma save_rsp_ok w c ps cur t rsp :
  sched_ok me w c ps -> w_threads w !! cur = Some t ->
  sched_ok me (set_thread w cur (th_set_k_rsp t rsp)) c ps /\
  forall p, (ready (set_thread w cur (th_set_k_rsp t rsp)) p <-> ready w p) /\
    vrt (set_thread w cur (th_set_k_rsp t rsp)) p = vrt w p.
Proof.
  intros Hok Ht. split.
  - apply (sched_ok_step w _ c c ps Hok); try done; try apply Hok. intros p x Hp Hx. simpl.
    destruct (decide (p = cur)) as [->|].
    + rewrite lookup_insert_eq. rewrite Ht in Hx. injection Hx as ->. eexists. split; [done|]. split_and!; try done.
      simpl. by apply (so_running _ _ _ _ Hok).
    + rewrite lookup_insert_ne by done. exists x. split_and!; try done. by apply (so_running _ _ _ _ Hok).
  - intros p. unfold ready, vrt. simpl. destruct (decide (p = cur)) as [->|].
    + by rewrite lookup_insert_eq, Ht.
    + by rewrite lookup_insert_ne.
Qed.

Lemma choose_next_ok w c ps :
  sched_ok me w c ps ->
  exists r, fairest w ps r /\ choose_next me (current_thread c) (thread_list c) w
    = Ok (if r =? 0 then None else Some r).
Proof.
  intros Hok. destruct (cfs_ok w c ps Hok) as (r & Hr & Hf). exists r. split; [done|].
  unfold choose_next, get_next_thread. rewrite Hr. mred. destruct (Z.eqb_spec r 0) as [->|]; [|done].
  destruct (so_idle _ _ _ _ Hok) as (i & t & Hi & Ht & Hn & Hs).
  destruct Hf as [[_ Hf]|(l1 & l2 & -> & _)].
  2: { destruct (so_threads _ _ _ _ Hok 0) as [? _]; [set_solver|done]. }
  destruct Hs as [Hs|[-> _]].
  - destruct (Hf i Hi). unfold ready. by rewrite Ht.
  - unfold thread_at. rewrite Ht. mred. by rewrite bool_decide_true.
Qed.

(** The machine after a switch from [cur] to [n]. *)
Record switched w w' (c : cpu_task_list_t) (ps : list Z) (cur n : Z) : Prop := {
  sw_ok : exists c', sched_ok me w' c' ps /\ current_thread c' = n /\ sleeping_queue c' = sleeping_queue c /\
    process_list c' = process_list c /\ thread_list c' = thread_list c;
  sw_frame : w_procs w' = w_procs w /\ w_deltas w' = w_deltas w /\ next_tid w' = next_tid w /\
    next_tid_lock w' = next_tid_lock w /\ next_pid_lock w' = next_pid_lock w;
  sw_lists : w_k w' = w_k w;
  sw_next : exists t, w_threads w !! n = Some t /\ w_threads w' !! n = Some (th_set_state t STATE_RUNNING) /\
    (exists g, arr_get (gdt_list (w_gdt w')) me = Ok g /\ rsp0 (tss g) = kernel_stack_base t) /\
    (exists d, arr_get (cpu_data_list w') me = Ok d /\ stack_top d = kernel_stack_base t);
  sw_current : exists t, w_threads w !! cur = Some t /\ w_threads w' !! cur =
    Some (if state t =? STATE_RUNNING then th_set_state t STATE_READY else t);
  sw_others p : p <> cur -> p <> n -> w_threads w' !! p = w_threads w !! p;
  sw_space : exists cp np, (exists t, w_threads w !! cur = Some t /\ w_procs w !! process t = Some cp) /\
    (exists t, w_threads w !! n = Some t /\ w_procs w !! process t = Some np) /\
    w_cr3 w' = (if cr3 cp =? cr3 np then w_cr3 w else cr3 np) /\
    mem (w_vm w') = copy_kernel_half (mem (w_vm w)) (PHYS_TO_VIRT (hhdm_offset (w_vm w)) (cr3 np))
                      (PHYS_TO_VIRT (hhdm_offset (w_vm w)) (cr3 cp))
}.

Lemma arr_get_set {B} (l l' : list B) i x : arr_set l i x = Ok l' -> arr_get l' i = Ok x.
Proof.
  intros [Hi ->]%arr_set_Ok_inv. apply arr_get_Ok_iff. split; [lia|]. rewrite list_lookup_insert_eq; [done|lia].
Qed.

Lemma arr_set_get {B} (l : list B) i x y : arr_get l i = Ok x -> exists l', arr_set l i y = Ok l'.
Proof. intros [? ?%lookup_lt_Some]%arr_get_Ok_iff. rewrite arr_set_ok by lia. eauto. Qed.

Lemma switched_intro w w' c ps n t ct cp np c' cs g' gs d' ds :
  let cur := current_thread c in
  let ct' := if state ct =? STATE_RUNNING then th_set_state ct STATE_READY else ct in
  sched_ok me w c ps -> n ∈ ps -> n <> cur -> w_threads w !! n = Some t -> w_threads w !! cur = Some ct ->
  w_procs w !! process ct = Some cp -> w_procs w !! process t = Some np ->
  arr_set (cpu_task_lists w) me c' = Ok cs -> arr_set (gdt_list (w_gdt w)) me g' = Ok gs ->
  arr_set (cpu_data_list w) me d' = Ok ds ->
  current_thread c' = n -> thread_list c' = thread_list c -> sleeping_queue c' = sleeping_queue c ->
  process_list c' = process_list c -> w_deltas w' = w_deltas w -> next_tid w' = next_tid w ->
  next_tid_lock w' = next_tid_lock w -> next_pid_lock w' = next_pid_lock w -> rsp0 (tss g') = kernel_stack_base t ->
  stack_top d' = kernel_stack_base t ->
  w_k w' = w_k w -> w_procs w' = w_procs w -> cpu_task_lists w' = cs -> gdt_list (w_gdt w') = gs ->
  cpu_data_list w' = ds ->
  w_threads w' = <[n := th_set_state t STATE_RUNNING]> (<[cur := ct']> (w_threads w)) ->
  w_cr3 w' = (if cr3 cp =? cr3 np then w_cr3 w else cr3 np) ->
  mem (w_vm w') = copy_kernel_half (mem (w_vm w)) (PHYS_TO_VIRT (hhdm_offset (w_vm w)) (cr3 np))
                    (PHYS_TO_VIRT (hhdm_offset (w_vm w)) (cr3 cp)) ->
  switched w w' c ps cur n.
Proof.
  intros cur ct' Hok Hn Hne Ht Hct Hcp Hnp Hcs Hgs Hds Hcc Hct0 Hsq Hpl Hdl Hnt Htl Hpk Hrsp Hst Ek Ep Ec Eg Ed Et Ecr Em.
  revert Em Ecr. apply arr_get_set in Hcs, Hgs, Hds.
  assert (w_threads w' !! n = Some (th_set_state t STATE_RUNNING)) as Hn' by (by rewrite Et, lookup_insert_eq).
  assert (w_threads w' !! cur = Some ct') as Hc' by (by rewrite Et, lookup_insert_ne, lookup_insert_eq by done).
  assert (forall p, p <> cur -> p <> n -> w_threads w' !! p = w_threads w !! p) as Hoth.
  { intros p ? ?. by rewrite Et, !lookup_insert_ne by done. }
  intros Em Ecr. constructor.
  - clear Em Ecr. exists c'. split; [|done]. apply (sched_ok_step w w' c c' ps Hok Ek Ep); rewrite ?Ec, ?Eg, ?Ed;
      [exact Hcs|exact Hct0|by rewrite Hcc| |by eexists|by eexists].
    + intros p x Hp Hx. rewrite Hcc. fold cur. destruct (decide (p = n)) as [->|Hpn].
      { rewrite Ht in Hx. injection Hx as <-. eexists. split; [done|]. simpl. split_and!; auto. }
      destruct (decide (p = cur)) as [->|Hpc].
      * rewrite Hct in Hx. injection Hx as <-. exists ct'. split; [done|]. unfold ct'.
        destruct (Z.eqb_spec (state ct) STATE_RUNNING) as [Hs|Hs]; simpl; split_and!; try done; [by left|].
        intros [?|[_ ?]]; [by left|done].
      * exists x. rewrite Hoth by done. split_and!; try done.
        -- intros Hs. destruct Hpc. by apply (so_running _ _ _ _ Hok p x).
        -- intros [?|[? _]]; [by left|done].
  - clear Em Ecr. by split_and!.
  - exact Ek.
  - clear Em Ecr. exists t. rewrite Eg, Ed.
    split; [exact Ht|]. split; [exact Hn'|]. split; [by exists g'|by exists d'].
  - clear Em Ecr. by exists ct.
  - exact Hoth.
  - exists cp, np. split; [exists ct; split; assumption|].
    split; [exists t; split; assumption|]. split; [exact Ecr|exact Em].
Qed.

Lemma switch_ok w c ps n :
  sched_ok me w c ps -> n ∈ ps -> n <> current_thread c ->
  exists t w', w_threads w !! n = Some t /\ switch_to_thread me (current_thread c) n w = Ok (k_rsp t, w') /\
    switched w w' c ps (current_thread c) n.
Proof.
  intros Hok Hn Hne. set (cur := current_thread c) in *. pose proof Hok as [S1 S2 S3 S4 S5 S6 S7 (d & S8) (g & S9)].
  destruct (S4 cur S5) as (_ & ct & Hct & cp & Hcp). destruct (S4 n Hn) as (_ & t & Ht & np & Hnp).
  exists t. unfold switch_to_thread. rewrite (proj2 (Z.eqb_neq cur n)) by done.
  unfold thread_at. rewrite Hct. mred.
  set (ct' := if state ct =? STATE_RUNNING then th_set_state ct STATE_READY else ct).
  assert (exists w1, (if state ct =? STATE_RUNNING then update_thread w cur (fun t => th_set_state t STATE_READY)
    else Ok w) = Ok w1 /\ w1 = set_thread w cur ct') as (w1 & -> & ->).
  { unfold ct', update_thread, thread_at. rewrite Hct. destruct (state ct =? STATE_RUNNING); [by eexists|].
    exists w. split; [done|]. unfold set_thread. rewrite insert_id by done. by destruct w. }
  mred. unfold update_thread, thread_at. simpl. rewrite lookup_insert_ne, Ht by done. mred.
  unfold get_cpu_task_list. simpl. rewrite S1. mred. unfold set_cpu_list. simpl.
  match goal with |- context [arr_set (cpu_task_lists w) me ?x] => set (c' := x) end.
  destruct (arr_set_get _ _ _ c' S1) as (cs & Hcs). rewrite Hcs. mred.
  unfold switch_tss_stack. simpl. rewrite S9. mred. unfold thread_at. simpl. rewrite lookup_insert_eq. mred. simpl.
  match goal with |- context [arr_set (gdt_list (w_gdt w)) me ?x] => set (g' := x) end.
  destruct (arr_set_get _ _ _ g' S9) as (gs & Hgs). rewrite Hgs. mred. simpl. rewrite lookup_insert_eq. mred. simpl.
  unfold get_current_cpu_data. simpl. rewrite S8. mred.
  destruct (arr_set_get _ _ _ (mk_cpu_data (tss_sp2 d) (kernel_stack_base t)) S8) as (ds & Hds). rewrite Hds. mred. simpl.
  rewrite lookup_insert_ne, lookup_insert_eq by done. mred. unfold process_at. simpl.
  assert (process ct' = process ct) as -> by (unfold ct'; by destruct (state ct =? STATE_RUNNING)).
  rewrite Hcp. mred. rewrite Hnp. mred. eexists. split; [done|]. split; [reflexivity|].
  eapply (switched_intro w _ c ps n t ct cp np c' cs g' gs _ ds); try eassumption; reflexivity.
Qed.
End Lemmas.

(** ** A small machine to run the scheduler on

    One processor; the main thread runs, the idle thread and a user thread are
    ready.  The sleep queue is empty, or holds one entry. *)

Definition sample_thread (n : Z) (nm : list Z) (st v pr : Z) : thread_t :=
  mk_thread n nm st (50000 + n) (60000 + n) 0 v 0 0 pr 0.
Definition sample_k (sleeper : bool) : kstate arena :=
  mk_kstate (mk_arena 8000 (list_to_set [100; 101; 102; 103; 200; 201; 300; 301; 302; 303; 5000; 5001; 5002; 6000; 6001]))
    (list_to_map [(100, mk_list 3 101); (200, if sleeper then mk_list 1 201 else mk_list 0 0); (300, mk_list 2 302)])
    (list_to_map [(101, mk_node 5000 102); (102, mk_node 5001 103); (103, mk_node 5002 0); (201, mk_node 301 0);
                  (302, mk_node 6000 303); (303, mk_node 6001 0)]).
Definition sample_cpu_list : cpu_task_list_t := mk_cpu_list 10 0 300 100 5000 0 200.
Definition sample_main : thread_t := sample_thread 1 MAIN_THREAD STATE_RUNNING 7 6000.
Definition sample_user : thread_t := sample_thread 3 [] STATE_READY 9 6001.
Definition sample_process : process_t := mk_process 1 4096 268435456 0 0 false 0 ([900; 901; 901] ++ replicate 29 0) 5000.
Definition sample_child : process_t := mk_process 2 4096 268435456 6000 0 false 0 ([900; 901; 901] ++ replicate 29 0) 5002.
Definition sample_world (sleeper : bool) : world arena :=
  mk_world (sample_k sleeper)
    (list_to_map [(5000, sample_main); (5001, sample_thread 2 IDLE_THREAD STATE_READY 5 6000); (5002, sample_user)])
    (list_to_map [(6000, sample_process); (6001, sample_child)])
    (list_to_map [(900, mk_file 0 0 0 (Some ConsoleFops) 0); (901, mk_file 0 0 0 (Some ConsoleFops) 1)])
    (list_to_map [(301, mk_delta 3 1000)])
    [sample_cpu_list] [mk_cpu_data 0 0] sample_vm 0 (mk_gdt_state [mk_gdt 0 [] zero_tss] 0 None) (fun _ => 0)
    4 2 (mk_safe_lock 0) (mk_safe_lock 0) (mk_cpu 514) 0.
Definition sample_threads : list Z := [5000; 5001; 5002].

Lemma sample_alloc sleeper : alloc_inv (alloc (sample_k sleeper)).
Proof. split; [done|]. simpl. intros p Hp. set_unfold. lia. Qed.

Lemma sample_thread_list sleeper :
  is_list (sample_k sleeper) 100 [(101, 5000); (102, 5001); (103, 5002)].
Proof.
  constructor; [apply sample_alloc| |done| |simpl; set_solver].
  - exists 101. split; [by destruct sleeper|]. simpl. split_and!; try done. eexists. split; [done|].
    simpl. split_and!; try done. eexists. split; [done|]. simpl. split_and!; try done. by eexists.
  - simpl. repeat (apply NoDup_cons; split; [set_unfold; lia|]). apply NoDup_nil_2.
Qed.

Lemma sample_queue sleeper : is_list (sample_k sleeper) 200 (if sleeper then [(201, 301)] else []).
Proof.
  constructor; [apply sample_alloc| |by destruct sleeper| |destruct sleeper; simpl; set_solver].
  - destruct sleeper; [exists 201|exists 0]; (split; [done|]); [|done]. simpl. split_and!; try done. by eexists.
  - destruct sleeper; simpl; repeat (apply NoDup_cons; split; [set_unfold; lia|]); apply NoDup_nil_2.
Qed.

Lemma sample_sched_ok sleeper : sched_ok 0 (sample_world sleeper) sample_cpu_list sample_threads.
Proof.
  constructor; try done.
  - eexists. split; [apply sample_thread_list|done].
  - intros p Hp. unfold sample_threads in Hp. set_unfold.
    destruct Hp as [->|[->|[->|[]]]]; (split; [done|]); eexists; (split; [reflexivity|]); by eexists.
  - set_solver.
  - intros p t Hp. unfold sample_threads in Hp. set_unfold.
    destruct Hp as [->|[->|[->|[]]]]; intros [= <-]; done.
  - exists 5001. eexists. split; [set_solver|]. split; [reflexivity|]. split; [done|]. by left.
  - by eexists.
  - by eexists.
Qed.
