(* ===== verification/SchedFair.v ===== *)
(** * What the scheduler guarantees

    [schedule] hands the processor to the ready thread that has run least; with
    one timer tick before each call no runnable thread waits forever; the sleep
    queue, on the other hand, can be stalled by a short sleep. *)

From S2P Require Import Prelude Sync Bitmap Pmm Paging Bytes Heap Alloc Klist Vfs Desc Sched.

Section Schedule.
Context {A : Type} `{Allocator A}.
Context (me : Z).
Implicit Types (w : world A).

(** [schedule] when the invariant holds, by what the policy picks. *)
Lemma schedule_ok w c ps ct old from :
  sched_ok me w c ps -> from <> 1 -> w_threads w !! current_thread c = Some ct ->
  let w0 := set_thread w (current_thread c) (th_set_k_rsp ct old) in
  exists r, fairest w ps r /\
    ((r = 0 /\ schedule me old from w = Ok (old, w0)) \/
     (r = current_thread c /\
      schedule me old from w = Ok (old, set_thread w0 r (th_set_state (th_set_k_rsp ct old) STATE_RUNNING))) \/
     (r ∈ ps /\ r <> current_thread c /\ exists t w', w_threads w !! r = Some t /\
      schedule me old from w = Ok (k_rsp t, w') /\ switched me w0 w' c ps (current_thread c) r)).
Proof.
  intros Hok Hfrom Hct w0. destruct (save_rsp_ok me w c ps (current_thread c) ct old Hok Hct) as [Hok0 Hext].
  fold w0 in Hok0, Hext. destruct (choose_next_ok me w0 c ps Hok0) as (r & Hf & Hch). exists r.
  assert (fairest w ps r) as Hfw by (apply (fairest_ext w w0); [intros p _; apply Hext|exact Hf]).
  split; [exact Hfw|]. unfold schedule. destruct (so_data _ _ _ _ Hok) as (d & Hd).
  unfold get_cpu_task_list, get_current_cpu_data. rewrite (so_cpu _ _ _ _ Hok), Hd. mred.
  rewrite (proj2 (Z.eqb_neq from 1) Hfrom).
  destruct (so_threads _ _ _ _ Hok _ (so_current _ _ _ _ Hok)) as [Hc0 _].
  rewrite (proj2 (Z.eqb_neq _ 0) Hc0). 
  replace (update_thread w (current_thread c) (fun t => th_set_k_rsp t old)) with (Ok w0)
    by (unfold update_thread, thread_at; by rewrite Hct).
  mred. rewrite Hch. mred. destruct (Z.eqb_spec r 0) as [Hr|Hr]; [left; by split|right].
  destruct (decide (r = current_thread c)) as [Hrc|Hrc]; [left|right].
  - split; [exact Hrc|]. unfold switch_to_thread. rewrite Hrc, Z.eqb_refl. unfold update_thread, thread_at. simpl.
    rewrite !lookup_insert_eq. mred. simpl. rewrite lookup_insert_eq. reflexivity.
  - split; [exact (fairest_in _ _ _ Hfw Hr)|]. split; [exact Hrc|].
    destruct (switch_ok me w0 c ps r Hok0 (fairest_in _ _ _ Hfw Hr) Hrc) as (t & w' & Ht & Hs & Hsw).
    exists t, w'. split; [|split; [exact Hs|exact Hsw]]. unfold w0 in Ht. simpl in Ht. by rewrite lookup_insert_ne in Ht.
Qed.

(** ** A timer period *)

(** What [pit_interrupt] and then [scheduler_isr_asm] run: the clock tick, the
    sleep queue, the switch. *)
Definition period (rsp : Z) w : outcome (world A) :=
  w ← update_curr_thread me w;
  w ← update_sleeping_queue me w;
  '(_, w) ← schedule me rsp 0 w;
  Ok w.
(** [n] periods; [rsps] are the stack pointers of the threads interrupted. *)
Fixpoint periods (n : nat) (rsps : nat -> Z) w : outcome (world A) :=
  match n with
  | O => Ok w
  | S n => w ← period (rsps O) w; periods n (fun i => rsps (S i)) w
  end.

(** Every thread of the processor can run, and none sleeps. *)
Record all_runnable w (c : cpu_task_list_t) (ps : list Z) : Prop := {
  ar_ok : sched_ok me w c ps;
  ar_state p t : p ∈ ps -> w_threads w !! p = Some t ->
    state t = (if decide (p = current_thread c) then STATE_RUNNING else STATE_READY) /\ 0 <= vruntime t;
  ar_sleep : is_list (w_k w) (sleeping_queue c) []
}.

(** How far thread [p] is ahead of the others: the ticks they get before it. *)
Definition lag w (ps : list Z) (p : Z) : nat :=
  sum_list_with (fun q => Z.to_nat (vrt w p + 1 - vrt w q)) ps.

Lemma update_curr_ok w c ps ct :
  sched_ok me w c ps -> w_threads w !! current_thread c = Some ct ->
  exists ct', update_curr_thread me w = Ok (set_thread w (current_thread c) ct') /\
    name ct' = name ct /\ process ct' = process ct /\ state ct' = state ct /\ vruntime ct' = u64 (vruntime ct + 1) /\
    tid ct' = tid ct /\ block_channel ct' = block_channel ct.
Proof.
  intros Hok Hct. unfold update_curr_thread, get_cpu_task_list. rewrite (so_cpu _ _ _ _ Hok). mred.
  destruct (so_threads _ _ _ _ Hok _ (so_current _ _ _ _ Hok)) as [Hc0 _]. rewrite (proj2 (Z.eqb_neq _ 0) Hc0).
  unfold update_thread, thread_at. rewrite Hct. mred. unfold set_thread at 1. simpl. rewrite lookup_insert_eq. mred.
  destruct (sleep_ticks _ >? 0); mred; [|by eexists].
  unfold set_thread, with_threads. simpl. rewrite insert_insert_eq. by eexists.
Qed.

(** A tick charges the running thread and changes nothing else. *)
Lemma charge_ok w c ps :
  all_runnable w c ps -> vrt w (current_thread c) < 2 ^ 64 - 1 ->
  exists w', update_curr_thread me w = Ok w' /\ all_runnable w' c ps /\
    (forall q, q ∈ ps -> vrt w' q = vrt w q + (if decide (q = current_thread c) then 1 else 0)).
Proof.
  intros [Hok Hst Hsl] Hmax. set (cur := current_thread c) in *.
  destruct (so_threads _ _ _ _ Hok cur (so_current _ _ _ _ Hok)) as (_ & ct & Hct & _).
  destruct (Hst cur ct (so_current _ _ _ _ Hok) Hct) as [Hrun Hnn]. fold cur in Hrun.
  rewrite decide_True in Hrun by done. unfold vrt in Hmax. rewrite Hct in Hmax.
  destruct (update_curr_ok w c ps ct Hok Hct) as (ct' & Hu & Hnm & Hpr & Hcs & Hv & _).
  rewrite u64_small in Hv by (unfold fits_u64; lia). exists (set_thread w cur ct'). split; [exact Hu|].
  assert (forall q, w_threads (set_thread w cur ct') !! q = if decide (q = cur) then Some ct' else w_threads w !! q) as Hl.
  { intros q. simpl. destruct (decide (q = cur)) as [->|]; [apply lookup_insert_eq|by apply lookup_insert_ne]. }
  split.
  - constructor; [|intros q x Hq; rewrite Hl|exact Hsl].
    + apply (sched_ok_step me w _ c c ps Hok); try done; try apply Hok. intros q x Hq Hx. rewrite Hl.
      destruct (decide (q = cur)) as [->|].
      * exists ct'. rewrite Hct in Hx. injection Hx as <-. rewrite Hcs. by split_and!.
      * exists x. split_and!; try done. by apply (so_running _ _ _ _ Hok).
    + fold cur. destruct (decide (q = cur)) as [->|Hne]; [intros [= <-]|].
      * rewrite Hcs, Hrun. split; [done|lia].
      * intros Hx. destruct (Hst q x Hq Hx) as [Hs ?]. fold cur in Hs. by rewrite decide_False in Hs.
  - intros q Hq. unfold vrt. rewrite Hl. destruct (decide (q = cur)) as [->|]; [by rewrite Hct|lia].
Qed.

(** A switch when every thread can run: to one that has not run longer than [p]. *)
Lemma turn_ok w c ps p rsp :
  all_runnable w c ps -> p ∈ ps -> p <> current_thread c ->
  exists out w' c', schedule me rsp 0 w = Ok (out, w') /\ all_runnable w' c' ps /\
    (forall q, q ∈ ps -> vrt w' q = vrt w q) /\ current_thread c' ∈ ps /\ vrt w (current_thread c') <= vrt w p.
Proof.
  intros [Hok Hst Hsl] Hp Hpc. set (cur := current_thread c) in *.
  destruct (so_threads _ _ _ _ Hok cur (so_current _ _ _ _ Hok)) as (_ & ct & Hct & _).
  destruct (so_threads _ _ _ _ Hok p Hp) as (_ & pt & Hpt & _).
  destruct (Hst p pt Hp Hpt) as [Hpr _]. fold cur in Hpr. rewrite decide_False in Hpr by done.
  destruct (Hst cur ct (so_current _ _ _ _ Hok) Hct) as [Hcr _]. fold cur in Hcr. rewrite decide_True in Hcr by done.
  assert (ready w p) as Hpready by (unfold ready; by rewrite Hpt).
  destruct (schedule_ok w c ps ct rsp 0 Hok ltac:(done) Hct) as (r & Hf & Hcase). fold cur in Hcase.
  destruct Hf as [[-> Hn]|(l1 & l2 & Hps & Hr & Hl1 & Hl2)]; [by destruct (Hn p Hp)|].
  assert (vrt w r <= vrt w p) as Hrp.
  { rewrite Hps in Hp. apply elem_of_app in Hp as [Hp|[->|Hp]%elem_of_cons]; [specialize (Hl1 p Hp Hpready); lia|lia|auto]. }
  destruct Hcase as [[-> _]|[[-> _]|(Hrps & Hrc & t & w' & Ht & Hs & Hsw)]].
  - destruct (so_threads _ _ _ _ Hok 0) as [? _]; [rewrite Hps; set_solver|done].
  - unfold ready in Hr. by rewrite Hct, Hcr in Hr.
  - destruct (sw_ok _ _ _ _ _ _ _ Hsw) as (c' & Hok' & Hc' & Hq' & _).
    exists (k_rsp t), w', c'. rewrite Hc'. split; [exact Hs|].
    assert (is_list (w_k w') (sleeping_queue c') []) as Hsl'
      by (rewrite Hq', (sw_lists _ _ _ _ _ _ _ Hsw); exact Hsl).
    assert (w_threads w' !! cur = Some (th_set_state (th_set_k_rsp ct rsp) STATE_READY)) as Hcur.
    { destruct (sw_current _ _ _ _ _ _ _ Hsw) as (x & Hx & ->). simpl in Hx. rewrite lookup_insert_eq in Hx.
      injection Hx as <-. simpl. by rewrite Hcr. }
    assert (w_threads w' !! r = Some (th_set_state t STATE_RUNNING)) as Hnext.
    { destruct (sw_next _ _ _ _ _ _ _ Hsw) as (x & Hx & -> & _). simpl in Hx.
      rewrite lookup_insert_ne, Ht in Hx by done. by injection Hx as <-. }
    assert (forall q, q <> cur -> q <> r -> w_threads w' !! q = w_threads w !! q) as Hoth.
    { intros q ? ?. rewrite (sw_others _ _ _ _ _ _ _ Hsw) by done. simpl. by rewrite lookup_insert_ne. }
    clear Hs Hsw. split; [constructor; [exact Hok'| |exact Hsl']|].
    + intros q x Hq. rewrite Hc'. destruct (decide (q = r)) as [->|Hqr].
      { rewrite Hnext. intros [= <-]. split; [done|]. simpl. by apply (Hst r t). }
      destruct (decide (q = cur)) as [->|Hqc]; [rewrite Hcur|rewrite Hoth by done].
      * intros [= <-]. split; [done|]. simpl. by apply (Hst cur ct (so_current _ _ _ _ Hok)).
      * intros Hx. destruct (Hst q x Hq Hx) as [Hs ?]. by rewrite decide_False in Hs.
    + split; [|by split]. intros q Hq. unfold vrt. destruct (decide (q = r)) as [->|Hqr]; [by rewrite Hnext, Ht|].
      destruct (decide (q = cur)) as [->|Hqc]; [by rewrite Hcur, Hct|by rewrite Hoth].
Qed.

Lemma period_ok w c ps p rsp :
  all_runnable w c ps -> p ∈ ps -> p <> current_thread c -> vrt w (current_thread c) < 2 ^ 64 - 1 ->
  exists w' c', period rsp w = Ok w' /\ all_runnable w' c' ps /\
    (forall q, q ∈ ps -> vrt w' q = vrt w q + (if decide (q = current_thread c) then 1 else 0)) /\
    vrt w' (current_thread c') <= vrt w' p.
Proof.
  intros Har Hp Hpc Hmax. destruct (charge_ok w c ps Har Hmax) as (w1 & Hu & Har1 & Hv).
  destruct (turn_ok w1 c ps p rsp Har1 Hp Hpc) as (out & w2 & c2 & Hs & Har2 & Hv2 & Hc2 & Hle).
  exists w2, c2. split; [|split_and!; [exact Har2| |by rewrite !Hv2]].
  - unfold period. rewrite Hu. mred. unfold update_sleeping_queue, get_cpu_task_list.
    rewrite (so_cpu _ _ _ _ (ar_ok _ _ _ Har1)). mred.
    destruct (ar_sleep _ _ _ Har1) as [_ (h & -> & _) _ _ _]. mred. cbn [count length].
    change (Z.of_nat 0 =? 0) with true. cbv iota. mred. rewrite Hs. reflexivity.
  - intros q Hq. by rewrite Hv2, Hv.
Qed.

(** A tick never moves [p] further ahead, and brings it closer when the thread
    charged was not ahead of it. *)
Lemma lag_step w w' ps p cur :
  (forall q, q ∈ ps -> vrt w' q = vrt w q + (if decide (q = cur) then 1 else 0)) -> p ∈ ps -> p <> cur ->
  (lag w' ps p <= lag w ps p)%nat /\
  (cur ∈ ps -> vrt w cur <= vrt w p -> (lag w' ps p < lag w ps p)%nat).
Proof.
  intros Hv Hp Hne. unfold lag. assert (vrt w' p = vrt w p) as -> by (rewrite Hv, decide_False by done; lia).
  clear Hp. induction ps as [|q ps IH]; [split; [done|set_solver]|]. cbn [sum_list_with].
  destruct IH as [IH1 IH2]; [intros x Hx; apply Hv; by right|].
  rewrite (Hv q) by (by left). destruct (decide (q = cur)) as [->|Hq]. 
  - split; [lia|]. intros _ Hle. lia.
  - split; [lia|]. intros [->|Hc]%elem_of_cons Hle; [done|]. specialize (IH2 Hc Hle). lia.
Qed.

(** Once the running thread is not ahead of [p], [p] runs within [lag] periods. *)
Lemma runs_within n w c ps p rsps :
  all_runnable w c ps -> p ∈ ps -> vrt w (current_thread c) <= vrt w p -> vrt w p < 2 ^ 64 - 1 ->
  (lag w ps p <= n)%nat ->
  exists k w' c', (k <= n)%nat /\ periods k rsps w = Ok w' /\ all_runnable w' c' ps /\ current_thread c' = p.
Proof.
  revert w c rsps. induction n as [|n IH]; intros w c rsps Har Hp Hle Hmax Hlag;
    (destruct (decide (p = current_thread c)) as [->|Hpc]; [exists 0%nat, w, c; split_and!; [lia|done..]|]);
    pose proof (so_current _ _ _ _ (ar_ok _ _ _ Har)) as Hcur;
    destruct (period_ok w c ps p (rsps 0%nat) Har Hp Hpc ltac:(lia)) as (w1 & c1 & Hs & Har1 & Hv & Hle1);
    destruct (lag_step w w1 ps p _ Hv Hp Hpc) as [_ Hlt]; specialize (Hlt Hcur Hle); [lia|].
  assert (vrt w1 p = vrt w p) as Hvp by (rewrite Hv, decide_False by done; lia).
  destruct (IH w1 c1 (fun i => rsps (S i)) Har1 Hp Hle1 ltac:(lia) ltac:(lia)) as (k & w' & c' & ? & Hk & ? & ?).
  exists (S k), w', c'. split_and!; [lia| |done..]. simpl. by rewrite Hs.
Qed.
End Schedule.

(** ** Theorems *)

(** C3: with the scheduler's invariant, [schedule] returns; it stores the stack
    pointer of the interrupted thread; it picks the ready thread with the least
    virtual runtime, the first of them in the list; when that is another thread
    it returns that thread's stack pointer, marks the two threads, makes it
    current, points the task state segment and the per-processor data at its
    kernel stack, gives its address space the kernel half of the old one and
    loads it if it differs; when no thread is ready it returns to the caller;
    and the invariant holds again. *)
Theorem schedule_correct {A} `{Allocator A} me (w : world A) c ps ct old from :
  sched_ok me w c ps -> from <> 1 -> w_threads w !! current_thread c = Some ct ->
  let w0 := set_thread w (current_thread c) (th_set_k_rsp ct old) in
  exists r out w' c', fairest w ps r /\ schedule me old from w = Ok (out, w') /\ sched_ok me w' c' ps /\
    if r =? 0 then out = old /\ w' = w0
    else if r =? current_thread c then out = old /\ w' = set_thread w0 r (th_set_state (th_set_k_rsp ct old) STATE_RUNNING)
    else (exists t, w_threads w !! r = Some t /\ out = k_rsp t) /\ current_thread c' = r /\
      switched me w0 w' c ps (current_thread c) r.
Proof.
  intros Hok Hfrom Hct w0. destruct (schedule_ok me w c ps ct old from Hok Hfrom Hct) as (r & Hf & Hcase).
  pose proof (save_rsp_ok me w c ps (current_thread c) ct old Hok Hct) as [Hok0 _]. fold w0 in Hok0, Hcase.
  destruct (so_threads _ _ _ _ Hok _ (so_current _ _ _ _ Hok)) as [Hc0 _].
  exists r. destruct Hcase as [[-> Hs]|[[-> Hs]|(Hr & Hrc & t & w' & Ht & Hs & Hsw)]].
  - exists old, w0, c. done.
  - eexists old, _, c. split; [exact Hf|]. split; [exact Hs|].
    rewrite (proj2 (Z.eqb_neq _ 0) Hc0), Z.eqb_refl. split; [|done].
    apply (sched_ok_step me w0 _ c c ps Hok0); try done; try apply Hok0. intros q x Hq Hx. simpl.
    destruct (decide (q = current_thread c)) as [->|Hqc].
    + rewrite lookup_insert_eq. simpl in Hx. rewrite lookup_insert_eq in Hx. injection Hx as <-.
      eexists. split; [reflexivity|]. simpl. split_and!; auto.
    + rewrite lookup_insert_ne by done. exists x. split_and!; try done. by apply (so_running _ _ _ _ Hok0).
  - destruct (sw_ok _ _ _ _ _ _ _ Hsw) as (c' & Hok' & Hc' & _).
    exists (k_rsp t), w', c'. split; [exact Hf|]. split; [exact Hs|]. split; [exact Hok'|].
    destruct (so_threads _ _ _ _ Hok r Hr) as [Hr0 _].
    rewrite (proj2 (Z.eqb_neq _ 0) Hr0), (proj2 (Z.eqb_neq _ _) Hrc).
    split; [exists t; split; [exact Ht|reflexivity]|]. split; [exact Hc'|exact Hsw].
Qed.

Lemma schedule_correct_witness :
  exists out w' c', schedule 0 12345 0 (sample_world false) = Ok (out, w') /\ sched_ok 0 w' c' sample_threads.
Proof.
  destruct (schedule_correct 0 (sample_world false) sample_cpu_list sample_threads
    sample_main 12345 0 (sample_sched_ok false) ltac:(lia) eq_refl)
    as (r & out & w' & c' & _ & Hs & Hok & _).
  exists out, w', c'. split; assumption.
Defined.


Lemma sample_runnable : all_runnable 0 (sample_world false) sample_cpu_list sample_threads.
Proof.
  constructor; [apply sample_sched_ok| |apply sample_queue].
  intros p t Hp. unfold sample_threads in Hp. set_unfold.
  destruct Hp as [->|[->|[->|[]]]]; intros [= <-]; done.
Qed.

