(* ===== verification/SchedSleep.v ===== *)
(** * The sleep queue (src/kernel/multitasking/scheduler.c)

    [kusleep] puts an entry in front of the queue whose delta is taken against
    the sum of the deltas already there, and each tick counts the front entry
    down.  A sleep in an empty queue is exact; one that is shorter than the sum
    wraps around and holds up the whole queue. *)

From S2P Require Import Prelude Sync Bitmap Pmm Paging Bytes Heap Alloc Klist Vfs Desc Sched.

Section Sleep.
Context {A : Type} `{Allocator A}.
Context (me : Z).
Implicit Types (w : world A).

(** [n] timer ticks, as far as sleepers are concerned. *)
Fixpoint sleep_rounds (n : nat) w : outcome (world A) :=
  match n with
  | O => Ok w
  | S n => w ← update_sleeping_queue me w; sleep_rounds n w
  end.

(** The queue holds the entries [xs]; the threads of the processor are [ps]. *)
Record sleep_ok w (c : cpu_task_list_t) (xs : list (Z * Z)) (ps : list Z) : Prop := {
  sl_cpu : arr_get (cpu_task_lists w) me = Ok c;
  sl_queue : is_list (w_k w) (sleeping_queue c) xs;
  sl_delta p : p ∈ xs.*2 -> is_Some (w_deltas w !! p);
  sl_threads : exists ys, is_list (w_k w) (thread_list c) ys /\ ys.*2 = ps;
  sl_thread p : p ∈ ps -> is_Some (w_threads w !! p);
  sl_current : current_thread c ∈ ps;
  sl_lists : sleeping_queue c <> thread_list c
}.

Definition delta_of w (p : Z) : Z := match w_deltas w !! p with Some e => delta e | None => 0 end.
Definition total_delta w (xs : list (Z * Z)) : Z := foldr (fun p t => delta_of w p + t) 0 xs.*2.

Lemma total_loop_ok w l xs seen rest total :
  is_list (w_k w) l xs -> xs.*2 = seen ++ rest -> (forall p, p ∈ seen ++ rest -> is_Some (w_deltas w !! p)) ->
  total_loop (length rest) (Z.of_nat (length seen)) l (u64 total) w
  = Ok (u64 (total + foldr (fun p t => delta_of w p + t) 0 rest)).
Proof.
  intros Hl. revert seen total. induction rest as [|p rest IH]; intros seen total Hxs Hp; simpl.
  { by rewrite Z.add_0_r. }
  rewrite (list_get_at_ok _ _ _ _ Hl) by lia. rewrite Hxs, Nat2Z.id, list_lookup_middle by done. mred. simpl.
  destruct (Hp p) as [e He]; [set_solver|]. rewrite He. mred. rewrite u64_add_l.
  replace (Z.of_nat (length seen) + 1) with (Z.of_nat (length (seen ++ [p]))) by (rewrite length_app; simpl; lia).
  rewrite IH; [|by rewrite <-app_assoc|intros q Hq; apply Hp; by rewrite <-app_assoc in Hq].
  do 2 f_equal. unfold delta_of at 2. rewrite He. lia.
Qed.

Lemma get_total_delta_ok w c xs ps :
  sleep_ok w c xs ps -> get_total_delta me w = Ok (u64 (total_delta w xs)).
Proof.
  intros [S1 S2 S3 _ _ _ _]. unfold get_total_delta, get_cpu_task_list. rewrite S1. mred.
  pose proof S2 as [_ (h & -> & _) _ _ _]. mred. cbn [count]. rewrite Nat2Z.id, <-(length_fmap snd).
  by apply (total_loop_ok w _ xs [] xs.*2 0).
Qed.

(** The front entry counts down; nothing else moves. *)
Lemma countdown w c p top xs ps e n :
  sleep_ok w c ((p, top) :: xs) ps -> w_deltas w !! top = Some e -> Z.of_nat n <= delta e ->
  sleep_rounds n w = Ok (with_deltas w (<[top := mk_delta (dq_tid e) (delta e - Z.of_nat n)]> (w_deltas w))).
Proof.
  revert w e. induction n as [|n IH]; intros w e Hs He Hn.
  - simpl. rewrite Z.sub_0_r. destruct e as [t d]. simpl. rewrite insert_id by done. by destruct w.
  - cbn [sleep_rounds]. destruct Hs as [S1 S2 S3 S4 S5 S6 S7]. unfold update_sleeping_queue, get_cpu_task_list.
    rewrite S1. mred. pose proof S2 as [_ (h & Hl & _) _ _ _]. rewrite Hl. mred. cbn [count].
    destruct (Z.eqb_spec (Z.of_nat (length ((p, top) :: xs))) 0); [simpl in *; lia|].
    assert (list_get_at (sleeping_queue c) 0 (w_k w) = Ok top) as -> by (by rewrite (list_get_at_ok _ _ _ 0 S2)).
    mred. rewrite He. mred.
    destruct (Z.eqb_spec (delta e) 0); [lia|]. mred.
    rewrite (IH _ (mk_delta (dq_tid e) (delta e - 1))); cbn [w_deltas with_deltas delta dq_tid].
    + replace (delta e - 1 - Z.of_nat n) with (delta e - Z.of_nat (S n)) by lia.
      unfold with_deltas. cbn. by rewrite insert_insert_eq.
    + constructor; try done. intros q Hq. simpl. destruct (decide (q = top)) as [->|].
      * rewrite lookup_insert_eq. by eexists.
      * rewrite lookup_insert_ne by done. by apply S3.
    + by rewrite lookup_insert_eq.
    + lia.
Qed.

(** What [kusleep] leaves before it yields: the current thread sleeps, and the
    new front entry is for it. *)
Record enqueued w w' (c : cpu_task_list_t) (xs : list (Z * Z)) (ps : list Z) (ms p top : Z) : Prop := {
  en_ok : sleep_ok w' c ((p, top) :: xs) ps;
  en_entry : exists t, w_threads w !! current_thread c = Some t /\
    w_threads w' = <[current_thread c := th_set_state t STATE_SLEEPING]> (w_threads w) /\
    w_deltas w' = <[top := mk_delta (tid t) (u64 (ms - total_delta w xs))]> (w_deltas w);
  en_live : top <> 0 /\ live (alloc (w_k w')) top /\ ~ top ∈ sleeping_queue c :: p :: xs.*1;
  en_fresh : p <> top /\ forall q, live (alloc (w_k w')) q <-> q = p \/ q = top \/ live (alloc (w_k w)) q;
  en_new : ~ live (alloc (w_k w)) p /\ ~ live (alloc (w_k w)) top;
  en_lists l zs : l <> sleeping_queue c -> is_list (w_k w) l zs -> is_list (w_k w') l zs;
  en_world : w' = with_deltas (with_k (with_threads w (w_threads w')) (w_k w')) (w_deltas w')
}.

Lemma sleep_enqueue_ok w c xs ps ms :
  sleep_ok w c xs ps -> Z.of_nat (length xs) + 1 < 2 ^ 64 ->
  match sleep_enqueue me ms w with
  | Ok w' => exists p top, enqueued w w' c xs ps ms p top
  | Halt => True
  | _ => False
  end.
Proof.
  intros Hs Hlen. pose proof Hs as [S1 S2 S3 (ys & S4 & S4') S5 S6 S7].
  destruct (S5 _ S6) as [t Ht]. unfold sleep_enqueue, get_cpu_task_list. rewrite S1. mred.
  unfold update_thread, thread_at. rewrite Ht. mred. set (w1 := set_thread w _ _). unfold on_alloc.
  pose proof (a_kmalloc_ok sizeof_delta (alloc (w_k w1)) (il_inv _ _ _ S2) ltac:(unfold sizeof_delta; lia)) as Hk.
  destruct (a_kmalloc sizeof_delta (alloc (w_k w1))) as [[top a]| | |]; mred; try done.
  destruct Hk as (Hi & Htop & Hfresh & Hlive). rewrite (proj2 (Z.eqb_neq _ _) Htop).
  set (w2 := with_k w1 _).
  assert (forall l zs, is_list (w_k w) l zs -> is_list (w_k w2) l zs) as Hframe.
  { intros l zs Hl. apply (is_list_frame (w_k w)); try done. intros q Hq. apply Hlive. by right. }
  assert (sleep_ok w2 c xs ps) as Hs2.
  { constructor; try done; [by apply Hframe|exists ys; split; [by apply Hframe|done]|].
    intros p Hp. simpl. destruct (decide (p = current_thread c)) as [->|]; [rewrite lookup_insert_eq; by eexists|].
    rewrite lookup_insert_ne by done. by apply S5. }
  rewrite (get_total_delta_ok w2 c xs ps Hs2). mred. simpl. rewrite lookup_insert_eq. mred. unfold on_lists. simpl.
  pose proof (list_push_ok _ _ _ top (sl_queue _ _ _ _ Hs2) ltac:(lia)) as Hpush. unfold w2 in Hpush. simpl in Hpush.
  destruct (list_push (sleeping_queue c) top _) as [k'| | |]; mred; try done.
  destruct Hpush as (p & Hq & Hpu). exists p, top.
  assert (forall l zs, l <> sleeping_queue c -> is_list (w_k w) l zs -> is_list k' l zs) as Hth.
  { intros l zs Hne Hl. apply (pushed_keeps _ _ _ _ _ _ _ Hpu); [done|by apply (Hframe _ _ Hl)]. }
  assert (~ live (alloc (w_k w)) p) as Hpn by (intros Hp; apply (pu_fresh _ _ _ _ _ Hpu), Hlive; by right).
  assert (p <> top) as Hpt by (intros ->; apply (pu_fresh _ _ _ _ _ Hpu), Hlive; by left).
  assert (forall q, live (alloc k') q <-> q = p \/ q = top \/ live (alloc (w_k w)) q) as Hlv.
  { intros q. rewrite (pu_live _ _ _ _ _ Hpu). cbn [alloc]. by rewrite Hlive. }
  constructor.
  - constructor; try done.
    + intros q Hq'. simpl. destruct (decide (q = top)) as [->|]; [rewrite lookup_insert_eq; by eexists|].
      rewrite lookup_insert_ne by done. apply S3. simpl in Hq'. set_solver.
    + exists ys. split; [|done]. by apply Hth; [apply not_eq_sym|].
    + apply Hs2.
  - exists t. split_and!; [done|done|]. simpl. by rewrite u64_sub_r.
  - split; [done|]. simpl. split; [apply Hlv; auto|].
    intros [->|[->|Hin]%elem_of_cons]%elem_of_cons; [apply Hfresh, (il_live _ _ _ S2); by left|done|].
    apply Hfresh, (il_live _ _ _ S2). by right.
  - by split.
  - by split.
  - exact Hth.
  - by destruct w.
Qed.

Lemma wake_loop_ok l xs rest t seen w :
  is_list (w_k w) l xs -> xs.*2 = seen ++ rest -> (forall p, p ∈ seen ++ rest -> is_Some (w_threads w !! p)) ->
  exists m, wake_loop (length rest) (Z.of_nat (length seen)) l t w = Ok (with_threads w m) /\
    forall p x, w_threads w !! p = Some x ->
      m !! p = Some (if (tid x =? t) && bool_decide (p ∈ rest) then th_set_state x STATE_READY else x).
Proof.
  intros Hl. revert seen w Hl. induction rest as [|q rest IH]; intros seen w Hl Hxs Hp; simpl.
  { exists (w_threads w). split; [by destruct w|]. intros p x ->. by rewrite andb_false_r. }
  rewrite (list_get_at_ok _ _ _ _ Hl) by lia. rewrite Hxs, Nat2Z.id, list_lookup_middle by done. mred. simpl.
  destruct (Hp q) as [x Hx]; [set_solver|]. unfold thread_at. rewrite Hx. mred.
  replace (Z.of_nat (length seen) + 1) with (Z.of_nat (length (seen ++ [q]))) by (rewrite length_app; simpl; lia).
  set (w1 := if tid x =? t then _ else w).
  assert (w1 = with_threads w (w_threads w1) /\ forall p y, w_threads w !! p = Some y ->
    w_threads w1 !! p = Some (if (tid y =? t) && bool_decide (p = q) then th_set_state y STATE_READY else y)) as [Hw1 Hth].
  { unfold w1. destruct (tid x =? t) eqn:Hxt; (split; [by destruct w|]); intros p y Hy.
    - simpl. destruct (decide (p = q)) as [->|Hpq].
      + rewrite lookup_insert_eq. rewrite Hx in Hy. injection Hy as <-. by rewrite Hxt, bool_decide_true.
      + rewrite lookup_insert_ne by done. by rewrite bool_decide_false, andb_false_r.
    - rewrite Hy. destruct (decide (p = q)) as [->|Hpq]; [rewrite Hx in Hy; injection Hy as <-; by rewrite Hxt|].
      by rewrite bool_decide_false, andb_false_r. }
  destruct (IH (seen ++ [q]) w1) as (m & Hm & Hmm).
  - rewrite Hw1. done.
  - by rewrite <-app_assoc.
  - intros p Hin. rewrite <-app_assoc in Hin. destruct (Hp p Hin) as [y Hy]. rewrite (Hth p y Hy). by eexists.
  - exists m. split; [rewrite Hm, Hw1; by destruct w|]. intros p y Hy. rewrite (Hmm p _ (Hth p y Hy)). f_equal.
    destruct (tid y =? t) eqn:Hyt; simpl; [|by rewrite Hyt].
    destruct (decide (p = q)) as [->|Hpq].
    + rewrite (bool_decide_true (q = q)), (bool_decide_true (q ∈ q :: rest)) by (done || by left). simpl. rewrite Hyt.
      by destruct (bool_decide (q ∈ rest)).
    + rewrite (bool_decide_false (p = q)) by done. rewrite Hyt. simpl.
      rewrite (bool_decide_ext (p ∈ q :: rest) (p ∈ rest)); [done|]. set_solver.
Qed.

Lemma sleep_rounds_S n w : sleep_rounds (S n) w = w ← sleep_rounds n w; update_sleeping_queue me w.
Proof.
  revert w. induction n as [|n IH]; intros w; [simpl; by destruct (update_sleeping_queue me w)|].
  change (sleep_rounds (S (S n)) w) with (update_sleeping_queue me w ≫= sleep_rounds (S n)).
  change (sleep_rounds (S n) w) with (update_sleeping_queue me w ≫= sleep_rounds n).
  destruct (update_sleeping_queue me w); [apply IH|done..].
Qed.

(** The front entry is due: its thread is made ready, the entry is dropped. *)
Lemma wake_ok w c p top xs ps t ys :
  sleep_ok w c ((p, top) :: xs) ps -> w_deltas w !! top = Some (mk_delta t 0) ->
  top <> 0 -> live (alloc (w_k w)) top -> ~ (top ∈ sleeping_queue c :: p :: xs.*1) ->
  is_list (w_k w) (thread_list c) ys -> ys.*2 = ps ->
  exists k m, update_sleeping_queue me w = Ok (with_deltas (with_k (with_threads w m) k) (delete top (w_deltas w))) /\
    is_list k (sleeping_queue c) xs /\ popped (w_k w) k (sleeping_queue c) p top /\
    forall q x, q ∈ ps -> w_threads w !! q = Some x ->
      m !! q = Some (if tid x =? t then th_set_state x STATE_READY else x).
Proof.
  intros [S1 S2 S3 S4 S5 S6 S7] He Ht0 Htl Htq Hys Hps.
  unfold update_sleeping_queue, get_cpu_task_list. rewrite S1. mred.
  pose proof S2 as [_ (h & Hl & _) _ _ _]. rewrite Hl. mred. cbn [count].
  destruct (Z.eqb_spec (Z.of_nat (length ((p, top) :: xs))) 0); [simpl in *; lia|].
  assert (list_get_at (sleeping_queue c) 0 (w_k w) = Ok top) as -> by (by rewrite (list_get_at_ok _ _ _ 0 S2)).
  mred. rewrite He. mred. cbn [delta dq_tid]. rewrite Z.eqb_refl.
  pose proof Hys as [_ (h2 & Hl2 & _) _ _ _]. rewrite Hl2. mred. cbn [count]. rewrite Nat2Z.id.
  destruct (wake_loop_ok (thread_list c) ys ps t [] w Hys Hps S5) as (m & Hm & Hmm).
  rewrite <-(length_fmap snd ys), Hps. change (Z.of_nat (length [])) with 0 in Hm. rewrite Hm. mred. unfold on_lists. simpl w_k.
  destruct (list_pop_ok _ _ _ _ _ S2 Ht0 Htl Htq) as (k & -> & Hq & Hpop). mred.
  exists k, m. split_and!; [reflexivity|done|done|].
  intros q x Hq' Hx. rewrite (Hmm q x Hx), bool_decide_true by done. by rewrite andb_true_r.
Qed.

(** A list apart from the node and the entry popped is untouched. *)
Lemma popped_keeps (s s' : kstate A) l p d l' zs :
  popped s s' l p d -> l' <> l -> ~ (p ∈ l' :: zs.*1) -> ~ (d ∈ l' :: zs.*1) -> is_list s l' zs -> is_list s' l' zs.
Proof.
  intros [P1 P2 P3 P4] Hl Hp Hd Hz. apply (is_list_kept s); try done.
  - apply P3; [done|intros ->; apply Hd; by left|intros ->; apply Hp; by left].
  - intros q Hq. apply P4; intros ->; [apply Hd|apply Hp]; by right.
  - intros q Hq Hlq. apply P2. split_and!; [done|..]; intros ->; [by apply Hd|by apply Hp].
Qed.
End Sleep.

(** ** Theorems *)


Lemma sample_sleep_ok sleeper :
  sleep_ok 0 (sample_world sleeper) sample_cpu_list (if sleeper then [(201, 301)] else []) sample_threads.
Proof.
  constructor; try done.
  - apply sample_queue.
  - intros p Hp. destruct sleeper; simpl in Hp; set_unfold; [|done]. destruct Hp as [->|[]]. by eexists.
  - eexists. split; [apply sample_thread_list|done].
  - intros p Hp. unfold sample_threads in Hp. set_unfold. destruct Hp as [->|[->|[->|[]]]]; by eexists.
  - unfold sample_threads. set_solver.
Qed.


(** C38: a sleep shorter than the sum of the sleeps under way stalls the queue:
    the delta of its entry wraps around, and for the next [2^63] ticks no thread
    is woken, neither the caller nor any earlier sleeper. *)
Theorem short_sleep_stalls_queue {A} `{Allocator A} me (w : world A) c xs ps ms n :
  sleep_ok me w c xs ps -> 0 <= ms < total_delta w xs -> total_delta w xs < 2 ^ 63 ->
  Z.of_nat (length xs) + 1 < 2 ^ 64 -> Z.of_nat n <= 2 ^ 63 ->
  match sleep_enqueue me ms w with
  | Ok w1 => exists w2, sleep_rounds me n w1 = Ok w2 /\ w_threads w2 = w_threads w1
  | Halt => True
  | _ => False
  end.
Proof.
  intros Hs Hms Ht Hlen Hn. pose proof (sleep_enqueue_ok me w c xs ps ms Hs Hlen) as He.
  destruct (sleep_enqueue me ms w) as [w1| | |]; try done.
  destruct He as (p & top & [Hs1 (t & _ & _ & Hd) _ _ _ _ _]).
  rewrite (countdown me w1 c p top xs ps (mk_delta (tid t) (u64 (ms - total_delta w xs))) n Hs1).
  - by eexists.
  - by rewrite Hd, lookup_insert_eq.
  - cbn [delta]. unfold u64. rewrite <-(Z.mod_add _ 1) by lia. rewrite Z.mod_small by lia. lia.
Qed.

Lemma short_sleep_stalls_queue_witness :
  match sleep_enqueue 0 20 (sample_world true) with
  | Ok w1 => exists w2, sleep_rounds 0 5 w1 = Ok w2 /\ w_threads w2 = w_threads w1
  | Halt => True
  | _ => False
  end.
Proof.
  apply (short_sleep_stalls_queue 0 (sample_world true) sample_cpu_list [(201, 301)] sample_threads 20 5
    (sample_sleep_ok true)); vm_compute; (reflexivity || (split; [discriminate|reflexivity]) || discriminate).
Defined.
