(* ===== verification/SchedInv.v ===== *)
(** * The invariant of the threads (src/kernel/multitasking/)

    What holds of the threads and processes of a processor between any two
    operations: who runs, who sleeps and has an entry in the sleep queue, who
    waits and for what, which process belongs to which thread, and which blocks
    of memory all of them are.  Each operation of the scheduler keeps it. *)

From S2P Require Import Prelude Sync Bitmap Pmm Paging Bytes Heap Alloc Klist Vfs Desc Sched SchedFair SchedSleep.

(** ** States of threads and processes

    [cur] is the current thread; [ps] and [qs] are the threads and the processes
    of the processor; [tids] the thread numbers in the sleep queue; [nt] the next
    thread number. *)

Record thread_ok (prs : gmap Z process_t) (cur : Z) (qs tids : list Z) (p : Z) (t : thread_t) : Prop := {
  to_running : state t = STATE_RUNNING -> p = cur;
  to_channel : block_channel t <> 0 -> state t = STATE_WAITING;
  to_sleep : state t = STATE_SLEEPING <-> tid t ∈ tids;
  to_process : process t ∈ qs;
  to_owner : exists x, prs !! process t = Some x /\ (name t <> IDLE_THREAD -> primary x = p) /\
    (state t = STATE_WAITING -> block_channel t = 0 -> is_waiting x = true);
  to_idle : name t = IDLE_THREAD -> state t = STATE_READY \/ state t = STATE_RUNNING
}.

Record process_ok (ths : gmap Z thread_t) (ps qs : list Z) (q : Z) (x : process_t) : Prop := {
  po_primary : primary x ∈ ps;
  po_thread : exists t, ths !! primary x = Some t /\ process t = q /\
    (is_waiting x = true -> state t = STATE_WAITING /\ block_channel t = 0);
  po_parent : p_parent x = 0 \/ p_parent x ∈ qs
}.

Record threads_ok (ths : gmap Z thread_t) (prs : gmap Z process_t) (cur : Z) (ps qs tids : list Z) (nt : Z) : Prop := {
  th_all p : p ∈ ps -> exists t, ths !! p = Some t /\ thread_ok prs cur qs tids p t;
  th_procs q : q ∈ qs -> exists x, prs !! q = Some x /\ process_ok ths ps qs q x;
  th_current : cur ∈ ps;
  th_idle : exists i t, i ∈ ps /\ ths !! i = Some t /\ name t = IDLE_THREAD;
  th_tids p p' t t' : p ∈ ps -> p' ∈ ps -> ths !! p = Some t -> ths !! p' = Some t' -> tid t = tid t' -> p = p';
  th_nodup : NoDup tids;
  th_bound p t : p ∈ ps -> ths !! p = Some t -> tid t < nt;
  th_entry n : n ∈ tids -> n < nt
}.

(** What an update leaves of a thread. *)
Definition same_thread (t t' : thread_t) : Prop := tid t' = tid t /\ name t' = name t /\ process t' = process t.

Ltac states := unfold STATE_NEW, STATE_READY, STATE_RUNNING, STATE_WAITING, STATE_DEAD, STATE_SLEEPING in *.

Section Threads.
Implicit Types (ths : gmap Z thread_t) (prs : gmap Z process_t) (ps qs tids : list Z).

(** A thread that neither sleeps nor waits goes to another such state. *)
Lemma thread_ok_state prs cur cur' qs tids p t v :
  thread_ok prs cur qs tids p t -> state t <> STATE_SLEEPING -> state t <> STATE_WAITING ->
  v <> STATE_SLEEPING -> v <> STATE_WAITING -> (v = STATE_RUNNING -> p = cur') ->
  (name t = IDLE_THREAD -> v = STATE_READY \/ v = STATE_RUNNING) ->
  thread_ok prs cur' qs tids p (th_set_state t v).
Proof.
  intros [O1 O2 [O3 O3'] O4 (x & Hx & O5 & _) O6] Hs Hw Hvs Hvw Hrun Hidle. constructor; simpl; try done.
  - by intros Hch%O2.
  - split; [done|]. by intros Hin%O3'.
  - by exists x.
Qed.

(** Threads and processes keep who they are, each new state is sound, and no
    process waits without its thread waiting. *)
Lemma threads_ok_change ths ths' prs prs' cur cur' ps qs tids tids' nt :
  threads_ok ths prs cur ps qs tids nt -> cur' ∈ ps -> NoDup tids' -> (forall n, n ∈ tids' -> n < nt) ->
  (forall p t, p ∈ ps -> ths !! p = Some t -> thread_ok prs cur qs tids p t ->
     exists t', ths' !! p = Some t' /\ same_thread t t' /\ thread_ok prs' cur' qs tids' p t') ->
  (forall q x t t', q ∈ qs -> prs !! q = Some x -> process_ok ths ps qs q x -> ths !! primary x = Some t ->
     ths' !! primary x = Some t' ->
     exists x', prs' !! q = Some x' /\ primary x' = primary x /\ (p_parent x' = p_parent x \/ p_parent x' ∈ qs) /\
       (is_waiting x' = true -> state t' = STATE_WAITING /\ block_channel t' = 0)) ->
  threads_ok ths' prs' cur' ps qs tids' nt.
Proof.
  intros [T1 T2 T3 (i & ti & Hi & Hti & Hni) T5 T6 T7 T8] Hcur Hnd Hte Hth Hpr.
  assert (forall p t, p ∈ ps -> ths !! p = Some t -> exists t', ths' !! p = Some t' /\ same_thread t t' /\
    thread_ok prs' cur' qs tids' p t') as Hth'.
  { intros p t Hp Ht. destruct (T1 p Hp) as (t0 & Ht0 & Hok). rewrite Ht in Ht0. injection Ht0 as <-. by apply (Hth p t). }
  constructor; try done.
  - intros p Hp. destruct (T1 p Hp) as (t & Ht & _). destruct (Hth' p t Hp Ht) as (t' & Ht' & _ & Hok). by exists t'.
  - intros q Hq. destruct (T2 q Hq) as (x & Hx & Hpo). pose proof Hpo as [P1 (t & Ht & Htq & _) P3].
    destruct (Hth' _ t P1 Ht) as (t' & Ht' & (_ & _ & Hpt) & _).
    destruct (Hpr q x t t' Hq Hx Hpo Ht Ht') as (x' & Hx' & Hp' & Hpar & Hw). exists x'. split; [done|].
    constructor; rewrite ?Hp'; [done|exists t'; by rewrite Hpt|]. destruct Hpar as [->|]; [done|by right].
  - destruct (Hth' i ti Hi Hti) as (t' & Ht' & (_ & Hn & _) & _). exists i, t'. by rewrite Hn.
  - intros p p' t1 t1' Hp Hp' H1 H1' Htid. destruct (T1 p Hp) as (t & Ht & _). destruct (T1 p' Hp') as (t' & Ht' & _).
    destruct (Hth' p t Hp Ht) as (u & Hu & (Hid & _ & _) & _), (Hth' p' t' Hp' Ht') as (u' & Hu' & (Hid' & _ & _) & _).
    apply (T5 p p' t t'); try done. congruence.
  - intros p t' Hp Ht'. destruct (T1 p Hp) as (t & Ht & _). destruct (Hth' p t Hp Ht) as (u & Hu & (Hid & _ & _) & _).
    rewrite Ht' in Hu. injection Hu as <-. rewrite Hid. by apply (T7 p).
Qed.

(** Only threads change. *)
Lemma threads_ok_threads ths ths' prs cur cur' ps qs tids tids' nt :
  threads_ok ths prs cur ps qs tids nt -> cur' ∈ ps -> NoDup tids' -> (forall n, n ∈ tids' -> n < nt) ->
  (forall p t, p ∈ ps -> ths !! p = Some t -> thread_ok prs cur qs tids p t ->
     exists t', ths' !! p = Some t' /\ same_thread t t' /\ thread_ok prs cur' qs tids' p t' /\
       (state t = STATE_WAITING -> block_channel t = 0 -> state t' = STATE_WAITING /\ block_channel t' = 0)) ->
  threads_ok ths' prs cur' ps qs tids' nt.
Proof.
  intros Hok Hcur Hnd Hte Hth. apply (threads_ok_change ths ths' prs prs cur cur' ps qs tids tids' nt Hok Hcur Hnd Hte).
  - intros p t Hp Ht Hto. destruct (Hth p t Hp Ht Hto) as (t' & ? & ? & ? & _). by exists t'.
  - intros q x t t' Hq Hx [P1 (u & Hu & Huq & Hw) P3] Ht Ht'. exists x. split_and!; try done; [by left|].
    intros Hwait. rewrite Ht in Hu. injection Hu as <-. destruct (Hw Hwait) as [? ?].
    destruct (th_all _ _ _ _ _ _ _ Hok _ P1) as (v & Hv & Hvo). rewrite Ht in Hv. injection Hv as <-.
    destruct (Hth _ t P1 Ht Hvo) as (u' & Hu' & _ & _ & Hkeep). rewrite Ht' in Hu'. injection Hu' as <-. by apply Hkeep.
Qed.

(** One thread changes. *)
Lemma threads_ok_set ths prs cur ps qs tids tids' nt p t t' :
  threads_ok ths prs cur ps qs tids nt -> ths !! p = Some t -> same_thread t t' -> NoDup tids' ->
  (thread_ok prs cur qs tids p t -> thread_ok prs cur qs tids' p t') ->
  (state t = STATE_WAITING -> block_channel t = 0 -> state t' = STATE_WAITING /\ block_channel t' = 0) ->
  (forall i, i <> tid t -> i ∈ tids <-> i ∈ tids') ->
  p ∈ ps -> threads_ok (<[p := t']> ths) prs cur ps qs tids' nt.
Proof.
  intros Hok Ht Hsame Hnd Hto Hkeep Htids Hp.
  apply (threads_ok_threads ths _ prs cur cur ps qs tids tids' nt Hok (th_current _ _ _ _ _ _ _ Hok) Hnd).
  { intros n Hn. destruct (decide (n = tid t)) as [->|]; [by apply (th_bound _ _ _ _ _ _ _ Hok p)|].
    by apply (th_entry _ _ _ _ _ _ _ Hok), Htids. }
  intros q x Hq Hx Hxo. destruct (decide (q = p)) as [->|Hne].
  - rewrite Ht in Hx. injection Hx as <-. exists t'. rewrite lookup_insert_eq. auto.
  - exists x. rewrite lookup_insert_ne by done. split_and!; try done. destruct Hxo as [O1 O2 O3 O4 O5 O6].
    constructor; try done. rewrite O3. apply Htids. intros Heq. apply Hne. by apply (th_tids _ _ _ _ _ _ _ Hok q p x t).
Qed.

(** The number the sleep queue's front entry names has been woken. *)
Lemma threads_ok_wake ths ths' prs cur ps qs tids nt n :
  threads_ok ths prs cur ps qs (n :: tids) nt ->
  (forall p t, p ∈ ps -> ths !! p = Some t -> ths' !! p = Some (if tid t =? n then th_set_state t STATE_READY else t)) ->
  threads_ok ths' prs cur ps qs tids nt.
Proof.
  intros Hok Hth. pose proof (th_nodup _ _ _ _ _ _ _ Hok) as [Hn Hnd]%NoDup_cons.
  apply (threads_ok_threads ths _ prs cur cur ps qs (n :: tids) tids nt Hok (th_current _ _ _ _ _ _ _ Hok) Hnd).
  { intros i Hi. apply (th_entry _ _ _ _ _ _ _ Hok). by right. }
  intros p t Hp Ht [O1 O2 O3 O4 O5 O6]. eexists. split; [by apply Hth|].
  destruct (Z.eqb_spec (tid t) n) as [Hid|Hid].
  - destruct O3 as [O3 O3']. assert (state t = STATE_SLEEPING) as Hs by (apply O3'; rewrite Hid; by left).
    split; [done|]. split; [|intros Hw; rewrite Hs in Hw; by states]. constructor; simpl; try done.
    + intros Hc%O2. rewrite Hs in Hc. by states.
    + rewrite Hid. by split.
    + destruct O5 as (x & ? & ? & _). by exists x.
    + intros _. by left.
  - split_and!; try done. constructor; try done. rewrite O3. set_solver.
Qed.

(** A new thread and its process. *)
Lemma threads_ok_spawn ths ths' prs prs' cur ps qs tids nt p q t x :
  threads_ok ths prs cur ps qs tids nt ->
  (forall a, a ∈ ps -> ths' !! a = ths !! a) -> (forall a, a ∈ qs -> prs' !! a = prs !! a) ->
  ths' !! p = Some t -> prs' !! q = Some x -> process t = q -> primary x = p -> p_parent x = 0 -> is_waiting x = false ->
  state t = STATE_READY -> block_channel t = 0 -> name t <> IDLE_THREAD ->
  tid t = nt ->
  threads_ok ths' prs' cur (p :: ps) (q :: qs) tids (nt + 1).
Proof.
  intros [T1 T2 T3 (i & ti & Hi & Hti & Hni) T5 T6 T7 T8] Hths Hprs Ht Hx Htq Hxp Hpar Hiw Hst Hch Hnm Hid.
  assert (forall a u, a ∈ ps -> ths !! a = Some u -> tid u <> tid t) as Hfresh.
  { intros a u Ha Hu. specialize (T7 a u Ha Hu). lia. }
  constructor; try done.
  - intros a [->|Ha]%elem_of_cons.
    + exists t. split; [done|]. constructor; rewrite ?Hst, ?Htq; try done; [|by left|by exists x].
      split; [done|]. intros Hin%T8. lia.
    + destruct (T1 a Ha) as (u & Hu & [O1 O2 O3 O4 (y & Hy & O5) O6]). exists u. rewrite Hths by done. split; [done|].
      constructor; try done; [by right|]. exists y. by rewrite Hprs.
  - intros a [->|Ha]%elem_of_cons.
    + exists x. split; [done|]. constructor; rewrite ?Hxp; [by left| |by left]. exists t. rewrite Hiw. by split_and!.
    + destruct (T2 a Ha) as (y & Hy & [P1 (u & Hu & P2) P3]). exists y. rewrite Hprs by done. split; [done|].
      constructor; [by right|exists u; by rewrite Hths|]. destruct P3; [by left|by right; right].
  - by right.
  - exists i, ti. split; [by right|]. by rewrite Hths.
  - intros a a' u u' [->|Ha]%elem_of_cons [->|Ha']%elem_of_cons Hu Hu' Heq; [done|..].
    + rewrite Ht in Hu. injection Hu as <-. rewrite Hths in Hu' by done. by destruct (Hfresh a' u' Ha' Hu').
    + rewrite Ht in Hu'. injection Hu' as <-. rewrite Hths in Hu by done. by destruct (Hfresh a u Ha Hu).
    + rewrite Hths in Hu, Hu' by done. by apply (T5 a a' u u').
  - intros a u [->|Ha]%elem_of_cons Hu; [rewrite Ht in Hu; injection Hu as <-; lia|].
    rewrite Hths in Hu by done. specialize (T7 a u Ha Hu). lia.
  - intros n Hn%T8. lia.
Qed.
End Threads.

(** ** The state of a processor *)

(** The blocks the lists of processor [c] are made of: the lists, their nodes,
    the threads, the sleep entries and the processes. *)
Definition owned (c : cpu_task_list_t) (ys xs zs : list (Z * Z)) : list Z :=
  thread_list c :: sleeping_queue c :: process_list c :: (ys.*1 ++ ys.*2) ++ (xs.*1 ++ xs.*2) ++ (zs.*1 ++ zs.*2).

(** The thread number in the sleep entry at [p]. *)
Definition entry_tid (ds : gmap Z delta_queue_entry_t) (p : Z) : Z :=
  match ds !! p with Some e => dq_tid e | None => 0 end.

(** Threads [ys], sleep entries [xs] and processes [zs], each with its list node. *)
Record run_ok {A} `{Allocator A} (me : Z) (w : world A) (c : cpu_task_list_t) (ys xs zs : list (Z * Z)) : Prop := {
  ro_cpu : arr_get (cpu_task_lists w) me = Ok c;
  ro_data : exists d, arr_get (cpu_data_list w) me = Ok d;
  ro_gdt : exists g, arr_get (gdt_list (w_gdt w)) me = Ok g;
  ro_threads : is_list (w_k w) (thread_list c) ys;
  ro_queue : is_list (w_k w) (sleeping_queue c) xs;
  ro_procs : is_list (w_k w) (process_list c) zs;
  ro_blocks : NoDup (owned c ys xs zs);
  ro_live p : p ∈ owned c ys xs zs -> live (alloc (w_k w)) p;
  ro_delta p : p ∈ xs.*2 -> is_Some (w_deltas w !! p);
  ro_states : threads_ok (w_threads w) (w_procs w) (current_thread c) ys.*2 zs.*2 (entry_tid (w_deltas w) <$> xs.*2) (next_tid w);
  ro_next : 0 <= next_tid w <= Z.of_nat (length ys) + 2 ^ 62;
  ro_locks : locked (next_tid_lock w) = 0 /\ locked (next_pid_lock w) = 0
}.

Section Run.
Context {A : Type} `{Allocator A}.
Context (me : Z).
Implicit Types (w : world A) (c : cpu_task_list_t) (ys xs zs : list (Z * Z)).

Lemma owned_thread c n t ys xs zs : owned c ((n, t) :: ys) xs zs ≡ₚ n :: t :: owned c ys xs zs.
Proof. unfold owned. cbn. solve_Permutation. Qed.
Lemma owned_entry c n t ys xs zs : owned c ys ((n, t) :: xs) zs ≡ₚ n :: t :: owned c ys xs zs.
Proof. unfold owned. cbn. solve_Permutation. Qed.
Lemma owned_process c n t ys xs zs : owned c ys xs ((n, t) :: zs) ≡ₚ n :: t :: owned c ys xs zs.
Proof. unfold owned. cbn. solve_Permutation. Qed.

(** Distinct 64-bit addresses are fewer than [2^64]. *)
Lemma addresses_bound (l : list Z) :
  NoDup l -> (forall p, p ∈ l -> 0 < p < 18446744073709551616) -> Z.of_nat (length l) < 18446744073709551616.
Proof.
  intros Hnd Hl. assert (l ⊆+ seqZ 1 18446744073709551615) as Hs%submseteq_length.
  { apply NoDup_submseteq; [done|]. intros p Hp%Hl. apply elem_of_seqZ. lia. }
  rewrite length_seqZ in Hs. lia.
Qed.

Lemma run_ok_room w c ys xs zs :
  run_ok me w c ys xs zs ->
  Z.of_nat (length ys) + Z.of_nat (length xs) + Z.of_nat (length zs) + 1 < 9223372036854775808.
Proof.
  intros Hok. pose proof (addresses_bound _ (ro_blocks _ _ _ _ _ _ Hok)) as Hb.
  assert (length (owned c ys xs zs) = 3 + 2 * (length ys + length xs + length zs))%nat as Hlen
    by (unfold owned; simpl; rewrite !length_app, !length_fmap; lia).
  rewrite Hlen in Hb. enough (Z.of_nat (3 + 2 * (length ys + length xs + length zs)) < 18446744073709551616) by lia.
  apply Hb. intros p Hp%(ro_live _ _ _ _ _ _ Hok). by apply (live_range _ _ (il_inv _ _ _ (ro_threads _ _ _ _ _ _ Hok))).
Qed.

Lemma run_ok_nonzero w c ys xs zs p : run_ok me w c ys xs zs -> p ∈ owned c ys xs zs -> p <> 0.
Proof.
  intros Hok Hp%(ro_live _ _ _ _ _ _ Hok).
  apply (live_range _ _ (il_inv _ _ _ (ro_threads _ _ _ _ _ _ Hok))) in Hp. lia.
Qed.

(** The parts of [owned]. *)
Lemma elem_of_owned c ys xs zs p :
  p ∈ owned c ys xs zs <-> p ∈ thread_list c :: ys.*1 \/ p ∈ sleeping_queue c :: xs.*1 \/ p ∈ process_list c :: zs.*1 \/
    p ∈ ys.*2 \/ p ∈ xs.*2 \/ p ∈ zs.*2.
Proof. unfold owned. rewrite !elem_of_cons, !elem_of_app. tauto. Qed.

Lemma owned_threads c ys xs zs p : p ∈ ys.*2 -> p ∈ owned c ys xs zs.
Proof. rewrite elem_of_owned. tauto. Qed.
Lemma owned_procs c ys xs zs p : p ∈ zs.*2 -> p ∈ owned c ys xs zs.
Proof. rewrite elem_of_owned. tauto. Qed.

Lemma owned_distinct c ys xs zs :
  NoDup (owned c ys xs zs) ->
  thread_list c <> sleeping_queue c /\ process_list c <> sleeping_queue c /\ thread_list c <> process_list c.
Proof.
  unfold owned. rewrite !NoDup_cons, !elem_of_cons. intros (H1 & H2 & _). split_and!.
  - intros Heq. apply H1. by left.
  - intros Heq. apply H2. by left.
  - intros Heq. apply H1. right. by left.
Qed.

(** The invariant gives what the scheduler's and the sleep queue's theorems ask for. *)
Lemma run_ok_sched w c ys xs zs : run_ok me w c ys xs zs -> sched_ok me w c ys.*2.
Proof.
  intros Hok. pose proof Hok as [R1 R2 R3 R4 R5 R6 R7 R8 R9 [T1 T2 T3 T4 T5 T6 _ _] _ _]. constructor; try done.
  - by exists ys.
  - apply (run_ok_nonzero _ _ _ _ _ _ Hok). by left.
  - intros p Hp. split; [by apply (run_ok_nonzero _ _ _ _ _ _ Hok), owned_threads|].
    destruct (T1 p Hp) as (t & Ht & [_ _ _ O4 _ _]). exists t. split; [done|]. destruct (T2 _ O4) as (x & -> & _). by eexists.
  - intros p t Hp Ht Hs. destruct (T1 p Hp) as (u & Hu & [O1 _ _ _ _ _]). rewrite Ht in Hu. injection Hu as <-. auto.
  - destruct T4 as (i & t & Hi & Ht & Hn). exists i, t. split_and!; try done.
    destruct (T1 i Hi) as (u & Hu & [O1 _ _ _ _ O6]). rewrite Ht in Hu. injection Hu as <-.
    destruct (O6 Hn); [by left|right; auto].
Qed.

Lemma run_ok_sleep w c ys xs zs : run_ok me w c ys xs zs -> sleep_ok me w c xs ys.*2.
Proof.
  intros [R1 R2 R3 R4 R5 R6 R7 R8 R9 [T1 T2 T3 T4 T5 T6 _ _] _ _]. constructor; try done.
  - by exists ys.
  - intros p Hp. destruct (T1 p Hp) as (t & -> & _). by eexists.
  - apply owned_distinct in R7 as (? & _). by apply not_eq_sym.
Qed.

(** The threads and processes change, and which thread is current; the lists stay. *)
Lemma run_ok_states w w' c c' ys xs zs :
  run_ok me w c ys xs zs -> w_k w' = w_k w -> w_deltas w' = w_deltas w -> next_tid w' = next_tid w ->
  next_tid_lock w' = next_tid_lock w -> next_pid_lock w' = next_pid_lock w ->
  arr_get (cpu_task_lists w') me = Ok c' -> thread_list c' = thread_list c -> sleeping_queue c' = sleeping_queue c ->
  process_list c' = process_list c -> (exists d, arr_get (cpu_data_list w') me = Ok d) ->
  (exists g, arr_get (gdt_list (w_gdt w')) me = Ok g) ->
  threads_ok (w_threads w') (w_procs w') (current_thread c') ys.*2 zs.*2 (entry_tid (w_deltas w) <$> xs.*2) (next_tid w) ->
  run_ok me w' c' ys xs zs.
Proof.
  intros [R1 R2 R3 R4 R5 R6 R7 R8 R9 R10 R11 R12] Ek Ed En Et Ep Hc El Eq Epl Hd Hg Hth.
  assert (owned c' ys xs zs = owned c ys xs zs) as Ho by (unfold owned; congruence).
  constructor; rewrite ?Ek, ?Ed, ?En, ?Et, ?Ep, ?El, ?Eq, ?Epl, ?Ho; done.
Qed.

Corollary run_ok_maps w c ys xs zs ths prs :
  run_ok me w c ys xs zs ->
  threads_ok ths prs (current_thread c) ys.*2 zs.*2 (entry_tid (w_deltas w) <$> xs.*2) (next_tid w) ->
  run_ok me (with_procs (with_threads w ths) prs) c ys xs zs.
Proof. intros Hok Hth. apply (run_ok_states w _ c c ys xs zs Hok); try done; try apply Hok. Qed.

Corollary run_ok_threads w c ys xs zs ths :
  run_ok me w c ys xs zs ->
  threads_ok ths (w_procs w) (current_thread c) ys.*2 zs.*2 (entry_tid (w_deltas w) <$> xs.*2) (next_tid w) ->
  run_ok me (with_threads w ths) c ys xs zs.
Proof. intros Hok Hth. apply (run_ok_states w _ c c ys xs zs Hok); try done; try apply Hok. Qed.

(** ** What every operation does: the invariant stays, no thread is lost, none
    changes its identity, and the dead stay dead *)

Definition evolves w w' (ps : list Z) : Prop :=
  forall p t, p ∈ ps -> w_threads w !! p = Some t ->
    exists t', w_threads w' !! p = Some t' /\ same_thread t t' /\ (state t = STATE_DEAD -> state t' = STATE_DEAD).

Definition moves w ys w' : Prop :=
  exists c' ys' xs' zs', run_ok me w' c' ys' xs' zs' /\ (forall p, p ∈ ys.*2 -> p ∈ ys'.*2) /\ evolves w w' ys.*2.

Lemma evolves_refl w w' ps : w_threads w' = w_threads w -> evolves w w' ps.
Proof. intros Heq p t _ Ht. exists t. by rewrite Heq. Qed.

Lemma evolves_trans w w' w'' ps ps' :
  evolves w w' ps -> evolves w' w'' ps' -> (forall p, p ∈ ps -> p ∈ ps') -> evolves w w'' ps.
Proof.
  intros H1 H2 Hs p t Hp Ht. destruct (H1 p t Hp Ht) as (t' & Ht' & (? & ? & ?) & Hd).
  destruct (H2 p t' (Hs p Hp) Ht') as (u & Hu & (? & ? & ?) & Hd'). exists u. unfold same_thread.
  split_and!; try done; try congruence. auto.
Qed.

Lemma evolves_set w ps p t t' :
  w_threads w !! p = Some t -> same_thread t t' -> (state t = STATE_DEAD -> state t' = STATE_DEAD) ->
  evolves w (set_thread w p t') ps.
Proof.
  intros Ht Hs Hd q x Hq Hx. simpl. destruct (decide (q = p)) as [->|Hne].
  - rewrite lookup_insert_eq. rewrite Ht in Hx. injection Hx as <-. by exists t'.
  - rewrite lookup_insert_ne by done. by exists x.
Qed.

Lemma moves_refl w c ys xs zs : run_ok me w c ys xs zs -> moves w ys w.
Proof. intros Hok. exists c, ys, xs, zs. split_and!; try done. by apply evolves_refl. Qed.

Lemma moves_trans w ys w' w'' :
  moves w ys w' -> (forall c ys' xs zs, run_ok me w' c ys' xs zs -> moves w' ys' w'') -> moves w ys w''.
Proof.
  intros (c & ys' & xs & zs & Hok & Hs & He) Hm. destruct (Hm c ys' xs zs Hok) as (c2 & ys2 & xs2 & zs2 & Hok2 & Hs2 & He2).
  exists c2, ys2, xs2, zs2. split_and!; [done|auto|]. by apply (evolves_trans w w' w'' _ _ He He2).
Qed.

Lemma moves_after w ys w' w'' : evolves w w' ys.*2 -> moves w' ys w'' -> moves w ys w''.
Proof.
  intros He (c2 & ys2 & xs2 & zs2 & Hok2 & Hs2 & He2). exists c2, ys2, xs2, zs2. split_and!; [done|done|].
  by apply (evolves_trans w w' w'' _ _ He He2).
Qed.

Lemma run_ok_thread w c ys xs zs p :
  run_ok me w c ys xs zs -> p ∈ ys.*2 ->
  exists t, w_threads w !! p = Some t /\
    thread_ok (w_procs w) (current_thread c) zs.*2 (entry_tid (w_deltas w) <$> xs.*2) p t.
Proof. intros Hok. apply (th_all _ _ _ _ _ _ _ (ro_states _ _ _ _ _ _ Hok)). Qed.

Lemma run_ok_current w c ys xs zs :
  run_ok me w c ys xs zs ->
  exists t, w_threads w !! current_thread c = Some t /\ current_thread c ∈ ys.*2 /\
    thread_ok (w_procs w) (current_thread c) zs.*2 (entry_tid (w_deltas w) <$> xs.*2) (current_thread c) t.
Proof.
  intros Hok. pose proof (th_current _ _ _ _ _ _ _ (ro_states _ _ _ _ _ _ Hok)) as Hc.
  destruct (run_ok_thread _ _ _ _ _ _ Hok Hc) as (t & Ht & Hto). by exists t.
Qed.

(** One thread changes, the sleep queue does not. *)
Lemma set_ok w c ys xs zs p t t' :
  run_ok me w c ys xs zs -> p ∈ ys.*2 -> w_threads w !! p = Some t -> same_thread t t' ->
  (thread_ok (w_procs w) (current_thread c) zs.*2 (entry_tid (w_deltas w) <$> xs.*2) p t ->
   thread_ok (w_procs w) (current_thread c) zs.*2 (entry_tid (w_deltas w) <$> xs.*2) p t') ->
  (state t = STATE_WAITING -> block_channel t = 0 -> state t' = STATE_WAITING /\ block_channel t' = 0) ->
  (state t = STATE_DEAD -> state t' = STATE_DEAD) ->
  run_ok me (set_thread w p t') c ys xs zs /\ evolves w (set_thread w p t') ys.*2.
Proof.
  intros Hok Hp Ht Hs Hto Hw Hd. split; [|by apply (evolves_set w _ p t)].
  apply run_ok_threads; [done|].
  apply (threads_ok_set _ _ _ _ _ (entry_tid (w_deltas w) <$> xs.*2) _ _ p t); try done; apply Hok.
Qed.

Lemma set_moves w c ys xs zs w' :
  run_ok me w' c ys xs zs /\ evolves w w' ys.*2 -> moves w ys w'.
Proof. intros [Hok He]. by exists c, ys, xs, zs. Qed.

(** *** The timer *)

Lemma tick_moves w c ys xs zs :
  run_ok me w c ys xs zs -> exists w', update_curr_thread me w = Ok w' /\ moves w ys w'.
Proof.
  intros Hok. destruct (run_ok_current _ _ _ _ _ Hok) as (t & Ht & Hc & _).
  destruct (update_curr_ok me w c ys.*2 t (run_ok_sched _ _ _ _ _ Hok) Ht) as (t' & Hu & En & Ep & Es & _ & Ei & Ech).
  eexists. split; [exact Hu|]. apply (set_moves w c ys xs zs). apply (set_ok w c ys xs zs _ t); try done.
  - intros [O1 O2 O3 O4 O5 O6]. constructor; rewrite ?Es, ?Ech, ?Ei, ?Ep, ?En; done.
  - by rewrite Es, Ech.
  - by rewrite Es.
Qed.

(** *** Waking and blocking *)

(** A thread that waits on a channel is made ready. *)
Lemma wake_channel_ok w c ys xs zs p t :
  run_ok me w c ys xs zs -> p ∈ ys.*2 -> w_threads w !! p = Some t ->
  state t = STATE_WAITING -> block_channel t <> 0 ->
  run_ok me (set_thread w p (th_set_channel (th_set_state t STATE_READY) 0)) c ys xs zs /\
  evolves w (set_thread w p (th_set_channel (th_set_state t STATE_READY) 0)) ys.*2.
Proof.
  intros Hok Hp Ht Hs Hch. apply (set_ok w c ys xs zs p t _ Hok Hp Ht); try done.
  - intros [O1 O2 [O3 O3'] O4 (x & Hx & O5 & _) O6]. constructor; simpl; try done.
    + split; [by states|]. intros Hin%O3'. rewrite Hs in Hin. by states.
    + by exists x.
    + by left.
  - rewrite Hs. by states.
Qed.

Lemma notify_loop_moves w c ys xs zs seen rest ch :
  run_ok me w c ys xs zs -> ys.*2 = seen ++ rest -> ch <> 0 ->
  exists w', notify_loop (length rest) (Z.of_nat (length seen)) (thread_list c) ch w = Ok w' /\ moves w ys w'.
Proof.
  intros Hok. revert seen. induction rest as [|p rest IH]; intros seen Hys Hch; simpl.
  { exists w. split; [done|]. by apply (moves_refl _ _ _ _ _ Hok). }
  rewrite (list_get_at_ok _ _ _ _ (ro_threads _ _ _ _ _ _ Hok)) by lia.
  rewrite Hys, Nat2Z.id, list_lookup_middle by done. mred. simpl.
  destruct (run_ok_thread _ _ _ _ _ p Hok) as (t & Ht & _); [rewrite Hys; set_solver|].
  unfold thread_at. rewrite Ht. mred.
  destruct (Z.eqb_spec (state t) STATE_WAITING) as [Hs|]; [destruct (Z.eqb_spec (block_channel t) ch) as [Hc|]|]; cbn [andb].
  - eexists. split; [done|]. apply (set_moves w c ys xs zs). apply wake_channel_ok; try done; [rewrite Hys; set_solver|].
    by rewrite Hc.
  - replace (Z.of_nat (length seen) + 1) with (Z.of_nat (length (seen ++ [p]))) by (rewrite length_app; simpl; lia).
    apply IH; [by rewrite <-app_assoc|done].
  - replace (Z.of_nat (length seen) + 1) with (Z.of_nat (length (seen ++ [p]))) by (rewrite length_app; simpl; lia).
    apply IH; [by rewrite <-app_assoc|done].
Qed.

Lemma notify_moves w c ys xs zs ch :
  run_ok me w c ys xs zs -> exists w', notify_wait_channel me ch w = Ok w' /\ moves w ys w'.
Proof.
  intros Hok. unfold notify_wait_channel, get_cpu_task_list. destruct (Z.eqb_spec ch 0).
  { exists w. split; [done|]. by apply (moves_refl _ _ _ _ _ Hok). }
  rewrite (ro_cpu _ _ _ _ _ _ Hok). mred. destruct (ro_threads _ _ _ _ _ _ Hok) as [_ (h & -> & _) _ _ _]. mred.
  cbn [count]. rewrite Nat2Z.id, <-(length_fmap snd). by apply (notify_loop_moves w c ys xs zs []).
Qed.

(** The current thread starts to wait on a channel. *)
Lemma block_moves w c ys xs zs t ch :
  run_ok me w c ys xs zs -> w_threads w !! current_thread c = Some t -> state t = STATE_RUNNING ->
  name t <> IDLE_THREAD -> ch <> 0 ->
  moves w ys (set_thread w (current_thread c) (th_set_state (th_set_channel t ch) STATE_WAITING)).
Proof.
  intros Hok Ht Hs Hn Hch. destruct (run_ok_current _ _ _ _ _ Hok) as (_ & _ & Hc & _).
  apply (set_moves w c ys xs zs). apply (set_ok w c ys xs zs _ t _ Hok Hc Ht); try done; rewrite ?Hs; try by states.
  intros [O1 O2 [O3 O3'] O4 (x & Hx & O5 & _) O6]. constructor; simpl; try done.
  - split; [by states|]. intros Hin%O3'. rewrite Hs in Hin. by states.
  - by exists x.
Qed.

(** *** Switching *)

Lemma save_rsp_run_ok w c ys xs zs t rsp :
  run_ok me w c ys xs zs -> w_threads w !! current_thread c = Some t ->
  run_ok me (set_thread w (current_thread c) (th_set_k_rsp t rsp)) c ys xs zs /\
  evolves w (set_thread w (current_thread c) (th_set_k_rsp t rsp)) ys.*2.
Proof.
  intros Hok Ht. destruct (run_ok_current _ _ _ _ _ Hok) as (_ & _ & Hc & _).
  apply (set_ok w c ys xs zs _ t _ Hok Hc Ht); try done. intros [O1 O2 O3 O4 O5 O6]. by constructor.
Qed.

(** The current thread gets the processor again. *)
Lemma resume_ok w c ys xs zs t :
  run_ok me w c ys xs zs -> w_threads w !! current_thread c = Some t -> state t = STATE_READY ->
  run_ok me (set_thread w (current_thread c) (th_set_state t STATE_RUNNING)) c ys xs zs /\
  evolves w (set_thread w (current_thread c) (th_set_state t STATE_RUNNING)) ys.*2.
Proof.
  intros Hok Ht Hs. destruct (run_ok_current _ _ _ _ _ Hok) as (_ & _ & Hc & _).
  apply (set_ok w c ys xs zs _ t _ Hok Hc Ht); try done; rewrite ?Hs; try by states.
  intros Hto. apply (thread_ok_state _ _ _ _ _ _ _ _ Hto); rewrite ?Hs; try by states. auto.
Qed.

(** A switch away from the current thread to a ready one. *)
Lemma switch_moves w w' c ys xs zs n :
  run_ok me w c ys xs zs -> switched me w w' c ys.*2 (current_thread c) n -> n ∈ ys.*2 -> ready w n ->
  n <> current_thread c -> moves w ys w'.
Proof.
  intros Hok [(c' & Hso & Hcc & Hq & Hpl & Htl) (Fp & Fd & Fn & Ft & Fl) Fk (tn & Htn & Htn' & _) (tc & Htc & Htc') Hoth _]
    Hn Hr Hne.
  unfold ready in Hr. rewrite Htn in Hr.
  assert (forall p t, p ∈ ys.*2 -> w_threads w !! p = Some t ->
    thread_ok (w_procs w) (current_thread c) zs.*2 (entry_tid (w_deltas w) <$> xs.*2) p t ->
    exists t', w_threads w' !! p = Some t' /\ same_thread t t' /\
      thread_ok (w_procs w) n zs.*2 (entry_tid (w_deltas w) <$> xs.*2) p t' /\
      (state t = STATE_WAITING -> block_channel t = 0 -> state t' = STATE_WAITING /\ block_channel t' = 0) /\
      (state t = STATE_DEAD -> state t' = STATE_DEAD)) as Hall.
  { intros p t Hp Ht Hto. destruct (decide (p = n)) as [->|Hpn]; [|destruct (decide (p = current_thread c)) as [->|Hpc]].
    - rewrite Htn in Ht. injection Ht as <-. eexists. split; [exact Htn'|]. split; [done|].
      split; [|simpl; rewrite Hr; by states]. apply (thread_ok_state _ _ _ _ _ _ _ _ Hto); rewrite ?Hr; try by states. auto.
    - rewrite Htc in Ht. injection Ht as <-. eexists. split; [exact Htc'|].
      destruct (Z.eqb_spec (state tc) STATE_RUNNING) as [Hs|Hs].
      + split; [done|]. split; [|simpl; rewrite Hs; by states].
        apply (thread_ok_state _ _ _ _ _ _ _ _ Hto); rewrite ?Hs; try by states. auto.
      + split_and!; try done. destruct Hto. by constructor.
    - exists t. rewrite Hoth by done. split_and!; try done. destruct Hto as [O1 O2 O3 O4 O5 O6]. constructor; try done.
      by intros Hs%O1. }
  exists c', ys, xs, zs. split_and!; [|done|].
  - apply (run_ok_states w w' c c' ys xs zs Hok); try done; try apply Hso. rewrite Fp, Hcc.
    apply (threads_ok_threads (w_threads w) _ _ (current_thread c) n _ _ (entry_tid (w_deltas w) <$> xs.*2));
      [apply Hok|done|apply (ro_states _ _ _ _ _ _ Hok)|apply (ro_states _ _ _ _ _ _ Hok)|].
    intros p t Hp Ht Hto. destruct (Hall p t Hp Ht Hto) as (t' & ? & ? & ? & ? & _). by exists t'.
  - intros p t Hp Ht. destruct (run_ok_thread _ _ _ _ _ _ Hok Hp) as (u & Hu & Hto). rewrite Ht in Hu. injection Hu as <-.
    destruct (Hall p t Hp Ht Hto) as (t' & ? & ? & _ & _ & ?). by exists t'.
Qed.

Lemma schedule_moves w c ys xs zs old from :
  run_ok me w c ys xs zs -> exists out w', schedule me old from w = Ok (out, w') /\ moves w ys w'.
Proof.
  intros Hok. pose proof (run_ok_sched _ _ _ _ _ Hok) as Hso. destruct (decide (from = 1)) as [->|Hf].
  { exists old, w. split; [|by apply (moves_refl _ _ _ _ _ Hok)]. destruct (so_data _ _ _ _ Hso) as (d & Hd).
    unfold schedule, get_cpu_task_list, get_current_cpu_data. rewrite (so_cpu _ _ _ _ Hso), Hd. done. }
  destruct (run_ok_current _ _ _ _ _ Hok) as (t & Ht & Hc & _).
  destruct (schedule_ok me w c ys.*2 t old from Hso Hf Ht) as (r & Hfair & Hcase).
  destruct (save_rsp_run_ok w c ys xs zs t old Hok Ht) as [Hok0 He0].
  destruct Hcase as [[_ ->]|[[-> ->]|(Hr & Hne & tr & w' & Htr & -> & Hsw)]].
  - eexists _, _. split; [reflexivity|]. by apply (set_moves w c ys xs zs).
  - eexists _, _. split; [reflexivity|].
    destruct Hfair as [[H0 _]|(l1 & l2 & _ & Hrd & _)]; [destruct (so_threads _ _ _ _ Hso _ Hc); done|].
    apply (moves_after _ _ _ _ He0), (set_moves _ c ys xs zs). apply resume_ok; [done|simpl; by rewrite lookup_insert_eq|].
    unfold ready in Hrd. by rewrite Ht in Hrd.
  - eexists _, _. split; [reflexivity|]. apply (moves_after _ _ _ _ He0), (switch_moves _ _ c ys xs zs r); try done.
    destruct Hfair as [[H0 _]|(l1 & l2 & _ & Hrd & _)]; [destruct (so_threads _ _ _ _ Hso _ Hr); done|].
    unfold ready in *. simpl. by rewrite lookup_insert_ne.
Qed.

(** *** Sleeping *)

(** The front entry counts down. *)
Lemma entry_down_ok w c ys xs zs top e d :
  run_ok me w c ys xs zs -> w_deltas w !! top = Some e ->
  run_ok me (with_deltas w (<[top := mk_delta (dq_tid e) d]> (w_deltas w))) c ys xs zs.
Proof.
  intros [R1 R2 R3 R4 R5 R6 R7 R8 R9 R10 R11 R12] He.
  assert (forall q, entry_tid (<[top := mk_delta (dq_tid e) d]> (w_deltas w)) q = entry_tid (w_deltas w) q) as Heq.
  { intros q. unfold entry_tid. destruct (decide (q = top)) as [->|]; [by rewrite lookup_insert_eq, He|].
    by rewrite lookup_insert_ne. }
  constructor; simpl; try done.
  - intros q Hq. destruct (decide (q = top)) as [->|]; [rewrite lookup_insert_eq; by eexists|].
    rewrite lookup_insert_ne by done. by apply R9.
  - by rewrite (list_fmap_ext _ (entry_tid (w_deltas w)) xs.*2 (fun _ q _ => Heq q)).
Qed.

(** Blocks of lists are disjoint from the front entry and its node. *)
Lemma owned_disjoint c ys p top xs zs :
  NoDup (owned c ys ((p, top) :: xs) zs) ->
  p <> top /\ (forall q, q ∈ owned c ys xs zs -> q <> p /\ q <> top) /\ NoDup (owned c ys xs zs).
Proof.
  rewrite owned_entry. intros [H1 [H2 H3]%NoDup_cons]%NoDup_cons. split; [intros ->; apply H1; by left|]. split; [|done].
  intros q Hq. split; intros ->; [apply H1; by right|done].
Qed.

Lemma wake_moves w c ys p top xs zs e :
  run_ok me w c ys ((p, top) :: xs) zs -> w_deltas w !! top = Some e -> delta e = 0 ->
  exists w', update_sleeping_queue me w = Ok w' /\ moves w ys w'.
Proof.
  intros Hok He Hz. pose proof Hok as [R1 R2 R3 R4 R5 R6 R7 R8 R9 R10 R11 R12].
  destruct (owned_disjoint _ _ _ _ _ _ R7) as (Hpt & Hdis & Hnd).
  destruct (owned_distinct _ _ _ _ Hnd) as (Hl1 & Hl2 & _).
  assert (top ∈ owned c ys ((p, top) :: xs) zs) as Htop by (rewrite owned_entry; right; by left).
  assert (forall q, q ∈ sleeping_queue c :: xs.*1 \/ q ∈ xs.*2 -> q <> top) as Hqt
    by (intros q Hin; apply Hdis, elem_of_owned; tauto).
  destruct (wake_ok me w c p top xs ys.*2 (dq_tid e) ys) as (k & m & Hu & Hq & Hpop & Hm); try done.
  { by apply (run_ok_sleep _ _ _ _ zs). }
  { rewrite He. destruct e. simpl in Hz. by rewrite Hz. }
  { by apply (run_ok_nonzero _ _ _ _ _ _ Hok). }
  { by apply R8. }
  { intros Hin. apply elem_of_cons in Hin as [->|[->|Hin]%elem_of_cons]; [|done|];
      eapply Hqt; try done; left; [by left|by right]. }
  eexists. split; [exact Hu|]. exists c, ys, xs, zs.
  assert (forall l us, is_list (w_k w) l us -> l <> sleeping_queue c -> (forall q, q ∈ l :: us.*1 -> q ∈ owned c ys xs zs) ->
    is_list k l us) as Hkeep.
  { intros l us Hl Hne Hin. apply (popped_keeps _ _ _ _ _ _ _ Hpop); try done; intros Hx%Hin%Hdis; by destruct Hx. }
  assert (entry_tid (w_deltas w) top = dq_tid e) as Het by (unfold entry_tid; by rewrite He).
  pose proof R10 as R10'. simpl in R10'. rewrite Het in R10'. split_and!; [|done|].
  - constructor; simpl; try done.
    + apply Hkeep; [done..|]. intros q Hq'. apply elem_of_owned. tauto.
    + apply Hkeep; [done..|]. intros q Hq'. apply elem_of_owned. tauto.
    + intros q Hq'. apply (po_live _ _ _ _ _ Hpop). destruct (Hdis q Hq'). split_and!; [|done|done].
      apply R8. rewrite owned_entry. by do 2 right.
    + intros q Hq'. rewrite lookup_delete_ne by (apply not_eq_sym; auto). apply R9. by right.
    + rewrite (list_fmap_ext _ (entry_tid (w_deltas w)) xs.*2).
      { by apply (threads_ok_wake (w_threads w) m _ _ _ _ _ _ (dq_tid e) R10'). }
      intros i q Hq'%list_elem_of_lookup_2. unfold entry_tid. by rewrite lookup_delete_ne by (apply not_eq_sym; auto).
  - intros q x Hq' Hx. eexists. split; [by apply Hm|]. destruct (Z.eqb_spec (tid x) (dq_tid e)) as [Hid|]; [|done].
    split; [done|]. destruct (run_ok_thread _ _ _ _ _ _ Hok Hq') as (u & Hu' & [_ _ [_ O3] _ _ _]).
    rewrite Hx in Hu'. injection Hu' as <-. rewrite O3; [by states|]. simpl. rewrite Het, Hid. by left.
Qed.

Lemma sleepers_moves w c ys xs zs :
  run_ok me w c ys xs zs -> exists w', update_sleeping_queue me w = Ok w' /\ moves w ys w'.
Proof.
  intros Hok. destruct xs as [|[p top] xs].
  - exists w. split; [|by apply (moves_refl _ _ _ _ _ Hok)]. unfold update_sleeping_queue, get_cpu_task_list.
    rewrite (ro_cpu _ _ _ _ _ _ Hok). mred. by destruct (ro_queue _ _ _ _ _ _ Hok) as [_ (h & -> & _) _ _ _].
  - destruct (ro_delta _ _ _ _ _ _ Hok top) as [e He]; [by left|].
    destruct (Z.eqb_spec (delta e) 0) as [Hz|Hz]; [by apply (wake_moves w c ys p top xs zs e)|].
    eexists. split.
    + unfold update_sleeping_queue, get_cpu_task_list. rewrite (ro_cpu _ _ _ _ _ _ Hok). mred.
      assert (list_get_at (sleeping_queue c) 0 (w_k w) = Ok top) as ->
        by (by rewrite (list_get_at_ok _ _ _ 0 (ro_queue _ _ _ _ _ _ Hok))).
      destruct (ro_queue _ _ _ _ _ _ Hok) as [_ (h & -> & _) _ _ _]. mred. cbn [count].
      destruct (Z.eqb_spec (Z.of_nat (length ((p, top) :: xs))) 0); [simpl in *; lia|]. mred.
      rewrite He. mred. rewrite (proj2 (Z.eqb_neq _ _) Hz). reflexivity.
    + apply (set_moves _ c ys ((p, top) :: xs) zs). split; [by apply entry_down_ok|by apply evolves_refl].
Qed.

(** [kusleep] up to its yield. *)
Lemma sleep_moves w c ys xs zs t ms :
  run_ok me w c ys xs zs -> w_threads w !! current_thread c = Some t -> state t = STATE_RUNNING -> name t <> IDLE_THREAD ->
  match sleep_enqueue me ms w with Ok w' => moves w ys w' | Halt => True | _ => False end.
Proof.
  intros Hok Ht Hs Hn. pose proof Hok as [R1 R2 R3 R4 R5 R6 R7 R8 R9 R10 R11 R12]. pose proof (run_ok_room _ _ _ _ _ Hok).
  pose proof (sleep_enqueue_ok me w c xs ys.*2 ms (run_ok_sleep _ _ _ _ _ Hok) ltac:(lia)) as He.
  destruct (sleep_enqueue me ms w) as [w'| | |]; try done.
  destruct He as (p & top & [E1 (t0 & Ht0 & Eth & Ed) (Et0 & _ & _) (Ept & Elive) (Ep & Etop) El Ew]).
  rewrite Ht in Ht0. injection Ht0 as <-. destruct (owned_distinct _ _ _ _ R7) as (Hl1 & Hl2 & _).
  destruct (run_ok_current _ _ _ _ _ Hok) as (t1 & Ht1 & Hc & Hto). rewrite Ht in Ht1. injection Ht1 as <-.
  assert (forall q, q ∈ owned c ys xs zs -> q <> p /\ q <> top) as Hdis.
  { intros q Hq%R8. split; intros ->; done. }
  assert (entry_tid (w_deltas w') <$> ((p, top) :: xs).*2 = tid t :: (entry_tid (w_deltas w) <$> xs.*2)) as Htids.
  { simpl. rewrite Ed. f_equal; [unfold entry_tid; by rewrite lookup_insert_eq|]. apply list_fmap_ext.
    intros i q Hq%list_elem_of_lookup_2. unfold entry_tid. rewrite lookup_insert_ne; [done|].
    apply not_eq_sym, Hdis, elem_of_owned. tauto. }
  assert (~ tid t ∈ (entry_tid (w_deltas w) <$> xs.*2)) as Hnt.
  { intros Hin%(to_sleep _ _ _ _ _ _ Hto). rewrite Hs in Hin. by states. }
  exists c, ys, ((p, top) :: xs), zs. rewrite Ew. split_and!; [|done|].
  - constructor; simpl; try done; try (by apply El); [apply E1|..].
    + rewrite owned_entry. apply NoDup_cons; split; [|apply NoDup_cons; split; [|done]].
      * intros [->|Hin%Hdis]%elem_of_cons; [done|by destruct Hin].
      * intros Hin%Hdis. by destruct Hin.
    + intros q Hq. rewrite owned_entry in Hq. apply Elive.
      apply elem_of_cons in Hq as [->|[->|Hq]%elem_of_cons]; [by left|by right; left|right; right; by apply R8].
    + apply E1.
    + simpl in Htids. rewrite Htids, Eth. apply (threads_ok_set _ _ _ _ _ (entry_tid (w_deltas w) <$> xs.*2) _ _ _ t); try done.
      * apply NoDup_cons. split; [done|]. apply R10.
      * intros [O1 O2 O3 O4 (x & Hx & O5 & _) O6]. constructor; simpl; try done.
        -- intros Hch%O2. rewrite Hs in Hch. by states.
        -- split; [by left|done].
        -- by exists x.
      * rewrite Hs. by states.
      * intros i Hi. set_solver.
  - rewrite <-Ew. intros q x Hq Hx. rewrite Eth. destruct (decide (q = current_thread c)) as [->|].
    + rewrite lookup_insert_eq. rewrite Ht in Hx. injection Hx as <-. eexists. split; [done|]. split; [done|]. rewrite Hs. by states.
    + rewrite lookup_insert_ne by done. by exists x.
Qed.
End Run.

(** ** A machine to run *)

Lemma sample_processes : is_list (sample_k false) 300 [(302, 6000); (303, 6001)].
Proof.
  constructor; [apply sample_alloc| |done| |].
  - exists 302. split; [done|]. simpl. split_and!; try done. eexists. split; [done|]. simpl. split_and!; try done. by eexists.
  - simpl. repeat (apply NoDup_cons; split; [set_unfold; lia|]). apply NoDup_nil_2.
  - simpl. intros p Hp. set_unfold. tauto.
Qed.

Definition sample_nodes : list (Z * Z) := [(101, 5000); (102, 5001); (103, 5002)].

Lemma sample_states :
  threads_ok (w_threads (sample_world false)) (w_procs (sample_world false)) 5000 sample_threads [6000; 6001] [] 4.
Proof.
  unfold sample_threads. constructor.
  - intros p Hp. set_unfold in Hp. destruct Hp as [->|[->|[->|[]]]]; eexists; (split; [reflexivity|]);
      (constructor; simpl; try done);
      first [split; [done|intros Hx; by apply elem_of_nil in Hx]|set_solver|eexists; (split; [reflexivity|]); by split_and!|auto].
  - intros q Hq. set_unfold in Hq. destruct Hq as [->|[->|[]]]; eexists; (split; [reflexivity|]);
      (constructor; simpl; [set_solver|eexists; by split_and!|set_solver]).
  - set_solver.
  - exists 5001. eexists. split; [set_solver|]. by split.
  - intros p p' t t' Hp Hp'. set_unfold in Hp. set_unfold in Hp'.
    destruct Hp as [->|[->|[->|[]]]], Hp' as [->|[->|[->|[]]]]; intros [= <-] [= <-]; done.
  - apply NoDup_nil_2.
  - intros p t Hp. set_unfold in Hp. destruct Hp as [->|[->|[->|[]]]]; intros [= <-]; done.
  - set_solver.
Qed.

Lemma sample_run_ok : run_ok 0 (sample_world false) sample_cpu_list sample_nodes [] [(302, 6000); (303, 6001)].
Proof.
  constructor; try done.
  - by eexists.
  - by eexists.
  - apply sample_thread_list.
  - apply (sample_queue false).
  - apply sample_processes.
  - apply (bool_decide_unpack _). vm_compute. exact I.
  - intros p Hp. apply (elem_of_list_to_set (C := gset Z)) in Hp. revert p Hp.
    change (list_to_set (owned sample_cpu_list sample_nodes [] [(302, 6000); (303, 6001)]) ⊆ blocks (alloc (w_k (sample_world false)))).
    apply (bool_decide_unpack _). vm_compute. exact I.
  - intros p Hp. by apply elem_of_nil in Hp.
  - apply sample_states.
Qed.
