(* ===== verification/SchedSpawn.v ===== *)
(** * Making threads and processes (src/kernel/multitasking/thread.c, process.c)

    [new_elf_process] puts a fresh process with one ready thread on the lists of
    the processor and keeps the invariant of SchedInv.v. *)

From S2P Require Import Prelude Sync Bitmap Pmm Paging Bytes Heap Alloc Klist Vfs Desc Sched SchedFair SchedSleep SchedInv.

(** ** The frame of a new thread *)

(** The frame at [krsp]: the registers are zero, then what [iretq] takes. *)
Record frame_at (m : bytes) (krsp rip cs ursp uss : Z) : Prop := {
  fa_regs i : 0 <= i < 15 -> load64 m (krsp + 8 * i) = 0;
  fa_rip : load64 m (krsp + 120) = rip;
  fa_cs : load64 m (krsp + 128) = cs;
  fa_rflags : load64 m (krsp + 136) = 514;
  fa_rsp : load64 m (krsp + 144) = ursp;
  fa_ss : load64 m (krsp + 152) = uss
}.

Lemma load_zero n m a : range_ok a (Z.of_nat n) -> (forall x, within a (Z.of_nat n) x -> m x = 0) -> load_le n m a = 0.
Proof.
  revert a. induction n as [|n IH]; intros a Ha Hm; simpl; [done|]. unfold range_ok, within in *.
  rewrite Hm by lia. destruct n; [done|]. rewrite u64_next by lia. rewrite IH; [done|unfold range_ok; lia|].
  intros x Hx. apply Hm. unfold within in *. lia.
Qed.

(** A word just stored, and one stored elsewhere. *)
Lemma load_same m a v :
  0 <= a -> a + 8 <= 18446744073709551616 -> 0 <= v < 18446744073709551616 -> load_le 8 (store_le 8 m a v) a = v.
Proof. intros ? ? Hv. rewrite load_store_le by (unfold range_ok; lia). apply Z.mod_small. exact Hv. Qed.
Lemma load_skip m a b v :
  0 <= a -> a + 8 <= 18446744073709551616 -> 0 <= b -> b + 8 <= 18446744073709551616 -> a + 8 <= b \/ b + 8 <= a ->
  load_le 8 (store_le 8 m b v) a = load_le 8 m a.
Proof. intros ? ? ? ? ?. apply load_store_le_ne; [unfold range_ok; lia..|]. lia. Qed.

Lemma push_frame_ok m krsp rip cs ursp uss :
  range_ok krsp sizeof_new_stack -> fits_u64 rip -> fits_u64 cs -> fits_u64 ursp -> fits_u64 uss ->
  frame_at (push_frame m krsp rip cs ursp uss) krsp rip cs ursp uss /\
  forall x, fits_u64 x -> ~ within krsp sizeof_new_stack x -> push_frame m krsp rip cs ursp uss x = m x.
Proof.
  unfold sizeof_new_stack, push_frame, store64, load64. intros Hr H1 H2 H3 H4. unfold range_ok in Hr.
  rewrite !u64_small by (unfold fits_u64; lia). unfold fits_u64 in *.
  split.
  - constructor; unfold load64; [intros i Hi; repeat (rewrite load_skip by lia)|repeat (rewrite load_skip by lia); rewrite load_same by lia; reflexivity..].
    apply load_zero; [unfold range_ok; lia|]. intros x Hx.
    apply memset_in; unfold range_ok, within, sizeof_new_stack in *; lia.
  - intros x Hx Hout. unfold within in Hout.
    rewrite !store_le_other by (unfold range_ok, within; lia). apply memset_other; unfold range_ok, fits_u64, within, sizeof_new_stack; lia.
Qed.

Section Spawn.
Context {A : Type} `{Allocator A}.
Context (me : Z).
Context (junk_thread : thread_t) (O_RDONLY O_WRONLY : Z).
Implicit Types (w : world A).

(** Open console files are in allocated blocks. *)
Definition files_live w : Prop := forall p, is_Some (w_files w !! p) -> live (alloc (w_k w)) p.

(** More blocks are allocated; the lists and the processor's data stay. *)
Record grown w w' : Prop := {
  gr_lists : lists (w_k w') = lists (w_k w);
  gr_nodes : nodes (w_k w') = nodes (w_k w);
  gr_inv : alloc_inv (alloc (w_k w'));
  gr_live q : live (alloc (w_k w)) q -> live (alloc (w_k w')) q;
  gr_deltas : w_deltas w' = w_deltas w;
  gr_cpus : cpu_task_lists w' = cpu_task_lists w;
  gr_data : cpu_data_list w' = cpu_data_list w;
  gr_gdt : w_gdt w' = w_gdt w;
  gr_vm : w_vm w' = w_vm w;
  gr_files : files_live w -> files_live w'
}.

Lemma grown_trans w w' w'' : grown w w' -> grown w' w'' -> grown w w''.
Proof. intros [] []. constructor; try congruence; auto. Qed.

Lemma grown_list w w' l xs : grown w w' -> is_list (w_k w) l xs -> is_list (w_k w') l xs.
Proof. intros [G1 G2 G3 G4 _ _ _ _ _ _] Hl. apply (is_list_frame (w_k w)); try done; [by rewrite G1|intros; by rewrite G2]. Qed.

(** Threads, processes and the counters stay. *)
Definition calm w w' : Prop :=
  w_threads w' = w_threads w /\ w_procs w' = w_procs w /\ next_tid w' = next_tid w /\
  next_tid_lock w' = next_tid_lock w /\ next_pid_lock w' = next_pid_lock w /\ w_stacks w' = w_stacks w.
Lemma calm_trans w w' w'' : calm w w' -> calm w' w'' -> calm w w''.
Proof. unfold calm. intuition congruence. Qed.

(** A block is handed out; nothing else of the state changes. *)
Record fresh w w' (p : Z) : Prop := {
  fr_grown : grown w w';
  fr_null : p <> 0;
  fr_new : ~ live (alloc (w_k w)) p;
  fr_live : live (alloc (w_k w')) p
}.

Lemma on_alloc_ok w f n :
  f = a_kmalloc n \/ f = a_kzalloc n -> alloc_inv (alloc (w_k w)) -> 0 < n <= 2 ^ 63 ->
  match on_alloc w f with
  | Ok (p, w') => fresh w w' p /\ calm w w'
  | Halt => True
  | _ => False
  end.
Proof.
  intros Hf Hi Hn. unfold on_alloc.
  assert (match f (alloc (w_k w)) with
    | Ok (p, a') => alloc_inv a' /\ p <> 0 /\ ~ live (alloc (w_k w)) p /\
        forall q, live a' q <-> q = p \/ live (alloc (w_k w)) q
    | Halt => True | _ => False end) as Hk.
  { destruct Hf as [->| ->]; [by apply a_kmalloc_ok|by apply a_kzalloc_ok]. }
  destruct (f (alloc (w_k w))) as [[p a]| | |]; mred; try done. destruct Hk as (Hi' & Hp & Hfr & Hl).
  split; [|done]. constructor; [constructor; try done; simpl|done|done|simpl; apply Hl; by left].
  - intros q Hq. apply Hl. by right.
  - intros Hfl q Hq. apply Hl. right. by apply Hfl.
Qed.

(** A console file is an object of its own. *)
Lemma console_file_ok w flags :
  alloc_inv (alloc (w_k w)) ->
  match create_kernel_console_file flags w with
  | Ok (p, w') => grown w w' /\ calm w w'
  | Halt => True
  | _ => False
  end.
Proof.
  intros Hi. unfold create_kernel_console_file.
  pose proof (on_alloc_ok w _ sizeof_file (or_introl eq_refl) Hi ltac:(unfold sizeof_file; lia)) as Ha.
  destruct (on_alloc w _) as [[p w']| | |]; mred; try done. destruct Ha as [[G Hp _ Hlv] Hw].
  rewrite (proj2 (Z.eqb_neq _ _) Hp). split; [|done]. destruct G. constructor; try done.
  intros Hfl q. simpl. intros [->|[_ Hq]]%lookup_insert_is_Some; [done|by apply gr_files0].
Qed.

(** A process that [new_process] made. *)
Definition new_proc (x : process_t) : Prop := p_parent x = 0 /\ is_waiting x = false.

Lemma new_process_ok w :
  alloc_inv (alloc (w_k w)) -> locked (next_pid_lock w) = 0 ->
  match new_process O_RDONLY O_WRONLY w with
  | Ok (p, w') => fresh w w' p /\ w_threads w' = w_threads w /\ next_tid w' = next_tid w /\
      next_tid_lock w' = next_tid_lock w /\ locked (next_pid_lock w') = 0 /\ w_stacks w' = w_stacks w /\
      exists x, w_procs w' = <[p := x]> (w_procs w) /\ new_proc x
  | Halt => True
  | _ => False
  end.
Proof.
  intros Hi Hlock. unfold new_process.
  pose proof (on_alloc_ok w _ sizeof_process (or_intror eq_refl) Hi ltac:(unfold sizeof_process; lia)) as Ha.
  destruct (on_alloc w _) as [[p w1]| | |]; mred; try done. destruct Ha as [[G1 Hp Hfr Hlv] E1]. pose proof E1 as (_ & _ & _ & _ & El & _).
  rewrite (proj2 (Z.eqb_neq _ _) Hp). unfold get_next_pid.
  rewrite safe_lock_free by (by rewrite El). mred. unfold safe_unlock. mred.
  set (w2 := with_pid w1 _ _ _). assert (grown w1 w2) as G2 by (destruct G1; by constructor).
  pose proof (console_file_ok w2 O_RDONLY (gr_inv _ _ G2)) as H3.
  destruct (create_kernel_console_file O_RDONLY w2) as [[f0 w3]| | |]; mred; try done. destruct H3 as [G3 E3].
  rewrite arr_set_ok by done. mred.
  pose proof (console_file_ok w3 O_WRONLY (gr_inv _ _ G3)) as H4.
  destruct (create_kernel_console_file O_WRONLY w3) as [[f1 w4]| | |]; mred; try done. destruct H4 as [G4 E4].
  rewrite arr_set_ok by done. mred.
  pose proof (console_file_ok w4 O_WRONLY (gr_inv _ _ G4)) as H5.
  destruct (create_kernel_console_file O_WRONLY w4) as [[f2 w5]| | |]; mred; try done. destruct H5 as [G5 E5].
  rewrite arr_set_ok by done. mred.
  assert (grown w1 w5) as G by eauto using grown_trans.
  destruct (calm_trans _ _ _ E3 (calm_trans _ _ _ E4 E5)) as (Et & Ep & En & Etl & Epl & Es),
    E1 as (Ft & Fp & Fn & Ftl & _ & Fs).
  split; [|simpl; rewrite Et, Ep, En, Etl, Epl, Es; simpl; rewrite Ft, Fp, Fn, Ftl, Fs; split_and!; try done; by eexists].
  constructor; try done; [|by apply (gr_live _ _ G)].
  pose proof (grown_trans _ _ _ G1 G) as []. by constructor.
Qed.

Lemma new_thread_ok w :
  alloc_inv (alloc (w_k w)) -> locked (next_tid_lock w) = 0 ->
  match new_thread junk_thread w with
  | Ok (t, w') => fresh w w' t /\ w_procs w' = w_procs w /\ next_tid w' = u64 (next_tid w + 1) /\
      next_pid_lock w' = next_pid_lock w /\ locked (next_tid_lock w') = 0 /\ w_stacks w' = w_stacks w /\
      w_threads w' = <[t := th_set_tid junk_thread (next_tid w)]> (w_threads w)
  | Halt => True
  | _ => False
  end.
Proof.
  intros Hi Hlock. unfold new_thread.
  pose proof (on_alloc_ok w _ sizeof_thread (or_introl eq_refl) Hi ltac:(unfold sizeof_thread; lia)) as Ha.
  destruct (on_alloc w _) as [[t w1]| | |]; mred; try done. destruct Ha as [[G1 Ht Hfr Hlv] (Ft & Fp & Fn & Ftl & Fpl & Fs)].
  rewrite (proj2 (Z.eqb_neq _ _) Ht). unfold get_next_tid.
  rewrite safe_lock_free by (by rewrite Ftl). mred. unfold safe_unlock. mred.
  split; [|simpl; by rewrite Ft, Fp, Fn, Fpl, Fs]. destruct G1. by constructor; [constructor|..].
Qed.

(** [new_elf_thread]: the thread has the next number and otherwise what the block held. *)
Lemma new_elf_thread_ok w rip ustack kstack :
  alloc_inv (alloc (w_k w)) -> locked (next_tid_lock w) = 0 ->
  match new_elf_thread junk_thread rip ustack kstack w with
  | Ok (t, w') => fresh w w' t /\ w_procs w' = w_procs w /\ next_tid w' = u64 (next_tid w + 1) /\
      next_pid_lock w' = next_pid_lock w /\ locked (next_tid_lock w') = 0 /\
      exists y, w_threads w' = <[t := y]> (w_threads w) /\ tid y = next_tid w /\ name y = name junk_thread /\
        kernel_stack_base y = kstack /\ k_rsp y = u64 (kstack - sizeof_new_stack) /\
        w_stacks w' = push_frame (w_stacks w) (k_rsp y) rip (Z.lor __USER_CS 3) ustack (Z.lor __USER_DS 3)
  | Halt => True
  | _ => False
  end.
Proof.
  intros Hi Hlock. unfold new_elf_thread. pose proof (new_thread_ok w Hi Hlock) as Hn.
  destruct (new_thread junk_thread w) as [[t w1]| | |]; mred; try done.
  destruct Hn as ([G Ht Hfr Hlv] & E2 & E3 & E4 & E5 & E7 & E6). rewrite (proj2 (Z.eqb_neq _ _) Ht).
  unfold update_thread, thread_at. simpl. rewrite E6, lookup_insert_eq. mred.
  split; [destruct G; by constructor; [constructor|..]|]. simpl. split_and!; try done.
  rewrite ?E6, ?E7, insert_insert_eq. by eexists.
Qed.

(** The two pushes that end [new_elf_process]. *)
Lemma push_both_ok w c ys zs xs t p :
  arr_get (cpu_task_lists w) me = Ok c -> is_list (w_k w) (thread_list c) ys -> is_list (w_k w) (process_list c) zs ->
  is_list (w_k w) (sleeping_queue c) xs ->
  thread_list c <> sleeping_queue c -> process_list c <> sleeping_queue c -> thread_list c <> process_list c ->
  Z.of_nat (length ys) + 1 < 18446744073709551616 -> Z.of_nat (length zs) + 1 < 18446744073709551616 ->
  match (w ← push_new_thread me t w; push_new_process me p w) with
  | Ok w' => exists k n m, w' = with_k w k /\ is_list k (thread_list c) ((n, t) :: ys) /\
      is_list k (process_list c) ((m, p) :: zs) /\ is_list k (sleeping_queue c) xs /\ n <> m /\
      ~ live (alloc (w_k w)) n /\ ~ live (alloc (w_k w)) m /\
      forall q, live (alloc k) q <-> q = n \/ q = m \/ live (alloc (w_k w)) q
  | Halt => True
  | _ => False
  end.
Proof.
  intros Hc Hy Hz Hx N1 N2 N3 L1 L2. unfold push_new_thread, push_new_process, get_cpu_task_list. rewrite Hc. mred.
  unfold on_lists. pose proof (list_push_ok _ _ _ t Hy L1) as P1.
  destruct (list_push (thread_list c) t (w_k w)) as [k1| | |]; mred; try done. destruct P1 as (n & Hy1 & P1).
  simpl. rewrite Hc. mred. pose proof (pushed_keeps _ _ _ _ _ _ _ P1 (not_eq_sym N3) Hz) as Hz1.
  pose proof (list_push_ok _ _ _ p Hz1 L2) as P2.
  destruct (list_push (process_list c) p k1) as [k2| | |]; mred; try done. destruct P2 as (m & Hz2 & P2).
  pose proof (pu_fresh _ _ _ _ _ P1) as F1. pose proof (pu_fresh _ _ _ _ _ P2) as F2.
  pose proof (pu_live _ _ _ _ _ P1) as V1. pose proof (pu_live _ _ _ _ _ P2) as V2.
  exists k2, n, m. split; [by destruct w|]. split; [apply (pushed_keeps _ _ _ _ _ _ _ P2); done|]. split; [done|].
  split; [apply (pushed_keeps _ _ _ _ _ _ _ P2); [by apply not_eq_sym|];
          apply (pushed_keeps _ _ _ _ _ _ _ P1); [by apply not_eq_sym|done]|].
  split; [intros ->; apply F2, V1; by left|]. split; [done|]. split; [intros Hm; apply F2, V1; by right|].
  intros q. rewrite V2, V1. tauto.
Qed.

(** One more thread and one more process, in blocks of their own. *)
Lemma run_ok_grow w w' c ys xs zs n t m p :
  run_ok me w c ys xs zs ->
  w_deltas w' = w_deltas w -> cpu_task_lists w' = cpu_task_lists w -> cpu_data_list w' = cpu_data_list w -> w_gdt w' = w_gdt w ->
  is_list (w_k w') (thread_list c) ((n, t) :: ys) -> is_list (w_k w') (process_list c) ((m, p) :: zs) ->
  is_list (w_k w') (sleeping_queue c) xs -> NoDup [n; t; m; p] ->
  (forall q, q ∈ [n; t; m; p] -> ~ live (alloc (w_k w)) q /\ live (alloc (w_k w')) q) ->
  (forall q, live (alloc (w_k w)) q -> live (alloc (w_k w')) q) ->
  next_tid w' = next_tid w + 1 -> locked (next_tid_lock w') = 0 -> locked (next_pid_lock w') = 0 ->
  threads_ok (w_threads w') (w_procs w') (current_thread c) (t :: ys.*2) (p :: zs.*2) (entry_tid (w_deltas w) <$> xs.*2)
    (next_tid w + 1) ->
  run_ok me w' c ((n, t) :: ys) xs ((m, p) :: zs).
Proof.
  intros [R1 R2 R3 R4 R5 R6 R7 R8 R9 R10 R11 R12] Ed Ec Eda Eg Hy Hz Hx Hnd Hfr Hl En Lt Lp Hth.
  assert (owned c ((n, t) :: ys) xs ((m, p) :: zs) ≡ₚ [n; t; m; p] ++ owned c ys xs zs) as Hperm
    by (by rewrite owned_thread, owned_process).
  constructor; rewrite ?Ed, ?Ec, ?Eda, ?Eg, ?En; try done.
  - rewrite Hperm. apply NoDup_app. split_and!; try done. intros q Hq Ho%R8. by apply (Hfr q Hq).
  - intros q Hq. rewrite Hperm in Hq. apply elem_of_app in Hq as [Hq|Hq]; [by apply Hfr|by apply Hl, R8].
  - simpl length. lia.
Qed.

(** The thread [y] and the process [x], made but not yet listed. *)
Record made w w' (t p : Z) (y : thread_t) (x : process_t) : Prop := {
  ma_grown : grown w w';
  ma_thread : ~ live (alloc (w_k w)) t /\ live (alloc (w_k w')) t;
  ma_process : ~ live (alloc (w_k w)) p /\ live (alloc (w_k w')) p;
  ma_distinct : t <> p;
  ma_threads : w_threads w' = <[t := y]> (w_threads w);
  ma_procs : w_procs w' = <[p := x]> (w_procs w);
  ma_y : tid y = next_tid w /\ process y = p /\ state y = STATE_READY /\ block_channel y = 0 /\ name y <> IDLE_THREAD;
  ma_x : primary x = t /\ new_proc x;
  ma_next : next_tid w' = next_tid w + 1;
  ma_locks : locked (next_tid_lock w') = 0 /\ locked (next_pid_lock w') = 0
}.

Lemma list_made w w' c ys xs zs t p y x :
  run_ok me w c ys xs zs -> made w w' t p y x ->
  match (w ← push_new_thread me t w'; push_new_process me p w) with
  | Ok w'' => exists n m, run_ok me w'' c ((n, t) :: ys) xs ((m, p) :: zs) /\ evolves w w'' ys.*2 /\
      w_stacks w'' = w_stacks w' /\ w_threads w'' = w_threads w' /\ w_procs w'' = w_procs w' /\ w_vm w'' = w_vm w
  | Halt => True
  | _ => False
  end.
Proof.
  intros Hok [G [Htf Htl] [Hpf Hpl] Htp Et Ep (Y1 & Y2 & Y3 & Y4 & Y5) (X1 & X2 & X3) En [Lt Lp]].
  pose proof Hok as [R1 R2 R3 R4 R5 R6 R7 R8 R9 R10 R11 _].
  pose proof (run_ok_room _ _ _ _ _ _ Hok) as Hroom. destruct (owned_distinct _ _ _ _ R7) as (N1 & N2 & N3).
  pose proof (push_both_ok w' c ys zs xs t p) as H3.
  rewrite (gr_cpus _ _ G) in H3. specialize (H3 R1 (grown_list _ _ _ _ G R4) (grown_list _ _ _ _ G R6)
    (grown_list _ _ _ _ G R5) N1 N2 N3 ltac:(lia) ltac:(lia)).
  destruct (w ← push_new_thread me t w'; push_new_process me p w) as [w''| | |]; try done.
  destruct H3 as (k & n & m & -> & Hy & Hz & Hq & Hnm & Hnf & Hmf & Hlive).
  assert (forall q, q ∈ ys.*2 -> q <> t) as Hyt by (intros q Hin%(owned_threads c ys xs zs)%R8 ->; done).
  assert (forall q, q ∈ zs.*2 -> q <> p) as Hzp by (intros q Hin%(owned_procs c ys xs zs)%R8 ->; done).
  exists n, m. split_and!; try done.
  - apply (run_ok_grow w _ c ys xs zs n t m p Hok); try done; try apply G; simpl.
    + assert (n <> t /\ n <> p /\ t <> m /\ m <> p) as (? & ? & ? & ?) by (split_and!; by intros ->).
      rewrite !NoDup_cons, !not_elem_of_cons. split_and!; try done; try apply not_elem_of_nil. apply NoDup_nil_2.
    + intros q Hq'. rewrite Hlive. set_unfold in Hq'.
      destruct Hq' as [->|[->|[->|[->|[]]]]]; (split; [|by eauto]); try done; by intros ?%(gr_live _ _ G).
    + intros q Hlq. apply Hlive. right; right. by apply G.
    + rewrite Et, Ep. apply (threads_ok_spawn (w_threads w) _ (w_procs w) _ _ _ _ _ _ t p y x R10); try done;
        try apply lookup_insert_eq; intros q Hq'; apply lookup_insert_ne; apply not_eq_sym; auto.
  - intros q z Hq' Hz'. simpl. exists z. rewrite Et, lookup_insert_ne by (apply not_eq_sym; auto). done.
  - apply G.
Qed.

(** The new thread [t] of process [p]: its kernel stack holds the frame the first
    switch to it pops. *)
Definition starts w w' (t p rip ustack kstack : Z) : Prop :=
  exists y x, w_threads w' !! t = Some y /\ w_procs w' !! p = Some x /\ primary x = t /\ process y = p /\
    state y = STATE_READY /\ kernel_stack_base y = kstack /\ k_rsp y = u64 (kstack - sizeof_new_stack) /\ w_vm w' = w_vm w /\
    w_stacks w' = push_frame (w_stacks w) (k_rsp y) rip (Z.lor __USER_CS 3) ustack (Z.lor __USER_DS 3).

Lemma spawn_ok w c ys xs zs rip ustack kstack :
  run_ok me w c ys xs zs -> name junk_thread <> IDLE_THREAD ->
  match new_elf_process me junk_thread O_RDONLY O_WRONLY rip ustack kstack w with
  | Ok (p, w') => exists n t m, run_ok me w' c ((n, t) :: ys) xs ((m, p) :: zs) /\ evolves w w' ys.*2 /\
      starts w w' t p rip ustack kstack
  | Halt => True
  | _ => False
  end.
Proof.
  intros Hok Hjunk. pose proof Hok as [R1 R2 R3 R4 R5 R6 R7 R8 R9 R10 R11 [R12 R13]].
  pose proof (run_ok_room _ _ _ _ _ _ Hok) as Hroom.
  unfold new_elf_process. pose proof (new_process_ok w (il_inv _ _ _ R4) R13) as H1.
  destruct (new_process O_RDONLY O_WRONLY w) as [[p w1]| | |]; mred; try done.
  destruct H1 as ([G1 Hp Hpf Hpl] & Et1 & En1 & El1 & Ep1 & Es1 & x & Ex & Hx). rewrite (proj2 (Z.eqb_neq _ _) Hp).
  pose proof (new_elf_thread_ok w1 rip ustack kstack (gr_inv _ _ G1) ltac:(by rewrite El1)) as H2.
  destruct (new_elf_thread junk_thread rip ustack kstack w1) as [[t w2]| | |]; mred; try done.
  destruct H2 as ([G2 Ht Htf Htl] & Ep2 & En2 & El2 & Et2 & y & Ey & Hy1 & Hy2 & Hy3 & Hy4 & Hy5). rewrite (proj2 (Z.eqb_neq _ _) Ht).
  unfold update_thread, thread_at. rewrite Ey, lookup_insert_eq. mred. simpl. rewrite lookup_insert_eq. mred.
  unfold update_process, process_at. simpl. rewrite Ep2, Ex, lookup_insert_eq. mred.
  set (w3 := set_process _ _ _). set (y' := th_set_process _ p) in w3. set (x' := pr_set_primary x t) in w3.
  assert (made w w3 t p y' x') as Hmade.
  { constructor; simpl.
    - apply (grown_trans _ _ _ G1). destruct G2. by constructor.
    - split; [intros Hl; by apply Htf, G1|done].
    - split; [done|by apply G2].
    - intros ->. done.
    - by rewrite Ey, Et1, !insert_insert_eq.
    - by rewrite Ep2, Ex, insert_insert_eq.
    - by rewrite Hy1, Hy2, En1.
    - by split.
    - rewrite En2, En1. apply u64_small. unfold fits_u64. lia.
    - by rewrite El2. }
  pose proof (list_made w w3 c ys xs zs t p y' x' Hok Hmade) as H3. revert H3.
  destruct (push_new_thread me t w3) as [w4| | |]; mred; try done.
  destruct (push_new_process me p w4) as [w5| | |]; mred; try done. intros (n & m & Hr & He & Es & Et & Ep & Ev).
  exists n, t, m. split; [done|]. split; [done|]. exists y', x'. rewrite Et, Ep, Es, (ma_threads _ _ _ _ _ _ Hmade), (ma_procs _ _ _ _ _ _ Hmade).
  rewrite !lookup_insert_eq. do 5 (split; [reflexivity|]). split; [exact Hy3|]. split; [exact Hy4|].
  split; [exact Ev|]. rewrite <-Es1. exact Hy5.
Qed.
End Spawn.

(** ** Theorem *)


