(* ===== verification/SchedBoot.v ===== *)
(** * Setting up the scheduler (src/kernel/multitasking/mt.c)

    [init_multitasking] allocates the lists of every processor and gives the boot
    processor its main process, whose main thread runs, and an idle thread.  The
    state it leaves satisfies the invariant of SchedInv.v. *)

From S2P Require Import Prelude Sync Bitmap Pmm Paging Bytes Heap Alloc Klist Vfs Desc Sched SchedFair SchedSleep SchedInv SchedSpawn.

Section Boot.
Context {A : Type} `{Allocator A}.
Context (me : Z).
Context (junk_thread : thread_t) (junk_list : cpu_task_list_t).
Context (kernel_stack idle_loop O_RDONLY O_WRONLY : Z).
Implicit Types (w : world A) (L : list Z).

(** The blocks of [L] are allocated, and no two are the same. *)
Definition distinct w L : Prop := NoDup L /\ forall q, q ∈ L -> live (alloc (w_k w)) q.

(** More is allocated; what was there stays. *)
Record built w w' : Prop := {
  bu_inv : alloc_inv (alloc (w_k w'));
  bu_live q : live (alloc (w_k w)) q -> live (alloc (w_k w')) q;
  bu_list l us : is_list (w_k w) l us -> is_list (w_k w') l us;
  bu_data : cpu_data_list w' = cpu_data_list w;
  bu_gdt : w_gdt w' = w_gdt w;
  bu_files : files_live w -> files_live w'
}.

Lemma built_trans w w' w'' : built w w' -> built w' w'' -> built w w''.
Proof. intros [] []. constructor; auto; congruence. Qed.

Lemma grown_built w w' : grown w w' -> built w w'.
Proof. intros G. constructor; try apply G. intros l us. by apply grown_list. Qed.

Lemma built_distinct w w' L : built w w' -> distinct w L -> distinct w' L.
Proof. intros B [Hn Hl]. split; [done|]. intros q Hq. by apply B, Hl. Qed.

Lemma distinct_cons w w' L p :
  built w w' -> ~ live (alloc (w_k w)) p -> live (alloc (w_k w')) p -> distinct w L -> distinct w' (p :: L).
Proof.
  intros B Hf Hl Hd. destruct (built_distinct _ _ _ B Hd) as [Hn Hv]. split.
  - apply NoDup_cons. split; [|done]. intros Hin. by apply Hf, Hd.
  - intros q [->|Hq]%elem_of_cons; auto.
Qed.

Lemma distinct_perm w L L' : L ≡ₚ L' -> distinct w L -> distinct w L'.
Proof. intros Hp [Hn Hl]. split; [by rewrite <-Hp|]. intros q Hq. apply Hl. by rewrite Hp. Qed.

(** A new, empty list. *)
Lemma make_list_ok w L :
  alloc_inv (alloc (w_k w)) -> distinct w L ->
  match make_list w with
  | Ok (l, w') => built w w' /\ calm w w' /\ cpu_task_lists w' = cpu_task_lists w /\ w_deltas w' = w_deltas w /\
      is_list (w_k w') l [] /\ l <> 0 /\ distinct w' (l :: L)
  | Halt => True
  | _ => False
  end.
Proof.
  intros Hi HL. unfold make_list, init_list.
  pose proof (a_kzalloc_ok sizeof_list (alloc (w_k w)) Hi ltac:(unfold sizeof_list; lia)) as Hk.
  destruct (a_kzalloc sizeof_list (alloc (w_k w))) as [[l a]| | |]; mred; try done.
  destruct Hk as (Hi' & Hl & Hf & Hlive). rewrite (proj2 (Z.eqb_neq _ _) Hl). mred. set (w' := with_k w _).
  assert (built w w') as B.
  { constructor; simpl; try done; [intros q Hq; apply Hlive; by right| |intros Hfl q Hq; apply Hlive; right; by apply Hfl].
    intros l' us Hus. apply (is_list_frame (w_k w)); try done; simpl.
    - rewrite lookup_insert_ne; [done|]. intros <-. apply Hf, (il_live _ _ _ Hus). by left.
    - intros q Hq. apply Hlive. by right. }
  split_and!; try done.
  - constructor; simpl; try done; [|apply NoDup_singleton|].
    + exists 0. by rewrite lookup_insert_eq.
    + intros q ->%list_elem_of_singleton. apply Hlive. by left.
  - apply (distinct_cons w w' L l B); try done. simpl. apply Hlive. by left.
Qed.

Lemma on_alloc_built w f n L :
  f = a_kmalloc n \/ f = a_kzalloc n -> alloc_inv (alloc (w_k w)) -> 0 < n <= 2 ^ 63 -> distinct w L ->
  match on_alloc w f with
  | Ok (p, w') => grown w w' /\ calm w w' /\ p <> 0 /\ distinct w' (p :: L)
  | Halt => True
  | _ => False
  end.
Proof.
  intros Hf Hi Hn HL. pose proof (on_alloc_ok w f n Hf Hi Hn) as Ho. destruct (on_alloc w f) as [[p w']| | |]; try done.
  destruct Ho as [[G Hp Hfr Hlv] Hc]. split_and!; try done. apply (distinct_cons w); try done. by apply grown_built.
Qed.

(** A processor's entry as [init_multitasking] makes it: two empty lists. *)
Definition fresh_cpu w (c : cpu_task_list_t) L : Prop :=
  is_list (w_k w) (process_list c) [] /\ is_list (w_k w) (thread_list c) [] /\
  distinct w (thread_list c :: process_list c :: L).

Lemma fresh_cpu_built w w' c L : built w w' -> fresh_cpu w c L -> fresh_cpu w' c L.
Proof. intros B (F1 & F2 & F3). split_and!; [by apply B|by apply B|by apply (built_distinct w)]. Qed.

Lemma make_cpu_lists_ok n w L :
  alloc_inv (alloc (w_k w)) -> distinct w L ->
  match make_cpu_lists junk_list n w with
  | Ok w' => built w w' /\ calm w w' /\ w_deltas w' = w_deltas w /\
      exists cs, cpu_task_lists w' = cpu_task_lists w ++ cs /\ length cs = n /\ forall c, c ∈ cs -> fresh_cpu w' c L
  | Halt => True
  | _ => False
  end.
Proof.
  revert w L. induction n as [|n IH]; intros w L Hi HL; simpl.
  { split; [by constructor|]. split; [done|]. split; [done|]. exists []. split; [by rewrite app_nil_r|]. split; [done|]. set_solver. }
  pose proof (on_alloc_built w _ sizeof_cpu_list L (or_introl eq_refl) Hi ltac:(unfold sizeof_cpu_list; lia) HL) as H1.
  destruct (on_alloc w _) as [[p w1]| | |]; mred; try done. destruct H1 as (G1 & C1 & Hp & _).
  rewrite (proj2 (Z.eqb_neq _ _) Hp). pose proof (grown_built _ _ G1) as B1.
  pose proof (make_list_ok w1 L (bu_inv _ _ B1) (built_distinct _ _ _ B1 HL)) as H2.
  destruct (make_list w1) as [[pl w2]| | |]; mred; try done. destruct H2 as (B2 & C2 & E2 & D2 & L2 & _ & HL2).
  pose proof (make_list_ok w2 (pl :: L) (bu_inv _ _ B2) HL2) as H3.
  destruct (make_list w2) as [[tl w3]| | |]; mred; try done. destruct H3 as (B3 & C3 & E3 & D3 & L3 & _ & HL3).
  match goal with |- context [with_cpus w3 (_ ++ [?x])] => set (c0 := x) end.
  set (w4 := with_cpus w3 _). assert (built w w4) as B4.
  { apply (built_trans _ w3); [by eauto using built_trans|]. destruct B3. by constructor. }
  assert (distinct w4 L) as HL4 by (by apply (built_distinct w)).
  pose proof (IH w4 L (bu_inv _ _ B4) HL4) as H5.
  destruct (make_cpu_lists junk_list n w4) as [w'| | |]; try done. destruct H5 as (B5 & C5 & D5 & cs & E5 & Hn & Hcs).
  split; [by eauto using built_trans|]. split; [by apply (calm_trans _ w1), (calm_trans _ w2), (calm_trans _ w3)|].
  split; [rewrite D5; simpl; rewrite D3, D2; apply G1|]. exists (c0 :: cs).
  split; [rewrite E5; simpl; rewrite E3, E2, (gr_cpus _ _ G1), <-app_assoc; done|]. split; [simpl; by rewrite Hn|].
  intros c [->|Hc]%elem_of_cons; [|by apply Hcs]. apply (fresh_cpu_built w4); [done|].
  split_and!; [by apply B3|done|done].
Qed.

Lemma push_list_ok w l us d L :
  is_list (w_k w) l us -> Z.of_nat (length us) < 1000 -> distinct w L ->
  match on_lists w (list_push l d) with
  | Ok w' => exists n, w' = with_k w (w_k w') /\ is_list (w_k w') l ((n, d) :: us) /\
      (forall l' us', l' <> l -> is_list (w_k w) l' us' -> is_list (w_k w') l' us') /\ distinct w' (n :: L) /\
      (files_live w -> files_live w')
  | Halt => True
  | _ => False
  end.
Proof.
  intros Hl Hlen [Hn HL]. unfold on_lists. pose proof (list_push_ok _ _ _ d Hl ltac:(lia)) as Hp.
  destruct (list_push l d (w_k w)) as [k| | |]; mred; try done. destruct Hp as (n & Hl' & Hpu). exists n.
  split_and!; [by destruct w|done|intros l' us' Hne; by apply (pushed_keeps _ _ _ _ _ _ _ Hpu)| |];
    destruct Hpu as [P1 P2 P3 P4 P5]; [|intros Hfl q Hq; apply P3; right; by apply Hfl]. split; simpl.
  - apply NoDup_cons. split; [|done]. by intros Hin%HL.
  - intros q [->|Hq]%elem_of_cons; apply P3; [by left|right; auto].
Qed.

(** [new_kernel_thread]: like a program's thread, but ready at once. *)
Lemma new_kernel_thread_ok w rip kstack :
  alloc_inv (alloc (w_k w)) -> locked (next_tid_lock w) = 0 ->
  match new_kernel_thread junk_thread rip kstack w with
  | Ok (t, w') => fresh w w' t /\ w_procs w' = w_procs w /\ next_tid w' = u64 (next_tid w + 1) /\
      next_pid_lock w' = next_pid_lock w /\ locked (next_tid_lock w') = 0 /\
      exists y, w_threads w' = <[t := y]> (w_threads w) /\ tid y = next_tid w /\ block_channel y = 0
  | Halt => True
  | _ => False
  end.
Proof.
  intros Hi Hlock. unfold new_kernel_thread. pose proof (new_thread_ok junk_thread w Hi Hlock) as Hn.
  destruct (new_thread junk_thread w) as [[t w1]| | |]; mred; try done.
  destruct Hn as ([G Ht Hfr Hlv] & E2 & E3 & E4 & E5 & _ & E6). rewrite (proj2 (Z.eqb_neq _ _) Ht).
  unfold update_thread, thread_at. simpl. rewrite E6, lookup_insert_eq. mred. simpl. rewrite lookup_insert_eq. mred.
  split; [destruct G; by constructor; [constructor|..]|]. simpl. split_and!; try done.
  rewrite ?E6, !insert_insert_eq. by eexists.
Qed.

(** The main process, the main thread and the idle thread, before they are listed. *)
Record booted w w' (p t i : Z) (x : process_t) (tt ti : thread_t) L : Prop := {
  bo_built : built w w';
  bo_same : w_deltas w' = w_deltas w /\ cpu_task_lists w' = cpu_task_lists w;
  bo_maps : w_procs w' = <[p := x]> (w_procs w) /\ w_threads w' = <[i := ti]> (<[t := tt]> (w_threads w));
  bo_process : p_parent x = 0 /\ is_waiting x = false;
  bo_main : tid tt = next_tid w /\ state tt = STATE_RUNNING /\ name tt = MAIN_THREAD /\ process tt = p /\
    block_channel tt = block_channel junk_thread;
  bo_idle : tid ti = next_tid w + 1 /\ state ti = STATE_READY /\ name ti = IDLE_THREAD /\ process ti = p /\
    block_channel ti = 0;
  bo_next : next_tid w' = next_tid w + 2;
  bo_locks : locked (next_tid_lock w') = 0 /\ locked (next_pid_lock w') = 0;
  bo_blocks : distinct w' (i :: t :: p :: L)
}.

Lemma make_bsp_threads_ok w L :
  alloc_inv (alloc (w_k w)) -> locked (next_tid_lock w) = 0 -> locked (next_pid_lock w) = 0 ->
  0 <= next_tid w < 2 ^ 62 -> distinct w L ->
  match make_bsp_threads junk_thread kernel_stack idle_loop O_RDONLY O_WRONLY w with
  | Ok (p, t, i, w') => exists x tt ti, booted w w' p t i x tt ti L
  | Halt => True
  | _ => False
  end.
Proof.
  intros Hi Ht Hp Hn HL. unfold make_bsp_threads. pose proof (new_process_ok O_RDONLY O_WRONLY w Hi Hp) as H1.
  destruct (new_process O_RDONLY O_WRONLY w) as [[p w1]| | |]; mred; try done.
  destruct H1 as ([G1 Hp0 Hpf Hpl] & Et1 & En1 & El1 & Ep1 & _ & x & Ex & Hx). pose proof (grown_built _ _ G1) as B1.
  unfold update_process, process_at. rewrite Ex, lookup_insert_eq. mred. set (w1' := set_process w1 _ _).
  pose proof (new_thread_ok junk_thread w1' (gr_inv _ _ G1) ltac:(simpl; by rewrite El1)) as H2.
  destruct (new_thread junk_thread w1') as [[t w2]| | |]; mred; try done.
  destruct H2 as ([G2 Ht0 Htf Htl] & Eq2 & En2 & El2 & Et2 & _ & Ey). pose proof (grown_built _ _ G2) as B2.
  unfold update_thread, thread_at. rewrite Ey, lookup_insert_eq. mred. simpl. rewrite lookup_insert_eq. mred.
  set (w2' := set_thread _ t _).
  pose proof (on_alloc_ok w2' _ PAGE_SIZE (or_intror eq_refl) (gr_inv _ _ G2) ltac:(unfold PAGE_SIZE; lia)) as H3.
  destruct (on_alloc w2' _) as [[st w3]| | |]; mred; try done. destruct H3 as [[G3 _ _ _] (Et3 & Ep3 & En3 & El3 & Elp3 & _)].
  pose proof (grown_built _ _ G3) as B3.
  pose proof (new_kernel_thread_ok w3 idle_loop (u64 (st + PAGE_SIZE)) (gr_inv _ _ G3) ltac:(by rewrite El3)) as H4.
  destruct (new_kernel_thread junk_thread idle_loop _ w3) as [[i w4]| | |]; mred; try done.
  destruct H4 as ([G4 Hi0 Hif Hil] & Ep4 & En4 & Elp4 & El4 & y & Ey4 & Hy1 & Hy2). pose proof (grown_built _ _ G4) as B4.
  rewrite Ey4, lookup_insert_eq. mred. simpl. rewrite lookup_insert_eq. mred.
  assert (distinct w1' (p :: L)) as D1 by (by apply (distinct_cons w w1)).
  assert (distinct w2' (t :: p :: L)) as D2 by (by apply (distinct_cons w1' w2)).
  assert (distinct w4 (i :: t :: p :: L)) as D4 by (apply (distinct_cons w3 w4); try done; by apply (built_distinct w2')).
  assert (next_tid w1 = next_tid w /\ next_tid w3 = next_tid w + 1) as [N1 N3].
  { split; [done|]. rewrite En3. simpl. rewrite En2. simpl. rewrite En1. apply u64_small. unfold fits_u64. lia. }
  eexists _, _, _. constructor.
  - apply (built_trans _ w1 _ B1), (built_trans _ w2); [by destruct B2; constructor|].
    apply (built_trans _ w3); [by destruct B3; constructor|]. by destruct B4; constructor.
  - simpl. split.
    + by rewrite (gr_deltas _ _ G4), (gr_deltas _ _ G3); simpl; rewrite (gr_deltas _ _ G2); simpl; rewrite (gr_deltas _ _ G1).
    + by rewrite (gr_cpus _ _ G4), (gr_cpus _ _ G3); simpl; rewrite (gr_cpus _ _ G2); simpl; rewrite (gr_cpus _ _ G1).
  - simpl. rewrite Ep4, Ep3, Ey4, Et3. simpl. rewrite Eq2, Ey. simpl. by rewrite Ex, Et1, !insert_insert_eq.
  - by destruct Hx.
  - simpl. by rewrite N1.
  - simpl. by rewrite Hy1, N3.
  - simpl. rewrite En4, N3. rewrite u64_small by (unfold fits_u64; lia). lia.
  - simpl. split; [done|]. rewrite Elp4, Elp3. simpl. by rewrite El2.
  - done.
Qed.

(** The states the boot leaves: one process, the main thread running, the idle thread ready. *)
Lemma booted_states w w' p t i x tt ti L :
  booted w w' p t i x tt ti L -> block_channel junk_thread = 0 ->
  threads_ok (w_threads w') (<[p := pr_set_primary x t]> (w_procs w')) t [i; t] [p] [] (next_tid w + 2).
Proof.
  intros [B _ (Ep & Et) (X1 & X2) (M1 & M2 & M3 & M4 & M5) (I1 & I2 & I3 & I4 & I5) _ _ [Hnd _]] Hj.
  assert (i <> t) as Hit by (intros ->; apply NoDup_cons in Hnd as [Hnd _]; apply Hnd; by left).
  assert (w_threads w' !! i = Some ti) as Li by (by rewrite Et, lookup_insert_eq).
  assert (w_threads w' !! t = Some tt) as Lt by (by rewrite Et, lookup_insert_ne, lookup_insert_eq).
  assert (forall q u, q ∈ [i; t] -> w_threads w' !! q = Some u -> (q = i /\ u = ti) \/ (q = t /\ u = tt)) as Hcase.
  { intros q u Hq Hu. set_unfold in Hq. destruct Hq as [->|[->|[]]]; [left|right]; split; congruence. }
  constructor.
  - intros q Hq. set_unfold in Hq. destruct Hq as [->|[->|[]]]; [exists ti|exists tt]; (split; [done|]); constructor;
      rewrite ?I2, ?I4, ?I5, ?M2, ?M4, ?M5, ?Hj; try done; try (by left); try set_solver.
    + exists (pr_set_primary x t). rewrite lookup_insert_eq. split_and!; [done|by rewrite I3|by states].
    + exists (pr_set_primary x t). rewrite lookup_insert_eq. split_and!; [done|done|by states].
  - intros q ->%list_elem_of_singleton. exists (pr_set_primary x t). rewrite lookup_insert_eq. split; [done|].
    constructor; simpl; [set_solver| |by left]. exists tt. rewrite X2. by split_and!.
  - set_solver.
  - exists i, ti. split_and!; try done. by left.
  - intros q q' u u' Hq Hq' Hu Hu' Hid. destruct (Hcase _ _ Hq Hu) as [[-> ->]|[-> ->]], (Hcase _ _ Hq' Hu') as [[-> ->]|[-> ->]];
      try done; lia.
  - apply NoDup_nil_2.
  - intros q u Hq Hu. destruct (Hcase _ _ Hq Hu) as [[-> ->]|[-> ->]]; lia.
  - intros n Hn. by apply elem_of_nil in Hn.
Qed.

(** What the boot leaves: the main thread [t] runs, the idle thread [i] is ready. *)
Definition up w (c : cpu_task_list_t) (t i : Z) : Prop :=
  current_thread c = t /\
  (exists x, w_threads w !! t = Some x /\ name x = MAIN_THREAD /\ state x = STATE_RUNNING) /\
  (exists x, w_threads w !! i = Some x /\ name x = IDLE_THREAD /\ state x = STATE_READY).

Lemma init_bsp_main_process_ok w c :
  arr_get (cpu_task_lists w) me = Ok c -> (exists d, arr_get (cpu_data_list w) me = Ok d) ->
  (exists g, arr_get (gdt_list (w_gdt w)) me = Ok g) -> alloc_inv (alloc (w_k w)) ->
  is_list (w_k w) (thread_list c) [] -> is_list (w_k w) (process_list c) [] -> is_list (w_k w) (sleeping_queue c) [] ->
  distinct w [sleeping_queue c; thread_list c; process_list c] ->
  locked (next_tid_lock w) = 0 -> locked (next_pid_lock w) = 0 -> 0 <= next_tid w < 2 ^ 62 -> block_channel junk_thread = 0 ->
  match init_bsp_main_process me junk_thread kernel_stack idle_loop O_RDONLY O_WRONLY w with
  | Ok w' => (files_live w -> files_live w') /\ w_gdt w' = w_gdt w /\
      exists c' p t i n1 n2 n3, run_ok me w' c' [(n3, i); (n2, t)] [] [(n1, p)] /\ up w' c' t i
  | Halt => True
  | _ => False
  end.
Proof.
  intros Hc (d & Hd) Hg Hi Ht Hp Hq HL Lt Lp Hn Hj. unfold init_bsp_main_process, get_cpu_task_list. rewrite Hc. mred.
  pose proof (make_bsp_threads_ok w _ Hi Lt Lp Hn HL) as H1.
  destruct (make_bsp_threads _ _ _ _ _ w) as [[[[p t] i] w1]| | |]; mred; try done. destruct H1 as (x & tt & ti & Hbo).
  pose proof (booted_states _ _ _ _ _ _ _ _ _ Hbo Hj) as Hst.
  destruct Hbo as [B [E1 E2] [Ep Et] _ (_ & M2 & M3 & _) (_ & I2 & I3 & _) En [Lt1 Lp1] D].
  assert (NoDup [sleeping_queue c; thread_list c; process_list c]) as Hnd by apply HL.
  rewrite !NoDup_cons, !not_elem_of_cons in Hnd. destruct Hnd as ((N1 & N2 & _) & (N3 & _) & _).
  pose proof (push_list_ok w1 _ _ p _ (bu_list _ _ B _ _ Hp) ltac:(done) D) as P1.
  destruct (on_lists w1 _) as [w2| | |]; mred; try done. destruct P1 as (n1 & W2 & Q1 & K1 & D1 & FL1).
  pose proof (push_list_ok w2 _ _ t _ (K1 _ _ N3 (bu_list _ _ B _ _ Ht)) ltac:(done) D1) as P2.
  destruct (on_lists w2 _) as [w3| | |]; mred; try done. destruct P2 as (n2 & W3 & Q2 & K2 & D2 & FL2).
  pose proof (push_list_ok w3 _ _ i _ Q2 ltac:(done) D2) as P3.
  destruct (on_lists w3 _) as [w4| | |]; mred; try done. destruct P3 as (n3 & W4 & Q3 & K3 & D3 & FL3).
  assert (w4 = with_k w1 (w_k w4)) as W by (rewrite W4, W3, W2; by destruct w1).
  rewrite W. unfold update_process, process_at. simpl. rewrite Ep, lookup_insert_eq. mred. simpl. rewrite E2, Hc. mred.
  unfold set_cpu_list. simpl. set (c1 := mk_cpu_list _ _ _ _ t _ _). rewrite E2.
  destruct (arr_set_get _ _ _ c1 Hc) as (cs & Hcs). rewrite Hcs. mred. unfold get_current_cpu_data. simpl.
  rewrite (bu_data _ _ B), Hd. mred. unfold thread_at. simpl.
  assert (w_threads w1 !! t = Some tt) as Ltt.
  { rewrite Et. rewrite lookup_insert_ne; [apply lookup_insert_eq|]. intros ->. destruct D as [Hnd _].
    apply NoDup_cons in Hnd as [Hnd _]. apply Hnd. by left. }
  rewrite Ltt. mred. destruct (arr_set_get _ _ _ (mk_cpu_data (tss_sp2 d) (kernel_stack_base tt)) Hd) as (ds & Hds).
  rewrite Hds. mred. split; [intros Hfl; rewrite W in FL3; by apply FL3, FL2, FL1, (bu_files _ _ B)|].
  split; [simpl; apply (bu_gdt _ _ B)|].
  exists c1, p, t, i, n1, n2, n3.
  split; [|split; [done|]; split; [by exists tt|exists ti; simpl; by rewrite Et, lookup_insert_eq]].
  assert (distinct w4 (owned c1 [(n3, i); (n2, t)] [] [(n1, p)])) as [Hnd' Hlv].
  { refine (distinct_perm w4 _ _ _ D3). unfold owned, c1. cbn. solve_Permutation. }
  constructor; simpl; try done.
  - by apply (arr_get_set _ _ _ _ Hcs).
  - eexists. by apply (arr_get_set _ _ _ _ Hds).
  - by rewrite (bu_gdt _ _ B).
  - apply (K3 _ _ N1), (K2 _ _ N1), (K1 _ _ N2). by apply B.
  - apply (K3 _ _ (not_eq_sym N3)). by apply (K2 _ _ (not_eq_sym N3)).
  - intros q Hin. by apply elem_of_nil in Hin.
  - by rewrite En.
  - rewrite En. lia.
Qed.

End Boot.

Lemma init_multitasking_ok {A} `{Allocator A} me junk_thread junk_list kernel_stack idle_loop O_RDONLY O_WRONLY
    (w : world A) n :
  0 <= me < n -> n < 2 ^ 32 -> (exists d, arr_get (cpu_data_list w) me = Ok d) ->
  (exists g, arr_get (gdt_list (w_gdt w)) me = Ok g) -> alloc_inv (alloc (w_k w)) ->
  locked (next_tid_lock w) = 0 -> locked (next_pid_lock w) = 0 -> 0 <= next_tid w < 2 ^ 62 -> block_channel junk_thread = 0 ->
  match init_multitasking me junk_thread junk_list kernel_stack idle_loop O_RDONLY O_WRONLY n w with
  | Ok w' => (files_live w -> files_live w') /\ w_gdt w' = w_gdt w /\
      exists c p t i n1 n2 n3, run_ok me w' c [(n3, i); (n2, t)] [] [(n1, p)] /\ up w' c t i
  | Halt => True
  | _ => False
  end.
Proof.
  intros Hme Hn Hd Hg Hi Lt Lp Hnt Hj. unfold init_multitasking.
  assert (distinct w []) as HL by (split; [apply NoDup_nil_2|intros q Hq; by apply elem_of_nil in Hq]).
  pose proof (on_alloc_built w _ (sizeof_cpu_list * n) [] (or_introl eq_refl) Hi ltac:(unfold sizeof_cpu_list; lia) HL) as H1.
  destruct (on_alloc w _) as [[p w1]| | |]; mred; try done. destruct H1 as (G1 & C1 & Hp & _).
  rewrite (proj2 (Z.eqb_neq _ _) Hp). cbn [andb]. pose proof (grown_built _ _ G1) as B1.
  set (w1' := with_cpus w1 []).
  pose proof (make_cpu_lists_ok junk_list (Z.to_nat n) w1' [] (gr_inv _ _ G1) (built_distinct _ _ _ B1 HL)) as H2.
  destruct (make_cpu_lists junk_list (Z.to_nat n) w1') as [w2| | |]; mred; try done.
  destruct H2 as (B2 & C2 & D2 & cs & Ec & Hlen & Hcs). simpl in Ec.
  destruct (lookup_lt_is_Some_2 cs (Z.to_nat me)) as [c Hc]; [lia|].
  assert (arr_get (cpu_task_lists w2) me = Ok c) as Hget by (rewrite Ec; apply arr_get_Ok_iff; split; [lia|done]).
  destruct (Hcs c (list_elem_of_lookup_2 _ _ _ Hc)) as (F1 & F2 & F3). unfold get_cpu_task_list. rewrite Hget. mred.
  pose proof (make_list_ok w2 _ (bu_inv _ _ B2) F3) as H3.
  destruct (make_list w2) as [[q w3]| | |]; mred; try done. destruct H3 as (B3 & C3 & E3 & D3 & L3 & _ & HL3).
  unfold set_cpu_list. rewrite E3. match goal with |- context [arr_set _ me ?x] => set (c1 := x) end.
  destruct (arr_set_get _ _ _ c1 Hget) as (cs' & Hcs'). rewrite Hcs'. mred.
  assert (built w w3) as B.
  { apply (built_trans _ w1 _ B1), (built_trans _ w2 _); [|done]. destruct B2. by constructor. }
  destruct (calm_trans _ _ _ C1 (calm_trans _ _ _ C2 C3)) as (_ & _ & En & Et & Epl & _).
  enough (match init_bsp_main_process me junk_thread kernel_stack idle_loop O_RDONLY O_WRONLY (with_cpus w3 cs') with
    | Ok w' => (files_live (with_cpus w3 cs') -> files_live w') /\ w_gdt w' = w_gdt w3 /\
        exists c p t i n1 n2 n3, run_ok me w' c [(n3, i); (n2, t)] [] [(n1, p)] /\ up w' c t i
    | Halt => True | _ => False end) as Hbsp.
  { destruct (init_bsp_main_process _ _ _ _ _ _ _) as [w4| | |]; try done. destruct Hbsp as (Hfl & Hg' & Hrun).
    split; [intros Hw; apply Hfl; by apply (bu_files _ _ B)|]. split; [|done]. by rewrite Hg', (bu_gdt _ _ B). }
  apply (init_bsp_main_process_ok me junk_thread kernel_stack idle_loop O_RDONLY O_WRONLY (with_cpus w3 cs') c1); simpl; try done.
  - by apply (arr_get_set _ _ _ _ Hcs').
  - by rewrite (bu_data _ _ B).
  - by rewrite (bu_gdt _ _ B).
  - apply B.
  - by apply B3.
  - by apply B3.
  - by rewrite Et.
  - by rewrite Epl.
  - by rewrite En.
Qed.

(** ** Theorem *)


(** The sample machine before the scheduler is set up. *)
Definition sample_boot : world arena :=
  with_k (with_cpus (sample_world false) []) (mk_kstate (mk_arena 8000 ∅) ∅ ∅).

