(* ===== verification/Task.v ===== *)
(** * Tasks (src/kernel/multitasking/task.c)

    What was there before threads and processes: a task is both.  The functions
    are still compiled, with a counter and a lock of their own. *)

From S2P Require Import Prelude Sync Bitmap Pmm Paging Bytes Heap Alloc Klist Vfs Desc Sched SchedFair SchedSleep SchedInv SchedSpawn.

(** ** Data *)

Record task_t := mk_task {
  t_pid : Z; t_k_rsp : Z; t_cr3 : Z; t_state : Z; t_vruntime : Z; t_sleep_ticks : Z; t_block_channel : Z; t_tid : Z;
  t_name : list Z; t_kernel_stack_base : Z; t_heap_end : Z; t_parent : Z; t_next_task : Z; t_exit_code : Z;
  t_file_table : list Z; t_process : Z
}.
Definition sizeof_task : Z := 376.

(** The kernel's state with the tasks, and the static variables of task.c. *)
Record tasks (A : Type) := mk_tasks {
  tk_w : world A;
  tk_tasks : gmap Z task_t;
  pid_lock : safe_lock_t;
  tk_next_pid : Z
}.
Arguments mk_tasks {A}.
Arguments tk_w {A} _.
Arguments tk_tasks {A} _.
Arguments pid_lock {A} _.
Arguments tk_next_pid {A} _.

Section Code.
Context {A : Type} `{Allocator A}.
(** What a fresh block holds; the address of [kernel_idle_loop]; of [fcntl.h]. *)
Context (junk_task : task_t) (kernel_idle_loop O_RDONLY O_WRONLY : Z).
Implicit Types (s : tasks A).

Definition with_tw s w : tasks A := mk_tasks w (tk_tasks s) (pid_lock s) (tk_next_pid s).

Definition new_pid s : outcome (Z * tasks A) :=
  '(fl, l, c) ← safe_lock (pid_lock s) (w_cpu (tk_w s));
  let pid := tk_next_pid s in
  let '(l, c) := safe_unlock l fl c in
  let w := tk_w s in
  Ok (pid, mk_tasks (with_tid w (next_tid w) (next_tid_lock w) c) (tk_tasks s) l (u64 (pid + 1))).

(** Like [push_frame], with the data segment in [rbx] as well. *)
Definition push_task_frame (m : bytes) (krsp rip cs ds ursp : Z) : bytes :=
  let m := memset m krsp 0 sizeof_new_stack in
  let m := store64 m (u64 (krsp + 8)) ds in
  let m := store64 m (u64 (krsp + 120)) rip in
  let m := store64 m (u64 (krsp + 128)) cs in
  let m := store64 m (u64 (krsp + 136)) 514 in
  let m := store64 m (u64 (krsp + 144)) ursp in
  store64 m (u64 (krsp + 152)) ds.

Definition new_user_task (rip user_stack kernel_stack : Z) s : outcome (Z * tasks A) :=
  '(task, w) ← on_alloc (tk_w s) (a_kmalloc sizeof_task);
  let s := with_tw s w in
  if task =? 0 then Ok (0, s)
  else
    let cs := Z.lor __USER_CS 3 in
    let ds := Z.lor __USER_DS 3 in
    let krsp := u64 (kernel_stack - sizeof_new_stack) in
    let s := with_tw s (with_stacks (tk_w s) (push_task_frame (w_stacks (tk_w s)) krsp rip cs ds user_stack)) in
    '(pid, s) ← new_pid s;
    let ft := replicate (Z.to_nat MAX_FILES_PER_PROCESS) 0 in
    '(f0, w) ← create_kernel_console_file O_RDONLY (tk_w s);
    ft ← arr_set ft 0 f0;
    '(f1, w) ← create_kernel_console_file O_WRONLY w;
    ft ← arr_set ft 1 f1;
    '(f2, w) ← create_kernel_console_file O_WRONLY w;
    ft ← arr_set ft 2 f2;
    let j := junk_task in
    let t := mk_task pid krsp (t_cr3 j) (t_state j) (t_vruntime j) (t_sleep_ticks j) (t_block_channel j) (t_tid j) (t_name j)
               kernel_stack (t_heap_end j) (t_parent j) (t_next_task j) (t_exit_code j) ft (t_process j) in
    Ok (task, mk_tasks w (<[task := t]> (tk_tasks s)) (pid_lock s) (tk_next_pid s)).

(** One page is the stack; its first address is passed as the stack's top. *)
Definition new_idle_task s : outcome (Z * tasks A) :=
  '(stack_raw, p) ← pmm_alloc (vm_pmm (w_vm (tk_w s)));
  let v := with_pmm (w_vm (tk_w s)) p in
  v ← map_page (kernel_pml4 v) (PHYS_TO_VIRT (hhdm_offset v) stack_raw) stack_raw (Z.lor PTE_WRITABLE PTE_USER) v;
  let s := with_tw s (with_vm (tk_w s) v (w_cr3 (tk_w s))) in
  let top := PHYS_TO_VIRT (hhdm_offset v) stack_raw in
  new_user_task kernel_idle_loop top top s.
End Code.

(** ** Lemmas *)

Section Lemmas.
Context {A : Type} `{Allocator A}.
Context (junk_task : task_t) (O_RDONLY O_WRONLY : Z).
Implicit Types (s : tasks A).

(** What [new_user_task] made. *)
Record task_made s s' (task rip user_stack kernel_stack : Z) : Prop := {
  tm_fresh : fresh (tk_w s) (tk_w s') task;
  tm_task : exists t, tk_tasks s' = <[task := t]> (tk_tasks s) /\ t_pid t = tk_next_pid s /\
    t_kernel_stack_base t = kernel_stack /\ t_k_rsp t = u64 (kernel_stack - sizeof_new_stack) /\
    length (t_file_table t) = Z.to_nat MAX_FILES_PER_PROCESS;
  tm_next : tk_next_pid s' = u64 (tk_next_pid s + 1);
  tm_lock : locked (pid_lock s') = 0;
  tm_stack : w_stacks (tk_w s') = push_task_frame (w_stacks (tk_w s)) (u64 (kernel_stack - sizeof_new_stack)) rip
    (Z.lor __USER_CS 3) (Z.lor __USER_DS 3) user_stack
}.

Lemma new_user_task_ok rip user_stack kernel_stack s :
  alloc_inv (alloc (w_k (tk_w s))) -> locked (pid_lock s) = 0 ->
  match new_user_task junk_task O_RDONLY O_WRONLY rip user_stack kernel_stack s with
  | Ok (task, s') => task_made s s' task rip user_stack kernel_stack
  | Halt => True
  | _ => False
  end.
Proof.
  intros Hi Hl. unfold new_user_task.
  pose proof (on_alloc_ok (tk_w s) _ sizeof_task (or_introl eq_refl) Hi ltac:(unfold sizeof_task; lia)) as H1.
  destruct (on_alloc (tk_w s) _) as [[task w1]| | |]; mred; try done. destruct H1 as [[G1 Ht Hf Hlv] C1].
  rewrite (proj2 (Z.eqb_neq _ _) Ht). unfold new_pid. cbn [with_tw pid_lock tk_w]. rewrite safe_lock_free by done. mred.
  unfold safe_unlock. mred. cbn [tk_w tk_tasks pid_lock tk_next_pid].
  match goal with |- context [create_kernel_console_file O_RDONLY ?x] => set (w2 := x) end.
  assert (grown w1 w2) as G2 by (destruct G1; by constructor).
  pose proof (console_file_ok w2 O_RDONLY (gr_inv _ _ G2)) as H3.
  destruct (create_kernel_console_file O_RDONLY w2) as [[f0 w3]| | |]; mred; try done. destruct H3 as [G3 C3].
  rewrite arr_set_ok by done. mred. pose proof (console_file_ok w3 O_WRONLY (gr_inv _ _ G3)) as H4.
  destruct (create_kernel_console_file O_WRONLY w3) as [[f1 w4]| | |]; mred; try done. destruct H4 as [G4 C4].
  rewrite arr_set_ok by done. mred. pose proof (console_file_ok w4 O_WRONLY (gr_inv _ _ G4)) as H5.
  destruct (create_kernel_console_file O_WRONLY w4) as [[f2 w5]| | |]; mred; try done. destruct H5 as [G5 C5].
  rewrite arr_set_ok by done. mred.
  assert (grown w1 w5) as G by eauto using grown_trans.
  destruct (calm_trans _ _ _ C3 (calm_trans _ _ _ C4 C5)) as (_ & _ & _ & _ & _ & Es), C1 as (_ & _ & _ & _ & _ & Fs).
  constructor; cbn [tk_w tk_tasks tk_next_pid pid_lock].
  - constructor; [by eapply grown_trans|done|done|by apply (gr_live _ _ G)].
  - eexists. split; [reflexivity|]. split_and!; reflexivity.
  - reflexivity.
  - reflexivity.
  - rewrite Es. unfold w2. cbn [w_stacks with_tid with_stacks]. rewrite Fs. reflexivity.
Qed.
End Lemmas.

(** The words of a task's frame; nothing else is written. *)
Lemma push_task_frame_ok m krsp rip cs ds ursp :
  range_ok krsp sizeof_new_stack -> fits_u64 rip -> fits_u64 cs -> fits_u64 ds -> fits_u64 ursp ->
  let m' := push_task_frame m krsp rip cs ds ursp in
  load64 m' (krsp + 8) = ds /\ load64 m' (krsp + 120) = rip /\ load64 m' (krsp + 128) = cs /\
  load64 m' (krsp + 144) = ursp /\ load64 m' (krsp + 152) = ds /\
  forall x, fits_u64 x -> ~ within krsp sizeof_new_stack x -> m' x = m x.
Proof.
  unfold sizeof_new_stack, push_task_frame, store64, load64. intros Hr H1 H2 H3 H4. unfold range_ok in Hr.
  rewrite !u64_small by (unfold fits_u64; lia). unfold fits_u64 in *.
  split_and!; try (repeat (rewrite load_skip by lia); rewrite load_same by lia; reflexivity).
  intros x Hx Hout. unfold within in Hout.
  rewrite !store_le_other by (unfold range_ok, within; lia). apply memset_other; unfold range_ok, fits_u64, within, sizeof_new_stack; lia.
Qed.

(** ** Theorem *)

(** [new_user_task] either stops for want of memory or returns a fresh task with
    the next number and three console files, whose first frame, just below the
    stack address it was given, enters user mode at [rip].  [new_idle_task] gives it
    the first address of the page it allocated as that address: the frame lies
    below the page, in memory that is not the task's, and the page is not written. *)
Theorem idle_task_frame_outside {A} `{Allocator A} junk idle ro wo (s : tasks A) raw p v :
  alloc_inv (alloc (w_k (tk_w s))) -> locked (pid_lock s) = 0 -> fits_u64 idle ->
  pmm_alloc (vm_pmm (w_vm (tk_w s))) = Ok (raw, p) ->
  map_page (kernel_pml4 (w_vm (tk_w s))) (PHYS_TO_VIRT (hhdm_offset (w_vm (tk_w s))) raw) raw (Z.lor PTE_WRITABLE PTE_USER)
    (with_pmm (w_vm (tk_w s)) p) = Ok v ->
  let top := PHYS_TO_VIRT (hhdm_offset v) raw in
  160 <= top < 18446744073709551616 - PAGE_SIZE ->
  match new_idle_task junk idle ro wo s with
  | Ok (task, s') => exists t, tk_tasks s' !! task = Some t /\ t_pid t = tk_next_pid s /\ t_k_rsp t = top - 160 /\
      load64 (w_stacks (tk_w s')) (t_k_rsp t + 120) = idle /\
      (forall x, within (t_k_rsp t) 160 x -> ~ within top PAGE_SIZE x) /\
      (forall x, within top PAGE_SIZE x -> w_stacks (tk_w s') x = w_stacks (tk_w s) x)
  | Halt => True
  | _ => False
  end.
Proof.
  intros Hi Hl Hidle Hp Hm top Htop. unfold new_idle_task. rewrite Hp. mred. cbn [with_pmm kernel_pml4 hhdm_offset].
  unfold with_pmm in Hm |- *. rewrite Hm. mred. fold top. set (s1 := with_tw s _).
  pose proof (new_user_task_ok junk ro wo idle top top s1 Hi Hl) as H1.
  destruct (new_user_task junk ro wo idle top top s1) as [[task s']| | |]; try done.
  destruct H1 as [_ (t & Et & Hpid & _ & Hk & _) _ _ Hst]. unfold PAGE_SIZE in *.
  rewrite u64_small in Hk, Hst by (unfold fits_u64, sizeof_new_stack; lia).
  destruct (push_task_frame_ok (w_stacks (tk_w s)) (top - 160) idle (Z.lor __USER_CS 3) (Z.lor __USER_DS 3) top)
    as (_ & Hrip & _ & _ & _ & Hoth); try done; try (split; reflexivity || discriminate);
    [unfold range_ok, sizeof_new_stack; lia|unfold fits_u64; lia|].
  exists t. rewrite Et, lookup_insert_eq. split; [done|]. split; [done|]. split; [exact Hk|]. rewrite Hk, Hst.
  split; [exact Hrip|]. unfold within, sizeof_new_stack. split; [lia|]. intros x Hx. apply Hoth; unfold fits_u64, within, sizeof_new_stack; lia.
Qed.

Definition sample_tasks : tasks arena := mk_tasks (sample_world false) ∅ (mk_safe_lock 0) 0.
Definition sample_task : task_t := mk_task 0 0 0 0 0 0 0 0 [] 0 0 0 0 0 [] 0.

Lemma sample_idle_page :
  exists raw p v, pmm_alloc (vm_pmm (w_vm (tk_w sample_tasks))) = Ok (raw, p) /\
    map_page (kernel_pml4 (w_vm (tk_w sample_tasks))) (PHYS_TO_VIRT (hhdm_offset (w_vm (tk_w sample_tasks))) raw) raw
      (Z.lor PTE_WRITABLE PTE_USER) (with_pmm (w_vm (tk_w sample_tasks)) p) = Ok v /\
    160 <= PHYS_TO_VIRT (hhdm_offset v) raw < 18446744073709551616 - PAGE_SIZE.
Proof.
  assert (match pmm_alloc (vm_pmm (w_vm (tk_w sample_tasks))) with
    | Ok (raw, p) =>
        match map_page (kernel_pml4 (w_vm (tk_w sample_tasks))) (PHYS_TO_VIRT (hhdm_offset (w_vm (tk_w sample_tasks))) raw) raw
          (Z.lor PTE_WRITABLE PTE_USER) (with_pmm (w_vm (tk_w sample_tasks)) p) with
        | Ok v => (160 <=? PHYS_TO_VIRT (hhdm_offset v) raw) && (PHYS_TO_VIRT (hhdm_offset v) raw <? 18446744073709551616 - PAGE_SIZE)
        | _ => false
        end
    | _ => false
    end = true) as Hb by (vm_compute; reflexivity).
  destruct (pmm_alloc _) as [[raw p]| | |] eqn:Hp; try discriminate Hb.
  destruct (map_page _ _ _ _ _) as [v| | |] eqn:Hv; try discriminate Hb. bool_hyps.
  exists raw, p, v. split; [reflexivity|]. split; [exact Hv|]. lia.
Qed.

Lemma idle_task_frame_outside_witness :
  match new_idle_task sample_task 777 0 1 sample_tasks with
  | Ok (task, s') => exists t, tk_tasks s' !! task = Some t /\ t_pid t = 0 /\
      load64 (w_stacks (tk_w s')) (t_k_rsp t + 120) = 777
  | Halt => True
  | _ => False
  end.
Proof.
  destruct sample_idle_page as (raw & p & v & Hp & Hm & Htop).
  pose proof (idle_task_frame_outside sample_task 777 0 1 sample_tasks raw p v (sample_alloc false) eq_refl
    ltac:(unfold fits_u64; lia) Hp Hm Htop) as Hx.
  destruct (new_idle_task sample_task 777 0 1 sample_tasks) as [[task s']| | |]; [|exact I|exact Hx|exact Hx].
  destruct Hx as (t & Ht & Hpid & _ & Hrip & _). exists t. split; [exact Ht|]. split; [exact Hpid|exact Hrip].
Defined.
