(* ===== verification/Kernel.v ===== *)
(** * System calls (src/kernel/syscall.c), the console (src/kernel/drivers/console.c)
    and the start of programs (src/kernel/elf.c)

    The components put together: the scheduler's state, the file system, the
    keyboard, the clock and the memory of the calling process.  The file system
    and the scheduler share the allocator.  Open files of the file system are
    objects of Vfs.v, console files are kept with the scheduler's state; a
    descriptor may name either. *)

From S2P Require Import Prelude Font Video Sync Bitmap Pmm Paging Bytes Heap Alloc Klist Vfs Keyboard Device Time Desc Sched Elf.

(** ** Data *)

Record kernel (A D : Type) := mk_kernel {
  k_w : world A;
  k_objs : gmap Z obj;
  k_root : Z;
  k_ino : Z;
  k_kbd : kbd;
  console_lock : safe_lock_t;
  console_read_owner : Z;
  (** The text console of Video.v. *)
  screen : term;
  (** The memory the calling process sees at its own addresses. *)
  k_user : bytes;
  k_dev : D;
  k_now : datetime_t
}.
Arguments mk_kernel {A D}.
Arguments k_w {A D} _.
Arguments k_objs {A D} _.
Arguments k_root {A D} _.
Arguments k_ino {A D} _.
Arguments k_kbd {A D} _.
Arguments console_lock {A D} _.
Arguments console_read_owner {A D} _.
Arguments screen {A D} _.
Arguments k_user {A D} _.
Arguments k_dev {A D} _.
Arguments k_now {A D} _.

Definition MAX_FD : Z := 16.
Definition USR_HEAP_BASE : Z := 268435456.

Definition SC_READ : Z := 0.
Definition SC_WRITE : Z := 1.
Definition SC_OPEN : Z := 2.
Definition SC_MMAP : Z := 9.
Definition SC_MUNMAP : Z := 11.
Definition SC_YIELD : Z := 24.
Definition SC_EXECVE : Z := 59.
Definition SC_EXIT : Z := 60.
Definition SC_UPRINT : Z := 99.
Definition SC_TIME : Z := 201.
Definition SC_WAITID : Z := 247.

Record pt_regs_t := mk_regs {
  r_rax : Z; r_rbx : Z; r_rcx : Z; r_rdx : Z; r_rsi : Z; r_rdi : Z; r_rbp : Z;
  r_r8 : Z; r_r9 : Z; r_r10 : Z; r_r11 : Z; r_r12 : Z; r_r13 : Z; r_r14 : Z; r_r15 : Z;
  r_orig_ax : Z; r_rip : Z; r_cs : Z; r_rflags : Z; r_rsp : Z; r_ss : Z
}.
Definition set_rax (f : pt_regs_t) (v : Z) : pt_regs_t :=
  mk_regs v (r_rbx f) (r_rcx f) (r_rdx f) (r_rsi f) (r_rdi f) (r_rbp f) (r_r8 f) (r_r9 f) (r_r10 f) (r_r11 f)
    (r_r12 f) (r_r13 f) (r_r14 f) (r_r15 f) (r_orig_ax f) (r_rip f) (r_cs f) (r_rflags f) (r_rsp f) (r_ss f).

(** ** Updates *)

Section Setters.
Context {A D : Type}.
Implicit Types (k : kernel A D).

Definition set_w k w : kernel A D := mk_kernel w (k_objs k) (k_root k) (k_ino k) (k_kbd k) (console_lock k)
  (console_read_owner k) (screen k) (k_user k) (k_dev k) (k_now k).
Definition set_fs k (s : fs A) : kernel A D :=
  mk_kernel (with_k (k_w k) (mk_kstate (fs_alloc s) (lists (w_k (k_w k))) (nodes (w_k (k_w k)))))
    (objs s) (root_dentry s) (next_ino_num s) (k_kbd k) (console_lock k) (console_read_owner k) (screen k)
    (k_user k) (k_dev k) (k_now k).
Definition set_kbd k b : kernel A D := mk_kernel (k_w k) (k_objs k) (k_root k) (k_ino k) b (console_lock k)
  (console_read_owner k) (screen k) (k_user k) (k_dev k) (k_now k).
Definition set_owner k o : kernel A D := mk_kernel (k_w k) (k_objs k) (k_root k) (k_ino k) (k_kbd k) (console_lock k)
  o (screen k) (k_user k) (k_dev k) (k_now k).
Definition set_screen k s : kernel A D := mk_kernel (k_w k) (k_objs k) (k_root k) (k_ino k) (k_kbd k) (console_lock k)
  (console_read_owner k) s (k_user k) (k_dev k) (k_now k).
Definition set_console_lock k l : kernel A D := mk_kernel (k_w k) (k_objs k) (k_root k) (k_ino k) (k_kbd k) l
  (console_read_owner k) (screen k) (k_user k) (k_dev k) (k_now k).
Definition set_user k m : kernel A D := mk_kernel (k_w k) (k_objs k) (k_root k) (k_ino k) (k_kbd k) (console_lock k)
  (console_read_owner k) (screen k) m (k_dev k) (k_now k).
Definition set_clock k d t : kernel A D := mk_kernel (k_w k) (k_objs k) (k_root k) (k_ino k) (k_kbd k) (console_lock k)
  (console_read_owner k) (screen k) (k_user k) d t.
Definition set_cpu k (c : cpu) : kernel A D :=
  set_w k (with_tid (k_w k) (next_tid (k_w k)) (next_tid_lock (k_w k)) c).

(** The file system's part of the state. *)
Definition get_fs k : fs A := mk_fs (alloc (w_k (k_w k))) (k_objs k) (k_root k) (k_ino k).
End Setters.

(** [n] bytes of memory from [a] on. *)
Fixpoint read_bytes (n : nat) (m : bytes) (a : Z) : list Z :=
  match n with
  | O => []
  | S n => m a :: read_bytes n m (u64 (a + 1))
  end.

Section Code.
Context {A D : Type} `{Allocator A} `{Device D}.
Context (me : Z).
(** What fresh blocks hold. *)
Context (junk_thread : thread_t) (junk : nat -> Z).
(** Runs other threads and comes back; the address of [console_read], which is
    its wait channel. *)
Context (kernel_yield : kernel A D -> outcome (kernel A D)).
Context (console_channel : Z).
(** Of the C library's headers. *)
Context (O_RDONLY O_WRONLY EMFILE ENOENT ENOMEM EBADF EINVAL : Z).
(** The string a user pointer leads to, up to its terminator. *)
Context (user_string : bytes -> Z -> list Z).
(** [printf("%s", str)] of the kernel's C library, on the console. *)
Context (printf_s : list Z -> term -> outcome term).
(** Rounds granted to loops that wait for another thread or for the clock. *)
Context (fuel : nat).
Implicit Types (k : kernel A D).

(** *** Access *)

Definition on_world k (f : world A -> outcome (world A)) : outcome (kernel A D) := w ← f (k_w k); Ok (set_w k w).
Definition on_fs {B} k (f : fs A -> outcome (B * fs A)) : outcome (B * kernel A D) :=
  '(r, s) ← f (get_fs k); Ok (r, set_fs k s).
(** [kfree] of a file or a buffer. *)
Definition kfree_obj (p : Z) k : outcome (kernel A D) := s ← free_obj p (get_fs k); Ok (set_fs k s).
Definition file_of k (p : Z) : option file_t :=
  match w_files (k_w k) !! p with Some f => Some f | None => file_at (k_objs k) p end.
(** [f_lock] of a file, where the file is. *)
Definition set_f_lock k (p v : Z) : outcome (kernel A D) :=
  match w_files (k_w k) !! p with
  | Some f => Ok (set_w k (with_files (k_w k) (<[p := mk_file v (f_dentry f) (f_pos f) (f_ops f) (f_flags f)]>
                                                 (w_files (k_w k)))))
  | None =>
      f ← deref (file_at (k_objs k) p);
      Ok (set_fs k (set_obj (get_fs k) p (OFile (mk_file v (f_dentry f) (f_pos f) (f_ops f) (f_flags f)))))
  end.
Definition current_process k : outcome process_t :=
  p ← get_current_process me (k_w k); process_at (k_w k) p.
Definition update_current_process k (f : process_t -> process_t) : outcome (kernel A D) :=
  p ← get_current_process me (k_w k); on_world k (fun w => update_process w p f).

(** *** console.c *)

(** [t->block_channel = console_channel; t->state = STATE_WAITING; kernel_yield()]. *)
Definition console_block (t : Z) k : outcome (kernel A D) :=
  k ← on_world k (fun w => update_thread w t (fun x => th_set_state (th_set_channel x console_channel) STATE_WAITING));
  kernel_yield k.

Fixpoint console_acquire (n : nat) (t : Z) k : outcome (kernel A D) :=
  if negb (console_read_owner k =? 0) && negb (console_read_owner k =? t) then
    match n with O => Hang | S n => k ← console_block t k; console_acquire n t k end
  else Ok k.

(** Every thread that waits for the console is made ready. *)
Fixpoint wake_waiters (n : nat) (i l : Z) (w : world A) : outcome (world A) :=
  match n with
  | O => Ok w
  | S n =>
      p ← list_get_at l i (w_k w);
      x ← thread_at w p;
      let w := if (state x =? STATE_WAITING) && (block_channel x =? console_channel)
               then set_thread w p (th_set_channel (th_set_state x STATE_READY) 0) else w in
      wake_waiters n (i + 1) l w
  end.

Fixpoint console_get (n : nat) (t buf : Z) k : outcome (Z * kernel A D) :=
  '(c, b) ← keyboard_get_char (k_kbd k);
  let k := set_kbd k b in
  if c =? 0 then
    match n with O => Hang | S n => k ← console_block t k; console_get n t buf k end
  else
    let k := set_user k (store8 (k_user k) buf c) in
    let k := set_owner k 0 in
    cpu ← get_cpu_task_list me (k_w k);
    l ← deref (lists (w_k (k_w k)) !! thread_list cpu);
    k ← on_world k (wake_waiters (Z.to_nat (count l)) 0 (thread_list cpu));
    Ok (1, k).

Definition console_read (buf : Z) k : outcome (Z * kernel A D) :=
  _ ← get_cpu_task_list me (k_w k);
  t ← get_current_thread me (k_w k);
  k ← console_acquire fuel t k;
  console_get fuel t buf (set_owner k t).

Fixpoint put_chars (l : list Z) (t : term) : outcome term :=
  match l with
  | [] => Ok t
  | c :: l => t ← put_char c t; put_chars l t
  end.

Definition console_write (buf count : Z) k : outcome (Z * kernel A D) :=
  '(flags, l, c) ← safe_lock (console_lock k) (w_cpu (k_w k));
  let k := set_cpu (set_console_lock k l) c in
  t ← put_chars (read_bytes (Z.to_nat count) (k_user k) buf) (screen k);
  let k := set_screen k t in
  let '(l, c) := safe_unlock (console_lock k) flags (w_cpu (k_w k)) in
  Ok (count, set_cpu (set_console_lock k l) c).

(** *** vfs.c: reading through a descriptor *)

Definition file_read (filp buf size : Z) k : outcome (Z * kernel A D) :=
  if filp =? 0 then Ok (-1, k)
  else
    f ← deref (file_of k filp);
    match f_ops f with
    | None => Ok (-1, k)
    | Some ConsoleFops => console_read buf k
    | Some RamfsFops =>
        '(r, out, pos, s) ← ramfs_read filp size (f_pos f) (get_fs k);
        let k := set_fs k s in
        f ← deref (file_at (k_objs k) filp);
        let k := set_fs k (set_obj (get_fs k) filp (OFile (mk_file (f_lock f) (f_dentry f) pos (f_ops f) (f_flags f)))) in
        Ok (r, set_user k (put_bytes (k_user k) buf out))
    end.

(** *** syscall.c *)

(** The first free descriptor. *)
Fixpoint free_fd (n : nat) (i : Z) (ft : list Z) : outcome Z :=
  match n with
  | O => Ok (-1)
  | S n => x ← arr_get ft i; if x =? 0 then Ok i else free_fd n (i + 1) ft
  end.

Definition set_fd (fd file : Z) (x : process_t) : process_t :=
  mk_process (pid x) (cr3 x) (heap_end x) (p_parent x) (exit_code x) (is_waiting x) (wait_target_pid x)
    (<[Z.to_nat fd := file]> (file_table x)) (primary x).

(** [path] is [None] for a null pointer. *)
Definition sys_open (path : option (list Z)) (flags : Z) k : outcome (Z * kernel A D) :=
  match path with
  | None => Ok (-1, k)
  | Some path =>
      if k_root k =? 0 then Ok (-1, k)
      else
        let path := if bool_decide (hd_error path = Some 47) then tail path else path in
        p ← current_process k;
        fd ← free_fd (Z.to_nat MAX_FILES_PER_PROCESS) 0 (file_table p);
        if fd =? -1 then Ok (- EMFILE, k)
        else
          '(dentry, k) ← on_fs k (vfs_lookup (Some path));
          i ← inode_of dentry (get_fs k);
          match i with
          | None => Ok (- ENOENT, k)
          | Some i =>
              inode ← deref (inode_at (k_objs k) i);
              '(file, k) ← on_fs k (new_obj sizeof_file (OFile (mk_file 0 dentry 0 (i_fop inode) flags)));
              if file =? 0 then Ok (- ENOMEM, k)
              else k ← update_current_process k (set_fd fd file); Ok (fd, k)
          end
  end.

Definition sys_read (fd buffer size : Z) k : outcome (Z * kernel A D) :=
  if (buffer =? 0) || (size =? 0) then Ok (-1, k)
  else
    p ← current_process k;
    file ← arr_get (file_table p) fd;
    f ← deref (file_of k file);
    if Z.land (f_flags f) 3 =? O_WRONLY then Ok (- EBADF, k)
    else if (fd <? 0) || (fd >=? MAX_FD) || (file =? 0) then Ok (-1, k)
    else file_read file buffer size k.

Definition sys_write (fd buffer size : Z) k : outcome (Z * kernel A D) :=
  if (fd <? 0) || (fd >=? MAX_FILES_PER_PROCESS) then Ok (- EBADF, k)
  else
    p ← current_process k;
    file ← arr_get (file_table p) fd;
    if file =? 0 then Ok (- EBADF, k)
    else
      f ← deref (file_of k file);
      match f_ops f with
      | None => Ok (- EBADF, k)
      | Some ops =>
          if Z.land (f_flags f) 3 =? O_RDONLY then Ok (- EBADF, k)
          else
            l ← spin_lock (mk_spinlock (f_lock f));
            k ← set_f_lock k file (spin_locked l);
            '(written, k) ←
              match ops with
              | ConsoleFops => console_write buffer size k
              | RamfsFops =>
                  '(r, pos, s) ← ramfs_write junk file (read_bytes (Z.to_nat size) (k_user k) buffer) size (f_pos f)
                                   (get_fs k);
                  let k := set_fs k s in
                  f ← deref (file_at (k_objs k) file);
                  Ok (r, set_fs k (set_obj (get_fs k) file
                           (OFile (mk_file (f_lock f) (f_dentry f) pos (f_ops f) (f_flags f)))))
              end;
            k ← set_f_lock k file (spin_locked (spin_unlock l));
            Ok (written, k)
      end.

Definition sys_print (str : list Z) k : outcome (kernel A D) := t ← printf_s str (screen k); Ok (set_screen k t).

(** [sys_exit] up to the yield. *)
Definition exit_current (code : Z) k : outcome (kernel A D) :=
  cpu ← get_cpu_task_list me (k_w k);
  pp ← get_current_process me (k_w k);
  k ← on_world k (fun w => update_process w pp (fun x =>
        mk_process (pid x) (cr3 x) (heap_end x) (p_parent x) code (is_waiting x) (wait_target_pid x)
          (file_table x) (primary x)));
  k ← on_world k (fun w => update_thread w (current_thread cpu) (fun t => th_set_state t STATE_DEAD));
  p ← process_at (k_w k) pp;
  if p_parent p =? 0 then Ok k
  else
    parent ← process_at (k_w k) (p_parent p);
    if is_waiting parent && (wait_target_pid parent =? pid p) then
      k ← on_world k (fun w => update_process w (p_parent p) (fun x =>
            mk_process (pid x) (cr3 x) (heap_end x) (p_parent x) (exit_code x) false (wait_target_pid x)
              (file_table x) (primary x)));
      parent ← process_at (k_w k) (p_parent p);
      if negb (primary parent =? 0)
      then on_world k (fun w => update_thread w (primary parent) (fun t => th_set_state t STATE_READY))
      else Ok k
    else Ok k.

(** [while (1)] after the yield. *)
Definition sys_exit (code : Z) k : outcome (kernel A D) :=
  k ← exit_current code k; k ← kernel_yield k; Hang.

Definition sys_time (ptr : Z) k : outcome (Z * kernel A D) :=
  '(dt, d) ← now fuel (k_now k) (k_dev k);
  let k := set_clock k d dt in
  Ok (0, set_user k (store64 (k_user k) ptr (dttots dt))).

(** [sys_waitpid] up to the yield: the result, or the child waited for. *)
Definition wait_for (n : Z) k : outcome ((Z + Z) * kernel A D) :=
  cpu ← get_cpu_task_list me (k_w k);
  pp ← get_current_process me (k_w k);
  child ← process_by_pid me n (k_w k);
  if child =? 0 then Ok (inl (-1), k)
  else
    c ← process_at (k_w k) child;
    dead ← (if primary c =? 0 then Ok false
            else t ← thread_at (k_w k) (primary c); Ok (state t =? STATE_DEAD));
    if dead : bool then Ok (inl (exit_code c), k)
    else
      k ← on_world k (fun w => update_process w pp (fun x =>
            mk_process (pid x) (cr3 x) (heap_end x) (p_parent x) (exit_code x) true n (file_table x) (primary x)));
      k ← on_world k (fun w => update_thread w (current_thread cpu) (fun t => th_set_state t STATE_WAITING));
      c ← process_at (k_w k) child;
      _ ← thread_at (k_w k) (primary c);
      Ok (inr child, k).

Definition sys_waitpid (n : Z) k : outcome (Z * kernel A D) :=
  '(r, k) ← wait_for n k;
  match r with
  | inl r => Ok (r, k)
  | inr child => k ← kernel_yield k; c ← process_at (k_w k) child; Ok (exit_code c, k)
  end.

(** The loop of [sys_alloc_pages]; [false]: no page left. *)
Fixpoint alloc_user_pages (n : nat) (i pm virt_start : Z) (s : vm) : outcome (bool * vm) :=
  match n with
  | O => Ok (true, s)
  | S n =>
      '(phy_page, p) ← pmm_alloc (vm_pmm s);
      let s := with_pmm s p in
      if phy_page =? 0 then Ok (false, s)
      else
        s ← map_page pm (u64 (virt_start + i * PAGE_SIZE)) phy_page user_flags s;
        alloc_user_pages n (i + 1) pm virt_start s
  end.

Definition sys_alloc_pages (pages : Z) k : outcome (Z * kernel A D) :=
  if pages =? 0 then Ok (0, k)
  else
    pp ← get_current_process me (k_w k);
    ct ← process_at (k_w k) pp;
    let pm := PHYS_TO_VIRT (hhdm_offset (w_vm (k_w k))) (cr3 ct) in
    let virt_start := heap_end ct in
    '(ok, s) ← alloc_user_pages (Z.to_nat pages) 0 pm virt_start (w_vm (k_w k));
    let k := set_w k (with_vm (k_w k) s (w_cr3 (k_w k))) in
    if negb ok then Ok (0, k)
    else
      k ← on_world k (fun w => update_process w pp (fun x => pr_set_heap_end x (u64 (heap_end x + u32 (pages * PAGE_SIZE)))));
      Ok (virt_start, k).

Definition sys_free_pages (ptr pages : Z) k : outcome (Z * kernel A D) :=
  if ptr =? 0 then Ok (-1, k)
  else
    k ← on_world k (fun w => on_lists w (fun s => Klist.free s ptr));
    Ok (0, k).

Definition sys_waitid (which n infop opt ru : Z) k : outcome (Z * kernel A D) := sys_waitpid (u64 n) k.

Definition sys_fork : Z := -1.

(** *** elf.c: starting a program *)

(** [load_elf_binary] on the buffer at [elf_buffer]: the entry point, 0 on
    failure, and the new table's address. *)
Definition load_program (elf_buffer : Z) (elf : list Z) k : outcome (Z * Z * kernel A D) :=
  '(r, u) ← load_elf_binary elf (mk_umem (w_vm (k_w k)) (w_stacks (k_w k)));
  let k := set_w k (with_stacks (with_vm (k_w k) (u_vm u) (w_cr3 (k_w k))) (u_bytes u)) in
  match r with
  | BadMagic => k ← kfree_obj elf_buffer k; Ok (0, 0, k)
  | OutOfMemory => Ok (0, 0, k)
  | Loaded e_entry pml4_phys => Ok (e_entry, pml4_phys, k)
  end.

Definition num_stack_pages : nat := 6.
Definition nb_stack_page : Z := 4.

Fixpoint map_user_stack (n : nat) (i root : Z) (s : vm) : outcome (bool * vm) :=
  match n with
  | O => Ok (true, s)
  | S n =>
      '(user_stack_phys, p) ← pmm_alloc (vm_pmm s);
      let s := with_pmm s p in
      if user_stack_phys =? 0 then Ok (false, s)
      else
        s ← map_page root (USR_STACK_BASE - i * PAGE_SIZE) user_stack_phys user_flags s;
        map_user_stack n (i + 1) root s
  end.

(** The pages are taken one by one; the fourth one's end is the stack's top. *)
Fixpoint alloc_kernel_stack (n : nat) (i top : Z) (s : vm) : outcome (option Z * vm) :=
  match n with
  | O => Ok (Some top, s)
  | S n =>
      '(k_page, p) ← pmm_alloc (vm_pmm s);
      let s := with_pmm s p in
      if k_page =? 0 then Ok (None, s)
      else
        let top := if i =? nb_stack_page - 1 then u64 (PHYS_TO_VIRT (hhdm_offset s) k_page + PAGE_SIZE) else top in
        alloc_kernel_stack n (i + 1) top s
  end.

(** The process is made, and gets its table, its heap and its parent. *)
Definition start_process (entry_point kernel_stack_top pml4_phys : Z) k : outcome (Z * kernel A D) :=
  '(proc, w) ← new_elf_process me junk_thread O_RDONLY O_WRONLY entry_point USR_STACK_BASE kernel_stack_top (k_w k);
  let k := set_w k w in
  k ← on_world k (fun w => update_process w proc (fun x => pr_set_heap_end (pr_set_cr3 x pml4_phys) USR_HEAP_BASE));
  parent ← get_current_process me (k_w k);
  k ← on_world k (fun w => update_process w proc (fun x => pr_set_parent x parent));
  Ok (proc, k).

Definition create_elf_process (elf_buffer : Z) (elf : list Z) k : outcome (Z * kernel A D) :=
  '(entry_point, pml4_phys, k) ← load_program elf_buffer elf k;
  if entry_point =? 0 then Ok (0, k)
  else
    let pml4_virt := PHYS_TO_VIRT (hhdm_offset (w_vm (k_w k))) pml4_phys in
    '(ok, s) ← map_user_stack num_stack_pages 0 pml4_virt (w_vm (k_w k));
    let k := set_w k (with_vm (k_w k) s (w_cr3 (k_w k))) in
    if negb ok then Ok (0, k)
    else
      '(top, s) ← alloc_kernel_stack num_stack_pages 0 0 (w_vm (k_w k));
      let k := set_w k (with_vm (k_w k) s (w_cr3 (k_w k))) in
      match top with
      | None => Ok (0, k)
      | Some kernel_stack_top => start_process entry_point kernel_stack_top pml4_phys k
      end.

(** The files of the file system have no [open] operation. *)
Definition no_console : file_ops_t (A := A) := mk_file_ops None None None None.

(** The file into the buffer, and the file closed; [None]: the read failed and
    the buffer is freed too. *)
Definition read_elf (file elf_buffer file_size : Z) k : outcome (option (list Z) * kernel A D) :=
  '(byte_read, out, s) ← vfs_read junk no_console file file_size (get_fs k);
  let k := set_fs k s in
  b ← deref (buf_at (k_objs k) elf_buffer);
  elf ← copy_in b 0 out (Z.of_nat (length out));
  let k := set_fs k (set_obj (get_fs k) elf_buffer (OBuf elf)) in
  if byte_read <? 0 then
    k ← kfree_obj elf_buffer k; k ← kfree_obj file k; Ok (None, k)
  else
    k ← kfree_obj file k; Ok (Some elf, k).

(** The process of the program in the buffer: its number, [-1] if there is none. *)
Definition launch (elf_buffer : Z) (elf : list Z) k : outcome (Z * kernel A D) :=
  '(new_task, k) ← create_elf_process elf_buffer elf k;
  if new_task =? 0 then Ok (-1, k) else p ← process_at (k_w k) new_task; Ok (s32 (pid p), k).

Definition execute_elf (path : list Z) k : outcome (Z * kernel A D) :=
  '(file, k) ← on_fs k (vfs_open junk no_console (Some path) 0);
  if file =? 0 then Ok (-1, k)
  else
    f ← deref (file_of k file);
    d ← deref (dentry_at (k_objs k) (f_dentry f));
    i ← deref (inode_at (k_objs k) (d_inode d));
    let file_size := i_size i in
    if file_size =? 0 then k ← kfree_obj file k; Ok (-1, k)
    else
      '(elf_buffer, k) ← on_fs k (new_obj file_size (OBuf (junk <$> seq 0 (Z.to_nat file_size))));
      if elf_buffer =? 0 then k ← kfree_obj file k; Ok (-1, k)
      else
        '(e, k) ← read_elf file elf_buffer file_size k;
        match e with
        | None => Ok (-1, k)
        | Some elf => launch elf_buffer elf k
        end.

(** *** syscall.c: programs, and the dispatcher *)

Definition sys_exec (path : option (list Z)) k : outcome (Z * kernel A D) :=
  match path with
  | None => Ok (- EINVAL, k)
  | Some path =>
      let '(flags, c) := save_and_disable_interrupt (w_cpu (k_w k)) in
      '(result, k) ← execute_elf path (set_cpu k c);
      Ok (result, set_cpu k (restore_interrupts flags (w_cpu (k_w k))))
  end.

(** The interrupt [int $0x20], which is the timer's (interrupt.asm). *)
Definition timer_interrupt k : outcome (kernel A D) :=
  k ← on_world k (update_curr_thread me); on_world k (update_sleeping_queue me).

Definition path_arg k (p : Z) : option (list Z) := if p =? 0 then None else Some (user_string (k_user k) p).

Definition syscall_handler (f : pt_regs_t) k : outcome (pt_regs_t * kernel A D) :=
  let n := r_orig_ax f in
  let ret o := '(r, k) ← o : outcome (Z * kernel A D); Ok (set_rax f (u64 r), k) in
  if n =? SC_UPRINT then k ← sys_print (user_string (k_user k) (r_rdi f)) k; Ok (f, k)
  else if n =? SC_READ then ret (sys_read (u32 (r_rdi f)) (r_rsi f) (u32 (r_rdx f)) k)
  else if n =? SC_WRITE then ret (sys_write (u32 (r_rdi f)) (r_rsi f) (u32 (r_rdx f)) k)
  else if n =? SC_OPEN then ret (sys_open (path_arg k (r_rdi f)) (s32 (r_rsi f)) k)
  else if n =? SC_MMAP then ret (sys_alloc_pages (u32 (r_rsi f)) k)
  else if n =? SC_MUNMAP then ret (sys_free_pages (r_rdi f) (u32 (r_rsi f)) k)
  else if n =? SC_EXIT then k ← sys_exit (s32 (r_rdi f)) k; Ok (f, k)
  else if n =? SC_YIELD then k ← timer_interrupt k; Ok (f, k)
  else if n =? SC_EXECVE then ret (sys_exec (path_arg k (r_rdi f)) k)
  else if n =? SC_TIME then ret (sys_time (r_rdi f) k)
  else if n =? SC_WAITID then
    ret (sys_waitid (s32 (r_rdi f)) (s32 (r_rsi f)) (r_rdx f) (s32 (r_r10 f)) (r_r8 f) k)
  else Ok (f, k).
End Code.
