(* ===== verification/Syscall.v ===== *)
(** * What the system calls guarantee

    Writing to the console, waiting for a child and its exit, growing the heap of
    a process; and what opening a file does not do. *)

From S2P Require Import Prelude Font Video Screen Sync Bitmap Pmm Paging Bytes Heap Alloc Klist Vfs Keyboard Device Time Desc Sched Elf Kernel.

Section Lemmas.
Context {A D : Type} `{Allocator A} `{Device D}.
Context (me : Z).
Implicit Types (k : kernel A D).

(** The running thread [t] of process [p], at [tp] and [pp]. *)
Record running k (tp pp : Z) (t : thread_t) (p : process_t) : Prop := {
  ru_cpu : exists c, arr_get (cpu_task_lists (k_w k)) me = Ok c /\ current_thread c = tp;
  ru_thread : w_threads (k_w k) !! tp = Some t;
  ru_link : process t = pp;
  ru_process : w_procs (k_w k) !! pp = Some p
}.

Lemma running_process k tp pp t p :
  running k tp pp t p -> get_current_process me (k_w k) = Ok pp /\ current_process me k = Ok p.
Proof.
  intros [(c & Hc & Ht) Hth Hl Hp].
  assert (get_current_process me (k_w k) = Ok pp) as Hg.
  { unfold get_current_process, get_cpu_task_list, thread_at. rewrite Hc. mred. by rewrite Ht, Hth, <-Hl. }
  split; [done|]. unfold current_process. rewrite Hg. mred. unfold process_at. by rewrite Hp.
Qed.

Lemma set_cpu_same k c : w_cpu (k_w k) = c -> set_cpu k c = k.
Proof. intros <-. destruct k as [w]. by destruct w. Qed.

(** The console's lock is taken and given back. *)
Lemma console_write_ok buf n k :
  locked (console_lock k) = 0 ->
  console_write buf n k =
    (sc ← put_chars (read_bytes (Z.to_nat n) (k_user k) buf) (screen k); Ok (n, set_screen k sc)).
Proof.
  intros Hl. unfold console_write, safe_lock, save_and_disable_interrupt, atomic_exchange. rewrite Hl. mred. simpl.
  destruct (put_chars _ _) as [sc'| | |]; [|done..]. mred. simpl. destruct k as [w o r i b l ow sc u d nw]. destruct l as [l]. simpl in *. subst l.
  unfold set_cpu, set_screen, set_console_lock. simpl. by destruct w as [? ? ? ? ? ? ? ? ? ? ? ? ? ? ? [f] ?].
Qed.

Lemma put_chars_show l : forall sc T,
  term_ok sc -> displays sc T -> forallb (fun c => (0 <=? c) && (c <? 128)) l = true ->
  tty_rooms (max_col sc) (max_line sc) (fgc sc) l T = true ->
  exists sc', put_chars l sc = Ok sc' /\ follows sc sc' (tty_print (max_col sc) (max_line sc) (fgc sc) l T).
Proof.
  induction l as [|c l IH]; intros sc T Ht Hs Hc Hr; simpl in *; [exists sc; split; [done|by apply follows_refl]|].
  bool_hyps. destruct (put_char_shows sc T c) as (s1 & -> & F1); [done..|lia|done|]. mred.
  destruct F1 as [Ok1 K1 S1] eqn:E. clear E. specialize (IH s1 _ Ok1 S1).
  rewrite (kept_max_col _ _ K1), (kept_max_line _ _ K1), (kept_fgc _ _ K1) in IH.
  destruct IH as (s' & E' & F'); [done..|]. exists s'. split; [done|]. by eapply follows_trans.
Qed.

Lemma set_f_lock_console k p f v :
  w_files (k_w k) !! p = Some f ->
  set_f_lock k p v = Ok (set_w k (with_files (k_w k)
    (<[p := mk_file v (f_dentry f) (f_pos f) (f_ops f) (f_flags f)]> (w_files (k_w k))))).
Proof. intros Hf. unfold set_f_lock. by rewrite Hf. Qed.
End Lemmas.

(** ** A small machine, with a parent and a child process *)

Definition sample_kernel : kernel arena (list access) :=
  mk_kernel (sample_world false) ∅ 700 0 (mk_kbd (replicate 256 0) 0 0 0 (replicate 128 false) []) (mk_safe_lock 0) 0 sample_term
    (fun a => u8 a) [] (mk_datetime 20 24 1 1 0 0 0).

Lemma sample_running : running 0 sample_kernel 5000 6000 sample_main sample_process.
Proof. constructor; try reflexivity. exists sample_cpu_list. split; reflexivity. Qed.

Lemma sample_files fd file : file_table sample_process !! Z.to_nat fd = Some file -> file <> 0 ->
  exists f, w_files (k_w sample_kernel) !! file = Some f /\ f_ops f = Some ConsoleFops /\ f_lock f = 0.
Proof.
  intros Hfile Hne. apply list_elem_of_lookup_2 in Hfile. simpl in Hfile. set_unfold.
  destruct Hfile as [->|[->|[->|Hx]]]; [by eexists|by eexists|by eexists|]. destruct Hne. naive_solver.
Qed.

(** ** Theorems *)

(** [sys_write] on every branch of a console descriptor: a descriptor out of
    range, closed or opened for reading gives [-EBADF] and changes nothing; a
    descriptor open for writing puts the bytes of the buffer on the screen in
    order, returns their number, and leaves both locks free and everything else
    as it was. *)
Lemma sys_write_console {A D} `{Allocator A} me junk O_RDONLY EBADF (k : kernel A D) tp pp t p fd buf n :
  running me k tp pp t p -> Z.of_nat (length (file_table p)) = MAX_FILES_PER_PROCESS -> fits_u64 fd ->
  locked (console_lock k) = 0 ->
  (forall file, file_table p !! Z.to_nat fd = Some file -> file <> 0 ->
     exists f, w_files (k_w k) !! file = Some f /\ f_ops f = Some ConsoleFops /\ f_lock f = 0) ->
  sys_write me junk O_RDONLY EBADF fd buf n k =
    match file_table p !! Z.to_nat fd with
    | Some file =>
        match w_files (k_w k) !! file with
        | Some f =>
            if (file =? 0) || (Z.land (f_flags f) 3 =? O_RDONLY) then Ok (- EBADF, k)
            else sc ← put_chars (read_bytes (Z.to_nat n) (k_user k) buf) (screen k); Ok (n, set_screen k sc)
        | None => Ok (- EBADF, k)
        end
    | None => Ok (- EBADF, k)
    end.
Proof.
  intros Hr Hlen Hfd Hl Hf. unfold sys_write. unfold fits_u64, MAX_FILES_PER_PROCESS in *.
  destruct (Z.ltb_spec fd 0); [lia|]. rewrite Z.geb_leb. simpl.
  destruct (Z.leb_spec 32 fd).
  { by rewrite lookup_ge_None_2 by lia. }
  rewrite (proj2 (running_process _ _ _ _ _ _ Hr)). mred.
  destruct (lookup_lt_is_Some_2 (file_table p) (Z.to_nat fd)) as [file Hfile]; [lia|]. rewrite Hfile.
  rewrite (proj2 (arr_get_Ok_iff (file_table p) fd file)) by (split; [lia|done]). mred.
  destruct (Z.eqb_spec file 0) as [->|Hne]; [by destruct (w_files (k_w k) !! 0)|].
  destruct (Hf file Hfile Hne) as (f & Hw & Hops & Hlk). unfold file_of. rewrite Hw. mred. rewrite Hops. cbn [orb].
  destruct (Z.land (f_flags f) 3 =? O_RDONLY); [done|].
  assert (spin_lock (mk_spinlock (f_lock f)) = Ok (mk_spinlock 1)) as -> by (by rewrite Hlk). mred.
  cbn [spin_locked spin_unlock]. rewrite (set_f_lock_console k file f) by done. mred.
  rewrite console_write_ok by done. change (k_user (set_w _ _)) with (k_user k). change (screen (set_w _ _)) with (screen k).
  destruct (put_chars _ _) as [sc| | |]; [|done..]. mred. erewrite set_f_lock_console by (simpl; apply lookup_insert_eq). mred. simpl.
  do 2 f_equal. unfold set_screen, set_w, with_files. simpl.
  rewrite insert_insert_eq, insert_id by (destruct f; simpl in *; by subst). by destruct k as [[]].
Qed.

(** what a program writes to a console descriptor appears on the screen:
    [sys_write] returns the number of bytes, the screen is pixel for pixel the
    drawing of the text with the bytes added, and nothing else of the kernel's
    state changes. *)
Theorem sys_write_appears {A D} `{Allocator A} me junk O_RDONLY EBADF (k : kernel A D) tp pp t p fd buf n file f T :
  running me k tp pp t p -> Z.of_nat (length (file_table p)) = MAX_FILES_PER_PROCESS -> fits_u64 fd ->
  locked (console_lock k) = 0 ->
  (forall file, file_table p !! Z.to_nat fd = Some file -> file <> 0 ->
     exists f, w_files (k_w k) !! file = Some f /\ f_ops f = Some ConsoleFops /\ f_lock f = 0) ->
  file_table p !! Z.to_nat fd = Some file -> file <> 0 -> w_files (k_w k) !! file = Some f ->
  Z.land (f_flags f) 3 <> O_RDONLY ->
  let s := read_bytes (Z.to_nat n) (k_user k) buf in
  let sc := screen k in
  term_ok sc -> displays sc T -> forallb (fun c => (0 <=? c) && (c <? 128)) s = true ->
  tty_rooms (max_col sc) (max_line sc) (fgc sc) s T = true ->
  exists sc', sys_write me junk O_RDONLY EBADF fd buf n k = Ok (n, set_screen k sc') /\
    displays sc' (tty_print (max_col sc) (max_line sc) (fgc sc) s T) /\ kept sc sc'.
Proof.
  intros Hr Hlen Hfd Hl Hf Hfile Hne Hw Hfl s sc Ht Hs Hc Hro.
  destruct (put_chars_show s sc T Ht Hs Hc Hro) as (sc' & E & [_ K S]). exists sc'.
  rewrite (sys_write_console me junk O_RDONLY EBADF k tp pp t p fd buf n Hr Hlen Hfd Hl Hf), Hfile, Hw.
  destruct (Z.eqb_spec file 0); [done|]. destruct (Z.eqb_spec (Z.land (f_flags f) 3) O_RDONLY); [done|]. simpl.
  fold s sc. rewrite E. done.
Qed.

Lemma sys_write_appears_witness :
  exists sc', sys_write 0 (fun _ => 0) 0 9 1 72 3 sample_kernel = Ok (3, set_screen sample_kernel sc') /\
    displays sc' (tty_print (max_col sample_term) (max_line sample_term) (fgc sample_term) [72; 73; 74] sample_tty) /\
    kept sample_term sc'.
Proof.
  destruct sample_ok as [Ht Hs].
  apply (sys_write_appears 0 (fun _ => 0) 0 9 sample_kernel 5000 6000 sample_main sample_process 1 72 3 901
    (mk_file 0 0 0 (Some ConsoleFops) 1)
    sample_tty sample_running eq_refl ltac:(unfold fits_u64; lia) eq_refl (sample_files 1) eq_refl); [discriminate|reflexivity|discriminate|exact Ht|
    exact Hs|reflexivity|vm_compute; reflexivity].
Defined.

Lemma free_fd_ok n i ft :
  Z.of_nat n + i = Z.of_nat (length ft) -> 0 <= i ->
  exists r, free_fd n i ft = Ok r /\
    if decide (0 ∈ drop (Z.to_nat i) ft) then i <= r < Z.of_nat (length ft) /\ ft !! Z.to_nat r = Some 0 else r = -1.
Proof.
  revert i. induction n as [|n IH]; intros i Hlen Hi; simpl.
  { exists (-1). split; [done|]. rewrite drop_ge by lia. by rewrite decide_False by set_solver. }
  destruct (lookup_lt_is_Some_2 ft (Z.to_nat i)) as [x Hx]; [lia|].
  rewrite (proj2 (arr_get_Ok_iff ft i x)) by done. mred. rewrite (drop_S _ _ _ Hx).
  destruct (Z.eqb_spec x 0) as [->|Hne].
  - exists i. split; [done|]. rewrite decide_True by left. split; [lia|done].
  - destruct (IH (i + 1)) as (r & Hr & Hrr); [lia|lia|]. exists r. split; [done|].
    replace (Z.to_nat (i + 1)) with (S (Z.to_nat i)) in Hrr by lia.
    destruct (decide (0 ∈ drop (S (Z.to_nat i)) ft)) as [Hin|Hin].
    + rewrite decide_True by (by right). split; [lia|]. apply Hrr.
    + rewrite decide_False; [done|]. intros [<-|?]%elem_of_cons; done.
Qed.

(** A path whose rest, once a leading slash is dropped, has no slash in front is
    not found. *)
Lemma sys_open_not_found {A D} `{Allocator A} me EMFILE ENOENT ENOMEM (k : kernel A D) tp pp t p path flags :
  running me k tp pp t p -> Z.of_nat (length (file_table p)) = MAX_FILES_PER_PROCESS ->
  hd_error (if bool_decide (hd_error path = Some 47) then tail path else path) <> Some 47 ->
  sys_open me EMFILE ENOENT ENOMEM (Some path) flags k =
    Ok (if k_root k =? 0 then -1 else if decide (0 ∈ file_table p) then - ENOENT else - EMFILE, k).
Proof.
  intros Hr Hlen Hp. unfold sys_open. destruct (k_root k =? 0) eqn:Hroot; [done|].
  set (rest := if bool_decide _ then _ else _) in *. rewrite (proj2 (running_process _ _ _ _ _ _ Hr)). mred.
  unfold MAX_FILES_PER_PROCESS in *.
  destruct (free_fd_ok (Z.to_nat 32) 0 (file_table p)) as (fd & Hfd & Hcase); [lia|lia|]. rewrite Hfd. mred.
  change (drop (Z.to_nat 0) (file_table p)) with (file_table p) in Hcase.
  destruct (decide (0 ∈ file_table p)); [|by subst fd].
  destruct (Z.eqb_spec fd (-1)); [lia|]. unfold on_fs, vfs_lookup. cbn [get_fs root_dentry]. rewrite Hroot.
  rewrite bool_decide_false by (by destruct rest). mred.
  unfold inode_of. mred. cbn. do 2 f_equal. destruct k as [w]. by destruct w as [[]].
Qed.



(** A child process [c] at [cp] of the process at [pp], with its thread at [ct]. *)
Record child_of {A D} (k : kernel A D) (pp cp ct : Z) (c : process_t) (th : thread_t) : Prop := {
  ch_process : w_procs (k_w k) !! cp = Some c;
  ch_parent : p_parent c = pp;
  ch_primary : primary c = ct;
  ch_thread : w_threads (k_w k) !! ct = Some th;
  ch_nonnull : pp <> 0 /\ cp <> 0 /\ ct <> 0;
  ch_distinct : cp <> pp
}.

Section Wait.
Context {A D : Type} (me : Z).
Implicit Types (k : kernel A D).

(** The parent's record once it waits. *)
Definition waiting_for (p : process_t) (n : Z) : process_t :=
  mk_process (pid p) (cr3 p) (heap_end p) (p_parent p) (exit_code p) true n (file_table p) (primary p).

Lemma wait_for_ok k tp pp t p cp ct c th :
  running me k tp pp t p -> child_of k pp cp ct c th -> ct <> tp -> state th <> STATE_DEAD ->
  process_by_pid me (pid c) (k_w k) = Ok cp ->
  exists k1, wait_for me (pid c) k = Ok (inr cp, k1) /\
    w_procs (k_w k1) = <[pp := waiting_for p (pid c)]> (w_procs (k_w k)) /\
    w_threads (k_w k1) = <[tp := th_set_state t STATE_WAITING]> (w_threads (k_w k)) /\
    cpu_task_lists (k_w k1) = cpu_task_lists (k_w k).
Proof.
  intros Hr [C1 C2 C3 C4 (C5 & C6 & C7) C8] Hne Hst Hpid. pose proof (running_process _ _ _ _ _ _ Hr) as [Hg _].
  destruct Hr as [(cpu & Hc & Hct) Ht Hl Hp]. unfold wait_for, get_cpu_task_list. rewrite Hc, Hg, Hpid. mred.
  rewrite (proj2 (Z.eqb_neq cp 0) C6). unfold process_at. rewrite C1. mred. rewrite C3.
  rewrite (proj2 (Z.eqb_neq ct 0) C7). unfold thread_at. rewrite C4. mred.
  rewrite (proj2 (Z.eqb_neq _ _) Hst). unfold on_world, update_process, process_at. rewrite Hp. mred.
  unfold update_thread, thread_at. rewrite Hct. simpl. rewrite Ht. mred. simpl.
  rewrite lookup_insert_ne by done. rewrite C1. mred. rewrite C3, lookup_insert_ne, C4 by done. mred.
  eexists. split; [reflexivity|]. done.
Qed.

(** A child that exits while its parent waits for it wakes the parent. *)
Lemma exit_current_wakes k pp cp ct c th p t code :
  running me k ct cp th c -> child_of k pp cp ct c th -> w_procs (k_w k) !! pp = Some p ->
  is_waiting p = true -> wait_target_pid p = pid c -> primary p <> 0 -> primary p <> ct ->
  w_threads (k_w k) !! primary p = Some t ->
  exists k', exit_current me code k = Ok k' /\
    w_threads (k_w k') !! primary p = Some (th_set_state t STATE_READY) /\
    w_threads (k_w k') !! ct = Some (th_set_state th STATE_DEAD) /\
    (exists c', w_procs (k_w k') !! cp = Some c' /\ exit_code c' = code /\ pid c' = pid c) /\
    exists p', w_procs (k_w k') !! pp = Some p' /\ is_waiting p' = false.
Proof.
  intros Hr [C1 C2 C3 C4 (C5 & C6 & C7) C8] Hp Hw Hn H0 Hne Ht. pose proof (running_process _ _ _ _ _ _ Hr) as [Hg _].
  destruct Hr as [(cpu & Hc & Hct) _ _ _]. unfold exit_current, get_cpu_task_list. rewrite Hc, Hg. mred.
  unfold on_world, update_process, process_at. rewrite C1. mred. unfold update_thread, thread_at. simpl. rewrite Hct, C4. mred.
  simpl. rewrite lookup_insert_eq. mred. simpl. rewrite C2, (proj2 (Z.eqb_neq pp 0) C5).
  rewrite lookup_insert_ne, Hp by done. mred. rewrite Hw, Hn, Z.eqb_refl. simpl.
  rewrite lookup_insert_eq. mred. simpl. rewrite (proj2 (Z.eqb_neq _ 0) H0). simpl.
  rewrite lookup_insert_ne, Ht by done. mred. eexists. split; [reflexivity|]. simpl.
  rewrite lookup_insert_eq. split; [done|]. rewrite lookup_insert_ne, lookup_insert_eq by done. split; [done|].
  rewrite !lookup_insert_eq. rewrite lookup_insert_ne, lookup_insert_eq by done. split; eexists; done.
Qed.
End Wait.

(** C18: waiting and exiting meet: [sys_waitpid] of a living child puts the parent
    to sleep; the child's exit, run next as far as parent and child are concerned,
    stores the exit code, marks the child dead and makes the parent ready; and the
    wait, once the yield comes back, returns that code. *)
Theorem wait_exit_handshake {A D} me (k : kernel A D) tp pp t p cp ct c th :
  running me k tp pp t p -> child_of k pp cp ct c th -> ct <> tp -> state th <> STATE_DEAD ->
  primary p = tp -> tp <> 0 -> process_by_pid me (pid c) (k_w k) = Ok cp ->
  exists k1, wait_for me (pid c) k = Ok (inr cp, k1) /\
    w_threads (k_w k1) !! tp = Some (th_set_state t STATE_WAITING) /\
    forall (k2 : kernel A D) code th2, running me k2 ct cp th2 c -> w_procs (k_w k2) = w_procs (k_w k1) ->
      w_threads (k_w k2) !! tp = w_threads (k_w k1) !! tp ->
      exists k3, exit_current me code k2 = Ok k3 /\
        w_threads (k_w k3) !! tp = Some (th_set_state t STATE_READY) /\
        w_threads (k_w k3) !! ct = Some (th_set_state th2 STATE_DEAD) /\
        forall yield (k4 : kernel A D), yield k1 = Ok k4 -> w_procs (k_w k4) = w_procs (k_w k3) ->
          sys_waitpid me yield (pid c) k = Ok (code, k4).
Proof.
  intros Hr Hch Hne Hst Hpr Htp Hpid.
  destruct (wait_for_ok me k tp pp t p cp ct c th Hr Hch Hne Hst Hpid) as (k1 & Hw & Hp1 & Ht1 & _).
  exists k1. split; [done|]. split; [by rewrite Ht1, lookup_insert_eq|]. intros k2 code th2 Hr2 Hp2 Ht2.
  rewrite Ht1, lookup_insert_eq in Ht2. destruct Hch as [C1 C2 C3 C4 C5 C6].
  destruct (exit_current_wakes me k2 pp cp ct c th2 (waiting_for p (pid c)) (th_set_state t STATE_WAITING) code)
    as (k3 & He & Hth & Hdead & (c' & Hc' & Hcode & _) & _); try done.
  - constructor; try done; apply Hr2.
  - by rewrite Hp2, Hp1, lookup_insert_eq.
  - simpl. by rewrite Hpr.
  - simpl. congruence.
  - simpl. by rewrite Hpr.
  - exists k3. simpl in Hth. rewrite Hpr in Hth. split_and!; try done. intros yield k4 Hy Hp4.
    unfold sys_waitpid. rewrite Hw. mred. rewrite Hy. mred. unfold process_at. rewrite Hp4, Hc'. mred. by rewrite Hcode.
Qed.

(** The child runs next. *)
Definition child_turn (k : kernel arena (list access)) : kernel arena (list access) :=
  set_w k (with_cpus (k_w k) [mk_cpu_list 10 0 300 100 5002 0 200]).

Lemma wait_exit_handshake_witness :
  exists k1 k3, wait_for 0 2 sample_kernel = Ok (inr 6001, k1) /\
    exit_current 0 7 (child_turn k1) = Ok k3 /\
    w_threads (k_w k3) !! 5000 = Some (th_set_state sample_main STATE_READY) /\
    sys_waitpid 0 (fun _ => Ok k3) 2 sample_kernel = Ok (7, k3).
Proof.
  destruct (wait_exit_handshake 0 sample_kernel 5000 6000 sample_main sample_process 6001 5002 sample_child sample_user
    sample_running) as (k1 & Hw & Ht & Hx); [constructor; try reflexivity; lia|lia|discriminate|reflexivity|lia|reflexivity|].
  assert (running 0 (child_turn k1) 5002 6001 sample_user sample_child) as Hr.
  { assert (exists k', wait_for 0 2 sample_kernel = Ok (inr 6001, k') /\
      running 0 (child_turn k') 5002 6001 sample_user sample_child) as (k' & Hk' & Hr).
    { eexists. split; [reflexivity|]. constructor; try reflexivity. eexists. split; reflexivity. }
    pose proof (eq_trans (eq_sym Hk') Hw) as He. injection He as <-. exact Hr. }
  destruct (Hx (child_turn k1) 7 sample_user Hr eq_refl eq_refl) as (k3 & He & Hready & _ & Hret).
  exists k1, k3. split; [exact Hw|]. split; [exact He|]. split; [exact Hready|].
  exact (Hret (fun _ => Ok k3) k3 eq_refl eq_refl).
Defined.

(** ** Growing the heap of a process *)

(** [n] new pages from address [lo] on, each on a frame of its own that was free. *)
Record pages_added (s s' : vm) (root lo : Z) (n : nat) : Prop := {
  ad_own f : not_free (vm_pmm s) f -> not_free (vm_pmm s') f;
  ad_page v : lo <= v < lo + Z.of_nat n * PAGE_SIZE ->
    exists g, walk s' root v = Some (g * PAGE_SIZE + va_offset v, true) /\ ~ not_free (vm_pmm s) g;
  ad_distinct v v' g : lo <= v < lo + Z.of_nat n * PAGE_SIZE -> lo <= v' < lo + Z.of_nat n * PAGE_SIZE ->
    walk s' root v = Some (g * PAGE_SIZE + va_offset v, true) ->
    walk s' root v' = Some (g * PAGE_SIZE + va_offset v', true) -> v / PAGE_SIZE = v' / PAGE_SIZE;
  ad_rest v : 0 <= v < 2 ^ 47 -> ~ (lo <= v < lo + Z.of_nat n * PAGE_SIZE) -> walk s' root v = walk s root v
}.

Lemma alloc_user_pages_ok n i root lo s m F :
  space_ok (mk_umem s m) root -> free_pages (vm_pmm s) F -> (4 * n <= size F)%nat ->
  0 <= lo -> lo mod PAGE_SIZE = 0 -> 0 <= i -> lo + (i + Z.of_nat n) * PAGE_SIZE <= 2 ^ 47 ->
  exists s', alloc_user_pages n i root lo s = Ok (true, s') /\ space_ok (mk_umem s' m) root /\
    hhdm_offset s' = hhdm_offset s /\ pages_added s s' root (lo + i * PAGE_SIZE) n.
Proof.
  revert i s F. induction n as [|n IH]; intros i s F Hsp HF Hsz Hlo Hmod Hi Hmax; cbn [alloc_user_pages].
  { exists s. split_and!; try done. constructor; try done; intros; lia. }
  unfold PAGE_SIZE in Hmax.
  destruct (add_page_ok (mk_umem s m) root (lo + i * PAGE_SIZE) F Hsp HF ltac:(lia) ltac:(unfold PAGE_SIZE; lia))
    as (g & p & s1 & Ha & Hg0 & Hm & Hh & Hg & (F1 & HF1 & Hs1) & [M1 M2 M3 M4 M5] & Hadd).
  cbn [u_vm u_bytes] in *. rewrite Ha. mred. rewrite (proj2 (Z.eqb_neq _ 0) Hg0).
  rewrite u64_small by (unfold fits_u64, PAGE_SIZE; lia). rewrite Hm. mred.
  destruct (IH (i + 1) s1 F1) as (s2 & Hl & Hsp2 & Hh2 & [A1 A2 A3 A4]); try done; try lia; [apply (Hadd m); done|unfold PAGE_SIZE; lia|].
  exists s2. rewrite Hl. split; [done|]. split; [done|]. split; [congruence|].
  assert (forall v, 0 <= v < 2 ^ 47 -> same_page (lo + i * PAGE_SIZE) v = true <->
    lo + i * PAGE_SIZE <= v < lo + (i + 1) * PAGE_SIZE) as Hpage.
  { intros v Hv. rewrite same_page_div by (unfold PAGE_SIZE; lia). rewrite Z.eqb_eq. unfold PAGE_SIZE in *. zdiv. }
  assert (forall v, lo + i * PAGE_SIZE <= v < lo + (i + 1) * PAGE_SIZE ->
    walk s2 root v = Some (g * PAGE_SIZE + va_offset v, true)) as Hfirst.
  { intros v Hv. rewrite A4 by (unfold PAGE_SIZE in *; lia). apply M4, Hpage; unfold PAGE_SIZE in *; lia. }
  assert (forall v, lo + i * PAGE_SIZE <= v < lo + i * PAGE_SIZE + Z.of_nat (S n) * PAGE_SIZE ->
    lo + i * PAGE_SIZE <= v < lo + (i + 1) * PAGE_SIZE \/
    lo + (i + 1) * PAGE_SIZE <= v < lo + (i + 1) * PAGE_SIZE + Z.of_nat n * PAGE_SIZE) as Hsplit
    by (unfold PAGE_SIZE; intros; lia).
  assert (forall v, lo + (i + 1) * PAGE_SIZE <= v < lo + (i + 1) * PAGE_SIZE + Z.of_nat n * PAGE_SIZE ->
    walk s2 root v <> Some (g * PAGE_SIZE + va_offset v, true)) as Hlater.
  { intros v Hv Hw. destruct (A2 v Hv) as (g' & Hw' & Hg'). rewrite Hw in Hw'.
    assert (g = g') as <- by (injection Hw'; unfold PAGE_SIZE; lia). done. }
  clear IH Hadd Hm Ha Hl. constructor.
  - auto.
  - intros v [Hv|Hv]%Hsplit; [exists g; split; [auto|done]|]. destruct (A2 v Hv) as (g' & ? & Hg'). exists g'. split; [done|]. auto.
  - intros v v' f [Hv|Hv]%Hsplit [Hv'|Hv']%Hsplit Hw Hw'; [unfold PAGE_SIZE in *; zdiv| | |by apply (A3 v v' f)]; exfalso.
    + rewrite (Hfirst v Hv) in Hw. apply (Hlater v' Hv'). rewrite Hw'. injection Hw. unfold PAGE_SIZE. intros. do 2 f_equal. lia.
    + rewrite (Hfirst v' Hv') in Hw'. apply (Hlater v Hv). rewrite Hw. injection Hw'. unfold PAGE_SIZE. intros. do 2 f_equal. lia.
  - intros v Hv Hno. rewrite A4 by (unfold PAGE_SIZE in *; lia). apply M5. destruct (same_page _ v) eqn:Hsame; [|done].
    apply Hpage in Hsame; [|done]. unfold PAGE_SIZE in *. lia.
Qed.

(** C27: [sys_alloc_pages] with pages enough returns the old end of the process's
    heap and moves the end up; every new page is accessible to user code and lies
    on a frame of its own that was free, and no other user page changes. *)
Theorem sys_alloc_pages_correct {A D} me (k : kernel A D) tp pp t p n F :
  let root := PHYS_TO_VIRT (hhdm_offset (w_vm (k_w k))) (cr3 p) in
  running me k tp pp t p -> space_ok (mk_umem (w_vm (k_w k)) (w_stacks (k_w k))) root ->
  free_pages (vm_pmm (w_vm (k_w k))) F -> 4 * n <= Z.of_nat (size F) -> 0 < n < 2 ^ 20 ->
  0 <= heap_end p -> heap_end p mod PAGE_SIZE = 0 -> heap_end p + n * PAGE_SIZE <= 2 ^ 47 ->
  exists k', sys_alloc_pages me n k = Ok (heap_end p, k') /\
    space_ok (mk_umem (w_vm (k_w k')) (w_stacks (k_w k'))) root /\
    pages_added (w_vm (k_w k)) (w_vm (k_w k')) root (heap_end p) (Z.to_nat n) /\
    running me k' tp pp t (pr_set_heap_end p (heap_end p + n * PAGE_SIZE)).
Proof.
  intros root Hr Hsp HF Hsz Hn H0 Hmod Hmax. pose proof (running_process _ _ _ _ _ _ Hr) as [Hg _].
  destruct Hr as [Hc Ht Hl Hp]. unfold sys_alloc_pages. rewrite (proj2 (Z.eqb_neq n 0)) by lia.
  rewrite Hg. mred. unfold process_at. rewrite Hp. mred. fold root.
  destruct (alloc_user_pages_ok (Z.to_nat n) 0 root (heap_end p) _ _ F Hsp HF) as (s' & -> & Hsp' & Hh & Had);
    try done; try lia. mred. cbn [negb]. unfold on_world, update_process, process_at. simpl. rewrite Hp. mred.
  eexists. split; [reflexivity|]. simpl. split; [done|]. split; [by rewrite Z.add_0_r in Had|].
  assert (u64 (heap_end p + u32 (n * PAGE_SIZE)) = heap_end p + n * PAGE_SIZE) as ->.
  { unfold u32, PAGE_SIZE in *. rewrite Z.mod_small by lia. apply u64_small. unfold fits_u64. lia. }
  constructor; simpl; try done. by rewrite lookup_insert_eq.
Qed.

Lemma sample_space : space_ok (mk_umem sample_vm (fun _ => 0)) (kernel_pml4 sample_vm).
Proof.
  constructor; cbn [u_vm].
  - exact sample_vm_tree.
  - exact sample_vm_pmm.
  - unfold hhdm_ok. simpl. unfold PAGE_SIZE. lia.
  - reflexivity.
  - discriminate.
Qed.

Lemma sys_alloc_pages_correct_witness :
  exists k', sys_alloc_pages 0 2 sample_kernel = Ok (268435456, k') /\
    pages_added sample_vm (w_vm (k_w k')) (kernel_pml4 sample_vm) 268435456 2.
Proof.
  destruct (sys_alloc_pages_correct 0 sample_kernel 5000 6000 sample_main sample_process 2 (list_to_set (seqZ 2 14))
    sample_running sample_space sample_vm_free) as (k' & Hs & _ & Ha & _).
  - vm_compute. discriminate.
  - lia.
  - simpl. lia.
  - reflexivity.
  - simpl. unfold PAGE_SIZE. lia.
  - exists k'. split; [exact Hs|exact Ha].
Defined.
