(* ===== verification/SchedRun.v ===== *)
(** * The processor as a state machine

    Timer ticks, switches, key strokes, sleeping, waiting, exiting, starting a
    program: the events that change the threads of a processor, as steps of the
    kernel's state, and what holds in every state they lead to. *)

From S2P Require Import Prelude Font Video Screen Sync Bitmap Pmm Paging Bytes Heap Alloc Klist Vfs Keyboard Device Time Desc Sched SchedFair SchedSleep SchedInv SchedSpawn Elf Kernel Syscall.

(** ** Waiting and exiting, on the states *)

Section States.
Implicit Types (ths : gmap Z thread_t) (prs : gmap Z process_t) (ps qs tids : list Z).

(** Processes change, their threads and who waits do not. *)
Lemma thread_ok_procs prs prs' cur qs tids p t :
  (forall x, prs !! process t = Some x ->
     exists x', prs' !! process t = Some x' /\ primary x' = primary x /\ (is_waiting x = true -> is_waiting x' = true)) ->
  thread_ok prs cur qs tids p t -> thread_ok prs' cur qs tids p t.
Proof.
  intros Hpr [O1 O2 O3 O4 (x & Hx & O5 & O6) O7]. constructor; try done.
  destruct (Hpr x Hx) as (x' & Hx' & Hp & Hw). exists x'. rewrite Hp. auto.
Qed.

Lemma insert_process prs q x x' y :
  prs !! q = Some x -> primary x' = primary x -> (is_waiting x = true -> is_waiting x' = true) -> forall r,
  prs !! r = Some y -> exists y', <[q := x']> prs !! r = Some y' /\ primary y' = primary y /\
    (is_waiting y = true -> is_waiting y' = true).
Proof.
  intros Hx Hp Hw r Hy. destruct (decide (r = q)) as [->|].
  - rewrite lookup_insert_eq. rewrite Hx in Hy. injection Hy as <-. by exists x'.
  - rewrite lookup_insert_ne by done. by exists y.
Qed.

(** A process changes, but not its thread nor whether it waits. *)
Lemma threads_ok_process ths prs cur ps qs tids nt q x x' :
  threads_ok ths prs cur ps qs tids nt -> prs !! q = Some x -> primary x' = primary x -> is_waiting x' = is_waiting x ->
  p_parent x' = p_parent x \/ p_parent x' ∈ qs -> threads_ok ths (<[q := x']> prs) cur ps qs tids nt.
Proof.
  intros Hok Hx Hp Hw Hpar.
  apply (threads_ok_change ths ths prs _ cur cur ps qs tids tids nt Hok); try apply Hok.
  - intros p t Hpp Ht Hto. exists t. split_and!; try done. apply (thread_ok_procs prs); [|done].
    intros y. apply (insert_process prs q x x' y); try done. by rewrite Hw.
  - intros r y t t' Hr Hy [P1 (u & Hu & Huq & P2) P3] Ht Ht'. rewrite Ht in Ht'. injection Ht' as <-.
    rewrite Ht in Hu. injection Hu as <-. destruct (decide (r = q)) as [->|].
    + rewrite lookup_insert_eq. rewrite Hx in Hy. injection Hy as <-. exists x'. rewrite Hw. by split_and!.
    + rewrite lookup_insert_ne by done. exists y. split_and!; try done. by left.
Qed.

(** The current thread dies. *)
Lemma threads_ok_die ths prs cur ps qs tids nt t :
  threads_ok ths prs cur ps qs tids nt -> ths !! cur = Some t -> state t = STATE_RUNNING -> name t <> IDLE_THREAD ->
  threads_ok (<[cur := th_set_state t STATE_DEAD]> ths) prs cur ps qs tids nt.
Proof.
  intros Hok Ht Hs Hn.
  apply (threads_ok_set ths prs cur ps qs tids tids nt cur t); try done; try apply Hok; [|rewrite Hs; by states].
  intros Hto. apply (thread_ok_state _ _ _ _ _ _ _ _ Hto); rewrite ?Hs; by states.
Qed.

(** The current thread waits for a child: its process says so. *)
Lemma threads_ok_wait ths prs cur ps qs tids nt t x x' :
  threads_ok ths prs cur ps qs tids nt -> ths !! cur = Some t -> state t = STATE_RUNNING -> name t <> IDLE_THREAD ->
  prs !! process t = Some x -> primary x' = primary x -> p_parent x' = p_parent x -> is_waiting x' = true ->
  threads_ok (<[cur := th_set_state t STATE_WAITING]> ths) (<[process t := x']> prs) cur ps qs tids nt.
Proof.
  intros Hok Ht Hs Hn Hx Hp Hpar Hw. pose proof (th_current _ _ _ _ _ _ _ Hok) as Hc.
  destruct (th_all _ _ _ _ _ _ _ Hok cur Hc) as (t0 & Ht0 & [O1 O2 [O3 O3'] O4 (y & Hy & O5 & _) O7]).
  rewrite Ht in Ht0. injection Ht0 as <-. rewrite Hx in Hy. injection Hy as <-. specialize (O5 Hn).
  assert (block_channel t = 0) as Hch by (destruct (decide (block_channel t = 0)) as [|Hx0%O2]; [done|rewrite Hs in Hx0; by states]).
  apply (threads_ok_change ths _ prs _ cur cur ps qs tids tids nt Hok Hc); try apply Hok.
  - intros p u Hpp Hu Hto. destruct (decide (p = cur)) as [->|Hne].
    + rewrite lookup_insert_eq. eexists. split; [done|]. rewrite Ht in Hu. injection Hu as <-. split; [done|].
      constructor; simpl; try done.
      * split; [by states|]. intros Hin%O3'. rewrite Hs in Hin. by states.
      * exists x'. rewrite lookup_insert_eq, Hp. by split_and!.
    + rewrite lookup_insert_ne by done. exists u. split_and!; try done. apply (thread_ok_procs prs); [|done].
      intros z. by apply (insert_process prs (process t) x x' z).
  - intros r z u u' Hr Hz [P1 (v & Hv & Hvq & P2) P3] Hu Hu'. rewrite Hu in Hv. injection Hv as <-.
    destruct (decide (r = process t)) as [->|Hrne].
    + rewrite lookup_insert_eq. rewrite Hx in Hz. injection Hz as <-. exists x'. split_and!; try done; [by left; congruence|].
      rewrite O5, lookup_insert_eq in Hu'. injection Hu' as <-. done.
    + rewrite lookup_insert_ne by done. exists z. split_and!; try done; [by left|].
      rewrite lookup_insert_ne in Hu' by (intros Heq; rewrite <-Heq, Ht in Hu; injection Hu as <-; done).
      rewrite Hu in Hu'. by injection Hu' as <-.
Qed.

(** A waiting process is released: its thread is ready again. *)
Lemma threads_ok_release ths prs cur ps qs tids nt q x x' t :
  threads_ok ths prs cur ps qs tids nt -> q ∈ qs -> prs !! q = Some x -> is_waiting x = true ->
  ths !! primary x = Some t -> primary x' = primary x -> p_parent x' = p_parent x -> is_waiting x' = false ->
  threads_ok (<[primary x := th_set_state t STATE_READY]> ths) (<[q := x']> prs) cur ps qs tids nt /\
  state t = STATE_WAITING.
Proof.
  intros Hok Hq Hx Hw Ht Hp Hpar Hw'. destruct (th_procs _ _ _ _ _ _ _ Hok q Hq) as (x0 & Hx0 & [P1 (t0 & Ht0 & Htq & P2) P3]).
  rewrite Hx in Hx0. injection Hx0 as <-. rewrite Ht in Ht0. injection Ht0 as <-. destruct (P2 Hw) as [Hs Hch].
  split; [|done].
  apply (threads_ok_change ths _ prs _ cur cur ps qs tids tids nt Hok); try apply Hok.
  - intros p u Hpp Hu Hto. destruct (decide (p = primary x)) as [->|Hne].
    + rewrite lookup_insert_eq. eexists. split; [done|]. rewrite Ht in Hu. injection Hu as <-. split; [done|].
      destruct Hto as [O1 O2 [O3 O3'] O4 O5 O7]. constructor; simpl; try done.
      * split; [by states|]. intros Hin%O3'. rewrite Hs in Hin. by states.
      * rewrite Htq. exists x'. by rewrite lookup_insert_eq, Hp.
      * by left.
    + rewrite lookup_insert_ne by done. exists u. split_and!; try done.
      destruct Hto as [O1 O2 O3 O4 (y & Hy & O5 & O6) O7]. constructor; try done.
      destruct (decide (process u = q)) as [Huq|Huq]; [|exists y; by rewrite lookup_insert_ne].
      rewrite Huq, Hx in Hy. injection Hy as <-. exists x'. rewrite Huq, lookup_insert_eq, Hp. split_and!; try done.
      intros Hsu _. destruct (decide (name u = IDLE_THREAD)) as [Hid|Hid]; [|by destruct Hne; rewrite O5].
      destruct (O7 Hid) as [Hi|Hi]; rewrite Hi in Hsu; by states.
  - intros r z u u' Hr Hz [Q1 (v & Hv & Hvq & Q2) Q3] Hu Hu'. rewrite Hu in Hv. injection Hv as <-.
    destruct (decide (r = q)) as [->|Hrne].
    + rewrite lookup_insert_eq. rewrite Hx in Hz. injection Hz as <-. exists x'. rewrite Hw'. split_and!; try done. left. congruence.
    + rewrite lookup_insert_ne by done. exists z. split_and!; try done; [by left|].
      rewrite lookup_insert_ne in Hu' by (intros Heq; rewrite <-Heq, Ht in Hu; injection Hu as <-; congruence).
      rewrite Hu in Hu'. by injection Hu' as <-.
Qed.
End States.

(** ** Events *)

Inductive event :=
  | ETick                          (* pit_interrupt, or SC_YIELD *)
  | ESwitch (old_rsp from : Z)     (* scheduler_isr_asm and kernel_yield *)
  | EKey (channel : Z)             (* the keyboard interrupt *)
  | EConsole                       (* console_read has got a character *)
  | ESleep (ms : Z)                (* kusleep *)
  | EBlock                         (* console_read has to wait *)
  | EWait (n : Z)                  (* sys_waitpid *)
  | EExit (code : Z)               (* sys_exit *)
  | EStart (entry_point kernel_stack_top pml4_phys : Z) (* create_elf_process *).

Section Machine.
Context {A D : Type} `{Allocator A}.
Context (me : Z) (junk_thread : thread_t) (O_RDONLY O_WRONLY : Z).
(** The address of [console_read] is not null, and fresh memory does not happen
    to hold the name of the idle thread. *)
Context (console_channel : Z).
Hypothesis console_not_null : console_channel <> 0.
Hypothesis junk_not_idle : name junk_thread <> IDLE_THREAD.
Implicit Types (k : kernel A D) (w : world A) (ys xs zs : list (Z * Z)).

(** What an event runs, up to the call of [kernel_yield], which is the next [ESwitch]. *)
Definition handle (e : event) k : outcome (kernel A D) :=
  match e with
  | ETick => timer_interrupt me k
  | ESwitch old_rsp from => '(_, w) ← schedule me old_rsp from (k_w k); Ok (set_w k w)
  | EKey channel => on_world k (notify_wait_channel me channel)
  | EConsole =>
      cpu ← get_cpu_task_list me (k_w k);
      l ← deref (lists (w_k (k_w k)) !! thread_list cpu);
      on_world k (wake_waiters console_channel (Z.to_nat (count l)) 0 (thread_list cpu))
  | ESleep ms => on_world k (sleep_enqueue me ms)
  | EBlock => t ← get_current_thread me (k_w k); console_block Ok console_channel t k
  | EWait n => '(_, k) ← wait_for me n k; Ok k
  | EExit code => exit_current me code k
  | EStart entry top pml4 => '(_, k) ← start_process me junk_thread O_RDONLY O_WRONLY entry top pml4 k; Ok k
  end.

(** Interrupts come at any time; a call comes from a running thread, and not
    from the idle loop. *)
Definition called (e : event) : bool :=
  match e with ETick | ESwitch _ _ | EKey _ | EConsole => false | _ => true end.
Definition allowed (e : event) k : Prop :=
  called e = true -> exists c t, arr_get (cpu_task_lists (k_w k)) me = Ok c /\
    w_threads (k_w k) !! current_thread c = Some t /\ state t = STATE_RUNNING /\ name t <> IDLE_THREAD.

(** What the rest of the kernel may do in between: allocate, free what is not the
    scheduler's, and change files, memory and address spaces. *)
Record others k k' : Prop := {
  ot_lists : lists (w_k (k_w k')) = lists (w_k (k_w k));
  ot_nodes : nodes (w_k (k_w k')) = nodes (w_k (k_w k));
  ot_inv : alloc_inv (alloc (w_k (k_w k')));
  ot_live p : is_Some (lists (w_k (k_w k)) !! p) \/ is_Some (nodes (w_k (k_w k)) !! p) \/
    is_Some (w_threads (k_w k) !! p) \/ is_Some (w_deltas (k_w k) !! p) \/ is_Some (w_procs (k_w k) !! p) ->
    live (alloc (w_k (k_w k))) p -> live (alloc (w_k (k_w k'))) p;
  ot_threads : w_threads (k_w k') = w_threads (k_w k);
  ot_procs q x : w_procs (k_w k) !! q = Some x -> exists x', w_procs (k_w k') !! q = Some x' /\
    primary x' = primary x /\ p_parent x' = p_parent x /\ is_waiting x' = is_waiting x;
  ot_deltas : w_deltas (k_w k') = w_deltas (k_w k);
  ot_cpus : cpu_task_lists (k_w k') = cpu_task_lists (k_w k);
  ot_data : cpu_data_list (k_w k') = cpu_data_list (k_w k);
  ot_gdt : w_gdt (k_w k') = w_gdt (k_w k);
  ot_next : next_tid (k_w k') = next_tid (k_w k);
  ot_locks : next_tid_lock (k_w k') = next_tid_lock (k_w k) /\ next_pid_lock (k_w k') = next_pid_lock (k_w k)
}.

Inductive reachable k0 : kernel A D -> Prop :=
  | reach_start : reachable k0 k0
  | reach_event k e k' : reachable k0 k -> allowed e k -> handle e k = Ok k' -> reachable k0 k'
  | reach_others k k' : reachable k0 k -> others k k' -> reachable k0 k'.

(** ** Every event keeps the invariant *)

Definition kmoves k ys k' : Prop := moves me (k_w k) ys (k_w k').
(** It returns; where it [allocates], the machine may also stop for want of memory. *)
Definition allocates (e : event) : bool := match e with ESleep _ | EStart _ _ _ => true | _ => false end.
Definition defined e k ys (o : outcome (kernel A D)) : Prop :=
  match o with Ok k' => kmoves k ys k' | Halt => allocates e = true | _ => False end.

Lemma on_world_defined e k ys f :
  match f (k_w k) with Ok w' => moves me (k_w k) ys w' | Halt => allocates e = true | _ => False end ->
  defined e k ys (on_world k f).
Proof. unfold on_world, defined. by destruct (f (k_w k)). Qed.

Lemma wake_waiters_moves c ys xs zs seen rest w :
  run_ok me w c ys xs zs -> ys.*2 = seen ++ rest ->
  exists w', wake_waiters console_channel (length rest) (Z.of_nat (length seen)) (thread_list c) w = Ok w' /\
    run_ok me w' c ys xs zs /\ evolves w w' ys.*2.
Proof.
  revert seen w. induction rest as [|p rest IH]; intros seen w Hok Hys; simpl.
  { exists w. split; [done|]. split; [done|]. by apply evolves_refl. }
  rewrite (list_get_at_ok _ _ _ _ (ro_threads _ _ _ _ _ _ Hok)) by lia.
  rewrite Hys, Nat2Z.id, list_lookup_middle by done. mred. simpl.
  assert (p ∈ ys.*2) as Hp by (rewrite Hys; set_solver).
  destruct (run_ok_thread _ _ _ _ _ _ _ Hok Hp) as (t & Ht & _). unfold thread_at. rewrite Ht. mred.
  replace (Z.of_nat (length seen) + 1) with (Z.of_nat (length (seen ++ [p]))) by (rewrite length_app; simpl; lia).
  set (w1 := if _ && _ then _ else w).
  assert (run_ok me w1 c ys xs zs /\ evolves w w1 ys.*2) as [Hok1 He1].
  { unfold w1. destruct (Z.eqb_spec (state t) STATE_WAITING); [destruct (Z.eqb_spec (block_channel t) console_channel)|];
      simpl; try (split; [done|by apply evolves_refl]). apply wake_channel_ok; try done. congruence. }
  destruct (IH (seen ++ [p]) w1 Hok1) as (w' & Hw' & Hok' & He'); [by rewrite <-app_assoc|].
  exists w'. rewrite <-Hys. split; [done|]. split; [done|]. by apply (evolves_trans w w1 w' _ _ He1 He').
Qed.

Lemma tick_defined k c ys xs zs : run_ok me (k_w k) c ys xs zs -> exists k', timer_interrupt me k = Ok k' /\ kmoves k ys k'.
Proof.
  intros Hok. unfold timer_interrupt, on_world. destruct (tick_moves _ _ _ _ _ _ Hok) as (w1 & -> & Hm). mred.
  pose proof Hm as (c1 & ys1 & xs1 & zs1 & Hok1 & Hs1 & He1). simpl.
  destruct (sleepers_moves _ _ _ _ _ _ Hok1) as (w2 & -> & Hm2). mred. eexists. split; [done|]. unfold kmoves. simpl.
  destruct Hm2 as (c2 & ys2 & xs2 & zs2 & Hok2 & Hs2 & He2). exists c2, ys2, xs2, zs2.
  split_and!; [done|auto|]. by apply (evolves_trans _ _ _ _ _ He1 He2).
Qed.

(** The running thread, its process and what the states say of them. *)
Lemma run_ok_caller w c ys xs zs t :
  run_ok me w c ys xs zs -> w_threads w !! current_thread c = Some t -> name t <> IDLE_THREAD ->
  get_current_process me w = Ok (process t) /\ process t ∈ zs.*2 /\
  exists x, w_procs w !! process t = Some x /\ primary x = current_thread c.
Proof.
  intros Hok Ht Hn. destruct (run_ok_current _ _ _ _ _ _ Hok) as (t0 & Ht0 & _ & [_ _ _ O4 (x & Hx & O5 & _) _]).
  rewrite Ht in Ht0. injection Ht0 as <-. split; [|split; [done|by exists x; auto]].
  unfold get_current_process, get_cpu_task_list. rewrite (ro_cpu _ _ _ _ _ _ Hok). mred.
  unfold thread_at. by rewrite Ht.
Qed.

Lemma run_ok_process w c ys xs zs q :
  run_ok me w c ys xs zs -> q ∈ zs.*2 ->
  exists x t, w_procs w !! q = Some x /\ process_ok (w_threads w) ys.*2 zs.*2 q x /\
    primary x ∈ ys.*2 /\ w_threads w !! primary x = Some t /\ primary x <> 0.
Proof.
  intros Hok Hq. destruct (th_procs _ _ _ _ _ _ _ (ro_states _ _ _ _ _ _ Hok) q Hq) as (x & Hx & Hpo).
  pose proof Hpo as [P1 (t & Ht & _) _]. exists x, t. split_and!; try done.
  by apply (run_ok_nonzero _ _ _ _ _ _ _ Hok), owned_threads.
Qed.

(** The caller dies and leaves its exit code. *)
Lemma die_ok w c ys xs zs t x x' :
  run_ok me w c ys xs zs -> w_threads w !! current_thread c = Some t -> state t = STATE_RUNNING -> name t <> IDLE_THREAD ->
  w_procs w !! process t = Some x -> primary x' = primary x -> p_parent x' = p_parent x -> is_waiting x' = is_waiting x ->
  let w' := set_thread (set_process w (process t) x') (current_thread c) (th_set_state t STATE_DEAD) in
  run_ok me w' c ys xs zs /\ evolves w w' ys.*2.
Proof.
  intros Hok Ht Hs Hn Hx Hp Hpar Hw w'. split.
  - apply (run_ok_maps me w c ys xs zs _ _ Hok). apply (threads_ok_process _ (w_procs w) _ _ _ _ _ _ x); try done; [|by left].
    apply threads_ok_die; try done. apply Hok.
  - apply (evolves_set w _ _ t); try done.
Qed.

Lemma release_ok w c ys xs zs q x x' t :
  run_ok me w c ys xs zs -> q ∈ zs.*2 -> w_procs w !! q = Some x -> is_waiting x = true ->
  w_threads w !! primary x = Some t -> primary x' = primary x -> p_parent x' = p_parent x -> is_waiting x' = false ->
  let w' := set_thread (set_process w q x') (primary x) (th_set_state t STATE_READY) in
  run_ok me w' c ys xs zs /\ evolves w w' ys.*2.
Proof.
  intros Hok Hq Hx Hw Ht Hp Hpar Hw' w'.
  destruct (threads_ok_release _ _ _ _ _ _ _ q x x' t (ro_states _ _ _ _ _ _ Hok) Hq Hx Hw Ht Hp Hpar Hw') as [Hth Hs].
  split; [by apply (run_ok_maps me w c ys xs zs _ _ Hok)|].
  apply (evolves_set w _ _ t); try done. rewrite Hs. by states.
Qed.

Lemma exit_defined k c ys xs zs t code :
  run_ok me (k_w k) c ys xs zs -> w_threads (k_w k) !! current_thread c = Some t -> state t = STATE_RUNNING ->
  name t <> IDLE_THREAD -> exists k', exit_current me code k = Ok k' /\ kmoves k ys k'.
Proof.
  intros Hok Ht Hs Hn. destruct (run_ok_caller _ _ _ _ _ _ Hok Ht Hn) as (Hcp & Hq & x & Hx & Hpx).
  unfold exit_current, get_cpu_task_list. rewrite (ro_cpu _ _ _ _ _ _ Hok), Hcp. mred.
  unfold on_world, update_process, process_at. rewrite Hx. mred. unfold update_thread, thread_at. simpl. rewrite Ht. mred.
  simpl. rewrite lookup_insert_eq. mred. simpl.
  match goal with |- context [set_process (k_w k) (process t) ?y] => set (x' := y) end.
  destruct (die_ok (k_w k) c ys xs zs t x x' Hok Ht Hs Hn Hx eq_refl eq_refl eq_refl) as [Hok1 He1].
  set (w1 := set_thread _ _ _) in *. change (<[process t := x']> (w_procs (k_w k))) with (w_procs w1).
  change (<[current_thread c := th_set_state t STATE_DEAD]> (w_threads (k_w k))) with (w_threads w1).
  destruct (Z.eqb_spec (p_parent x) 0) as [H0|H0].
  { eexists. split; [reflexivity|]. by apply (set_moves me (k_w k) c ys xs zs). }
  destruct (th_procs _ _ _ _ _ _ _ (ro_states _ _ _ _ _ _ Hok) _ Hq) as (x0 & Hx0 & [_ _ [|Hpar]]);
    rewrite Hx in Hx0; injection Hx0 as <-; [done|].
  destruct (run_ok_process _ _ _ _ _ _ Hok1 Hpar) as (y & u & Hy & _ & Hy1 & Hu & Hy0). rewrite Hy. mred.
  destruct (is_waiting y) eqn:Hwait; [destruct (wait_target_pid y =? pid x)|]; cbn [andb];
    try (eexists; split; [reflexivity|]; by apply (set_moves me (k_w k) c ys xs zs)).
  simpl. rewrite lookup_insert_eq. mred. simpl. rewrite (proj2 (Z.eqb_neq _ 0) Hy0). cbn [negb].
  change (<[current_thread c := th_set_state t STATE_DEAD]> (w_threads (k_w k))) with (w_threads w1). rewrite Hu. mred.
  match goal with |- context [set_process w1 (p_parent x) ?z] => set (y' := z) end.
  destruct (release_ok w1 c ys xs zs (p_parent x) y y' u Hok1 Hpar Hy Hwait Hu eq_refl eq_refl eq_refl) as [Hok2 He2].
  eexists. split; [reflexivity|]. apply (set_moves me (k_w k) c ys xs zs). split; [exact Hok2|].
  by apply (evolves_trans _ _ _ _ _ He1 He2).
Qed.

(** [process_by_pid] finds a process of the list, or none. *)
Lemma process_by_pid_ok w c ys xs zs n :
  run_ok me w c ys xs zs -> exists q, process_by_pid me n w = Ok q /\ (q = 0 \/ q ∈ zs.*2).
Proof.
  intros Hok. unfold process_by_pid, get_cpu_task_list, get_first_match. rewrite (ro_cpu _ _ _ _ _ _ Hok). mred.
  pose proof (ro_procs _ _ _ _ _ _ Hok) as Hl. pose proof Hl as [_ (h & Hh & Hc) _ _ _].
  destruct (process_list c =? 0); [exists 0; by auto|]. rewrite Hh. mred. cbn [count head].
  destruct (Z.of_nat (length zs) =? 0); [exists 0; by auto|].
  rewrite (match_loop_ok _ _ zs h _ Hc) by (pose proof (is_list_size _ _ _ Hl); lia).
  eexists. split; [reflexivity|]. destruct (list_find _ zs.*2) as [[i q]|] eqn:Hf; [right|by left].
  apply list_find_Some in Hf as [Hf _]. by apply list_elem_of_lookup_2 in Hf.
Qed.

Lemma wait_ok w c ys xs zs t x x' :
  run_ok me w c ys xs zs -> w_threads w !! current_thread c = Some t -> state t = STATE_RUNNING -> name t <> IDLE_THREAD ->
  w_procs w !! process t = Some x -> primary x' = primary x -> p_parent x' = p_parent x -> is_waiting x' = true ->
  let w' := set_thread (set_process w (process t) x') (current_thread c) (th_set_state t STATE_WAITING) in
  run_ok me w' c ys xs zs /\ evolves w w' ys.*2.
Proof.
  intros Hok Ht Hs Hn Hx Hp Hpar Hw w'. split.
  - apply (run_ok_maps me w c ys xs zs _ _ Hok), (threads_ok_wait _ _ _ _ _ _ _ t x); try done. apply Hok.
  - apply (evolves_set w _ _ t); try done. rewrite Hs. by states.
Qed.

Lemma wait_defined k c ys xs zs t n :
  run_ok me (k_w k) c ys xs zs -> w_threads (k_w k) !! current_thread c = Some t -> state t = STATE_RUNNING ->
  name t <> IDLE_THREAD -> exists r k', wait_for me n k = Ok (r, k') /\ kmoves k ys k'.
Proof.
  intros Hok Ht Hs Hn. destruct (run_ok_caller _ _ _ _ _ _ Hok Ht Hn) as (Hcp & Hq & x & Hx & Hpx).
  unfold wait_for, get_cpu_task_list. rewrite (ro_cpu _ _ _ _ _ _ Hok), Hcp. mred.
  destruct (process_by_pid_ok _ _ _ _ _ n Hok) as (q & -> & Hqz). mred.
  destruct (Z.eqb_spec q 0) as [|Hq0]; [eexists _, _; split; [done|]; by apply (moves_refl me _ c ys xs zs)|].
  destruct Hqz as [|Hqz]; [done|]. destruct (run_ok_process _ _ _ _ _ _ Hok Hqz) as (y & u & Hy & _ & _ & Hu & Hy0).
  unfold process_at. rewrite Hy. mred. rewrite (proj2 (Z.eqb_neq _ 0) Hy0). unfold thread_at. rewrite Hu. mred.
  destruct (state u =? STATE_DEAD); [eexists _, _; split; [done|]; by apply (moves_refl me _ c ys xs zs)|].
  unfold on_world, update_process, process_at. rewrite Hx. mred. unfold update_thread, thread_at. simpl. rewrite Ht. mred.
  simpl. match goal with |- context [set_process (k_w k) (process t) ?z] => set (x' := z) end.
  destruct (wait_ok (k_w k) c ys xs zs t x x' Hok Ht Hs Hn Hx eq_refl eq_refl eq_refl) as [Hok1 He1].
  set (w1 := set_thread _ _ _) in *. change (<[process t := x']> (w_procs (k_w k))) with (w_procs w1).
  change (<[current_thread c := th_set_state t STATE_WAITING]> (w_threads (k_w k))) with (w_threads w1).
  destruct (run_ok_process _ _ _ _ _ _ Hok1 Hqz) as (y1 & u1 & Hy1 & _ & _ & Hu1 & _). rewrite Hy1. mred.
  rewrite Hu1. mred. eexists _, _. split; [reflexivity|]. by apply (set_moves me (k_w k) c ys xs zs).
Qed.

Lemma process_set_ok w c ys xs zs q x x' :
  run_ok me w c ys xs zs -> w_procs w !! q = Some x -> primary x' = primary x -> is_waiting x' = is_waiting x ->
  p_parent x' = p_parent x \/ p_parent x' ∈ zs.*2 -> run_ok me (set_process w q x') c ys xs zs.
Proof.
  intros Hok Hx Hp Hw Hpar. apply (run_ok_maps me w c ys xs zs (w_threads w) _ Hok).
  apply (threads_ok_process _ _ _ _ _ _ _ _ x); try done. apply Hok.
Qed.

(** [start_process] puts one thread and its process on the lists; the process has
    the given table, the heap's start and the caller's process as its parent. *)
Lemma start_ok k c ys xs zs t entry top pml4 :
  run_ok me (k_w k) c ys xs zs -> w_threads (k_w k) !! current_thread c = Some t -> name t <> IDLE_THREAD ->
  match start_process me junk_thread O_RDONLY O_WRONLY entry top pml4 k with
  | Ok (q, k') => exists n p m x, run_ok me (k_w k') c ((n, p) :: ys) xs ((m, q) :: zs) /\
      evolves (k_w k) (k_w k') ys.*2 /\ starts (k_w k) (k_w k') p q entry USR_STACK_BASE top /\
      w_procs (k_w k') !! q = Some x /\ cr3 x = pml4 /\ heap_end x = USR_HEAP_BASE /\ p_parent x = process t
  | Halt => True
  | _ => False
  end.
Proof.
  intros Hok Ht Hn. unfold start_process.
  pose proof (spawn_ok me junk_thread O_RDONLY O_WRONLY (k_w k) c ys xs zs entry USR_STACK_BASE top Hok junk_not_idle) as Hsp.
  destruct (new_elf_process _ _ _ _ _ _ _ _) as [[q w1]| | |]; mred; try done.
  destruct Hsp as (n & p & m & Hok1 & He1 & y & x & Hy & Hx & Hprim & Hst).
  unfold on_world, update_process, process_at. simpl. rewrite Hx. mred.
  set (x1 := pr_set_heap_end (pr_set_cr3 x pml4) USR_HEAP_BASE). simpl.
  pose proof (process_set_ok _ _ _ _ _ q x x1 Hok1 Hx eq_refl eq_refl (or_introl eq_refl)) as Hok2.
  destruct (run_ok_current _ _ _ _ _ _ Hok) as (t0 & Ht0 & Hc & _). rewrite Ht in Ht0. injection Ht0 as <-.
  destruct (He1 _ t Hc Ht) as (t1 & Ht1 & (_ & Hn1 & Hpr1) & _).
  destruct (run_ok_caller _ _ _ _ _ t1 Hok2 Ht1 ltac:(congruence)) as (Hcp & Hq & _). rewrite Hcp. mred.
  rewrite lookup_insert_eq. mred. simpl.
  pose proof (process_set_ok _ _ _ _ _ q x1 (pr_set_parent x1 (process t1)) Hok2 ltac:(apply lookup_insert_eq)
    eq_refl eq_refl (or_intror Hq)) as Hok3.
  exists n, p, m, (pr_set_parent x1 (process t1)). split; [exact Hok3|]. split; [exact He1|].
  split; [|by rewrite lookup_insert_eq, <-Hpr1].
  exists y, (pr_set_parent x1 (process t1)). split; [exact Hy|]. split; [apply lookup_insert_eq|].
  split; [exact Hprim|exact Hst].
Qed.

Lemma start_defined k c ys xs zs t entry top pml4 :
  run_ok me (k_w k) c ys xs zs -> w_threads (k_w k) !! current_thread c = Some t -> name t <> IDLE_THREAD ->
  match start_process me junk_thread O_RDONLY O_WRONLY entry top pml4 k with
  | Ok (_, k') => kmoves k ys k'
  | Halt => True
  | _ => False
  end.
Proof.
  intros Hok Ht Hn. pose proof (start_ok k c ys xs zs t entry top pml4 Hok Ht Hn) as Hs.
  destruct (start_process _ _ _ _ _ _ _ _) as [[q k']| | |]; try done.
  destruct Hs as (n & p & m & x & Hok' & He & _).
  exists c, ((n, p) :: ys), xs, ((m, q) :: zs). split_and!; [done|intros; by right|done].
Qed.

(** Every block of the scheduler is one the rest of the kernel leaves alone. *)
Lemma owned_known w c ys xs zs p :
  run_ok me w c ys xs zs -> p ∈ owned c ys xs zs ->
  is_Some (lists (w_k w) !! p) \/ is_Some (nodes (w_k w) !! p) \/ is_Some (w_threads w !! p) \/
  is_Some (w_deltas w !! p) \/ is_Some (w_procs w !! p).
Proof.
  intros [R1 R2 R3 R4 R5 R6 R7 R8 R9 R10 R11 R12].
  assert (forall l us, is_list (w_k w) l us -> p ∈ l :: us.*1 -> is_Some (lists (w_k w) !! p) \/ is_Some (nodes (w_k w) !! p))
    as Hl.
  { intros l us [_ (h & Hh & Hc) _ _ _] [->|Hp]%elem_of_cons; [left; by rewrite Hh|].
    right. apply elem_of_dom. by apply (node_chain_dom _ h us). }
  rewrite elem_of_owned. intros [Hp|[Hp|[Hp|[Hp|[Hp|Hp]]]]].
  - destruct (Hl _ _ R4 Hp); auto.
  - destruct (Hl _ _ R5 Hp); auto.
  - destruct (Hl _ _ R6 Hp); auto.
  - destruct (th_all _ _ _ _ _ _ _ R10 p Hp) as (t & -> & _). eauto.
  - specialize (R9 p Hp). auto.
  - destruct (th_procs _ _ _ _ _ _ _ R10 p Hp) as (x & -> & _). eauto 6.
Qed.

Lemma others_run_ok k k' c ys xs zs : run_ok me (k_w k) c ys xs zs -> others k k' -> run_ok me (k_w k') c ys xs zs.
Proof.
  intros Hok [T1 T2 T3 T4 T5 T6 T7 T8 T9 T10 T11 [T12 T13]].
  pose proof Hok as [R1 R2 R3 R4 R5 R6 R7 R8 R9 R10 R11 R12].
  assert (forall p, p ∈ owned c ys xs zs -> live (alloc (w_k (k_w k'))) p) as Hlive.
  { intros p Hp. apply T4; [by apply (owned_known _ _ _ _ _ _ Hok)|by apply R8]. }
  assert (forall l us, (forall p, p ∈ l :: us.*1 -> p ∈ owned c ys xs zs) -> is_list (w_k (k_w k)) l us ->
    is_list (w_k (k_w k')) l us) as Hl.
  { intros l us Hin Hus. apply (is_list_kept (w_k (k_w k))); try done; [by rewrite T1|intros; by rewrite T2|auto]. }
  constructor; rewrite ?T5, ?T7, ?T8, ?T9, ?T10, ?T11, ?T12, ?T13; try done.
  - apply Hl; [|done]. intros p Hp. apply elem_of_owned. tauto.
  - apply Hl; [|done]. intros p Hp. apply elem_of_owned. tauto.
  - apply Hl; [|done]. intros p Hp. apply elem_of_owned. tauto.
  - apply (threads_ok_change _ (w_threads (k_w k)) (w_procs (k_w k)) _ (current_thread c) (current_thread c) _ _ _
      (entry_tid (w_deltas (k_w k)) <$> xs.*2) _ R10); try apply R10.
    + intros p t Hp Ht Hto. exists t. split_and!; try done. apply (thread_ok_procs (w_procs (k_w k))); [|done].
      intros x Hx. destruct (T6 _ _ Hx) as (x' & ? & ? & _ & Hw). exists x'. by rewrite Hw.
    + intros q x t t' Hq Hx [P1 (u & Hu & Huq & P2) P3] Ht Ht'. destruct (T6 _ _ Hx) as (x' & ? & ? & ? & Hw).
      rewrite Ht in Ht'. injection Ht' as <-. rewrite Ht in Hu. injection Hu as <-. exists x'. rewrite Hw. split_and!; try done. by left.
Qed.

(** Growing a process's heap and writing on the screen are such work. *)
Lemma sys_alloc_pages_others k k' n r : alloc_inv (alloc (w_k (k_w k))) -> sys_alloc_pages me n k = Ok (r, k') -> others k k'.
Proof.
  intros Hi. unfold sys_alloc_pages. assert (forall s c, others k (set_w k (with_vm (k_w k) s c))) as Hvm.
  { intros s c. constructor; simpl; try done. intros q x Hx. by exists x. }
  destruct (n =? 0); [intros [= _ <-]; specialize (Hvm (w_vm (k_w k)) (w_cr3 (k_w k))); by destruct Hvm; constructor|].
  destruct (get_current_process me (k_w k)) as [q| | |]; mred; try done. unfold process_at.
  destruct (w_procs (k_w k) !! q) as [x|] eqn:Hx; mred; try done.
  destruct (alloc_user_pages _ _ _ _ _) as [[ok s]| | |]; mred; try done.
  destruct ok; simpl; [|by intros [= _ <-]]. unfold on_world, update_process, process_at. simpl. rewrite Hx. mred.
  intros [= _ <-]. constructor; simpl; try done. intros r' y Hy. destruct (decide (r' = q)) as [->|].
  - rewrite lookup_insert_eq. rewrite Hx in Hy. injection Hy as <-. by eexists.
  - rewrite lookup_insert_ne by done. by exists y.
Qed.
Lemma screen_others k sc : alloc_inv (alloc (w_k (k_w k))) -> others k (set_screen k sc).
Proof. intros Hi. constructor; simpl; try done. intros q x Hx. by exists x. Qed.

(** Every event the machine allows is handled. *)
Lemma handle_defined e k c ys xs zs : run_ok me (k_w k) c ys xs zs -> allowed e k -> defined e k ys (handle e k).
Proof.
  intros Hok Hal.
  assert (called e = true -> exists t, w_threads (k_w k) !! current_thread c = Some t /\ state t = STATE_RUNNING /\
    name t <> IDLE_THREAD) as Hcall.
  { intros (c' & t & Hc' & Ht)%Hal. rewrite (ro_cpu _ _ _ _ _ _ Hok) in Hc'. injection Hc' as <-. by exists t. }
  destruct e as [|old from|ch| |ms| |n|code|entry top pml4]; simpl;
    try (destruct Hcall as (t & Ht & Hs & Hn); [done|]).
  - destruct (tick_defined k c ys xs zs Hok) as (k' & -> & Hm). exact Hm.
  - destruct (schedule_moves _ _ _ _ _ _ old from Hok) as (out & w' & -> & Hm). exact Hm.
  - apply on_world_defined. destruct (notify_moves _ _ _ _ _ _ ch Hok) as (w' & -> & Hm). exact Hm.
  - unfold get_cpu_task_list. rewrite (ro_cpu _ _ _ _ _ _ Hok). mred.
    pose proof (ro_threads _ _ _ _ _ _ Hok) as [_ (h & -> & _) _ _ _]. mred. cbn [count]. apply on_world_defined.
    rewrite Nat2Z.id, <-(length_fmap snd).
    destruct (wake_waiters_moves c ys xs zs [] ys.*2 (k_w k) Hok eq_refl) as (w' & Hw & Hm).
    change (Z.of_nat (length [])) with 0 in Hw. rewrite Hw. by apply (set_moves me (k_w k) c ys xs zs).
  - apply on_world_defined. pose proof (sleep_moves me (k_w k) c ys xs zs t ms Hok Ht Hs Hn) as Hm.
    by destruct (sleep_enqueue me ms (k_w k)).
  - unfold get_current_thread, get_cpu_task_list. rewrite (ro_cpu _ _ _ _ _ _ Hok). mred. unfold console_block, on_world.
    unfold update_thread, thread_at. rewrite Ht. mred. by apply (block_moves me (k_w k) c ys xs zs t).
  - destruct (wait_defined k c ys xs zs t n Hok Ht Hs Hn) as (r & k' & -> & Hm). exact Hm.
  - destruct (exit_defined k c ys xs zs t code Hok Ht Hs Hn) as (k' & -> & Hm). exact Hm.
  - pose proof (start_defined k c ys xs zs t entry top pml4 Hok Ht Hn) as Hst.
    by destruct (start_process _ _ _ _ _ _ _ _) as [[]| | |].
Qed.

(** A switch leaves the current thread in place or goes to a ready one. *)
Lemma switches_to_ready w c ps old from out w' c' :
  sched_ok me w c ps -> schedule me old from w = Ok (out, w') -> arr_get (cpu_task_lists w') me = Ok c' ->
  current_thread c' = current_thread c \/ ready w (current_thread c').
Proof.
  intros Hso Hsch Hc'. destruct (so_threads _ _ _ _ Hso _ (so_current _ _ _ _ Hso)) as (_ & t & Ht & _).
  destruct (decide (from = 1)) as [->|Hf].
  { destruct (so_data _ _ _ _ Hso) as (d & Hd). revert Hsch. unfold schedule, get_cpu_task_list, get_current_cpu_data.
    rewrite (so_cpu _ _ _ _ Hso), Hd. mred. intros [= _ <-]. left. rewrite (so_cpu _ _ _ _ Hso) in Hc'. congruence. }
  destruct (schedule_ok me w c ps t old from Hso Hf Ht) as (r & Hfair & [[_ E]|[[_ E]|(Hr & Hne & tr & w2 & _ & E & Hsw)]]);
    rewrite Hsch in E; injection E as -> ->; simpl in Hc'; try (rewrite (so_cpu _ _ _ _ Hso) in Hc'; left; congruence).
  destruct (sw_ok _ _ _ _ _ _ _ Hsw) as (c2 & Hso2 & Hcur & _). rewrite (so_cpu _ _ _ _ Hso2) in Hc'. injection Hc' as <-.
  right. rewrite Hcur. destruct Hfair as [[-> _]|(l1 & l2 & _ & Hrd & _)]; [|done].
  by destruct (so_threads _ _ _ _ Hso _ Hr).
Qed.

(** ** Reachable states *)

Lemma reachable_moves k0 k c ys xs zs : run_ok me (k_w k0) c ys xs zs -> reachable k0 k -> kmoves k0 ys k.
Proof.
  intros Hok. induction 1 as [|k e k' Hr IH Hal Hh|k k' Hr IH Hot].
  - by apply (moves_refl me _ c ys xs zs).
  - apply (moves_trans me _ _ _ _ IH). intros c1 ys1 xs1 zs1 Hok1.
    pose proof (handle_defined e k c1 ys1 xs1 zs1 Hok1 Hal) as Hd. by rewrite Hh in Hd.
  - apply (moves_trans me _ _ _ _ IH). intros c1 ys1 xs1 zs1 Hok1. apply (set_moves me _ c1 ys1 xs1 zs1).
    split; [by apply (others_run_ok k)|]. apply evolves_refl, Hot.
Qed.
End Machine.

(** ** Theorems *)

(** C2: the scheduler's invariant holds in every state the kernel reaches, whatever
    the order of ticks, switches, key strokes, sleeps, waits, exits, program starts
    and work of the rest of the kernel: the lists of threads, processes and
    sleepers are intact and in blocks of their own, only the current thread is
    running, an idle thread is ready or running, a thread sleeps exactly when the
    queue has an entry for it, a thread that waits without a channel belongs to a
    process that waits for a child, thread numbers are unique; and no thread of
    the start state is lost or has changed its number, name or process. *)
Theorem scheduler_invariant {A D} `{Allocator A} me junk ro wo ch (k0 k : kernel A D) c ys xs zs :
  ch <> 0 -> name junk <> IDLE_THREAD -> run_ok me (k_w k0) c ys xs zs -> reachable me junk ro wo ch k0 k ->
  exists c' ys' xs' zs', run_ok me (k_w k) c' ys' xs' zs' /\ (forall p, p ∈ ys.*2 -> p ∈ ys'.*2) /\
    forall p t, p ∈ ys.*2 -> w_threads (k_w k0) !! p = Some t ->
      exists t', w_threads (k_w k) !! p = Some t' /\ same_thread t t'.
Proof.
  intros Hch Hj Hok Hr. destruct (reachable_moves me junk ro wo ch Hch Hj k0 k c ys xs zs Hok Hr) as (c' & ys' & xs' & zs' & Hok' & Hs & He).
  exists c', ys', xs', zs'. split_and!; try done. intros p t Hp Ht. destruct (He p t Hp Ht) as (t' & ? & ? & _). by exists t'.
Qed.

(** C14: no event gets stuck: in every reachable state each interrupt, and each call
    of a running thread that is not the idle thread, is handled without touching
    memory that is not there and without hanging; only [kusleep] and the start of
    a program, which allocate, may stop the machine for want of memory. *)
Theorem events_are_handled {A D} `{Allocator A} me junk ro wo ch (k0 k : kernel A D) c ys xs zs e :
  ch <> 0 -> name junk <> IDLE_THREAD -> run_ok me (k_w k0) c ys xs zs -> reachable me junk ro wo ch k0 k ->
  allowed me e k ->
  (exists k', handle me junk ro wo ch e k = Ok k') \/ (handle me junk ro wo ch e k = Halt /\ allocates e = true).
Proof.
  intros Hch Hj Hok Hr Hal. destruct (reachable_moves me junk ro wo ch Hch Hj k0 k c ys xs zs Hok Hr) as (c' & ys' & xs' & zs' & Hok' & _).
  pose proof (handle_defined me junk ro wo ch Hch Hj e k c' ys' xs' zs' Hok' Hal) as Hd.
  destruct (handle me junk ro wo ch e k) as [k'| | |]; try done; [left; by exists k'|by right].
Qed.

(** C15: the dead stay dead: a thread that has exited is never made ready again and
    never gets the processor back, in whatever order the events come. *)
Theorem dead_stay_dead {A D} `{Allocator A} me junk ro wo ch (k0 k : kernel A D) c ys xs zs p t :
  ch <> 0 -> name junk <> IDLE_THREAD -> run_ok me (k_w k0) c ys xs zs -> reachable me junk ro wo ch k0 k ->
  p ∈ ys.*2 -> w_threads (k_w k0) !! p = Some t -> state t = STATE_DEAD ->
  (exists t', w_threads (k_w k) !! p = Some t' /\ state t' = STATE_DEAD) /\
  forall k' old from c' c'', handle me junk ro wo ch (ESwitch old from) k = Ok k' ->
    arr_get (cpu_task_lists (k_w k)) me = Ok c' -> arr_get (cpu_task_lists (k_w k')) me = Ok c'' ->
    current_thread c'' = p -> current_thread c' = p.
Proof.
  intros Hch Hj Hok Hr Hp Ht Hd.
  destruct (reachable_moves me junk ro wo ch Hch Hj k0 k c ys xs zs Hok Hr) as (c1 & ys1 & xs1 & zs1 & Hok1 & Hs & He).
  destruct (He p t Hp Ht) as (t' & Ht' & _ & Hdead). split; [exists t'; auto|].
  intros k' old from c' c'' Hh Hc' Hc'' Hcur. rewrite (ro_cpu _ _ _ _ _ _ Hok1) in Hc'. injection Hc' as <-.
  simpl in Hh. destruct (schedule me old from (k_w k)) as [[out w']| | |] eqn:Hsch; try done. injection Hh as <-.
  destruct (switches_to_ready me (k_w k) c1 ys1.*2 old from out w' c'' (run_ok_sched _ _ _ _ _ _ Hok1) Hsch Hc'') as [|Hrd];
    [congruence|].
  rewrite Hcur in Hrd. unfold ready in Hrd. rewrite Ht', (Hdead Hd) in Hrd. by states.
Qed.

(** ** The sample machine runs *)

Definition sample_handle := handle (D := list access) 0 sample_user 0 1 77.
Definition sample_reachable := reachable (D := list access) 0 sample_user 0 1 77.

Lemma sample_next e k :
  sample_reachable sample_kernel k -> allowed 0 e k -> allocates e = false -> exists k', sample_handle e k = Ok k'.
Proof.
  intros Hr Hal Ha. destruct (reachable_moves 0 sample_user 0 1 77 ltac:(discriminate) ltac:(discriminate) sample_kernel k
    sample_cpu_list sample_nodes [] [(302, 6000); (303, 6001)] sample_run_ok Hr) as (c & ys & xs & zs & Hok & _).
  pose proof (handle_defined 0 sample_user 0 1 77 ltac:(discriminate) ltac:(discriminate) e k c ys xs zs Hok Hal) as Hd.
  fold sample_handle in Hd. destruct (sample_handle e k) as [k'| | |]; simpl in Hd; [by exists k'|congruence|done|done].
Qed.

(** A tick and a switch. *)
Lemma sample_run :
  exists k1 k2, sample_handle ETick sample_kernel = Ok k1 /\ sample_handle (ESwitch 50001 0) k1 = Ok k2 /\
    sample_reachable sample_kernel k2.
Proof.
  destruct (sample_next ETick sample_kernel) as (k1 & H1); [apply reach_start|done|done|].
  assert (sample_reachable sample_kernel k1) as R1 by (eapply reach_event; [apply reach_start| |exact H1]; done).
  destruct (sample_next (ESwitch 50001 0) k1 R1) as (k2 & H2); [done|done|].
  exists k1, k2. split; [exact H1|]. split; [exact H2|]. eapply reach_event; [exact R1| |exact H2]. done.
Qed.

(** The main thread exits, and another takes over. *)
Lemma sample_exit :
  exists k1 k2, sample_reachable sample_kernel k1 /\ sample_reachable k1 k2 /\
    (exists t, w_threads (k_w k1) !! 5000 = Some t /\ state t = STATE_DEAD).
Proof.
  assert (exists k1, sample_handle (EExit 42) sample_kernel = Ok k1 /\
    exists t, w_threads (k_w k1) !! 5000 = Some t /\ state t = STATE_DEAD) as (k1 & H1 & Ht).
  { eexists. split; [reflexivity|]. eexists. split; reflexivity. }
  assert (sample_reachable sample_kernel k1) as R1.
  { eapply reach_event; [apply reach_start| |exact H1]. intros _. eexists _, _. split; [reflexivity|]. by split. }
  destruct (sample_next (ESwitch 50001 0) k1 R1) as (k2 & H2); [done|done|].
  exists k1, k2. split_and!; [exact R1|eapply reach_event; [apply reach_start| |exact H2]; done|exact Ht].
Qed.

Lemma scheduler_invariant_witness :
  exists k c ys xs zs, sample_reachable sample_kernel k /\ run_ok 0 (k_w k) c ys xs zs /\ 5000 ∈ ys.*2.
Proof.
  destruct sample_run as (k1 & k & _ & _ & Hr).
  destruct (scheduler_invariant 0 sample_user 0 1 77 sample_kernel k sample_cpu_list sample_nodes []
    [(302, 6000); (303, 6001)] ltac:(discriminate) ltac:(discriminate) sample_run_ok Hr) as (c & ys & xs & zs & Hok & Hs & _).
  exists k, c, ys, xs, zs. split; [exact Hr|]. split; [exact Hok|]. apply Hs. left.
Defined.

Lemma events_are_handled_witness :
  exists k, sample_reachable sample_kernel k /\ exists k', sample_handle (ESwitch 50002 0) k = Ok k'.
Proof.
  destruct sample_run as (k1 & k & _ & _ & Hr). exists k. split; [exact Hr|].
  destruct (events_are_handled 0 sample_user 0 1 77 sample_kernel k sample_cpu_list sample_nodes []
    [(302, 6000); (303, 6001)] (ESwitch 50002 0) ltac:(discriminate) ltac:(discriminate) sample_run_ok Hr ltac:(discriminate))
    as [Hk|[_ Ha]]; [exact Hk|discriminate Ha].
Defined.

Lemma dead_stay_dead_witness :
  exists k1 k2, sample_reachable k1 k2 /\ exists t, w_threads (k_w k2) !! 5000 = Some t /\ state t = STATE_DEAD.
Proof.
  destruct sample_exit as (k1 & k2 & H1 & H2 & t & Ht & Hd). exists k1, k2. split; [exact H2|].
  destruct (reachable_moves 0 sample_user 0 1 77 ltac:(discriminate) ltac:(discriminate) sample_kernel k1 sample_cpu_list
    sample_nodes [] [(302, 6000); (303, 6001)] sample_run_ok H1) as (c & ys & xs & zs & Hok & Hs & _).
  destruct (dead_stay_dead 0 sample_user 0 1 77 k1 k2 c ys xs zs 5000 t ltac:(discriminate) ltac:(discriminate) Hok H2
    (Hs 5000 ltac:(left)) Ht Hd) as [Hx _]. exact Hx.
Defined.
