(* ===== verification/UserApp.v ===== *)
(** * The first program (src/kernel/user_app.c)

    A program that runs in user mode: its system call wrappers load registers and
    execute [syscall]; [syscall_entry_asm] (src/kernel/arch/x86_64/syscall.asm)
    stores them in a frame and calls [syscall_handler] of Kernel.v. *)

From S2P Require Import Prelude Font Video Screen Sync Bitmap Pmm Paging Bytes Heap Alloc Klist Vfs Keyboard Device Time Desc Sched Elf Kernel Syscall.

(** Where the compiler put the program's strings and its buffer. *)
Record app_layout := mk_layout {
  str_started : Z;     (* "Started !\n" *)
  str_hello : Z;       (* "hello.txt" *)
  str_failed : Z;      (* "Failed to open hello.txt\n" *)
  str_success : Z;     (* "Successfully read hello.txt\nContent:\n" *)
  str_newline : Z;     (* "\n" *)
  str_empty : Z;       (* "File opened, but return 0 bytes\n" *)
  str_test : Z;        (* "test func\n" *)
  str_loop : Z;        (* "loop\n" *)
  file_buffer : Z
}.

(** What the strings are. *)
Definition text_started : list Z := [83; 116; 97; 114; 116; 101; 100; 32; 33; 10].
Definition text_hello : list Z := [104; 101; 108; 108; 111; 46; 116; 120; 116].
Definition text_failed : list Z :=
  [70; 97; 105; 108; 101; 100; 32; 116; 111; 32; 111; 112; 101; 110; 32; 104; 101; 108; 108; 111; 46; 116; 120; 116; 10].

(** How [first_user_app] ends: in one of its endless loops. *)
Inductive app_end := SpinFailed | SpinExited.

Section Program.
Context {A D : Type}.
(** The kernel's entry, and what the registers a wrapper does not load hold. *)
Context (syscall_handler : pt_regs_t -> kernel A D -> outcome (pt_regs_t * kernel A D)).
Context (regs : pt_regs_t).
Context (strs : app_layout).
(** Rounds granted to the search for a string's end. *)
Context (fuel : nat).
Implicit Types (k : kernel A D).

(** The frame [syscall_entry_asm] pushes: [rax] twice, as [orig_ax] and as [rax]. *)
Definition frame (ax di si dx : Z) : pt_regs_t :=
  mk_regs ax (r_rbx regs) (r_rcx regs) dx si di (r_rbp regs) (r_r8 regs) (r_r9 regs) (r_r10 regs) (r_r11 regs)
    (r_r12 regs) (r_r13 regs) (r_r14 regs) (r_r15 regs) ax (r_rip regs) (r_cs regs) (r_rflags regs) (r_rsp regs) (r_ss regs).

(** [syscall]: the value [rax] comes back with. *)
Definition syscall (ax di si dx : Z) k : outcome (Z * kernel A D) :=
  '(f, k) ← syscall_handler (frame ax di si dx) k; Ok (r_rax f, k).

(** It is not meant to come back; if it does, the program loops. *)
Definition exit (status : Z) k : outcome (kernel A D) :=
  '(_, k) ← syscall SC_EXIT (u32 status) (r_rsi regs) (r_rdx regs) k; Ok k.
Definition yield k : outcome (kernel A D) :=
  '(_, k) ← syscall SC_YIELD (r_rdi regs) (r_rsi regs) (r_rdx regs) k; Ok k.
Definition open (path : Z) k : outcome (Z * kernel A D) :=
  '(fd, k) ← syscall SC_OPEN path (r_rsi regs) (r_rdx regs) k; Ok (s32 fd, k).
Definition read (fd buffer size : Z) k : outcome (Z * kernel A D) :=
  '(n, k) ← syscall SC_READ (u32 fd) buffer (u32 size) k; Ok (s32 n, k).
Definition write (fd buf size : Z) k : outcome (Z * kernel A D) :=
  '(n, k) ← syscall SC_WRITE (u32 fd) buf (u32 size) k; Ok (s32 n, k).
Definition exec (path : Z) k : outcome (Z * kernel A D) :=
  '(n, k) ← syscall SC_EXECVE path (r_rsi regs) (r_rdx regs) k; Ok (s32 n, k).

(** [while (str[len]) len++]. *)
Fixpoint print_len (n : nat) (str len : Z) (m : bytes) : outcome Z :=
  if m (u64 (str + len)) =? 0 then Ok len
  else match n with O => Hang | S n => print_len n str (s32 (len + 1)) m end.

Definition user_print (str : Z) k : outcome (kernel A D) :=
  len ← print_len fuel str 0 (k_user k);
  '(_, k) ← write 1 str len k;
  Ok k.

(** [n] rounds of the endless loop. *)
Fixpoint test_loop (n : nat) k : outcome (kernel A D) :=
  match n with O => Ok k | S n => k ← user_print (str_loop strs) k; test_loop n k end.
Definition test_fun (rounds : nat) k : outcome (kernel A D) :=
  k ← user_print (str_test strs) k; test_loop rounds k.

Definition first_user_app k : outcome (app_end * kernel A D) :=
  k ← user_print (str_started strs) k;
  '(fd, k) ← open (str_hello strs) k;
  if fd <? 0 then
    k ← user_print (str_failed strs) k;
    Ok (SpinFailed, k)
  else
    let k := set_user k (memset (k_user k) (file_buffer strs) 0 128) in
    '(read_bytes, k) ← read fd (file_buffer strs) 127 k;
    k ← (if read_bytes >? 0 then
           k ← user_print (str_success strs) k;
           k ← user_print (file_buffer strs) k;
           user_print (str_newline strs) k
         else user_print (str_empty strs) k);
    k ← exit 42 k;
    Ok (SpinExited, k).
End Program.

(** ** Specification *)

(** The string [s] is at [a], and ends there. *)
Record c_string (m : bytes) (a : Z) (s : list Z) : Prop := {
  cs_chars i c : s !! i = Some c -> m (u64 (a + Z.of_nat i)) = c /\ c <> 0;
  cs_end : m (u64 (a + Z.of_nat (length s))) = 0;
  cs_length : Z.of_nat (length s) < 2 ^ 31
}.

(** The caller's descriptor 1 is the console, open for writing, and nobody holds a lock. *)
Record stdout_ok {A D} (me O_RDONLY : Z) (k : kernel A D) (tp pp : Z) (t : thread_t) (p : process_t) : Prop := {
  so_running : running me k tp pp t p;
  so_table : Z.of_nat (length (file_table p)) = MAX_FILES_PER_PROCESS;
  so_lock : locked (console_lock k) = 0;
  so_file : exists file f, file_table p !! 1%nat = Some file /\ file <> 0 /\ w_files (k_w k) !! file = Some f /\
    f_ops f = Some ConsoleFops /\ f_lock f = 0 /\ Z.land (f_flags f) 3 <> O_RDONLY
}.

(** The text the screen shows, and that it can take [s] as well. *)
Definition shows {A D} (k : kernel A D) (T : tty) (s : list Z) : Prop :=
  term_ok (screen k) /\ displays (screen k) T /\ forallb (fun c => (0 <=? c) && (c <? 128)) s = true /\
  tty_rooms (max_col (screen k)) (max_line (screen k)) (fgc (screen k)) s T = true.

(** ** Lemmas *)

Lemma print_len_ok m a s n i :
  c_string m a s -> (i <= length s)%nat -> (length s - i <= n)%nat ->
  print_len n a (Z.of_nat i) m = Ok (Z.of_nat (length s)).
Proof.
  intros [C1 C2 C3]. revert i. induction n as [|n IH]; intros i Hi Hn.
  - assert (i = length s) as -> by lia. simpl. by rewrite C2.
  - simpl. destruct (decide (i = length s)) as [->|Hne]; [by rewrite C2|].
    destruct (lookup_lt_is_Some_2 s i) as [c Hc]; [lia|]. destruct (C1 i c Hc) as [-> H0].
    rewrite (proj2 (Z.eqb_neq _ _) H0). replace (s32 (Z.of_nat i + 1)) with (Z.of_nat (S i)); [apply IH; lia|].
    unfold s32, u32. rewrite Z.mod_small by lia. destruct (Z.ltb_spec (Z.of_nat i + 1) 2147483648); lia.
Qed.

Lemma read_string m s : forall a, (forall i c, s !! i = Some c -> m (u64 (a + Z.of_nat i)) = c) -> 0 <= a < 2 ^ 64 ->
  read_bytes (length s) m a = s.
Proof.
  induction s as [|c s IH]; intros a Hm Ha; simpl; [done|]. f_equal.
  - rewrite <-(Hm 0%nat c eq_refl). f_equal. rewrite Z.add_0_r. symmetry. apply u64_small. unfold fits_u64. lia.
  - apply IH; [|apply u64_fits]. intros i d Hd. rewrite <-(Hm (S i) d Hd). f_equal. rewrite u64_add_l. f_equal. lia.
Qed.

Section Calls.
Context {A D : Type} `{Allocator A} `{Device D}.
Context (me : Z) (junk_thread : thread_t) (junk : nat -> Z) (kernel_yield : kernel A D -> outcome (kernel A D)).
Context (console_channel O_RDONLY O_WRONLY EMFILE ENOENT ENOMEM EBADF EINVAL : Z).
Context (user_string : bytes -> Z -> list Z) (printf_s : list Z -> term -> outcome term).
Context (kfuel : nat) (regs : pt_regs_t) (fuel : nat).
Implicit Types (k : kernel A D).

Definition handler : pt_regs_t -> kernel A D -> outcome (pt_regs_t * kernel A D) :=
  Kernel.syscall_handler me junk_thread junk kernel_yield console_channel O_RDONLY O_WRONLY EMFILE ENOENT ENOMEM EBADF EINVAL
    user_string printf_s kfuel.

Lemma write_is_sys_write di si dx k :
  syscall handler regs SC_WRITE di si dx k =
    ('(r, k) ← sys_write me junk O_RDONLY EBADF (u32 di) si (u32 dx) k; Ok (u64 r, k)).
Proof.
  unfold syscall, handler, Kernel.syscall_handler. simpl. by destruct (sys_write _ _ _ _ _ _ _ _) as [[]| | |].
Qed.

Lemma open_is_sys_open di si dx k :
  syscall handler regs SC_OPEN di si dx k =
    ('(r, k) ← sys_open me EMFILE ENOENT ENOMEM (path_arg user_string k di) (s32 si) k; Ok (u64 r, k)).
Proof.
  unfold syscall, handler, Kernel.syscall_handler. simpl. by destruct (sys_open _ _ _ _ _ _ _) as [[]| | |].
Qed.

(** What the program prints is added to the text on the screen. *)
Lemma user_print_ok k tp pp t p a s T :
  stdout_ok me O_RDONLY k tp pp t p -> c_string (k_user k) a s -> fits_u64 a -> (length s <= fuel)%nat -> shows k T s ->
  exists sc, user_print handler regs fuel a k = Ok (set_screen k sc) /\
    follows (screen k) sc (tty_print (max_col (screen k)) (max_line (screen k)) (fgc (screen k)) s T).
Proof.
  intros [Hr Ht Hl (file & f & Hfile & Hne & Hf & Hops & Hlk & Hfl)] Hs Ha Hfuel (Hok & Hd & Hch & Hro).
  pose proof Hs as [C1 C2 C3]. unfold user_print.
  pose proof (print_len_ok _ _ _ fuel 0 Hs ltac:(lia) ltac:(lia)) as Hlen. change (Z.of_nat 0) with 0 in Hlen. rewrite Hlen. mred. unfold write.
  rewrite write_is_sys_write. change (u32 (u32 1)) with 1.
  assert (u32 (u32 (Z.of_nat (length s))) = Z.of_nat (length s)) as -> 
    by (unfold u32; by rewrite !(Z.mod_small (Z.of_nat (length s))) by lia).
  rewrite (sys_write_console me junk O_RDONLY EBADF k tp pp t p 1 a _ Hr Ht ltac:(unfold fits_u64; lia) Hl).
  - change (Z.to_nat 1) with 1%nat. rewrite Hfile, Hf, (proj2 (Z.eqb_neq _ _) Hne), (proj2 (Z.eqb_neq _ _) Hfl). cbn [orb].
    rewrite Nat2Z.id, (read_string _ s a) by (intros; by apply C1 || exact Ha).
    destruct (put_chars_show s (screen k) T Hok Hd Hch Hro) as (sc & -> & HF). mred. by exists sc.
  - change (Z.to_nat 1) with 1%nat. rewrite Hfile. intros file' [= <-] _. by exists f.
Qed.
End Calls.

(** An error code survives the way through the register. *)
Lemma s32_u64 r : - 2 ^ 31 <= r < 0 -> s32 (u64 r) = r.
Proof.
  intros Hr. assert (u64 r = r + 18446744073709551616) as ->.
  { unfold u64. rewrite <-(Z.mod_add r 1 18446744073709551616) by lia. rewrite Z.mod_small; lia. }
  unfold s32, u32. replace (r + 18446744073709551616) with (r + 4294967296 + 4294967295 * 4294967296) by lia.
  rewrite Z.mod_add, Z.mod_small by lia. destruct (Z.ltb_spec (r + 4294967296) 2147483648); lia.
Qed.

Lemma tty_rooms_app mc ml fg s1 s2 T :
  tty_rooms mc ml fg (s1 ++ s2) T = tty_rooms mc ml fg s1 T && tty_rooms mc ml fg s2 (tty_print mc ml fg s1 T).
Proof. revert T. induction s1 as [|c s1 IH]; intros T; simpl; [done|]. by rewrite IH, andb_assoc. Qed.

Lemma shows_app {A D} (k : kernel A D) T s1 s2 sc :
  shows k T (s1 ++ s2) -> follows (screen k) sc (tty_print (max_col (screen k)) (max_line (screen k)) (fgc (screen k)) s1 T) ->
  shows k T s1 /\
  shows (set_screen k sc) (tty_print (max_col (screen k)) (max_line (screen k)) (fgc (screen k)) s1 T) s2.
Proof.
  intros (Hok & Hd & Hc & Hr) [Fok Fk Fd]. rewrite forallb_app in Hc. rewrite tty_rooms_app in Hr. bool_hyps.
  split; [done|]. split_and!; simpl; try done.
  by rewrite (kept_max_col _ _ Fk), (kept_max_line _ _ Fk), (kept_fgc _ _ Fk).
Qed.

Lemma stdout_screen {A D} me ro (k : kernel A D) tp pp t p sc :
  stdout_ok me ro k tp pp t p -> stdout_ok me ro (set_screen k sc) tp pp t p.
Proof. intros [[R1 R2 R3 R4] S2 S3 S4]. by constructor; [constructor|..]. Qed.

(** ** Theorem *)


(** ** The program on the sample machine *)

Definition app_strs : app_layout := mk_layout 1000 1100 1200 1300 1400 1500 1600 1700 1800.
(** The three strings in an otherwise empty memory. *)
Definition app_memory : bytes := fun a =>
  if a <? 1100 then (if a <? 1000 then 0 else nth (Z.to_nat (a - 1000)) text_started 0)
  else if a <? 1200 then nth (Z.to_nat (a - 1100)) text_hello 0 else nth (Z.to_nat (a - 1200)) text_failed 0.
Fixpoint app_string (n : nat) (m : bytes) (a : Z) : list Z :=
  match n with O => [] | S n => if m a =? 0 then [] else m a :: app_string n m (a + 1) end.
Definition app_regs : pt_regs_t := mk_regs 0 0 0 0 0 0 0 0 0 0 0 0 0 0 0 0 0 0 0 0 0.
Definition app_kernel : kernel arena (list access) := set_user sample_kernel app_memory.

Lemma app_stdout : stdout_ok 0 0 app_kernel 5000 6000 sample_main sample_process.
Proof.
  constructor; try reflexivity.
  - constructor; try reflexivity. exists sample_cpu_list. split; reflexivity.
  - exists 901. eexists. split; [reflexivity|]. split; [lia|]. split; [reflexivity|]. split_and!; try reflexivity. discriminate.
Qed.

(** [c_string] can be computed. *)
Definition c_stringb (m : bytes) (a : Z) (s : list Z) : bool :=
  forallb (fun '(i, c) => (m (u64 (a + Z.of_nat i)) =? c) && negb (c =? 0)) (imap pair s) &&
  (m (u64 (a + Z.of_nat (length s))) =? 0) && (Z.of_nat (length s) <? 2 ^ 31).
Lemma c_stringb_ok m a s : c_stringb m a s = true -> c_string m a s.
Proof.
  unfold c_stringb. intros Hb. bool_hyps. constructor; [|lia|lia]. intros i c Hc.
  rewrite forallb_forall in *. match goal with Hx : forall x, _ |- _ => specialize (Hx (i, c)); simpl in Hx end.
  match goal with Hx : _ -> _ = true |- _ => specialize (Hx ltac:(apply list_elem_of_In, list_elem_of_lookup; exists i; by rewrite list_lookup_imap, Hc)) end.
  bool_hyps. split; lia.
Qed.

