(* ===== verification/Exec.v ===== *)
(** * Starting a program (src/kernel/elf.c, [create_elf_process] and
    [execute_elf])

    The loader, the address space, the two stacks and the scheduler put together:
    from the path of a program file to a ready thread that enters the program in
    an address space of its own. *)

From S2P Require Import Prelude VfsTree Font Video Screen Sync Bitmap Pmm Paging Bytes Heap Alloc Klist Vfs Keyboard Device Time Desc Sched SchedFair SchedSleep SchedInv SchedSpawn Elf Kernel Syscall SchedRun.

(** ** The user stack *)

(** Page [i] of the stack, from its top down. *)
Definition stack_page (i : Z) : Z := USR_STACK_BASE - i * PAGE_SIZE.
Definition stack_bottom : Z := stack_page 5.

(** The pages [i] to [j - 1] of the stack are there for the program; the rest of
    the space is as before. *)
Record stack_mapped (u : umem) (s' : vm) (root i j : Z) : Prop := {
  sk_space : space_ok (mk_umem s' (u_bytes u)) root;
  sk_hhdm : hhdm_offset s' = hhdm_offset (u_vm u);
  sk_pages v : stack_page j + PAGE_SIZE <= v < stack_page i + PAGE_SIZE ->
    is_Some (user_byte (mk_umem s' (u_bytes u)) root v);
  sk_rest v : 0 <= v < 2 ^ 47 -> ~ (stack_page j + PAGE_SIZE <= v < stack_page i + PAGE_SIZE) ->
    user_byte (mk_umem s' (u_bytes u)) root v = user_byte u root v;
  sk_kernel v : 256 <= pml4_index v -> walk s' root v = walk (u_vm u) root v
}.

Lemma stack_page_same i v :
  0 <= i <= 5 -> 0 <= v < 2 ^ 47 -> same_page (stack_page i) v = true <-> stack_page i <= v < stack_page i + PAGE_SIZE.
Proof.
  intros Hi Hv. unfold stack_page, USR_STACK_BASE, PAGE_SIZE. rewrite same_page_div by lia.
  rewrite Z.eqb_eq. unfold PAGE_SIZE. zdiv.
Qed.

Lemma map_user_stack_ok n : forall i u root F,
  space_ok u root -> free_pages (vm_pmm (u_vm u)) F -> (4 * n <= size F)%nat -> 0 <= i -> i + Z.of_nat n <= 6 ->
  exists s', map_user_stack n i root (u_vm u) = Ok (true, s') /\ stack_mapped u s' root i (i + Z.of_nat n) /\
    exists F', free_pages (vm_pmm s') F' /\ (size F <= size F' + 4 * n)%nat.
Proof.
  induction n as [|n IH]; intros i u root F Hsp HF Hsz Hi Hn; cbn [map_user_stack].
  { exists (u_vm u). split; [done|]. split; [|exists F; split; [done|lia]].
    destruct u. constructor; try done. cbn [Z.of_nat]. rewrite Z.add_0_r. lia. }
  assert (0 <= stack_page i < 2 ^ 47) as Hv by (unfold stack_page, USR_STACK_BASE, PAGE_SIZE; lia).
  destruct (add_page_ok u root (stack_page i) F Hsp HF ltac:(lia) Hv)
    as (g & p & s1 & Ha & Hg0 & Hm & Hh & Hg & (F1 & HF1 & Hs1) & _ & Hadd).
  rewrite Ha. mred. rewrite (proj2 (Z.eqb_neq _ 0) Hg0). fold (stack_page i). rewrite Hm. mred.
  destruct (Hadd (u_bytes u) ltac:(done)) as [P1 _ P3 P4 P5].
  destruct (IH (i + 1) (mk_umem s1 (u_bytes u)) root F1 P1 HF1) as (s' & E & [Q1 Q2 Q3 Q4 Q5] & F2 & HF2 & Hs2); [lia..|].
  cbn [u_vm u_bytes] in *. rewrite E. exists s'. split; [done|]. split; [|exists F2; split; [done|lia]].
  replace (i + 1 + Z.of_nat n) with (i + Z.of_nat (S n)) in * by lia.
  assert (stack_page (i + 1) + PAGE_SIZE = stack_page i) as Enext by (unfold stack_page; lia). rewrite Enext in *.
  assert (stack_page (i + Z.of_nat (S n)) + PAGE_SIZE <= stack_page i) as Hle by (unfold stack_page, PAGE_SIZE; lia).
  assert (0 <= stack_page (i + Z.of_nat (S n)) + PAGE_SIZE) as H0 by (unfold stack_page, USR_STACK_BASE, PAGE_SIZE; lia).
  assert (stack_page i + PAGE_SIZE <= 2 ^ 47) as Htop by (unfold stack_page, USR_STACK_BASE, PAGE_SIZE; lia).
  pose proof (fun v Hv => stack_page_same i v ltac:(lia) Hv) as Hpage.
  constructor; [done|by rewrite Q2|..].
  - intros v Hv1. destruct (decide (v < stack_page i)); [apply Q3; lia|].
    rewrite Q4 by lia. rewrite P3 by (apply Hpage; lia). done.
  - intros v Hv1 Hout. rewrite Q4 by (unfold PAGE_SIZE in *; lia). apply P4; [by apply pml4_index_low|].
    destruct (same_page _ v) eqn:Hs; [|done]. apply Hpage in Hs; lia.
  - intros v Hv1. rewrite Q5 by done. by apply P5.
Qed.

(** ** The kernel stack *)

Lemma alloc_kernel_stack_ok n : forall i top s F,
  pmm_ok (vm_pmm s) -> free_pages (vm_pmm s) F -> (n <= size F)%nat -> 0 <= i ->
  exists top' p', alloc_kernel_stack n i top s = Ok (Some top', with_pmm s p') /\
    (3 < i -> top' = top) /\
    (i <= 3 < i + Z.of_nat n -> exists g, 1 <= g < total_pages (vm_pmm s) /\ ~ not_free (vm_pmm s) g /\
       top' = u64 (PHYS_TO_VIRT (hhdm_offset s) (g * PAGE_SIZE) + PAGE_SIZE)).
Proof.
  induction n as [|n IH]; intros i top s F Hp HF Hsz Hi; cbn [alloc_kernel_stack].
  { exists top, (vm_pmm s). split; [by destruct s|]. split; [done|lia]. }
  destruct (alloc_fresh _ _ Hp HF) as [[-> _]|(g & p & Ha & Hg & HF' & (Ht & _) & Hp' & Hg1 & _ & Hnf & _ & Hmono)].
  { rewrite size_empty in Hsz. lia. }
  assert (size (F ∖ {[g]}) = size F - 1)%nat as Hs1.
  { rewrite size_difference by set_solver. by rewrite size_singleton. }
  rewrite Ha. mred. rewrite (proj2 (Z.eqb_neq _ 0)) by (unfold PAGE_SIZE; lia).
  set (top1 := if i =? _ then _ else top).
  destruct (IH (i + 1) top1 (with_pmm s p) _ Hp' HF' ltac:(lia) ltac:(lia)) as (top' & p' & E & Hk & Hn).
  exists top', p'. rewrite E. split; [done|]. unfold top1, nb_stack_page in Hk, E. split.
  - intros H3. rewrite Hk by lia. by destruct (Z.eqb_spec i (4 - 1)); [lia|].
  - intros [Hi3 Hn3]. destruct (Z.eqb_spec i (4 - 1)) as [->|Hne].
    + exists g. rewrite Hk by lia. split; [by apply HF|]. by split.
    + destruct Hn as (g' & Hr & Hf & ->); [lia|]. cbn [with_pmm vm_pmm hhdm_offset] in *. exists g'. rewrite <-Ht.
      split; [done|]. split; [|done]. intros Hnf'. by apply Hf, Hmono.
Qed.

(** ** The new process *)

(** A write to a frame that was free changes nothing the program sees. *)
Lemma user_byte_fresh s p' m m' root g v :
  space_ok (mk_umem s m) root -> 1 <= g < total_pages (vm_pmm s) -> ~ not_free (vm_pmm s) g ->
  (forall x, fits_u64 x -> ~ within (g * PAGE_SIZE + hhdm_offset s) PAGE_SIZE x -> m' x = m x) -> pml4_index v < 256 ->
  user_byte (mk_umem (with_pmm s p') m') root v = user_byte (mk_umem s m) root v.
Proof.
  intros [_ _ Hh _ Hfr] Hg Hnf Hm Hv. unfold user_byte. cbn [u_vm u_bytes] in *.
  change (walk (with_pmm s p') root v) with (walk s root v).
  destruct (walk s root v) as [[pa []]|] eqn:Hw; [|done..]. f_equal. cbn [with_pmm hhdm_offset].
  destruct (Hfr v pa true Hv Hw) as (f & -> & Hf & Hfn). assert (f <> g) as Hfg by (intros ->; done).
  assert (0 <= va_offset v < PAGE_SIZE) as Ho by (apply (bf_get_range v 0 12); lia).
  pose proof (frame_addr (mk_umem s m) f (va_offset v) Hh Hf Ho) as Hfa. cbn [u_vm] in Hfa. rewrite Hfa.
  destruct Hh as [Hh1 Hh2]. unfold PAGE_SIZE in *. apply Hm; unfold fits_u64, within; lia.
Qed.

(** The frame of a new thread at the end of page [g]. *)
Lemma kernel_frame s g m rip cs ursp uss :
  hhdm_ok s -> 1 <= g < total_pages (vm_pmm s) -> fits_u64 rip -> fits_u64 cs -> fits_u64 ursp -> fits_u64 uss ->
  let krsp := u64 (u64 (PHYS_TO_VIRT (hhdm_offset s) (g * PAGE_SIZE) + PAGE_SIZE) - sizeof_new_stack) in
  frame_at (push_frame m krsp rip cs ursp uss) krsp rip cs ursp uss /\
  forall x, fits_u64 x -> ~ within (g * PAGE_SIZE + hhdm_offset s) PAGE_SIZE x ->
    push_frame m krsp rip cs ursp uss x = m x.
Proof.
  intros [H1 H2] Hg ? ? ? ? krsp.
  assert (krsp = g * PAGE_SIZE + hhdm_offset s + 3936) as E.
  { unfold krsp, PHYS_TO_VIRT. rewrite u64_sub_l, u64_small; [unfold sizeof_new_stack|..]; rewrite ?u64_small;
      unfold fits_u64, sizeof_new_stack, PAGE_SIZE in *; lia. }
  destruct (push_frame_ok m krsp rip cs ursp uss) as [Hf Ho]; try done.
  { unfold range_ok, sizeof_new_stack. rewrite E. unfold PAGE_SIZE in *. lia. }
  split; [done|]. intros x Hx Hw. apply Ho; [done|]. rewrite E. unfold within, sizeof_new_stack, PAGE_SIZE in *. lia.
Qed.

Section Exec.
Context {A D : Type} `{Allocator A}.
Context (me : Z) (junk_thread : thread_t) (O_RDONLY O_WRONLY : Z).
Hypothesis junk_not_idle : name junk_thread <> IDLE_THREAD.
Implicit Types (k : kernel A D) (w : world A).

(** The frames a program takes: its table, its segments and its two stacks. *)
Definition exec_pages (phs : list elf64_pheader_t) : nat := (S (pages_needed phs) + 4 * 6 + 6)%nat.

(** What the processor sees of memory. *)
Definition memory w : umem := mk_umem (w_vm w) (w_stacks w).

(** The program [elf] is ready to run as thread [p] of process [q]: the thread
    enters it with its stack, and its address space holds its segments and its
    stack, nothing else below the kernel, and the kernel. *)
Record started (elf : list Z) (phs : list elf64_pheader_t) (entry : Z) w w' (p q : Z) (y : thread_t) (x : process_t) : Prop := {
  st_thread : w_threads w' !! p = Some y /\ state y = STATE_READY /\ process y = q;
  st_frame : frame_at (w_stacks w') (k_rsp y) entry (Z.lor __USER_CS 3) USR_STACK_BASE (Z.lor __USER_DS 3);
  st_process : w_procs w' !! q = Some x /\ primary x = p /\ heap_end x = USR_HEAP_BASE;
  st_segments ph j : ph ∈ phs -> 0 <= j < p_memsz ph ->
    user_byte (memory w') (PHYS_TO_VIRT (hhdm_offset (w_vm w)) (cr3 x)) (p_vaddr ph + j) = Some (segment_byte elf ph j);
  st_stack v : stack_bottom <= v < USR_STACK_BASE + PAGE_SIZE ->
    is_Some (user_byte (memory w') (PHYS_TO_VIRT (hhdm_offset (w_vm w)) (cr3 x)) v);
  st_rest v : 0 <= v < stack_bottom -> (forall ph, ph ∈ phs -> ~ in_segment ph v) ->
    user_byte (memory w') (PHYS_TO_VIRT (hhdm_offset (w_vm w)) (cr3 x)) v = None;
  st_kernel v : 256 <= pml4_index v ->
    walk (w_vm w') (PHYS_TO_VIRT (hhdm_offset (w_vm w)) (cr3 x)) v = walk (w_vm w) (kernel_pml4 (w_vm w)) v
}.

(** The scheduler does not look at page tables and stacks. *)
Lemma run_ok_memory w c ys xs zs s r m :
  run_ok me w c ys xs zs -> run_ok me (with_stacks (with_vm w s r) m) c ys xs zs.
Proof. intros []. by constructor. Qed.

(** The space [m] at [root] before the thread is made: [g] is the page whose end
    is the kernel stack's top. *)
Record prepared (elf : list Z) (phs : list elf64_pheader_t) (s s' : vm) (m' : bytes) (root g : Z) : Prop := {
  pp_space : space_ok (mk_umem s' m') root;
  pp_hhdm : hhdm_offset s' = hhdm_offset s;
  pp_page : 1 <= g < total_pages (vm_pmm s') /\ ~ not_free (vm_pmm s') g;
  pp_segments ph j : ph ∈ phs -> 0 <= j < p_memsz ph ->
    user_byte (mk_umem s' m') root (p_vaddr ph + j) = Some (segment_byte elf ph j);
  pp_stack v : stack_bottom <= v < USR_STACK_BASE + PAGE_SIZE -> is_Some (user_byte (mk_umem s' m') root v);
  pp_rest v : 0 <= v < stack_bottom -> (forall ph, ph ∈ phs -> ~ in_segment ph v) ->
    user_byte (mk_umem s' m') root v = None;
  pp_kernel v : 256 <= pml4_index v -> walk s' root v = walk s (kernel_pml4 s) v
}.

Lemma prepare_ok elf_buffer elf k F phs entry :
  let s := w_vm (k_w k) in
  tree_ok s (kernel_pml4 s) -> pmm_ok (vm_pmm s) -> hhdm_ok s -> free_pages (vm_pmm s) F ->
  (exec_pages phs <= size F)%nat -> program_ok elf phs entry -> entry <> 0 ->
  Forall (fun ph => seg_last ph <= stack_bottom) phs ->
  exists pml4 s' m' p' g, prepared elf phs s s' m' (PHYS_TO_VIRT (hhdm_offset s) pml4) g /\
    create_elf_process me junk_thread O_RDONLY O_WRONLY elf_buffer elf k
    = start_process me junk_thread O_RDONLY O_WRONLY entry
        (u64 (PHYS_TO_VIRT (hhdm_offset s) (g * PAGE_SIZE) + PAGE_SIZE)) pml4
        (set_w k (with_stacks (with_vm (k_w k) (with_pmm s' p') (w_cr3 (k_w k))) m')).
Proof.
  intros s Ht Hp Hh HF Hsz Hpr He Hseg. unfold exec_pages in Hsz. unfold create_elf_process, load_program.
  destruct (load_elf_ok elf (mk_umem s (w_stacks (k_w k))) F phs entry Ht Hp Hh HF ltac:(lia) Hpr)
    as (pml4 & u' & Hl & [L1 L2 L3 L4 L5] & F1 & HF1 & Hs1).
  cbn [u_vm] in L2, L5. change (w_vm (k_w k)) with s. rewrite Hl. mred. rewrite (proj2 (Z.eqb_neq _ _) He).
  cbn [set_w k_w with_stacks with_vm w_vm w_cr3]. rewrite L2. set (root := PHYS_TO_VIRT (hhdm_offset s) pml4) in *.
  destruct (map_user_stack_ok num_stack_pages 0 u' root F1 L1 HF1) as (s1 & E1 & [K1 K2 K3 K4 K5] & F2 & HF2 & Hs2);
    [unfold num_stack_pages; lia..|]. rewrite E1. mred. cbn [negb set_w k_w with_stacks with_vm w_vm w_cr3].
  destruct (alloc_kernel_stack_ok num_stack_pages 0 0 s1 F2 (sp_pmm _ _ K1) HF2) as (top & p' & E2 & _ & Hg);
    [unfold num_stack_pages in *; lia..|]. rewrite E2. mred.
  destruct Hg as (g & Hg & Hnf & ->); [unfold num_stack_pages; lia|]. rewrite K2, L2.
  exists pml4, s1, (u_bytes u'), p', g. split; [|reflexivity].
  assert (forall ph v, ph ∈ phs -> p_vaddr ph <= v < p_vaddr ph + p_memsz ph -> 0 <= v < stack_bottom) as Hlow.
  { intros ph v Hin Hv. rewrite Forall_forall in Hseg. specialize (Hseg ph Hin).
    pose proof (proj1 (Forall_forall _ _) (pr_segments _ _ _ Hpr) ph Hin) as Hok.
    pose proof (segment_size_bounds _ _ Hok). destruct (se_addr _ _ Hok). unfold seg_last, seg_first in *. lia. }
  assert (stack_page (0 + Z.of_nat num_stack_pages) + PAGE_SIZE = stack_bottom) as Eb by done. rewrite Eb in *.
  change (stack_page 0 + PAGE_SIZE) with (USR_STACK_BASE + PAGE_SIZE) in *.
  assert (stack_bottom < 2 ^ 47) by done.
  constructor; [done|by rewrite K2|done|..].
  - intros ph j Hin Hj. specialize (Hlow ph (p_vaddr ph + j) Hin ltac:(lia)). rewrite K4 by lia. by apply L3.
  - exact K3.
  - intros v Hv Hno. rewrite K4 by lia. apply L4; [lia|done].
  - intros v Hv. rewrite K5, L5 by done. done.
Qed.

Lemma start_objs entry top pml4 k q k' :
  start_process me junk_thread O_RDONLY O_WRONLY entry top pml4 k = Ok (q, k') -> k_objs k' = k_objs k.
Proof.
  unfold start_process, on_world. destruct (new_elf_process _ _ _ _ _ _ _ _) as [[p w]| | |]; mred; try done.
  destruct (update_process _ _ _) as [w1| | |]; mred; try done.
  destruct (get_current_process _ _) as [pp| | |]; mred; try done.
  destruct (update_process _ _ _) as [w2| | |]; mred; try done. by intros [= _ <-].
Qed.

Lemma exec_ok elf_buffer elf k c ys xs zs t F phs entry :
  let s := w_vm (k_w k) in
  run_ok me (k_w k) c ys xs zs -> w_threads (k_w k) !! current_thread c = Some t -> name t <> IDLE_THREAD ->
  tree_ok s (kernel_pml4 s) -> pmm_ok (vm_pmm s) -> hhdm_ok s -> free_pages (vm_pmm s) F ->
  (exec_pages phs <= size F)%nat -> program_ok elf phs entry -> 0 < entry < 18446744073709551616 ->
  Forall (fun ph => seg_last ph <= stack_bottom) phs ->
  match create_elf_process me junk_thread O_RDONLY O_WRONLY elf_buffer elf k with
  | Ok (q, k') => exists n p m y x, run_ok me (k_w k') c ((n, p) :: ys) xs ((m, q) :: zs) /\
      evolves (k_w k) (k_w k') ys.*2 /\ started elf phs entry (k_w k) (k_w k') p q y x /\ p_parent x = process t /\
      k_objs k' = k_objs k
  | Halt => True
  | _ => False
  end.
Proof.
  intros s Hok Ht Hn Htree Hp Hh HF Hsz Hpr He Hseg.
  destruct (prepare_ok elf_buffer elf k F phs entry Htree Hp Hh HF Hsz Hpr ltac:(lia) Hseg)
    as (pml4 & s' & m' & p' & g & [P1 P2 [Hg Hnf] P4 P5 P6 P7] & ->). fold s in P1, P2, P4, P5, P6, P7 |- *.
  set (k1 := set_w k _). set (top := u64 _).
  pose proof (run_ok_memory _ _ _ _ _ (with_pmm s' p') (w_cr3 (k_w k)) m' Hok) as Hok1.
  pose proof (start_ok me junk_thread O_RDONLY O_WRONLY junk_not_idle k1 c ys xs zs t entry top pml4 Hok1 Ht Hn) as Hs.
  destruct (start_process _ _ _ _ _ _ _ _) as [[q k']| | |] eqn:Est; try done. apply start_objs in Est.
  destruct Hs as (n & p & m & x & Hok' & Hev & (y & x' & Hy & Hx' & Hprim & Hpy & Hst & _ & Hrsp & Hvm & Hstk) & Hx & Hcr & Hhe & Hpar).
  rewrite Hx in Hx'. injection Hx' as <-.
  cbn [k1 set_w k_w with_stacks with_vm w_vm w_stacks] in Hvm, Hstk. unfold top in Hrsp. rewrite <-P2 in Hrsp.
  destruct (kernel_frame s' g m' entry (Z.lor __USER_CS 3) USR_STACK_BASE (Z.lor __USER_DS 3) (sp_hhdm _ _ P1) Hg)
    as [Hf Hout]; [unfold fits_u64; lia|done..|]. rewrite <-Hrsp in Hf, Hout. rewrite <-Hstk in Hf, Hout.
  assert (forall v, pml4_index v < 256 -> user_byte (memory (k_w k')) (PHYS_TO_VIRT (hhdm_offset s) pml4) v
    = user_byte (mk_umem s' m') (PHYS_TO_VIRT (hhdm_offset s) pml4) v) as Hub.
  { intros v Hv. unfold memory. rewrite Hvm. by apply (user_byte_fresh s' p' m' _ _ g). }
  exists n, p, m, y, x. split; [done|]. split; [exact Hev|]. split; [|by split].
  constructor; try done; fold s; rewrite ?Hcr.
  - intros ph j Hin Hj. rewrite Hub; [by apply P4|]. apply pml4_index_low.
    pose proof (proj1 (Forall_forall _ _) (pr_segments _ _ _ Hpr) ph Hin) as Hso. destruct (se_addr _ _ Hso). lia.
  - intros v Hv. rewrite Hub; [by apply P5|]. apply pml4_index_low.
    unfold stack_bottom, stack_page, USR_STACK_BASE, PAGE_SIZE in Hv. lia.
  - intros v Hv Hno. rewrite Hub; [by apply P6|]. apply pml4_index_low.
    unfold stack_bottom, stack_page, USR_STACK_BASE, PAGE_SIZE in Hv. lia.
  - intros v Hv. rewrite Hvm. by apply P7.
Qed.
End Exec.

(** ** Reading the file *)

(** The whole of a file that is not empty, from its start. *)
Lemma read_file_ok {A} `{Allocator A} (junk : nat -> Z) (con : @file_ops_t A) (s : fs A) filp lk fl d content :
  let n := Z.of_nat (length content) in
  fs_ok s -> filp <> 0 -> file_at (objs s) filp = Some (mk_file lk d 0 (Some RamfsFops) fl) ->
  reach (objs s) (root_dentry s) d -> file_bytes (objs s) d = Some content -> content <> [] -> n < 2 ^ 62 ->
  vfs_read junk con filp n s = Ok (n, content, set_obj s filp (OFile (mk_file lk d n (Some RamfsFops) fl))).
Proof.
  intros n Hok Hf0 Hfile Hr Hc Hne Hn. pose proof Hok as [_ Ht].
  destruct (node_is_file _ _ _ _ Ht Hr Hc) as (i & ino & fd & Hf & Hcon & Hsz). fold n in Hsz.
  assert (0 < n) by (unfold n; destruct content; [done|simpl; lia]).
  destruct (fl_ok _ _ _ _ _ Hf) as [(_ & _ & ?)|(Hb0 & b & Hb & Hlb & Hcap & _)]; [lia|].
  unfold vfs_read. rewrite (proj2 (Z.eqb_neq filp 0) Hf0), Hfile. mred. cbn [f_ops f_pos fops read ramfs_fops].
  rewrite (ramfs_read_ok s filp lk 0 (Some RamfsFops) fl d i ino fd b); try done; try lia.
  unfold read_length. rewrite Z.add_0_l, <-Hsz, Z.leb_refl, (proj2 (Z.leb_le _ _)) by lia. mred. rewrite Hfile. mred.
  rewrite Hb, <-Hsz in Hcon. simpl in Hcon. by rewrite <-Hcon.
Qed.

(** What [execute_elf] leaves of the store: the buffer with the program. *)
Lemma fetched_objs (M : gmap Z obj) filp eb f f' o o' :
  M !! filp = None -> M !! eb = None -> eb <> filp ->
  delete filp (<[eb := o']> (<[filp := f']> (<[eb := o]> (<[filp := f]> M)))) = <[eb := o']> M.
Proof.
  intros Hf He Hne. apply map_eq. intros x. destruct (decide (x = filp)) as [->|Hxf].
  - by rewrite lookup_delete_eq, lookup_insert_ne.
  - rewrite lookup_delete_ne by done. destruct (decide (x = eb)) as [->|Hxe]; [by rewrite !lookup_insert_eq|].
    by rewrite !lookup_insert_ne by done.
Qed.

(** The size of a file, with more in the store. *)
Lemma file_size_ok m m' root d content :
  VfsTree.tree_ok m root -> reach m root d -> file_bytes m d = Some content -> m ⊆ m' ->
  exists e ino, dentry_at m' d = Some e /\ inode_at m' (d_inode e) = Some ino /\ i_size ino = Z.of_nat (length content).
Proof.
  intros Ht Hr Hc Hsub. destruct (node_is_file _ _ _ _ Ht Hr Hc) as (i & ino & fd & [(e & He & <-) Hi _ _ _ _ _] & _ & Hsz).
  exists e, ino. split; [by apply (dentry_mono m)|]. split; [by apply (inode_mono m)|done].
Qed.

Section Run.
Context {A D : Type} `{Allocator A}.
Context (me : Z) (junk_thread : thread_t) (junk : nat -> Z) (O_RDONLY O_WRONLY : Z).
Hypothesis junk_not_idle : name junk_thread <> IDLE_THREAD.
Implicit Types (k : kernel A D) (w : world A).

(** The blocks of the scheduler and of the open console files. *)
Definition kernel_blocks k (c : cpu_task_list_t) (ys xs zs : list (Z * Z)) : list Z :=
  owned c ys xs zs ++ elements (dom (w_files (k_w k))).

Lemma get_set_fs k s : get_fs (set_fs k s) = s.
Proof. by destruct s. Qed.

(** [read_elf] of a whole file: only the buffer stays, with the program in it. *)
Lemma read_elf_ok k S s1 M d elf filp eb lk fl junk_bytes :
  @fs_ok A (framed S) s1 -> M !! filp = None -> M !! eb = None -> eb <> filp -> filp <> 0 ->
  objs s1 = <[eb := OBuf junk_bytes]> (<[filp := OFile (mk_file lk d 0 (Some RamfsFops) fl)]> M) ->
  reach (objs s1) (root_dentry s1) d -> file_bytes (objs s1) d = Some elf -> elf <> [] ->
  Z.of_nat (length elf) < 2 ^ 62 -> length junk_bytes = length elf ->
  exists s, read_elf junk filp eb (Z.of_nat (length elf)) (set_fs k s1) = Ok (Some elf, set_fs k s) /\
    @store_step A (framed S) s1 s (<[eb := OBuf elf]> M).
Proof.
  intros Hok Hf He Hne Hf0 Hm Hr Hc Hnil Hlen Hj. set (n := Z.of_nat (length elf)) in *. unfold read_elf.
  rewrite get_set_fs.
  pose proof (@read_file_ok A (framed S) junk no_console s1 filp lk fl d elf Hok Hf0) as Hread. fold n in Hread.
  change (@vfs_read A (framed S)) with (@vfs_read A H) in Hread.
  rewrite Hread by (done || (unfold file_at; rewrite Hm, lookup_insert_ne, lookup_insert_eq by done; reflexivity)). mred.
  cbn [set_fs k_objs set_obj objs]. unfold buf_at. rewrite Hm, lookup_insert_ne, lookup_insert_eq by done. mred.
  rewrite copy_in_start, drop_ge, app_nil_r by lia. mred. rewrite (proj2 (Z.ltb_ge _ 0)) by (unfold n; lia).
  unfold kfree_obj. rewrite !get_set_fs. set (s2 := set_obj (set_obj s1 filp _) eb _).
  assert (@store_ok A (framed S) s2) as Hs2.
  { apply set_obj_ok; [apply set_obj_ok; [apply Hok|]|]; cbn [set_obj objs]; rewrite Hm; [|rewrite lookup_insert_ne by done];
      [rewrite lookup_insert_ne, lookup_insert_eq by done; done|by rewrite lookup_insert_eq]. }
  destruct (@free_obj_ok A (framed S) filp s2 Hs2) as (s3 & E & (Hs3 & Hm3 & Hr3) & _).
  { cbn [s2 set_obj objs]. by rewrite lookup_insert_ne, lookup_insert_eq by done. }
  change (@free_obj A (framed S)) with (@free_obj A H) in E. rewrite E. mred. exists s3. split; [reflexivity|].
  split; [done|]. split; [|by rewrite Hr3]. rewrite Hm3. cbn [s2 set_obj objs]. rewrite Hm. by apply fetched_objs.
Qed.

Lemma fetch_ok path k S d elf :
  @fs_ok A (framed S) (get_fs k) -> (forall p, is_Some (w_files (k_w k) !! p) -> p ∈ S) ->
  hd_error path = Some 47 -> VfsTree.walk (k_objs k) (k_root k) (tokens path) = Some d ->
  file_bytes (k_objs k) d = Some elf -> elf <> [] -> Z.of_nat (length elf) < 2 ^ 62 ->
  forall o, execute_elf me junk_thread junk O_RDONLY O_WRONLY path k = o -> o = Halt \/
  exists eb s, o = launch me junk_thread O_RDONLY O_WRONLY eb elf (set_fs k s) /\ @fs_ok A (framed S) s /\ objs s = <[eb := OBuf elf]> (k_objs k) /\
    same_tree (k_objs k) (objs s) (k_root k) /\ root_dentry s = k_root k.
Proof.
  intros Hok Hfiles Hh Hw Hc Hne Hlen o Eo. unfold execute_elf in Eo.
  pose proof (@vfs_open_new A (framed S) junk no_console path 0 (get_fs k) d elf Hok Hh Hw Hc) as Ho.
  unfold on_fs in Eo. change (@vfs_open A (framed S)) with (@vfs_open A H) in Ho. revert Eo Ho.
  destruct (vfs_open junk no_console (Some path) 0 (get_fs k)) as [[filp s1]| | |]; mred; intros Eo Ho; try done; [|by left].
  destruct Ho as (Hf0 & Hfr & (Hs1 & Hm1 & Hr1)). rewrite (proj2 (Z.eqb_neq _ _) Hf0) in Eo. cbn [get_fs objs root_dentry] in Hfr, Hm1, Hr1.
  assert (w_files (k_w k) !! filp = None) as Hfile.
  { destruct (w_files (k_w k) !! filp) eqn:E; [|done]. destruct (proj2 Hs1 filp) as [_ Hn]; [by rewrite Hm1, lookup_insert_eq|].
    destruct Hn. apply Hfiles. by rewrite E. }
  pose proof Hok as [_ Ht]. cbn [get_fs objs root_dentry] in Ht. pose proof (to_null _ _ Ht) as H0.
  unfold file_of at 1 in Eo. cbn [set_fs k_w with_k w_files k_objs] in Eo. rewrite Hfile in Eo.
  unfold file_at at 1 in Eo. rewrite Hm1, lookup_insert_eq in Eo. cbn [deref mbind outcome_bind f_dentry] in Eo.
  pose proof (walk_reach _ _ _ _ _ Ht (reach_root _ _) Hw) as Hr.
  destruct (file_size_ok (k_objs k) (objs s1) _ d elf Ht Hr Hc) as (e & ino & He & Hi & Hsz);
    [rewrite Hm1; by apply insert_subseteq|]. rewrite Hm1 in He, Hi. rewrite He in Eo. cbn [deref mbind outcome_bind] in Eo.
  rewrite Hi in Eo. cbn [deref mbind outcome_bind] in Eo.
  assert (0 < Z.of_nat (length elf)) as Hpos by (destruct elf; [done|simpl; lia]).
  rewrite Hsz in Eo. rewrite (proj2 (Z.eqb_neq _ 0)) in Eo by lia. rewrite get_set_fs in Eo.
  set (n := Z.of_nat (length elf)) in *. set (o2 := OBuf _) in Eo.
  pose proof (@new_obj_ok A (framed S) n o2 s1 Hs1 ltac:(lia)) as Hn. revert Eo Hn.
  change (@new_obj A (framed S)) with (@new_obj A H).
  destruct (new_obj n o2 s1) as [[eb s2]| | |]; mred; intros Eo Hn; try done; [|by left].
  destruct Hn as (Heb0 & Hebf & (Hs2 & Hm2 & Hr2) & _). rewrite (proj2 (Z.eqb_neq _ _) Heb0) in Eo.
  rewrite Hm1 in Hebf, Hm2. apply lookup_insert_None in Hebf as [Hebf Hne2].
  destruct (@grown_fs_ok A (framed S) (get_fs k) s2 Hok Hs2) as (Hok2 & Hroot2 & Hre2 & Hsame2);
    [cbn [get_fs root_dentry]; congruence| |rewrite Hm2, !lookup_insert_ne by done; done|].
  { rewrite Hm2. cbn [get_fs objs]. apply map_subseteq_spec. intros x o' Hx.
    by rewrite !lookup_insert_ne by (intros ->; congruence). }
  cbn [get_fs objs root_dentry] in Hroot2, Hre2, Hsame2. destruct (Hsame2 d Hr) as (_ & _ & Hc2). rewrite Hc in Hc2.
  destruct (read_elf_ok k S s2 (k_objs k) d elf filp eb (junk 0%nat) (junk 1%nat) (junk <$> seq 0 (Z.to_nat n)) Hok2)
    as (s3 & Erd & Hs3 & Hm3 & Hr3); try done.
  { rewrite Hroot2. by apply Hre2. }
  { rewrite length_fmap, length_seq. unfold n. lia. }
  change (set_fs (set_fs k s1) s2) with (set_fs k s2) in Eo. fold n in Erd. rewrite Erd in Eo. cbn [mbind outcome_bind] in Eo.
  right. exists eb, s3. split; [done|].
  destruct (@grown_fs_ok A (framed S) (get_fs k) s3 Hok Hs3) as (Hok3 & Hroot3 & Hst3);
    [cbn [get_fs root_dentry]; congruence|rewrite Hm3; by apply insert_subseteq|by rewrite Hm3, lookup_insert_ne|].
  by split_and!.
Qed.

(** A kernel that can start a program: the scheduler runs and a thread other than
    the idle one calls, the file system is in order and its objects are its own,
    the kernel's page tables are well formed and the frames [F] are free. *)
Record exec_ready k c ys xs zs (t : thread_t) (F : gset Z) : Prop := {
  er_run : run_ok me (k_w k) c ys xs zs;
  er_caller : w_threads (k_w k) !! current_thread c = Some t /\ name t <> IDLE_THREAD;
  er_fs : @fs_ok A (framed (kernel_blocks k c ys xs zs)) (get_fs k);
  er_tree : tree_ok (w_vm (k_w k)) (kernel_pml4 (w_vm (k_w k)));
  er_pmm : pmm_ok (vm_pmm (w_vm (k_w k)));
  er_hhdm : hhdm_ok (w_vm (k_w k));
  er_free : free_pages (vm_pmm (w_vm (k_w k))) F
}.

(** The file system's work leaves the scheduler as it is. *)
Lemma set_fs_run_ok k c ys xs zs s :
  run_ok me (k_w k) c ys xs zs -> @store_ok A (framed (kernel_blocks k c ys xs zs)) s ->
  run_ok me (k_w (set_fs k s)) c ys xs zs.
Proof.
  intros Hok [[Hi Hl] _]. assert (forall p, p ∈ owned c ys xs zs -> live (fs_alloc s) p) as Hlive.
  { intros p Hp. apply Hl, elem_of_app. by left. }
  assert (forall l us, (forall p, p ∈ l :: us.*1 -> p ∈ owned c ys xs zs) -> is_list (w_k (k_w k)) l us ->
    is_list (w_k (k_w (set_fs k s))) l us) as Hus.
  { intros l us Hin Hus. apply (is_list_kept (w_k (k_w k))); try done. auto. }
  destruct Hok as [R1 R2 R3 R4 R5 R6 R7 R8 R9 R10 R11 R12]. constructor; try done.
  all: apply Hus; [|done]; intros p Hp; apply elem_of_owned; tauto.
Qed.

Lemma execute_ok k c ys xs zs t F path d elf phs entry :
  exec_ready k c ys xs zs t F -> (exec_pages phs <= size F)%nat ->
  hd_error path = Some 47 -> VfsTree.walk (k_objs k) (k_root k) (tokens path) = Some d ->
  file_bytes (k_objs k) d = Some elf -> Z.of_nat (length elf) < 2 ^ 62 ->
  program_ok elf phs entry -> 0 < entry < 18446744073709551616 -> Forall (fun ph => seg_last ph <= stack_bottom) phs ->
  match execute_elf me junk_thread junk O_RDONLY O_WRONLY path k with
  | Ok (r, k') => exists n p m q y x, run_ok me (k_w k') c ((n, p) :: ys) xs ((m, q) :: zs) /\
      evolves (k_w k) (k_w k') ys.*2 /\ started elf phs entry (k_w k) (k_w k') p q y x /\
      p_parent x = process t /\ r = s32 (pid x) /\ same_tree (k_objs k) (k_objs k') (k_root k)
  | Halt => True
  | _ => False
  end.
Proof.
  intros [E1 [E2 E3] E4 E5 E6 E7 E8] Hsz Hh Hw Hc Hlen Hpr He Hseg.
  assert (elf <> []) as Hne by (intros ->; by pose proof (pr_magic _ _ _ Hpr)).
  destruct (fetch_ok path k _ d elf E4) with (o := execute_elf me junk_thread junk O_RDONLY O_WRONLY path k)
    as [->|(eb & s & -> & Hs & Hm & Hsame & Hroot)]; try done.
  { intros p Hp. apply elem_of_app. right. by apply elem_of_elements, elem_of_dom. }
  pose proof (exec_ok me junk_thread O_RDONLY O_WRONLY junk_not_idle eb elf (set_fs k s) c ys xs zs t F phs entry
    (set_fs_run_ok _ _ _ _ _ _ E1 (proj1 Hs)) E2 E3 E5 E6 E7 E8 Hsz Hpr He Hseg) as Hx. unfold launch.
  destruct (create_elf_process _ _ _ _ _ _ _) as [[q k']| | |] eqn:Ec; mred; try done.
  destruct Hx as (n & p & m & y & x & Hok & Hev & Hst & Hpar & Hobj).
  assert (q <> 0) as Hq. { apply (run_ok_nonzero _ _ _ _ _ _ q Hok), owned_procs. by left. }
  rewrite (proj2 (Z.eqb_neq _ _) Hq). unfold process_at. destruct (st_process _ _ _ _ _ _ _ _ _ Hst) as (-> & _). mred.
  exists n, p, m, q, y, x. split_and!; try done; [by destruct Hst; constructor|by rewrite Hobj].
Qed.
End Run.

(** ** Theorem *)


(** *** A kernel with one program file *)

(** A machine of 64 pages whose kernel table is the empty page 1. *)
Definition exec_vm : vm :=
  mk_vm (mk_pmm [3; 0; 0; 0; 0; 0; 0; 0] 18446603336221200384 8 64 2 (mk_safe_lock 0) (mk_cpu 514))
        (fun _ => 0) 18446603336221196288 (PHYS_TO_VIRT 18446603336221196288 4096).
Definition exec_kernel0 : kernel arena (list access) :=
  set_w sample_kernel (with_stacks (with_vm (sample_world false) exec_vm 0) (fun _ => 0)).
Definition exec_procs : list (Z * Z) := [(302, 6000); (303, 6001)].
Definition exec_blocks : list Z := kernel_blocks exec_kernel0 sample_cpu_list sample_nodes [] exec_procs.
Definition no_ops : @file_ops_t arena := mk_file_ops None None None None.

(** [/a] is created and the program written to it. *)
Definition exec_fs0 : fs arena := mk_fs (mk_arena 8000 (list_to_set exec_blocks)) ∅ 0 100.
Definition exec_fs : outcome (fs arena) :=
  s ← ramfs_init exec_fs0;
  '(_, s) ← vfs_create (Some path_a) 420 s;
  '(filp, s) ← vfs_open (fun _ => 0) no_ops (Some path_a) 0 s;
  '(_, _, s) ← ramfs_write (fun _ => 0) filp sample_elf 124 0 s;
  Ok s.
Definition exec_kernel : kernel arena (list access) :=
  match exec_fs with Ok s => set_fs exec_kernel0 s | _ => exec_kernel0 end.

Lemma exec_fs0_ok : @store_ok arena (framed exec_blocks) exec_fs0.
Proof.
  split; [split; [split; [done|]|]|]; cbn [exec_fs0 fs_alloc objs blocks brk].
  - intros p Hp%elem_of_list_to_set. revert p Hp. apply Forall_forall. apply (bool_decide_unpack _). vm_compute. exact I.
  - intros p Hp. by apply elem_of_list_to_set.
  - intros p [x Hx]. by rewrite lookup_empty in Hx.
Qed.

Lemma exec_fs_ok : exists s d, exec_fs = Ok s /\ @fs_ok arena (framed exec_blocks) s /\
  VfsTree.walk (objs s) (root_dentry s) (tokens path_a) = Some d /\ file_bytes (objs s) d = Some sample_elf.
Proof.
  assert (is_ok exec_fs = true) as Hok by (vm_compute; reflexivity). unfold exec_fs in *.
  assert (match ramfs_init exec_fs0 with Ok s => dir_b (objs s) (root_dentry s) | _ => false end = true) as Hd
    by (vm_compute; reflexivity).
  pose proof (@ramfs_init_ok arena (framed exec_blocks) exec_fs0 exec_fs0_ok (lookup_empty _)) as Hi.
  change (@ramfs_init arena (framed exec_blocks)) with (@ramfs_init arena _) in Hi.
  destruct (ramfs_init exec_fs0) as [s1| | |]; try discriminate Hok. destruct Hi as (Hok1 & _ & Hch & _).
  cbn [mbind outcome_bind] in *.
  pose proof (@vfs_create_ok arena (framed exec_blocks) path_a 420 s1 Hok1) as Hc.
  change (@vfs_create arena (framed exec_blocks)) with (@vfs_create arena _) in Hc.
  destruct (vfs_create (Some path_a) 420 s1) as [[r s2]| | |]; try discriminate Hok. cbn [mbind outcome_bind] in *.
  destruct Hc as (Hok2 & Hr2 & Hc).
  assert (vfs_split_path (Some path_a) 256 32 = Some ([47], [97])) as Hsp by reflexivity. rewrite Hsp in Hc.
  assert (VfsTree.walk (objs s1) (root_dentry s1) (tokens [47]) = Some (root_dentry s1)) as Hw by done.
  rewrite Hw, Hd, Hch in Hc. destruct Hc as (_ & n & Ha & Hwalk).
  assert (child (objs s1) (root_dentry s1) (take 31 [97]) = None) as Hnone by (unfold child; by rewrite Hch).
  specialize (Hwalk Hnone ltac:(set_solver)). pose proof (ad_contents _ _ _ _ _ _ _ Ha) as Hcon.
  assert (reach (objs s2) (root_dentry s2) n) as Hrn by (rewrite Hr2; apply (ad_reach _ _ _ _ _ _ _ Ha); by right).
  rewrite <-Hr2 in Hwalk.
  pose proof (@vfs_open_ok arena (framed exec_blocks) (fun _ => 0) no_ops path_a 0 s2 n [] Hok2 eq_refl Hwalk Hcon) as Hop.
  change (@vfs_open arena (framed exec_blocks)) with (@vfs_open arena _) in Hop.
  destruct (vfs_open (fun _ => 0) no_ops (Some path_a) 0 s2) as [[filp s3]| | |]; try discriminate Hok. cbn [mbind outcome_bind] in *.
  destruct Hop as (_ & Hok3 & Hr3 & [Hreach Hsame] & Hfile). destruct (Hsame n Hrn) as (_ & _ & Hb3). rewrite Hcon in Hb3.
  pose proof (@ramfs_write_ok arena (framed exec_blocks) (fun _ => 0) s3 filp 0 0 (Some RamfsFops) 0 n [] sample_elf 124 0 Hok3 Hfile) as Hwr.
  rewrite Hr3 in Hwr. specialize (Hwr (proj2 (Hreach n) Hrn) Hb3 ltac:(simpl; lia) ltac:(vm_compute; split; congruence) ltac:(lia)).
  change (@ramfs_write arena (framed exec_blocks)) with (@ramfs_write arena _) in Hwr.
  destruct (ramfs_write (fun _ => 0) filp sample_elf 124 0 s3) as [[[r' o'] s4]| | |]; try discriminate Hok.
  destruct Hwr as (_ & _ & [W1 W2 W3 W4 W5 _ _ _]). exists s4, n. split; [reflexivity|]. split; [exact W1|]. split; [|exact W3].
  assert (reach (objs s2) (root_dentry s2) (root_dentry s2)) as Hroot by apply reach_root.
  destruct (Hsame _ Hroot) as (C3 & _). rewrite Hr3 in W5. destruct (W5 _ (proj2 (Hreach _) Hroot)) as (C4 & _).
  rewrite W2, Hr3. change (tokens path_a) with [[97]] in *. simpl in Hwalk |- *. by rewrite C4, C3.
Qed.

Lemma exec_vm_tree : tree_ok exec_vm (kernel_pml4 exec_vm).
Proof.
  split.
  - intros [|i q] t _ Ht; [|by simpl in Ht]. injection Ht as <-. exists 1.
    split; [done|]. split; [unfold frame_ok; lia|]. by intros [_ ?].
  - intros [|i q] [|i' q'] t _ _ Ht Ht'; [done|by simpl in *..].
Qed.

Lemma exec_vm_free : free_pages (vm_pmm exec_vm) (list_to_set (seqZ 2 62)).
Proof.
  intros i. rewrite elem_of_list_to_set, elem_of_seqZ. cbn [vm_pmm exec_vm total_pages bitmap]. split.
  - intros Hi. split; [lia|].
    assert (forallb (fun i => negb (page_used [3; 0; 0; 0; 0; 0; 0; 0] i)) (seqZ 2 62) = true) as H by reflexivity.
    rewrite forallb_forall in H. apply negb_true_iff, H. apply list_elem_of_In, elem_of_seqZ. lia.
  - intros [Hi Hu]. destruct (decide (i = 1)) as [->|]; [discriminate Hu|lia].
Qed.

Lemma exec_ready_sample :
  exists d, exec_ready 0 exec_kernel sample_cpu_list sample_nodes [] exec_procs sample_main (list_to_set (seqZ 2 62)) /\
    VfsTree.walk (k_objs exec_kernel) (k_root exec_kernel) (tokens path_a) = Some d /\
    file_bytes (k_objs exec_kernel) d = Some sample_elf.
Proof.
  destruct exec_fs_ok as (s & d & E & Hok & Hw & Hb). exists d.
  assert (exec_kernel = set_fs exec_kernel0 s) as -> by (unfold exec_kernel; by rewrite E).
  split; [|by split]. constructor.
  - apply set_fs_run_ok; [apply run_ok_memory, sample_run_ok|exact (proj1 Hok)].
  - split; [reflexivity|discriminate].
  - rewrite get_set_fs. exact Hok.
  - exact exec_vm_tree.
  - split; [vm_compute; split; discriminate|]. split; [vm_compute; discriminate|reflexivity].
  - split; vm_compute; discriminate.
  - exact exec_vm_free.
Qed.

