(* ===== verification/Boot.v ===== *)
(** * Start-up (src/kernel/init.c, src/main.c, src/kernel/smp.c, src/kernel/mem/mem.c,
    src/kernel/syscall.c)

    What runs once: the checks of the boot loader's answers, the processor's
    control and model-specific registers, the draining of the keyboard
    controller, the kernel's own page tables with the direct map of memory, and
    the start of the other processors.  Registers are a state of their own;
    devices are the class [Device]. *)

From S2P Require Import Prelude Sync Bitmap Pmm Paging Bytes Heap Device Desc.

(** ** init.c *)

(** What the boot loader answered to each request. *)
Record boot_info := mk_boot {
  base_revision_supported : bool;
  framebuffer_count : option Z;
  hhdm_response : option Z;
  memmap_response : option (list limine_memmap_entry)
}.

Definition verify_boot_environment (b : boot_info) : outcome unit :=
  if negb (base_revision_supported b) then Halt
  else if match framebuffer_count b with None => true | Some n => n <? 1 end then Halt
  else if match hhdm_response b with None => true | Some _ => false end then Halt
  else if match memmap_response b with None => true | Some _ => false end then Halt
  else Ok tt.

Record control := mk_control { cr0 : Z; cr4 : Z; cr3 : Z }.

Definition enable_sse (c : control) : control :=
  let r0 := Z.land (cr0 c) (u64 (Z.lnot (Z.shiftl 1 2))) in
  let r0 := Z.lor r0 (Z.shiftl 1 1) in
  let r4 := Z.lor (cr4 c) (Z.shiftl 1 9) in
  let r4 := Z.lor r4 (Z.shiftl 1 10) in
  mk_control r0 r4 (cr3 c).

Section Devices.
Context {D : Type} `{Device D}.

Fixpoint delay (count : nat) (d : D) : D :=
  match count with O => d | S count => delay count (io_write_8 128 0 d) end.

Fixpoint kbd_init (fuel : nat) (d : D) : outcome D :=
  let '(status, d) := io_read_8 100 d in
  if Z.land status 1 =? 0 then Ok d
  else
    match fuel with
    | O => Hang
    | S fuel => let '(_, d) := io_read_8 96 d in kbd_init fuel d
    end.

(** main.c: waits for the input buffer to be empty, then pulses the reset line
    and stops ([abort]). *)
Fixpoint ps2_reboot_loop (fuel : nat) (good : Z) (d : D) : outcome D :=
  if Z.land good 2 =? 0 then Ok d
  else
    match fuel with
    | O => Hang
    | S fuel => let '(good, d) := io_read_8 100 d in ps2_reboot_loop fuel good d
    end.
Definition ps2_reboot (fuel : nat) (d : D) : outcome D :=
  d ← ps2_reboot_loop fuel 2 d;
  Ok (io_write_8 100 254 d).
End Devices.

(** main.c: the number printed, and whether it counts gigabytes. *)
Definition print_available_ram (total_bytes : Z) : Z * bool :=
  let mib := total_bytes / (1024 * 1024) in
  let gib := mib / 1024 in
  if gib >? 0 then (gib, true) else (mib, false).

(** init.c: the lines [analyse_page_table] prints, each as its indentation and
    the index of a present entry. *)
Fixpoint scan_entries (n : nat) (i : Z) (sub : Z -> outcome (list (Z * Z))) (s : vm) (page_tbl ident : Z)
    : outcome (list (Z * Z)) :=
  match n with
  | O => Ok []
  | S n =>
      let e := mem s (entry_addr page_tbl i) in
      if pte_present e =? 1 then
        inner ← sub (PHYS_TO_VIRT (hhdm_offset s) (u64 (Z.shiftl (pte_address e) 12)));
        rest ← scan_entries n (i + 1) sub s page_tbl ident;
        Ok ((ident, i) :: inner ++ rest)
      else scan_entries n (i + 1) sub s page_tbl ident
  end.
Fixpoint analyse_page_table (fuel : nat) (s : vm) (page_tbl level ident : Z) : outcome (list (Z * Z)) :=
  if level =? 2 then Ok []
  else
    match fuel with
    | O => Hang
    | S fuel => scan_entries 512 0 (fun t => analyse_page_table fuel s t (u32 (level - 1)) (u32 (ident + 1))) s page_tbl ident
    end.
Definition analyse_mem (s : vm) : outcome (list (Z * Z)) := analyse_page_table 2 s (kernel_pml4 s) 4 0.

(** ** syscall.c: the processor's system-call registers *)

Definition MSR_EFER : Z := 3221225600.
Definition MSR_STAR : Z := 3221225601.
Definition MSR_LSTAR : Z := 3221225602.
Definition MSR_SFMASK : Z := 3221225604.
Definition MSR_GS_BASE : Z := 3221225729.
Definition MSR_KERNEL_GS_BASE : Z := 3221225730.

Abbreviation msrs := (gmap Z Z).
Definition rdmsr (r : Z) (m : msrs) : Z := default 0 (m !! r).
Definition wrmsr (r v : Z) (m : msrs) : msrs := <[r := u64 v]> m.

(** [cpu] is the address of this processor's [cpu_data_t]; [wrmsr] takes it in
    two halves. *)
Definition init_syscall_gs (cpu : Z) (m : msrs) : msrs :=
  let low := u32 (Z.land cpu 4294967295) in
  let high := u32 (Z.shiftr cpu 32) in
  let m := wrmsr MSR_GS_BASE (Z.lor (Z.shiftl high 32) low) m in
  wrmsr MSR_KERNEL_GS_BASE (Z.lor (Z.shiftl high 32) low) m.

Definition init_syscall (syscall_entry_asm cpu : Z) (m : msrs) : msrs :=
  let efer := rdmsr MSR_EFER m in
  let efer := Z.lor efer (Z.shiftl 1 0) in
  let m := wrmsr MSR_EFER efer m in
  let m := wrmsr MSR_LSTAR syscall_entry_asm m in
  let star_val := Z.lor (u64 (Z.shiftl (Z.land (__USER_CS - 16) 65528) 48))
                        (u64 (Z.shiftl (Z.land __KERNEL_CS 65528) 32)) in
  let m := wrmsr MSR_STAR star_val m in
  let m := wrmsr MSR_SFMASK 18446744073709551613 m in
  init_syscall_gs cpu m.

(** ** mem.c *)

(** The [n] entries of a table from [i] on, copied into another: what [memcpy]
    of a page does to them. *)
Definition copy_table (m : Z -> Z) (dst src : Z) : Z -> Z := copy_entries 512 m dst src 0.

(** [kernel_size], the addresses the boot loader loaded the kernel at, and the
    stack pointer are those of the machine. *)
Definition init_mem (offset : Z) (memmap : list limine_memmap_entry) (kernel_paddr kernel_vaddr kernel_size rsp : Z)
    (c : control) (h : heap) : outcome (control * heap) :=
  let s := mk_vm (vm_pmm (h_vm h)) (mem (h_vm h)) offset (kernel_pml4 (h_vm h)) in
  let top_ram := get_highest_phys_addr memmap in
  '(memmap, p) ← init_bitmap offset memmap (vm_pmm s);
  let s := with_pmm s p in
  let old_cr3 := Z.land (cr3 c) (u64 (Z.lnot 4095)) in
  let old_pml4 := PHYS_TO_VIRT offset old_cr3 in
  '(new_pml4_phys, p) ← pmm_alloc (vm_pmm s);
  let s := with_kernel_pml4 (with_pmm s p) (PHYS_TO_VIRT offset new_pml4_phys) in
  let s := with_mem s (copy_table (mem s) (kernel_pml4 s) old_pml4) in
  s ← map_ram memmap s;
  s ← map_kernel kernel_paddr kernel_vaddr kernel_size s;
  if negb ((rsp >=? offset) && (rsp <? u64 (offset + top_ram))) &&
     negb ((rsp >=? kernel_vaddr) && (rsp <? u64 (kernel_vaddr + kernel_size)))
  then Halt
  else
    let c := mk_control (cr0 c) (cr4 c) new_pml4_phys in
    h ← heap_init (with_vm h s);
    Ok (c, h).

Record kernel_memmap_t := mk_kmemmap {
  kernel_start : Z; kernel_size : Z; kheap_start : Z; kheap_size : Z; uheap_start : Z; uheap_size : Z;
  kstack_start : Z; kstack_size : Z; ustack_start : Z; ustack_size : Z; mem_start : Z; mem_size : Z
}.
Definition sizeof_kmemmap : Z := 96.
Definition KERNEL_STACK_SIZE : Z := 16384.

(** The block, what it holds and the heap after it; the fields that are not set
    are the zeros of [kzalloc].  [heap_start_addr] is the address of the
    variable [heap_start], not its value. *)
Definition init_kmemmap (kernel_start_addr ksize kernel_stack_addr heap_start_addr : Z) (h : heap)
    : outcome (Z * kernel_memmap_t * heap) :=
  '(memmap, h) ← kzalloc sizeof_kmemmap h;
  if memmap =? 0 then Fault
  else Ok (memmap,
           mk_kmemmap kernel_start_addr ksize heap_start_addr (u64 (heap_current_limit h - heap_start_addr)) 0 0
             kernel_stack_addr KERNEL_STACK_SIZE 0 0 0 0, h).

(** ** smp.c *)

Record limine_smp_info := mk_smp_info { processor_id : Z; lapic_id : Z; goto_address : Z }.
Record limine_smp_response := mk_smp_response { bsp_lapic_id : Z; cpus : list limine_smp_info }.

Definition start_cpus (ap_entry : Z) (r : limine_smp_response) : list limine_smp_info :=
  map (fun c => if lapic_id c =? bsp_lapic_id r then c else mk_smp_info (processor_id c) (lapic_id c) ap_entry) (cpus r).

(** [while (g_active_cpu_count != g_acpi_cpu_count)]: [reads] are the values
    the 8-bit counter has when it is read; the rounds spent. *)
Fixpoint smp_wait (reads : list Z) (count : Z) : outcome nat :=
  match reads with
  | [] => Hang
  | a :: reads => if u8 a =? count then Ok 0%nat else S <$> smp_wait reads count
  end.

(** The processors as the boot loader sees them afterwards, and the rounds. *)
Definition smp_init (ap_entry : Z) (response : option limine_smp_response) (reads : list Z)
    : outcome (option (list limine_smp_info * nat)) :=
  match response with
  | None => Ok None
  | Some r =>
      let count := Z.of_nat (length (cpus r)) in
      if count <=? 1 then Ok None
      else n ← smp_wait reads (u32 count); Ok (Some (start_cpus ap_entry r, n))
  end.

(** [ap_entry]'s effect on the counter. *)
Definition ap_count (a : Z) : Z := u8 (a + 1).

(** ** The direct map *)

(** Physical addresses below 32 TiB have a place in the direct map, which ends
    where the kernel's heap begins. *)
Definition DIRECT_TOP : Z := 35184372088832.
Definition direct_ok (h : Z) : Prop := 0 <= h /\ h mod PAGE_SIZE = 0 /\ h + DIRECT_TOP <= 18446744073709551616.
Definition in_direct (p : Z) : Prop := 0 <= p < DIRECT_TOP.

(** Physical address [p] is seen at its place of the direct map, by the kernel only. *)
Definition direct (s : vm) (p : Z) : Prop :=
  walk s (kernel_pml4 s) (PHYS_TO_VIRT (hhdm_offset s) p) = Some (p, false).

(** From [s] to [s'] only places of the direct map were filled, with at most
    [n] frames taken. *)
Record filled (s s' : vm) (F : gset Z) (n : nat) : Prop := {
  fi_tree : tree_ok s' (kernel_pml4 s');
  fi_pmm : pmm_ok (vm_pmm s');
  fi_own f : not_free (vm_pmm s) f -> not_free (vm_pmm s') f;
  fi_hhdm : hhdm_offset s' = hhdm_offset s;
  fi_kernel : kernel_pml4 s' = kernel_pml4 s;
  fi_free : exists F', free_pages (vm_pmm s') F' /\ (size F <= size F' + n)%nat;
  fi_direct p : in_direct p -> direct s p -> direct s' p;
  fi_other v : (forall p, in_direct p -> same_page (PHYS_TO_VIRT (hhdm_offset s) p) v = false) ->
    walk s' (kernel_pml4 s') v = walk s (kernel_pml4 s) v
}.

Lemma filled_refl s F n :
  tree_ok s (kernel_pml4 s) -> pmm_ok (vm_pmm s) -> free_pages (vm_pmm s) F -> filled s s F n.
Proof. intros. split; try done. exists F. split; [done|lia]. Qed.

Lemma filled_trans s1 s2 s3 F n k m :
  filled s1 s2 F n -> (forall F', free_pages (vm_pmm s2) F' -> (size F <= size F' + n)%nat -> filled s2 s3 F' k) ->
  (n + k <= m)%nat -> filled s1 s3 F m.
Proof.
  intros [? ? W1 H1 K1 (F' & HF & Hs) D1 O1] G Hm. destruct (G F' HF Hs) as [? ? W2 H2 K2 (F2 & HF2 & Hs2) D2 O2].
  split; try done; [auto|congruence|congruence|exists F2; split; [done|lia]|auto|].
  intros v Hv. rewrite O2; [by apply O1|]. by rewrite H1.
Qed.

Lemma direct_address h p : direct_ok h -> in_direct p -> PHYS_TO_VIRT h p = p + h.
Proof. unfold direct_ok, in_direct, PHYS_TO_VIRT. intros. apply u64_small. unfold fits_u64. lia. Qed.

(** The places of two physical addresses are on one page exactly when they are. *)
Lemma direct_same_page h p q :
  direct_ok h -> in_direct p -> in_direct q ->
  same_page (p + h) (q + h) = (p / PAGE_SIZE =? q / PAGE_SIZE).
Proof.
  unfold direct_ok, in_direct, same_page, DIRECT_TOP, PAGE_SIZE. intros Hh Hp Hq. rewrite !bf_get_div by lia.
  change (2 ^ 12) with 4096. change (2 ^ 36) with 68719476736.
  replace ((p + h) / 4096) with (p / 4096 + h / 4096) by zdiv. replace ((q + h) / 4096) with (q / 4096 + h / 4096) by zdiv.
  assert (0 <= p / 4096 < 8589934592 /\ 0 <= q / 4096 < 8589934592) by zdiv.
  set (a := p / 4096) in *. set (b := q / 4096) in *. set (c := h / 4096). clearbody a b c.
  destruct (Z.eqb_spec a b) as [->|]; [by rewrite Z.eqb_refl|]. apply Z.eqb_neq. zdiv.
Qed.

(** One page of memory at its place. *)
Lemma mapped_direct s s' p F F' n :
  mapped s s' (kernel_pml4 s) (PHYS_TO_VIRT (hhdm_offset s) p) p PTE_WRITABLE ->
  free_pages (vm_pmm s') F' -> (size F <= size F' + n)%nat ->
  direct_ok (hhdm_offset s) -> in_direct p ->
  filled s s' F n /\ forall q, in_direct q -> p / PAGE_SIZE = q / PAGE_SIZE -> direct s' q.
Proof.
  intros [] HF' Hs' Hh Hd.
  assert (forall q, in_direct q -> p / PAGE_SIZE = q / PAGE_SIZE -> direct s' q) as Hnew.
  { intros q Hq E. unfold direct. rewrite map_kernel_root, map_hhdm, map_walk.
    - unfold va_offset. rewrite bf_get_div by lia. change (2 ^ 0) with 1. change (2 ^ 12) with 4096.
      rewrite direct_address, Z.div_1_r by done. change (negb (Z.land PTE_WRITABLE PTE_USER =? 0)) with false. simpl.
      do 2 f_equal. unfold direct_ok, in_direct, DIRECT_TOP, PAGE_SIZE in *. rewrite (Z.mod_small (p / 4096)) by zdiv. zdiv.
    - rewrite !direct_address, direct_same_page by done. by apply Z.eqb_eq. }
  split; [split; try done|done].
  - by rewrite map_kernel_root.
  - by exists F'.
  - intros q Hq Hdq. destruct (Z.eq_dec (p / PAGE_SIZE) (q / PAGE_SIZE)) as [|Hne]; [by apply Hnew|].
    unfold direct. rewrite map_kernel_root, map_hhdm, map_other; [exact Hdq|].
    rewrite !direct_address, direct_same_page by done. by apply Z.eqb_neq.
  - intros v Hv. rewrite map_kernel_root. apply map_other. by apply Hv.
Qed.

(** A page of the 2 MiB block around [v] is mapped. *)
Definition begun (s : vm) (v : Z) : Prop :=
  exists v', is_Some (walk s (kernel_pml4 s) v') /\ v / 2 ^ 21 = v' / 2 ^ 21.
(** The tables a page may need: none in a block that is [begun]. *)
Definition page_cost (b : bool) : nat := if b then 0 else 3.

Lemma map_direct s p F (b : bool) :
  tree_ok s (kernel_pml4 s) -> pmm_ok (vm_pmm s) -> free_pages (vm_pmm s) F -> (page_cost b <= size F)%nat ->
  (b = true -> begun s (p + hhdm_offset s)) -> direct_ok (hhdm_offset s) -> in_direct p ->
  exists s', map_page (kernel_pml4 s) (PHYS_TO_VIRT (hhdm_offset s) p) p PTE_WRITABLE s = Ok s' /\
    filled s s' F (page_cost b) /\ forall q, in_direct q -> p / PAGE_SIZE = q / PAGE_SIZE -> direct s' q.
Proof.
  intros Ht Hp HF Hc Hb Hh Hd. destruct b; cbn [page_cost] in *.
  - destruct (Hb eq_refl) as (v' & Hw & Hv'). rewrite <-(direct_address _ _ Hh Hd) in Hv'.
    destruct (map_page_known s _ _ v' p PTE_WRITABLE Ht Hp Hw Hv') as (s' & -> & Hm & Ep). exists s'. split; [done|].
    apply (mapped_direct s s' p F F); try done; [by rewrite Ep|lia].
  - pose proof (map_page_ok s (kernel_pml4 s) (PHYS_TO_VIRT (hhdm_offset s) p) p PTE_WRITABLE F Ht Hp HF) as H.
    destruct (map_page _ _ _ _ _) as [s'| | |]; [|lia|done|done]. destruct H as [Hm (F' & HF' & Hs')].
    exists s'. split; [done|]. by apply (mapped_direct s s' p F F').
Qed.

(** The pages of a range, and the 2 MiB blocks its place of the direct map touches. *)
Definition range_pages (phys last : Z) : nat := Z.to_nat ((last - phys + PAGE_SIZE - 1) / PAGE_SIZE).
Definition range_blocks (h phys last : Z) : nat :=
  if phys <? last then Z.to_nat ((last - 1 + h) / 2 ^ 21 - (phys + h) / 2 ^ 21 + 1) else 0%nat.

(** What one page leaves of the blocks. *)
Lemma range_blocks_step h phys last (b : bool) :
  phys < last ->
  let b' := (phys + PAGE_SIZE + h) / 2 ^ 21 =? (phys + h) / 2 ^ 21 in
  (page_cost b + 3 * (range_blocks h (phys + PAGE_SIZE) last - Nat.b2n b') <= 3 * (range_blocks h phys last - Nat.b2n b))%nat.
Proof.
  intros Hlt b'. unfold range_blocks, PAGE_SIZE in *. destruct (Z.ltb_spec phys last); [|lia].
  assert ((phys + h) / 2 ^ 21 <= (last - 1 + h) / 2 ^ 21) by (apply Z.div_le_mono; lia).
  assert ((phys + h) / 2 ^ 21 <= (phys + 4096 + h) / 2 ^ 21 <= (phys + h) / 2 ^ 21 + 1) as Hn.
  { rewrite <-(Z.div_add (phys + h) 1 (2 ^ 21)) by lia. split; apply Z.div_le_mono; lia. }
  assert (phys + 4096 < last -> (phys + 4096 + h) / 2 ^ 21 <= (last - 1 + h) / 2 ^ 21) by (intros; apply Z.div_le_mono; lia).
  unfold b'. destruct (Z.eqb_spec ((phys + 4096 + h) / 2 ^ 21) ((phys + h) / 2 ^ 21)), (Z.ltb_spec (phys + 4096) last), b;
    cbn [page_cost Nat.b2n]; lia.
Qed.

(** A range with a page boundary at one of its ends: every page of it holds one
    of the addresses the loop visits. *)
Definition range_aligned (phys last : Z) : Prop := phys mod PAGE_SIZE = 0 \/ last mod PAGE_SIZE = 0.

Lemma map_ram_loop_ok fuel : forall phys last s F (b : bool),
  tree_ok s (kernel_pml4 s) -> pmm_ok (vm_pmm s) -> free_pages (vm_pmm s) F ->
  direct_ok (hhdm_offset s) -> 0 <= phys -> range_aligned phys last -> last <= DIRECT_TOP ->
  (range_pages phys last <= fuel)%nat -> (b = true -> begun s (phys + hhdm_offset s)) ->
  (3 * (range_blocks (hhdm_offset s) phys last - Nat.b2n b) <= size F)%nat ->
  exists s', map_ram_loop fuel phys last s = Ok s' /\
    filled s s' F (3 * (range_blocks (hhdm_offset s) phys last - Nat.b2n b)) /\
    forall q, phys / PAGE_SIZE * PAGE_SIZE <= q < last -> direct s' q.
Proof.
  induction fuel as [|fuel IH]; intros phys last s F b Ht Hp HF Hh H0 Ha Hl Hf Hb Hs; cbn [map_ram_loop];
    destruct (Z.ltb_spec phys last) as [Hlt|Hge].
  1: exfalso; unfold range_pages, PAGE_SIZE in Hf; zdiv.
  1, 3: exists s; split; [done|]; split; [by apply filled_refl|]; intros q Hq; exfalso;
    unfold range_aligned, PAGE_SIZE in *; zdiv.
  assert (range_pages phys last = S (range_pages (phys + PAGE_SIZE) last)) as E.
  { unfold range_pages, PAGE_SIZE. zdiv. }
  pose proof (range_blocks_step (hhdm_offset s) phys last b Hlt) as Hst. cbv zeta in Hst.
  set (b' := _ =? _) in Hst. assert (in_direct phys) as Hd by (unfold in_direct; lia).
  destruct (map_direct s phys F b Ht Hp HF ltac:(lia) Hb Hh Hd) as (s1 & -> & G1 & D1). mred.
  pose proof G1 as [Ht1 Hp1 _ Hh1 Hk1 (F1 & HF1 & Hs1) _ _].
  rewrite u64_small by (unfold fits_u64, DIRECT_TOP, PAGE_SIZE in *; lia).
  destruct (IH (phys + PAGE_SIZE) last s1 F1 b') as (s' & -> & G2 & D2); rewrite ?Hh1;
    [done|done|done|done|unfold PAGE_SIZE; lia|unfold range_aligned, PAGE_SIZE in *; zdiv|done|lia| |lia|].
  { intros Eb%Z.eqb_eq. exists (phys + hhdm_offset s). split; [|done].
    rewrite <-(direct_address _ _ Hh Hd), <-Hh1. exists (phys, false). by apply D1. }
  exists s'. split; [done|]. rewrite Hh1 in G2. split.
  - eapply filled_trans; [exact G1| |exact Hst]. intros F' HF' _. by rewrite (free_pages_unique _ _ _ HF' HF1).
  - intros q Hq. assert (in_direct q) as Hdq by (unfold in_direct, PAGE_SIZE in *; zdiv).
    destruct (Z.eq_dec (phys / PAGE_SIZE) (q / PAGE_SIZE)) as [|Hne].
    + apply (fi_direct _ _ _ _ G2); [done|]. by apply D1.
    + apply D2. unfold PAGE_SIZE in *. zdiv.
Qed.

(** The blocks of a memory map. *)
Definition ram_blocks (h : Z) (memmap : list limine_memmap_entry) : nat :=
  fold_right (fun e n => Nat.add
    (if type e =? LIMINE_MEMMAP_RESERVED then 0%nat else range_blocks h (base e) (base e + len e)) n) 0%nat memmap.
(** Entries that start or end on a page and lie below the top of the direct map. *)
Definition ram_ok (e : limine_memmap_entry) : Prop :=
  0 <= base e /\ range_aligned (base e) (base e + len e) /\ 0 <= len e /\ base e + len e <= DIRECT_TOP.

Lemma map_ram_ok memmap : forall s F,
  tree_ok s (kernel_pml4 s) -> pmm_ok (vm_pmm s) -> free_pages (vm_pmm s) F -> direct_ok (hhdm_offset s) ->
  Forall ram_ok memmap -> (3 * ram_blocks (hhdm_offset s) memmap <= size F)%nat ->
  exists s', map_ram memmap s = Ok s' /\ filled s s' F (3 * ram_blocks (hhdm_offset s) memmap) /\
    forall e q, e ∈ memmap -> type e <> LIMINE_MEMMAP_RESERVED -> base e <= q < base e + len e -> direct s' q.
Proof.
  induction memmap as [|e memmap IH]; intros s F Ht Hp HF Hh Hm Hs.
  { exists s. split; [done|]. split; [by apply filled_refl|]. by intros e q ?%elem_of_nil. }
  apply Forall_cons in Hm as [(Hb & Ha & Hl & Htop) Hm]. cbn [map_ram ram_blocks fold_right] in *.
  fold (ram_blocks (hhdm_offset s) memmap) in *. destruct (Z.eqb_spec (type e) LIMINE_MEMMAP_RESERVED) as [Er|Er].
  { destruct (IH s F Ht Hp HF Hh Hm Hs) as (s' & E & G & D). exists s'. split; [done|]. split; [done|].
    intros e' q [->|Hin]%elem_of_cons ?; [done|by apply D]. }
  rewrite u64_small by (unfold fits_u64, DIRECT_TOP in *; lia).
  destruct (map_ram_loop_ok (range_fuel (len e)) (base e) (base e + len e) s F false) as (s1 & -> & G1 & D1);
    [done..|unfold range_pages, range_fuel, PAGE_SIZE; zdiv|done|cbn [Nat.b2n]; lia|]. mred.
  pose proof G1 as [Ht1 Hp1 _ Hh1 Hk1 (F1 & HF1 & Hs1) _ _]. cbn [Nat.b2n] in *. rewrite Nat.sub_0_r in *.
  destruct (IH s1 F1 Ht1 Hp1 HF1) as (s' & -> & G2 & D2); [by rewrite Hh1|done|rewrite Hh1; lia|].
  exists s'. split; [done|]. rewrite Hh1 in G2. split.
  - eapply filled_trans; [exact G1| |rewrite Nat.mul_add_distr_l; reflexivity]. intros F' HF' _.
    by rewrite (free_pages_unique _ _ _ HF' HF1).
  - intros e' q [->|Hin]%elem_of_cons Hty Hq; [|by eapply D2].
    apply (fi_direct _ _ _ _ G2); [unfold in_direct; lia|]. apply D1. unfold PAGE_SIZE. zdiv.
Qed.

(** ** Properties *)

(** [map_ram] builds the direct map: on a well-formed tree with three frames in
    reserve for each 2 MiB block of memory it returns, afterwards every byte of
    every region that is not reserved is seen at its place of the direct map, by
    the kernel only, and no address outside the direct map changes. *)
Theorem map_ram_correct s F memmap :
  tree_ok s (kernel_pml4 s) -> pmm_ok (vm_pmm s) -> free_pages (vm_pmm s) F -> direct_ok (hhdm_offset s) ->
  Forall ram_ok memmap -> (3 * ram_blocks (hhdm_offset s) memmap <= size F)%nat ->
  exists s', map_ram memmap s = Ok s' /\ tree_ok s' (kernel_pml4 s') /\ pmm_ok (vm_pmm s') /\
    (forall e q, e ∈ memmap -> type e <> LIMINE_MEMMAP_RESERVED -> base e <= q < base e + len e ->
       walk s' (kernel_pml4 s) (q + hhdm_offset s) = Some (q, false)) /\
    (forall v, (forall p, in_direct p -> same_page (PHYS_TO_VIRT (hhdm_offset s) p) v = false) ->
       walk s' (kernel_pml4 s) v = walk s (kernel_pml4 s) v).
Proof.
  intros Ht Hp HF Hh Hm Hs. destruct (map_ram_ok memmap s F Ht Hp HF Hh Hm Hs) as (s' & E & [] & D).
  exists s'. rewrite fi_kernel0 in *. split; [done|]. split; [done|]. split; [done|]. split; [|done].
  intros e q Hin Hty Hq. pose proof (D e q Hin Hty Hq) as Hd. unfold direct in Hd.
  rewrite fi_kernel0, fi_hhdm0, direct_address in Hd; [done|done|]. rewrite Forall_forall in Hm.
  destruct (Hm e Hin) as (? & _ & ? & ?). unfold in_direct. lia.
Qed.

(** Two pages of memory and a reserved region on the machine of sixteen pages. *)
Definition sample_ram : list limine_memmap_entry := [mk_entry 8192 8192 0; mk_entry 40960 4096 1].

Lemma map_ram_correct_witness :
  exists s', map_ram sample_ram sample_vm = Ok s' /\
    walk s' (kernel_pml4 sample_vm) (12300 + hhdm_offset sample_vm) = Some (12300, false).
Proof.
  destruct (map_ram_correct sample_vm (list_to_set (seqZ 2 14)) sample_ram sample_vm_tree sample_vm_pmm sample_vm_free)
    as (s' & E & _ & _ & W & _).
  - split; [simpl; lia|]. split; [reflexivity|simpl; unfold DIRECT_TOP; lia].
  - repeat constructor; simpl; unfold DIRECT_TOP; try lia; reflexivity.
  - vm_compute. lia.
  - exists s'. split; [exact E|]. apply (W (mk_entry 8192 8192 0)); [left|discriminate|simpl; lia].
Defined.

(** The selectors [sysret] and [syscall] load, from the STAR register. *)
Definition sysret_cs (m : msrs) : Z := bf_get (rdmsr MSR_STAR m) 48 16 + 16.
Definition sysret_ss (m : msrs) : Z := bf_get (rdmsr MSR_STAR m) 48 16 + 8.
Definition syscall_cs (m : msrs) : Z := bf_get (rdmsr MSR_STAR m) 32 16.
Definition syscall_ss (m : msrs) : Z := bf_get (rdmsr MSR_STAR m) 32 16 + 8.
(** The flags left when a system call enters the kernel. *)
Definition entry_flags (m : msrs) (rflags : Z) : Z := Z.land rflags (u64 (Z.lnot (rdmsr MSR_SFMASK m))).

Lemma wrmsr_same r v m : fits_u64 v -> rdmsr r (wrmsr r v m) = v.
Proof. intros Hv. unfold rdmsr, wrmsr. rewrite lookup_insert_eq. by apply u64_small. Qed.
Lemma wrmsr_other r r' v m : r <> r' -> rdmsr r (wrmsr r' v m) = rdmsr r m.
Proof. intros. unfold rdmsr, wrmsr. by rewrite lookup_insert_ne. Qed.

(** A 64-bit value put together from its halves. *)
Lemma halves v : fits_u64 v -> Z.lor (Z.shiftl (u32 (Z.shiftr v 32)) 32) (u32 (Z.land v 4294967295)) = v.
Proof.
  unfold fits_u64. intros Hv. change 4294967295 with (Z.ones 32). rewrite Z.land_ones, Z.shiftr_div_pow2 by lia.
  unfold u32. change 4294967296 with (2 ^ 32). rewrite Z.mod_mod, (Z.mod_small (v / 2 ^ 32)) by zdiv || lia.
  rewrite <-Z.add_nocarry_lor.
  - rewrite Z.shiftl_mul_pow2 by lia. zdiv.
  - apply Z.bits_inj'. intros n Hn. rewrite Z.land_spec, Z.bits_0, Z.shiftl_spec by lia.
    destruct (decide (n < 32)); [by rewrite Z.testbit_neg_r by lia|]. by rewrite Z.mod_pow2_bits_high, andb_false_r by lia.
Qed.

Ltac msr_simpl := repeat first [rewrite wrmsr_same by done | rewrite wrmsr_other by done].

(** after [init_syscall] the processor enters the kernel at the entry point with
    the kernel's code and stack segments and with interrupts off, returns with the
    user segments of the descriptor table, finds this processor's data through GS,
    and system calls are enabled with the other bits of EFER kept. *)
Theorem init_syscall_correct entry cpu m :
  fits_u64 entry -> fits_u64 cpu -> fits_u64 (rdmsr MSR_EFER m) ->
  let m' := init_syscall entry cpu m in
  rdmsr MSR_LSTAR m' = entry /\
  syscall_cs m' = __KERNEL_CS /\ syscall_ss m' = __KERNEL_DS /\
  sysret_cs m' = __USER_CS /\ sysret_ss m' = __USER_DS /\
  (forall rflags, fits_u64 rflags -> Z.testbit (entry_flags m' rflags) 9 = false) /\
  rdmsr MSR_GS_BASE m' = cpu /\ rdmsr MSR_KERNEL_GS_BASE m' = cpu /\
  (forall i, Z.testbit (rdmsr MSR_EFER m') i = (i =? 0) || Z.testbit (rdmsr MSR_EFER m) i).
Proof.
  intros He Hc Hef m'.
  assert (fits_u64 (Z.lor (rdmsr MSR_EFER m) (Z.shiftl 1 0))) as Hef'.
  { unfold fits_u64 in *. change 18446744073709551616 with (2 ^ 64) in *. apply bits_below; [lia|]. intros i Hi.
    rewrite Z.lor_spec, (bits_above _ 64) by lia. simpl. change (Z.shiftl 1 0) with 1. by apply (bits_above 1 64). }
  assert (rdmsr MSR_STAR m' = 4503633987108864 /\ rdmsr MSR_SFMASK m' = 18446744073709551613) as [Es Ef].
  { unfold m', init_syscall, init_syscall_gs. by msr_simpl. }
  unfold syscall_cs, syscall_ss, sysret_cs, sysret_ss, entry_flags. rewrite Es, Ef.
  unfold m', init_syscall, init_syscall_gs. rewrite !halves by done. msr_simpl.
  do 5 (split; [done|]). split; [|split; [done|split; [done|]]].
  - intros rflags _. rewrite Z.land_spec, testbit_u64 by lia. by rewrite andb_false_r.
  - intros i. rewrite testbit_set_bit by lia. destruct (Z.eqb_spec 0 i), (Z.eqb_spec i 0); done || lia.
Qed.

Lemma init_syscall_correct_witness :
  let m' := init_syscall 18446744071562067968 18446603336221196288 (<[MSR_EFER := 1280]> ∅) in
  sysret_cs m' = 32 /\ rdmsr MSR_GS_BASE m' = 18446603336221196288.
Proof.
  destruct (init_syscall_correct 18446744071562067968 18446603336221196288 (<[MSR_EFER := 1280]> ∅))
    as (_ & _ & _ & H1 & _ & _ & H2 & _); [unfold fits_u64; lia..|unfold fits_u64; vm_compute; split; congruence|].
  exact (conj H1 H2).
Defined.

(** *** The keyboard controller *)

(** A controller with bytes waiting: bit 0 of the status port says so, the data
    port takes the next one. *)
#[local] Instance kbc : Device (list Z) := {|
  out8 _ _ q := q;
  in8 p q := if p =? 100 then (if bool_decide (q = []) then 0 else 1, q)
             else if p =? 96 then (default 0 (head q), tail q) else (0, q);
  mmio_out32 _ _ q := q;
  mmio_in32 _ q := (0, q)
|}.

(** [kbd_init] drains the keyboard controller: whatever waits is read, in as
    many rounds as there are bytes, and the output buffer is empty after it. *)
Theorem kbd_init_drains (q : list Z) fuel : (length q <= fuel)%nat -> kbd_init fuel q = Ok ([] : list Z).
Proof.
  revert fuel. induction q as [|c q IH]; intros fuel Hf; [by destruct fuel|].
  destruct fuel as [|fuel]; [simpl in Hf; lia|]. simpl in *. apply IH. lia.
Qed.

Lemma kbd_init_drains_witness : kbd_init 3 [28; 156; 30] = Ok ([] : list Z).
Proof. apply (kbd_init_drains [28; 156; 30] 3). simpl. lia. Defined.

(** *** The other processors *)

Lemma smp_wait_wide reads count : 256 <= count -> smp_wait reads count = Hang.
Proof.
  intros Hc. induction reads as [|a reads IH]; simpl; [done|]. pose proof (u8_range a).
  destruct (Z.eqb_spec (u8 a) count); [lia|]. by rewrite IH.
Qed.

Lemma smp_wait_reaches reads count :
  0 <= count < 256 -> count ∈ map u8 reads -> exists n, smp_wait reads count = Ok n /\ (n < length reads)%nat.
Proof.
  intros Hc. induction reads as [|a reads IH]; simpl; intros Hin; [by apply elem_of_nil in Hin|].
  destruct (Z.eqb_spec (u8 a) count) as [|Hne]; [exists 0%nat; split; [done|lia]|].
  apply elem_of_cons in Hin as [->|Hin]; [done|]. destruct (IH Hin) as (n & -> & Hn). exists (S n). split; [done|lia].
Qed.

(** [smp_init] hands the entry point to every processor but the one it runs on
    and waits until the counter shows them all; it leaves machines with one
    processor alone, and never returns on one with more than 255, which the 8-bit
    counter cannot reach. *)
Theorem smp_init_correct ap_entry r reads :
  Z.of_nat (length (cpus r)) < 4294967296 ->
  let count := Z.of_nat (length (cpus r)) in
  if count <=? 1 then smp_init ap_entry (Some r) reads = Ok None
  else if count <? 256 then
    count ∈ map u8 reads ->
    exists cs n, smp_init ap_entry (Some r) reads = Ok (Some (cs, n)) /\ length cs = length (cpus r) /\
      forall i c, cpus r !! i = Some c -> exists c', cs !! i = Some c' /\ lapic_id c' = lapic_id c /\
        goto_address c' = if lapic_id c =? bsp_lapic_id r then goto_address c else ap_entry
  else smp_init ap_entry (Some r) reads = Hang.
Proof.
  intros Hc count. unfold smp_init. fold count. destruct (Z.leb_spec count 1); [done|].
  assert (u32 count = count) as -> by (unfold u32; apply Z.mod_small; lia).
  destruct (Z.ltb_spec count 256); [|by rewrite smp_wait_wide].
  intros Hin. destruct (smp_wait_reaches reads count) as (n & -> & _); [lia|done|]. mred. eexists _, n.
  split; [done|]. unfold start_cpus. rewrite length_map. split; [done|]. intros i c Hi.
  rewrite list_lookup_fmap, Hi. simpl. eexists. split; [done|]. by destruct (lapic_id c =? bsp_lapic_id r).
Qed.

Lemma smp_init_correct_witness :
  exists cs n, smp_init 99 (Some (mk_smp_response 0 [mk_smp_info 0 0 0; mk_smp_info 1 4 0])) [1; 1; 2] = Ok (Some (cs, n)).
Proof.
  destruct (smp_init_correct 99 (mk_smp_response 0 [mk_smp_info 0 0 0; mk_smp_info 1 4 0]) [1; 1; 2])
    as (cs & n & E & _); [simpl; lia|simpl; set_solver|]. exists cs, n. exact E.
Defined.

(** *** The listing of the page tables *)

Lemma scan_entries_ok (P : Z * Z -> Prop) s t ident sub n : forall i,
  (forall x, exists ls, sub x = Ok ls /\ forall l, l ∈ ls -> P l) -> (forall j, ~ P (ident, j)) ->
  exists ls, scan_entries n i sub s t ident = Ok ls /\
    forall j, (ident, j) ∈ ls <-> i <= j < i + Z.of_nat n /\ pte_present (mem s (entry_addr t j)) = 1.
Proof.
  induction n as [|n IH]; intros i Hsub HP; cbn [scan_entries].
  { exists []. split; [done|]. intros j. rewrite elem_of_nil. lia. }
  destruct (IH (i + 1) Hsub HP) as (ls & -> & Hls).
  destruct (Z.eqb_spec (pte_present (mem s (entry_addr t i))) 1) as [Hpr|Hpr].
  - destruct (Hsub (PHYS_TO_VIRT (hhdm_offset s) (u64 (Z.shiftl (pte_address (mem s (entry_addr t i))) 12)))) as (ls' & -> & Hls').
    mred. eexists. split; [reflexivity|]. intros j. rewrite elem_of_cons, elem_of_app, Hls. split.
    + intros [[= ->]|[?%Hls'%HP|?]]; [lia|done|lia].
    + intros [Hj Hp]. destruct (decide (j = i)) as [->|]; [by left|right; right; lia].
  - exists ls. split; [done|]. intros j. rewrite Hls. split; [lia|]. intros [Hj Hp].
    destruct (decide (j = i)) as [->|]; [done|]. lia.
Qed.

Lemma scan_entries_idents s t ident sub n : forall i,
  (forall x, sub x = Ok []) -> exists ls, scan_entries n i sub s t ident = Ok ls /\ forall l, l ∈ ls -> l.1 = ident.
Proof.
  induction n as [|n IH]; intros i Hsub; cbn [scan_entries]; [exists []; split; [done|]; by intros l ?%elem_of_nil|].
  destruct (IH (i + 1) Hsub) as (ls & -> & Hls). rewrite Hsub. destruct (_ =? 1); mred; [|by exists ls].
  eexists. split; [reflexivity|]. intros l [->|Hl]%elem_of_cons; [done|]. by apply Hls.
Qed.

(** The listing ends, and its lines without indentation are the entries that are
    present in the kernel's top table. *)
Lemma analyse_mem_lists s :
  exists ls, analyse_mem s = Ok ls /\ forall i, (0, i) ∈ ls <-> 0 <= i < 512 /\ pte_present (mem s (entry_addr (kernel_pml4 s) i)) = 1.
Proof.
  unfold analyse_mem. cbn [analyse_page_table]. change (4 =? 2) with false. cbv iota.
  change (u32 (4 - 1)) with 3. change (3 =? 2) with false. cbv iota. change (u32 (3 - 1)) with 2. change (2 =? 2) with true. cbv iota.
  apply (scan_entries_ok (fun l => l.1 = u32 (0 + 1))); [|done].
  intros x. by apply scan_entries_idents.
Qed.
