(* ===== verification/BootMem.v ===== *)
(** * The kernel's own address space ([init_mem] of src/kernel/mem/mem.c)

    The page allocator, the new root table, the direct map, the kernel's image
    and the heap, one after the other, from the state the boot loader leaves. *)

From S2P Require Import Prelude Sync Bitmap Pmm Paging Bytes Heap Device Desc Boot.

(** ** Ranges of pages *)

(** Addresses less than 2^48 apart are on one page exactly when they are in the same 4 KiB. *)
Lemma same_page_near a b :
  - (2 ^ 48) + PAGE_SIZE < a - b < 2 ^ 48 - PAGE_SIZE -> same_page a b = (a / PAGE_SIZE =? b / PAGE_SIZE).
Proof.
  unfold same_page, PAGE_SIZE. intros H. rewrite !bf_get_div by lia. change (2 ^ 12) with 4096. change (2 ^ 36) with 68719476736.
  assert (-68719476736 < a / 4096 - b / 4096 < 68719476736) by zdiv.
  set (x := a / 4096) in *. set (y := b / 4096) in *. clearbody x y.
  destruct (Z.eqb_spec x y) as [->|]; [by rewrite Z.eqb_refl|]. apply Z.eqb_neq. zdiv.
Qed.

(** The addresses from [v0] on, as many as [size], lead to those from [p0] on;
    the rest of the kernel's space is as before, with at most [n] frames taken. *)
Record laid (s s' : vm) (F : gset Z) (n : nat) (v0 p0 size : Z) : Prop := {
  la_tree : tree_ok s' (kernel_pml4 s');
  la_pmm : pmm_ok (vm_pmm s');
  la_own f : not_free (vm_pmm s) f -> not_free (vm_pmm s') f;
  la_hhdm : hhdm_offset s' = hhdm_offset s;
  la_kernel : kernel_pml4 s' = kernel_pml4 s;
  la_free : exists F', free_pages (vm_pmm s') F' /\ (base.size F <= base.size F' + n)%nat;
  la_in o : 0 <= o < size -> walk s' (kernel_pml4 s) (v0 + o) = Some (p0 + o, false);
  la_out v : off_pages v0 (v0 + size) v -> walk s' (kernel_pml4 s) v = walk s (kernel_pml4 s) v
}.

Lemma off_page v x : v mod PAGE_SIZE = 0 -> same_page v x = false -> off_pages v (v + PAGE_SIZE) x.
Proof.
  intros Hv Hx p Hp. pose proof (same_page_limit v p Hv Hp) as Hvp. unfold same_page in *. apply Z.eqb_eq in Hvp. by rewrite <-Hvp.
Qed.

(** One page. *)
Lemma lay_page s v p F (b : bool) :
  tree_ok s (kernel_pml4 s) -> pmm_ok (vm_pmm s) -> free_pages (vm_pmm s) F -> (page_cost b <= size F)%nat ->
  (b = true -> begun s v) -> v mod PAGE_SIZE = 0 -> p mod PAGE_SIZE = 0 -> 0 <= p < 2 ^ 52 ->
  exists s', map_page (kernel_pml4 s) v p PTE_WRITABLE s = Ok s' /\ laid s s' F (page_cost b) v p PAGE_SIZE.
Proof.
  intros Ht Hp HF Hc Hb Hv Hpa Hpr.
  assert (forall s' F', mapped s s' (kernel_pml4 s) v p PTE_WRITABLE -> free_pages (vm_pmm s') F' ->
    (size F <= size F' + page_cost b)%nat -> laid s s' F (page_cost b) v p PAGE_SIZE) as Hl.
  { intros s' F' [] HF' Hs'. constructor; try done; [by rewrite map_kernel_root|by exists F'|..].
    - intros o Ho. rewrite map_walk by (apply same_page_limit; [done|lia]).
      change (negb (Z.land PTE_WRITABLE PTE_USER =? 0)) with false. simpl. do 2 f_equal.
      unfold va_offset. rewrite bf_get_div by lia. change (2 ^ 0) with 1. change (2 ^ 12) with 4096. unfold PAGE_SIZE in *.
      rewrite Z.div_1_r, (Z.mod_small (p / 4096)) by zdiv. zdiv.
    - intros v' Hv'. apply map_other, Hv'. unfold PAGE_SIZE. lia. }
  destruct b; cbn [page_cost] in *.
  - destruct (Hb eq_refl) as (v' & Hw & Hv').
    destruct (map_page_known s _ v v' p PTE_WRITABLE Ht Hp Hw Hv') as (s' & -> & Hm & Ep). exists s'. split; [done|].
    apply (Hl s' F); [done|by rewrite Ep|lia].
  - pose proof (map_page_ok s (kernel_pml4 s) v p PTE_WRITABLE F Ht Hp HF) as H.
    destruct (map_page _ _ _ _ _) as [s'| | |]; [|lia|done|done]. destruct H as [Hm (F' & HF' & Hs')].
    exists s'. split; [done|]. by apply (Hl s' F').
Qed.

(** A page, then the pages behind it. *)
Lemma laid_cons s1 s2 s3 F n k m v p size :
  laid s1 s2 F n v p PAGE_SIZE ->
  (forall F', free_pages (vm_pmm s2) F' -> laid s2 s3 F' k (v + PAGE_SIZE) (p + PAGE_SIZE) (size - PAGE_SIZE)) ->
  (n + k <= m)%nat -> v mod PAGE_SIZE = 0 -> 0 < size < 2 ^ 47 -> laid s1 s3 F m v p size.
Proof.
  intros [L1 L2 L3 L4 L5 (F1 & HF1 & Hs1) L7 L8] G Hm Hv Hsz. destruct (G F1 HF1) as [M1 M2 M3 M4 M5 (F2 & HF2 & Hs2) M7 M8].
  rewrite L5 in M7, M8. constructor; try done; [auto|congruence|congruence|exists F2; split; [done|lia]|..].
  - intros o Ho. destruct (decide (o < PAGE_SIZE)).
    + rewrite M8; [apply L7; lia|]. intros x Hx. rewrite same_page_near by (unfold PAGE_SIZE in *; lia).
      apply Z.eqb_neq. unfold PAGE_SIZE in *. zdiv.
    + replace (v + o) with (v + PAGE_SIZE + (o - PAGE_SIZE)) by lia. rewrite M7 by lia. do 2 f_equal. lia.
  - intros x Hx. rewrite M8 by (intros y Hy; apply Hx; unfold PAGE_SIZE in *; lia).
    apply L8, off_page; [done|]. apply Hx. lia.
Qed.

Lemma map_kernel_loop_ok fuel kpaddr kvaddr ksize : forall offset s F (b : bool),
  tree_ok s (kernel_pml4 s) -> pmm_ok (vm_pmm s) -> free_pages (vm_pmm s) F ->
  kvaddr mod PAGE_SIZE = 0 -> kpaddr mod PAGE_SIZE = 0 -> offset mod PAGE_SIZE = 0 -> 0 <= offset ->
  0 <= kvaddr -> kvaddr + ksize <= 18446744073709551616 -> 0 <= kpaddr -> kpaddr + ksize <= 2 ^ 52 ->
  ksize < 2 ^ 47 -> (range_pages offset ksize <= fuel)%nat -> (b = true -> begun s (offset + kvaddr)) ->
  (3 * (range_blocks kvaddr offset ksize - Nat.b2n b) <= size F)%nat ->
  exists s', map_kernel_loop fuel kpaddr kvaddr ksize offset s = Ok s' /\
    laid s s' F (3 * (range_blocks kvaddr offset ksize - Nat.b2n b)) (kvaddr + offset) (kpaddr + offset) (ksize - offset).
Proof.
  induction fuel as [|fuel IH]; intros offset s F b Ht Hp HF Hva Hpa Hoa Ho Hv0 Hvt Hp0 Hpt Hk Hf Hb Hs; cbn [map_kernel_loop];
    destruct (Z.ltb_spec offset ksize) as [Hlt|Hge].
  1: exfalso; unfold range_pages, PAGE_SIZE in Hf; zdiv.
  1, 3: exists s; split; [done|]; constructor; try done; [exists F; split; [done|lia]|lia].
  assert (range_pages offset ksize = S (range_pages (offset + PAGE_SIZE) ksize)) as E.
  { unfold range_pages, PAGE_SIZE. zdiv. }
  pose proof (range_blocks_step kvaddr offset ksize b Hlt) as Hst. cbv zeta in Hst. set (b' := _ =? _) in Hst.
  rewrite !u64_small by (unfold fits_u64, PAGE_SIZE; lia).
  destruct (lay_page s (kvaddr + offset) (kpaddr + offset) F b Ht Hp HF ltac:(lia)) as (s1 & -> & G1);
    [rewrite Z.add_comm; exact Hb|unfold PAGE_SIZE in *; zdiv|unfold PAGE_SIZE in *; zdiv|lia|]. mred.
  pose proof G1 as [Ht1 Hp1 _ _ Hk1 (F1 & HF1 & Hs1) W1 _].
  destruct (IH (offset + PAGE_SIZE) s1 F1 b') as (s' & -> & G2); try done; try lia.
  { unfold PAGE_SIZE in *. zdiv. }
  { unfold PAGE_SIZE. lia. }
  { intros Eb%Z.eqb_eq. exists (offset + kvaddr). split; [|done]. rewrite Hk1.
    replace (offset + kvaddr) with (kvaddr + offset + 0) by lia. rewrite W1 by (unfold PAGE_SIZE; lia). done. }
  exists s'. split; [done|]. eapply laid_cons; [exact G1| |exact Hst|unfold PAGE_SIZE in *; zdiv|lia].
  intros F' HF'. rewrite (free_pages_unique _ _ _ HF' HF1).
  replace (kvaddr + offset + PAGE_SIZE) with (kvaddr + (offset + PAGE_SIZE)) by lia.
  replace (kpaddr + offset + PAGE_SIZE) with (kpaddr + (offset + PAGE_SIZE)) by lia.
  replace (ksize - offset - PAGE_SIZE) with (ksize - (offset + PAGE_SIZE)) by lia. exact G2.
Qed.

(** ** The new root *)

(** A fresh table with the entries of another: the same translations. *)
Lemma new_kernel_root_ok s old F :
  tree_ok s old -> pmm_ok (vm_pmm s) -> free_pages (vm_pmm s) F -> F <> ∅ ->
  exists g p, pmm_alloc (vm_pmm s) = Ok (g * PAGE_SIZE, p) /\
    let r := PHYS_TO_VIRT (hhdm_offset s) (g * PAGE_SIZE) in
    let s' := with_mem (with_kernel_pml4 (with_pmm s p) r) (copy_table (mem s) r old) in
    tree_ok s' r /\ pmm_ok p /\ free_pages p (F ∖ {[g]}) /\ g ∈ F /\ (forall f, not_free (vm_pmm s) f -> not_free p f) /\
    forall v, walk s' r v = walk s old v.
Proof.
  intros Ht Hp HF Hne. destruct (alloc_fresh _ F Hp HF) as [[-> _]|(g & p & Ha & Hg & HF' & _ & Hp' & _ & Hgf & Hnf & Hnf' & Hmono)]; [done|].
  exists g, p. split; [done|]. intros r s'. destruct (kernel_root_frame s old Ht) as (kf & Hk & Hkf & Hkown).
  assert (g <> kf) as Hgk by (intros ->; done).
  assert (forall f j, frame_ok f -> 0 <= j < 512 ->
    mem s' (entry_addr (PHYS_TO_VIRT (hhdm_offset s) (f * PAGE_SIZE)) j)
    = if decide (f = g) then if decide (0 <= j) then mem s (entry_addr old j) else 0
      else mem s (entry_addr (PHYS_TO_VIRT (hhdm_offset s) (f * PAGE_SIZE)) j)) as Hm.
  { intros f j Hf Hj. cbn [s' with_mem mem]. unfold copy_table, r. rewrite Hk, copy_entries_spec by (done || lia).
    destruct (decide (f = g)) as [->|]; repeat case_decide; done || lia. }
  split_and!; try done; [by apply (new_pml4_tree s s' g old 0)|].
  intros v. pose proof (new_pml4_walk s s' g old 0 Ht Hgf Hnf eq_refl Hm v) as Hw. fold r in Hw. rewrite Hw.
  rewrite decide_True; [done|]. apply (index_range_9 v 39).
Qed.

(** ** init_mem *)

(** Where things are: the direct map in the upper half and below the heap, the
    kernel's image behind the heap's first pages. *)
Record layout_ok (offset kpaddr kvaddr ksize : Z) : Prop := {
  lo_hhdm : 18446603336221196288 <= offset /\ offset mod PAGE_SIZE = 0 /\ offset + DIRECT_TOP <= KERNEL_HEAP_START;
  lo_virt : KERNEL_HEAP_START + 1025 * PAGE_SIZE <= kvaddr /\ kvaddr mod PAGE_SIZE = 0 /\
    kvaddr + ksize <= 18446744073709551616;
  lo_phys : 0 <= kpaddr /\ kpaddr mod PAGE_SIZE = 0 /\ kpaddr + ksize <= 2 ^ 52
}.

(** The frames [init_mem] may take: the root, the tables of the direct map and of
    the kernel's image, and the heap's first pages with their tables. *)
Definition init_frames (offset kvaddr ksize : Z) (memmap : list limine_memmap_entry) : nat :=
  (1 + 3 * ram_blocks offset memmap + 3 * range_blocks kvaddr 0 ksize + 4100)%nat.

(** The stack the kernel runs on is mapped. *)
Definition stack_seen (offset top kvaddr ksize rsp : Z) : Prop :=
  (rsp >=? offset) && (rsp <? u64 (offset + top)) = true \/ (rsp >=? kvaddr) && (rsp <? u64 (kvaddr + ksize)) = true.

Section Layout.
Context (offset kpaddr kvaddr ksize : Z).
Hypothesis Hlay : layout_ok offset kpaddr kvaddr ksize.

Lemma layout_direct : direct_ok offset.
Proof. destruct Hlay as [(? & ? & ?) _ _]. unfold direct_ok, KERNEL_HEAP_START, DIRECT_TOP in *. lia. Qed.

(** The three regions share no page. *)
Lemma direct_off_kernel p : in_direct p -> off_pages kvaddr (kvaddr + ksize) (p + offset).
Proof.
  destruct Hlay as [(? & Ha & ?) (? & ? & ?) _]. intros Hp x Hx. unfold in_direct, DIRECT_TOP, KERNEL_HEAP_START, PAGE_SIZE in *.
  rewrite same_page_near by (unfold PAGE_SIZE; lia). apply Z.eqb_neq. unfold PAGE_SIZE. zdiv.
Qed.
Lemma direct_off_heap p : in_direct p -> off_pages KERNEL_HEAP_START (KERNEL_HEAP_START + 1025 * PAGE_SIZE) (p + offset).
Proof.
  destruct Hlay as [(? & Ha & ?) _ _]. intros Hp x Hx. unfold in_direct, DIRECT_TOP, KERNEL_HEAP_START, PAGE_SIZE in *.
  rewrite same_page_near by (unfold PAGE_SIZE; lia). apply Z.eqb_neq. unfold PAGE_SIZE. zdiv.
Qed.
Lemma kernel_off_heap o : 0 <= o < ksize -> off_pages KERNEL_HEAP_START (KERNEL_HEAP_START + 1025 * PAGE_SIZE) (kvaddr + o).
Proof.
  destruct Hlay as [_ (? & ? & ?) _]. intros Ho x Hx. unfold KERNEL_HEAP_START, PAGE_SIZE in *.
  rewrite same_page_near by (unfold PAGE_SIZE; lia). apply Z.eqb_neq. unfold PAGE_SIZE. zdiv.
Qed.
End Layout.

(** The kernel's space at [root] in [s'], made from the boot loader's at [old] in [s]. *)
Record kernel_space (s s' : vm) (old : Z) (memmap : list limine_memmap_entry) (kpaddr kvaddr ksize : Z) : Prop := {
  ks_tree : tree_ok s' (kernel_pml4 s');
  ks_pmm : pmm_ok (vm_pmm s');
  ks_hhdm : hhdm_offset s' = hhdm_offset s;
  ks_direct e q : e ∈ memmap -> type e <> LIMINE_MEMMAP_RESERVED -> base e <= q < base e + len e ->
    walk s' (kernel_pml4 s') (q + hhdm_offset s) = Some (q, false);
  ks_image o : 0 <= o < ksize -> walk s' (kernel_pml4 s') (kvaddr + o) = Some (kpaddr + o, false);
  ks_rest v : (forall p, in_direct p -> same_page (p + hhdm_offset s) v = false) -> off_pages kvaddr (kvaddr + ksize) v ->
    walk s' (kernel_pml4 s') v = walk s old v
}.

Lemma kernel_space_ok s old F memmap kpaddr kvaddr ksize :
  tree_ok s old -> pmm_ok (vm_pmm s) -> free_pages (vm_pmm s) F -> layout_ok (hhdm_offset s) kpaddr kvaddr ksize ->
  Forall ram_ok memmap -> (init_frames (hhdm_offset s) kvaddr ksize memmap <= size F)%nat ->
  exists g p s2 s3, pmm_alloc (vm_pmm s) = Ok (g * PAGE_SIZE, p) /\
    let r := PHYS_TO_VIRT (hhdm_offset s) (g * PAGE_SIZE) in
    map_ram memmap (with_mem (with_kernel_pml4 (with_pmm s p) r) (copy_table (mem s) r old)) = Ok s2 /\
    map_kernel kpaddr kvaddr ksize s2 = Ok s3 /\ kernel_pml4 s3 = r /\
    kernel_space s s3 old memmap kpaddr kvaddr ksize /\
    exists F', free_pages (vm_pmm s3) F' /\ F' ⊆ F /\ (4100 <= size F')%nat.
Proof.
  intros Ht Hp HF Hlay Hram Hsz. unfold init_frames in Hsz.
  assert (F <> ∅) as Hne by (intros ->; rewrite size_empty in Hsz; lia).
  destruct (new_kernel_root_ok s old F Ht Hp HF Hne) as (g & p & Ha & Ht1 & Hp1 & HF1 & Hg & Hm1 & Hw1).
  pose proof (size_take F g Hg) as Hs1. pose proof (layout_direct _ _ _ _ Hlay) as Hd.
  exists g, p. set (r := PHYS_TO_VIRT (hhdm_offset s) (g * PAGE_SIZE)) in *. set (s1 := with_mem _ _) in *.
  destruct (map_ram_ok memmap s1 _ Ht1 Hp1 HF1 Hd Hram) as (s2 & E2 & [T2 P2 O2 H2 K2 (F2 & HF2 & Hs2) _ W2] & D2);
    [cbn [s1 with_mem with_kernel_pml4 with_pmm hhdm_offset]; lia|].
  pose proof Hlay as [_ (V1 & V2 & V3) (Q1 & Q2 & Q3)]. unfold KERNEL_HEAP_START in V1.
  destruct (map_kernel_loop_ok (range_fuel ksize) kpaddr kvaddr ksize 0 s2 F2 false T2 P2 HF2)
    as (s3 & E3 & [T3 P3 O3 H3 K3 (F3 & HF3 & Hs3) I3 W3]); try done; try (unfold PAGE_SIZE in *; lia).
  { unfold range_pages, range_fuel, PAGE_SIZE. zdiv. }
  { cbn [s1 with_mem with_kernel_pml4 with_pmm hhdm_offset Nat.b2n] in *. lia. }
  rewrite Z.sub_0_r, !Z.add_0_r in *. change (kernel_pml4 s1) with r in *. change (hhdm_offset s1) with (hhdm_offset s) in *.
  assert (forall q, in_direct q -> direct s2 q -> walk s3 (kernel_pml4 s3) (q + hhdm_offset s) = Some (q, false)) as Hdir.
  { intros q Hq Hdq. rewrite K3, W3 by (eapply direct_off_kernel; eauto). unfold direct in Hdq.
    by rewrite H2, direct_address in Hdq. }
  exists s2, s3. split; [done|]. cbv zeta. split; [done|]. split; [done|]. split; [by rewrite K3|]. split.
  - constructor; try done; [congruence|..].
    + intros e q He Hty Hq. apply Hdir; [|by apply (D2 e)].
      destruct (proj1 (Forall_forall _ _) Hram e He) as (? & _ & ? & ?). unfold in_direct. lia.
    + intros o Ho. rewrite K3. by apply I3.
    + intros v Hv1 Hv2. rewrite K3, W3, W2 by (done || (intros q Hq; rewrite direct_address by done; by apply Hv1)). apply Hw1.
  - exists F3. split; [done|]. split; [|cbn [Nat.b2n] in *; lia].
    apply (free_pages_shrink (vm_pmm s) (vm_pmm s3)); [done|done|]. intros f Hf. apply O3, O2. by apply Hm1.
Qed.

Lemma init_mem_ok offset memmap memmap' p F kpaddr kvaddr ksize rsp c h :
  let boot := mk_vm p (mem (h_vm h)) offset (kernel_pml4 (h_vm h)) in
  let old := PHYS_TO_VIRT offset (Z.land (cr3 c) (u64 (Z.lnot 4095))) in
  init_bitmap offset memmap (vm_pmm (h_vm h)) = Ok (memmap', p) -> pmm_ok p -> free_pages p F -> tree_ok boot old ->
  layout_ok offset kpaddr kvaddr ksize -> Forall ram_ok memmap' ->
  (init_frames offset kvaddr ksize memmap' <= size F)%nat -> Z.of_nat (size F) <= 2 ^ 34 ->
  stack_seen offset (get_highest_phys_addr memmap) kvaddr ksize rsp -> locked (kmalloc_lock h) = 0 ->
  exists c' h', init_mem offset memmap kpaddr kvaddr ksize rsp c h = Ok (c', h') /\
    kernel_pml4 (h_vm h') = PHYS_TO_VIRT offset (cr3 c') /\
    heap_ok h' [mk_block KERNEL_HEAP_START (1025 * PAGE_SIZE - 24) true] [KERNEL_HEAP_START] /\
    (forall e q, e ∈ memmap' -> type e <> LIMINE_MEMMAP_RESERVED -> base e <= q < base e + len e ->
       walk (h_vm h') (kernel_pml4 (h_vm h')) (q + offset) = Some (q, false)) /\
    (forall o, 0 <= o < ksize -> walk (h_vm h') (kernel_pml4 (h_vm h')) (kvaddr + o) = Some (kpaddr + o, false)) /\
    (forall v, (forall q, in_direct q -> same_page (q + offset) v = false) -> off_pages kvaddr (kvaddr + ksize) v ->
       off_pages KERNEL_HEAP_START (KERNEL_HEAP_START + 1025 * PAGE_SIZE) v ->
       walk (h_vm h') (kernel_pml4 (h_vm h')) v = walk boot old v).
Proof.
  intros boot old Eb Hp HF Ht Hlay Hram Hsz Hmax Hst Hlk. unfold init_mem. cbn [vm_pmm]. rewrite Eb. mred.
  change (with_pmm _ p) with boot. change (vm_pmm boot) with p. fold old.
  destruct (kernel_space_ok boot old F memmap' kpaddr kvaddr ksize Ht Hp HF Hlay Hram Hsz)
    as (g & p1 & s2 & s3 & Ea & E2 & E3 & K3 & [S1 S2 S3 S4 S5 S6] & F' & HF' & Hsub & Hf). cbv zeta in E2.
  change (vm_pmm boot) with p in Ea. rewrite Ea. mred. change (hhdm_offset boot) with offset in *.
  change (kernel_pml4 (with_kernel_pml4 _ ?r)) with r. change (mem (with_kernel_pml4 _ _)) with (mem boot).
  rewrite E2. mred. rewrite E3. mred.
  replace (negb _ && negb _) with false by (destruct Hst as [->| ->]; by rewrite ?andb_false_r).
  apply subseteq_size in Hsub.
  destruct (heap_init_ok (with_vm h s3) F' S1 S2 Hlk HF' ltac:(lia)) as (h' & -> & Hok & [_ _ K4 W4]). mred.
  cbn [with_vm h_vm] in K4, W4. eexists _, h'. split; [reflexivity|]. cbn [Boot.cr3]. rewrite K4.
  split; [done|]. split; [done|]. split_and!.
  - intros e q He Hty Hq. rewrite W4; [by apply (S4 e)|]. eapply direct_off_heap; [done|].
    destruct (proj1 (Forall_forall _ _) Hram e He) as (? & _ & ? & ?). unfold in_direct. lia.
  - intros o Ho. rewrite W4; [by apply S5|]. by eapply kernel_off_heap.
  - intros v Hv1 Hv2 Hv3. rewrite W4 by done. by apply S6.
Qed.

(** ** Theorem *)


(** *** A machine of 32 MiB *)

Definition boot_memmap : list limine_memmap_entry := [mk_entry 4096 33550336 0].
Definition boot_heap : heap :=
  mk_heap (mk_vm (mk_pmm [] 0 0 0 0 (mk_safe_lock 0) (mk_cpu 514)) (fun _ => 0) 0 0) (mk_safe_lock 0) (fun _ => 0) 0 0 0.
Definition boot_offset : Z := 18446603336221196288.
Definition boot_kvaddr : Z := 18446744071562067968.

#[local] Instance memmap_entry_eq : EqDecision limine_memmap_entry.
Proof. solve_decision. Defined.

(** The allocator of that machine: every page but the first is free. *)
Definition boot_bitmap_ok (o : outcome (list limine_memmap_entry * pmm)) : bool :=
  match o with
  | Ok (m, p) =>
      bool_decide (m = [mk_entry 5120 33549312 0]) && (total_pages p =? 8191) && (capacity (bitmap p) =? 8192)
      && (locked (pmm_lock p) =? 0) && forallb (fun i => negb (page_used (bitmap p) i)) (seqZ 1 8190)
  | _ => false
  end.

Lemma boot_allocator :
  exists p, init_bitmap boot_offset boot_memmap (vm_pmm (h_vm boot_heap)) = Ok ([mk_entry 5120 33549312 0], p) /\
    pmm_ok p /\ free_pages p (list_to_set (seqZ 1 8190)) /\ total_pages p = 8191.
Proof.
  assert (boot_bitmap_ok (init_bitmap boot_offset boot_memmap (vm_pmm (h_vm boot_heap))) = true) as Hb by (vm_compute; reflexivity).
  destruct (init_bitmap boot_offset boot_memmap _) as [[m p]| | |]; try discriminate Hb. unfold boot_bitmap_ok in Hb.
  repeat (apply andb_true_iff in Hb as [Hb ?]). apply bool_decide_eq_true in Hb as ->. rewrite !Z.eqb_eq in *.
  exists p. split; [reflexivity|]. split; [unfold pmm_ok; lia|]. split; [|done]. intros i.
  rewrite elem_of_list_to_set, elem_of_seqZ. split; [|lia]. intros Hi. split; [lia|].
  match goal with H : forallb _ _ = true |- _ => rewrite forallb_forall in H; apply negb_true_iff, H end.
  apply list_elem_of_In, elem_of_seqZ. lia.
Qed.

(** Its page tables are empty; its kernel and its memory are where they should be. *)
Lemma boot_tables p : Paging.tree_ok (mk_vm p (fun _ => 0) boot_offset 0) (PHYS_TO_VIRT boot_offset 0).
Proof.
  split.
  - intros [|i q] t _ Ht; [|discriminate Ht]. injection Ht as <-. exists 0. split; [reflexivity|].
    split; [unfold frame_ok; lia|]. intros [Hz _]. lia.
  - intros [|i q] [|i' q'] t _ _ Ht Ht'; [reflexivity|discriminate..].
Qed.
Lemma boot_layout : layout_ok boot_offset 16777216 boot_kvaddr 8192.
Proof. constructor; unfold KERNEL_HEAP_START, DIRECT_TOP, PAGE_SIZE, boot_offset, boot_kvaddr; split_and!; lia || reflexivity. Qed.
Lemma boot_ram : Forall ram_ok [mk_entry 5120 33549312 0].
Proof. constructor; [|constructor]. split; [simpl; lia|]. split; [right; reflexivity|]. simpl. unfold DIRECT_TOP. lia. Qed.

