(* ===== verification/Shell.v ===== *)
(** * The shell (userland/shell.c, userland/hvos.c) and the program that starts
    it (userland/init.c)

    The line editor and the commands, as a function of the characters
    [getchar] returns: what is printed, what is kept in the history, and when
    the program ends.  The buffers are the arrays of the source, with every
    access checked.  [session] is the reference: an editor of plain lists. *)

From S2P Require Import Prelude.

(** ** Data *)

Record shell := mk_shell {
  input_buffer : list Z;
  history_buffer : list (list Z);
  index : Z;
  history_index : Z;
  (** What was printed, on the standard output and the error output. *)
  out : list Z
}.

Definition CANCEL : Z := 24.
Definition CLEAR : Z := 2.
(** "hvos> " *)
Definition prompt : list Z := [104; 118; 111; 115; 62; 32].
Definition help_word : list Z := [104; 101; 108; 112].
Definition open_word : list Z := [111; 112; 101; 110].
Definition exit_word : list Z := [101; 120; 105; 116].
(** "Help menu !\n" *)
Definition help_text : list Z := [72; 101; 108; 112; 32; 109; 101; 110; 117; 32; 33; 10].
(** "hvsh: command not found: " *)
Definition not_found_text : list Z :=
  [104; 118; 115; 104; 58; 32; 99; 111; 109; 109; 97; 110; 100; 32; 110; 111; 116; 32; 102; 111; 117; 110; 100; 58; 32].

Definition set_input (s : shell) (b : list Z) (i : Z) : shell :=
  mk_shell b (history_buffer s) i (history_index s) (out s).
Definition printf (s : shell) (text : list Z) : shell :=
  mk_shell (input_buffer s) (history_buffer s) (index s) (history_index s) (out s ++ text).

(** The C library: a string ends at its first zero. *)
Fixpoint c_string (b : list Z) : list Z :=
  match b with [] => [] | c :: b => if c =? 0 then [] else c :: c_string b end.
Definition isgraph (c : Z) : bool := (33 <=? c) && (c <=? 126).
(** [strcpy] into an array: the string and its zero over what the array held. *)
Definition strcpy (dst src : list Z) : outcome (list Z) :=
  let s := c_string src ++ [0] in
  if (length s <=? length dst)%nat then Ok (s ++ drop (length s) dst) else Fault.

(** ** Operations *)

Fixpoint clear_chars (n : nat) (b : list Z) (i : Z) : outcome (list Z * Z) :=
  if i >? 0 then
    match n with
    | O => Hang
    | S n => b ← arr_set b i 0; clear_chars n b (i - 1)
    end
  else Ok (b, i).

Definition clear_buffer (s : shell) : outcome shell :=
  '(b, _) ← clear_chars (Z.to_nat (index s)) (input_buffer s) (index s);
  b ← arr_set b 0 0;
  Ok (set_input s b 0).

(** [userland/hvos.c]: it fills a local buffer and returns. *)
Definition clear_screen (s : shell) : shell := s.

(** One round of the inner loop; the flag says whether it was left. *)
Definition on_char (c : Z) (s : shell) : outcome (bool * shell) :=
  if c =? 10 then
    let s := printf s [10] in
    line ← arr_get (history_buffer s) (history_index s);
    line ← strcpy line (input_buffer s);
    h ← arr_set (history_buffer s) (history_index s) line;
    Ok (true, mk_shell (input_buffer s) h (index s) (history_index s + 1) (out s))
  else if c =? 8 then
    if index s >? 0 then
      let i := index s - 1 in
      b ← arr_set (input_buffer s) i 0;
      Ok (false, printf (set_input s b i) [8])
    else Ok (false, s)
  else if c =? CLEAR then
    s ← clear_buffer (clear_screen s);
    Ok (true, s)
  else if c =? CANCEL then
    s ← clear_buffer s;
    Ok (true, printf s [10])
  else if (index s <? 127) && isgraph c then
    b ← arr_set (input_buffer s) (index s) c;
    Ok (false, printf (set_input s b (index s + 1)) [c])
  else Ok (false, s).

(** The flag says whether the program calls [exit]. *)
Definition exec_cmd (s : shell) : bool * shell :=
  let cmd := c_string (input_buffer s) in
  if bool_decide (cmd = help_word) then (false, printf s help_text)
  else if bool_decide (cmd = open_word) then (false, s)
  else if bool_decide (cmd = exit_word) then (true, s)
  else (false, printf s (not_found_text ++ cmd ++ [32; 10])).

Definition begin_line (s : shell) : shell := set_input (printf s prompt) (input_buffer s) 0.

(** The end of a round of the outer loop, and the prompt of the next. *)
Definition end_line (s : shell) : outcome (bool * shell) :=
  if index s =? 0 then Ok (false, begin_line s)
  else
    let '(quit, s) := exec_cmd s in
    if (quit : bool) then Ok (true, s)
    else s ← clear_buffer s; Ok (false, begin_line s).

(** [main] from the first prompt on, over the characters typed; the flag says
    whether the program has ended, otherwise it waits in [getchar]. *)
Fixpoint run (input : list Z) (s : shell) : outcome (bool * shell) :=
  match input with
  | [] => Ok (false, s)
  | c :: input =>
      '(done_, s) ← on_char c s;
      if (done_ : bool) then
        '(quit, s) ← end_line s;
        if (quit : bool) then Ok (true, s) else run input s
      else run input s
  end.

(** The static variables, and the greeting. *)
Definition shell_main (greeting : list Z) (input : list Z) : outcome (bool * shell) :=
  s ← clear_buffer (mk_shell (replicate 128 0) (replicate 100 (replicate 128 0)) 0 0 []);
  run input (begin_line (printf s greeting)).

(** [strtok] with the delimiter ' ' on what is left of the string. *)
Fixpoint skip_blanks (s : list Z) : list Z :=
  match s with c :: s' => if c =? 32 then skip_blanks s' else s | [] => [] end.
Fixpoint word (s : list Z) : list Z * list Z :=
  match s with
  | [] => ([], [])
  | c :: s => if c =? 32 then ([], s) else let '(w, r) := word s in (c :: w, r)
  end.
Definition strtok (s : list Z) : option (list Z) * list Z :=
  match skip_blanks s with [] => (None, []) | s => let '(w, r) := word s in (Some w, r) end.

(** [cmd_t]: [calloc(32, 3)] has room for twelve pointers. *)
Record cmd_t := mk_cmd { tokens : list (option (list Z)); nb_tokens : Z }.

Fixpoint tok_loop (fuel : nat) (tok : option (list Z)) (rest : list Z) (cmd : cmd_t) : outcome cmd_t :=
  match tok with
  | None => Ok cmd
  | Some _ =>
      match fuel with
      | O => Hang
      | S fuel =>
          let '(tok, rest) := strtok rest in
          ts ← arr_set (tokens cmd) (nb_tokens cmd) tok;
          tok_loop fuel tok rest (mk_cmd ts (nb_tokens cmd + 1))
      end
  end.
Definition parse_cmd (input : list Z) : outcome cmd_t :=
  let '(tok, rest) := strtok input in
  tok_loop (S (length input)) tok rest (mk_cmd (replicate 12 None) 0).

(** ** The reference *)

(** The text a command prints, or none when it ends the program. *)
Definition answer (cmd : list Z) : option (list Z) :=
  if bool_decide (cmd = help_word) then Some help_text
  else if bool_decide (cmd = open_word) then Some []
  else if bool_decide (cmd = exit_word) then None
  else Some (not_found_text ++ cmd ++ [32; 10]).

(** A session: the line being typed, the lines entered before and what was
    printed.  The history has room for a hundred lines. *)
Fixpoint session (input line : list Z) (hist : list (list Z)) (o : list Z) : outcome (bool * list (list Z) * list Z) :=
  match input with
  | [] => Ok (false, hist, o)
  | c :: input =>
      if c =? 10 then
        if (length hist <? 100)%nat then
          let hist := hist ++ [line] in
          if bool_decide (line = []) then session input [] hist (o ++ [10] ++ prompt)
          else match answer line with
               | None => Ok (true, hist, o ++ [10])
               | Some text => session input [] hist (o ++ [10] ++ text ++ prompt)
               end
        else Fault
      else if c =? 8 then
        if bool_decide (line = []) then session input line hist o
        else session input (removelast line) hist (o ++ [8])
      else if c =? CLEAR then session input [] hist (o ++ prompt)
      else if c =? CANCEL then session input [] hist (o ++ [10] ++ prompt)
      else if (length line <? 127)%nat && isgraph c then session input (line ++ [c]) hist (o ++ [c])
      else session input line hist o
  end.

(** ** The buffers *)

(** The input buffer while [line] is typed: the line, then zeros. *)
Definition buffer (line : list Z) : list Z := line ++ replicate (128 - length line) 0.
Definition line_ok (line : list Z) : Prop := forallb isgraph line = true /\ (length line <= 127)%nat.

Lemma c_string_zero line rest : forallb isgraph line = true -> c_string (line ++ 0 :: rest) = line.
Proof.
  induction line as [|c line IH]; intros Hl; [done|]. simpl in *. unfold isgraph at 1 in Hl. bool_hyps.
  destruct (Z.eqb_spec c 0); [lia|]. by rewrite IH.
Qed.

Lemma buffer_cons line : (length line <= 127)%nat ->
  buffer line = line ++ 0 :: replicate (127 - length line) 0.
Proof. intros Hl. unfold buffer. by replace (128 - length line)%nat with (S (127 - length line)) by lia. Qed.

Lemma c_string_buffer line : line_ok line -> c_string (buffer line) = line.
Proof. intros [Hg Hl]. rewrite buffer_cons by done. by apply c_string_zero. Qed.

Lemma buffer_length line : (length line <= 127)%nat -> length (buffer line) = 128%nat.
Proof. intros. unfold buffer. rewrite length_app, length_replicate. lia. Qed.

Lemma buffer_lookup line j : (length line <= j < 128)%nat -> buffer line !! j = Some 0.
Proof. intros. unfold buffer. rewrite lookup_app_r by lia. apply lookup_replicate. split; [done|lia]. Qed.

(** Typing a character, and taking it back. *)
Lemma buffer_snoc line c : (length line < 127)%nat ->
  arr_set (buffer line) (Z.of_nat (length line)) c = Ok (buffer (line ++ [c])).
Proof.
  intros Hl. rewrite arr_set_ok by (rewrite buffer_length; lia). rewrite Nat2Z.id. f_equal.
  rewrite buffer_cons by lia. rewrite insert_app_r_alt, Nat.sub_diag by lia. simpl.
  unfold buffer. rewrite <-app_assoc, length_app. simpl. do 3 f_equal. lia.
Qed.

Lemma buffer_unsnoc line c : (length (line ++ [c]) <= 127)%nat ->
  arr_set (buffer (line ++ [c])) (Z.of_nat (length line)) 0 = Ok (buffer line).
Proof.
  intros Hl. rewrite length_app in Hl. simpl in Hl.
  rewrite arr_set_ok by (rewrite buffer_length by (rewrite length_app; simpl; lia); lia). rewrite Nat2Z.id. f_equal.
  unfold buffer at 1. rewrite <-app_assoc, insert_app_r_alt, Nat.sub_diag by lia. simpl.
  rewrite buffer_cons by lia. rewrite length_app. simpl. do 3 f_equal. lia.
Qed.

Lemma clear_chars_ok n : forall b i,
  n = Z.to_nat i -> 0 <= i < 128 -> length b = 128%nat -> (forall j, (Z.to_nat i < j < 128)%nat -> b !! j = Some 0) ->
  exists b', clear_chars n b i = Ok (b', 0) /\ length b' = 128%nat /\ (forall j, (0 < j < 128)%nat -> b' !! j = Some 0).
Proof.
  induction n as [|n IH]; intros b i Hn Hi Hlen Hz; simpl; destruct (i >? 0) eqn:E; bool_hyps; try lia.
  - assert (i = 0) as -> by lia. exists b. split; [done|]. split; [done|]. intros j Hj. apply Hz. lia.
  - rewrite arr_set_ok by lia. mred. apply IH; [lia|lia|by rewrite length_insert|].
    intros j Hj. destruct (decide (j = Z.to_nat i)) as [->|].
    + apply list_lookup_insert_eq. lia.
    + rewrite list_lookup_insert_ne by done. apply Hz. lia.
Qed.

Lemma clear_buffer_ok s line :
  input_buffer s = buffer line -> index s = Z.of_nat (length line) -> (length line <= 127)%nat ->
  clear_buffer s = Ok (set_input s (buffer []) 0).
Proof.
  intros Hb Hi Hl. unfold clear_buffer. rewrite Hb, Hi.
  destruct (clear_chars_ok (Z.to_nat (Z.of_nat (length line))) (buffer line) (Z.of_nat (length line)))
    as (b' & -> & Hlen & Hz); [done|lia|by apply buffer_length| |].
  { intros j Hj. apply buffer_lookup. lia. }
  mred. rewrite arr_set_ok by lia. mred. do 2 f_equal. apply list_eq. intros j.
  destruct (decide (j < 128)%nat).
  - rewrite buffer_lookup by (simpl; lia). destruct j; [by apply list_lookup_insert_eq; lia|].
    rewrite list_lookup_insert_ne by done. apply Hz. lia.
  - rewrite !lookup_ge_None_2; [done|rewrite buffer_length; simpl; lia|rewrite length_insert; lia].
Qed.

(** ** The program follows the reference *)

Record tracks (s : shell) (line : list Z) (hist : list (list Z)) (o : list Z) : Prop := {
  tr_line : line_ok line;
  tr_buffer : input_buffer s = buffer line;
  tr_index : index s = Z.of_nat (length line);
  tr_out : out s = o;
  tr_count : history_index s = Z.of_nat (length hist);
  tr_room : (length hist <= 100)%nat;
  tr_rows : length (history_buffer s) = 100%nat /\ Forall (fun r => length r = 128%nat) (history_buffer s);
  tr_hist i l : hist !! i = Some l -> exists row, history_buffer s !! i = Some row /\ c_string row = l
}.

Lemma line_ok_nil : line_ok [].
Proof. split; [done|simpl; lia]. Qed.

(** The history takes a line, or is full. *)
Lemma enter_ok s line hist o :
  tracks s line hist o ->
  if (length hist <? 100)%nat
  then exists s', on_char 10 s = Ok (true, s') /\ tracks s' line (hist ++ [line]) (o ++ [10])
  else on_char 10 s = Fault.
Proof.
  intros [Hl Hb Hi Ho Hc Hr [Hn Hrows] Hh]. unfold on_char. simpl (10 =? 10). cbn iota zeta.
  cbn [printf history_buffer history_index input_buffer index out]. rewrite Hc.
  destruct (Nat.ltb_spec (length hist) 100) as [Hlt|Hge].
  2: { rewrite arr_get_fault by lia. done. }
  destruct (arr_get_ok (history_buffer s) (Z.of_nat (length hist))) as [row Hrow]; [lia|]. rewrite Hrow. mred.
  apply arr_get_Ok_iff in Hrow as [_ Hrow]. rewrite Nat2Z.id in Hrow.
  assert (length row = 128%nat) as Hlen by (rewrite Forall_forall in Hrows; by eapply Hrows, list_elem_of_lookup_2).
  unfold strcpy. rewrite Hb, c_string_buffer by done. destruct Hl as [Hg Hl].
  assert (length (line ++ [0]) = S (length line)) as Hl1 by (rewrite length_app; simpl; lia).
  destruct (Nat.leb_spec (length (line ++ [0])) (length row)); [|lia]. mred.
  rewrite arr_set_ok by lia. mred. rewrite Nat2Z.id. eexists. split; [done|].
  split; simpl; try done; [by rewrite Ho|rewrite length_app; simpl; lia|rewrite length_app; simpl; lia|..].
  - rewrite length_insert. split; [done|]. apply Forall_insert; [done|]. rewrite length_app, length_drop. lia.
  - intros i l Hil. destruct (decide (i = length hist)) as [->|Hne].
    + rewrite list_lookup_middle in Hil by done. injection Hil as <-. eexists.
      split; [apply list_lookup_insert_eq; lia|]. rewrite <-app_assoc. by apply c_string_zero.
    + rewrite list_lookup_insert_ne by done. apply Hh. apply lookup_app_Some in Hil as [?|[? Hil]]; [done|].
      apply list_lookup_singleton_Some in Hil as [? _]. lia.
Qed.

Lemma printf_tracks s line hist o text : tracks s line hist o -> tracks (printf s text) line hist (o ++ text).
Proof. intros [? ? ? Ho ? ? ? ?]. split; try done. simpl. by rewrite Ho. Qed.

Lemma begin_line_ok s hist o : tracks s [] hist o -> tracks (begin_line s) [] hist (o ++ prompt).
Proof. intros [? ? ? Ho ? ? ? ?]. split; try done. simpl. by rewrite Ho. Qed.

Lemma clear_tracks s line hist o :
  tracks s line hist o -> exists s', clear_buffer s = Ok s' /\ tracks s' [] hist o.
Proof.
  intros [[? Hl] Hb Hi ? ? ? ? ?]. rewrite (clear_buffer_ok s line) by done. eexists. split; [done|].
  split; try done. apply line_ok_nil.
Qed.

Lemma end_line_ok s line hist o :
  tracks s line hist o ->
  match (if bool_decide (line = []) then Some [] else answer line) with
  | None => end_line s = Ok (true, s)
  | Some text => exists s', end_line s = Ok (false, s') /\ tracks s' [] hist (o ++ text ++ prompt)
  end.
Proof.
  intros Ht. unfold end_line. rewrite (tr_index _ _ _ _ Ht). case_bool_decide as Hn.
  { subst line. simpl. eexists. split; [done|]. by apply begin_line_ok. }
  destruct (Z.eqb_spec (Z.of_nat (length line)) 0); [destruct line; done|].
  unfold exec_cmd, answer. rewrite (tr_buffer _ _ _ _ Ht), c_string_buffer by apply Ht.
  assert (forall text, exists s', (s ← clear_buffer (printf s text); Ok (false, begin_line s)) = Ok (false, s') /\
    tracks s' [] hist (o ++ text ++ prompt)) as Hgo.
  { intros text. destruct (clear_tracks _ _ _ _ (printf_tracks s line hist o text Ht)) as (s1 & -> & H1). mred.
    eexists. split; [done|]. rewrite app_assoc. by apply begin_line_ok. }
  repeat case_bool_decide; try apply Hgo; try done.
  destruct (Hgo []) as (s' & E & H'). exists s'. split; [|done]. rewrite <-E. f_equal.
  unfold printf. rewrite app_nil_r. by destruct s.
Qed.

(** A character that does not end the line. *)
Lemma on_char_ok s line hist o c :
  tracks s line hist o -> c <> 10 ->
  exists b s', on_char c s = Ok (b, s') /\
    if (c =? CLEAR) || (c =? CANCEL) then b = true /\ tracks s' [] hist (o ++ if c =? CLEAR then [] else [10])
    else b = false /\
      if c =? 8 then if bool_decide (line = []) then tracks s' line hist o else tracks s' (removelast line) hist (o ++ [8])
      else if (length line <? 127)%nat && isgraph c then tracks s' (line ++ [c]) hist (o ++ [c]) else tracks s' line hist o.
Proof.
  intros Ht Hc. pose proof Ht as [[Hg Hl] Hb Hi Ho ? ? ? ?]. unfold on_char. destruct (Z.eqb_spec c 10); [done|].
  destruct (Z.eqb_spec c 8) as [->|].
  { simpl. rewrite Hi. destruct line as [|x line' _] using rev_ind.
    { exists false, s. split; [done|]. split; [done|]. by rewrite bool_decide_eq_true_2. }
    rewrite length_app. simpl. destruct (_ >? 0) eqn:E; bool_hyps; [|lia].
    replace (Z.of_nat (length line' + 1) - 1) with (Z.of_nat (length line')) by lia.
    rewrite Hb, buffer_unsnoc by done. mred. eexists _, _. split; [done|]. split; [done|].
    rewrite bool_decide_eq_false_2 by (by destruct line'). rewrite removelast_last.
    rewrite forallb_app, length_app in *. bool_hyps. split; try done; [split; [done|simpl in *; lia]|simpl; by rewrite Ho]. }
  destruct (Z.eqb_spec c CLEAR) as [->|]; cbn [orb]; unfold clear_screen.
  { destruct (clear_tracks _ _ _ _ Ht) as (s1 & -> & H1). mred. exists true, s1. split; [done|]. by rewrite app_nil_r. }
  destruct (Z.eqb_spec c CANCEL) as [->|]; cbn [orb].
  { destruct (clear_tracks _ _ _ _ Ht) as (s1 & -> & H1). mred. exists true, (printf s1 [10]). split; [done|].
    split; [done|]. by apply printf_tracks. }
  rewrite Hi. replace (Z.of_nat (length line) <? 127) with (length line <? 127)%nat
    by (destruct (Nat.ltb_spec (length line) 127), (Z.ltb_spec (Z.of_nat (length line)) 127); done || lia).
  destruct (_ && isgraph c) eqn:E; [|exists false, s; by split]. apply andb_prop in E as [E Egr]. apply Nat.ltb_lt in E.
  rewrite Hb, buffer_snoc by done. mred. eexists _, _. split; [done|]. split; [done|].
  split; try done; simpl; [|rewrite length_app; simpl; lia|by rewrite Ho].
  split; [by rewrite forallb_app, Hg; simpl; rewrite Egr|rewrite length_app; simpl; lia].
Qed.

(** ** Properties *)

Lemma run_session input : forall s line hist o,
  tracks s line hist o ->
  match session input line hist o with
  | Ok (q, hist', o') => exists s', run input s = Ok (q, s') /\ exists line', tracks s' line' hist' o'
  | _ => run input s = Fault
  end.
Proof.
  induction input as [|c input IH]; intros s line hist o Ht; [simpl; eauto|].
  cbn [session run]. destruct (Z.eqb_spec c 10) as [->|Hc].
  - pose proof (enter_ok s line hist o Ht) as He. destruct (length hist <? 100)%nat; [|by rewrite He].
    destruct He as (s1 & -> & H1). mred. cbv zeta. pose proof (end_line_ok _ _ _ _ H1) as H2.
    case_bool_decide.
    + destruct H2 as (s2 & -> & H2). mred. apply IH. by rewrite <-app_assoc in H2.
    + destruct (answer line) as [text|].
      * destruct H2 as (s2 & -> & H2). mred. apply IH. by rewrite <-app_assoc in H2.
      * rewrite H2. mred. eauto.
  - destruct (on_char_ok s line hist o c Ht Hc) as (b & s1 & -> & H1). mred.
    destruct (Z.eqb_spec c 8) as [->|]; [simpl in H1; destruct H1 as [-> H1]; case_bool_decide; by apply IH|].
    destruct (Z.eqb_spec c CLEAR) as [->|]; [|destruct (Z.eqb_spec c CANCEL) as [->|]]; simpl in H1; destruct H1 as [-> H1].
    + rewrite app_nil_r in H1. destruct (end_line_ok _ _ _ _ H1) as (s2 & -> & H2). mred. by apply IH.
    + destruct (end_line_ok _ _ _ _ H1) as (s2 & -> & H2). mred. apply IH. by rewrite <-app_assoc in H2.
    + destruct (_ && isgraph c); by apply IH.
Qed.

(** C25: the shell behaves as the reference session on every input: it prints the
    same text, ends at the same command and keeps the same history, with no access
    outside its buffers; only the line after the hundredth writes past the history. *)
Theorem shell_refines_session greeting input :
  match session input [] [] (greeting ++ prompt) with
  | Ok (q, hist, o) =>
      exists s, shell_main greeting input = Ok (q, s) /\ out s = o /\
        forall i l, hist !! i = Some l -> exists row, history_buffer s !! i = Some row /\ c_string row = l
  | _ => shell_main greeting input = Fault
  end.
Proof.
  set (s0 := mk_shell (buffer []) (replicate 100 (replicate 128 0)) 0 0 []).
  assert (tracks s0 [] [] []) as H0.
  { split; try done; [apply line_ok_nil|simpl; lia|]. split; [done|]. apply Forall_replicate. done. }
  pose proof (run_session input _ _ _ _ (begin_line_ok _ _ _ (printf_tracks _ _ _ _ greeting H0))) as H.
  assert (shell_main greeting input = run input (begin_line (printf s0 greeting))) as -> by reflexivity.
  simpl app in H. destruct (session _ _ _ _) as [[[q hist] o]| | |]; try exact H.
  destruct H as (s & E & line & [_ _ _ Ho _ _ _ Hh]). by exists s.
Qed.

(** "ls", a mistake taken back, "help" and "exit". *)
Definition sample_input : list Z := [108; 115; 10; 104; 101; 108; 113; 8; 112; 10; 101; 120; 105; 116; 10; 120].

Example session_sample :
  session sample_input [] [] prompt =
  Ok (true, [[108; 115]; help_word; exit_word],
      prompt ++ [108; 115; 10] ++ not_found_text ++ [108; 115; 32; 10] ++ prompt ++
      [104; 101; 108; 113; 8; 112; 10] ++ help_text ++ prompt ++ exit_word ++ [10]).
Proof. vm_compute. reflexivity. Qed.

Lemma history_overflows greeting : shell_main greeting (replicate 101 10) = Fault.
Proof.
  pose proof (run_session (replicate 101 10)) as H.
  set (s0 := mk_shell (buffer []) (replicate 100 (replicate 128 0)) 0 0 []).
  assert (tracks s0 [] [] []) as H0.
  { split; try done; [apply line_ok_nil|simpl; lia|]. split; [done|]. apply Forall_replicate. done. }
  exact (H _ _ _ _ (begin_line_ok _ _ _ (printf_tracks _ _ _ _ greeting H0))).
Qed.

(** ** Words *)

Fixpoint split_blanks (s : list Z) : list (list Z) :=
  match s with
  | [] => [[]]
  | c :: s =>
      if c =? 32 then [] :: split_blanks s
      else match split_blanks s with w :: ws => (c :: w) :: ws | [] => [[c]] end
  end.
(** The words of a string: its longest parts without blanks. *)
Definition words (s : list Z) : list (list Z) := filter (fun w => w <> []) (split_blanks s).

Lemma words_blank s : words (32 :: s) = words s.
Proof. reflexivity. Qed.

Lemma words_skip s : words (skip_blanks s) = words s.
Proof.
  induction s as [|c s IH]; [done|]. simpl skip_blanks. destruct (Z.eqb_spec c 32) as [->|]; [|done].
  by rewrite words_blank.
Qed.

Lemma word_split s w r :
  word s = (w, r) -> exists xs, split_blanks s = w :: xs /\ filter (fun w => w <> []) xs = words r.
Proof.
  revert w r. induction s as [|c s IH]; intros w r; simpl; [intros [= <- <-]; by exists []|].
  destruct (Z.eqb_spec c 32) as [->|]; [intros [= <- <-]; by eexists|].
  destruct (word s) as [w' r'] eqn:E. intros [= <- <-]. destruct (IH _ _ eq_refl) as (xs & -> & Hx). by exists xs.
Qed.

Lemma skip_blanks_head s c s' : skip_blanks s = c :: s' -> c <> 32.
Proof.
  induction s as [|x s IH]; simpl; [done|]. destruct (Z.eqb_spec x 32); [done|]. by intros [= -> ->].
Qed.

(** [strtok] takes the first word off. *)
Lemma strtok_words s :
  exists r, strtok s = (head (words s), r) /\ words r = tail (words s).
Proof.
  unfold strtok. rewrite <-(words_skip s). destruct (skip_blanks s) as [|c s'] eqn:E; [by exists []|].
  apply skip_blanks_head in E. destruct (word (c :: s')) as [w r] eqn:Ew.
  destruct (word_split _ _ _ Ew) as (xs & Hs & Hx). exists r.
  assert (w <> []) as Hw by (simpl in Ew; destruct (Z.eqb_spec c 32); [done|]; destruct (word s'); by injection Ew as <- _).
  unfold words. rewrite Hs, filter_cons_True by done. simpl. by rewrite Hx.
Qed.

Lemma words_length s : (length (words s) <= length s)%nat.
Proof.
  induction s as [|c s IH]; [done|]. destruct (decide (c = 32)) as [->|Hc]; [rewrite words_blank; simpl; lia|].
  unfold words in *. simpl. destruct (Z.eqb_spec c 32); [done|].
  destruct (split_blanks s) as [|w ws]; [simpl; lia|]. rewrite filter_cons_True by done. simpl.
  rewrite filter_cons in IH. case_decide; simpl in *; lia.
Qed.

(** What the loop stores: the words after the current one, then a null pointer. *)
Lemma tok_loop_ok fuel : forall tok rest ts k,
  (length (words rest) < fuel)%nat -> length ts = 12%nat -> (k <= 12)%nat ->
  let n := (k + S (length (words rest)))%nat in
  if (n <=? 12)%nat
  then exists ts', tok_loop fuel (Some tok) rest (mk_cmd ts (Z.of_nat k)) = Ok (mk_cmd ts' (Z.of_nat n)) /\
         take n ts' = take k ts ++ map Some (words rest) ++ [None]
  else tok_loop fuel (Some tok) rest (mk_cmd ts (Z.of_nat k)) = Fault.
Proof.
  induction fuel as [|fuel IH]; intros tok rest ts k Hf Hlen Hk; [lia|]. cbv zeta. cbn [tok_loop].
  destruct (strtok_words rest) as (r & -> & Hr). cbn [tokens nb_tokens].
  destruct (decide (k = 12)%nat) as [->|].
  { destruct (Nat.leb_spec (12 + S (length (words rest))) 12); [lia|]. unfold arr_set. by rewrite Hlen. }
  rewrite arr_set_ok by lia. mred. rewrite Nat2Z.id. destruct (words rest) as [|w ws] eqn:Ew; simpl in *.
  { destruct (Nat.leb_spec (k + 1) 12); [|lia]. assert (tok_loop fuel None r
      (mk_cmd (<[k:=None]> ts) (Z.of_nat k + 1)) = Ok (mk_cmd (<[k:=None]> ts) (Z.of_nat k + 1))) as -> by (by destruct fuel).
    eexists. split; [do 2 f_equal; lia|]. rewrite Nat.add_1_r, (take_S_r _ _ None), take_insert_ge by
      (lia || (apply list_lookup_insert_eq; lia)). done. }
  specialize (IH w r (<[k:=Some w]> ts) (S k)). rewrite Hr in IH. rewrite length_insert in IH.
  replace (k + S (S (length ws)))%nat with (S k + S (length ws))%nat by lia.
  specialize (IH ltac:(lia) Hlen ltac:(lia)). replace (Z.of_nat k + 1) with (Z.of_nat (S k)) by lia. cbv zeta in IH.
  destruct (_ <=? 12)%nat; [|exact IH]. destruct IH as (ts' & -> & Ht). exists ts'. split; [done|].
  rewrite Ht, (take_S_r _ _ (Some w)), take_insert_ge, <-app_assoc by (lia || (apply list_lookup_insert_eq; lia)). done.
Qed.

(** [parse_cmd] loses the command word: of a line of [n] words it keeps the
    last [n-1], followed by a null pointer, and counts [n] tokens; more than twelve
    words write past the array. *)
Theorem parse_cmd_drops_command input :
  let n := length (words input) in
  if (n <=? 12)%nat
  then exists cmd, parse_cmd input = Ok cmd /\ nb_tokens cmd = Z.of_nat n /\
         take n (tokens cmd) = if (n =? 0)%nat then [] else map Some (tail (words input)) ++ [None]
  else parse_cmd input = Fault.
Proof.
  unfold parse_cmd. destruct (strtok_words input) as (r & -> & Hr). pose proof (words_length input) as Hl.
  destruct (words input) as [|w ws] eqn:Ew; simpl in *; [by eexists|].
  pose proof (tok_loop_ok (S (length input)) w r (replicate 12 None) 0) as H. rewrite Hr in H. cbv zeta in H.
  specialize (H ltac:(lia) eq_refl ltac:(lia)). rewrite Nat.add_0_l in H.
  destruct ws as [|x xs]; cbn [Nat.leb length] in *.
  - destruct H as (ts' & E & Ht). exists (mk_cmd ts' 1). done.
  - destruct (_ <=? _)%nat; [|exact H]. destruct H as (ts' & E & Ht). eexists. split; [exact E|]. split; [simpl; lia|exact Ht].
Qed.

Example parse_cmd_sample : words [97; 32; 32; 98; 32; 99] = [[97]; [98]; [99]].
Proof. reflexivity. Qed.

(** ** The first program (userland/init.c)

    It starts the shell and waits for it.  The C library it calls is the
    parameter [Libc]: what [printf], [exec] and [waitpid] do to the world. *)

Class Libc (W : Type) := {
  lib_printf : list Z -> W -> outcome W;
  lib_exec : list Z -> W -> outcome (Z * W);
  lib_waitpid : Z -> W -> outcome (Z * W)
}.

(** "[INIT]: init\n", "/shell.elf", "[INIT]: Critical Error: Failed to execute shell\n",
    "[INIT]: Shell has exited\n" *)
Definition init_text : list Z := [91; 73; 78; 73; 84; 93; 58; 32; 105; 110; 105; 116; 10].
Definition shell_path : list Z := [47; 115; 104; 101; 108; 108; 46; 101; 108; 102].
Definition exec_failed_text : list Z :=
  [91; 73; 78; 73; 84; 93; 58; 32; 67; 114; 105; 116; 105; 99; 97; 108; 32; 69; 114; 114; 111; 114; 58; 32; 70; 97; 105; 108; 101; 100; 32; 116; 111; 32; 101; 120; 101; 99; 117; 116; 101; 32; 115; 104; 101; 108; 108; 10].
Definition shell_exited_text : list Z :=
  [91; 73; 78; 73; 84; 93; 58; 32; 83; 104; 101; 108; 108; 32; 104; 97; 115; 32; 101; 120; 105; 116; 101; 100; 10].

Definition init_main {W} `{Libc W} (w : W) : outcome (Z * W) :=
  w ← lib_printf init_text w;
  '(pid, w) ← lib_exec shell_path w;
  let pid := s32 pid in
  if pid <? 0 then w ← lib_printf exec_failed_text w; Hang
  else
    '(_, w) ← lib_waitpid pid w;
    w ← lib_printf shell_exited_text w;
    Ok (0, w).

(** A library that writes down what it is asked, gives the new program the number
    [pid] and waits no longer than that. *)
Inductive call := Printf (text : list Z) | Exec (path : list Z) | Waitpid (pid : Z).
Definition libc_log (pid : Z) : Libc (list call) := {|
  lib_printf t w := Ok (w ++ [Printf t]);
  lib_exec p w := Ok (pid, w ++ [Exec p]);
  lib_waitpid p w := Ok (0, w ++ [Waitpid p])
|}.

(** The first program waits for exactly the program it has started, and reports
    its end; when the shell cannot be started it never returns. *)
Lemma init_main_waits pid :
  - (2 ^ 31) <= pid < 2 ^ 31 ->
  @init_main _ (libc_log pid) [] =
    if pid <? 0 then Hang
    else Ok (0, [Printf init_text; Exec shell_path; Waitpid pid; Printf shell_exited_text]).
Proof.
  intros Hp. unfold init_main. cbn. replace (s32 pid) with pid; [by destruct (pid <? 0)|].
  unfold s32, u32. destruct (Z.ltb_spec (pid mod 4294967296) 2147483648); zdiv.
Qed.
