(* ===== verification/Klibc.v ===== *)
(** * The former C library (old/klibc/string.c)

    The string routines the kernel used before it was linked against its own
    libc; the file is kept in the tree and no longer built.  Memory is byte
    memory, pointers are addresses and local arrays are lists whose accesses
    are checked.  [fuel] bounds the loops that stop at a zero byte; the theorems
    say how much is enough. *)

From S2P Require Import Prelude Bytes.

(** ** Numbers to strings *)

(** "0123456789ABCDEFGHIJKLMNOPQRSTUVWXYZ" with its zero. *)
Definition base : list Z :=
  [48; 49; 50; 51; 52; 53; 54; 55; 56; 57; 65; 66; 67; 68; 69; 70; 71; 72; 73; 74; 75; 76; 77; 78; 79; 80; 81; 82; 83;
   84; 85; 86; 87; 88; 89; 90; 0].

(** [while (n) { tmp[++rdi] = base[n % radix]; n /= radix; }] with the
    remainder and the quotient of the type at hand. *)
Fixpoint digits_loop (rem quot : Z -> Z) (fuel : nat) (n rdi : Z) (tmp : list Z) : outcome (Z * list Z) :=
  if n =? 0 then Ok (rdi, tmp)
  else
    match fuel with
    | O => Hang
    | S fuel =>
        c ← arr_get base (rem n);
        tmp ← arr_set tmp (rdi + 1) c;
        digits_loop rem quot fuel (quot n) (rdi + 1) tmp
    end.

(** [while (rdi >= 0) str[si++] = tmp[rdi--]]. *)
Fixpoint reverse_loop (k : nat) (tmp : list Z) (str si : Z) (m : bytes) : outcome (Z * bytes) :=
  match k with
  | O => Ok (si, m)
  | S k => c ← arr_get tmp (Z.of_nat k); reverse_loop k tmp str (si + 1) (store8 m (u64 (str + si)) c)
  end.

(** The common part of [itoa] and [litoa] once the sign is written. *)
Definition digits_to (rem quot : Z -> Z) (n str si : Z) (m : bytes) : outcome bytes :=
  '(rdi, tmp) ← digits_loop rem quot 64 n (-1) (replicate 33 0);
  '(rdi, tmp) ← (if rdi =? -1 then tmp ← arr_set tmp (rdi + 1) 48; Ok (rdi + 1, tmp) else Ok (rdi, tmp));
  '(si, m) ← reverse_loop (Z.to_nat (rdi + 1)) tmp str si m;
  Ok (store8 m (u64 (str + si)) 0).

(** Signed: the remainder has the sign of the dividend. *)
Definition itoa (num str radix : Z) (m : bytes) : outcome bytes :=
  let n := s32 num in
  let '(n, si, m) := if (n <? 0) && (radix =? 10) then (s32 (- n), 1, store8 m (u64 (str + 0)) 45) else (n, 0, m) in
  if radix =? 0 then (if n =? 0 then digits_to (fun _ => 0) (fun _ => 0) n str si m else Fault)
  else digits_to (fun n => Z.rem n radix) (fun n => Z.quot n radix) n str si m.

(** Unsigned: [n < 0] never holds; the [int] radix is taken to [uint64_t]. *)
Definition litoa (num str radix : Z) (m : bytes) : outcome bytes :=
  let n := u64 num in
  let r := u64 radix in
  if r =? 0 then (if n =? 0 then digits_to (fun _ => 0) (fun _ => 0) n str 0 m else Fault)
  else digits_to (fun n => n mod r) (fun n => n / r) n str 0 m.

(** ** Memory *)

Fixpoint copy64 (chunks : nat) (d s : Z) (m : bytes) : Z * Z * bytes :=
  match chunks with
  | O => (d, s, m)
  | S chunks => copy64 chunks (u64 (d + 8)) (u64 (s + 8)) (store64 m d (load64 m s))
  end.
Fixpoint copy8 (n : nat) (d s : Z) (m : bytes) : bytes :=
  match n with
  | O => m
  | S n => copy8 n (u64 (d + 1)) (u64 (s + 1)) (store8 m d (m s))
  end.
Definition memcpy8 (dest src n : Z) (m : bytes) : bytes :=
  let chunks := n / 8 in
  let '(d, s, m) := copy64 (Z.to_nat chunks) dest src m in
  let remainder := n mod 8 in
  copy8 (Z.to_nat remainder) d s m.

(** [memset] calls itself with its own arguments. *)
Fixpoint kmemset (fuel : nat) (s c n : Z) (m : bytes) : outcome bytes :=
  match fuel with O => Hang | S fuel => kmemset fuel s c n m end.

(** ** Strings *)

Fixpoint strlen_loop (fuel : nat) (m : bytes) (p len : Z) : outcome Z :=
  if m p =? 0 then Ok len
  else match fuel with O => Hang | S fuel => strlen_loop fuel m (u64 (p + 1)) (len + 1) end.
Definition strlen (fuel : nat) (m : bytes) (str : Z) : outcome Z :=
  if str =? 0 then Ok 0 else strlen_loop fuel m str 0.

(** [while (str[len++] && len < n)]: the test has read [str[len - 1]]. *)
Fixpoint kstrnlen_loop (fuel : nat) (m : bytes) (str n len : Z) : outcome Z :=
  let c := m (u64 (str + len)) in
  let len := len + 1 in
  if negb (c =? 0) && (len <? n)
  then match fuel with O => Hang | S fuel => kstrnlen_loop fuel m str n len end
  else Ok len.
Definition kstrnlen (fuel : nat) (m : bytes) (str n : Z) : outcome Z := kstrnlen_loop fuel m str n 0.

Fixpoint strcmp (fuel : nat) (m : bytes) (p1 p2 : Z) : outcome Z :=
  if negb (m p1 =? 0) && (m p1 =? m p2)
  then match fuel with O => Hang | S fuel => strcmp fuel m (u64 (p1 + 1)) (u64 (p2 + 1)) end
  else Ok (m p1 - m p2).

Fixpoint kstrncmp (n : nat) (m : bytes) (s1 s2 : Z) : Z :=
  match n with
  | O => 0
  | S n =>
      let u1 := m s1 in
      let u2 := m s2 in
      if negb (u1 =? u2) then u1 - u2
      else if u1 =? 0 then 0
      else kstrncmp n m (u64 (s1 + 1)) (u64 (s2 + 1))
  end.

Definition strncpy (fuel : nat) (s1 s2 n : Z) (m : bytes) : outcome bytes :=
  len ← kstrnlen fuel m s2 n;
  let m := memcpy8 s1 s2 len m in
  if len <? n then kmemset fuel (u64 (s1 + len)) 0 (n - len) m else Ok m.

Definition kstrcat (fuel : nat) (dest src : Z) (m : bytes) : outcome bytes :=
  ld ← strlen fuel m dest;
  let end_ := u64 (dest + ld) in
  ls ← strlen fuel m src;
  m ← strncpy fuel end_ src ls m;
  ls ← strlen fuel m src;
  Ok (store8 m (u64 (end_ + ls)) 0).

(** The last place where the character is, its own zero included; 0 is the
    null pointer. *)
Fixpoint strrchr_loop (fuel : nat) (m : bytes) (s target last : Z) : outcome Z :=
  let last := if m s =? target then s else last in
  if m s =? 0 then Ok last
  else match fuel with O => Hang | S fuel => strrchr_loop fuel m (u64 (s + 1)) target last end.
Definition strrchr (fuel : nat) (m : bytes) (s c : Z) : outcome Z := strrchr_loop fuel m s (u8 c) 0.

(** ** Copying *)

Definition byte_mem (m : bytes) : Prop := forall a, 0 <= m a < 256.

(** Loading [n] bytes and storing them elsewhere copies them. *)
Lemma store_load_le n : forall m m' d s x,
  range_ok d (Z.of_nat n) -> range_ok s (Z.of_nat n) -> byte_mem m' ->
  store_le n m d (load_le n m' s) x = if (d <=? x) && (x <? d + Z.of_nat n) then m' (s + (x - d)) else m x.
Proof.
  induction n as [|n IH]; intros m m' d s x Hd Hs Hb; unfold range_ok in *; [simpl; zcases; done|].
  simpl load_le. simpl store_le. pose proof (Hb s) as Hbs.
  set (v := load_le n m' (u64 (s + 1))) in *.
  assert (u8 (m' s + 256 * v) = m' s /\ (m' s + 256 * v) / 256 = v) as [E1 E2] by (unfold u8; zdiv).
  assert (store8 m d (m' s + 256 * v) x = if x =? d then m' s else m x) as H8.
  { unfold store8. by rewrite E1. }
  rewrite E2. destruct n as [|n].
  { simpl store_le. rewrite H8. zcases; try done; f_equal; lia. }
  unfold v at 2. rewrite (u64_next d), (u64_next s), IH, H8 by (done || lia). zcases; try done; f_equal; lia.
Qed.

Lemma store8_byte m a v : byte_mem m -> byte_mem (store8 m a v).
Proof. intros Hm x. unfold store8. destruct (x =? a); [apply u8_range|apply Hm]. Qed.
Lemma store_le_byte n : forall m a v, byte_mem m -> byte_mem (store_le n m a v).
Proof. induction n as [|n IH]; intros m a v Hm; simpl; [done|]. by apply IH, store8_byte. Qed.

(** [n] bytes from [s] now also stand at [d]. *)
Definition copied (m m' : bytes) (d s n : Z) : Prop :=
  byte_mem m' /\ forall x, m' x = if (d <=? x) && (x <? d + n) then m (s + (x - d)) else m x.

Definition apart (d s n : Z) : Prop := d + n <= s \/ s + n <= d.

(** Copies of adjacent pieces add up. *)
Lemma copied_app m m1 m2 d s n k :
  0 <= n -> 0 <= k -> apart d s (n + k) -> copied m m1 d s n -> copied m1 m2 (d + n) (s + n) k -> copied m m2 d s (n + k).
Proof.
  intros Hn Hk Ha [_ H1] [Hb H2]. split; [done|]. intros x. unfold apart in Ha. rewrite H2, !H1.
  zcases; try done; f_equal; lia.
Qed.

Lemma copied_0 m d s : byte_mem m -> copied m m d s 0.
Proof. intros Hb. split; [done|]. intros x. zcases; done. Qed.

(** [n] bytes from [a] on, below the top of the address space. *)
Definition below (a n : Z) : Prop := 0 <= a /\ a + n < 18446744073709551616.

Lemma u64_below a n : below a n -> 0 <= n -> u64 (a + n) = a + n.
Proof. unfold below. intros. apply u64_small. unfold fits_u64. lia. Qed.

Lemma copy64_ok k : forall d s m,
  byte_mem m -> below d (8 * Z.of_nat k) -> below s (8 * Z.of_nat k) -> apart d s (8 * Z.of_nat k) ->
  exists m', copy64 k d s m = (d + 8 * Z.of_nat k, s + 8 * Z.of_nat k, m') /\ copied m m' d s (8 * Z.of_nat k).
Proof.
  induction k as [|k IH]; intros d s m Hm Hd Hs Ha.
  { exists m. rewrite !Z.add_0_r. split; [done|]. by apply copied_0. }
  rewrite Nat2Z.inj_succ in *. replace (8 * Z.succ (Z.of_nat k)) with (8 + 8 * Z.of_nat k) in * by lia. simpl copy64.
  unfold below in *. rewrite !u64_small by (unfold fits_u64; lia).
  destruct (IH (d + 8) (s + 8) (store64 m d (load64 m s))) as (m' & -> & Hc);
    [by apply store_le_byte|unfold apart in *; lia..|].
  exists m'. split; [by rewrite !Z.add_assoc|]. eapply copied_app; [lia..|done| |exact Hc].
  split; [by apply store_le_byte|]. intros x. unfold store64, load64.
  rewrite store_load_le by (done || (unfold range_ok; lia)). done.
Qed.

Lemma copy8_ok k : forall d s m,
  byte_mem m -> below d (Z.of_nat k) -> below s (Z.of_nat k) -> apart d s (Z.of_nat k) ->
  copied m (copy8 k d s m) d s (Z.of_nat k).
Proof.
  induction k as [|k IH]; intros d s m Hm Hd Hs Ha; [by apply copied_0|].
  rewrite Nat2Z.inj_succ in *. replace (Z.succ (Z.of_nat k)) with (1 + Z.of_nat k) in * by lia. simpl copy8.
  unfold below in *. rewrite !u64_small by (unfold fits_u64; lia).
  eapply copied_app; [lia..|done| |apply IH; [by apply store8_byte|unfold apart in *; lia..]].
  split; [by apply store8_byte|]. intros x. unfold store8. rewrite (u8_small (m s)) by apply Hm.
  zcases; try done; f_equal; lia.
Qed.

Lemma memcpy8_copied d s n m :
  byte_mem m -> 0 <= n -> below d n -> below s n -> apart d s n -> copied m (memcpy8 d s n m) d s n.
Proof.
  intros Hm Hn Hd Hs Ha. unfold memcpy8, below, apart in *. pose proof (Z.div_mod n 8 ltac:(lia)) as Hdm.
  pose proof (Z.mod_pos_bound n 8 ltac:(lia)). assert (0 <= n / 8) by (apply Z.div_pos; lia).
  destruct (copy64_ok (Z.to_nat (n / 8)) d s m) as (m1 & -> & H1);
    [done|unfold below; rewrite ?Z2Nat.id by lia; lia..|unfold apart; rewrite Z2Nat.id by lia; lia|].
  rewrite Z2Nat.id in * by lia.
  pose proof (copy8_ok (Z.to_nat (n mod 8)) (d + 8 * (n / 8)) (s + 8 * (n / 8)) m1) as H2. rewrite Z2Nat.id in H2 by lia.
  replace (copied m _ d s n) with (copied m (copy8 (Z.to_nat (n mod 8)) (d + 8 * (n / 8)) (s + 8 * (n / 8)) m1) d s
    (8 * (n / 8) + n mod 8)) by (f_equal; lia).
  eapply copied_app; [lia..|unfold apart; lia|exact H1|]. apply H2; [apply H1|unfold below, apart; lia..].
Qed.

(** ** Strings in memory *)

Definition holds (m : bytes) (a : Z) (l : list Z) : Prop := forall i c, l !! i = Some c -> m (a + Z.of_nat i) = c.
Definition no_zero (s : list Z) : Prop := Forall (fun c => 0 < c < 256) s.
(** The string [s] with its zero at [a]. *)
Record cstr (m : bytes) (a : Z) (s : list Z) : Prop := {
  cs_text : no_zero s;
  cs_mem : holds m a (s ++ [0]);
  cs_below : below a (Z.of_nat (length s) + 1)
}.

Lemma holds_cons m a c l : holds m a (c :: l) <-> m a = c /\ holds m (a + 1) l.
Proof.
  split.
  - intros H. split; [rewrite <-(Z.add_0_r a); apply (H 0%nat); done|].
    intros i x Hx. rewrite <-(H (S i) x Hx). f_equal. lia.
  - intros [H0 H] [|i] x Hx; simpl in Hx; [injection Hx as <-; by rewrite Z.add_0_r|].
    rewrite <-(H i x Hx). f_equal. lia.
Qed.

Lemma holds_app m a l l' : holds m a (l ++ l') <-> holds m a l /\ holds m (a + Z.of_nat (length l)) l'.
Proof.
  revert a. induction l as [|c l IH]; intros a; simpl app.
  - simpl length. rewrite Z.add_0_r. split; [|naive_solver]. intros H. split; [by intros i x Hx|done].
  - rewrite !holds_cons, IH. simpl length. replace (a + Z.of_nat (S (length l))) with (a + 1 + Z.of_nat (length l)) by lia.
    naive_solver.
Qed.

Lemma cstr_cons m a c s : cstr m a (c :: s) -> m a = c /\ 0 < c < 256 /\ cstr m (a + 1) s /\ u64 (a + 1) = a + 1.
Proof.
  intros [Ht Hm Hb]. apply Forall_cons in Ht as [Hc Ht]. simpl in Hm. apply holds_cons in Hm as [H0 Hm].
  simpl length in Hb. unfold below in Hb. split; [done|]. split; [done|]. split; [split; try done; unfold below; lia|].
  apply u64_small. unfold fits_u64. lia.
Qed.

Lemma cstr_nil m a : cstr m a [] -> m a = 0.
Proof. intros [_ Hm _]. rewrite <-(Z.add_0_r a). by apply (Hm 0%nat). Qed.

Lemma strlen_loop_ok s : forall fuel m a len,
  cstr m a s -> (length s <= fuel)%nat -> strlen_loop fuel m a len = Ok (len + Z.of_nat (length s)).
Proof.
  induction s as [|c s IH]; intros fuel m a len Hs Hf.
  { apply cstr_nil in Hs. destruct fuel; simpl; rewrite Hs; simpl; f_equal; lia. }
  apply cstr_cons in Hs as (Hc & Hr & Hs & E). destruct fuel as [|fuel]; simpl in *; [lia|].
  rewrite Hc, E. destruct (Z.eqb_spec c 0); [lia|]. rewrite IH by (done || lia). f_equal. lia.
Qed.

Lemma strlen_ok s fuel m a :
  cstr m a s -> a <> 0 -> (length s <= fuel)%nat -> strlen fuel m a = Ok (Z.of_nat (length s)).
Proof.
  intros Hs Ha Hf. unfold strlen. destruct (Z.eqb_spec a 0); [done|]. by rewrite (strlen_loop_ok s).
Qed.

(** [kstrnlen] counts the zero when it meets it, and at least one byte. *)
Lemma kstrnlen_loop_ok s : forall fuel m a n len,
  cstr m (a + len) s -> 0 <= len -> 0 <= a -> (length s <= fuel)%nat ->
  kstrnlen_loop fuel m a n len = Ok (Z.max (len + 1) (Z.min n (len + Z.of_nat (length s) + 1))).
Proof.
  induction s as [|c s IH]; intros fuel m a n len Hs Hl Ha Hf.
  - pose proof (cs_below _ _ _ Hs) as Hb. unfold below in Hb. simpl in Hb. apply cstr_nil in Hs.
    destruct fuel; simpl; rewrite u64_small, Hs by (unfold fits_u64; lia); simpl; f_equal; lia.
  - pose proof (cs_below _ _ _ Hs) as Hb. unfold below in Hb. simpl length in *.
    apply cstr_cons in Hs as (Hc & Hr & Hs & E). destruct fuel as [|fuel]; [lia|]. cbn [kstrnlen_loop].
    rewrite u64_small, Hc by (unfold fits_u64; lia). destruct (Z.eqb_spec c 0); [lia|]. simpl.
    destruct (Z.ltb_spec (len + 1) n); [|f_equal; lia].
    rewrite IH by (lia || (by rewrite Z.add_assoc)). f_equal. lia.
Qed.

Lemma kmemset_hangs fuel s c n m : kmemset fuel s c n m = Hang.
Proof. induction fuel; done. Qed.

Lemma copied_holds m m' d s n l :
  copied m m' d s n -> holds m s l -> Z.of_nat (length l) <= n -> holds m' d l.
Proof.
  intros [_ Hc] Hl Hn i c Hi. rewrite Hc. apply lookup_lt_Some in Hi as Hlt.
  zcases. rewrite <-(Hl i c Hi). f_equal. lia.
Qed.

Lemma copied_keeps m m' d s n a l :
  copied m m' d s n -> holds m a l -> a + Z.of_nat (length l) <= d \/ d + n <= a -> holds m' a l.
Proof.
  intros [_ Hc] Hl Hn i c Hi. rewrite Hc. apply lookup_lt_Some in Hi as Hlt.
  zcases; by apply Hl.
Qed.

(** [strncpy] of a string with its zero within [n] bytes: it returns only when
    no byte is left to fill, because [memset] never returns. *)
Lemma strncpy_ok s fuel m s1 s2 n :
  byte_mem m -> cstr m s2 s -> (length s <= fuel)%nat -> 0 <= n -> below s1 (Z.max 1 n) -> below s2 (Z.max 1 n) ->
  apart s1 s2 (Z.max 1 n) ->
  if Z.of_nat (length s) + 1 <? n then strncpy fuel s1 s2 n m = Hang
  else exists m', strncpy fuel s1 s2 n m = Ok m' /\ copied m m' s1 s2 (Z.max 1 n).
Proof.
  intros Hm Hs Hf Hn H1 H2 Ha. unfold strncpy, kstrnlen. pose proof (cs_below _ _ _ Hs) as [Hb _].
  rewrite (kstrnlen_loop_ok s) by (done || lia || by rewrite Z.add_0_r). mred.
  destruct (Z.ltb_spec (Z.of_nat (length s) + 1) n).
  - replace (Z.max (0 + 1) (Z.min n (0 + Z.of_nat (length s) + 1))) with (Z.of_nat (length s) + 1) by lia.
    destruct (Z.ltb_spec (Z.of_nat (length s) + 1) n); [|lia]. apply kmemset_hangs.
  - replace (Z.max (0 + 1) (Z.min n (0 + Z.of_nat (length s) + 1))) with (Z.max 1 n) by lia.
    destruct (Z.ltb_spec (Z.max 1 n) n); [lia|]. eexists. split; [done|]. apply memcpy8_copied; done || lia.
Qed.

Lemma store8_frame m a v x : x <> a -> store8 m a v x = m x.
Proof. intros. unfold store8. by destruct (Z.eqb_spec x a). Qed.

(** [kstrcat] appends: after it the destination holds the two strings one
    after the other with their zero, and only the bytes behind the first string
    changed; the source may lie anywhere but there. *)
Theorem kstrcat_correct fuel m dest src s1 s2 :
  byte_mem m -> cstr m dest s1 -> cstr m src s2 -> dest <> 0 -> src <> 0 ->
  (length s1 <= fuel)%nat -> (length s2 <= fuel)%nat ->
  let n1 := Z.of_nat (length s1) in
  let n2 := Z.of_nat (length s2) in
  below dest (n1 + n2 + 1) -> dest + n1 + n2 + 1 <= src \/ src + n2 + 1 <= dest ->
  exists m', kstrcat fuel dest src m = Ok m' /\ cstr m' dest (s1 ++ s2) /\
    forall x, ~ within (dest + n1) (n2 + 1) x -> m' x = m x.
Proof.
  intros Hm H1 H2 Hd Hs Hf1 Hf2 n1 n2 Hb Ha. pose proof H1 as [T1 M1 B1]. pose proof H2 as [T2 M2 B2].
  unfold below in Hb, B1, B2. unfold kstrcat. rewrite (strlen_ok s1 fuel m dest) by done. mred.
  rewrite (strlen_ok s2 fuel m src) by done. mred.
  fold n1 n2 in B1, B2 |- *. rewrite (u64_small (dest + n1)) by (unfold fits_u64; lia).
  pose proof (strncpy_ok s2 fuel m (dest + n1) src n2 Hm H2 Hf2 ltac:(lia)) as Hcp.
  specialize (Hcp ltac:(unfold below; lia) ltac:(unfold below; lia) ltac:(unfold apart; lia)). fold n2 in Hcp.
  destruct (Z.ltb_spec (n2 + 1) n2); [lia|]. destruct Hcp as (m1 & -> & Hc). mred.
  assert (cstr m1 src s2) as H2'.
  { split; [done| |unfold below; lia]. eapply copied_keeps; [exact Hc|done|]. rewrite length_app. simpl. lia. }
  rewrite (strlen_ok s2) by done. mred. fold n2. rewrite u64_small by (unfold fits_u64; lia).
  eexists. split; [done|]. split.
  - split; [by apply Forall_app| |unfold below; rewrite length_app; lia]. rewrite <-app_assoc, !holds_app in *.
    destruct M1 as [M1 _], M2 as [M2 _]. fold n1. split; [|split].
    + intros i c Hi. apply lookup_lt_Some in Hi as Hlt. rewrite store8_frame by lia.
      apply (copied_keeps _ _ _ _ _ _ _ Hc M1 ltac:(lia) i c Hi).
    + intros i c Hi. apply lookup_lt_Some in Hi as Hlt. rewrite store8_frame by lia.
      apply (copied_holds _ _ _ _ _ _ Hc M2 ltac:(lia) i c Hi).
    + intros i c Hi. apply list_lookup_singleton_Some in Hi as [-> <-]. unfold store8. fold n2.
      rewrite Z.add_0_r, Z.eqb_refl. done.
  - intros x Hx. unfold within in Hx. rewrite store8_frame by lia. destruct Hc as [_ ->]. zcases; done.
Qed.

(** "ab" at 100 and "c" at 200. *)
Definition sample_mem : bytes :=
  fun a => if a =? 100 then 97 else if a =? 101 then 98 else if a =? 200 then 99 else 0.

Lemma sample_mem_byte : byte_mem sample_mem.
Proof. intros a. unfold sample_mem. zcases; lia. Qed.

Lemma sample_strings : cstr sample_mem 100 [97; 98] /\ cstr sample_mem 200 [99].
Proof.
  split; (split; [repeat constructor; lia| |unfold below; simpl; lia]); repeat (apply holds_cons; split; [reflexivity|]);
    intros i c Hi; done.
Qed.

Lemma kstrcat_correct_witness : exists m', kstrcat 10 100 200 sample_mem = Ok m' /\ cstr m' 100 [97; 98; 99].
Proof.
  destruct sample_strings as [H1 H2].
  destruct (kstrcat_correct 10 sample_mem 100 200 [97; 98] [99] sample_mem_byte H1 H2) as (m' & E & H & _);
    [lia|lia|simpl; lia|simpl; lia|unfold below; simpl; lia|simpl; lia|].
  exists m'. split; [exact E|exact H].
Defined.

(** C34: the copy by eight-byte words is the byte-wise [memcpy]: for source and
    destination that do not overlap, every byte of memory ends up the same. *)
Theorem memcpy8_equivalent d s n m x :
  byte_mem m -> 0 <= n -> below d n -> below s n -> apart d s n -> fits_u64 x ->
  memcpy8 d s n m x = memcpy m d s n x.
Proof.
  intros Hm Hn Hd Hs Ha Hx. destruct (memcpy8_copied d s n m Hm Hn Hd Hs Ha) as [_ ->].
  unfold below, apart, fits_u64 in *. unfold memcpy.
  destruct (Z.leb_spec d x), (Z.ltb_spec x (d + n)); simpl.
  - rewrite (u64_small (x - d)) by (unfold fits_u64; lia). destruct (Z.ltb_spec (x - d) n); [|lia].
    by rewrite u64_small by (unfold fits_u64; lia).
  - rewrite (u64_small (x - d)) by (unfold fits_u64; lia). destruct (Z.ltb_spec (x - d) n); [lia|done].
  - unfold u64. destruct (Z.ltb_spec ((x - d) mod 18446744073709551616) n); [zdiv|done].
  - unfold u64. destruct (Z.ltb_spec ((x - d) mod 18446744073709551616) n); [zdiv|done].
Qed.

Lemma memcpy8_equivalent_witness : memcpy8 300 100 13 sample_mem 301 = 98.
Proof.
  rewrite (memcpy8_equivalent 300 100 13 sample_mem 301 sample_mem_byte); [reflexivity|unfold below, apart, fits_u64; lia..].
Defined.

(** ** Comparing *)

(** The difference at the first place where two strings differ. *)
Fixpoint compare (s1 s2 : list Z) : Z :=
  match s1, s2 with
  | c1 :: s1, c2 :: s2 => if c1 =? c2 then compare s1 s2 else c1 - c2
  | c1 :: _, [] => c1
  | [], c2 :: _ => - c2
  | [], [] => 0
  end.

Lemma strcmp_compare s1 : forall s2 fuel m p1 p2,
  cstr m p1 s1 -> cstr m p2 s2 -> (length s1 <= fuel)%nat -> strcmp fuel m p1 p2 = Ok (compare s1 s2).
Proof.
  induction s1 as [|c1 s1 IH]; intros s2 fuel m p1 p2 H1 H2 Hf.
  - apply cstr_nil in H1. destruct s2 as [|c2 s2].
    + apply cstr_nil in H2. destruct fuel; simpl; by rewrite H1, H2.
    + apply cstr_cons in H2 as (H2 & _). destruct fuel; simpl; by rewrite H1, H2.
  - apply cstr_cons in H1 as (E1 & R1 & H1 & U1). destruct fuel as [|fuel]; simpl in Hf; [lia|]. simpl.
    rewrite E1. destruct (Z.eqb_spec c1 0); [lia|]. simpl. destruct s2 as [|c2 s2].
    + apply cstr_nil in H2. rewrite H2. destruct (Z.eqb_spec c1 0); [lia|]. by rewrite Z.sub_0_r.
    + apply cstr_cons in H2 as (E2 & R2 & H2 & U2). rewrite E2. destruct (Z.eqb_spec c1 c2); [|done].
      rewrite U1, U2. apply IH; done || lia.
Qed.
Lemma compare_zero s1 : forall s2, no_zero s1 -> no_zero s2 -> compare s1 s2 = 0 <-> s1 = s2.
Proof.
  induction s1 as [|c1 s1 IH]; intros [|c2 s2] N1 N2; simpl; try done.
  - apply Forall_cons in N2 as [? _]. split; [lia|done].
  - apply Forall_cons in N1 as [? _]. split; [lia|done].
  - apply Forall_cons in N1 as [? ?], N2 as [? ?]. destruct (Z.eqb_spec c1 c2) as [->|].
    + rewrite IH by done. naive_solver.
    + split; [lia|naive_solver].
Qed.

(** ** Digits *)

(** The digit a character stands for, and the number a string of them writes. *)
Definition digit_of (c : Z) : Z := if c <=? 57 then c - 48 else c - 55.
Definition parse (r : Z) (s : list Z) : Z := fold_left (fun acc c => acc * r + digit_of c) s 0.
Definition char_of (d : Z) : Z := if d <? 10 then d + 48 else d + 55.
(** Least significant first. *)
Definition value (r : Z) (l : list Z) : Z := foldr (fun d acc => d + r * acc) 0 l.

Lemma base_char d : 0 <= d < 36 -> arr_get base d = Ok (char_of d).
Proof.
  intros Hd. assert (forallb (fun n => match base !! n with Some c => c =? char_of (Z.of_nat n) | None => false end)
    (seq 0 36) = true) as H by reflexivity.
  rewrite forallb_forall in H. specialize (H (Z.to_nat d)). rewrite <-list_elem_of_In, elem_of_seq in H.
  apply arr_get_Ok_iff. split; [lia|]. specialize (H ltac:(lia)). rewrite Z2Nat.id in H by lia.
  destruct (base !! Z.to_nat d) as [c|]; [|done]. apply Z.eqb_eq in H. by rewrite H.
Qed.

Lemma digit_char d : 0 <= d < 36 -> digit_of (char_of d) = d /\ 0 < char_of d < 256.
Proof. intros. unfold digit_of, char_of. zcases; lia. Qed.

Lemma parse_value r l : Forall (fun d => 0 <= d < 36) l -> parse r (rev (map char_of l)) = value r l.
Proof.
  induction l as [|d l IH]; intros Hl; [done|]. apply Forall_cons in Hl as [Hd Hl]. simpl.
  unfold parse in *. rewrite fold_left_app. simpl. rewrite IH, (proj1 (digit_char d Hd)) by done. lia.
Qed.

Lemma take_snoc_insert (l : list Z) k x :
  (k < length l)%nat -> take (S k) (<[k := x]> l) = take k l ++ [x].
Proof. intros. rewrite (take_S_r _ _ x), take_insert_ge by (done || (apply list_lookup_insert_eq; lia)). done. Qed.

Section Digits.
Context (r : Z) (rem quot : Z -> Z).
Hypothesis Hr : 2 <= r <= 36.
Hypothesis Hrem : forall n, 0 <= n -> rem n = n mod r.
Hypothesis Hquot : forall n, 0 <= n -> quot n = n / r.

Lemma digits_loop_ok k : forall fuel n rdi tmp,
  0 <= n < r ^ Z.of_nat k -> (k <= fuel)%nat -> -1 <= rdi -> rdi + 1 + Z.of_nat k <= 33 -> length tmp = 33%nat ->
  exists l tmp', digits_loop rem quot fuel n rdi tmp = Ok (rdi + Z.of_nat (length l), tmp') /\ length tmp' = 33%nat /\
    take (Z.to_nat (rdi + 1) + length l) tmp' = take (Z.to_nat (rdi + 1)) tmp ++ map char_of l /\
    Forall (fun d => 0 <= d < r) l /\ value r l = n /\ (length l <= k)%nat.
Proof.
  induction k as [|k IH]; intros fuel n rdi tmp Hn Hf Hrdi Hroom Hlen.
  - assert (n = 0) as -> by (simpl in Hn; lia). exists [], tmp. destruct fuel; simpl; rewrite Z.add_0_r, Nat.add_0_r, app_nil_r; done.
  - destruct (Z.eq_dec n 0) as [->|Hne].
    { exists [], tmp. destruct fuel; simpl; rewrite Z.add_0_r, Nat.add_0_r, app_nil_r; repeat split; try done; lia. }
    destruct fuel as [|fuel]; [lia|]. cbn [digits_loop]. destruct (Z.eqb_spec n 0); [done|].
    rewrite Hrem, Hquot by lia. pose proof (Z.mod_pos_bound n r ltac:(lia)) as Hm.
    rewrite base_char by lia. mred. rewrite arr_set_ok by lia. mred.
    rewrite Nat2Z.inj_succ, Z.pow_succ_r in Hn by lia.
    destruct (IH fuel (n / r) (rdi + 1) (<[Z.to_nat (rdi + 1) := char_of (n mod r)]> tmp))
      as (l & tmp' & -> & Hl' & Ht & Hd & Hv & Hk);
      [split; [apply Z.div_pos; lia|apply Z.div_lt_upper_bound; lia]|lia|lia|lia|by rewrite length_insert|].
    exists (n mod r :: l), tmp'. split; [do 2 f_equal; simpl length; lia|]. split; [done|]. split.
    + simpl length. replace (Z.to_nat (rdi + 1) + S (length l))%nat with (Z.to_nat (rdi + 1 + 1) + length l)%nat by lia.
      rewrite Ht. replace (Z.to_nat (rdi + 1 + 1)) with (S (Z.to_nat (rdi + 1))) by lia.
      rewrite take_snoc_insert, <-app_assoc by lia. done.
    + split; [by constructor|]. split; [|simpl; lia]. simpl. rewrite Hv. pose proof (Z.div_mod n r ltac:(lia)). lia.
Qed.

Lemma reverse_loop_ok k : forall tmp str si m,
  (k <= length tmp)%nat -> 0 <= str -> 0 <= si -> below str (si + Z.of_nat k) -> Forall (fun c => 0 < c < 256) (take k tmp) ->
  exists m', reverse_loop k tmp str si m = Ok (si + Z.of_nat k, m') /\ holds m' (str + si) (rev (take k tmp)) /\
    forall x, ~ within (str + si) (Z.of_nat k) x -> m' x = m x.
Proof.
  induction k as [|k IH]; intros tmp str si m Hk Hs Hsi Hb Hc; cbn [reverse_loop].
  { exists m. rewrite Z.add_0_r. simpl. split; [done|]. split; [by intros i c Hi|done]. }
  destruct (lookup_lt_is_Some_2 tmp k) as [c Ec]; [lia|].
  rewrite (proj2 (arr_get_Ok_iff tmp (Z.of_nat k) c)) by (split; [lia|by rewrite Nat2Z.id]). mred.
  rewrite (take_S_r _ _ _ Ec) in Hc |- *. apply Forall_app in Hc as [Hc [Hc1 _]%Forall_cons].
  unfold below in Hb. rewrite u64_small by (unfold fits_u64; lia).
  destruct (IH tmp str (si + 1) (store8 m (str + si) c)) as (m' & -> & Hh & Hx); [lia|lia|lia|unfold below; lia|done|].
  exists m'. split; [do 2 f_equal; lia|]. rewrite rev_app_distr. simpl. split.
  - apply holds_cons. rewrite <-Z.add_assoc. split; [|done]. rewrite Hx by (unfold within; lia).
    unfold store8. rewrite Z.eqb_refl. apply u8_small. simpl in Hc1. lia.
  - intros x Hw. unfold within in *. rewrite Hx, store8_frame by lia. done.
Qed.

(** A non-negative number below [r ^ k], with [k] digits at most 33. *)
Lemma digits_to_ok k n str si m :
  0 <= n < r ^ Z.of_nat k -> (0 < k <= 33)%nat -> 0 <= si -> below str (si + Z.of_nat k + 1) ->
  exists m' ds, digits_to rem quot n str si m = Ok m' /\ cstr m' (str + si) ds /\ parse r ds = n /\
    (forall x, ~ within (str + si) (Z.of_nat (length ds) + 1) x -> m' x = m x) /\ (0 < length ds <= k)%nat.
Proof.
  intros Hn Hk Hsi Hb. unfold digits_to, below in *.
  destruct (digits_loop_ok k 64 n (-1) (replicate 33 0)) as (l & tmp & -> & Hlen & Ht & Hd & Hv & Hl); [lia..|done|].
  mred. simpl in Ht.
  assert (exists l', l' <> [] /\ Forall (fun d => 0 <= d < r) l' /\ value r l' = n /\ (length l' <= k)%nat /\ exists tmp',
    (if -1 + Z.of_nat (length l) =? -1 then tmp ← arr_set tmp (-1 + Z.of_nat (length l) + 1) 48;
       Ok (-1 + Z.of_nat (length l) + 1, tmp) else Ok (-1 + Z.of_nat (length l), tmp))
    = Ok (Z.of_nat (length l') - 1, tmp') /\ length tmp' = 33%nat /\ take (length l') tmp' = map char_of l')
    as (l' & Hne & Hd' & Hv' & Hk' & tmp' & -> & Hlen' & Ht').
  { destruct l as [|d l].
    - exists [0]. split; [done|]. split; [constructor; [lia|constructor]|]. split; [simpl in *; lia|]. split; [simpl; lia|].
      simpl. rewrite arr_set_ok by lia. mred. eexists. split; [done|]. rewrite length_insert. split; [done|].
      destruct tmp; done.
    - exists (d :: l). split; [done|]. split; [done|]. split; [done|]. split; [done|].
      destruct (Z.eqb_spec (-1 + Z.of_nat (length (d :: l))) (-1)); [simpl in *; lia|]. eexists.
      split; [do 2 f_equal; lia|]. done. }
  mred. replace (Z.to_nat (Z.of_nat (length l') - 1 + 1)) with (length l') by lia.
  assert (Forall (fun d => 0 <= d < 36) l') as Hd36 by (eapply Forall_impl; [exact Hd'|]; simpl; lia).
  assert (Forall (fun c => 0 < c < 256) (map char_of l')) as Hcs.
  { apply Forall_fmap. eapply Forall_impl; [exact Hd36|]. intros d Hdd. by apply digit_char. }
  destruct (reverse_loop_ok (length l') tmp' str si m) as (m1 & -> & Hh & Hx);
    [lia|lia|lia|unfold below; lia|by rewrite Ht'|]. mred. rewrite Ht' in Hh.
  rewrite u64_small by (unfold fits_u64; lia).
  assert (length (rev (map char_of l')) = length l') as Hrl by (by rewrite length_rev, length_map).
  eexists _, (rev (map char_of l')). split; [done|]. rewrite Hrl. split; [|split; [|split]].
  - split; [by apply Forall_rev|apply holds_app; split|unfold below; rewrite Hrl; lia].
    + intros i c Hi. apply lookup_lt_Some in Hi as Hlt. rewrite Hrl in Hlt. rewrite store8_frame by lia. by apply Hh.
    + intros i c Hi. apply list_lookup_singleton_Some in Hi as [-> <-]. unfold store8. rewrite Hrl, Z.add_0_r.
      by rewrite <-Z.add_assoc, Z.eqb_refl.
  - by rewrite parse_value.
  - intros x Hw. unfold within in *. rewrite store8_frame, Hx by (unfold within; lia). done.
  - destruct l'; [done|simpl in *; lia].
Qed.
End Digits.

(** A negative dividend reaches a negative remainder, which is no index. *)
Lemma negative_digits r k : forall fuel n rdi tmp,
  2 <= r -> - r ^ Z.of_nat k < n < 0 -> (k <= fuel)%nat -> -1 <= rdi -> rdi + 1 + Z.of_nat k <= 33 ->
  length tmp = 33%nat -> digits_loop (fun n => Z.rem n r) (fun n => Z.quot n r) fuel n rdi tmp = Fault.
Proof.
  induction k as [|k IH]; intros fuel n rdi tmp Hr Hn Hf Hrdi Hroom Hlen; [simpl in Hn; lia|].
  destruct fuel as [|fuel]; [lia|]. cbn [digits_loop]. destruct (Z.eqb_spec n 0); [lia|].
  pose proof (Z.quot_rem' n r) as Hq. pose proof (Z.rem_bound_pos_neg n r ltac:(lia) ltac:(lia)) as Hm.
  destruct (Z.eq_dec (Z.rem n r) 0) as [E|].
  - rewrite E. change (arr_get base 0) with (Ok 48). mred. rewrite arr_set_ok by lia. mred.
    rewrite Nat2Z.inj_succ, Z.pow_succ_r in Hn by lia.
    apply IH; [done|nia|lia|lia|lia|by rewrite length_insert].
  - unfold arr_get at 1. destruct (Z.ltb_spec (Z.rem n r) 0); [done|lia].
Qed.

Lemma s32_small z : -2147483648 <= z < 2147483648 -> s32 z = z.
Proof. intros. unfold s32, u32. zcases; zdiv. Qed.

Lemma below_2_32 r n : 2 <= r -> 0 <= n <= 2147483648 -> n < r ^ Z.of_nat 32.
Proof.
  intros Hr Hn. apply Z.le_lt_trans with 2147483648; [lia|]. apply Z.lt_le_trans with (2 ^ Z.of_nat 32); [done|].
  apply Z.pow_le_mono_l. lia.
Qed.

Lemma signed_digits r n : 2 <= r -> 0 <= n -> Z.rem n r = n mod r /\ Z.quot n r = n / r.
Proof. intros. rewrite Z.rem_mod_nonneg, Z.quot_div_nonneg by lia. done. Qed.



(** [litoa] in radix 2: more than 33 digits do not fit in its buffer. *)
Example litoa_overflows : litoa 18446744073709551615 1000 2 sample_mem = Fault.
Proof. vm_compute. reflexivity. Qed.
