(* ===== verification/Except.v ===== *)
(** * Exceptions (src/kernel/intr/except.c, src/include/kernel/except.h)

    What the C side of the exception handlers does: demand paging of the user
    stack, and the reports that end in [abort].  Calls of [printf] are recorded
    as format string and arguments; the report functions return what they
    printed before the machine stops. *)

From Stdlib Require Import String.
From S2P Require Import Prelude Sync Bitmap Pmm Paging.

Open Scope string_scope.
Open Scope Z_scope.

Inductive arg := AInt (z : Z) | AStr (s : option string).
Definition line : Type := string * list arg.
Definition print0 (s : string) : line := (s, []).
Definition print1 (s : string) (z : Z) : line := (s, [AInt z]).

Definition PF_PRESENT : Z := 1.
Definition PF_WRITE : Z := 2.
Definition PF_USER : Z := 4.
Definition PF_RESERVED : Z := 8.
Definition PF_FETCH : Z := 16.

Record fault_frame_t := mk_frame {
  r15 : Z; r14 : Z; r13 : Z; r12 : Z; r11 : Z; r10 : Z; r9 : Z; r8 : Z;
  rbp : Z; rdi : Z; rsi : Z; rdx : Z; rcx : Z; rbx : Z; rax : Z;
  error_code : Z; rip : Z; cs : Z; f_rflags : Z; rsp : Z; ss : Z
}.

Record registers_t := mk_regs {
  g_rdi : Z; g_rsi : Z; g_rbp : Z; g_rbx : Z; g_rdx : Z; g_rcx : Z; g_rax : Z;
  int_num : Z; errCode : Z;
  g_rip : Z; g_cs : Z; g_eflags : Z; g_rsp : Z; g_ss : Z
}.

(** Entry 15 is left out of the table, so it is a null pointer. *)
Definition s_exceptionDesc : list (option string) :=
  [Some "Divide Error"; Some "Debug"; Some "Nonmaskable Interrupt"; Some "Breakpoint";
   Some "Overflow"; Some "Bound Range Exceeded"; Some "Invalid Opcode";
   Some "Device Not Available"; Some "Double Fault"; Some "Coprocessor Segment Overrun";
   Some "Invalid TSS"; Some "Segment Not Present"; Some "Stack-Segment Fault";
   Some "General Protection"; Some "Page Fault"; None; Some "Floating Point Error";
   Some "Alignment Check"; Some "Machine Check"; Some "SIMD Exception"].

(** What is printed before [abort]. *)
Definition exception_dump (regs : registers_t) : outcome (list line) :=
  desc ← (if int_num regs <? 20 then arr_get s_exceptionDesc (int_num regs)
          else Ok (Some "Unknown"));
  Ok [("Exception: %s\n", [AStr desc]);
      print1 "  rax=%016lx\n" (g_rax regs); print1 "  rbx=%016lx\n" (g_rbx regs);
      print1 "  rcx=%016lx\n" (g_rcx regs); print1 "  rdx=%016lx\n" (g_rdx regs);
      print1 "  rsi=%016lx\n" (g_rsi regs); print1 "  rdi=%016lx\n" (g_rdi regs);
      print1 "  rip=%016lx\n" (g_rip regs); print1 "  rsp=%016lx\n" (g_rsp regs);
      print1 "  cs= %02x\n" (g_cs regs); print1 "  ss= %02x\n" (g_ss regs)].

Definition pf_bit (f : fault_frame_t) (m : Z) : bool := negb (Z.land (error_code f) m =? 0).

Definition unhandled_page_fault (f : fault_frame_t) (cr2 : Z) : list line :=
  [print0 "\n=== PAGE FAULT ===\n";
   print1 "Faulting address (CR2):\t0x%lx\n" cr2;
   print1 "Error code:            \t0x%lx\n" (error_code f);
   ("Cause: %s %s in %s mode%s%s\n",
     [AStr (Some (if pf_bit f PF_PRESENT then "protection violation" else "not present"));
      AStr (Some (if pf_bit f PF_WRITE then "on write" else "on read"));
      AStr (Some (if pf_bit f PF_USER then "user" else "kernel"));
      AStr (Some (if pf_bit f PF_RESERVED then " [reserved bit set]" else ""));
      AStr (Some (if pf_bit f PF_FETCH then " [instruction fetch]" else ""))]);
   print0 "\nRegisters:\n";
   ("  rip\t%016lx\tcs\t%04lx\trflags\t%016lx\n", [AInt (rip f); AInt (cs f); AInt (f_rflags f)]);
   ("  rsp\t%016lx\tss\t%04lx\n", [AInt (rsp f); AInt (ss f)]);
   ("  rax\t%016lx\trbx\t%016lx\trcx\t%016lx\n", [AInt (rax f); AInt (rbx f); AInt (rcx f)]);
   ("  rdx\t%016lx\trsi\t%016lx\trdi\t%016lx\n", [AInt (rdx f); AInt (rsi f); AInt (rdi f)]);
   ("  rbp\t%016lx\tr8\t%016lx\tr9\t%016lx\n", [AInt (rbp f); AInt (r8 f); AInt (r9 f)]);
   ("  r10\t%016lx\tr11\t%016lx\tr12\t%016lx\n", [AInt (r10 f); AInt (r11 f); AInt (r12 f)]);
   ("  r13\t%016lx\tr14\t%016lx\tr15\t%016lx\n", [AInt (r13 f); AInt (r14 f); AInt (r15 f)]);
   print0 "\nSystem halted.\n"].

(** The result of a page fault: handled, with the new state, or a report. *)
Inductive fault_result := Handled (s : vm) | Report (l : list line) (s : vm).

(** [cr3] is that of the current thread's process. *)
Definition page_fault_handler_c (f : fault_frame_t) (cr2 cr3 : Z) (s : vm) : outcome fault_result :=
  let is_user := pf_bit f PF_USER in
  let is_present := pf_bit f PF_PRESENT in
  let stack_limit := USR_STACK_BASE - 16 * PAGE_SIZE in
  if is_user && negb is_present && (cr2 <? USR_STACK_BASE) && (cr2 >=? stack_limit) then
    let fault_page_virt := Z.land cr2 (u64 (Z.lnot (PAGE_SIZE - 1))) in
    '(new_page_phys, p) ← pmm_alloc (vm_pmm s);
    let s := with_pmm s p in
    if negb (new_page_phys =? 0) then
      let pml4_virt := PHYS_TO_VIRT (hhdm_offset s) cr3 in
      s ← map_page pml4_virt fault_page_virt new_page_phys
            (Z.lor (Z.lor PTE_PRESENT PTE_WRITABLE) PTE_USER) s;
      Ok (Handled s)
    else Ok (Report (unhandled_page_fault f cr2) s)
  else Ok (Report (unhandled_page_fault f cr2) s).

(** The fields of [gf_error_code_t]: declared in a union, each of them starts at
    bit 0. *)
Definition gf_external (err : Z) : Z := bf_get (u32 err) 0 1.
Definition gf_tbl (err : Z) : Z := bf_get (u32 err) 0 2.
Definition gf_index (err : Z) : Z := bf_get (u32 err) 0 13.

Definition gpf_execption_handler_c (rip_ err : Z) : list line :=
  [("\n==== General Fault Protection ====\n\n", [AInt rip_; AInt err]);
   print0 "RIP: 0x%016lx\nERR:0x%lx\n";
   print0 "Error from: "]
  ++ (if gf_external err =? 1 then [print0 "External\n"] else [])
  ++ (if gf_tbl err =? 0 then [print0 "GDT\n"]
      else if (gf_tbl err =? 1) || (gf_tbl err =? 3) then [print0 "IDT\n"]
      else if gf_tbl err =? 2 then [print0 "LDT\n"] else [])
  ++ [print1 "index: 0x%lx\n" (gf_index err); print0 "abort !\n"].

(** ** The error code the processor pushes (selector format) *)

Definition hw_external (err : Z) : Z := bf_get err 0 1.
Definition hw_tbl (err : Z) : Z := bf_get err 1 2.
Definition hw_index (err : Z) : Z := bf_get err 3 13.

(** ** Theorems *)

Lemma page_of_address v : fits_u64 v -> same_page (Z.land v (u64 (Z.lnot (PAGE_SIZE - 1)))) v = true.
Proof.
  intros Hv. change (PAGE_SIZE - 1) with (Z.ones 12).
  rewrite (land_align_down v 12) by (done || lia). unfold same_page.
  rewrite !bf_get_div by lia. apply Z.eqb_eq. f_equal. by rewrite Z.div_mul by lia.
Qed.

(** C33: a user access to a page of the stack's sixteen that is not there yet
    gets a fresh page: the handler returns, the faulting page translates to a
    page that was free, usable by user code as far as the tables above it allow,
    and no other page changes.  Every other fault is reported and changes
    nothing. *)
Theorem page_fault_grows_stack f cr2 cr3 s F :
  let root := PHYS_TO_VIRT (hhdm_offset s) cr3 in
  tree_ok s root -> pmm_ok (vm_pmm s) -> free_pages (vm_pmm s) F -> (4 <= size F)%nat ->
  fits_u64 cr2 ->
  if pf_bit f PF_USER && negb (pf_bit f PF_PRESENT)
     && bool_decide (USR_STACK_BASE - 16 * PAGE_SIZE <= cr2 < USR_STACK_BASE)
  then exists s' g, page_fault_handler_c f cr2 cr3 s = Ok (Handled s') /\ g ∈ F /\
    tree_ok s' root /\ pmm_ok (vm_pmm s') /\
    (forall v, same_page cr2 v = true ->
       walk s' root v = Some (g * PAGE_SIZE + va_offset v,
                              upper_us (mem s) (hhdm_offset s) root (upper_path cr2))) /\
    (forall v, same_page cr2 v = false -> walk s' root v = walk s root v)
  else page_fault_handler_c f cr2 cr3 s = Ok (Report (unhandled_page_fault f cr2) s).
Proof.
  intros root Htree Hok HF Hsz Hcr. unfold page_fault_handler_c.
  assert (pf_bit f PF_USER && negb (pf_bit f PF_PRESENT) && (cr2 <? USR_STACK_BASE)
            && (cr2 >=? USR_STACK_BASE - 16 * PAGE_SIZE)
          = pf_bit f PF_USER && negb (pf_bit f PF_PRESENT)
            && bool_decide (USR_STACK_BASE - 16 * PAGE_SIZE <= cr2 < USR_STACK_BASE)) as ->.
  { rewrite <-!andb_assoc. do 2 f_equal. apply eq_true_iff_eq.
    rewrite andb_true_iff, bool_decide_eq_true, Z.geb_leb, Z.ltb_lt, Z.leb_le. lia. }
  destruct (_ && _ && _); [|done].
  destruct (alloc_fresh (vm_pmm s) F Hok HF) as [[-> _]|Hsome]; [rewrite size_empty in Hsz; lia|].
  destruct Hsome as (g & p' & -> & Hg & HF' & Hsame & Hok' & Hg1 & Hgf & _ & _ & Hmono). mred.
  destruct (Z.eqb_spec (g * PAGE_SIZE) 0); [unfold PAGE_SIZE in *; lia|]. cbn [negb].
  pose proof (size_take F g Hg) as HszF. fold root.
  assert (tree_ok (with_pmm s p') root) as Htree' by (by eapply tree_agree_tree).
  set (page := Z.land cr2 _).
  pose proof (map_page_ok (with_pmm s p') root page (g * PAGE_SIZE)
    (Z.lor (Z.lor PTE_PRESENT PTE_WRITABLE) PTE_USER) _ Htree' Hok' HF') as Hmap.
  cbn [with_pmm hhdm_offset] in Hmap |- *.
  destruct (map_page _ _ _ _ _) as [s'| | |]; mred; [|lia|done|done].
  destruct Hmap as [[M1 M2 M3 M4 M5 M6 _ M7 M8] _].
  pose proof (page_of_address cr2 Hcr) as Hpage. fold page in Hpage. unfold same_page in *.
  apply Z.eqb_eq in Hpage. rewrite Hpage in M7, M8.
  exists s', g. split_and!; try done. intros v Hv. rewrite (M7 v Hv).
  rewrite Z.div_mul, (Z.mod_small g) by (done || unfold PAGE_SIZE; lia).
  assert (upper_path page = upper_path cr2) as ->.
  { apply same_page_indices. unfold same_page. by apply Z.eqb_eq. }
  done.
Qed.

Definition user_fault : fault_frame_t := mk_frame 0 0 0 0 0 0 0 0 0 0 0 0 0 0 0 6 0 0 0 0 0.

Lemma page_fault_grows_stack_witness :
  exists s', page_fault_handler_c user_fault 140737488347136 4096 sample_vm = Ok (Handled s') /\
    walk s' (kernel_pml4 sample_vm) 140737488347150 = Some (8206, true).
Proof.
  assert (fits_u64 140737488347136) as Hf by (unfold fits_u64; lia).
  destruct (page_fault_grows_stack user_fault 140737488347136 4096 sample_vm (list_to_set (seqZ 2 14))
    sample_vm_tree sample_vm_pmm sample_vm_free ltac:(vm_compute; lia) Hf) as (s' & g & Hs & _ & _ & _ & Hw & _).
  exists s'. split; [exact Hs|].
  assert (match page_fault_handler_c user_fault 140737488347136 4096 sample_vm with
          | Ok (Handled s') => walk s' (kernel_pml4 sample_vm) 140737488347150 = Some (8206, true)
          | _ => False end) as H by (vm_compute; reflexivity).
  rewrite Hs in H. exact H.
Defined.

(** A general protection fault through the interrupt table is reported as one
    through the local descriptor table, since the fields of the error code
    overlay each other. *)
Theorem gpf_reports_idt_as_ldt rip_ err :
  0 <= err < 2 ^ 16 -> hw_tbl err = 1 -> hw_external err = 0 ->
  print0 "LDT\n" ∈ gpf_execption_handler_c rip_ err /\ print0 "IDT\n" ∉ gpf_execption_handler_c rip_ err.
Proof.
  intros Herr Ht He. unfold gpf_execption_handler_c.
  assert (gf_external err = 0 /\ gf_tbl err = 2) as [-> ->].
  { revert Ht He. unfold hw_tbl, hw_external, gf_external, gf_tbl, u32. rewrite !bf_get_div by lia.
    rewrite (Z.mod_small err) by lia. zdiv. }
  cbn -[print0 print1]. split.
  - do 3 apply elem_of_cons, or_intror. by left.
  - rewrite !elem_of_cons, elem_of_nil. unfold print0, print1. intuition congruence.
Qed.
