(* ===== verification/Acpi.v ===== *)
(** * ACPI tables (src/kernel/acpi.c, src/include/kernel/acpi.h)

    The tables are bytes of kernel memory ([amem], by virtual address), read at
    the offsets the packed structures give.  Finding the processors, the
    interrupt controllers and the interrupt overrides, and rebooting. *)

From S2P Require Import Prelude Sync Bitmap Pmm Paging Bytes Heap Device Desc Boot.

Definition APIC_TYPE_LOCAL_APIC : Z := 0.
Definition APIC_TYPE_IO_APIC : Z := 1.
Definition APIC_TYPE_INTERRUPT_OVERRIDE : Z := 2.
Definition MAX_CPU_COUNT : Z := 16.

(** ** Structure offsets *)

(** [acpi_rsdp_t]. *)
Definition rsdp_checksum (m : bytes) (p : Z) : Z := m (u64 (p + 8)).
Definition rsdp_revision (m : bytes) (p : Z) : Z := m (u64 (p + 15)).
Definition rsdt_address (m : bytes) (p : Z) : Z := load32 m (u64 (p + 16)).
Definition xsdt_address (m : bytes) (p : Z) : Z := load64 m (u64 (p + 24)).
(** [acpi_header_t] and [acpi_sdt_header_t]: 36 bytes. *)
Definition sizeof_sdt_header : Z := 36.
Definition sdt_length (m : bytes) (p : Z) : Z := load32 m (u64 (p + 4)).
(** [acpi_madt_t]; its entries start at 44. *)
Definition madt_lapic_address (m : bytes) (p : Z) : Z := load32 m (u64 (p + 36)).
Definition madt_entries_offset : Z := 44.
(** [apic_header_t], [madt_lapic_t], [madt_iopic_t], [madt_iso_t]. *)
Definition apic_type (m : bytes) (p : Z) : Z := m p.
Definition apic_length (m : bytes) (p : Z) : Z := m (u64 (p + 1)).
Definition lapic_apic_id (m : bytes) (p : Z) : Z := m (u64 (p + 3)).
Definition lapic_flags (m : bytes) (p : Z) : Z := load32 m (u64 (p + 4)).
Definition ioapic_address (m : bytes) (p : Z) : Z := load32 m (u64 (p + 4)).
Definition iso_source (m : bytes) (p : Z) : Z := m (u64 (p + 3)).
Definition iso_interrupt (m : bytes) (p : Z) : Z := load32 m (u64 (p + 4)).
(** [acpi_fadt]: [reset_reg] is at 116, and as [acpi_generic_address_t] is not
    packed its 64-bit address is 8 bytes further and it is 16 bytes long. *)
Definition fadt_smi_command_port (m : bytes) (p : Z) : Z := load32 m (u64 (p + 48)).
Definition reset_address_space (m : bytes) (p : Z) : Z := m (u64 (p + 116)).
Definition reset_address (m : bytes) (p : Z) : Z := load64 m (u64 (p + 124)).
Definition reset_value (m : bytes) (p : Z) : Z := m (u64 (p + 132)).

(** ** State *)

Record acpi := mk_acpi {
  a_vm : vm;
  amem : bytes;
  g_acpi_cpu_count : Z;
  g_acpi_cpu_ids : list Z;
  s_madt : Z;
  s_rsdp : Z;
  s_rsdt : Z;
  fadt : Z;
  g_local_apic_address : Z;
  g_io_apic_addr : Z
}.

Definition with_cpus (a : acpi) (n : Z) (ids : list Z) : acpi :=
  mk_acpi (a_vm a) (amem a) n ids (s_madt a) (s_rsdp a) (s_rsdt a) (fadt a) (g_local_apic_address a)
    (g_io_apic_addr a).
Definition with_madt (a : acpi) (p : Z) : acpi :=
  mk_acpi (a_vm a) (amem a) (g_acpi_cpu_count a) (g_acpi_cpu_ids a) p (s_rsdp a) (s_rsdt a) (fadt a)
    (g_local_apic_address a) (g_io_apic_addr a).
Definition with_rsdp (a : acpi) (p : Z) : acpi :=
  mk_acpi (a_vm a) (amem a) (g_acpi_cpu_count a) (g_acpi_cpu_ids a) (s_madt a) p (s_rsdt a) (fadt a)
    (g_local_apic_address a) (g_io_apic_addr a).
Definition with_rsdt (a : acpi) (p : Z) : acpi :=
  mk_acpi (a_vm a) (amem a) (g_acpi_cpu_count a) (g_acpi_cpu_ids a) (s_madt a) (s_rsdp a) p (fadt a)
    (g_local_apic_address a) (g_io_apic_addr a).
Definition with_fadt (a : acpi) (p : Z) : acpi :=
  mk_acpi (a_vm a) (amem a) (g_acpi_cpu_count a) (g_acpi_cpu_ids a) (s_madt a) (s_rsdp a) (s_rsdt a) p
    (g_local_apic_address a) (g_io_apic_addr a).
Definition with_lapic (a : acpi) (s : vm) (p : Z) : acpi :=
  mk_acpi s (amem a) (g_acpi_cpu_count a) (g_acpi_cpu_ids a) (s_madt a) (s_rsdp a) (s_rsdt a) (fadt a)
    p (g_io_apic_addr a).
Definition with_ioapic (a : acpi) (s : vm) (p : Z) : acpi :=
  mk_acpi s (amem a) (g_acpi_cpu_count a) (g_acpi_cpu_ids a) (s_madt a) (s_rsdp a) (s_rsdt a) (fadt a)
    (g_local_apic_address a) p.

Definition hhdm (a : acpi) : Z := hhdm_offset (a_vm a).

(** ** Parsing *)

Definition register_cpu_core (apic_id : Z) (a : acpi) : outcome acpi :=
  ids ← arr_set (g_acpi_cpu_ids a) (g_acpi_cpu_count a) apic_id;
  Ok (with_cpus a (u32 (g_acpi_cpu_count a + 1)) ids).

Definition device_flags : Z := Z.lor (Z.lor PTE_PRESENT PTE_WRITABLE) PTE_PCD.

(** One entry of the MADT. *)
Definition parse_madt_entry (p : Z) (a : acpi) : outcome acpi :=
  let m := amem a in
  if apic_type m p =? APIC_TYPE_LOCAL_APIC then
    if negb (Z.land (lapic_flags m p) 1 =? 0) || negb (Z.land (lapic_flags m p) 2 =? 0)
    then register_cpu_core (lapic_apic_id m p) a
    else Ok a
  else if apic_type m p =? APIC_TYPE_IO_APIC then
    let ioapic_phys := ioapic_address m p in
    s ← map_page (kernel_pml4 (a_vm a)) (PHYS_TO_VIRT (hhdm a) ioapic_phys) ioapic_phys device_flags (a_vm a);
    Ok (with_ioapic a s (PHYS_TO_VIRT (hhdm a) ioapic_phys))
  else Ok a.

(** [while (current_entry < end)]. *)
Fixpoint parse_madt_loop (fuel : nat) (p last : Z) (a : acpi) : outcome acpi :=
  if p <? last then
    match fuel with
    | O => Hang
    | S fuel =>
        if apic_length (amem a) p =? 0 then Ok a
        else
          a' ← parse_madt_entry p a;
          parse_madt_loop fuel (u64 (p + apic_length (amem a) p)) last a'
    end
  else Ok a.

Definition acpi_parse_apic (madt : Z) (a : acpi) : outcome acpi :=
  let a := with_madt a madt in
  let local_apic_phys := madt_lapic_address (amem a) madt in
  s ← map_page (kernel_pml4 (a_vm a)) (PHYS_TO_VIRT (hhdm a) local_apic_phys) local_apic_phys device_flags (a_vm a);
  let a := with_lapic a s (PHYS_TO_VIRT (hhdm a) local_apic_phys) in
  let madt_len := sdt_length (amem a) madt in
  let a := with_lapic a (a_vm a) (u64 (madt_lapic_address (amem a) madt + hhdm a)) in
  parse_madt_loop (S (Z.to_nat madt_len)) (u64 (madt + madt_entries_offset)) (u64 (madt + madt_len)) a.

(** [acpi_parse_facp] tests a field and does nothing. *)
Definition acpi_parse_facp (facp : Z) (a : acpi) : acpi := a.

Definition sig4 (m : bytes) (p : Z) : list Z := [m p; m (u64 (p + 1)); m (u64 (p + 2)); m (u64 (p + 3))].
Definition FACP : list Z := [70; 65; 67; 80].
Definition MADT : list Z := [77; 65; 68; 84].
Definition APIC : list Z := [65; 80; 73; 67].

(** The first four bytes decide; [strcpy] writes past the five bytes of [sig] when
    none of the five bytes from the signature on is zero. *)
Definition acpi_parse_dt (header : Z) (a : acpi) : outcome acpi :=
  let sig := sig4 (amem a) header in
  if decide (sig = FACP) then Ok (with_fadt (acpi_parse_facp header a) header)
  else if decide (sig = MADT \/ sig = APIC) then acpi_parse_apic header a
  else Ok a.

Fixpoint parse_rsdt_loop (n : nat) (rsdt i : Z) (a : acpi) : outcome acpi :=
  match n with
  | O => Ok a
  | S n =>
      let e := load32 (amem a) (u64 (rsdt + sizeof_sdt_header + 4 * i)) in
      a ← acpi_parse_dt (u64 (e + hhdm a)) a;
      parse_rsdt_loop n rsdt (i + 1) a
  end.
Definition acpi_parse_rsdt (rsdt : Z) (a : acpi) : outcome acpi :=
  let a := with_rsdt a rsdt in
  let nb_entries := u32 (u64 (sdt_length (amem a) rsdt - sizeof_sdt_header) / 4) in
  parse_rsdt_loop (Z.to_nat nb_entries) rsdt 0 a.

(** The offset is added to a pointer to 36-byte structures. *)
Fixpoint parse_xsdt_loop (fuel : nat) (p last : Z) (a : acpi) : outcome acpi :=
  if p <? last then
    match fuel with
    | O => Hang
    | S fuel =>
        let address := load64 (amem a) p in
        a ← acpi_parse_dt (u64 (address + sizeof_sdt_header * hhdm a)) a;
        parse_xsdt_loop fuel (u64 (p + 8)) last a
    end
  else Ok a.
Definition acpi_parse_xsdt (xsdt : Z) (a : acpi) : outcome acpi :=
  let len := sdt_length (amem a) xsdt in
  parse_xsdt_loop (S (Z.to_nat len)) (u64 (xsdt + sizeof_sdt_header)) (u64 (xsdt + len)) a.

Definition acpi_parse_rsdp (a : acpi) : outcome (bool * acpi) :=
  let m := amem a in
  let p := s_rsdp a in
  if rsdp_checksum m p =? 0 then Ok (false, a)
  else if rsdp_revision m p =? 0 then
    a ← acpi_parse_rsdt (u64 (rsdt_address m p + hhdm a)) a; Ok (true, a)
  else if rsdp_revision m p =? 2 then
    if negb (xsdt_address m p =? 0) then
      a ← acpi_parse_xsdt (xsdt_address m p) a; Ok (true, a)
    else
      a ← acpi_parse_rsdt (rsdt_address m p) a; Ok (true, a)
  else Ok (true, a).

(** [rsdp] is the address in the boot loader's response. *)
Definition acpi_init (rsdp : Z) (a : acpi) : outcome acpi :=
  let a := with_rsdp a rsdp in
  if load64 (amem a) rsdp =? 2329016660419433298 then
    '(_, a) ← acpi_parse_rsdp a; Ok a
  else Ok a.

(** ** Interrupt overrides *)

Fixpoint remap_loop (fuel : nat) (m : bytes) (irq p last : Z) : outcome Z :=
  if p <? last then
    match fuel with
    | O => Hang
    | S fuel =>
        if (apic_type m p =? APIC_TYPE_INTERRUPT_OVERRIDE) && (iso_source m p =? irq)
        then Ok (iso_interrupt m p)
        else remap_loop fuel m irq (u64 (p + apic_length m p)) last
    end
  else Ok irq.

Definition acpi_remap_irq (irq : Z) (a : acpi) : outcome Z :=
  let madt := s_madt a in
  let madt_len := sdt_length (amem a) madt in
  remap_loop (S (Z.to_nat madt_len)) (amem a) irq (u64 (madt + madt_entries_offset)) (u64 (madt + madt_len)).

(** ** Reboot *)

Definition acpi_reboot {D} `{Device D} (a : acpi) (d : D) : acpi * D :=
  if fadt a =? 0 then (a, d)
  else
    let m := amem a in
    if reset_address_space m (fadt a) =? 0 then
      (a, io_write_8 (u32 (reset_address m (fadt a))) (reset_value m (fadt a)) d)
    else if reset_address_space m (fadt a) =? 1 then
      let reg := u64 (reset_address m (fadt a) + hhdm a) in
      (mk_acpi (a_vm a) (store8 m reg (reset_value m (fadt a))) (g_acpi_cpu_count a) (g_acpi_cpu_ids a)
         (s_madt a) (s_rsdp a) (s_rsdt a) (fadt a) (g_local_apic_address a) (g_io_apic_addr a), d)
    else (a, d).

(** main.c: the machine as [abort] finds it.  The reset register first, then the
    keyboard controller. *)
Definition reboot {D} `{Device D} (fuel : nat) (a : acpi) (d : D) : outcome (acpi * D) :=
  let '(a, d) := acpi_reboot a d in
  d ← ps2_reboot fuel d;
  Ok (a, d).

(** ** Specification: the entries of a MADT *)

(** The entries from [p] to [last], each at least one byte long. *)
Inductive madt_chain (m : bytes) (last : Z) : Z -> list Z -> Prop :=
| chain_end p : last <= p -> madt_chain m last p []
| chain_entry p l :
    p < last -> 0 < apic_length m p < 256 -> 0 <= p -> p + apic_length m p < 18446744073709551616 ->
    madt_chain m last (p + apic_length m p) l -> madt_chain m last p (p :: l).

Definition overrides (m : bytes) (irq p : Z) : bool :=
  (apic_type m p =? APIC_TYPE_INTERRUPT_OVERRIDE) && (iso_source m p =? irq).

Definition usable_cpu (m : bytes) (p : Z) : bool :=
  (apic_type m p =? APIC_TYPE_LOCAL_APIC)
  && (negb (Z.land (lapic_flags m p) 1 =? 0) || negb (Z.land (lapic_flags m p) 2 =? 0)).

(** The identifiers of the usable processors, in table order. *)
Definition cpu_ids_of (m : bytes) (l : list Z) : list Z :=
  lapic_apic_id m <$> filter (fun p => usable_cpu m p = true) l.

(** The first [count] identifiers are [ids]. *)
Definition has_cpus (a : acpi) (ids : list Z) : Prop :=
  g_acpi_cpu_count a = Z.of_nat (length ids) /\ length (g_acpi_cpu_ids a) = 16%nat /\
  take (length ids) (g_acpi_cpu_ids a) = ids.

(** ** Lemmas *)

(** The tables' memory and the MADT in use. *)
Definition same_tables (a a' : acpi) : Prop := amem a' = amem a /\ s_madt a' = s_madt a.

Lemma madt_chain_length m last p l :
  madt_chain m last p l -> Z.of_nat (length l) <= Z.max 0 (last - p).
Proof. induction 1; simpl; lia. Qed.

Lemma remap_loop_ok m irq last p l fuel :
  madt_chain m last p l -> (length l < fuel)%nat ->
  remap_loop fuel m irq p last
  = Ok (match list_find (fun q => overrides m irq q = true) l with
        | Some (_, q) => iso_interrupt m q
        | None => irq
        end).
Proof.
  intros Hc. revert fuel. induction Hc as [p Hp|p l Hp Hlen Hp0 Hend Hc IH]; intros [|fuel] Hf;
    simpl in *; try lia.
  { destruct (Z.ltb_spec p last); [lia|done]. }
  destruct (Z.ltb_spec p last); [|lia]. fold (overrides m irq p).
  destruct (overrides m irq p) eqn:Ho; simpl.
  - done.
  - rewrite u64_small by (unfold fits_u64; lia). rewrite IH by lia.
    by destruct (list_find _ l) as [[]|].
Qed.

Lemma register_cpu_core_ok id a ids :
  has_cpus a ids -> (length ids < 16)%nat ->
  exists a', register_cpu_core id a = Ok a' /\ has_cpus a' (ids ++ [id]) /\
    same_tables a a' /\ a_vm a' = a_vm a.
Proof.
  intros (H1 & H2 & H3) Hlt. unfold register_cpu_core. rewrite H1, arr_set_ok by lia. mred.
  eexists. split; [reflexivity|]. split; [|done]. unfold has_cpus. cbn.
  rewrite Nat2Z.id, length_app, length_insert. cbn [length]. split_and!; [|done|].
  - unfold u32. rewrite Z.mod_small by lia. lia.
  - rewrite Nat.add_1_r, (take_S_r _ _ id) by (apply list_lookup_insert_eq; lia).
    by rewrite take_insert_ge, H3.
Qed.

(** [vm] is fit for [map_page] on the kernel's tree. *)
Definition vm_ok (s : vm) : Prop := tree_ok s (kernel_pml4 s) /\ pmm_ok (vm_pmm s).

(** More is mapped for the kernel and less is free; the kernel's root table and
    the direct map stay where they are. *)
Record vm_grows (s s' : vm) : Prop := {
  vg_ok : vm_ok s';
  vg_env : kernel_pml4 s' = kernel_pml4 s /\ hhdm_offset s' = hhdm_offset s /\ total_pages (vm_pmm s') = total_pages (vm_pmm s);
  vg_seen v : walk s (kernel_pml4 s) v <> None -> walk s' (kernel_pml4 s') v <> None;
  vg_free F F' : free_pages (vm_pmm s) F -> free_pages (vm_pmm s') F' -> F' ⊆ F
}.

Lemma vm_grows_refl s : vm_ok s -> vm_grows s s.
Proof. intros Hs. split; try done. intros F F' HF HF'. by rewrite (free_pages_unique _ _ _ HF' HF). Qed.

Lemma vm_grows_trans s1 s2 s3 : vm_grows s1 s2 -> vm_grows s2 s3 -> vm_grows s1 s3.
Proof.
  intros [O1 (E1 & E2 & E3) W1 F1] [O2 (E4 & E5 & E6) W2 F2]. split; [done|split_and!; congruence|auto|].
  intros F F' HF HF'. destruct (free_pages_exists (vm_pmm s2)) as (G & HG). etransitivity; [by eapply F2|by eapply F1].
Qed.

Lemma map_device_ok s v paddr flags :
  vm_ok s ->
  match map_page (kernel_pml4 s) v paddr flags s with
  | Ok s' => vm_grows s s'
  | Halt => True
  | _ => False
  end.
Proof.
  intros [Ht Hp]. destruct (free_pages_exists (vm_pmm s)) as (F & HF).
  pose proof (map_page_ok s (kernel_pml4 s) v paddr flags F Ht Hp HF) as H.
  destruct (map_page _ _ _ _ _) as [s'| | |]; try done.
  destruct H as [[M1 M2 M3 M4 M5 M6 _ M7 M8] _]. split.
  - unfold vm_ok. by rewrite M5.
  - split; [done|]. split; [done|]. apply M3.
  - intros v' Hv'. rewrite M5. destruct (same_page v v') eqn:E; [by rewrite M7|by rewrite M8].
  - intros F1 F2 H1 H2. by apply (free_pages_shrink (vm_pmm s) (vm_pmm s')).
Qed.

Lemma parse_madt_entry_ok p a ids :
  has_cpus a ids -> vm_ok (a_vm a) ->
  match parse_madt_entry p a with
  | Ok a' => has_cpus a' (ids ++ cpu_ids_of (amem a) [p]) /\ vm_grows (a_vm a) (a_vm a') /\ same_tables a a'
  | Fault => usable_cpu (amem a) p = true /\ length ids = 16%nat
  | Halt => True
  | Hang => False
  end.
Proof.
  intros Hc Hv. pose proof (vm_grows_refl _ Hv). unfold parse_madt_entry, cpu_ids_of, filter. simpl. unfold usable_cpu.
  destruct (apic_type (amem a) p =? APIC_TYPE_LOCAL_APIC) eqn:Et; simpl.
  - destruct (negb _ || negb _) eqn:Ef; simpl; [|by rewrite app_nil_r].
    pose proof Hc as (H1 & H2 & H3).
    destruct (decide (length ids < 16)%nat) as [Hlt|Hge].
    + destruct (register_cpu_core_ok (lapic_apic_id (amem a) p) a ids Hc Hlt) as (a' & -> & H4 & H5 & H6).
      rewrite H6. done.
    + unfold register_cpu_core, arr_set. rewrite H1.
      destruct (Z.ltb_spec (Z.of_nat (length ids)) (Z.of_nat (length (g_acpi_cpu_ids a)))); [lia|].
      rewrite andb_false_r. mred. split; [done|].
      apply (f_equal length) in H3. rewrite length_take in H3. lia.
  - rewrite app_nil_r. destruct (apic_type (amem a) p =? APIC_TYPE_IO_APIC); [|done].
    pose proof (map_device_ok (a_vm a) (PHYS_TO_VIRT (hhdm a) (ioapic_address (amem a) p))
      (ioapic_address (amem a) p) device_flags Hv) as Hm.
    destruct (map_page _ _ _ _ _) as [s'| | |]; mred; done.
Qed.

Lemma parse_madt_loop_ok fuel last p l a ids :
  madt_chain (amem a) last p l -> has_cpus a ids -> vm_ok (a_vm a) -> (length l < fuel)%nat ->
  match parse_madt_loop fuel p last a with
  | Ok a' => has_cpus a' (ids ++ cpu_ids_of (amem a) l) /\ vm_grows (a_vm a) (a_vm a') /\ same_tables a a'
  | Fault => (16 < length ids + length (cpu_ids_of (amem a) l))%nat
  | Halt => True
  | Hang => False
  end.
Proof.
  revert p l a ids. induction fuel as [|fuel IH]; intros p l a ids Hch Hc Hv Hf; [lia|].
  inversion Hch as [? Hp|? l' Hp Hlen Hp0 Hend Hch']; subst; simpl.
  { destruct (Z.ltb_spec p last); [lia|]. rewrite app_nil_r. split; [done|]. by split; [apply vm_grows_refl|]. }
  destruct (Z.ltb_spec p last); [|lia].
  destruct (Z.eqb_spec (apic_length (amem a) p) 0); [lia|].
  pose proof (parse_madt_entry_ok p a ids Hc Hv) as He.
  assert (cpu_ids_of (amem a) (p :: l') = cpu_ids_of (amem a) [p] ++ cpu_ids_of (amem a) l') as ->.
  { unfold cpu_ids_of. change (p :: l') with ([p] ++ l'). by rewrite filter_app, fmap_app. }
  destruct (parse_madt_entry p a) as [a1| | |]; mred; try done.
  - destruct He as (H1 & H2 & H3 & H4). rewrite u64_small by (unfold fits_u64; lia).
    simpl in Hf. assert (madt_chain (amem a1) last (p + apic_length (amem a) p) l') as Hch1
      by (by rewrite H3).
    specialize (IH _ l' a1 _ Hch1 H1 (vg_ok _ _ H2) ltac:(lia)). rewrite H3 in IH.
    destruct (parse_madt_loop _ _ _ _) as [a2| | |]; try done.
    + destruct IH as (I1 & I2 & I3 & I4). rewrite app_assoc. split; [done|]. split; [by eapply vm_grows_trans|].
      split; congruence.
    + rewrite length_app in IH |- *. lia.
  - destruct He as [He Hl]. unfold cpu_ids_of at 1, filter. simpl. rewrite He. simpl.
    rewrite Hl. simpl. lia.
Qed.

(** *** Tables *)

(** The table at [madt] is well formed and its entries are [l]. *)
Record madt_ok (m : bytes) (madt : Z) (l : list Z) : Prop := {
  mo_place : 0 <= madt;
  mo_length : 0 <= sdt_length m madt;
  mo_top : madt + sdt_length m madt + 44 < 18446744073709551616;
  mo_chain : madt_chain m (madt + sdt_length m madt) (madt + 44) l
}.

Lemma acpi_parse_apic_ok madt a l ids :
  madt_ok (amem a) madt l -> has_cpus a ids -> vm_ok (a_vm a) ->
  match acpi_parse_apic madt a with
  | Ok a' => has_cpus a' (ids ++ cpu_ids_of (amem a) l) /\ vm_grows (a_vm a) (a_vm a') /\ amem a' = amem a /\ s_madt a' = madt
  | Fault => (16 < length ids + length (cpu_ids_of (amem a) l))%nat
  | Halt => True
  | Hang => False
  end.
Proof.
  intros [Hm Hl Hb Hch] Hc Hv. unfold acpi_parse_apic. cbn [with_madt amem a_vm hhdm].
  set (len := sdt_length (amem a) madt) in *. unfold hhdm. cbn [with_madt a_vm with_lapic amem].
  pose proof (map_device_ok (a_vm a) (PHYS_TO_VIRT (hhdm_offset (a_vm a)) (madt_lapic_address (amem a) madt))
    (madt_lapic_address (amem a) madt) device_flags Hv) as Hmap.
  destruct (map_page _ _ _ _ _) as [s'| | |]; mred; try done.
  rewrite !u64_small with (z := madt + _) by (unfold fits_u64, madt_entries_offset; lia).
  set (a1 := with_lapic _ _ _).
  pose proof (madt_chain_length _ _ _ _ Hch) as Hlen.
  pose proof (parse_madt_loop_ok (S (Z.to_nat len)) (madt + len) (madt + 44) l a1 ids Hch Hc (vg_ok _ _ Hmap)
    ltac:(lia)) as H.
  destruct (parse_madt_loop _ _ _ _) as [a2| | |]; try done. destruct H as (? & ? & ? & ?).
  split_and!; try done. by apply (vm_grows_trans _ s').
Qed.

Definition is_madt (m : bytes) (h : Z) : Prop := sig4 m h = MADT \/ sig4 m h = APIC.
#[export] Instance is_madt_dec m h : Decision (is_madt m h).
Proof. unfold is_madt. apply _. Defined.

(** The processors table [h] lists. *)
Definition table_cpus (m : bytes) (h : Z) (ids : list Z) : Prop :=
  if decide (is_madt m h) then exists l, madt_ok m h l /\ ids = cpu_ids_of m l else ids = [].

(** What a walk over tables comes to. *)
Definition parsed (a : acpi) (ids new : list Z) (found : Prop) (o : outcome acpi) : Prop :=
  match o with
  | Ok a' => has_cpus a' (ids ++ new) /\ vm_grows (a_vm a) (a_vm a') /\ amem a' = amem a /\
      (found \/ (exists l, madt_ok (amem a) (s_madt a) l) -> exists l, madt_ok (amem a) (s_madt a') l)
  | Fault => (16 < length ids + length new)%nat
  | Halt => True
  | Hang => False
  end.

Lemma acpi_parse_dt_ok h a ids new :
  table_cpus (amem a) h new -> has_cpus a ids -> vm_ok (a_vm a) ->
  parsed a ids new (is_madt (amem a) h) (acpi_parse_dt h a).
Proof.
  intros Ht Hc Hv. unfold acpi_parse_dt, table_cpus in *. destruct (decide (is_madt (amem a) h)) as [Hm|Hm].
  - destruct Ht as (l & Hl & ->). rewrite decide_False by (intros E; destruct Hm as [Hm|Hm]; rewrite E in Hm; discriminate).
    rewrite decide_True by done. pose proof (acpi_parse_apic_ok h a l ids Hl Hc Hv) as Hp. unfold parsed.
    destruct (acpi_parse_apic h a) as [a'| | |]; try done. destruct Hp as (? & ? & ? & ->). split_and!; try done. by exists l.
  - subst new. assert (parsed a ids [] False (Ok a)) as Hid.
    { split; [by rewrite app_nil_r|]. split; [by apply vm_grows_refl|]. split; [done|]. by intros [[]|]. }
    destruct (decide (sig4 (amem a) h = FACP)) as [E|E]; [|rewrite decide_False by done];
      destruct Hid as (I1 & I2 & I3 & I4); (split; [done|]; split; [done|]; split; [done|]); intros [?|?]; auto; done.
Qed.

(** The tables an RSDT at [rsdt] lists, from entry [i] on. *)
Definition rsdt_tables (a : acpi) (rsdt i : Z) (n : nat) : list Z :=
  (fun j => u64 (load32 (amem a) (u64 (rsdt + sizeof_sdt_header + 4 * j)) + hhdm a)) <$> seqZ i (Z.of_nat n).

Lemma parse_rsdt_loop_ok n : forall rsdt i a ids news,
  Forall2 (table_cpus (amem a)) (rsdt_tables a rsdt i n) news -> has_cpus a ids -> vm_ok (a_vm a) ->
  parsed a ids (concat news) (Exists (is_madt (amem a)) (rsdt_tables a rsdt i n)) (parse_rsdt_loop n rsdt i a).
Proof.
  induction n as [|n IH]; intros rsdt i a ids news Hts Hc Hv.
  { inversion Hts; subst. split; [by rewrite app_nil_r|]. split; [by apply vm_grows_refl|]. split; [done|].
    intros [H|?]; [by inversion H|done]. }
  assert (forall b, rsdt_tables b rsdt i (S n) = u64 (load32 (amem b) (u64 (rsdt + sizeof_sdt_header + 4 * i)) + hhdm b) :: rsdt_tables b rsdt (i + 1) n) as Hcons.
  { intros b. unfold rsdt_tables. rewrite seqZ_cons by lia. simpl. do 2 f_equal. f_equal; lia. }
  rewrite Hcons in *. apply Forall2_cons_inv_l in Hts as (new & news' & Ht & Hts & ->). simpl.
  pose proof (acpi_parse_dt_ok _ a ids new Ht Hc Hv) as Hd.
  destruct (acpi_parse_dt _ a) as [a1| | |]; mred; try done; [|simpl in *; rewrite length_app; lia].
  destruct Hd as (D1 & D2 & D3 & D4). destruct (vg_env _ _ D2) as (_ & Hh & _).
  assert (rsdt_tables a1 rsdt (i + 1) n = rsdt_tables a rsdt (i + 1) n) as Hsame by (unfold rsdt_tables, hhdm; by rewrite D3, Hh).
  pose proof (IH rsdt (i + 1) a1 (ids ++ new) news') as Hl. rewrite Hsame, D3 in Hl. specialize (Hl Hts D1 (vg_ok _ _ D2)).
  unfold parsed in *. destruct (parse_rsdt_loop n rsdt (i + 1) a1) as [a2| | |]; try done.
  - destruct Hl as (L1 & L2 & L3 & L4). rewrite app_assoc. split; [done|]. split; [by eapply vm_grows_trans|]. split; [congruence|].
    rewrite D3 in L4. intros [Hx|Hx]; apply L4; [|right; auto]. inversion Hx; subst; [right; auto|by left].
  - rewrite !length_app in *. lia.
Qed.

(** Tables that the code can follow: an RSDP of revision 0 with an RSDT, every MADT
    in it well formed and at least one there; the processors listed are [ids]. *)
Record tables_ok (a : acpi) (rsdp : Z) (ids : list Z) : Prop := {
  tb_signature : load64 (amem a) rsdp = 2329016660419433298;
  tb_checksum : rsdp_checksum (amem a) rsdp <> 0;
  tb_revision : rsdp_revision (amem a) rsdp = 0;
  tb_tables :
    let rsdt := u64 (rsdt_address (amem a) rsdp + hhdm a) in
    let n := Z.to_nat (u32 (u64 (sdt_length (amem a) rsdt - sizeof_sdt_header) / 4)) in
    Exists (is_madt (amem a)) (rsdt_tables a rsdt 0 n) /\
    exists news, Forall2 (table_cpus (amem a)) (rsdt_tables a rsdt 0 n) news /\ ids = concat news
}.

Lemma acpi_init_ok rsdp a ids :
  tables_ok a rsdp ids -> has_cpus a [] -> vm_ok (a_vm a) -> (length ids <= 16)%nat ->
  match acpi_init rsdp a with
  | Ok a' => has_cpus a' ids /\ vm_grows (a_vm a) (a_vm a') /\ amem a' = amem a /\ exists l, madt_ok (amem a') (s_madt a') l
  | Halt => True
  | _ => False
  end.
Proof.
  intros [T1 T2 T3 (T4 & news & T5 & ->)] Hc Hv Hlen. unfold acpi_init. cbn [with_rsdp amem]. rewrite T1, Z.eqb_refl.
  unfold acpi_parse_rsdp. cbn [with_rsdp amem s_rsdp]. rewrite (proj2 (Z.eqb_neq _ 0) T2), T3, Z.eqb_refl.
  unfold acpi_parse_rsdt. cbn [with_rsdt amem]. change (hhdm (with_rsdp a rsdp)) with (hhdm a).
  set (rsdt := u64 (rsdt_address (amem a) rsdp + hhdm a)) in *. set (n := Z.to_nat _) in *.
  pose proof (parse_rsdt_loop_ok n rsdt 0 (with_rsdt (with_rsdp a rsdp) rsdt) [] news T5 Hc Hv) as Hp.
  unfold parsed in Hp. change (amem (with_rsdt _ _)) with (amem a) in *.
  destruct (parse_rsdt_loop n rsdt 0 _) as [a'| | |]; mred; try done; [|simpl in Hp; lia].
  destruct Hp as (P1 & P2 & P3 & P4). split_and!; try done. rewrite P3. apply P4. by left.
Qed.

(** ** Theorems *)

(** on a well-formed MADT [acpi_parse_apic] registers exactly the usable
    processors, in table order.  It fails only by running off the end of the
    16-entry array, when there are more processors than that, or in the panic of
    [map_page]. *)
Theorem acpi_parse_apic_cpus madt a l :
  let len := sdt_length (amem a) madt in
  0 <= madt -> 0 <= len -> madt + len + 44 < 18446744073709551616 ->
  madt_chain (amem a) (madt + len) (madt + 44) l -> has_cpus a [] -> vm_ok (a_vm a) ->
  match acpi_parse_apic madt a with
  | Ok a' => has_cpus a' (cpu_ids_of (amem a) l) /\ amem a' = amem a
  | Fault => (16 < length (cpu_ids_of (amem a) l))%nat
  | Halt => True
  | Hang => False
  end.
Proof.
  intros len Hm Hl Hb Hch Hc Hv.
  pose proof (acpi_parse_apic_ok madt a l [] ltac:(by constructor) Hc Hv) as H.
  destruct (acpi_parse_apic madt a) as [a2| | |]; try done. by destruct H as (? & _ & ? & _).
Qed.

(** A table of three entries at 4096: a usable processor with identifier 7, an
    override of interrupt 0 to 2, and a processor that is off. *)
Definition sample_madt : list Z :=
  [65; 80; 73; 67; 70; 0; 0; 0] ++ replicate 28 0 ++ [0; 0; 224; 254; 1; 0; 0; 0]
  ++ [0; 8; 0; 7; 1; 0; 0; 0] ++ [2; 10; 0; 0; 2; 0; 0; 0; 0; 0] ++ [0; 8; 1; 9; 0; 0; 0; 0].
Definition sample_acpi : acpi :=
  mk_acpi sample_vm (fun x => nth (Z.to_nat (x - 4096)) sample_madt 0) 0 (replicate 16 0) 4096 0 0 0 0 0.

Lemma sample_madt_chain : madt_chain (amem sample_acpi) (4096 + 70) (4096 + 44) [4140; 4148; 4158].
Proof.
  apply chain_entry; [reflexivity|split; reflexivity|discriminate|reflexivity|].
  apply chain_entry; [reflexivity|split; reflexivity|discriminate|reflexivity|].
  apply chain_entry; [reflexivity|split; reflexivity|discriminate|reflexivity|].
  apply chain_end. discriminate.
Qed.

Lemma acpi_parse_apic_cpus_witness :
  match acpi_parse_apic 4096 sample_acpi with
  | Ok a' => has_cpus a' [7]
  | _ => False
  end.
Proof.
  assert (has_cpus sample_acpi []) as Hc by (split_and!; reflexivity).
  assert (vm_ok (a_vm sample_acpi)) as Hv by (split; [apply sample_vm_tree|apply sample_vm_pmm]).
  pose proof (acpi_parse_apic_cpus 4096 sample_acpi [4140; 4148; 4158] ltac:(discriminate)
    ltac:(discriminate) ltac:(reflexivity) sample_madt_chain Hc Hv) as H.
  assert (is_ok (acpi_parse_apic 4096 sample_acpi) = true) as Hok by (vm_compute; reflexivity).
  destruct (acpi_parse_apic 4096 sample_acpi); try discriminate Hok. exact (proj1 H).
Defined.

(** [acpi_remap_irq] returns the interrupt of the first override for the
    request line, and the line itself when the table has none. *)
Theorem acpi_remap_irq_correct irq a l :
  let madt := s_madt a in
  let len := sdt_length (amem a) madt in
  0 <= madt -> 0 <= len -> madt + len + 44 < 18446744073709551616 ->
  madt_chain (amem a) (madt + len) (madt + 44) l ->
  acpi_remap_irq irq a
  = Ok (match list_find (fun q => overrides (amem a) irq q = true) l with
        | Some (_, q) => iso_interrupt (amem a) q
        | None => irq
        end).
Proof.
  intros madt len Hm Hl Hb Hch. unfold acpi_remap_irq. fold madt. fold len.
  rewrite !u64_small by (unfold fits_u64, madt_entries_offset; lia).
  pose proof (madt_chain_length _ _ _ _ Hch). apply remap_loop_ok; [done|lia].
Qed.

Lemma acpi_remap_irq_correct_witness :
  acpi_remap_irq 0 sample_acpi = Ok 2 /\ acpi_remap_irq 1 sample_acpi = Ok 1.
Proof.
  pose proof (fun irq => acpi_remap_irq_correct irq sample_acpi [4140; 4148; 4158] ltac:(discriminate)
    ltac:(discriminate) ltac:(reflexivity) sample_madt_chain) as H.
  split; [exact (H 0)|exact (H 1)].
Defined.
