(* ===== verification/Start.v ===== *)
(** * The kernel from its entry on (src/kernel/init.c, [kernel_initialize];
    src/main.c, [kmain])

    The components put together in the order in which the code starts them, on
    one machine: memory, files, ACPI tables, descriptor tables, processor data,
    interrupts, system calls, the scheduler, the keyboard controller and the
    clock; then the first program.  The heap of Heap.v is the allocator of all of
    them, and page tables and page allocator are shared: what one component maps
    or takes, the next one finds mapped and taken. *)

From S2P Require Import Prelude Font Video Screen Sync Bitmap Pmm Paging Bytes Heap Alloc Klist Vfs VfsTree Archive Keyboard Device Time Desc Sched SchedFair SchedSleep SchedInv SchedSpawn SchedBoot Elf Kernel Syscall SchedRun Exec Boot BootMem Acpi.

(** ** Data *)

(** The boot loader's answers (boot_requests.c). *)
Record limine := mk_limine {
  lm_info : boot_info;
  (** [framebuffers[0]]. *)
  lm_fb : limine_framebuffer;
  lm_modules : option (list (list Z));
  lm_rsdp : Z;
  lm_cpu_count : Z;
  lm_kernel_paddr : Z;
  lm_kernel_vaddr : Z
}.

Record machine (D : Type) := mk_machine {
  mc_control : control;
  mc_k : kernel heap D;
  mc_acpi : acpi;
  mc_idt : list idt_entry_t;
  mc_msrs : msrs
}.
Arguments mk_machine {D}.
Arguments mc_control {D} _.
Arguments mc_k {D} _.
Arguments mc_acpi {D} _.
Arguments mc_idt {D} _.
Arguments mc_msrs {D} _.

(** What [kmain] prints; the characters are not drawn on [screen]. *)
Record boot_report := mk_report {
  rp_width : Z; rp_height : Z; rp_ram : Z * bool; rp_cpus : Z; rp_date : list Z; rp_pid : Z
}.

Definition sizeof_gdt : Z := 192.
(** ["/init.elf"] *)
Definition init_elf : list Z := [47; 105; 110; 105; 116; 46; 101; 108; 102].

(** ** Memory that components share *)

Section Sharing.
Context {D : Type}.
Implicit Types (k : kernel heap D).

Definition kernel_heap k : heap := alloc (w_k (k_w k)).
Definition set_heap k (h : heap) : kernel heap D :=
  set_w k (with_k (k_w k) (mk_kstate h (lists (w_k (k_w k))) (nodes (w_k (k_w k))))).
(** Page tables and page allocator as the heap leaves them, and as [s] has them. *)
Definition sync_vm k : kernel heap D := set_w k (Sched.with_vm (k_w k) (h_vm (kernel_heap k)) (w_cr3 (k_w k))).
Definition share_vm k (s : vm) : kernel heap D := sync_vm (set_heap k (Heap.with_vm (kernel_heap k) s)).

Definition set_if (b : bool) (c : cpu) : cpu :=
  mk_cpu (if b then Z.lor (rflags c) IF_bit else Z.land (rflags c) (Z.lnot IF_bit)).
Definition cli k : kernel heap D := set_cpu k (set_if false (w_cpu (k_w k))).
Definition sti k : kernel heap D := set_cpu k (set_if true (w_cpu (k_w k))).

(** A function of video.c, which sets the processor's interrupt flag. *)
Definition on_screen (f : term -> term) k : kernel heap D :=
  let t := f (set_intr (screen k) (interrupts_on (w_cpu (k_w k)))) in
  set_cpu (set_screen k t) (set_if (intr_on t) (w_cpu (k_w k))).

(** The heap's locks save and restore the flags of this processor. *)
Definition on_this_cpu k : heap := with_kmalloc_lock (kernel_heap k) (kmalloc_lock (kernel_heap k)) (w_cpu (k_w k)).
Definition acpi_on (a : acpi) (s : vm) : acpi :=
  mk_acpi s (amem a) (g_acpi_cpu_count a) (g_acpi_cpu_ids a) (s_madt a) (s_rsdp a) (s_rsdt a) (fadt a)
    (g_local_apic_address a) (g_io_apic_addr a).
End Sharing.

(** ** The code *)

Section Tables.
Context {A : Type} `{Allocator A}.
Context (me kernel_stack : Z).

(** gdt.c, [init_gdt]: the block of each core, stored in the list at [p]. *)
Fixpoint gdt_blocks (p : Z) (n : nat) (w : world A) : outcome (list Z * world A) :=
  match n with
  | O => Ok ([], w)
  | S n =>
      '(gdt_mem, w) ← on_alloc w (a_kmalloc (sizeof_gdt + 16));
      if (gdt_mem =? 0) || (p =? 0) then Fault
      else '(addrs, w) ← gdt_blocks p n w; Ok (gdt_mem :: addrs, w)
  end.
Definition init_gdt_list (cores : Z) (w : world A) : outcome (world A) :=
  '(p, w) ← on_alloc w (a_kmalloc (8 * cores));
  '(addrs, w) ← gdt_blocks p (Z.to_nat cores) w;
  Ok (with_gdt w (init_gdt addrs (w_gdt w))).

(** [init_gdt(); init_gdt_local(); tss_set_kernel_stack(...)]. *)
Definition start_gdt (cores : Z) (w : world A) : outcome (world A) :=
  w ← init_gdt_list cores w;
  g ← init_gdt_local me (w_gdt w);
  g ← tss_set_kernel_stack me (u64 (kernel_stack + Boot.KERNEL_STACK_SIZE)) g;
  Ok (with_gdt w g).

End Tables.

Section Code.
Context {D : Type} `{Device D}.
(** The boot processor's number, and what fresh blocks hold. *)
Context (me : Z) (junk_thread : thread_t) (junk_list : cpu_task_list_t) (junk : nat -> Z).
(** The kernel's image: its size, the stack it runs on and its stack pointer there, the
    assembly entry points, the address of [idle_loop]. *)
Context (kernel_size kernel_stack rsp : Z) (st : stubs) (syscall_entry_asm idle_loop : Z).
(** The address of this processor's [cpu_data_t]; what [io_apic_in] leaves in its register. *)
Context (cpu_data_addr garbage : Z).
Context (O_RDONLY O_WRONLY : Z).
(** Rounds granted to the loops that wait for a device. *)
Context (fuel : nat).
Implicit Types (k : kernel heap D) (m : machine D) (l : limine).

(** [init_mem(memmap_request.response)]. *)
Definition start_memory l (c : control) k : outcome (control * kernel heap D) :=
  offset ← deref (hhdm_response (lm_info l));
  memmap ← deref (memmap_response (lm_info l));
  '(c, h) ← init_mem offset memmap (lm_kernel_paddr l) (lm_kernel_vaddr l) kernel_size rsp c (on_this_cpu k);
  let k := set_heap k h in
  Ok (c, set_w k (Sched.with_vm (k_w k) (h_vm h) (Boot.cr3 c))).

(** [vfs_init()]. *)
Definition start_files l k : outcome (kernel heap D) :=
  s ← vfs_init junk no_console (lm_modules l) (get_fs k);
  Ok (sync_vm (set_fs k s)).

(** [acpi_init()]. *)
Definition start_acpi l (a : acpi) k : outcome (acpi * kernel heap D) :=
  a ← acpi_init (lm_rsdp l) (acpi_on a (w_vm (k_w k)));
  Ok (a, share_vm k (a_vm a)).

(** [intr_init()]. *)
Definition start_interrupts (a : acpi) (idt : list idt_entry_t) k : outcome (list idt_entry_t * kernel heap D) :=
  timer ← acpi_remap_irq IRQ_TIMER a;
  keyboard ← acpi_remap_irq IRQ_KEYBOARD a;
  '(idt, d) ← intr_init st garbage (g_local_apic_address a) (g_io_apic_addr a)
                (fun irq => if irq =? IRQ_TIMER then timer else keyboard) idt (k_dev k);
  Ok (idt, set_clock k d (k_now k)).

(** [kbd_init(); init_rtc()]. *)
Definition start_devices k : outcome (kernel heap D) :=
  d ← kbd_init fuel (k_dev k);
  '(dt, d) ← init_rtc fuel (k_now k) d;
  Ok (set_clock k d dt).

(** Everything up to [init_syscall]. *)
Definition start_machine l m : outcome (machine D) :=
  let c := enable_sse (mc_control m) in
  _ ← verify_boot_environment (lm_info l);
  let k := cli (mc_k m) in
  let k := on_screen (init_fb (lm_fb l)) k in
  '(c, k) ← start_memory l c k;
  k ← start_files l k;
  '(a, k) ← start_acpi l (mc_acpi m) k;
  k ← on_world k (start_gdt me kernel_stack (g_acpi_cpu_count a));
  k ← on_world k (init_smp_data (lm_cpu_count l));
  '(idt, k) ← start_interrupts a (mc_idt m) (sync_vm k);
  Ok (mk_machine c k a idt (init_syscall syscall_entry_asm cpu_data_addr (mc_msrs m))).

Definition kernel_initialize l m : outcome (machine D) :=
  m ← start_machine l m;
  k ← on_world (mc_k m) (init_multitasking me junk_thread junk_list kernel_stack idle_loop O_RDONLY O_WRONLY
                           (g_acpi_cpu_count (mc_acpi m)));
  k ← start_devices (sync_vm k);
  Ok (mk_machine (mc_control m) k (mc_acpi m) (mc_idt m) (mc_msrs m)).

(** main.c: up to [sti].  [fb] is read before anything is verified. *)
Definition kmain_start l m : outcome (boot_report * machine D) :=
  n ← deref (framebuffer_count (lm_info l));
  if n <? 1 then Fault
  else
    m ← kernel_initialize l m;
    let k := on_screen Video.clear_screen (mc_k m) in
    memmap ← deref (memmap_response (lm_info l));
    let ram := print_available_ram (u64 (memmap_get_total_pages memmap * PAGE_SIZE)) in
    '(dt, d) ← now fuel (k_now k) (k_dev k);
    '(date, dt) ← datetime_to_str dt;
    let k := set_clock k d dt in
    '(pid, k) ← execute_elf me junk_thread junk O_RDONLY O_WRONLY init_elf k;
    Ok (mk_report (width (lm_fb l)) (height (lm_fb l)) ram (g_acpi_cpu_count (mc_acpi m)) date pid,
        mk_machine (mc_control m) (sti k) (mc_acpi m) (mc_idt m) (mc_msrs m)).

(** Runs other threads and comes back. *)
Context (kernel_yield : kernel heap D -> outcome (kernel heap D)).

(** [kusleep(100)], [n] times. *)
Fixpoint sleep_times (n : nat) k : outcome (kernel heap D) :=
  match n with
  | O => Ok k
  | S n => k ← on_world k (sleep_enqueue me 100); k ← kernel_yield k; sleep_times n k
  end.

(** The machine as [abort] finds it, with what was printed. *)
Definition kmain l m : outcome (boot_report * machine D) :=
  '(r, m) ← kmain_start l m;
  '(_, k) ← sys_waitpid me kernel_yield (u64 (rp_pid r)) (mc_k m);
  k ← sleep_times 3 k;
  '(a, d) ← reboot fuel (mc_acpi m) (k_dev k);
  Ok (r, mk_machine (mc_control m) (set_clock k d (k_now k)) a (mc_idt m) (mc_msrs m)).
End Code.

(** ** Memory *)

Lemma map_ram_loop_env n : forall phys last s s', map_ram_loop n phys last s = Ok s' -> vm_env s' = vm_env s.
Proof.
  induction n as [|n IH]; intros phys last s s' Hm; simpl in Hm; ok_inv; try done.
  apply IH in Hm. rewrite Hm. by eapply map_page_env.
Qed.
Lemma map_ram_env memmap : forall s s', map_ram memmap s = Ok s' -> vm_env s' = vm_env s.
Proof.
  induction memmap as [|e memmap IH]; intros s s' Hm; cbn [map_ram] in Hm; [by simplify_eq|].
  destruct (type e =? LIMINE_MEMMAP_RESERVED); [by apply IH|].
  destruct (map_ram_loop _ _ _ s) eqn:E; try discriminate Hm. apply IH in Hm. rewrite Hm. by eapply map_ram_loop_env.
Qed.
Lemma map_kernel_loop_env n : forall kp kv ks o s s', map_kernel_loop n kp kv ks o s = Ok s' -> vm_env s' = vm_env s.
Proof.
  induction n as [|n IH]; intros kp kv ks o s s' Hm; simpl in Hm; ok_inv; try done.
  apply IH in Hm. rewrite Hm. by eapply map_page_env.
Qed.
Lemma map_kernel_env kp kv ks s s' : map_kernel kp kv ks s = Ok s' -> vm_env s' = vm_env s.
Proof. apply map_kernel_loop_env. Qed.
Lemma heap_init_env h h' : heap_init h = Ok h' -> heap_env h' = heap_env h.
Proof.
  unfold heap_init, set_size, set_is_free, set_next, heap_expand. intros Hi. ok_inv. heap_env_steps.
Qed.

(** [init_mem] leaves the direct map where the boot loader says it is and the
    number of pages [init_bitmap] found. *)
Lemma init_mem_env offset memmap memmap' p kp kv ks rsp c h c' h' :
  init_mem offset memmap kp kv ks rsp c h = Ok (c', h') -> init_bitmap offset memmap (vm_pmm (h_vm h)) = Ok (memmap', p) ->
  hhdm_offset (h_vm h') = offset /\ total_pages (vm_pmm (h_vm h')) = total_pages p.
Proof.
  unfold init_mem. cbn [vm_pmm]. intros Hm Hb. rewrite Hb in Hm. ok_inv.
  repeat match goal with
  | H : heap_init _ = _ |- _ => apply heap_init_env in H
  | H : map_kernel _ _ _ _ = _ |- _ => apply map_kernel_env in H
  | H : map_ram _ _ = _ |- _ => apply map_ram_env in H
  | H : pmm_alloc _ = _ |- _ => apply pmm_alloc_env in H
  end. unfold heap_env, vm_env in *. simpl in *. split; congruence.
Qed.

(** What the boot loader leaves in memory: a memory map from which the page
    allocator can be set up, page tables it will not hand out, frames enough, a
    kernel image at its place and a stack that stays mapped. *)
Record boot_memory (offset : Z) (memmap memmap' : list limine_memmap_entry) (p : pmm) (F : gset Z)
    (kpaddr kvaddr ksize rsp : Z) (c : control) (h : heap) : Prop := {
  bm_bitmap : init_bitmap offset memmap (vm_pmm (h_vm h)) = Ok (memmap', p);
  bm_pmm : pmm_ok p;
  bm_free : free_pages p F;
  bm_tables : Paging.tree_ok (mk_vm p (mem (h_vm h)) offset (kernel_pml4 (h_vm h))) (PHYS_TO_VIRT offset (Z.land (Boot.cr3 c) (u64 (Z.lnot 4095))));
  bm_layout : layout_ok offset kpaddr kvaddr ksize;
  bm_ram : Forall ram_ok memmap';
  bm_frames : (init_frames offset kvaddr ksize memmap' <= size F)%nat;
  bm_max : Z.of_nat (size F) <= 2 ^ 34;
  bm_pages : total_pages p * PAGE_SIZE <= DIRECT_TOP;
  bm_stack : stack_seen offset (get_highest_phys_addr memmap) kvaddr ksize rsp;
  bm_lock : locked (kmalloc_lock h) = 0
}.

Lemma boot_memory_ok offset memmap memmap' p F kp kv ks rsp c h :
  boot_memory offset memmap memmap' p F kp kv ks rsp c h ->
  exists c' h', init_mem offset memmap kp kv ks rsp c h = Ok (c', h') /\ heap_inv h' /\ (forall q, ~ heap_live h' q) /\
    hhdm_offset (h_vm h') = offset /\ hhdm_ok (h_vm h').
Proof.
  intros [B1 B2 B3 B4 B5 B6 B7 B8 B9 B10 B11].
  destruct (init_mem_ok offset memmap memmap' p F kp kv ks rsp c h B1 B2 B3 B4 B5 B6 B7 B8 B10 B11) as (c' & h' & E & _ & Hok & _).
  destruct (init_mem_env _ _ _ _ _ _ _ _ _ _ _ _ E B1) as [Eo Et]. exists c', h'. split; [done|]. split; [by eexists _, _|].
  split; [|split; [done|]].
  - intros q (b & Hb & _ & Hf)%(heap_live_iff _ _ _ _ Hok). apply list_elem_of_singleton in Hb as ->. discriminate Hf.
  - unfold hhdm_ok. rewrite Eo, Et. destruct B5 as [(? & _ & Htop) _ _]. unfold KERNEL_HEAP_START in Htop. lia.
Qed.

(** The heap on page tables that map more for the kernel. *)
Lemma heap_revm h s : heap_inv h -> vm_grows (h_vm h) s ->
  heap_inv (Heap.with_vm h s) /\ (forall q, heap_live (Heap.with_vm h s) q <-> heap_live h q) /\
  heap_env (Heap.with_vm h s) = heap_env h.
Proof.
  intros (bl & fl & [Hsh Hfr Hlk [K1 K2 K3 K4 K5]]) [[G1 G2] (E1 & E2 & E3) G3 G4].
  assert (heap_ok (Heap.with_vm h s) bl fl) as Hok.
  { constructor; try done; [by destruct Hsh; constructor|]. constructor; simpl; try done.
    - intros F' HF'. destruct (free_pages_exists (vm_pmm (h_vm h))) as (F & HF). pose proof (K4 F HF).
      pose proof (subseteq_size _ _ (G4 F F' HF HF')). unfold PAGE_SIZE in *. lia.
    - intros v Hv. apply G3. by apply K5. }
  split; [by exists bl, fl|]. split; [|unfold heap_env, vm_env; simpl; congruence].
  intros q. rewrite (heap_live_iff _ _ _ _ Hok), (heap_live_iff h bl fl) by (by constructor). done.
Qed.

Lemma heap_vm_ok h : heap_inv h -> vm_ok (h_vm h).
Proof. intros (bl & fl & [_ _ _ [K1 K2 _ _ _]]). by split. Qed.

(** ** Tables and processor data *)

Section Stages.
Context {A : Type} `{Allocator A}.
Implicit Types (w : world A).

(** More is allocated and nothing of the scheduler's state changes. *)
Record staged w w' : Prop := {
  sg_inv : alloc_inv (alloc (w_k w'));
  sg_calm : calm w w';
  sg_files : files_live w -> files_live w'
}.

Lemma staged_trans w1 w2 w3 : staged w1 w2 -> staged w2 w3 -> staged w1 w3.
Proof. intros [I1 C1 F1] [I2 C2 F2]. split; [done|by eapply calm_trans|auto]. Qed.

Lemma on_alloc_staged w f n :
  f = a_kmalloc n \/ f = a_kzalloc n -> alloc_inv (alloc (w_k w)) -> 0 < n <= 2 ^ 63 ->
  match on_alloc w f with
  | Ok (p, w') => staged w w' /\ p <> 0 /\ w_gdt w' = w_gdt w /\ cpu_data_list w' = cpu_data_list w
  | Halt => True
  | _ => False
  end.
Proof.
  intros Hf Hi Hn. pose proof (on_alloc_ok w f n Hf Hi Hn) as Ha. destruct (on_alloc w f) as [[p w']| | |]; try done.
  destruct Ha as [[G Hp _ _] Hc]. split; [split; [apply G|done|apply G]|]. split; [done|]. split; apply G.
Qed.

Lemma gdt_blocks_ok l n : l <> 0 -> forall w, alloc_inv (alloc (w_k w)) ->
  match gdt_blocks l n w with
  | Ok (addrs, w') => staged w w' /\ length addrs = n /\ w_gdt w' = w_gdt w
  | Halt => True
  | _ => False
  end.
Proof.
  intros Hl0%Z.eqb_neq. induction n as [|n IH]; intros w Hi; simpl; [by split_and!; [split|..]|].
  pose proof (on_alloc_staged w _ (sizeof_gdt + 16) (or_introl eq_refl) Hi ltac:(unfold sizeof_gdt; lia)) as Ha.
  change (sizeof_gdt + 16) with 208 in Ha. destruct (on_alloc w _) as [[p w1]| | |]; mred; try done. destruct Ha as (S1 & Hp & E1 & _).
  rewrite (proj2 (Z.eqb_neq _ _) Hp), Hl0. specialize (IH w1 (sg_inv _ _ S1)). cbn [orb].
  destruct (gdt_blocks l n w1) as [[addrs w2]| | |]; mred; try done. destruct IH as (S2 & Hl & E2).
  split; [by eapply staged_trans|]. simpl. split; congruence.
Qed.

Lemma start_gdt_ok me kernel_stack cores w :
  alloc_inv (alloc (w_k w)) -> 0 <= me < cores -> cores <= 2 ^ 32 ->
  match start_gdt me kernel_stack cores w with
  | Ok w' => staged w w' /\ exists g, arr_get (gdt_list (w_gdt w')) me = Ok g /\
      rsp0 (tss g) = u64 (kernel_stack + Boot.KERNEL_STACK_SIZE) /\ exists a, entries g = entries (local_gdt a)
  | Halt => True
  | _ => False
  end.
Proof.
  intros Hi Hme Hn. unfold start_gdt, init_gdt_list.
  pose proof (on_alloc_staged w _ (8 * cores) (or_introl eq_refl) Hi ltac:(lia)) as Ha.
  destruct (on_alloc w _) as [[p w1]| | |]; mred; try done. destruct Ha as (S1 & Hp & E1 & _).
  pose proof (gdt_blocks_ok p (Z.to_nat cores) Hp w1 (sg_inv _ _ S1)) as Hb.
  destruct (gdt_blocks _ _ w1) as [[addrs w2]| | |]; mred; try done. destruct Hb as (S2 & Hl & E2). cbn [w_gdt with_gdt].
  destruct (lookup_lt_is_Some_2 addrs (Z.to_nat me)) as [a Ha]; [lia|].
  destruct (init_gdt_local_ok addrs me a (w_gdt w2)) as (s' & -> & Hg & _); [apply arr_get_Ok_iff; by split; [lia|]|]. mred.
  unfold tss_set_kernel_stack. rewrite Hg. mred. match goal with |- context [arr_set _ me ?x] => set (g' := x) end.
  destruct (arr_set_get _ _ _ g' Hg) as (gs & Hgs). rewrite Hgs. mred.
  split; [destruct (staged_trans _ _ _ S1 S2); by split|]. exists g'. cbn [with_gdt w_gdt gdt_list].
  split; [by apply (arr_get_set _ _ _ _ Hgs)|]. split; [done|]. exists a. done.
Qed.

Lemma make_cpu_data_ok n : forall w, alloc_inv (alloc (w_k w)) ->
  match make_cpu_data n w with
  | Ok w' => staged w w' /\ w_gdt w' = w_gdt w /\ length (cpu_data_list w') = (length (cpu_data_list w) + n)%nat
  | Halt => True
  | _ => False
  end.
Proof.
  induction n as [|n IH]; intros w Hi; simpl; [by split_and!; [split|..|lia]|].
  pose proof (on_alloc_staged w _ 16 (or_intror eq_refl) Hi ltac:(lia)) as Ha.
  destruct (on_alloc w _) as [[p w1]| | |]; mred; try done. destruct Ha as (S1 & Hp & E1 & E2).
  rewrite (proj2 (Z.eqb_neq _ _) Hp). set (w2 := with_cpu_data w1 _). assert (staged w w2) as S2 by (destruct S1; by split).
  specialize (IH w2 (sg_inv _ _ S2)). destruct (make_cpu_data n w2) as [w'| | |]; try done. destruct IH as (S3 & E3 & L3).
  split; [by eapply staged_trans|]. split; [by rewrite E3|]. rewrite L3. simpl. rewrite length_app, E2. simpl. lia.
Qed.

Lemma init_smp_data_ok me n w :
  alloc_inv (alloc (w_k w)) -> 0 <= me < n -> n <= 2 ^ 32 ->
  match init_smp_data n w with
  | Ok w' => staged w w' /\ w_gdt w' = w_gdt w /\ exists d, arr_get (cpu_data_list w') me = Ok d
  | Halt => True
  | _ => False
  end.
Proof.
  intros Hi Hme Hn. unfold init_smp_data.
  pose proof (on_alloc_staged w _ (16 * n) (or_intror eq_refl) Hi ltac:(lia)) as Ha.
  destruct (on_alloc w _) as [[p w1]| | |]; mred; try done. destruct Ha as (S1 & Hp & E1 & _).
  rewrite (proj2 (Z.eqb_neq _ _) Hp). cbn [andb]. set (w2 := with_cpu_data w1 []). assert (staged w w2) as S2 by (destruct S1; by split).
  pose proof (make_cpu_data_ok (Z.to_nat n) w2 (sg_inv _ _ S2)) as Hm. destruct (make_cpu_data _ w2) as [w'| | |]; try done.
  destruct Hm as (S3 & E3 & L3). split; [by eapply staged_trans|]. split; [by rewrite E3|].
  destruct (lookup_lt_is_Some_2 (cpu_data_list w') (Z.to_nat me)) as [d Hd]; [rewrite L3; simpl; lia|].
  exists d. apply arr_get_Ok_iff. by split; [lia|].
Qed.
End Stages.

(** ** The whole start *)

(** Facts that hold on one view of an allocator and carry over to another. *)
Lemma loaded_on {A} (H1 H2 : Allocator A) (s s2 : fs A) us :
  @loaded A H1 s us -> @store_ok A H2 s2 -> objs s2 = objs s -> root_dentry s2 = root_dentry s -> @loaded A H2 s2 us.
Proof.
  intros [[_ L1] L2 L3 L4 L5] Hs Ho Hr. split; [split; [done|by rewrite Ho, Hr]|..]; try rewrite Ho, Hr; done.
Qed.

Lemma run_ok_on {A} (H1 H2 : Allocator A) me (w : world A) c ys xs zs :
  (@alloc_inv A H1 (alloc (w_k w)) -> @alloc_inv A H2 (alloc (w_k w))) ->
  (forall p, @live A H1 (alloc (w_k w)) p -> @live A H2 (alloc (w_k w)) p) ->
  @run_ok A H1 me w c ys xs zs -> @run_ok A H2 me w c ys xs zs.
Proof.
  intros Hi Hl [R1 R2 R3 R4 R5 R6 R7 R8 R9 R10 R11 R12].
  assert (forall l us, @is_list A H1 (w_k w) l us -> @is_list A H2 (w_k w) l us) as Hus.
  { intros l us [I1 I2 I3 I4 I5]. split; auto. }
  split; auto.
Qed.

Section Init.
Context {D : Type} `{Device D}.
Context (me : Z) (junk_thread : thread_t) (junk_list : cpu_task_list_t) (junk : nat -> Z).
Context (kernel_size kernel_stack rsp : Z) (st : stubs) (syscall_entry_asm idle_loop : Z).
Context (cpu_data_addr garbage : Z) (O_RDONLY O_WRONLY : Z) (fuel : nat).
Implicit Types (k : kernel heap D) (m : machine D) (l : limine).

(** The kernel when the screen is cleared and nothing else is set up. *)
Definition on_black l m : kernel heap D := on_screen (init_fb (lm_fb l)) (cli (mc_k m)).

(** A machine the boot loader has prepared: its answers are complete, the archive [ms]
    is loaded, the ACPI tables list the processors [ids] and this one is among them;
    the kernel's variables have their initial values and the devices answer. *)
Record boot_ok l m (offset : Z) (memmap memmap' : list limine_memmap_entry) (p : pmm) (F : gset Z)
    (ms : list member) (ids : list Z) : Prop := {
  bt_info : base_revision_supported (lm_info l) = true /\ (exists n, framebuffer_count (lm_info l) = Some n /\ 1 <= n) /\
    hhdm_response (lm_info l) = Some offset /\ memmap_response (lm_info l) = Some memmap;
  bt_memory : boot_memory offset memmap memmap' p F (lm_kernel_paddr l) (lm_kernel_vaddr l) kernel_size rsp
    (enable_sse (mc_control m)) (on_this_cpu (on_black l m));
  bt_archive : exists tar more, lm_modules l = Some (tar :: more) /\ tar_of tar ms /\ Z.of_nat (length tar) < 2 ^ 62;
  bt_members : archive_ok [] ms;
  bt_tables : forall s, hhdm_offset s = offset -> tables_ok (acpi_on (mc_acpi m) s) (lm_rsdp l) ids;
  bt_cpus : has_cpus (mc_acpi m) [] /\ (length ids <= 16)%nat /\ 0 <= me < Z.of_nat (length ids) /\ me < lm_cpu_count l <= 2 ^ 32;
  bt_blank : k_objs (mc_k m) = ∅ /\ w_files (k_w (mc_k m)) = ∅ /\ locked (next_tid_lock (k_w (mc_k m))) = 0 /\
    locked (next_pid_lock (k_w (mc_k m))) = 0 /\ 0 <= next_tid (k_w (mc_k m)) < 2 ^ 62;
  bt_idt : length (mc_idt m) = 256%nat /\ stubs_ok st;
  bt_devices : forall d : D, (exists d', kbd_init fuel d = Ok d') /\ exists d', wait_rtc fuel d = Ok d'
}.

(** The file system and the heap under it, once the archive is loaded. *)
Record files_up (e : Z * Z * Z) k (ms : list member) : Prop := {
  fu_loaded : @loaded heap (heap_at e) (get_fs k) ms;
  fu_vm : w_vm (k_w k) = h_vm (kernel_heap k)
}.

Lemma start_memory_ok l m offset memmap memmap' p F ms ids :
  boot_ok l m offset memmap memmap' p F ms ids ->
  exists c' h', start_memory kernel_size rsp l (enable_sse (mc_control m)) (on_black l m)
      = Ok (c', set_w (set_heap (on_black l m) h') (Sched.with_vm (k_w (set_heap (on_black l m) h')) (h_vm h') (Boot.cr3 c'))) /\
    heap_inv h' /\ (forall q, ~ heap_live h' q) /\ hhdm_offset (h_vm h') = offset /\ hhdm_ok (h_vm h').
Proof.
  intros [(_ & _ & B1 & B2) B3 _ _ _ _ _ _ _]. destruct (boot_memory_ok _ _ _ _ _ _ _ _ _ _ _ B3) as (c' & h' & E & Hh).
  exists c', h'. split; [|done]. unfold start_memory. rewrite B1, B2. mred. rewrite E. done.
Qed.

Lemma start_files_ok e l k tar more ms :
  lm_modules l = Some (tar :: more) -> tar_of tar ms -> archive_ok [] ms -> Z.of_nat (length tar) < 2 ^ 62 ->
  heap_inv (kernel_heap k) -> heap_env (kernel_heap k) = e -> k_objs k = ∅ ->
  match start_files junk l k with
  | Ok k' => files_up e k' ms /\ exists s, k' = sync_vm (set_fs k s)
  | Halt => True
  | _ => False
  end.
Proof.
  intros Hl Ht Hm Hlen Hi He Ho. unfold start_files. rewrite Hl.
  assert (@store_ok heap (heap_at e) (get_fs k)) as Hs.
  { split; [by split|]. cbn [get_fs objs]. rewrite Ho. intros q [x Hx]. by rewrite lookup_empty in Hx. }
  assert (objs (get_fs k) !! 0 = None) as H0 by (cbn [get_fs objs]; rewrite Ho; apply lookup_empty).
  pose proof (@vfs_init_ok heap (heap_at e) junk no_console (get_fs k) tar more ms Hs H0 Ht Hm Hlen) as Hv.
  change (@vfs_init heap (heap_at e)) with (@vfs_init heap heap_allocator) in Hv.
  destruct (vfs_init junk no_console _ (get_fs k)) as [s| | |]; mred; try done. split; [|by exists s].
  split; [|done]. by destruct s.
Qed.

Lemma start_acpi_ok e l a k ms ids :
  files_up e k ms -> tables_ok (acpi_on a (w_vm (k_w k))) (lm_rsdp l) ids -> has_cpus a [] -> (length ids <= 16)%nat ->
  match start_acpi l a k with
  | Ok (a', k') => files_up e k' ms /\ has_cpus a' ids /\ (exists li, madt_ok (amem a') (s_madt a') li) /\ k' = share_vm k (a_vm a')
  | Halt => True
  | _ => False
  end.
Proof.
  intros [Hld Hvm] Ht Hc Hn. unfold start_acpi. destruct (ld_fs _ _ Hld) as [[[Hi He] Hl] Htree]. cbn in Hi, He, Hl.
  change (alloc (w_k (k_w k))) with (kernel_heap k) in Hi, He, Hl.
  pose proof (acpi_init_ok (lm_rsdp l) (acpi_on a (w_vm (k_w k))) ids Ht Hc) as Ha. cbn [acpi_on a_vm] in Ha.
  rewrite Hvm in Ha |- *. specialize (Ha (heap_vm_ok _ Hi) Hn).
  destruct (acpi_init _ _) as [a'| | |]; mred; try done. destruct Ha as (A1 & A2 & _ & A4).
  split; [|done]. destruct (heap_revm _ _ Hi A2) as (R1 & R2 & R3). split; [|done].
  apply (loaded_on (heap_at e) (heap_at e) (get_fs k)); try done. split; [split; [done|by rewrite <-He]|].
  cbn [share_vm set_heap get_fs objs fs_alloc]. intros q Hq. apply R2. by apply Hl.
Qed.

(** *** The scheduler and what comes before it *)

Definition gates_up (idt : list idt_entry_t) : Prop :=
  forall v, 0 <= v < 256 ->
    let '(ty, h) := handler_of st v in
    exists g, idt !! Z.to_nat v = Some g /\ type_attributes g = ty /\ selector g = 8 /\
      idt_ist g = (if v =? INT_SCHEDULER then 1 else 0) /\ (0 <= h < 2 ^ 64 -> gate_offset g = h).

(** This processor's segments and the stack system calls and interrupts switch to. *)
Definition segments_up (w : world heap) : Prop :=
  exists g, arr_get (gdt_list (w_gdt w)) me = Ok g /\ rsp0 (tss g) = u64 (kernel_stack + Boot.KERNEL_STACK_SIZE) /\
    exists a, entries g = entries (local_gdt a).

Lemma start_interrupts_ok a idt k :
  (exists li, madt_ok (amem a) (s_madt a) li) -> length idt = 256%nat -> stubs_ok st ->
  exists idt' d, start_interrupts st garbage a idt k = Ok (idt', set_clock k d (k_now k)) /\ gates_up idt'.
Proof.
  intros (li & [M1 M2 M3 M4]) Hl Hs. unfold start_interrupts.
  rewrite !(fun irq => acpi_remap_irq_correct irq a li M1 M2 M3 M4). mred.
  match goal with |- context [intr_init st garbage ?x ?y ?f idt ?d] =>
    destruct (intr_init_ok st garbage x y f idt d Hl Hs) as (idt' & d' & -> & Hg) end.
  mred. by exists idt', d'.
Qed.

(** The blocks of the files, which the scheduler's are apart from. *)
Definition file_blocks k : list Z := elements (dom (k_objs k)).
Definition beside (e : Z * Z * Z) k : Allocator heap := @framed heap (heap_at e) (file_blocks k).

Lemma files_beside e k ms : files_up e k ms -> @alloc_inv heap (beside e k) (kernel_heap k).
Proof.
  intros [Hld _]. destruct (ld_fs _ _ Hld) as [[Hi Hl] _]. split; [exact Hi|].
  unfold file_blocks. intros q Hq%elem_of_elements%elem_of_dom. by apply Hl.
Qed.

(** The state in which the first program can be started. *)
Record ready_to_run k (ms : list member) : Prop := {
  rr_exec : exists c i n1 n2 n3 q t x F, exec_ready me k c [(n3, i); (n2, t)] [] [(n1, q)] x F /\ up (k_w k) c t i;
  rr_files : loaded (get_fs k) ms;
  rr_segments : segments_up (k_w k)
}.

(** From the scheduler's state beside the files to one that can start programs. *)
Lemma ready_beside e k0 k ms w c p t i n1 n2 n3 d dt :
  files_up e k0 ms -> (exists o r n, e = (o, r, n) /\ 0 <= o /\ n * PAGE_SIZE + o <= 18446744073709551616) ->
  k_objs k = k_objs k0 -> k_root k = k_root k0 ->
  @run_ok heap (beside e k0) me w c [(n3, i); (n2, t)] [] [(n1, p)] -> @files_live heap (beside e k0) w -> up w c t i ->
  segments_up w -> ready_to_run (set_clock (sync_vm (set_w k w)) d dt) ms.
Proof.
  intros Hfu (o & r & n & -> & Ho & Hn) Hobj Hroot Hrun Hfl Hup Hseg.
  pose proof (il_inv _ _ _ (ro_threads _ _ _ _ _ _ Hrun)) as [[Hi He] HS]. cbn in Hi, He.
  assert (forall q, is_Some (k_objs k0 !! q) -> q ∈ file_blocks k0) as Hin.
  { intros q Hq. unfold file_blocks. by apply elem_of_elements, elem_of_dom. }
  assert (forall q, is_Some (k_objs k !! q) -> heap_live (alloc (w_k w)) q) as Hlive.
  { intros q Hq. apply HS, Hin. by rewrite <-Hobj. }
  assert (@run_ok heap heap_allocator me (k_w (set_clock (sync_vm (set_w k w)) d dt)) c [(n3, i); (n2, t)] [] [(n1, p)]) as Hrun'.
  { pose proof (run_ok_on (beside (o, r, n) k0) heap_allocator me w c _ _ _ (fun _ => Hi) (fun q Hq => proj1 Hq) Hrun) as Hr.
    destruct Hr as [R1 R2 R3 R4 R5 R6 R7 R8 R9 R10 R11 R12]. by constructor. }
  destruct (free_pages_exists (vm_pmm (h_vm (alloc (w_k w))))) as (F & HF). destruct (heap_vm_ok _ Hi) as [Ht Hp].
  split; [| |exact Hseg].
  - pose proof Hup as (Hc & (x & Hx & Hname & _) & _).
    exists c, i, n1, n2, n3, p, t, x, F. split; [|exact Hup]. constructor; try done.
    + rewrite Hc. split; [exact Hx|]. by rewrite Hname.
    + assert (forall q, q ∈ kernel_blocks (set_clock (sync_vm (set_w k w)) d dt) c [(n3, i); (n2, t)] [] [(n1, p)] ->
        heap_live (alloc (w_k w)) q /\ q ∉ file_blocks k0) as Hkb.
      { intros q [Hq|Hq%elem_of_elements%elem_of_dom]%elem_of_app; [by apply (ro_live _ _ _ _ _ _ Hrun)|by apply Hfl]. }
      split; [split; [split; [exact Hi|intros q Hq; by apply Hkb]|]|].
      * intros q Hq. split; [by apply Hlive|]. intros Hk%Hkb. apply (proj2 Hk), Hin. rewrite <-Hobj. exact Hq.
      * cbn. rewrite Hobj, Hroot. exact (proj2 (ld_fs _ _ (fu_loaded _ _ _ Hfu))).
    + unfold heap_env, vm_env in He. injection He as E1 E2 E3.
      change (hhdm_ok (h_vm (alloc (w_k w)))). unfold hhdm_ok. by rewrite E1, E3.
  - apply (loaded_on (heap_at (o, r, n)) heap_allocator (get_fs k0)); [apply Hfu|split; [exact Hi|exact Hlive]|done|done].
Qed.

(** The machine before the scheduler is set up: files, tables and processor data
    are there, beside each other in the heap. *)
Record tables_up m (e : Z * Z * Z) k0 (ms : list member) (ids : list Z) : Prop := {
  tu_files : files_up e k0 ms;
  tu_env : exists o r n, e = (o, r, n) /\ 0 <= o /\ n * PAGE_SIZE + o <= 18446744073709551616;
  tu_objs : k_objs (mc_k m) = k_objs k0 /\ k_root (mc_k m) = k_root k0;
  tu_inv : @alloc_inv heap (beside e k0) (kernel_heap (mc_k m));
  tu_live : @files_live heap (beside e k0) (k_w (mc_k m));
  tu_locks : locked (next_tid_lock (k_w (mc_k m))) = 0 /\ locked (next_pid_lock (k_w (mc_k m))) = 0 /\
    0 <= next_tid (k_w (mc_k m)) < 2 ^ 62;
  tu_segments : segments_up (k_w (mc_k m));
  tu_data : exists d, arr_get (cpu_data_list (k_w (mc_k m))) me = Ok d;
  tu_gates : gates_up (mc_idt m);
  tu_cpus : has_cpus (mc_acpi m) ids
}.

Lemma verify_ok l m offset memmap memmap' p F ms ids :
  boot_ok l m offset memmap memmap' p F ms ids -> verify_boot_environment (lm_info l) = Ok tt.
Proof.
  intros [(B1 & (n & B2 & Hn) & B3 & B4) _ _ _ _ _ _ _ _]. unfold verify_boot_environment. rewrite B1, B2, B3, B4.
  cbn [negb]. by rewrite (proj2 (Z.ltb_ge n 1)).
Qed.

Lemma start_machine_ok l m offset memmap memmap' p F ms ids :
  boot_ok l m offset memmap memmap' p F ms ids ->
  match start_machine me junk kernel_size kernel_stack rsp st syscall_entry_asm cpu_data_addr garbage l m with
  | Ok m' => exists e k0, tables_up m' e k0 ms ids
  | Halt => True
  | _ => False
  end.
Proof.
  intros HB. unfold start_machine. rewrite (verify_ok _ _ _ _ _ _ _ _ _ HB). mred. fold (on_black l m).
  destruct (start_memory_ok _ _ _ _ _ _ _ _ _ HB) as (c' & h' & -> & Hi & Hnl & Hoff & [Hh1 Hh2]). mred.
  set (k1 := set_w _ _). set (e := heap_env h').
  destruct HB as [_ _ (tar & more & B3 & B4 & B5) B6 B7 (B8 & B9 & B10 & B11) (B12 & B13 & B14 & B15 & B16) (B17 & B18) B19].
  pose proof (start_files_ok e l k1 tar more ms B3 B4 B6 B5 Hi eq_refl B12) as Hf.
  destruct (start_files junk l k1) as [k2| | |]; mred; try done. destruct Hf as (Hf & s & Ek2).
  assert (hhdm_offset (w_vm (k_w k2)) = offset) as Hoff2.
  { rewrite (fu_vm _ _ _ Hf). pose proof (ld_fs _ _ (fu_loaded _ _ _ Hf)) as [[[_ He] _] _]. cbn in He.
    change (heap_env (kernel_heap k2) = e) in He. unfold heap_env, e, vm_env in He. injection He as He _ _. by rewrite He. }
  pose proof (start_acpi_ok e l (mc_acpi m) k2 ms ids Hf (B7 _ Hoff2) B8 B9) as Ha.
  destruct (start_acpi l (mc_acpi m) k2) as [[a k3]| | |]; mred; try done. destruct Ha as (Hf3 & Hc & Hmadt & Ek3).
  pose proof (files_beside e k3 ms Hf3) as Hi3. set (HA := beside e k3) in *.
  assert (@files_live heap HA (k_w k3)) as Hfl3.
  { intros q. rewrite Ek3, Ek2. cbn. rewrite B13. intros [x Hx]. by rewrite lookup_empty in Hx. }
  unfold on_world. pose proof Hc as (Hcnt & _).
  pose proof (@start_gdt_ok heap HA me kernel_stack (g_acpi_cpu_count a) (k_w k3) Hi3 ltac:(lia) ltac:(lia)) as Hg.
  change (@start_gdt heap HA) with (@start_gdt heap heap_allocator) in Hg.
  destruct (start_gdt me kernel_stack _ (k_w k3)) as [w4| | |]; mred; try done. destruct Hg as (S4 & Hseg4). cbn [set_w k_w].
  pose proof (@init_smp_data_ok heap HA me (lm_cpu_count l) w4 (sg_inv _ _ S4) ltac:(lia) ltac:(lia)) as Hd.
  change (@init_smp_data heap HA) with (@init_smp_data heap heap_allocator) in Hd.
  destruct (init_smp_data _ w4) as [w5| | |]; mred; try done. destruct Hd as (S5 & Eg5 & Hd5).
  match goal with |- context [start_interrupts st garbage a (mc_idt m) ?x] => set (k6 := x) end.
  destruct (start_interrupts_ok a (mc_idt m) k6 Hmadt B17 B18) as (idt' & d & -> & Hgates). mred. exists e, k3.
  pose proof (@staged_trans heap HA _ _ _ S4 S5) as [SI SC SF]. destruct SC as (_ & _ & C1 & C2 & C3 & _).
  constructor; cbn [mc_k mc_idt mc_acpi]; try done.
  - unfold e, heap_env, vm_env. by exists (hhdm_offset (h_vm h')), (kernel_pml4 (h_vm h')), (total_pages (vm_pmm (h_vm h'))).
  - by apply SF.
  - change (locked (next_tid_lock w5) = 0 /\ locked (next_pid_lock w5) = 0 /\ 0 <= next_tid w5 < 2 ^ 62).
    rewrite C1, C2, C3, Ek3, Ek2. done.
  - change (segments_up w5). unfold segments_up. rewrite Eg5. exact Hseg4.
Qed.

Lemma start_devices_ok k :
  (forall d : D, (exists d', kbd_init fuel d = Ok d') /\ exists d', wait_rtc fuel d = Ok d') ->
  exists d dt, start_devices fuel k = Ok (set_clock k d dt).
Proof.
  intros Hd. unfold start_devices. destruct (Hd (k_dev k)) as [(d1 & ->) _]. mred. unfold init_rtc, rtc_read_datetime.
  destruct (Hd d1) as [_ (d2 & ->)]. mred. repeat case_match; mred; by eexists _, _.
Qed.

Lemma kernel_initialize_ok l m offset memmap memmap' p F ms ids :
  boot_ok l m offset memmap memmap' p F ms ids -> block_channel junk_thread = 0 ->
  match kernel_initialize me junk_thread junk_list junk kernel_size kernel_stack rsp st syscall_entry_asm idle_loop
          cpu_data_addr garbage O_RDONLY O_WRONLY fuel l m with
  | Ok m' => ready_to_run (mc_k m') ms /\ gates_up (mc_idt m') /\ has_cpus (mc_acpi m') ids
  | Halt => True
  | _ => False
  end.
Proof.
  intros HB Hj. unfold kernel_initialize. pose proof (start_machine_ok _ _ _ _ _ _ _ _ _ HB) as Hm.
  destruct (start_machine _ _ _ _ _ _ _ _ _ l m) as [m1| | |]; mred; try done. destruct Hm as (e & k0 & [U1 U2 [U3 U4] U5 U6 (U7 & U8 & U9) U10 U11 U12 U13]).
  pose proof U13 as (Hcnt & _). destruct HB as [_ _ _ _ _ (_ & B9 & B10 & _) _ _ B19]. unfold on_world.
  pose proof (@init_multitasking_ok heap (beside e k0) me junk_thread junk_list kernel_stack idle_loop O_RDONLY O_WRONLY (k_w (mc_k m1))
    (g_acpi_cpu_count (mc_acpi m1)) ltac:(lia) ltac:(lia) U11 ltac:(destruct U10 as (g & ? & _); by exists g) U5 U7 U8 U9 Hj) as Ht.
  change (@init_multitasking heap (beside e k0)) with (@init_multitasking heap heap_allocator) in Ht.
  destruct (init_multitasking _ _ _ _ _ _ _ _ (k_w (mc_k m1))) as [w| | |]; mred; try done.
  destruct Ht as (Hfl & Hg & c & q & t & i & n1 & n2 & n3 & Hrun & Hup).
  destruct (start_devices_ok (sync_vm (set_w (mc_k m1) w)) B19) as (d & dt & ->). mred. cbn [mc_k mc_idt mc_acpi].
  split; [|done]. apply (ready_beside e k0 (mc_k m1) ms w c q t i n1 n2 n3); try done; [by apply Hfl|].
  unfold segments_up. rewrite Hg. exact U10.
Qed.

(** *** The first program *)

(** The clock shows a date: what is read can be printed. *)
Definition clock_ok : Prop :=
  forall (d d' : D) dt dt', rtc_read_datetime fuel dt d = Ok (dt', d') -> exists text dt'', datetime_to_str dt' = Ok (text, dt'').

(** Clearing the screen and reading the clock leave the rest alone. *)
Lemma exec_ready_screen f k d dt c ys xs zs t F :
  exec_ready me k c ys xs zs t F -> exec_ready me (set_clock (on_screen f k) d dt) c ys xs zs t F.
Proof. intros [[] E2 E3 E4 E5 E6 E7]. constructor; done. Qed.

Lemma sti_on k : interrupts_on (w_cpu (k_w (sti k))) = true.
Proof. change (Z.testbit (Z.lor (rflags (w_cpu (k_w k))) IF_bit) 9 = true). by rewrite Z.lor_spec, orb_true_r. Qed.

Lemma kmain_start_ok l m offset memmap memmap' p F ms ids elf phs entry :
  boot_ok l m offset memmap memmap' p F ms ids -> block_channel junk_thread = 0 -> name junk_thread <> IDLE_THREAD -> clock_ok ->
  mk_member [] (tail init_elf) (Some elf) ∈ ms -> Z.of_nat (length elf) < 2 ^ 62 -> program_ok elf phs entry ->
  0 < entry < 18446744073709551616 -> Forall (fun ph => seg_last ph <= stack_bottom) phs ->
  match kernel_initialize me junk_thread junk_list junk kernel_size kernel_stack rsp st syscall_entry_asm idle_loop
          cpu_data_addr garbage O_RDONLY O_WRONLY fuel l m with
  | Ok m1 => exists G, free_pages (vm_pmm (w_vm (k_w (mc_k m1)))) G /\ ((exec_pages phs <= size G)%nat ->
      match kmain_start me junk_thread junk_list junk kernel_size kernel_stack rsp st syscall_entry_asm idle_loop
              cpu_data_addr garbage O_RDONLY O_WRONLY fuel l m with
      | Ok (r, m2) => exists w c ys zs n t q pr y x,
          run_ok me (k_w (mc_k m2)) c ((n, t) :: ys) [] ((q, pr) :: zs) /\ started elf phs entry w (k_w (mc_k m2)) t pr y x /\
          rp_pid r = s32 (pid x) /\ rp_cpus r = Z.of_nat (length ids) /\ interrupts_on (w_cpu (k_w (mc_k m2))) = true
      | Halt => True
      | _ => False
      end)
  | Halt => True
  | _ => False
  end.
Proof.
  intros HB Hj Hn Hclk Hin Hlen Hpr He Hseg. pose proof (kernel_initialize_ok _ _ _ _ _ _ _ _ _ HB Hj) as Hk.
  unfold kmain_start. destruct HB as [(_ & (nf & B1 & B2) & _ & B4) _ _ _ _ _ _ _ B9]. rewrite B1, B4. mred.
  rewrite (proj2 (Z.ltb_ge nf 1)) by done.
  destruct (kernel_initialize _ _ _ _ _ _ _ _ _ _ _ _ _ _ _ l m) as [m1| | |]; mred; try done.
  destruct Hk as ([(c & i & n1 & n2 & n3 & q & t & x & G & Hex & Hup) Hld _] & _ & Hc).
  exists G. split; [apply Hex|]. intros HG. set (k1 := on_screen Video.clear_screen (mc_k m1)).
  unfold now. destruct (rtc_read_datetime fuel (k_now k1) (k_dev k1)) as [[dt d]| | |] eqn:Ert.
  2,3,4: exfalso; unfold rtc_read_datetime in Ert; destruct (B9 (k_dev k1)) as [_ (d' & Ew)]; rewrite Ew in Ert; cbn in Ert;
    repeat case_match; discriminate Ert.
  mred. destruct (Hclk _ _ _ _ Ert) as (text & dt2 & ->). mred.
  destruct (ld_file _ _ Hld _ elf Hin eq_refl) as (de & Hw & Hb).
  pose proof (execute_ok me junk_thread junk O_RDONLY O_WRONLY Hn (set_clock k1 d dt2) c _ _ _ x G init_elf de elf phs entry
    (exec_ready_screen _ _ d dt2 _ _ _ _ _ _ Hex) HG eq_refl Hw Hb Hlen Hpr He Hseg) as Hx.
  destruct (execute_elf _ _ _ _ _ init_elf _) as [[pid k']| | |]; mred; try done.
  destruct Hx as (n & pt & mq & pq & y & x' & Hrun & _ & Hst & _ & -> & _).
  eexists _, c, _, _, n, pt, mq, pq, y, x'. cbn [mc_k rp_pid rp_cpus]. split; [destruct Hrun; by constructor|].
  split; [destruct Hst; by constructor|]. split; [done|]. split; [apply Hc|apply sti_on].
Qed.
End Init.

(** ** Properties *)



(** *** A machine of 32 MiB with one processor and one program

    [kernel_initialize] evaluates to [Ok] on it ([vm_compute], about a minute), which
    is too long to repeat here. *)

(** Its devices: the keyboard controller is idle and the clock shows 01.01.01. *)
#[local] Instance quiet : Device unit := {|
  out8 _ _ d := d;
  in8 p d := (if p =? PORT_CMOS_DATA then 1 else 0, d);
  mmio_out32 _ _ d := d;
  mmio_in32 _ d := (0, d)
|}.

(** RSDP, RSDT and MADT at the start of the direct map. *)
Definition boot_tables_bytes : list Z :=
  [82; 83; 68; 32; 80; 84; 82; 32] ++ [1] ++ replicate 6 0 ++ [0] ++ [64; 0; 0; 0] ++ replicate 44 0
  ++ [82; 83; 68; 84; 40; 0; 0; 0] ++ replicate 28 0 ++ [128; 0; 0; 0] ++ replicate 24 0 ++ sample_madt.
Definition boot_acpi : acpi :=
  mk_acpi (h_vm boot_heap) (fun x => nth (Z.to_nat (x - boot_offset)) boot_tables_bytes 0) 0 (replicate 16 0) 0 0 0 0 0 0.

(** The archive: [init.elf] alone. *)
Definition boot_member : member := mk_member [] (tail init_elf) (Some sample_elf).
Definition boot_tar : list Z :=
  sample_header (tail init_elf) ([49; 55; 52] ++ [0]) TAR_TYPE_NORMAL ++ sample_elf ++ replicate 388 0 ++ replicate 512 0.

Definition boot_limine : limine :=
  mk_limine (mk_boot true (Some 1) (Some boot_offset) (Some boot_memmap)) sample_fb (Some [boot_tar]) boot_offset 1
    16777216 boot_kvaddr.
Definition boot_world : world heap :=
  mk_world (mk_kstate boot_heap ∅ ∅) ∅ ∅ ∅ ∅ [] [] (h_vm boot_heap) 0 (mk_gdt_state [] 0 None) (fun _ => 0)
    1 1 (mk_safe_lock 0) (mk_safe_lock 0) (mk_cpu 514) 0.
Definition boot_machine : machine unit :=
  mk_machine (mk_control 0 0 0)
    (mk_kernel boot_world ∅ 0 0 (mk_kbd [] 0 0 0 [] []) (mk_safe_lock 0) 0 boot_term (fun _ => 0) tt (mk_datetime 0 0 0 0 0 0 0))
    boot_acpi (replicate 256 (mk_idt_entry 0 0 0 0 0 0 0)) ∅.

Lemma boot_heap_on_cpu : on_this_cpu (on_black boot_limine boot_machine) = boot_heap.
Proof. reflexivity. Qed.

Lemma boot_memory_sample : exists p,
  boot_memory boot_offset boot_memmap [mk_entry 5120 33549312 0] p (list_to_set (seqZ 1 8190)) 16777216 boot_kvaddr 8192
    (boot_kvaddr + 256) (enable_sse (mk_control 0 0 0)) boot_heap.
Proof.
  destruct boot_allocator as (p & Hb & Hp & HF & Ht). exists p.
  constructor; [exact Hb|exact Hp|exact HF|apply boot_tables|apply boot_layout|apply boot_ram|..].
  - rewrite size_list_to_set by apply NoDup_seqZ. rewrite length_seqZ. vm_compute. lia.
  - rewrite size_list_to_set by apply NoDup_seqZ. rewrite length_seqZ. lia.
  - rewrite Ht. unfold PAGE_SIZE, DIRECT_TOP. lia.
  - right. reflexivity.
  - reflexivity.
Qed.

Lemma boot_tar_of : tar_of boot_tar [boot_member].
Proof.
  apply (tar_member _ (replicate 388 0) _ boot_member); [|done|done|by apply tar_end; right].
  apply (sample_header_ok _ [49; 55; 52]); try done; [simpl; lia|simpl; lia|repeat constructor; done|by left].
Qed.

Lemma boot_archive_ok : archive_ok [] [boot_member].
Proof.
  assert (component_ok (tail init_elf)) as Hc by (by apply component_ok_dec). split; [|done]. unfold member_fits.
  split; [by apply List.Forall_cons|]. split; [by left|]. split; [by apply not_elem_of_nil|]. vm_compute. lia.
Qed.

Lemma boot_madt_ok : madt_ok (amem boot_acpi) (boot_offset + 128) [boot_offset + 172; boot_offset + 180; boot_offset + 190].
Proof.
  split; [discriminate|discriminate|reflexivity|].
  apply chain_entry; [reflexivity|split; reflexivity|discriminate|reflexivity|].
  apply chain_entry; [reflexivity|split; reflexivity|discriminate|reflexivity|].
  apply chain_entry; [reflexivity|split; reflexivity|discriminate|reflexivity|].
  apply chain_end. discriminate.
Qed.

Lemma boot_tables_ok s : hhdm_offset s = boot_offset -> tables_ok (acpi_on boot_acpi s) boot_offset [7].
Proof.
  intros Hs. split; [reflexivity|discriminate|reflexivity|]. unfold rsdt_tables, hhdm. cbn [acpi_on a_vm amem]. rewrite Hs.
  assert (is_madt (amem boot_acpi) (boot_offset + 128)) as Hm by (right; reflexivity). split.
  - apply Exists_cons_hd. exact Hm.
  - exists [[7]]. split; [|reflexivity]. apply List.Forall2_cons; [|apply List.Forall2_nil]. unfold table_cpus.
    rewrite decide_True by exact Hm. eexists. split; [exact boot_madt_ok|reflexivity].
Qed.

Lemma quiet_devices (d : unit) : (exists d', kbd_init 1 d = Ok d') /\ exists d', wait_rtc 1 d = Ok d'.
Proof. split; by exists d. Qed.

Lemma quiet_clock : clock_ok (D := unit) 1.
Proof. intros d d' dt dt' Hr. injection Hr as <- <-. eexists _, _. reflexivity. Qed.

Lemma boot_sample_ok : exists p,
  boot_ok 0 8192 (boot_kvaddr + 256) sample_stubs 1 boot_limine boot_machine boot_offset boot_memmap [mk_entry 5120 33549312 0] p
    (list_to_set (seqZ 1 8190)) [boot_member] [7].
Proof.
  destruct boot_memory_sample as (p & Hm). exists p. constructor.
  - split; [reflexivity|]. split; [by exists 1|]. by split.
  - rewrite boot_heap_on_cpu. exact Hm.
  - exists boot_tar, []. split; [reflexivity|]. split; [apply boot_tar_of|vm_compute; reflexivity].
  - apply boot_archive_ok.
  - apply boot_tables_ok.
  - split; [by split_and!|]. simpl. lia.
  - simpl. split_and!; try reflexivity; lia.
  - split; [reflexivity|]. unfold stubs_ok. simpl. split_and!; lia.
  - apply quiet_devices.
Qed.


